(* ===== verification/_CoqProject ===== *)
-Q . S2P
Prelude.v
Protocol.v
Linux.v
Kernel.v
Sample.v
Command.v
BlockDev.v
CharDev.v
CharDevProps.v
Invariant.v
StepsIO.v
StepsReport.v
StepsDev.v
System.v
Wakeups.v
Closing.v
Segments.v
Interleaving.v
Races.v
Zoned.v
ZonedInv.v
ZonedProps.v
Backing.v
LibBius.v
LibBiusProps.v
DataMapping.v
PageLayout.v
MappingProps.v
MappingSample.v
MappedIO.v
MappedReply.v
MappedFaults.v
Machine.v
RamDisk.v
Passthrough.v
BlkTest.v
BlkTestProps.v
EndToEnd.v
MappedMachine.v
MappedEndToEnd.v
Threads.v
ZonedLocks.v
ZonedErase.v
ZonedRely.v
ZonedThreads.v
ZonedRuns.v
Statistics.v
ZonedDriver.v
ModuleEntry.v
