(* ===== verification/Prelude.v ===== *)
(** * BIUS: block devices in user space

    The program has a kernel module, a user-space library and example drivers.
    A client's request enters the module from blk-mq ([kernel/block_dev.c]) and is
    put on the pending list of its device.  A thread of the driver process, inside
    the library ([library/libbius.c]), reads the request's header and payload from
    [/dev/bius] ([kernel/char_dev.c], [kernel/command.h]), calls the driver's
    operation, and writes a reply that completes the request.  The examples
    implement the operations on an array ([ramdisk.c]), on a file or block device
    ([passthrough.c]), and as a zoned device on either ([zoned-common.h],
    [zoned-ramdisk.c], [zoned-passthrough.c]).

    ** How the code is modelled

    C functions are computations of the monad [ST] (this file): they return a
    value and a new state, or reach a fault (a dangling pointer, the wrong arm of
    a union, an access out of bounds, an uninitialised variable, signed overflow), or
    run out of fuel.  Faults are outcomes, not assumptions: that an operation does not
    fault is a theorem ([wp]).  Integers are [Z] with the wrap-around of their
    width written out ([wrap], [swrap]).  A heap object is an entry of a finite
    map at its address, an intrusive list the list of the addresses on it.  What
    is not under src/ is a class with its documented behaviour as laws, and an
    instance the witnesses run on: the block layer's bios, [iov_iter] and the
    constants of Linux ([Linux.v]), the C library and system calls of a process
    ([LibBius.v]), the file a driver works on ([Passthrough.v]), the file the test
    client tests ([BlkTest.v]).  Waiting is the end of a run (fuel [NoFuel]) or a list of
    wake-ups; the wait queues are in [Wakeups.v].  The operations of the module run to
    their ends one by one ([System.v]), and arrivals, reads and writes in halves that
    interleave, split where they hold a request between two critical sections
    ([Interleaving.v]).  The loops that end the requests of a list read the successor of a
    request from the store after ending it ([Kernel.v:list_for_each_entry]), with what
    others do in between as a parameter.
    The zoned device is modelled one operation at a time and also with its locks, as
    threads that interleave after every access ([Threads.v]).

    ** The files

    - [Protocol.v]: [include/bius/]: request types, status codes, the headers
      with their byte layout and round trips.
    - [Linux.v]: the interfaces of Linux.  [Kernel.v]: the data of the module
      ([request.h], [connection.h], [block_dev.h]), its store [kstate], ending and
      finding requests.  [Sample.v]: a concrete store.
    - [Command.v]: [command.h]: headers and payloads out, read data in.
    - [BlockDev.v]: [block_dev.c]: arrival, zone reports, creation, lookup, removal.
    - [CharDev.v]: [char_dev.c]: open, read, write, release.
      [CharDevProps.v]: what each of them does, on every branch.
    - [Invariant.v], [StepsIO.v], [StepsReport.v], [StepsDev.v], [System.v]: the
      module as a transition system [kreachable], its invariant [kinv], and that every
      operation keeps it, zone reports (asked for, answered, returning) included.
      [Wakeups.v]: the readers that sleep on the wait queues ([wreachable]).
      [Closing.v]: what is left when every connection has been closed.
    - [Segments.v]: the operations in halves, each of which keeps the invariant while
      others hold requests of their own.  [Interleaving.v]: threads that run the halves
      in any order ([ireachable]).  [Races.v]: where that goes wrong.
    - [Zoned.v], [ZonedInv.v], [ZonedProps.v]: [zoned-common.h] over a class of raw
      operations ([RawOps]): the zone state machine, its invariant, its operations.
    - [Threads.v]: programs of threads with spin locks, their runs, and how locks
      that protect parts of a state are reasoned about.  [ZonedLocks.v]: the
      operations of [zoned-common.h] as such programs.  [ZonedErase.v]: without other
      threads they are those of [Zoned.v].  [ZonedRely.v], [ZonedThreads.v]: what the
      locks protect, and that every operation keeps to it.  [ZonedRuns.v]: what
      holds of all runs.  [Statistics.v]: the signal handler of [zoned-ramdisk.c].
    - [Backing.v]: a driver's memory and disk (class [Store]) and what a driver of
      plain reads and writes promises (class [BackingLaws]).  [RamDisk.v],
      [Passthrough.v]: the drivers, and that they keep the promise.
    - [LibBius.v], [LibBiusProps.v]: the library over a class of processes.
    - [DataMapping.v]: [data_mapping.c] and what [CONFIG_BIUS_DATAMAP] changes in
      [char_dev.c] and [command.h]; its store [mstate] adds a page table and the
      connections' area and reserved pages to [kstate].  [PageLayout.v]: which pages
      and entries a request should get, as a function of its segments.
      [MappingProps.v]: [bius_map_data] realises that layout.  [MappedIO.v]: what the
      process sees of a mapped request.  [MappedReply.v]: copying in and unmapping.
      [MappedFaults.v]: setting up the area, and the errors.  [MappingSample.v]: a
      concrete machine.
    - [Machine.v]: module, library and the operations of a driver put together as
      one machine, and what a round of the library does around the driver's call.
      [EndToEnd.v]: any driver that keeps the promise of [BackingLaws] on it.
      [ZonedDriver.v]: the operations of [get_zoned_operations] on it, and
      what [main] of the zoned drivers sets up.
    - [MappedMachine.v]: the machine with [CONFIG_BIUS_DATAMAP]: the process reads
      and writes the area through the page table.  [MappedEndToEnd.v]: large
      requests on it, for any driver that keeps the promise of [BackingLaws].
    - [BlkTest.v], [BlkTestProps.v]: [blktest.c] over a class of files, and a file
      on the disk of a driver as an instance.
    - [ModuleEntry.v]: [main.c], [bius_dev_init] and [bius_dev_exit].

    ** What the theorems show

    The whole: a client's write ends up in the driver's disk, byte for byte, a
    read returns the disk's bytes, and what one client wrote another reads
    ([write_reaches_disk], [read_reaches_client], [client_write_then_read]); the
    threads of a driver serve one device ([threads_share_device]).  The module, for
    operations that satisfy [StepsIO.v:kop_ok] (supported requests, successful
    creations under new names, replies to reports that fit, no report killed, failed or
    closed before its answer): in every reachable state each request in flight is on
    exactly one list, has an id of its own, and is completed exactly once, and no
    operation faults ([system_invariant], [system_no_fault], [requests_end_once]); no
    wake-up of a reader is lost ([no_wakeup_lost]); a zone report sleeps exactly while a
    list holds it, leaves no pointer behind when it has been answered, and does when it is
    killed before ([report_returns_when_answered]); when the drivers die with no report on
    its way, closing their connections ends every request and removes every device
    ([closing_ends_everything]); each operation's effect, and each error's.  With several
    threads, one per connection, operations that satisfy [kop_ok], and no request on its
    way to a device whose last connection closes: the invariant holds in every
    interleaving of the halves, none faults, and all threads can finish in any order
    ([interleaving_invariant], [interleaving_no_fault], [interleaving_settles]); that the
    halves in sequence are the operations is a lemma ([halves_run_whole]).  The zoned device: the invariant of zones and counters, write
    pointers that only writes at them advance, limits on open zones, resets.  The
    library: payloads are complete under short reads, lists of segments are handled
    in order, missing operations are answered.  The drivers: transfers are complete
    under short transfers.  Zoned devices behind the library: an append
    tells the client where its data went and a read of that place returns them, a
    write off the write pointer is refused, zone management requests reach
    the zones, and the callback of a zone report sees every zone
    ([append_then_read], [misplaced_write_refused], [zone_request_runs],
    [zone_report_reaches_callback]).  Loading and unloading: what loading set up is
    taken down ([load_unload]).  The zoned
    theorems are for configurations in [ZonedInv.v:cfg_ok], up to 1 TiB.  Threads: however
    the operations interleave, other than a reset of all zones, no access faults and the
    invariant of the zones holds whenever no lock is taken ([threads_keep_invariant]); when
    all zones may be open at once every run ends with all requests served
    ([threads_finish]); an uninterrupted thread computes what [Zoned.v] says (lemma
    [worker_alone]).  Data mapping: a large
    write with at most 256 partly covered pages reaches the driver's disk through the mapped pages and a large read of one
    stretch comes back through them ([mapped_write_reaches_disk],
    [mapped_read_reaches_client], [mapped_write_then_read]), on the area that a
    thread of the library maps when it starts ([library_maps_area]).  They rest on
    what the process sees of a mapped request ([mapped_read_shows_payload]) and on
    copying in ([mapped_read_round_trip]).  The test client: its hard test returns
    0 only when the device holds what was written, and does so on a device that
    works ([client_sound], [client_passes]).  And where the code goes wrong, a theorem says how:
    a failed creation ([bius_dev_write_create_failure_uninit]), a zone report larger
    than its buffer ([bius_dev_write_report_overflow]), or one that a negative number
    makes too large ([report_negative_reply_overreads]), killed or failed zone
    reports, requests that arrive and processes that connect while a device is being
    removed ([arrival_races_removal], [connect_races_removal],
    [ghost_removes_namesake]), requests answered while their data is sent
    ([answer_races_sending]), tags used again while a list is walked
    ([reused_tag_derails_closing], [reused_tag_cuts_removal]), a name read from a disk
    that has been given up ([remove_block_device_ends_pending]), a status that does not fit ([bius_dev_write_status_truncated]), zones
    opened at the limit ([zoned_open_at_limit_leaks]), end of file taken for a
    request ([eof_replays_write]), thread errors lost ([bius_main_returns_errors]),
    reads of several stretches copied to the wrong place
    ([mapped_list_read_misplaced]), reserved pages that run out
    ([bius_map_data_overflows]), a connection without an area
    ([reply_without_area_faults]), a module whose loading fails half way
    ([failed_load_leaks]), spin locks taken in opposite orders at the limit of open
    zones ([open_at_limit_deadlocks]), a reset of all zones without their locks
    ([reset_all_races]), a signal handler that takes a lock its thread holds
    ([sigint_deadlocks]), a test whose arithmetic overflows
    ([simple_test_overflows]) and that sees only what a read returned
    ([simple_test_checks_prefix]).

    ** Bounds and fuel

    Loops have fuel from a measure the theorems show sufficient: the payload loops
    run at most once per byte left (each round moves a byte), the scan over zones
    once per zone, the list of segments once per page of the mapping area, the
    list of a mapped request once per entry the reserved pages hold
    ([copy_in_fuel]).  [wp]
    demands a result, so running out of fuel is excluded wherever [wp] is proved.
    The endless loop of the library takes its number of rounds as an argument and
    never returns, for any number.

    ** Not modelled

    - Of data mapping: flushes of caches and TLBs, the flags of the area, and
      accesses of the process while a request is being mapped.  What a driver stores
      in the area reaches the pages when its operation ends, and the buffer of the
      library lies outside the area.
    - Interleavings of the module inside its critical sections, which its spin locks
      exclude, and inside the parts between them, which touch the thread's own request
      and connection only; with several threads on one connection they may touch the
      same, and [Races.v] shows where.  Opening, closing, creating and connecting are one
      step in [Interleaving.v]: what can come in between is in [Races.v], one interruption
      at a time.  [put_disk] is an event: whether it frees the disk depends on who else has
      it open.  Of the locks of [zoned-common.h]: memory accesses are sequentially
      consistent.
    - [utils.h]: message macros; [kernel.patch]: an export of symbols; the makefiles.
    - In the system invariant, a zone report that meets an error, a kill or the removal of
      its device: the code is wrong there (see the theorems on them), and [kop_ok] leaves
      these cases out. *)

From stdpp Require Export base gmap list list_numbers numbers strings fin_maps.
From Stdlib Require Export ZArith Lia.

Open Scope Z_scope.

(** ** Computations that may fault

    The code is C: an operation returns a value, or reaches a point the C
    standard (or the kernel's own rules) leaves undefined.  The faults are kept
    apart so that a theorem can name the one that occurs. *)

Inductive fault :=
  | NullDeref      (** a NULL pointer is dereferenced *)
  | DanglingPtr    (** an address that is no live object is dereferenced *)
  | UnionMix       (** a member of the inactive arm of a union is accessed *)
  | OutOfBounds    (** an array is accessed outside its bounds *)
  | UninitRead     (** an uninitialised variable is read *)
  | SignedOverflow. (** the result of a signed operation is not of its type *)

#[export] Instance fault_eq_dec : EqDecision fault.
Proof. solve_decision. Defined.

Inductive outcome (A : Type) :=
  | Ret (a : A)
  | Fault (f : fault)
  | NoFuel.
Arguments Ret {A} _.
Arguments Fault {A} _.
Arguments NoFuel {A}.

(** State passing with faults, an instance of stdpp's monad notations. *)
Definition ST (S A : Type) : Type := S -> outcome (A * S).

#[export] Instance ST_ret {S} : MRet (ST S) := fun A a s => Ret (a, s).
#[export] Instance ST_bind {S} : MBind (ST S) := fun A B f m s =>
  match m s with
  | Ret (a, s') => f a s'
  | Fault e => Fault e
  | NoFuel => NoFuel
  end.

Section state_ops.
Context {S : Type}.
Definition gets {A} (f : S -> A) : ST S A := fun s => Ret (f s, s).
Definition modify (f : S -> S) : ST S unit := fun s => Ret (tt, f s).
Definition fail {A} (e : fault) : ST S A := fun _ => Fault e.
Definition exhausted {A} : ST S A := fun _ => NoFuel.
(** [deref f o]: the object at the end of a pointer, or the fault [f]. *)
Definition deref {A} (f : fault) (o : option A) : ST S A :=
  match o with Some a => mret a | None => fail f end.
End state_ops.

(** [wp m Q s]: run from [s], [m] returns without a fault, in a state and with
    a value that satisfy [Q].  [wlp] leaves faults out of account. *)
Definition wp {S A} (m : ST S A) (Q : A -> S -> Prop) (s : S) : Prop :=
  match m s with Ret (a, s') => Q a s' | _ => False end.
Definition wlp {S A} (m : ST S A) (Q : A -> S -> Prop) (s : S) : Prop :=
  match m s with Ret (a, s') => Q a s' | _ => True end.

Section wp_rules.
Context {S : Type}.
Implicit Types s : S.

Lemma wp_ret {A} (a : A) Q s : Q a s -> wp (mret a) Q s.
Proof. done. Qed.
Lemma wp_bind {A B} (m : ST S A) (f : A -> ST S B) Q s :
  wp m (fun a s' => wp (f a) Q s') s -> wp (m ≫= f) Q s.
Proof. unfold wp, mbind, ST_bind. by destruct (m s) as [[a s']| |]. Qed.
Lemma wp_gets {A} (f : S -> A) Q s : Q (f s) s -> wp (gets f) Q s.
Proof. done. Qed.
Lemma wp_modify (f : S -> S) Q s : Q tt (f s) -> wp (modify f) Q s.
Proof. done. Qed.
Lemma wp_deref {A} e (o : option A) a Q s :
  o = Some a -> Q a s -> wp (deref e o) Q s.
Proof. by intros ->. Qed.
Lemma wp_mono {A} (m : ST S A) (P Q : A -> S -> Prop) s :
  wp m P s -> (forall a s', P a s' -> Q a s') -> wp m Q s.
Proof. unfold wp. destruct (m s) as [[a s']| |]; eauto. Qed.
Lemma bind_ret {A B} (m : ST S A) (f : A -> ST S B) s a s' :
  m s = Ret (a, s') -> (m ≫= f) s = f a s'.
Proof. intros Hm. unfold mbind, ST_bind. by rewrite Hm. Qed.
Lemma wp_eq {A} (m m' : ST S A) Q s : m s = m' s -> wp m' Q s -> wp m Q s.
Proof. unfold wp. by intros ->. Qed.
Lemma wp_inv {A} (m : ST S A) Q s :
  wp m Q s -> exists a s', m s = Ret (a, s') /\ Q a s'.
Proof. unfold wp. destruct (m s) as [[a s']| |]; naive_solver. Qed.
Lemma wp_intro {A} (m : ST S A) (Q : A -> S -> Prop) s a s' :
  m s = Ret (a, s') -> Q a s' -> wp m Q s.
Proof. unfold wp. by intros ->. Qed.
Lemma wp_wlp {A} (m : ST S A) Q s : wp m Q s -> wlp m Q s.
Proof. unfold wp, wlp. by destruct (m s) as [[a s']| |]. Qed.

Lemma wlp_ret {A} (a : A) (Q : A -> S -> Prop) s : Q a s -> wlp (mret a) Q s.
Proof. done. Qed.
Lemma wlp_bind {A B} (m : ST S A) (f : A -> ST S B) Q s :
  wlp m (fun a s' => wlp (f a) Q s') s -> wlp (m ≫= f) Q s.
Proof. unfold wlp, mbind, ST_bind. by destruct (m s) as [[a s']| |]. Qed.
Lemma wlp_gets {A} (f : S -> A) (Q : A -> S -> Prop) s : Q (f s) s -> wlp (gets f) Q s.
Proof. done. Qed.
Lemma wlp_modify (f : S -> S) (Q : unit -> S -> Prop) s : Q tt (f s) -> wlp (modify f) Q s.
Proof. done. Qed.
Lemma wlp_fail {A} e (Q : A -> S -> Prop) s : wlp (fail e) Q s.
Proof. done. Qed.
Lemma wlp_deref {A} e (o : option A) (Q : A -> S -> Prop) s :
  (forall a, o = Some a -> Q a s) -> wlp (deref e o) Q s.
Proof. destruct o; naive_solver. Qed.
Lemma wlp_mono {A} (m : ST S A) (P Q : A -> S -> Prop) s :
  wlp m P s -> (forall a s', P a s' -> Q a s') -> wlp m Q s.
Proof. unfold wlp. destruct (m s) as [[a s']| |]; eauto. Qed.
Lemma wlp_elim {A} (m : ST S A) Q s a s' :
  wlp m Q s -> m s = Ret (a, s') -> Q a s'.
Proof. unfold wlp. intros H E. by rewrite E in H. Qed.

(** [m] does not fault, and what it returns satisfies [Q]; it may sleep. *)
Definition safe {A} (m : ST S A) (Q : A -> S -> Prop) (s : S) : Prop :=
  match m s with Ret (a, s') => Q a s' | NoFuel => True | Fault _ => False end.
Lemma wp_safe {A} (m : ST S A) Q s : wp m Q s -> safe m Q s.
Proof. unfold wp, safe. by destruct (m s) as [[a s']| |]. Qed.
Lemma safe_seq {A B} (m : ST S A) (f : A -> ST S B) Q s :
  safe m (fun a s' => safe (f a) Q s') s -> safe (m ≫= f) Q s.
Proof. unfold safe, mbind, ST_bind. by destruct (m s) as [[a s']| |]. Qed.
Lemma safe_weaken {A} (m : ST S A) (P Q : A -> S -> Prop) s :
  safe m P s -> (forall a s', P a s' -> Q a s') -> safe m Q s.
Proof. unfold safe. destruct (m s) as [[a s']| |]; eauto. Qed.
End wp_rules.

(** One step of a [wp] or [wlp] goal, by the head of the computation. *)
Ltac wp_step :=
  lazymatch goal with
  | |- wp (mret _) _ _ => apply wp_ret
  | |- wp (_ ≫= _) _ _ => apply wp_bind
  | |- wp (gets _) _ _ => apply wp_gets
  | |- wp (modify _) _ _ => apply wp_modify
  | |- wp (deref _ _) _ _ => eapply wp_deref; [eassumption|]
  | |- wlp (mret _) _ _ => apply wlp_ret
  | |- wlp (_ ≫= _) _ _ => apply wlp_bind
  | |- wlp (gets _) _ _ => apply wlp_gets
  | |- wlp (modify _) _ _ => apply wlp_modify
  | |- wlp (fail _) _ _ => apply wlp_fail
  | |- wlp (deref _ _) _ _ => apply wlp_deref; intros ??
  end; cbv beta.
Ltac wp_steps := repeat wp_step.

(** ** Machine integers: a [w]-bit unsigned value is a [Z] in [0, 2^w), a signed
    one a [Z] in [-2^(w-1), 2^(w-1)). *)

Definition wrap (w z : Z) : Z := z mod 2 ^ w.
Definition swrap (w z : Z) : Z := (z + 2 ^ (w - 1)) mod 2 ^ w - 2 ^ (w - 1).
Abbreviation u8 := (wrap 8).
Abbreviation u32 := (wrap 32).
Abbreviation u64 := (wrap 64).
Abbreviation s32 := (swrap 32).
Abbreviation s64 := (swrap 64).

Lemma wrap_range w z : 0 <= w -> 0 <= wrap w z < 2 ^ w.
Proof. intros. apply Z.mod_pos_bound. lia. Qed.
Lemma wrap_small w z : 0 <= z < 2 ^ w -> wrap w z = z.
Proof. apply Z.mod_small. Qed.
Lemma wrap_idemp w z : wrap w (wrap w z) = wrap w z.
Proof. apply Zmod_mod. Qed.
Lemma swrap_range w z : 0 < w -> - 2 ^ (w - 1) <= swrap w z < 2 ^ (w - 1).
Proof.
  intros. unfold swrap.
  pose proof (Z.mod_pos_bound (z + 2 ^ (w - 1)) (2 ^ w) ltac:(lia)).
  replace (2 ^ w) with (2 * 2 ^ (w - 1)) in *; [lia|].
  rewrite <- Z.pow_succ_r by lia. f_equal; lia.
Qed.
Lemma swrap_small w z : 0 < w -> - 2 ^ (w - 1) <= z < 2 ^ (w - 1) -> swrap w z = z.
Proof.
  intros. unfold swrap. rewrite Z.mod_small; [lia|].
  replace (2 ^ w) with (2 * 2 ^ (w - 1)); [lia|].
  rewrite <- Z.pow_succ_r by lia. f_equal; lia.
Qed.
(** Reading the bytes of a signed value back as signed loses nothing. *)
Lemma swrap_wrap w z : swrap w (wrap w z) = swrap w z.
Proof. unfold swrap, wrap. by rewrite Zplus_mod_idemp_l. Qed.
Lemma wrap_swrap w z : wrap w (swrap w z) = wrap w z.
Proof.
  unfold swrap, wrap. rewrite Zminus_mod_idemp_l. f_equal; lia.
Qed.

(** ** Little-endian bytes *)

Fixpoint le_bytes (n : nat) (z : Z) : list Z :=
  match n with
  | O => []
  | S n' => z mod 256 :: le_bytes n' (z / 256)
  end.
Fixpoint le_value (bs : list Z) : Z :=
  match bs with
  | [] => 0
  | b :: bs' => b + 256 * le_value bs'
  end.

Lemma length_le_bytes n z : length (le_bytes n z) = n.
Proof. revert z; induction n; simpl; auto. Qed.
Lemma le_value_bytes n z : le_value (le_bytes n z) = z mod 256 ^ Z.of_nat n.
Proof.
  revert z; induction n as [|n IH]; intros z.
  { simpl. by rewrite Z.mod_1_r. }
  cbn [le_bytes le_value]. rewrite IH, Nat2Z.inj_succ, Z.pow_succ_r by lia.
  rewrite (Z.rem_mul_r z 256) by lia. done.
Qed.
Definition is_byte (b : Z) : Prop := 0 <= b < 256.
Lemma le_bytes_range n z : Forall is_byte (le_bytes n z).
Proof.
  revert z; induction n; intros z; simpl; constructor; auto.
  apply Z.mod_pos_bound. lia.
Qed.
Lemma le_value_range bs : Forall is_byte bs -> 0 <= le_value bs < 256 ^ Z.of_nat (length bs).
Proof.
  induction 1 as [|b bs Hb _ IH]; [simpl; lia|].
  cbn [le_value length]. rewrite Nat2Z.inj_succ, Z.pow_succ_r by lia.
  unfold is_byte in Hb. nia.
Qed.
Lemma le_bytes_value bs : Forall is_byte bs -> le_bytes (length bs) (le_value bs) = bs.
Proof.
  induction 1 as [|b bs Hb _ IH]; [done|].
  unfold is_byte in Hb. cbn [length le_value le_bytes]. f_equal.
  - rewrite (Z.mul_comm 256), Z.mod_add by lia. by apply Z.mod_small.
  - rewrite (Z.mul_comm 256), Z.div_add by lia. by rewrite Z.div_small, Z.add_0_l.
Qed.

(** ** Memory: bytes at addresses.  A byte never written reads as 0. *)

Abbreviation memory := (gmap Z Z).

Definition mem_read (m : memory) (a n : Z) : list Z :=
  (fun i => default 0 (m !! (a + i))) <$> seqZ 0 n.
Fixpoint mem_write (m : memory) (a : Z) (bs : list Z) : memory :=
  match bs with
  | [] => m
  | b :: bs' => mem_write (<[a:=b]> m) (a + 1) bs'
  end.

Lemma length_mem_read m a n : length (mem_read m a n) = Z.to_nat n.
Proof. unfold mem_read. by rewrite length_fmap, length_seqZ. Qed.

Lemma mem_read_lookup m a n (i : nat) :
  Z.of_nat i < n -> mem_read m a n !! i = Some (default 0 (m !! (a + Z.of_nat i))).
Proof.
  intros. unfold mem_read. rewrite list_lookup_fmap, lookup_seqZ_lt by lia.
  simpl. by rewrite Z.add_0_l.
Qed.

Lemma mem_write_lookup m a bs x :
  mem_write m a bs !! x =
    if decide (a <= x < a + Z.of_nat (length bs)) then bs !! Z.to_nat (x - a) else m !! x.
Proof.
  revert m a; induction bs as [|b bs IH]; intros m a; cbn [mem_write length].
  { case_decide; [lia|done]. }
  rewrite IH. repeat case_decide; try lia; try done.
  - replace (Z.to_nat (x - a)) with (S (Z.to_nat (x - (a + 1)))) by lia. done.
  - assert (x = a) as -> by lia. rewrite lookup_insert_eq.
    replace (a - a) with 0 by lia. done.
  - rewrite lookup_insert_ne by lia. done.
Qed.

Lemma mem_write_outside m a bs x :
  x < a \/ a + Z.of_nat (length bs) <= x -> mem_write m a bs !! x = m !! x.
Proof. intros. rewrite mem_write_lookup. case_decide; [lia|done]. Qed.

Lemma mem_read_ext m m' a n :
  (forall x, a <= x < a + n -> m !! x = m' !! x) -> mem_read m a n = mem_read m' a n.
Proof.
  intros H. unfold mem_read. apply list_fmap_ext. intros ? i Hi.
  apply lookup_seqZ in Hi as [-> ?]. rewrite H by lia. done.
Qed.

Lemma mem_read_write_same m a bs n :
  n = Z.of_nat (length bs) -> mem_read (mem_write m a bs) a n = bs.
Proof.
  intros ->. apply list_eq. intros i.
  destruct (decide (i < length bs)%nat) as [Hi|Hi].
  - rewrite mem_read_lookup, mem_write_lookup by lia. case_decide; [|lia].
    replace (Z.to_nat (a + Z.of_nat i - a)) with i by lia.
    destruct (lookup_lt_is_Some_2 bs i Hi) as [b ->]. done.
  - rewrite !lookup_ge_None_2; [done|lia|]. rewrite length_mem_read. lia.
Qed.

Lemma mem_read_write_disjoint m a bs a' n :
  a' + n <= a \/ a + Z.of_nat (length bs) <= a' ->
  mem_read (mem_write m a bs) a' n = mem_read m a' n.
Proof. intros. apply mem_read_ext. intros. apply mem_write_outside. lia. Qed.

Lemma mem_read_app m a n1 n2 :
  0 <= n1 -> 0 <= n2 -> mem_read m a (n1 + n2) = mem_read m a n1 ++ mem_read m (a + n1) n2.
Proof.
  intros. apply list_eq. intros i.
  destruct (decide (Z.of_nat i < n1)).
  { rewrite lookup_app_l by (rewrite length_mem_read; lia).
    rewrite !mem_read_lookup by lia. done. }
  rewrite lookup_app_r by (rewrite length_mem_read; lia). rewrite length_mem_read.
  destruct (decide (Z.of_nat i < n1 + n2)).
  { rewrite !mem_read_lookup by lia. do 3 f_equal. lia. }
  rewrite !lookup_ge_None_2; rewrite ?length_mem_read; lia || done.
Qed.

Lemma mem_read_write_inside m a n off bs :
  0 <= off -> off + Z.of_nat (length bs) <= n ->
  mem_read (mem_write m (a + off) bs) a n =
    take (Z.to_nat off) (mem_read m a n) ++ bs ++
    drop (Z.to_nat (off + Z.of_nat (length bs))) (mem_read m a n).
Proof.
  intros. set (k := Z.of_nat (length bs)). replace n with (off + (k + (n - off - k))) by lia.
  rewrite !mem_read_app by lia. rewrite (mem_read_write_disjoint m _ bs a) by lia.
  rewrite (mem_read_write_disjoint m _ bs (a + off + k)) by lia. rewrite mem_read_write_same by lia. f_equal; [|f_equal].
  - rewrite take_app_le, take_ge; [done|rewrite length_mem_read; lia..].
  - rewrite app_assoc, drop_app_ge; rewrite length_app, !length_mem_read; [|lia].
    replace (Z.to_nat _ - _)%nat with 0%nat by lia. done.
Qed.

(** A read inside of a read. *)
Lemma mem_read_inside m a n off k pre mid post :
  0 <= n -> mem_read m a n = pre ++ mid ++ post -> off = Z.of_nat (length pre) -> k = Z.of_nat (length mid) ->
  mem_read m (a + off) k = mid.
Proof.
  intros Hn Hm -> ->. pose proof (f_equal length Hm) as Hl. rewrite length_mem_read, !length_app in Hl.
  replace n with (Z.of_nat (length pre) + (Z.of_nat (length mid) + Z.of_nat (length post))) in Hm by lia.
  rewrite mem_read_app in Hm by lia. apply app_inj_1 in Hm as [_ Hm]; [|rewrite length_mem_read; lia].
  rewrite mem_read_app in Hm by lia. apply app_inj_1 in Hm as [-> _]; [done|rewrite length_mem_read; lia].
Qed.

(** ** Automation

    [lens] computes the lengths of what bytes are put together from, and
    [solve_len] closes the arithmetic that is left. *)
Create HintDb lens.
#[export] Hint Rewrite @length_app @length_take @length_drop @length_replicate @length_fmap
  length_le_bytes length_mem_read : lens.
Ltac solve_len := autorewrite with lens; try done; simpl length in *; lia.

(** ** Lists *)

(** [list_del x l] unlinks the node [x] from the intrusive list [l]. *)
Definition list_del (x : Z) (l : list Z) : list Z := filter (fun y => y <> x) l.

Lemma elem_of_list_del x y l : y ∈ list_del x l <-> y ∈ l /\ y <> x.
Proof. unfold list_del. rewrite list_elem_of_filter. tauto. Qed.
Lemma NoDup_list_del x l : NoDup l -> NoDup (list_del x l).
Proof. apply NoDup_filter. Qed.
Lemma list_del_notin x l : x ∉ l -> list_del x l = l.
Proof.
  unfold list_del. induction l as [|y l IH]; [done|]. rewrite not_elem_of_cons.
  intros [Hne Hx]. rewrite filter_cons_True by done. by rewrite IH.
Qed.
Lemma list_del_head x l : NoDup (x :: l) -> list_del x (x :: l) = l.
Proof.
  intros [Hx _]%NoDup_cons. unfold list_del. rewrite filter_cons_False by auto.
  by apply list_del_notin.
Qed.
Lemma elem_of_concat_fmap {A B} (f : A -> list B) (l : list A) x :
  x ∈ concat (f <$> l) <-> exists y, y ∈ l /\ x ∈ f y.
Proof.
  induction l as [|y l IH]; simpl.
  - split; [by intros ?%elem_of_nil|]. intros (y & Hy & _). by apply elem_of_nil in Hy.
  - rewrite elem_of_app, IH. setoid_rewrite elem_of_cons. naive_solver.
Qed.
