(* ===== verification/Protocol.v ===== *)
(** * The kernel/user protocol

    [include/bius/]: request types, map types, block status codes, the compile
    time configuration, and the two headers that cross the character device
    with their byte layout. *)
From S2P Require Import Prelude.

(** ** Configuration and ABI constants ([config.h], [command_header.h]) *)

Definition PAGE_SIZE : Z := 4096.
Definition SECTOR_SHIFT : Z := 9.
Definition SECTOR_SIZE : Z := 512.
Definition BIUS_MAX_SEGMENTS : Z := 256.
Definition BIUS_MAX_SIZE_PER_COMMAND : Z := 128 * 1024 * 1024.
Definition BIUS_PTES_PER_COMMAND : Z := BIUS_MAX_SIZE_PER_COMMAND / PAGE_SIZE.
Definition BIUS_MAX_ZONE_SECTORS : Z := Z.shiftr (1 * 1024 * 1024 * 1024) SECTOR_SHIFT.
Definition BIUS_MAX_ZONES : Z := 128 * 1024.
Definition BIUS_MAP_DATA_THRESHOLD : Z := 128 * 1024.
Definition MAX_DISK_NAME_LEN : Z := 32.

(** Linux constants the sources use: [DISK_NAME_LEN] of [linux/genhd.h], errno
    values, [sizeof(struct blk_zone)]. *)
Definition DISK_NAME_LEN : Z := 32.
Definition EIO : Z := 5.
Definition ENOENT : Z := 2.
Definition ENOMEM : Z := 12.
Definition EINVAL : Z := 22.
Definition EINTR : Z := 4.
Definition ERESTARTSYS : Z := 512.
Definition sizeof_blk_zone : Z := 64.

(** ** Zone models ([enum blk_zoned_model]); like any C enum it can hold other values *)
Inductive blk_zoned_model := BLK_ZONED_NONE | BLK_ZONED_HA | BLK_ZONED_HM | BLK_ZONED_OTHER (v : Z).
Definition blk_zoned_model_value (m : blk_zoned_model) : Z :=
  match m with
  | BLK_ZONED_NONE => 0 | BLK_ZONED_HA => 1 | BLK_ZONED_HM => 2 | BLK_ZONED_OTHER v => v
  end.
Definition to_blk_zoned_model (v : Z) : blk_zoned_model :=
  if v =? 0 then BLK_ZONED_NONE else if v =? 1 then BLK_ZONED_HA
  else if v =? 2 then BLK_ZONED_HM else BLK_ZONED_OTHER v.
#[export] Instance blk_zoned_model_eq_dec : EqDecision blk_zoned_model.
Proof. solve_decision. Defined.

(** ** Block status codes ([blk_status.h]) *)
Definition BLK_STS_OK : Z := 0.
Definition BLK_STS_NOTSUPP : Z := 1.
Definition BLK_STS_TIMEOUT : Z := 2.
Definition BLK_STS_NOSPC : Z := 3.
Definition BLK_STS_TRANSPORT : Z := 4.
Definition BLK_STS_TARGET : Z := 5.
Definition BLK_STS_NEXUS : Z := 6.
Definition BLK_STS_MEDIUM : Z := 7.
Definition BLK_STS_PROTECTION : Z := 8.
Definition BLK_STS_RESOURCE : Z := 9.
Definition BLK_STS_IOERR : Z := 10.
Definition BLK_STS_AGAIN : Z := 12.
Definition BLK_STS_DEV_RESOURCE : Z := 13.
Definition BLK_STS_ZONE_RESOURCE : Z := 14.
Definition BLK_STS_ZONE_OPEN_RESOURCE : Z := 15.
Definition BLK_STS_ZONE_ACTIVE_RESOURCE : Z := 16.

(** ** Request types ([request_type.h], without [CONFIG_ZONE_DESC_EXT])

    A C enum holds any value of its underlying type: [BIUS_OTHER] is a value
    that is none of the enumerators. *)
Inductive bius_req :=
  | BIUS_CREATE | BIUS_CONNECT | BIUS_READ | BIUS_WRITE | BIUS_DISCARD
  | BIUS_IOCTL | BIUS_FLUSH | BIUS_REPORT_ZONES | BIUS_ZONE_OPEN
  | BIUS_ZONE_CLOSE | BIUS_ZONE_FINISH | BIUS_ZONE_APPEND | BIUS_ZONE_RESET
  | BIUS_ZONE_RESET_ALL
  | BIUS_OTHER (v : Z).
#[export] Instance bius_req_eq_dec : EqDecision bius_req.
Proof. solve_decision. Defined.

Definition bius_req_value (r : bius_req) : Z :=
  match r with
  | BIUS_CREATE => 0 | BIUS_CONNECT => 1 | BIUS_READ => 2 | BIUS_WRITE => 3
  | BIUS_DISCARD => 4 | BIUS_IOCTL => 5 | BIUS_FLUSH => 6
  | BIUS_REPORT_ZONES => 9 | BIUS_ZONE_OPEN => 10 | BIUS_ZONE_CLOSE => 11
  | BIUS_ZONE_FINISH => 12 | BIUS_ZONE_APPEND => 13 | BIUS_ZONE_RESET => 15
  | BIUS_ZONE_RESET_ALL => 17
  | BIUS_OTHER v => v
  end.

Definition bius_req_enumerators : list bius_req :=
  [BIUS_CREATE; BIUS_CONNECT; BIUS_READ; BIUS_WRITE; BIUS_DISCARD; BIUS_IOCTL;
   BIUS_FLUSH; BIUS_REPORT_ZONES; BIUS_ZONE_OPEN; BIUS_ZONE_CLOSE;
   BIUS_ZONE_FINISH; BIUS_ZONE_APPEND; BIUS_ZONE_RESET; BIUS_ZONE_RESET_ALL].

(** The conversion [(bius_req_t)v]. *)
Definition to_bius_req (v : Z) : bius_req :=
  default (BIUS_OTHER v) (list_find (fun r => bius_req_value r = v) bius_req_enumerators
                          ≫= fun ir => Some ir.2).

Definition BIUS_INVALID_OP : bius_req := BIUS_OTHER (u32 (-1)).

(** A representation of an enum value: enumerators are written by name. *)
Definition req_canonical (r : bius_req) : Prop :=
  to_bius_req (bius_req_value r) = r /\ 0 <= bius_req_value r < 2 ^ 32.
#[export] Instance req_canonical_dec r : Decision (req_canonical r).
Proof. apply _. Defined.

Lemma bius_req_value_to v : bius_req_value (to_bius_req v) = v.
Proof.
  unfold to_bius_req. destruct (list_find _ _) as [[i r]|] eqn:E; [|done].
  apply list_find_Some in E. simpl. tauto.
Qed.

Definition is_blk_request (type : bius_req) : bool := negb (bool_decide (type = BIUS_REPORT_ZONES)).
Definition request_may_have_data (type : bius_req) : bool :=
  bool_decide (type = BIUS_READ) || bool_decide (type = BIUS_WRITE)
  || bool_decide (type = BIUS_ZONE_APPEND).
Definition request_is_write (type : bius_req) : bool :=
  bool_decide (type = BIUS_WRITE) || bool_decide (type = BIUS_ZONE_APPEND).

Lemma request_is_write_may_have_data t : request_is_write t = true -> request_may_have_data t = true.
Proof. by destruct t. Qed.
Lemma request_may_have_data_blk t : request_may_have_data t = true -> is_blk_request t = true.
Proof. by destruct t. Qed.

(** ** Map types ([map_type.h]) *)
Inductive data_map_type := BIUS_DATAMAP_UNMAPPED | BIUS_DATAMAP_SIMPLE | BIUS_DATAMAP_LIST.
#[export] Instance data_map_type_eq_dec : EqDecision data_map_type.
Proof. solve_decision. Defined.
Definition data_map_type_value (t : data_map_type) : Z :=
  match t with
  | BIUS_DATAMAP_UNMAPPED => 0 | BIUS_DATAMAP_SIMPLE => 1 | BIUS_DATAMAP_LIST => 2
  end.

(** ** The headers ([command_header.h]) and their layout (LP64, little endian) *)

Record bius_k2u_header := K2U {
  k2u_id : Z;
  k2u_opcode : bius_req;
  k2u_offset : Z;
  k2u_length : Z;
  k2u_data_address : Z;
  k2u_mapping_data : Z;
  k2u_data_map_type : Z }.

Definition sizeof_k2u : Z := 56.

(** The object representation.  [pad1] and [pad2] are the padding bytes after
    [opcode] and [data_map_type], which C leaves unspecified. *)
Definition k2u_bytes (pad1 pad2 : list Z) (h : bius_k2u_header) : list Z :=
  le_bytes 8 (k2u_id h) ++ le_bytes 4 (bius_req_value (k2u_opcode h)) ++ pad1 ++
  le_bytes 8 (k2u_offset h) ++ le_bytes 8 (k2u_length h) ++
  le_bytes 8 (k2u_data_address h) ++ le_bytes 8 (k2u_mapping_data h) ++
  le_bytes 4 (k2u_data_map_type h) ++ pad2.

Definition field (bs : list Z) (off len : nat) : Z := le_value (take len (drop off bs)).

Definition k2u_of_bytes (bs : list Z) : bius_k2u_header :=
  {| k2u_id := field bs 0 8;
     k2u_opcode := to_bius_req (field bs 8 4);
     k2u_offset := field bs 16 8;
     k2u_length := field bs 24 8;
     k2u_data_address := field bs 32 8;
     k2u_mapping_data := field bs 40 8;
     k2u_data_map_type := s32 (field bs 48 4) |}.

(** The fields hold values of their C types. *)
Definition k2u_wf (h : bius_k2u_header) : Prop :=
  0 <= k2u_id h < 2 ^ 64 /\ req_canonical (k2u_opcode h) /\
  0 <= k2u_offset h < 2 ^ 64 /\ 0 <= k2u_length h < 2 ^ 64 /\
  0 <= k2u_data_address h < 2 ^ 64 /\ 0 <= k2u_mapping_data h < 2 ^ 64 /\
  - 2 ^ 31 <= k2u_data_map_type h < 2 ^ 31.

(** The anonymous union of [bius_u2k_header] is one 64-bit cell, [u2k_cell]:
    [reply] reads all of it, [u2k_type] and [u2k_length] its two halves. *)
Record bius_u2k_header := U2K {
  u2k_id : Z;
  u2k_cell : Z;
  u2k_user_data : Z }.

Definition sizeof_u2k : Z := 24.
Definition u2k_reply (h : bius_u2k_header) : Z := s64 (u2k_cell h).
Definition u2k_type (h : bius_u2k_header) : Z := u32 (u2k_cell h).
Definition u2k_length (h : bius_u2k_header) : Z := u32 (Z.shiftr (u2k_cell h) 32).
Definition u2k_with_reply (id reply user_data : Z) : bius_u2k_header :=
  {| u2k_id := id; u2k_cell := u64 reply; u2k_user_data := user_data |}.
Definition u2k_with_type (id type length user_data : Z) : bius_u2k_header :=
  {| u2k_id := id; u2k_cell := u32 type + Z.shiftl (u32 length) 32; u2k_user_data := user_data |}.

Definition u2k_bytes (h : bius_u2k_header) : list Z :=
  le_bytes 8 (u2k_id h) ++ le_bytes 8 (u2k_cell h) ++ le_bytes 8 (u2k_user_data h).
Definition u2k_of_bytes (bs : list Z) : bius_u2k_header :=
  {| u2k_id := field bs 0 8; u2k_cell := field bs 8 8; u2k_user_data := field bs 16 8 |}.
Definition u2k_wf (h : bius_u2k_header) : Prop :=
  0 <= u2k_id h < 2 ^ 64 /\ 0 <= u2k_cell h < 2 ^ 64 /\ 0 <= u2k_user_data h < 2 ^ 64.

(** [struct bius_block_device_options]; [opt_disk_name] are the 32 bytes of the array. *)
Record bius_block_device_options := Options {
  opt_model : blk_zoned_model;
  opt_num_threads : Z;
  opt_disk_size : Z;
  opt_max_open_zones : Z;
  opt_max_active_zones : Z;
  opt_disk_name : list Z }.

Definition sizeof_options : Z := 56.
Definition options_bytes (o : bius_block_device_options) : list Z :=
  le_bytes 4 (blk_zoned_model_value (opt_model o)) ++ le_bytes 4 (opt_num_threads o) ++
  le_bytes 8 (opt_disk_size o) ++ le_bytes 4 (opt_max_open_zones o) ++
  le_bytes 4 (opt_max_active_zones o) ++ opt_disk_name o.
Definition options_of_bytes (bs : list Z) : bius_block_device_options :=
  {| opt_model := to_blk_zoned_model (field bs 0 4);
     opt_num_threads := field bs 4 4;
     opt_disk_size := field bs 8 8;
     opt_max_open_zones := field bs 16 4;
     opt_max_active_zones := field bs 20 4;
     opt_disk_name := take (Z.to_nat MAX_DISK_NAME_LEN) (drop 24 bs) |}.
Definition options_wf (o : bius_block_device_options) : Prop :=
  to_blk_zoned_model (blk_zoned_model_value (opt_model o)) = opt_model o /\
  0 <= blk_zoned_model_value (opt_model o) < 2 ^ 32 /\ 0 <= opt_num_threads o < 2 ^ 32 /\
  0 <= opt_disk_size o < 2 ^ 64 /\ 0 <= opt_max_open_zones o < 2 ^ 32 /\
  0 <= opt_max_active_zones o < 2 ^ 32 /\ length (opt_disk_name o) = Z.to_nat MAX_DISK_NAME_LEN.

(** ** Round trips *)

(** A field is read by skipping the pieces before it. *)
Lemma field_skip bs1 bs2 off len :
  (length bs1 <= off)%nat -> field (bs1 ++ bs2) off len = field bs2 (off - length bs1) len.
Proof. intros. unfold field. by rewrite drop_app_ge. Qed.
Lemma field_here bs bs' len : len = length bs -> field (bs ++ bs') 0 len = le_value bs.
Proof. intros ->. unfold field. by rewrite drop_0, take_app_length. Qed.
Lemma field_le_bytes n z bs : field (le_bytes n z ++ bs) 0 n = z mod 256 ^ Z.of_nat n.
Proof. rewrite field_here by (by rewrite length_le_bytes). apply le_value_bytes. Qed.
Lemma field_le_bytes_end n z : field (le_bytes n z) 0 n = z mod 256 ^ Z.of_nat n.
Proof. rewrite <- (app_nil_r (le_bytes n z)). apply field_le_bytes. Qed.

Ltac field_simpl :=
  repeat (rewrite field_skip by (rewrite ?length_le_bytes; lia));
  match goal with
  | |- context [field _ ?o _] =>
      replace o with 0%nat by (rewrite ?length_le_bytes; lia)
  end;
  rewrite ?field_le_bytes, ?field_le_bytes_end.

Lemma length_k2u_bytes p1 p2 h :
  length p1 = 4%nat -> length p2 = 4%nat -> Z.of_nat (length (k2u_bytes p1 p2 h)) = sizeof_k2u.
Proof.
  intros H1 H2. unfold k2u_bytes. rewrite !length_app, !length_le_bytes, H1, H2. done.
Qed.
Lemma length_u2k_bytes h : Z.of_nat (length (u2k_bytes h)) = sizeof_u2k.
Proof. unfold u2k_bytes. by rewrite !length_app, !length_le_bytes. Qed.

(** The header the kernel copies out is the header the library reads back, for
    any value of the padding bytes. *)
Lemma k2u_of_bytes_bytes p1 p2 h :
  length p1 = 4%nat -> length p2 = 4%nat -> k2u_wf h -> k2u_of_bytes (k2u_bytes p1 p2 h) = h.
Proof.
  intros H1 H2 (Hid & [Hop Hopr] & Hoff & Hlen & Hda & Hmd & Hmt).
  unfold k2u_of_bytes, k2u_bytes. destruct h as [id op offs len da md mt].
  cbn [k2u_id k2u_opcode k2u_offset k2u_length k2u_data_address k2u_mapping_data
       k2u_data_map_type] in *.
  f_equal; field_simpl; try (apply Z.mod_small; assumption).
  - by rewrite Z.mod_small.
  - change (s32 (u32 mt) = mt). rewrite swrap_wrap. apply swrap_small; lia.
Qed.

Lemma u2k_of_bytes_bytes h : u2k_wf h -> u2k_of_bytes (u2k_bytes h) = h.
Proof.
  intros (Hid & Hc & Hu). unfold u2k_of_bytes, u2k_bytes.
  destruct h as [id c u]; cbn [u2k_id u2k_cell u2k_user_data] in *.
  f_equal; field_simpl; by apply Z.mod_small.
Qed.

(** Bytes after the header do not matter. *)
Lemma u2k_of_bytes_app h l : u2k_wf h -> u2k_of_bytes (u2k_bytes h ++ l) = h.
Proof.
  intros Hwf. rewrite <- (u2k_of_bytes_bytes h Hwf) at 2.
  pose proof (length_u2k_bytes h) as Hl. unfold sizeof_u2k in Hl.
  unfold u2k_of_bytes, field. f_equal; (rewrite drop_app_le by lia; rewrite take_app_le; [done|]);
    rewrite length_drop; lia.
Qed.

Lemma length_options_bytes o : options_wf o -> Z.of_nat (length (options_bytes o)) = sizeof_options.
Proof.
  intros (_ & _ & _ & _ & _ & _ & Hn). unfold options_bytes.
  rewrite !length_app, !length_le_bytes, Hn. done.
Qed.

Lemma options_of_bytes_bytes o : options_wf o -> options_of_bytes (options_bytes o) = o.
Proof.
  intros (Hm & Hmr & Hth & Hds & Hmo & Hma & Hn). unfold options_of_bytes, options_bytes.
  destruct o as [m th ds mo ma nm].
  cbn [opt_model opt_num_threads opt_disk_size opt_max_open_zones opt_max_active_zones
       opt_disk_name] in *.
  f_equal; try (field_simpl; by apply Z.mod_small).
  - field_simpl. by rewrite Z.mod_small.
  - do 5 (rewrite drop_app_ge by (rewrite ?length_le_bytes; lia)).
    rewrite !length_le_bytes, drop_0. apply take_ge. lia.
Qed.

(** What one side stores in the union the other reads from it. *)
Lemma u2k_reply_with_reply id r u : - 2 ^ 63 <= r < 2 ^ 63 -> u2k_reply (u2k_with_reply id r u) = r.
Proof. intros. unfold u2k_reply, u2k_with_reply; simpl. rewrite swrap_wrap. by apply swrap_small. Qed.
Lemma u2k_type_with_type id t l u :
  0 <= t < 2 ^ 32 -> u2k_type (u2k_with_type id t l u) = t.
Proof.
  intros. unfold u2k_type, u2k_with_type; cbn [u2k_cell].
  rewrite Z.shiftl_mul_pow2 by lia. unfold wrap. rewrite Z.mod_add, Zmod_mod by lia.
  by apply Z.mod_small.
Qed.
Lemma u2k_length_with_type id t l u :
  0 <= l < 2 ^ 32 -> u2k_length (u2k_with_type id t l u) = l.
Proof.
  intros. unfold u2k_length, u2k_with_type; cbn [u2k_cell].
  rewrite Z.shiftl_mul_pow2, Z.shiftr_div_pow2, Z.div_add by lia.
  rewrite (Z.div_small (u32 t)) by (apply wrap_range; lia).
  rewrite Z.add_0_l, wrap_idemp. by apply wrap_small.
Qed.
