(* ===== verification/Linux.v ===== *)
(** * The interfaces of Linux the kernel module is built on

    The module calls the block layer, the iov_iter API and copy_from_user.
    They are classes here: the operations with the part of their documented
    behaviour the proofs use as laws.  The instances at the end of the file
    satisfy the laws; the witnesses of the other files run on them. *)
From S2P Require Import Prelude Protocol.

(** ** Constants of the kernel headers *)
Class LinuxConst := {
  REQ_OP_READ : Z; REQ_OP_WRITE : Z; REQ_OP_FLUSH : Z; REQ_OP_DISCARD : Z;
  REQ_OP_ZONE_OPEN : Z; REQ_OP_ZONE_CLOSE : Z; REQ_OP_ZONE_FINISH : Z;
  REQ_OP_ZONE_APPEND : Z; REQ_OP_ZONE_RESET : Z; REQ_OP_ZONE_RESET_ALL : Z;
  blk_status_bits : Z  (** the width of the kernel's [blk_status_t] *)
}.

Class LinuxConstLaws `{LinuxConst} := {
  req_op_distinct :
    NoDup [REQ_OP_READ; REQ_OP_WRITE; REQ_OP_FLUSH; REQ_OP_DISCARD; REQ_OP_ZONE_OPEN;
           REQ_OP_ZONE_CLOSE; REQ_OP_ZONE_FINISH; REQ_OP_ZONE_APPEND; REQ_OP_ZONE_RESET;
           REQ_OP_ZONE_RESET_ALL];
  (** the zone operations have the numbers [request_type.h] gives them *)
  req_op_zone :
    [REQ_OP_ZONE_OPEN; REQ_OP_ZONE_CLOSE; REQ_OP_ZONE_FINISH; REQ_OP_ZONE_APPEND;
     REQ_OP_ZONE_RESET; REQ_OP_ZONE_RESET_ALL] =
    bius_req_value <$> [BIUS_ZONE_OPEN; BIUS_ZONE_CLOSE; BIUS_ZONE_FINISH;
                        BIUS_ZONE_APPEND; BIUS_ZONE_RESET; BIUS_ZONE_RESET_ALL];
  blk_status_width : 8 <= blk_status_bits <= 32
}.

(** ** Block I/O vectors

    A [bio_vec] names [bv_len] bytes from [bv_offset] of the page at
    [bv_page]; [page_address(bv_page)] is [bv_page] itself. *)
Record bio_vec := BioVec { bv_page : Z; bv_offset : Z; bv_len : Z }.
Definition bv_start (v : bio_vec) : Z := bv_page v + bv_offset v.
Definition bv_addrs (v : bio_vec) : list Z := seqZ (bv_start v) (bv_len v).

Class BioOps := {
  bio : Type;
  bi_size : bio -> Z;                      (** [bio->bi_iter.bi_size] *)
  mp_bvec_iter_bvec : bio -> bio_vec;      (** the current multi-page segment *)
  bio_advance_iter : bio -> Z -> bio;
  bio_for_each_segment : bio -> list bio_vec  (** the remaining single-page segments *)
}.

(** The bytes a bio still has to transfer, by address.  The current segment
    is a prefix of them, advancing drops a prefix, and the single-page segments
    enumerate them. *)
Class BioLaws `{BioOps} := {
  bio_extent : bio -> list Z;
  bio_size_extent b : bi_size b = Z.of_nat (length (bio_extent b));
  bio_cur_pos b : 0 < bi_size b -> 0 < bv_len (mp_bvec_iter_bvec b);
  bio_cur_extent b : 0 < bi_size b ->
    bv_addrs (mp_bvec_iter_bvec b) `prefix_of` bio_extent b;
  bio_advance_extent b n : 0 < bi_size b -> 0 <= n <= bv_len (mp_bvec_iter_bvec b) ->
    bio_extent (bio_advance_iter b n) = drop (Z.to_nat n) (bio_extent b);
  bio_segments_extent b : concat (bv_addrs <$> bio_for_each_segment b) = bio_extent b;
  bio_segments_len b : Forall (fun v => 0 <= bv_len v) (bio_for_each_segment b)
}.

(** ** iov_iter: the user buffers of a read or write call *)
Class IovOps := {
  iov_iter : Type;
  iov_iter_count : iov_iter -> Z;
  (** bytes copied (short when the user page faults) and the advanced iterator *)
  copy_to_iter : list Z -> iov_iter -> Z * iov_iter;
  copy_from_iter : Z -> iov_iter -> list Z * iov_iter
}.

(** [iov_avail] counts the bytes the user's buffer takes before it is full or
    its next page faults: [copy_to_iter] copies up to there. *)
Class IovLaws `{IovOps} := {
  iov_received : iov_iter -> list Z;       (** what the user's buffer holds so far *)
  iov_avail : iov_iter -> Z;
  iov_avail_range it : 0 <= iov_avail it <= iov_iter_count it;
  copy_to_iter_ret bs it :
    (copy_to_iter bs it).1 = Z.min (Z.of_nat (length bs)) (iov_avail it);
  copy_to_iter_avail bs it :
    iov_avail (copy_to_iter bs it).2 = iov_avail it - (copy_to_iter bs it).1;
  copy_to_iter_count bs it :
    iov_iter_count (copy_to_iter bs it).2 = iov_iter_count it - (copy_to_iter bs it).1;
  copy_to_iter_received bs it :
    iov_received (copy_to_iter bs it).2 =
      iov_received it ++ take (Z.to_nat (copy_to_iter bs it).1) bs;
  copy_from_iter_range n it :
    0 <= n -> Z.of_nat (length (copy_from_iter n it).1) <= n
}.

(** [copy_from_user um src n]: the prefix of the [n] bytes at [src] that could
    be read.  The C function returns how many are missing, and pads the
    destination with zeros. *)
Definition user_mem : Type := Z -> Z -> list Z.
Definition copy_from_user (um : user_mem) (src n : Z) : list Z := take (Z.to_nat n) (um src n).
(** [check_copy_size] refuses longer copies. *)
Definition INT_MAX : Z := 2 ^ 31 - 1.
Definition not_copied (um : user_mem) (src n : Z) : Z := n - Z.of_nat (length (copy_from_user um src n)).
Definition copied_padded (um : user_mem) (src n : Z) : list Z :=
  copy_from_user um src n ++ replicate (Z.to_nat (not_copied um src n)) 0.

(** The user's memory holds [bs] at [a]. *)
Definition user_holds (um : user_mem) (a : Z) (bs : list Z) : Prop :=
  forall i n, 0 <= i -> 0 <= n -> i + n <= Z.of_nat (length bs) ->
    um (a + i) n = take (Z.to_nat n) (drop (Z.to_nat i) bs).

Lemma length_copied_padded um a n : 0 <= n -> Z.of_nat (length (copied_padded um a n)) = n.
Proof.
  intros. unfold copied_padded, not_copied. rewrite length_app, length_replicate.
  unfold copy_from_user. rewrite length_take. lia.
Qed.

Lemma user_holds_copy um a bs i n :
  user_holds um a bs -> 0 <= i -> 0 <= n -> i + n <= Z.of_nat (length bs) ->
  copy_from_user um (a + i) n = take (Z.to_nat n) (drop (Z.to_nat i) bs).
Proof.
  intros H ???. unfold copy_from_user. rewrite H by done. rewrite take_take. f_equal; lia.
Qed.

Lemma user_holds_not_copied um a bs i n :
  user_holds um a bs -> 0 <= i -> 0 <= n -> i + n <= Z.of_nat (length bs) ->
  not_copied um (a + i) n = 0.
Proof.
  intros. unfold not_copied. erewrite user_holds_copy by done.
  rewrite length_take, length_drop. lia.
Qed.

Lemma user_holds_padded um a bs i n :
  user_holds um a bs -> 0 <= i -> 0 <= n -> i + n <= Z.of_nat (length bs) ->
  copied_padded um (a + i) n = take (Z.to_nat n) (drop (Z.to_nat i) bs).
Proof.
  intros. unfold copied_padded. erewrite user_holds_not_copied by done.
  erewrite user_holds_copy by done. by rewrite app_nil_r.
Qed.

(** ** Instances *)

(** Linux 5.10: [enum req_opf], and [typedef u8 blk_status_t]. *)
#[export] Instance linux_const : LinuxConst := {|
  REQ_OP_READ := 0; REQ_OP_WRITE := 1; REQ_OP_FLUSH := 2; REQ_OP_DISCARD := 3;
  REQ_OP_ZONE_OPEN := 10; REQ_OP_ZONE_CLOSE := 11; REQ_OP_ZONE_FINISH := 12;
  REQ_OP_ZONE_APPEND := 13; REQ_OP_ZONE_RESET := 15; REQ_OP_ZONE_RESET_ALL := 17;
  blk_status_bits := 8 |}.
#[export] Instance linux_const_laws : LinuxConstLaws.
Proof.
  split; simpl; [|done|lia]. apply (bool_decide_unpack _). vm_compute. done.
Qed.

(** A bio as the list of its segments; empty segments are skipped. *)
Definition seg_norm (b : list bio_vec) : list bio_vec := filter (fun v => 0 < bv_len v) b.
Fixpoint seg_advance (b : list bio_vec) (n : Z) : list bio_vec :=
  match b with
  | [] => []
  | v :: b' =>
      if n <? bv_len v then BioVec (bv_page v) (bv_offset v + n) (bv_len v - n) :: b'
      else seg_advance b' (n - bv_len v)
  end.
Definition seg_size (b : list bio_vec) : Z := foldr (fun v acc => bv_len v + acc) 0 b.

#[export] Instance seg_bio : BioOps := {|
  bio := list bio_vec;
  bi_size b := seg_size (seg_norm b);
  mp_bvec_iter_bvec b := default (BioVec 0 0 0) (head (seg_norm b));
  bio_advance_iter b n := seg_advance (seg_norm b) n;
  bio_for_each_segment := seg_norm |}.

Definition seg_extent (b : list bio_vec) : list Z := concat (bv_addrs <$> seg_norm b).

Lemma seg_norm_pos b : Forall (fun v => 0 < bv_len v) (seg_norm b).
Proof. unfold seg_norm. apply Forall_forall. intros v [? _]%list_elem_of_filter. done. Qed.
Lemma seg_norm_id b : Forall (fun v => 0 < bv_len v) b -> seg_norm b = b.
Proof.
  unfold seg_norm. induction 1 as [|v b Hv _ IH]; [done|].
  rewrite filter_cons_True by done. by rewrite IH.
Qed.
Lemma seg_size_length b :
  Forall (fun v => 0 < bv_len v) b ->
  seg_size b = Z.of_nat (length (concat (bv_addrs <$> b))).
Proof.
  induction 1 as [|v b Hv _ IH]; [done|]. cbn [seg_size foldr] in *.
  fold (seg_size b). rewrite IH, fmap_cons. cbn [concat]. rewrite length_app, Nat2Z.inj_add.
  unfold bv_addrs at 2. rewrite length_seqZ. lia.
Qed.
Lemma drop_seqZ m n k : 0 <= k -> drop (Z.to_nat k) (seqZ m n) = seqZ (m + k) (n - k).
Proof.
  intros. destruct (decide (k <= n)).
  - rewrite <- (Zplus_minus k n) at 1. rewrite seqZ_app by lia.
    rewrite drop_app_ge by (rewrite length_seqZ; lia).
    rewrite length_seqZ, Nat.sub_diag. done.
  - rewrite drop_ge by (rewrite length_seqZ; lia). rewrite (seqZ_nil _ (n - k)) by lia. done.
Qed.
Lemma seg_advance_extent b n :
  Forall (fun v => 0 < bv_len v) b -> 0 <= n ->
  Forall (fun v => 0 < bv_len v) (seg_advance b n) /\
  concat (bv_addrs <$> seg_advance b n) = drop (Z.to_nat n) (concat (bv_addrs <$> b)).
Proof.
  intros Hb; revert n; induction Hb as [|v b Hv Hb IH]; intros n Hn; simpl.
  { by rewrite drop_nil. }
  destruct (Z.ltb_spec n (bv_len v)); simpl.
  - split; [constructor; simpl; [lia|done]|].
    rewrite drop_app_le by (unfold bv_addrs; rewrite length_seqZ; lia).
    f_equal. unfold bv_addrs, bv_start; simpl. rewrite drop_seqZ by done. f_equal; lia.
  - destruct (IH (n - bv_len v)) as [? ->]; [lia|]. split; [done|].
    rewrite drop_app_ge by (unfold bv_addrs; rewrite length_seqZ; lia).
    unfold bv_addrs at 2. rewrite length_seqZ. f_equal. lia.
Qed.

#[export] Instance seg_bio_laws : BioLaws.
Proof.
  refine {| bio_extent := seg_extent : @bio seg_bio -> _ |}; simpl; unfold seg_extent.
  - intros b. apply seg_size_length, seg_norm_pos.
  - intros b Hb. pose proof (seg_norm_pos b) as Hp. destruct (seg_norm b); simpl in *; [lia|].
    by inversion Hp.
  - intros b Hb. destruct (seg_norm b) as [|v vs]; simpl in *; [lia|]. by eexists.
  - intros b n _ [Hn _]. destruct (seg_advance_extent (seg_norm b) n) as [H1 H2];
      [apply seg_norm_pos|done|]. by rewrite seg_norm_id.
  - done.
  - intros b. eapply Forall_impl; [apply seg_norm_pos|]. simpl; lia.
Defined.

(** A user buffer of [ub_room] bytes, of which the first [ub_ok] are mapped. *)
Record ubuf := Ubuf { ub_room : nat; ub_ok : nat; ub_in : list Z; ub_out : list Z }.
Definition ubuf_put (bs : list Z) (u : ubuf) : Z * ubuf :=
  let n := (length bs `min` (ub_room u `min` ub_ok u))%nat in
  (Z.of_nat n, Ubuf (ub_room u - n) (ub_ok u - n) (ub_in u) (ub_out u ++ take n bs)).
Definition ubuf_get (n : Z) (u : ubuf) : list Z * ubuf :=
  let bs := take (Nat.min (Z.to_nat n) (ub_ok u)) (ub_in u) in
  (bs, Ubuf (ub_room u - length bs) (ub_ok u - length bs) (drop (length bs) (ub_in u)) (ub_out u)).

#[export] Instance ubuf_iov : IovOps := {|
  iov_iter := ubuf;
  iov_iter_count u := Z.of_nat (ub_room u);
  copy_to_iter := ubuf_put;
  copy_from_iter := ubuf_get |}.
#[export] Instance ubuf_iov_laws : IovLaws.
Proof.
  refine {| iov_received := ub_out : @iov_iter ubuf_iov -> _;
            iov_avail u := Z.of_nat (Nat.min (ub_room u) (ub_ok u)) |};
    simpl; intros; rewrite ?Nat2Z.id, ?length_take; lia || done.
Defined.

(** A user's memory that holds [bs] at [base] and is not mapped after it. *)
Definition user_buffer (base : Z) (bs : list Z) : user_mem :=
  fun a n => take (Z.to_nat n) (drop (Z.to_nat (a - base)) bs).
Lemma user_buffer_holds base bs : user_holds (user_buffer base bs) base bs.
Proof. intros i n ???. unfold user_buffer. by replace (base + i - base) with i by lia. Qed.
