(* ===== verification/Kernel.v ===== *)
(** * The kernel module's objects

    [request.h], [connection.h], [block_dev.h]: the records of the module, the
    store they live in, and the helpers on requests.  Pointers are keys of the
    store's maps; a pointer that is no key dangles. *)
From S2P Require Import Prelude Protocol Linux.

(** [request->on_request_end], a function pointer with two targets. *)
Inductive end_fn := fn_bius_blk_request_end | fn_bius_report_zones_request_end.
#[export] Instance end_fn_eq_dec : EqDecision end_fn.
Proof. solve_decision. Defined.

(** The two arms of the union of [struct bius_request].  [b_bio] points into the
    bio chain of the [struct request] the arm belongs to: the index of a bio, or
    the length of the chain for NULL.  [i_int_result] is uninitialised ([None])
    until the request ends. *)
Record blk_part := BlkPart {
  b_bio : nat;
  b_map_data : Z;
  b_mapped_size : Z;
  b_map_type : data_map_type;
  b_blk_result : Z }.
Record int_part := IntPart {
  i_data : Z;
  i_sem : Z;
  i_int_result : option Z }.
Inductive req_union := UBlk (b : blk_part) | UInt (i : int_part).

Record bius_request := BiusRequest {
  req_id : Z;
  req_type : bius_req;
  req_pos : Z;
  req_length : Z;
  req_u : req_union;
  req_on_end : end_fn }.

(** [struct bius_connection] (without [CONFIG_BIUS_DATAMAP]). *)
Record bius_connection := Connection {
  conn_block_dev : option Z;
  conn_waiting : list Z;
  conn_sending : option Z }.

Definition init_bius_connection : bius_connection := Connection None [] None.

(** What [create_block_device] sets up of the gendisk, its queue and tag set. *)
Record zone_limits := ZoneLimits {
  zl_model : blk_zoned_model;
  zl_resetall : bool;
  zl_max_zone_append_sectors : Z;
  zl_max_open_zones : Z;
  zl_max_active_zones : Z }.
Record queue_limits := QueueLimits {
  ql_max_discard_sectors : Z;
  ql_max_segments : Z;
  ql_max_dev_sectors : Z;
  ql_max_hw_sectors : Z;
  ql_chunk_sectors : Z;
  ql_io_min : Z;
  ql_zoned : option zone_limits }.
Record gendisk := Gendisk {
  gd_disk_name : list Z;
  gd_major : Z;
  gd_first_minor : Z;
  gd_capacity : Z;
  gd_limits : queue_limits }.
Record bius_block_device := BlockDevice {
  dev_major : Z;
  dev_disk : gendisk;
  dev_model : blk_zoned_model;
  dev_num_connection : Z;
  dev_pending : list Z }.

(** What [create_block_device] allocates. *)
Inductive resource := ResDevice | ResMajor | ResDisk | ResTagSet | ResQueue.
#[export] Instance resource_eq_dec : EqDecision resource.
Proof. solve_decision. Defined.

(** Calls into Linux that a theorem may want to see. *)
Inductive kevent :=
  | EvStart (rq : Z)                (** blk_mq_start_request *)
  | EvEnd (rq status : Z)           (** blk_mq_end_request *)
  | EvSector (rq sector : Z)        (** the position of a zone append is stored in its bio *)
  | EvUp (r : Z)                    (** up(&request->sem) *)
  | EvWakeUp (dev : Z)              (** wake_up(&device->wait_queue) *)
  | EvRevalidate (dev : Z)          (** kthread_run(bius_do_revalidate) *)
  | EvAcquire (r : resource)        (** kmalloc, register_blkdev, alloc_disk, ... *)
  | EvRelease (r : resource)        (** their inverses *)
  | EvAddDisk (dev : Z)             (** add_disk *)
  | EvDelDisk (dev : Z)             (** del_gendisk *)
  | EvReadName (dev : Z).           (** unregister_blkdev reads the name in the disk of [dev] *)
#[export] Instance kevent_eq_dec : EqDecision kevent.
Proof. solve_decision. Defined.

(** The heads of the lists of requests: [pending_requests] of a device,
    [waiting_requests] of a connection. *)
Inductive list_head := pending_requests (dev : Z) | waiting_requests (c : Z).
#[export] Instance list_head_eq_dec : EqDecision list_head.
Proof. solve_decision. Defined.

Section kernel.
Context `{BO : BioOps}.

(** [struct request] of blk-mq; its pdu is the [bius_request] at the same key.
    [rq_sector] is [bio->bi_iter.bi_sector] of the first bio. *)
Record request := Request {
  rq_op : Z;
  rq_pos : Z;
  rq_bytes : Z;
  rq_bios : list bio;
  rq_sector : Z }.

(** The store.  [blk_rqs] holds the requests that have not completed; [pdus]
    the [bius_request] objects, in request pdus or on the stack of
    [bius_report_zones]; [kbufs] the sizes of the kvmalloc'ed buffers. *)
Record kstate := KState {
  next_request_id : Z;
  blk_rqs : gmap Z request;
  pdus : gmap Z bius_request;
  devices : gmap Z bius_block_device;
  all_disk_list : list Z;
  connections : gmap Z bius_connection;
  kmem : memory;
  kbufs : gmap Z Z;
  trace : list kevent }.

Definition set_next_id (f : Z -> Z) (s : kstate) : kstate :=
  KState (f (next_request_id s)) (blk_rqs s) (pdus s) (devices s) (all_disk_list s)
    (connections s) (kmem s) (kbufs s) (trace s).
Definition set_blk_rqs (f : gmap Z request -> gmap Z request) (s : kstate) : kstate :=
  KState (next_request_id s) (f (blk_rqs s)) (pdus s) (devices s) (all_disk_list s)
    (connections s) (kmem s) (kbufs s) (trace s).
Definition set_pdus (f : gmap Z bius_request -> gmap Z bius_request) (s : kstate) : kstate :=
  KState (next_request_id s) (blk_rqs s) (f (pdus s)) (devices s) (all_disk_list s)
    (connections s) (kmem s) (kbufs s) (trace s).
Definition set_devices (f : gmap Z bius_block_device -> gmap Z bius_block_device)
    (s : kstate) : kstate :=
  KState (next_request_id s) (blk_rqs s) (pdus s) (f (devices s)) (all_disk_list s)
    (connections s) (kmem s) (kbufs s) (trace s).
Definition set_disk_list (f : list Z -> list Z) (s : kstate) : kstate :=
  KState (next_request_id s) (blk_rqs s) (pdus s) (devices s) (f (all_disk_list s))
    (connections s) (kmem s) (kbufs s) (trace s).
Definition set_conns (f : gmap Z bius_connection -> gmap Z bius_connection)
    (s : kstate) : kstate :=
  KState (next_request_id s) (blk_rqs s) (pdus s) (devices s) (all_disk_list s)
    (f (connections s)) (kmem s) (kbufs s) (trace s).
Definition set_kmem (f : memory -> memory) (s : kstate) : kstate :=
  KState (next_request_id s) (blk_rqs s) (pdus s) (devices s) (all_disk_list s)
    (connections s) (f (kmem s)) (kbufs s) (trace s).
Definition set_kbufs (f : gmap Z Z -> gmap Z Z) (s : kstate) : kstate :=
  KState (next_request_id s) (blk_rqs s) (pdus s) (devices s) (all_disk_list s)
    (connections s) (kmem s) (f (kbufs s)) (trace s).
Definition emit_event (e : kevent) (s : kstate) : kstate :=
  KState (next_request_id s) (blk_rqs s) (pdus s) (devices s) (all_disk_list s)
    (connections s) (kmem s) (kbufs s) (trace s ++ [e]).

Abbreviation K := (ST kstate).

Definition emit (e : kevent) : K unit := modify (emit_event e).
Definition get_pdu (k : Z) : K bius_request := s ← gets pdus; deref DanglingPtr (s !! k).
Definition put_pdu (k : Z) (r : bius_request) : K unit := modify (set_pdus <[k := r]>).
Definition get_rq (k : Z) : K request := s ← gets blk_rqs; deref DanglingPtr (s !! k).
Definition get_dev (d : Z) : K bius_block_device := s ← gets devices; deref DanglingPtr (s !! d).
Definition put_dev (d : Z) (v : bius_block_device) : K unit := modify (set_devices <[d := v]>).
Definition get_conn (c : Z) : K bius_connection :=
  s ← gets connections; deref DanglingPtr (s !! c).
Definition put_conn (c : Z) (v : bius_connection) : K unit := modify (set_conns <[c := v]>).

(** Access to the arm of the union the code names. *)
Definition blk_arm (r : bius_request) : K blk_part :=
  match req_u r with UBlk b => mret b | UInt _ => fail UnionMix end.
Definition int_arm (r : bius_request) : K int_part :=
  match req_u r with UInt i => mret i | UBlk _ => fail UnionMix end.
Definition with_blk (r : bius_request) (b : blk_part) : bius_request :=
  BiusRequest (req_id r) (req_type r) (req_pos r) (req_length r) (UBlk b) (req_on_end r).
Definition with_int (r : bius_request) (i : int_part) : bius_request :=
  BiusRequest (req_id r) (req_type r) (req_pos r) (req_length r) (UInt i) (req_on_end r).
Definition with_pos (r : bius_request) (pos : Z) : bius_request :=
  BiusRequest (req_id r) (req_type r) pos (req_length r) (req_u r) (req_on_end r).
Definition with_map_data (b : blk_part) (d : Z) : blk_part :=
  BlkPart (b_bio b) d (b_mapped_size b) (b_map_type b) (b_blk_result b).
Definition with_blk_result (b : blk_part) (res : Z) : blk_part :=
  BlkPart (b_bio b) (b_map_data b) (b_mapped_size b) (b_map_type b) res.

Definition dev_with_pending (d : bius_block_device) (l : list Z) : bius_block_device :=
  BlockDevice (dev_major d) (dev_disk d) (dev_model d) (dev_num_connection d) l.
Definition dev_with_conns (d : bius_block_device) (n : Z) : bius_block_device :=
  BlockDevice (dev_major d) (dev_disk d) (dev_model d) n (dev_pending d).
Definition conn_with_waiting (c : bius_connection) (l : list Z) : bius_connection :=
  Connection (conn_block_dev c) l (conn_sending c).
Definition conn_with_sending (c : bius_connection) (o : option Z) : bius_connection :=
  Connection (conn_block_dev c) (conn_waiting c) o.
Definition conn_with_dev (c : bius_connection) (o : option Z) : bius_connection :=
  Connection o (conn_waiting c) (conn_sending c).

(** [blk_mq_end_request]: the block layer completes the request.  Completing
    one that is not in flight is a use after free. *)
Definition blk_mq_end_request (k status : Z) : K unit :=
  _ ← get_rq k;
  _ ← modify (set_blk_rqs (delete k));
  emit (EvEnd k status).

(** [block_dev.c:bius_blk_request_end] *)
Definition bius_blk_request_end (k : Z) : K unit :=
  r ← get_pdu k;
  rq ← get_rq k;
  b ← blk_arm r;
  _ ← (if bool_decide (req_type r = BIUS_ZONE_APPEND) then
         match rq_bios rq with
         | [] => fail NullDeref
         | _ =>
             let sector := u64 (req_pos r `quot` SECTOR_SIZE) in
             _ ← modify (set_blk_rqs <[k := Request (rq_op rq) (rq_pos rq) (rq_bytes rq)
                          (rq_bios rq) sector]>);
             emit (EvSector k sector)
         end
       else mret tt);
  blk_mq_end_request k (b_blk_result b).

(** [block_dev.c:bius_report_zones_request_end] *)
Definition bius_report_zones_request_end (k : Z) : K unit :=
  r ← get_pdu k;
  i ← int_arm r;
  _ ← put_pdu k (with_int r (IntPart (i_data i) (i_sem i + 1) (i_int_result i)));
  emit (EvUp k).

Definition on_request_end (k : Z) : K unit :=
  r ← get_pdu k;
  match req_on_end r with
  | fn_bius_blk_request_end => bius_blk_request_end k
  | fn_bius_report_zones_request_end => bius_report_zones_request_end k
  end.

(** [request.h:end_blk_request]; the assignment converts to [blk_status_t]. *)
Definition end_blk_request `{LinuxConst} (k result : Z) : K unit :=
  r ← get_pdu k;
  b ← blk_arm r;
  _ ← put_pdu k (with_blk r (with_blk_result b (wrap blk_status_bits result)));
  on_request_end k.

(** [request.h:end_request_int] *)
Definition end_request_int (k result : Z) : K unit :=
  r ← get_pdu k;
  i ← int_arm r;
  _ ← put_pdu k (with_int r (IntPart (i_data i) (i_sem i) (Some (s32 result))));
  on_request_end k.

(** [request.h:get_request_by_id] *)
Fixpoint get_request_by_id (l : list Z) (id : Z) : K (option Z) :=
  match l with
  | [] => mret None
  | k :: l' =>
      r ← get_pdu k;
      if decide (req_id r = id) then mret (Some k) else get_request_by_id l' id
  end.

(** ** Walking the lists of requests

    The member [list] of a request links it into one list; what a list holds is
    read off the head.  [list_for_each_entry] does not look at the list as it was: it
    reads the successor of a request when it is done with it. *)
Definition on_list (s : kstate) (h : list_head) : list Z :=
  match h with
  | pending_requests dev => from_option dev_pending [] (devices s !! dev)
  | waiting_requests c => from_option conn_waiting [] (connections s !! c)
  end.
(** The lists in use: those of devices that exist and of open connections. *)
Definition list_heads (s : kstate) : list list_head :=
  (pending_requests <$> all_disk_list s) ++ (waiting_requests <$> (map_to_list (connections s)).*1).
(** What follows [k], where it was linked last: a request, or the head ([Some None]). *)
Fixpoint next_on (l : list Z) (k : Z) : option (option Z) :=
  match l with
  | [] => None
  | x :: l' =>
      match next_on l' k with
      | Some n => Some n
      | None => if decide (x = k) then Some (head l') else None
      end
  end.
(** The other lists that hold [k]. *)
Definition elsewhere (s : kstate) (h : list_head) (k : Z) : list list_head :=
  filter (fun h' => h' <> h /\ k ∈ on_list s h') (list_heads s).
(** [k->list.next] in a walk of the list at [h]: the next request, or [None] at [h].
    A request that has been put on another list since leads along that one, and the
    head of that list is taken for a request. *)
Definition list_next (h : list_head) (k : Z) : K (option Z) :=
  s ← gets id;
  match elsewhere s h k with
  | h' :: _ =>
      match next_on (on_list s h') k with Some (Some n) => mret (Some n) | _ => fail DanglingPtr end
  | [] => match next_on (on_list s h) k with Some n => mret n | None => fail DanglingPtr end
  end.
(** [list_for_each_entry] with [body]; [meanwhile] is what others do while the body
    has just run. *)
Fixpoint for_each_from (meanwhile body : Z -> K unit) (h : list_head) (pos : option Z) (fuel : nat) : K unit :=
  match pos with
  | None => mret tt
  | Some k =>
      match fuel with
      | O => exhausted
      | S fuel' =>
          _ ← body k;
          _ ← meanwhile k;
          next ← list_next h k;
          for_each_from meanwhile body h next fuel'
      end
  end.
Definition list_for_each_entry (meanwhile body : Z -> K unit) (h : list_head) : K unit :=
  s ← gets id;
  for_each_from meanwhile body h (head (on_list s h)) (length (on_list s h)).
(** Nobody does anything. *)
Definition undisturbed_walk (k : Z) : K unit := mret tt.

(** [request.h:request_io_done] *)
Definition request_io_done (k : Z) : K bool :=
  r ← get_pdu k;
  b ← blk_arm r;
  if negb (bool_decide (b_map_type b = BIUS_DATAMAP_UNMAPPED)) then mret true
  else mret (bool_decide (b_map_data b = 0)).
End kernel.

#[global] Arguments request {BO}.
#[global] Arguments kstate {BO}.

(** *** A walk that nobody disturbs visits the list as it was *)
Fixpoint visit {A S} (body : A -> ST S unit) (l : list A) : ST S unit :=
  match l with
  | [] => mret tt
  | k :: l' => _ ← body k; visit body l'
  end.
(** Nothing else holds the requests of the list at [h]. *)
Definition linked_once `{BioOps} (s : kstate) (h : list_head) : Prop :=
  forall k h', k ∈ on_list s h -> h' ∈ list_heads s -> k ∈ on_list s h' -> h' = h.
Lemma linked_once_all `{BioOps} s h :
  Forall (fun k => Forall (fun h' => k ∈ on_list s h' -> h' = h) (list_heads s)) (on_list s h) -> linked_once s h.
Proof.
  intros Hall k h' Hk Hh. rewrite Forall_forall in Hall. specialize (Hall k Hk). rewrite Forall_forall in Hall. by apply Hall.
Qed.
Definition same_lists `{BioOps} (s s' : kstate) : Prop :=
  devices s' = devices s /\ connections s' = connections s /\ all_disk_list s' = all_disk_list s.

(** Computations that leave the lists alone. *)
Definition keeps_lists `{BioOps} {A} (m : ST kstate A) : Prop := forall s a t, m s = Ret (a, t) -> same_lists s t.
Lemma keeps_lists_bind `{BioOps} {A B} (m : ST kstate A) (f : A -> ST kstate B) :
  keeps_lists m -> (forall a, keeps_lists (f a)) -> keeps_lists (m ≫= f).
Proof.
  intros Hm Hf s b t. unfold mbind, ST_bind. destruct (m s) as [[a u]| |] eqn:Hu; [|done..]. intros Ht.
  destruct (Hm _ _ _ Hu) as (E1 & E2 & E3), (Hf _ _ _ _ Ht) as (F1 & F2 & F3). split_and!; congruence.
Qed.
Lemma keeps_lists_ret `{BioOps} {A} (a : A) : keeps_lists (mret a).
Proof. by intros s b t [= _ <-]. Qed.
Lemma keeps_lists_fail `{BioOps} {A} f : keeps_lists (fail (A := A) f).
Proof. done. Qed.
Lemma keeps_lists_deref `{BioOps} {A} f (o : option A) : keeps_lists (deref f o).
Proof. destruct o; [apply keeps_lists_ret|done]. Qed.
Lemma keeps_lists_gets `{BioOps} {A} (f : kstate -> A) : keeps_lists (gets f).
Proof. by intros s b t [= _ <-]. Qed.
Lemma keeps_lists_modify `{BioOps} f : (forall s, same_lists s (f s)) -> keeps_lists (modify f).
Proof. by intros Hf s b t [= _ <-]. Qed.
Create HintDb lists.
#[export] Hint Resolve keeps_lists_ret keeps_lists_fail keeps_lists_deref keeps_lists_gets : lists.
(** Step through a computation. *)
Ltac keeps_lists_steps :=
  repeat first
    [ progress eauto with lists
    | apply keeps_lists_modify; by intros
    | apply keeps_lists_bind; [|intros ?]
    | case_match ].
Lemma blk_mq_end_request_lists `{BioOps} k status : keeps_lists (blk_mq_end_request k status).
Proof. unfold blk_mq_end_request, get_rq, emit. keeps_lists_steps. Qed.
#[export] Hint Resolve blk_mq_end_request_lists : lists.
Lemma end_blk_request_lists `{BioOps} `{LinuxConst} k result : keeps_lists (end_blk_request k result).
Proof.
  unfold end_blk_request, on_request_end, bius_blk_request_end, bius_report_zones_request_end, blk_arm, int_arm,
    get_pdu, get_rq, put_pdu, emit. keeps_lists_steps.
Qed.
#[export] Hint Resolve end_blk_request_lists : lists.

Lemma next_on_unique pre k rest : k ∉ rest -> next_on (pre ++ k :: rest) k = Some (head rest).
Proof.
  intros Hk. assert (next_on rest k = None) as Hn.
  { induction rest as [|x l IH]; [done|]. apply not_elem_of_cons in Hk as [Hx Hl]. cbn [next_on]. rewrite IH by done.
    by rewrite decide_False by congruence. }
  induction pre as [|x pre IH]; cbn [next_on app].
  - by rewrite Hn, decide_True.
  - by rewrite IH.
Qed.
Lemma list_next_spec `{BioOps} s h pre k rest :
  on_list s h = pre ++ k :: rest -> NoDup (on_list s h) -> linked_once s h -> list_next h k s = Ret (head rest, s).
Proof.
  intros Hl Hnd Hone. unfold list_next, gets, mbind, ST_bind.
  assert (elsewhere (id s) h k = []) as ->.
  { unfold id. apply elem_of_nil_inv. intros h' [[Hne Hk] Hin]%list_elem_of_filter. apply Hne, (Hone k); [|done..].
    rewrite Hl. apply elem_of_app. right. by left. }
  unfold id. rewrite Hl, next_on_unique; [done|]. rewrite Hl in Hnd. by apply NoDup_app in Hnd as (_ & _ & [? _]%NoDup_cons).
Qed.
Lemma walk_start `{BioOps} meanwhile (body : Z -> ST kstate unit) h s :
  list_for_each_entry meanwhile body h s
    = for_each_from meanwhile body h (head (on_list s h)) (length (on_list s h)) s.
Proof. done. Qed.
Lemma walk_visits `{BioOps} (body : Z -> ST kstate unit) h s :
  (forall k, keeps_lists (body k)) -> NoDup (on_list s h) -> linked_once s h ->
  list_for_each_entry undisturbed_walk body h s = visit body (on_list s h) s.
Proof.
  intros Hbody Hnd Hone. unfold list_for_each_entry, gets, mbind, ST_bind, id.
  assert (forall rest pre t, on_list s h = pre ++ rest -> same_lists s t ->
    for_each_from undisturbed_walk body h (head rest) (length rest) t = visit body rest t) as Hw.
  { induction rest as [|k rest IH]; intros pre t Hl Hs; [done|]. cbn [head length for_each_from visit].
    unfold mbind, ST_bind. destruct (body k t) as [[[] u]| |] eqn:Hu; [|done..]. cbn [undisturbed_walk mret ST_ret].
    destruct (Hbody k t tt u Hu) as (HD & HC & HA), Hs as (HD' & HC' & HA').
    assert (same_lists s u) as Hsu by (split_and!; congruence).
    assert (on_list u = on_list s) as El by (unfold on_list; by rewrite HD, HD', HC, HC').
    assert (list_heads u = list_heads s) as Eh by (unfold list_heads; by rewrite HA, HA', HC, HC').
    rewrite (list_next_spec u h pre k rest); [|by rewrite El..|unfold linked_once; by rewrite El, Eh].
    apply (IH (pre ++ [k])); [by rewrite <- app_assoc|done]. }
  by apply (Hw (on_list s h) []).
Qed.

(** ** Rules for the accessors *)
Section rules.
Context `{BO : BioOps}.
Implicit Types s : kstate.

Lemma kstate_ext s t :
  next_request_id s = next_request_id t -> blk_rqs s = blk_rqs t -> pdus s = pdus t ->
  devices s = devices t -> all_disk_list s = all_disk_list t -> connections s = connections t ->
  kmem s = kmem t -> kbufs s = kbufs t -> trace s = trace t -> s = t.
Proof. destruct s, t; simpl; congruence. Qed.

Lemma wp_get_pdu k r Q s : pdus s !! k = Some r -> Q r s -> wp (get_pdu k) Q s.
Proof. intros H ?. unfold wp, get_pdu, mbind, ST_bind, gets. by rewrite H. Qed.
Lemma wp_get_rq k r Q s : blk_rqs s !! k = Some r -> Q r s -> wp (get_rq k) Q s.
Proof. intros H ?. unfold wp, get_rq, mbind, ST_bind, gets. by rewrite H. Qed.
Lemma wp_get_dev d v Q s : devices s !! d = Some v -> Q v s -> wp (get_dev d) Q s.
Proof. intros H ?. unfold wp, get_dev, mbind, ST_bind, gets. by rewrite H. Qed.
Lemma wp_get_conn c v Q s : connections s !! c = Some v -> Q v s -> wp (get_conn c) Q s.
Proof. intros H ?. unfold wp, get_conn, mbind, ST_bind, gets. by rewrite H. Qed.
Lemma wp_put_pdu k r Q s : Q tt (set_pdus <[k := r]> s) -> wp (put_pdu k r) Q s.
Proof. done. Qed.
Lemma wp_put_dev d v Q s : Q tt (set_devices <[d := v]> s) -> wp (put_dev d v) Q s.
Proof. done. Qed.
Lemma wp_put_conn c v Q s : Q tt (set_conns <[c := v]> s) -> wp (put_conn c v) Q s.
Proof. done. Qed.
Lemma wp_emit e Q s : Q tt (emit_event e s) -> wp (emit e) Q s.
Proof. done. Qed.
Lemma wp_blk_arm r b Q s : req_u r = UBlk b -> Q b s -> wp (blk_arm r) Q s.
Proof. unfold wp, blk_arm. by intros ->. Qed.
Lemma wp_int_arm r i Q s : req_u r = UInt i -> Q i s -> wp (int_arm r) Q s.
Proof. unfold wp, int_arm. by intros ->. Qed.

Lemma wlp_get_pdu k (Q : bius_request -> kstate -> Prop) s :
  (forall r, pdus s !! k = Some r -> Q r s) -> wlp (get_pdu k) Q s.
Proof. unfold wlp, get_pdu, mbind, ST_bind, gets. destruct (pdus s !! k); simpl; auto. Qed.
Lemma wlp_get_rq k (Q : request -> kstate -> Prop) s :
  (forall r, blk_rqs s !! k = Some r -> Q r s) -> wlp (get_rq k) Q s.
Proof. unfold wlp, get_rq, mbind, ST_bind, gets. destruct (blk_rqs s !! k); simpl; auto. Qed.
Lemma wlp_get_dev d (Q : bius_block_device -> kstate -> Prop) s :
  (forall v, devices s !! d = Some v -> Q v s) -> wlp (get_dev d) Q s.
Proof. unfold wlp, get_dev, mbind, ST_bind, gets. destruct (devices s !! d); simpl; auto. Qed.
Lemma wlp_get_conn c (Q : bius_connection -> kstate -> Prop) s :
  (forall v, connections s !! c = Some v -> Q v s) -> wlp (get_conn c) Q s.
Proof. unfold wlp, get_conn, mbind, ST_bind, gets. destruct (connections s !! c); simpl; auto. Qed.
Lemma wlp_put_pdu k r (Q : unit -> kstate -> Prop) s :
  Q tt (set_pdus <[k := r]> s) -> wlp (put_pdu k r) Q s.
Proof. done. Qed.
Lemma wlp_put_dev d v (Q : unit -> kstate -> Prop) s :
  Q tt (set_devices <[d := v]> s) -> wlp (put_dev d v) Q s.
Proof. done. Qed.
Lemma wlp_put_conn c v (Q : unit -> kstate -> Prop) s :
  Q tt (set_conns <[c := v]> s) -> wlp (put_conn c v) Q s.
Proof. done. Qed.
Lemma wlp_emit e (Q : unit -> kstate -> Prop) s : Q tt (emit_event e s) -> wlp (emit e) Q s.
Proof. done. Qed.
Lemma wlp_blk_arm r (Q : blk_part -> kstate -> Prop) s :
  (forall b, req_u r = UBlk b -> Q b s) -> wlp (blk_arm r) Q s.
Proof. unfold wlp, blk_arm. destruct (req_u r); simpl; auto. Qed.
Lemma wlp_int_arm r (Q : int_part -> kstate -> Prop) s :
  (forall i, req_u r = UInt i -> Q i s) -> wlp (int_arm r) Q s.
Proof. unfold wlp, int_arm. destruct (req_u r); simpl; auto. Qed.
End rules.

(** One step of a [wp] or [wlp] goal on the kernel's store; the lookups that a
    [wp] goal needs are found in the context. *)
Ltac kstep :=
  lazymatch goal with
  | |- wp (get_pdu _) _ _ => eapply wp_get_pdu; [eassumption|]
  | |- wp (get_rq _) _ _ => eapply wp_get_rq; [eassumption|]
  | |- wp (get_dev _) _ _ => eapply wp_get_dev; [eassumption|]
  | |- wp (get_conn _) _ _ => eapply wp_get_conn; [eassumption|]
  | |- wp (put_pdu _ _) _ _ => apply wp_put_pdu
  | |- wp (put_dev _ _) _ _ => apply wp_put_dev
  | |- wp (put_conn _ _) _ _ => apply wp_put_conn
  | |- wp (emit _) _ _ => apply wp_emit
  | |- wp (blk_arm _) _ _ => eapply wp_blk_arm; [eassumption|]
  | |- wp (int_arm _) _ _ => eapply wp_int_arm; [eassumption|]
  | |- wlp (get_pdu _) _ _ => apply wlp_get_pdu; intros ??
  | |- wlp (get_rq _) _ _ => apply wlp_get_rq; intros ??
  | |- wlp (get_dev _) _ _ => apply wlp_get_dev; intros ??
  | |- wlp (get_conn _) _ _ => apply wlp_get_conn; intros ??
  | |- wlp (put_pdu _ _) _ _ => apply wlp_put_pdu
  | |- wlp (put_dev _ _) _ _ => apply wlp_put_dev
  | |- wlp (put_conn _ _) _ _ => apply wlp_put_conn
  | |- wlp (emit _) _ _ => apply wlp_emit
  | |- wlp (blk_arm _) _ _ => apply wlp_blk_arm; intros ??
  | |- wlp (int_arm _) _ _ => apply wlp_int_arm; intros ??
  | _ => wp_step
  end; cbv beta.
Ltac ksteps := repeat kstep.
(** Compute the fields of an updated store, and nothing else. *)
Ltac kfields :=
  cbn [next_request_id blk_rqs pdus devices all_disk_list connections kmem kbufs trace
       set_next_id set_blk_rqs set_pdus set_devices set_disk_list set_conns set_kmem set_kbufs
       emit_event conn_block_dev conn_waiting conn_sending conn_with_waiting conn_with_sending
       conn_with_dev dev_with_pending dev_with_conns dev_major dev_disk dev_model
       dev_num_connection dev_pending].

(** ** Ending and finding requests *)
Section ending.
Context `{BO : BioOps} `{LC : LinuxConst}.
Implicit Types s : kstate.

(** What [bius_queue_rq] establishes of a request that is in flight: the
    union holds the blk arm, the end function is the one of block requests,
    and a zone append has a bio. *)
Record blk_request (s : kstate) (k : Z) (r : bius_request) (b : blk_part) (rq : request) : Prop := {
  br_pdu : pdus s !! k = Some r;
  br_arm : req_u r = UBlk b;
  br_end : req_on_end r = fn_bius_blk_request_end;
  br_rq : blk_rqs s !! k = Some rq;
  br_bio : req_type r = BIUS_ZONE_APPEND -> rq_bios rq <> [] }.

(** The store after block request [k] ended with [result]. *)
Definition end_events (k : Z) (r : bius_request) (result : Z) : list kevent :=
  (if bool_decide (req_type r = BIUS_ZONE_APPEND)
   then [EvSector k (u64 (req_pos r `quot` SECTOR_SIZE))] else [])
    ++ [EvEnd k (wrap blk_status_bits result)].
Definition ended (s : kstate) (k : Z) (r : bius_request) (b : blk_part) (result : Z) : kstate :=
  KState (next_request_id s) (delete k (blk_rqs s))
    (<[k := with_blk r (with_blk_result b (wrap blk_status_bits result))]> (pdus s)) (devices s)
    (all_disk_list s) (connections s) (kmem s) (kbufs s) (trace s ++ end_events k r result).

Lemma end_blk_request_spec s k r b rq result :
  blk_request s k r b rq -> end_blk_request k result s = Ret (tt, ended s k r b result).
Proof.
  intros [Hr Hu He Hrq Hb].
  assert (wp (end_blk_request k result) (fun _ s' => s' = ended s k r b result) s) as H.
  { unfold end_blk_request. ksteps. unfold on_request_end.
    eapply wp_bind, wp_get_pdu; [apply lookup_insert_eq|]. cbn [with_blk req_on_end]. rewrite He.
    unfold bius_blk_request_end. eapply wp_bind, wp_get_pdu; [apply lookup_insert_eq|].
    ksteps. unfold ended, end_events. cbn [with_blk req_type req_pos].
    eapply wp_blk_arm; [reflexivity|]. ksteps. case_bool_decide as Ht.
    - destruct (rq_bios rq) as [|x xs] eqn:Hx; [by destruct Hb|]. ksteps. unfold blk_mq_end_request.
      eapply wp_bind, wp_get_rq; [apply lookup_insert_eq|]. ksteps.
      unfold set_blk_rqs, set_pdus, emit_event; simpl. f_equal; [|by rewrite <- app_assoc].
      by rewrite delete_insert_eq.
    - ksteps. unfold blk_mq_end_request. ksteps. done. }
  destruct (wp_inv _ _ _ H) as ([] & s' & Hrun & ->). done.
Qed.

(** With distinct ids it finds the request that has the id. *)
Lemma get_request_by_id_unique l id s k r :
  k ∈ l -> pdus s !! k = Some r -> req_id r = id ->
  (forall x, x ∈ l -> exists r', pdus s !! x = Some r' /\ (req_id r' = id -> x = k)) ->
  get_request_by_id l id s = Ret (Some k, s).
Proof.
  intros Hk Hr Hid Hl. induction l as [|x l IH]; [by apply elem_of_nil in Hk|].
  destruct (Hl x) as (r' & Hr' & Hun); [by left|].
  cbn [get_request_by_id]. unfold mbind at 1, ST_bind at 1. unfold get_pdu, gets, mbind, ST_bind.
  rewrite Hr'. cbn [deref mret ST_ret]. destruct (decide (req_id r' = id)) as [He|He].
  - by rewrite (Hun He).
  - apply IH.
    + apply elem_of_cons in Hk as [->|]; [|done]. congruence.
    + intros y Hy. apply Hl. by right.
Qed.
Lemma get_request_by_id_none l id s :
  (forall x, x ∈ l -> exists r, pdus s !! x = Some r /\ req_id r <> id) ->
  get_request_by_id l id s = Ret (None, s).
Proof.
  intros Hl. induction l as [|x l IH]; [done|].
  destruct (Hl x) as (r' & Hr' & Hne); [by left|].
  cbn [get_request_by_id]. unfold mbind at 1, ST_bind at 1. unfold get_pdu, gets, mbind, ST_bind.
  rewrite Hr'. cbn [deref mret ST_ret]. destruct (decide (req_id r' = id)) as [He|He]; [done|].
  apply IH. intros y Hy. apply Hl. by right.
Qed.
End ending.

(** Two stores are equal when their fields compute to the same. *)
Ltac kstate_eq := apply kstate_ext; kfields; rewrite <- ?app_assoc; try reflexivity.
