(* ===== verification/Sample.v ===== *)
(** * A concrete machine

    One device, one connection and a few requests, on the instances of
    [Linux.v]: the states the witnesses of the other files start from. *)
From S2P Require Import Prelude Protocol Linux Kernel.

(** Two bios of five and four bytes, the first in two segments. *)
Definition sample_bios : list (@bio seg_bio) :=
  [[BioVec 4096 0 3; BioVec 8192 1 2]; [BioVec 12288 0 4]].
Definition sample_rq (op : Z) : @request seg_bio := Request op 8 9 sample_bios 8.
Definition sample_blk (md : Z) : blk_part := BlkPart 0 md 0 BIUS_DATAMAP_UNMAPPED 0.
Definition sample_pdu (id : Z) (t : bius_req) (md : Z) : bius_request :=
  BiusRequest id t 4096 9 (UBlk (sample_blk md)) fn_bius_blk_request_end.
Definition sample_limits : queue_limits := QueueLimits 0 256 1024 1024 1024 524288 None.
Definition sample_disk : gendisk := Gendisk [98; 105; 117; 115] 240 1 2048 sample_limits.
Definition sample_bytes : list Z := [11; 12; 13; 21; 22; 31; 32; 33; 34].
Definition sample_addrs : list Z := [4096; 4097; 4098; 8193; 8194; 12288; 12289; 12290; 12291].
Definition sample_mem : memory := list_to_map (zip sample_addrs sample_bytes).

(** Request 7 (a write), 8 (a read), 9 (a zone append) and 10 (a flush). *)
Definition sample_rqs : gmap Z (@request seg_bio) :=
  <[7 := sample_rq 1]> (<[8 := sample_rq 0]> (<[9 := sample_rq 13]>
    (<[10 := Request 2 0 0 [] 0]> ∅))).
Definition sample_pdus : gmap Z bius_request :=
  <[7 := sample_pdu 1 BIUS_WRITE 9]> (<[8 := sample_pdu 2 BIUS_READ 0]>
    (<[9 := sample_pdu 3 BIUS_ZONE_APPEND 9]> (<[10 := BiusRequest 4 BIUS_FLUSH 0 0
      (UBlk (sample_blk 0)) fn_bius_blk_request_end]> ∅))).

(** Device 100 with [pending], connection 200 with [waiting] and [sending]. *)
Definition sample_state (pending waiting : list Z) (sending : option Z) : @kstate seg_bio :=
  KState 4 sample_rqs sample_pdus
    {[ 100 := BlockDevice 240 sample_disk BLK_ZONED_NONE 1 pending ]} [100]
    {[ 200 := Connection (Some 100) waiting sending ]} sample_mem ∅ [].

(** A user buffer of [room] bytes, [ok] of them mapped, with [input] in it. *)
Definition sample_buf (room ok : nat) (input : list Z) : @iov_iter ubuf_iov := Ubuf room ok input [].
