(* ===== verification/Command.v ===== *)
(** * Moving requests and data across the character device

    [command.h]: [bius_send_command], [bius_send_data] and [bius_receive_data]. *)
From S2P Require Import Prelude Protocol Linux Kernel Sample.

(** The bytes at a list of addresses, and their update. *)
Definition mem_gather (m : memory) (addrs : list Z) : list Z := (fun a => default 0 (m !! a)) <$> addrs.

Lemma mem_gather_seqZ m a n : mem_gather m (seqZ a n) = mem_read m a n.
Proof.
  unfold mem_gather, mem_read. apply list_eq. intros i. rewrite !list_lookup_fmap.
  destruct (decide (Z.of_nat i < n)).
  - rewrite !lookup_seqZ_lt by lia. simpl. by rewrite Z.add_0_l.
  - by rewrite !lookup_seqZ_ge by lia.
Qed.
Lemma mem_gather_app m l1 l2 : mem_gather m (l1 ++ l2) = mem_gather m l1 ++ mem_gather m l2.
Proof. apply fmap_app. Qed.
Lemma length_mem_gather m l : length (mem_gather m l) = length l.
Proof. apply length_fmap. Qed.
Lemma mem_gather_take m n l : mem_gather m (take n l) = take n (mem_gather m l).
Proof. apply fmap_take. Qed.
Lemma mem_gather_drop m n l : mem_gather m (drop n l) = drop n (mem_gather m l).
Proof. apply fmap_drop. Qed.
Lemma mem_gather_ext m m' l :
  (forall a, a ∈ l -> m !! a = m' !! a) -> mem_gather m l = mem_gather m' l.
Proof. intros H. apply list_fmap_ext. intros i a Hi. rewrite (H a); [done|]. by eapply list_elem_of_lookup_2. Qed.

Section command.
Context `{BO : BioOps} `{IO : IovOps}.
Abbreviation K := (ST kstate).

(** [bius_send_command] (without [CONFIG_BIUS_DATAMAP]).  [pad1], [pad2] are
    the padding bytes of the header on the kernel stack. *)
Definition command_header (r : bius_request) : bius_k2u_header :=
  {| k2u_id := req_id r;
     k2u_opcode := req_type r;
     k2u_offset := u64 (req_pos r);
     k2u_length := u64 (req_length r);
     k2u_data_address := 0;
     k2u_mapping_data := 0;
     k2u_data_map_type := data_map_type_value BIUS_DATAMAP_UNMAPPED |}.
Definition bius_send_command (pad1 pad2 : list Z) (k : Z) (to : iov_iter) : K (Z * iov_iter) :=
  r ← get_pdu k;
  mret (copy_to_iter (k2u_bytes pad1 pad2 (command_header r)) to).

Definition rq_with_bios (rq : request) (bs : list bio) : request :=
  Request (rq_op rq) (rq_pos rq) (rq_bytes rq) bs (rq_sector rq).

(** The loop of [bius_send_data]: [remain] is [remain_buffer], [total] is
    [total_sent].  Advancing the bio updates the chain of the [struct request]. *)
Fixpoint bius_send_data_loop (fuel : nat) (k remain total : Z) (to : iov_iter)
    : K (Z * iov_iter) :=
  match fuel with
  | O => exhausted
  | S fuel' =>
      r ← get_pdu k;
      b ← blk_arm r;
      if (0 <? b_map_data b) && (0 <? remain) then
        rq ← get_rq k;
        x ← deref NullDeref (rq_bios rq !! b_bio b);
        m ← gets kmem;
        let bvec := mp_bvec_iter_bvec x in
        let size_to_send := Z.min (bv_len bvec) remain in
        let sent := copy_to_iter (mem_read m (bv_start bvec) size_to_send) to in
        let x' := bio_advance_iter x sent.1 in
        _ ← modify (set_blk_rqs <[k := rq_with_bios rq (<[b_bio b := x']> (rq_bios rq))]>);
        let done := bool_decide (bi_size x' = 0) in
        _ ← put_pdu k (with_blk r
               (BlkPart (if done then S (b_bio b) else b_bio b)
                        (u64 (b_map_data b - sent.1)) (b_mapped_size b) (b_map_type b)
                        (b_blk_result b)));
        if negb done && (sent.1 =? 0) then mret (total + sent.1, sent.2)
        else bius_send_data_loop fuel' k (remain - sent.1) (total + sent.1) sent.2
      else mret (total, to)
  end.

(** [bius_send_data].  The fuel [map_data + 1] is enough: see [send_data_loop_spec]. *)
Definition bius_send_data (k remain : Z) (to : iov_iter) : K (Z * iov_iter) :=
  r ← get_pdu k;
  b ← blk_arm r;
  rq ← get_rq k;
  if bool_decide (rq_bios rq !! b_bio b = None) then mret (0, to)
  else if negb (bool_decide (b_map_type b = BIUS_DATAMAP_UNMAPPED)) then mret (- EINVAL, to)
  else bius_send_data_loop (S (Z.to_nat (b_map_data b))) k remain 0 to.

(** [bius_receive_data]: the segments of the request, in order. *)
Definition rq_for_each_segment (rq : request) : list bio_vec :=
  concat (bio_for_each_segment <$> rq_bios rq).

Fixpoint receive_segments (um : user_mem) (segs : list bio_vec) (user_data : Z) : K Z :=
  match segs with
  | [] => mret 0
  | v :: segs' =>
      _ ← modify (set_kmem (fun m => mem_write m (bv_start v) (copied_padded um user_data (bv_len v))));
      if 0 <? not_copied um user_data (bv_len v) then mret (- EIO)
      else receive_segments um segs' (user_data + bv_len v)
  end.

Definition bius_receive_data (um : user_mem) (k user_data : Z) : K Z :=
  r ← get_pdu k;
  b ← blk_arm r;
  rq ← get_rq k;
  if bool_decide (rq_bios rq !! b_bio b = None) then mret 0
  else if negb (bool_decide (b_map_type b = BIUS_DATAMAP_UNMAPPED)) then mret (- EINVAL)
  else receive_segments um (rq_for_each_segment rq) user_data.
End command.

(** ** Sending: the payload goes out in order, nothing twice, nothing lost *)
Section send_data.
Context `{BL : BioLaws} `{IL : IovLaws}.

(** The addresses [bius_send_data] has still to send. *)
Definition payload (rq : request) (b : blk_part) : list Z :=
  concat (bio_extent <$> drop (b_bio b) (rq_bios rq)).

(** What holds of a request whose data is being sent: every bio from
    [request->bio] on has data left, and [map_data] counts the rest. *)
Definition xfer_wf (rq : request) (b : blk_part) : Prop :=
  Forall (fun x => 0 < bi_size x) (drop (b_bio b) (rq_bios rq)) /\
  b_map_data b = Z.of_nat (length (payload rq b)) /\ b_map_data b < 2 ^ 64.

(** [s'] is [s] after [n] bytes of the payload of request [k] were sent. *)
Record sent_bytes (k : Z) (r : bius_request) (b : blk_part) (rq : request) (n : Z)
    (s s' : kstate) (b' : blk_part) (rq' : request) : Prop := {
  sent_state : s' = set_blk_rqs <[k := rq']> (set_pdus <[k := with_blk r b']> s);
  sent_payload : payload rq' b' = drop (Z.to_nat n) (payload rq b);
  sent_map_data : b_map_data b' = b_map_data b - n;
  sent_wf : xfer_wf rq' b';
  sent_map_type : b_map_type b' = b_map_type b;
  sent_rq : rq' = rq_with_bios rq (rq_bios rq');
  sent_bios : length (rq_bios rq') = length (rq_bios rq) }.

Lemma with_blk_id r b : req_u r = UBlk b -> with_blk r b = r.
Proof. unfold with_blk. intros <-. by destruct r. Qed.

Lemma sent_bytes_refl k r b rq s :
  pdus s !! k = Some r -> req_u r = UBlk b -> blk_rqs s !! k = Some rq -> xfer_wf rq b ->
  sent_bytes k r b rq 0 s s b rq.
Proof.
  intros Hr Hu Hrq Hwf. split; try done.
  - destruct s; unfold set_blk_rqs, set_pdus; simpl in *.
    rewrite with_blk_id by done. by rewrite !insert_id.
  - lia.
  - by destruct rq.
Qed.

Lemma sent_bytes_trans k r b rq n1 n2 s s1 s2 b1 rq1 b2 rq2 :
  0 <= n1 -> 0 <= n2 -> sent_bytes k r b rq n1 s s1 b1 rq1 ->
  sent_bytes k (with_blk r b1) b1 rq1 n2 s1 s2 b2 rq2 ->
  sent_bytes k r b rq (n1 + n2) s s2 b2 rq2.
Proof.
  intros ?? [-> Hp1 Hm1 Hw1 Ht1 Hr1 Hl1] [-> Hp2 Hm2 Hw2 Ht2 Hr2 Hl2]. split.
  - destruct s; unfold set_blk_rqs, set_pdus; simpl. by rewrite !insert_insert_eq.
  - rewrite Hp2, Hp1, drop_drop. f_equal. lia.
  - lia.
  - done.
  - congruence.
  - rewrite Hr2, Hr1. done.
  - congruence.
Qed.

Lemma payload_head rq b x :
  rq_bios rq !! b_bio b = Some x ->
  payload rq b = bio_extent x ++ concat (bio_extent <$> drop (S (b_bio b)) (rq_bios rq)).
Proof. intros Hx. unfold payload. by rewrite (drop_S _ _ _ Hx). Qed.

(** One copy of the loop, of [n] bytes of the current segment. *)
Lemma send_step_wf rq b x n :
  xfer_wf rq b -> rq_bios rq !! b_bio b = Some x -> 0 <= n <= bv_len (mp_bvec_iter_bvec x) ->
  let x' := bio_advance_iter x n in
  let rq' := rq_with_bios rq (<[b_bio b := x']> (rq_bios rq)) in
  let b' := BlkPart (if bool_decide (bi_size x' = 0) then S (b_bio b) else b_bio b)
              (u64 (b_map_data b - n)) (b_mapped_size b) (b_map_type b) (b_blk_result b) in
  payload rq' b' = drop (Z.to_nat n) (payload rq b) /\
  b_map_data b' = b_map_data b - n /\ xfer_wf rq' b'.
Proof.
  intros (Hpos & Hmd & Hlt) Hx Hn x' rq' b'.
  pose proof (drop_S _ _ _ Hx) as Hdrop. rewrite Hdrop in Hpos.
  apply Forall_cons in Hpos as [Hxpos Hrest].
  assert (b_bio b < length (rq_bios rq))%nat as Hlen by (by eapply lookup_lt_Some).
  pose proof (bio_advance_extent x n Hxpos Hn) as Hadv. fold x' in Hadv.
  assert (n <= Z.of_nat (length (bio_extent x))) as Hnx.
  { destruct (bio_cur_extent x Hxpos) as [rest Hrest']. rewrite Hrest', length_app.
    unfold bv_addrs. rewrite length_seqZ. lia. }
  assert (payload rq' b' = drop (Z.to_nat n) (payload rq b)) as Hpay.
  { rewrite (payload_head rq b x Hx), drop_app_le by lia. rewrite <- Hadv.
    unfold payload, rq', b'; simpl. case_bool_decide as Hz.
    - rewrite bio_size_extent in Hz.
      assert (bio_extent x' = []) as -> by (apply length_zero_iff_nil; lia).
      rewrite drop_insert_lt by lia. done.
    - rewrite (drop_S _ x' (b_bio b)) by (by apply list_lookup_insert_eq).
      rewrite drop_insert_lt by lia. done. }
  assert (b_map_data b' = b_map_data b - n) as Hmd'.
  { simpl. apply wrap_small. rewrite (payload_head rq b x Hx), length_app in Hmd. lia. }
  split; [done|]. split; [done|]. split; [|split].
  - unfold rq', b'; simpl. case_bool_decide as Hz.
    + by rewrite drop_insert_lt by lia.
    + rewrite (drop_S _ x' (b_bio b)) by (by apply list_lookup_insert_eq).
      rewrite drop_insert_lt by lia. constructor; [|done].
      rewrite bio_size_extent in Hz |- *. lia.
  - rewrite Hpay, Hmd', length_drop, Hmd. rewrite (payload_head rq b x Hx), length_app in *. lia.
  - lia.
Qed.

Lemma payload_current rq b :
  xfer_wf rq b -> 0 < b_map_data b ->
  exists x, rq_bios rq !! b_bio b = Some x /\ 0 < bi_size x.
Proof.
  intros (Hpos & Hmd & _) Hlt. unfold payload in Hmd.
  destruct (rq_bios rq !! b_bio b) as [x|] eqn:Hx.
  - exists x. split; [done|]. rewrite (drop_S _ _ _ Hx) in Hpos. by inversion Hpos.
  - apply lookup_ge_None in Hx. rewrite (drop_ge _ _ Hx) in Hmd. simpl in Hmd. lia.
Qed.

(** The bytes one iteration copies are the head of the payload. *)
Lemma send_step_bytes m rq b x size :
  rq_bios rq !! b_bio b = Some x -> 0 < bi_size x ->
  size <= bv_len (mp_bvec_iter_bvec x) ->
  mem_read m (bv_start (mp_bvec_iter_bvec x)) size
    = take (Z.to_nat size) (mem_gather m (payload rq b)).
Proof.
  intros Hx Hpos Hsz. rewrite (payload_head rq b x Hx).
  destruct (bio_cur_extent x Hpos) as [rest ->]. unfold bv_addrs.
  rewrite <- mem_gather_take, <- app_assoc, take_app_le by (rewrite length_seqZ; lia).
  rewrite <- mem_gather_seqZ. f_equal.
  destruct (decide (0 <= size)) as [Hs|Hs].
  - rewrite <- (Zplus_minus size (bv_len (mp_bvec_iter_bvec x))), seqZ_app by lia.
    by rewrite take_app_le, take_ge by (rewrite length_seqZ; lia).
  - rewrite seqZ_nil by lia. by rewrite Z2Nat.nonpos by lia.
Qed.

Lemma send_data_loop_spec fuel k remain total to s r b rq :
  pdus s !! k = Some r -> req_u r = UBlk b -> blk_rqs s !! k = Some rq ->
  xfer_wf rq b -> 0 <= remain -> (Z.to_nat (b_map_data b) < fuel)%nat ->
  let n := Z.min (b_map_data b) (Z.min remain (iov_avail to)) in
  wp (bius_send_data_loop fuel k remain total to) (fun res s' =>
    res.1 = total + n /\
    iov_received res.2 =
      iov_received to ++ take (Z.to_nat n) (mem_gather (kmem s) (payload rq b)) /\
    exists b' rq', sent_bytes k r b rq n s s' b' rq') s.
Proof.
  revert remain total to s r b rq.
  induction fuel as [|fuel IH]; intros remain total to s r b rq Hr Hu Hrq Hwf Hrem Hfuel n; [lia|].
  pose proof (iov_avail_range to) as Hav. pose proof Hwf as (_ & Hmd & _).
  cbn [bius_send_data_loop]. ksteps.
  destruct ((0 <? b_map_data b) && (0 <? remain)) eqn:Hc; cycle 1.
  { apply wp_ret. assert (n = 0) as -> by lia. simpl. rewrite app_nil_r.
    split_and!; [lia|done|]. exists b, rq. by apply sent_bytes_refl. }
  destruct (payload_current rq b Hwf) as (x & Hx & Hxpos); [lia|].
  pose proof (bio_cur_pos x Hxpos) as Hcur.
  ksteps.
  set (size := Z.min (bv_len (mp_bvec_iter_bvec x)) remain).
  set (bs := mem_read (kmem s) (bv_start (mp_bvec_iter_bvec x)) size).
  assert (Z.of_nat (length bs) = size) as Hbs by (unfold bs; rewrite length_mem_read; lia).
  pose proof (copy_to_iter_ret bs to) as Hret. pose proof (copy_to_iter_avail bs to) as Hav'.
  pose proof (copy_to_iter_received bs to) as Hrcv.
  destruct (copy_to_iter bs to) as [c to'] eqn:Hcopy; cbn [fst snd] in *.
  assert (0 <= c <= bv_len (mp_bvec_iter_bvec x)) as Hcr by lia.
  destruct (send_step_wf rq b x c Hwf Hx Hcr) as (Hpay & Hmd1 & Hwf1).
  set (rq1 := rq_with_bios rq _) in *. set (b1 := BlkPart _ _ _ _ _) in *.
  set (s1 := set_pdus _ _).
  assert (sent_bytes k r b rq c s s1 b1 rq1) as Hs1 by (split; try done; apply length_insert).
  assert (bs = take (Z.to_nat size) (mem_gather (kmem s) (payload rq b))) as Hbytes
    by (by apply send_step_bytes; [| |lia]).
  destruct (negb (bool_decide (bi_size (bio_advance_iter x c) = 0)) && (c =? 0)) eqn:Hstop.
  - apply wp_ret. assert (c = 0) as -> by lia. assert (n = 0) as -> by lia.
    simpl. split_and!; [lia| |by exists b1, rq1]. by rewrite Hrcv.
  - assert (c <> 0) as Hc0.
    { intros ->. case_bool_decide as Hz; [|done].
      rewrite bio_size_extent, bio_advance_extent in Hz by (done || lia).
      rewrite bio_size_extent in Hxpos. simpl in Hz. rewrite drop_0 in Hz. lia. }
    eapply wp_mono.
    { apply (IH (remain - c) (total + c) to' s1 (with_blk r b1) b1 rq1); try done; try lia;
        unfold s1; simpl; by rewrite lookup_insert_eq. }
    intros [tot to2] s2 (Htot & Hrcv2 & b2 & rq2 & Hs2); cbn [fst snd] in *.
    set (n' := Z.min (b_map_data b1) _) in *.
    assert (0 <= n') as Hn' by (pose proof (iov_avail_range to'); destruct Hwf1 as (_ & ? & _); lia).
    assert (n = c + n') as Hn by (unfold n, n'; lia). rewrite Hn. split_and!; [lia| |].
    + rewrite Hrcv2, Hrcv, Hpay, <- app_assoc. f_equal. unfold s1; simpl.
      rewrite Hbytes, mem_gather_drop, take_take, Nat.min_l by lia.
      rewrite Z2Nat.inj_add by lia. by rewrite take_take_drop.
    + exists b2, rq2. eapply sent_bytes_trans; [lia|lia|exact Hs1|exact Hs2].
Qed.
End send_data.

(** ** Receiving: the user's bytes land on the request's segments *)

(** [scatter m addrs bs] stores the bytes [bs] at the addresses [addrs], in order. *)
Fixpoint scatter (m : memory) (addrs bs : list Z) : memory :=
  match addrs, bs with
  | a :: addrs', b :: bs' => scatter (<[a := b]> m) addrs' bs'
  | _, _ => m
  end.

Lemma mem_write_scatter m a bs : mem_write m a bs = scatter m (seqZ a (Z.of_nat (length bs))) bs.
Proof.
  revert m a. induction bs as [|b bs IH]; intros m a; [done|].
  cbn [mem_write length]. rewrite seqZ_cons by lia. cbn [scatter]. rewrite IH. do 2 f_equal; lia.
Qed.
Lemma scatter_app m l1 l2 bs :
  (length l1 <= length bs)%nat ->
  scatter m (l1 ++ l2) bs = scatter (scatter m l1 (take (length l1) bs)) l2 (drop (length l1) bs).
Proof.
  revert m bs. induction l1 as [|a l1 IH]; intros m bs Hl; [done|].
  destruct bs as [|b bs]; simpl in *; [lia|]. by rewrite IH by lia.
Qed.
Lemma scatter_outside m l bs x : x ∉ l -> scatter m l bs !! x = m !! x.
Proof.
  revert m bs. induction l as [|a l IH]; intros m [|b bs] Hx; try done.
  apply not_elem_of_cons in Hx as [Hne Hx]. simpl. rewrite IH by done.
  by apply lookup_insert_ne.
Qed.
Lemma gather_scatter m l bs :
  NoDup l -> length l = length bs -> mem_gather (scatter m l bs) l = bs.
Proof.
  intros Hnd; revert m bs. induction Hnd as [|a l Ha _ IH]; intros m [|b bs] Hl;
    try done. simpl in *. f_equal; [|by apply IH; lia].
  rewrite scatter_outside by done. by rewrite lookup_insert_eq.
Qed.

Lemma user_holds_drop um a bs n :
  0 <= n <= Z.of_nat (length bs) ->
  user_holds um a bs -> user_holds um (a + n) (drop (Z.to_nat n) bs).
Proof.
  intros Hn H i k Hi Hk Hik. rewrite length_drop in Hik.
  rewrite <- Z.add_assoc, H by lia. by rewrite drop_drop, Z2Nat.inj_add by lia.
Qed.

Section receive_data.
Context `{BL : BioLaws}.

(** The addresses of the whole request. *)
Definition rq_extent (rq : request) : list Z := concat (bio_extent <$> rq_bios rq).

Lemma rq_segments_extent rq : concat (bv_addrs <$> rq_for_each_segment rq) = rq_extent rq.
Proof.
  unfold rq_for_each_segment, rq_extent. induction (rq_bios rq) as [|x xs IH]; [done|].
  rewrite !fmap_cons. cbn [concat]. rewrite fmap_app, concat_app, IH.
  by rewrite bio_segments_extent.
Qed.
Lemma rq_segments_len rq : Forall (fun v => 0 <= bv_len v) (rq_for_each_segment rq).
Proof.
  unfold rq_for_each_segment. induction (rq_bios rq) as [|x xs IH]; [constructor|].
  rewrite fmap_cons. cbn [concat]. apply Forall_app. split; [|done]. apply bio_segments_len.
Qed.
Lemma length_bv_addrs v : 0 <= bv_len v -> Z.of_nat (length (bv_addrs v)) = bv_len v.
Proof. intros. unfold bv_addrs. rewrite length_seqZ. lia. Qed.

Lemma receive_segments_ok um segs ud bs (s : kstate) :
  Forall (fun v => 0 <= bv_len v) segs ->
  user_holds um ud bs -> length bs = length (concat (bv_addrs <$> segs)) ->
  receive_segments um segs ud s
    = Ret (0, set_kmem (fun m => scatter m (concat (bv_addrs <$> segs)) bs) s).
Proof.
  intros Hlen; revert ud bs s. induction Hlen as [|v segs Hv _ IH]; intros ud bs s Hum Hbs.
  { by destruct s. }
  rewrite fmap_cons in *. cbn [concat] in *. rewrite length_app in Hbs.
  pose proof (length_bv_addrs v Hv) as Hva.
  cbn [receive_segments]. unfold mbind at 1, ST_bind at 1, modify.
  assert (not_copied um ud (bv_len v) = 0) as ->.
  { rewrite <- (Z.add_0_r ud). eapply user_holds_not_copied; [done|lia..]. }
  assert (copied_padded um ud (bv_len v) = take (length (bv_addrs v)) bs) as ->.
  { rewrite <- (Z.add_0_r ud). erewrite user_holds_padded by (done || lia).
    rewrite drop_0. f_equal; lia. }
  rewrite Z.ltb_irrefl, (IH _ (drop (Z.to_nat (bv_len v)) bs)).
  - do 2 f_equal. unfold set_kmem; simpl. f_equal.
    rewrite scatter_app, mem_write_scatter by lia.
    replace (Z.of_nat (length (take _ bs))) with (bv_len v) by solve_len.
    replace (length (bv_addrs v)) with (Z.to_nat (bv_len v)) by lia. done.
  - apply user_holds_drop; [lia|done].
  - rewrite length_drop. lia.
Qed.

(** Some segment of the request cannot be read in full from the user's buffer. *)
Fixpoint user_faults (um : user_mem) (segs : list bio_vec) (ud : Z) : bool :=
  match segs with
  | [] => false
  | v :: segs' => (0 <? not_copied um ud (bv_len v)) || user_faults um segs' (ud + bv_len v)
  end.

(** Whatever the user's memory, only the request's own bytes change. *)
Lemma receive_segments_frame um segs ud (s : kstate) :
  Forall (fun v => 0 <= bv_len v) segs ->
  exists m, receive_segments um segs ud s =
    Ret (if user_faults um segs ud then - EIO else 0, set_kmem (fun _ => m) s) /\
    forall x, x ∉ concat (bv_addrs <$> segs) -> m !! x = kmem s !! x.
Proof.
  intros Hlen; revert ud s. induction Hlen as [|v segs Hv _ IH]; intros ud s.
  { exists (kmem s). by destruct s. }
  rewrite fmap_cons. cbn [concat receive_segments user_faults].
  unfold mbind at 1, ST_bind at 1, modify. set (s1 := set_kmem _ s).
  assert (forall x, x ∉ bv_addrs v -> kmem s1 !! x = kmem s !! x) as Hs1.
  { intros x Hx. unfold s1; simpl. apply mem_write_outside.
    rewrite length_copied_padded by done. unfold bv_addrs in Hx.
    rewrite elem_of_seqZ in Hx. lia. }
  destruct (0 <? not_copied um ud (bv_len v)) eqn:E; simpl orb.
  { exists (kmem s1). split; [done|]. intros x Hx. apply Hs1.
    intros Hin. apply Hx, elem_of_app. by left. }
  destruct (IH (ud + bv_len v) s1) as (m & -> & Hm). exists m. split; [done|].
  intros x [Hx1 Hx2]%not_elem_of_app. rewrite Hm by done. by apply Hs1.
Qed.
End receive_data.

(** ** What the two transfers promise *)
Section transfer.
Context `{BL : BioLaws} `{IL : IovLaws}.

Lemma send_data_spec k remain to s r b rq :
  pdus s !! k = Some r -> req_u r = UBlk b -> blk_rqs s !! k = Some rq ->
  b_map_type b = BIUS_DATAMAP_UNMAPPED -> xfer_wf rq b -> 0 <= remain ->
  let n := Z.min (b_map_data b) (Z.min remain (iov_avail to)) in
  wp (bius_send_data k remain to) (fun res s' =>
    res.1 = n /\
    iov_received res.2 =
      iov_received to ++ take (Z.to_nat n) (mem_gather (kmem s) (payload rq b)) /\
    exists b' rq', sent_bytes k r b rq n s s' b' rq') s.
Proof.
  intros Hr Hu Hrq Hmt Hwf Hrem n. unfold bius_send_data. ksteps.
  pose proof (iov_avail_range to) as Hav. case_bool_decide as Hnone.
  - assert (payload rq b = []) as Hp.
    { unfold payload. apply lookup_ge_None in Hnone. by rewrite drop_ge. }
    assert (n = 0) as ->. { destruct Hwf as (_ & Hmd & _). rewrite Hp in Hmd. simpl in Hmd. lia. }
    apply wp_ret. simpl. rewrite app_nil_r. split_and!; [done..|]. exists b, rq. by apply sent_bytes_refl.
  - rewrite Hmt. simpl negb. cbv iota.
    eapply wp_mono; [by apply (send_data_loop_spec _ k remain 0 to s r b rq); try done; lia|].
    intros res s' (H1 & H2 & H3). by rewrite H1.
Qed.

(** [bius_send_data] copies the next [min(map_data, remain_buffer, what the
    user buffer takes)] bytes of the request's payload to the user's buffer, in
    the order of the bios and segments, and leaves the request describing
    exactly the rest of the payload: the loop terminates, nothing is sent
    twice and nothing is skipped. *)
Theorem bius_send_data_delivers k remain to s r b rq :
  pdus s !! k = Some r -> req_u r = UBlk b -> blk_rqs s !! k = Some rq ->
  b_map_type b = BIUS_DATAMAP_UNMAPPED -> xfer_wf rq b -> 0 <= remain ->
  let n := Z.min (b_map_data b) (Z.min remain (iov_avail to)) in
  wp (bius_send_data k remain to) (fun res s' =>
    res.1 = n /\
    iov_received res.2 =
      iov_received to ++ take (Z.to_nat n) (mem_gather (kmem s) (payload rq b)) /\
    exists b' rq', sent_bytes k r b rq n s s' b' rq') s.
Proof. apply send_data_spec. Qed.

(** What [bius_receive_data] leaves of the memory: every address outside the
    request is untouched. *)
Lemma receive_data_spec um k ud s r b rq :
  pdus s !! k = Some r -> req_u r = UBlk b -> blk_rqs s !! k = Some rq ->
  b_map_type b = BIUS_DATAMAP_UNMAPPED -> (b_bio b < length (rq_bios rq))%nat ->
  exists m, bius_receive_data um k ud s =
    Ret (if user_faults um (rq_for_each_segment rq) ud then - EIO else 0, set_kmem (fun _ => m) s) /\
    (forall x, x ∉ rq_extent rq -> m !! x = kmem s !! x) /\
    (forall bs, user_holds um ud bs -> length bs = length (rq_extent rq) ->
      user_faults um (rq_for_each_segment rq) ud = false /\ m = scatter (kmem s) (rq_extent rq) bs).
Proof.
  intros Hr Hu Hrq Hmt Hlen.
  assert (bius_receive_data um k ud s = receive_segments um (rq_for_each_segment rq) ud s) as ->.
  { unfold bius_receive_data, get_pdu, get_rq, gets, mbind, ST_bind, blk_arm.
    rewrite Hr. cbn [deref mret ST_ret]. rewrite Hu. cbn [mret ST_ret]. rewrite Hrq.
    cbn [deref mret ST_ret]. rewrite bool_decide_eq_false_2, Hmt; [done|].
    rewrite lookup_ge_None. lia. }
  destruct (receive_segments_frame um _ ud s (rq_segments_len rq)) as (m & Hm & Hout).
  rewrite rq_segments_extent in Hout. exists m. split_and!; [done..|]. intros bs Hum Hbs.
  pose proof (receive_segments_ok um _ ud bs s (rq_segments_len rq) Hum) as Hok.
  rewrite rq_segments_extent in Hok. rewrite Hm in Hok. specialize (Hok Hbs).
  injection Hok as Hres Hst. split; [by destruct (user_faults _ _ _)|done].
Qed.

(** When the user's buffer holds the data of a read, [bius_receive_data]
    returns 0 and the request's segments hold exactly those bytes, in order;
    memory outside the request does not change. *)
Theorem bius_receive_data_scatters um k ud s r b rq bs :
  pdus s !! k = Some r -> req_u r = UBlk b -> blk_rqs s !! k = Some rq ->
  b_map_type b = BIUS_DATAMAP_UNMAPPED -> (b_bio b < length (rq_bios rq))%nat ->
  NoDup (rq_extent rq) -> user_holds um ud bs -> length bs = length (rq_extent rq) ->
  wp (bius_receive_data um k ud) (fun ret s' =>
    ret = 0 /\ mem_gather (kmem s') (rq_extent rq) = bs /\
    forall x, x ∉ rq_extent rq -> kmem s' !! x = kmem s !! x) s.
Proof.
  intros Hr Hu Hrq Hmt Hlen Hnd Hum Hbs.
  destruct (receive_data_spec um k ud s r b rq Hr Hu Hrq Hmt Hlen) as (m & Hm & Hout & Hok).
  destruct (Hok bs Hum Hbs) as [Hnf ->]. rewrite Hnf in Hm.
  eapply wp_intro; [exact Hm|]. simpl. split_and!; [done| |done]. by apply gather_scatter.
Qed.

(** Whatever the user's buffer holds, [bius_receive_data] returns 0 or
    -EIO, -EIO exactly when a segment could not be read in full, and never
    writes outside the request. *)
Theorem bius_receive_data_contained um k ud s r b rq :
  pdus s !! k = Some r -> req_u r = UBlk b -> blk_rqs s !! k = Some rq ->
  b_map_type b = BIUS_DATAMAP_UNMAPPED -> (b_bio b < length (rq_bios rq))%nat ->
  wp (bius_receive_data um k ud) (fun ret s' =>
    ret = (if user_faults um (rq_for_each_segment rq) ud then - EIO else 0) /\
    (forall x, x ∉ rq_extent rq -> kmem s' !! x = kmem s !! x) /\
    blk_rqs s' = blk_rqs s /\ pdus s' = pdus s) s.
Proof.
  intros Hr Hu Hrq Hmt Hlen.
  destruct (receive_data_spec um k ud s r b rq Hr Hu Hrq Hmt Hlen) as (m & Hm & Hout & _).
  by eapply wp_intro; [exact Hm|].
Qed.
End transfer.

Lemma sample_xfer_wf op : xfer_wf (sample_rq op) (sample_blk 9).
Proof. split_and!; [|by vm_compute..]. repeat constructor. Qed.

Lemma bius_send_data_delivers_witness :
  wp (bius_send_data 7 4 (sample_buf 4 4 []))
    (fun res s' => res.1 = 4 /\ iov_received res.2 = [11; 12; 13; 21] /\ is_Some (pdus s' !! 7))
    (sample_state [] [7] (Some 7)).
Proof.
  eapply wp_mono.
  - by apply (bius_send_data_delivers 7 4 (sample_buf 4 4 []) (sample_state [] [7] (Some 7))
                (sample_pdu 1 BIUS_WRITE 9) (sample_blk 9) (sample_rq 1)); try apply sample_xfer_wf.
  - intros [n u] s' (Hn & Hu & b' & rq' & [-> _ _ _ _ _ _]). simpl in *. subst n.
    split_and!; [done|by rewrite Hu|by eexists].
Defined.

Lemma bius_receive_data_scatters_witness :
  wp (bius_receive_data (user_buffer 1000 (rev sample_bytes)) 8 1000)
    (fun ret s' => ret = 0 /\ mem_gather (kmem s') sample_addrs = rev sample_bytes)
    (sample_state [] [8] None).
Proof.
  eapply wp_mono.
  - apply (bius_receive_data_scatters (user_buffer 1000 (rev sample_bytes)) 8 1000 (sample_state [] [8] None)
             (sample_pdu 2 BIUS_READ 0) (sample_blk 0) (sample_rq 0) (rev sample_bytes));
      try reflexivity; [simpl; lia|by apply (bool_decide_unpack _); vm_compute|apply user_buffer_holds].
  - intros ret s' (-> & Hm & _). split; [done|]. exact Hm.
Defined.

(** The user's buffer ends after six bytes. *)
Lemma bius_receive_data_contained_witness :
  wp (bius_receive_data (user_buffer 1000 [1; 2; 3; 4; 5; 6]) 8 1000)
    (fun ret s' => ret = - EIO /\ kmem s' !! 4099 = None) (sample_state [] [8] None).
Proof.
  eapply wp_mono.
  - apply (bius_receive_data_contained (user_buffer 1000 [1; 2; 3; 4; 5; 6]) 8 1000 (sample_state [] [8] None)
             (sample_pdu 2 BIUS_READ 0) (sample_blk 0) (sample_rq 0)); try reflexivity. simpl; lia.
  - intros ret s' (-> & Hm & _). split; [done|]. rewrite Hm; [done|].
    by apply (bool_decide_unpack _); vm_compute.
Defined.
