(* ===== verification/BlockDev.v ===== *)
(** * The block device side of the module

    [block_dev.c]: requests arriving from blk-mq, zone reports, and the life of
    a device. *)
From S2P Require Import Prelude Protocol Linux Kernel Sample.

(** ** Disk names: [char\[DISK_NAME_LEN\]], compared and copied as C strings *)

Fixpoint strncmp_eq (n : nat) (a b : list Z) : bool :=
  match n with
  | O => true
  | S n' =>
      let x := hd 0 a in let y := hd 0 b in
      if x =? y then if x =? 0 then true else strncmp_eq n' (tl a) (tl b) else false
  end.

Fixpoint strncpy (n : nat) (src : list Z) : list Z :=
  match n with
  | O => []
  | S n' => let x := hd 0 src in
      if x =? 0 then replicate (S n') 0 else x :: strncpy n' (tl src)
  end.

(** What [strncpy] stores compares equal to what it was copied from. *)
Lemma strncpy_eq n src : strncmp_eq n (strncpy n src) src = true.
Proof.
  revert src. induction n as [|n IH]; intros src; [done|].
  cbn [strncpy]. destruct (Z.eqb_spec (hd 0 src) 0) as [H0|Hne]; cbn [strncmp_eq replicate hd tl].
  - by rewrite H0.
  - rewrite Z.eqb_refl, (proj2 (Z.eqb_neq _ _) Hne). apply IH.
Qed.
Lemma strncmp_eq_refl n a : strncmp_eq n a a = true.
Proof.
  revert a. induction n as [|n IH]; intros a; [done|]. cbn [strncmp_eq]. rewrite Z.eqb_refl.
  destruct (hd 0 a =? 0); [done|apply IH].
Qed.
Lemma strncmp_eq_sym n a b : strncmp_eq n a b = strncmp_eq n b a.
Proof.
  revert a b. induction n as [|n IH]; intros a b; [done|]. cbn [strncmp_eq]. rewrite (Z.eqb_sym (hd 0 b)).
  destruct (Z.eqb_spec (hd 0 a) (hd 0 b)) as [->|]; [|done]. destruct (hd 0 b =? 0); [done|apply IH].
Qed.
Lemma strncmp_eq_strncpy n a b : strncmp_eq n a (strncpy n b) = strncmp_eq n a b.
Proof.
  revert a b. induction n as [|n IH]; intros a b; [done|]. cbn [strncpy].
  destruct (Z.eqb_spec (hd 0 b) 0) as [Hb|Hb]; cbn [strncmp_eq replicate hd tl].
  - rewrite Hb. by destruct (Z.eqb_spec (hd 0 a) 0).
  - destruct (Z.eqb_spec (hd 0 a) (hd 0 b)) as [Ha|]; [|done]. rewrite Ha.
    destruct (Z.eqb_spec (hd 0 b) 0); [done|apply IH].
Qed.
(** A name cut at its first 0, and filled up with zeros, is the same name. *)
Lemma strncmp_eq_cut N n a k :
  a !! n = Some 0 -> strncmp_eq N (take n a ++ replicate k 0) a = true.
Proof.
  revert N a. induction n as [|n IH]; intros [|N] [|x a] Ha; try done; cbn [strncmp_eq take app hd tl].
  - injection Ha as ->. by destruct k.
  - rewrite Z.eqb_refl. destruct (x =? 0); [done|]. by apply IH.
Qed.
Arguments strncmp_eq : simpl never.
Arguments strncpy : simpl never.

Section block_dev.
Context `{BO : BioOps} `{LC : LinuxConst}.
Abbreviation K := (ST kstate).

(** [atomic64_inc_return(&next_request_id)] *)
Definition inc_request_id : K Z :=
  n ← gets next_request_id;
  _ ← modify (set_next_id (fun _ => u64 (n + 1)));
  mret (u64 (n + 1)).

Definition to_bius_request (op : Z) : bius_req :=
  if decide (op = REQ_OP_READ) then BIUS_READ
  else if decide (op = REQ_OP_WRITE) then BIUS_WRITE
  else if decide (op = REQ_OP_FLUSH) then BIUS_FLUSH
  else if decide (op = REQ_OP_DISCARD) then BIUS_DISCARD
  else if decide (op ∈ [REQ_OP_ZONE_OPEN; REQ_OP_ZONE_CLOSE; REQ_OP_ZONE_FINISH;
                        REQ_OP_ZONE_APPEND; REQ_OP_ZONE_RESET; REQ_OP_ZONE_RESET_ALL])
  then to_bius_req op
  else BIUS_INVALID_OP.

(** What the pdu's union holds before [bius_queue_rq] writes to it: the blk arm
    of the previous use of the tag, or zeros. *)
Definition old_blk_part (o : option bius_request) : blk_part :=
  match o with
  | Some (BiusRequest _ _ _ _ (UBlk b) _) => b
  | _ => BlkPart 0 0 0 BIUS_DATAMAP_UNMAPPED 0
  end.

Definition bius_queue_rq (device k : Z) : K Z :=
  rq ← get_rq k;
  let pos := s64 (u64 (Z.shiftl (rq_pos rq) SECTOR_SHIFT)) in
  _ ← emit (EvStart k);
  id ← inc_request_id;
  ps ← gets pdus;
  let b := old_blk_part (ps !! k) in
  let type := to_bius_request (rq_op rq) in
  _ ← put_pdu k (BiusRequest id type pos (rq_bytes rq)
         (UBlk (BlkPart 0 (b_map_data b) (b_mapped_size b) BIUS_DATAMAP_UNMAPPED (b_blk_result b)))
         fn_bius_blk_request_end);
  if bool_decide (type = BIUS_INVALID_OP) then
    _ ← blk_mq_end_request k BLK_STS_NOTSUPP;
    mret BLK_STS_NOTSUPP
  else
    d ← get_dev device;
    _ ← put_dev device (dev_with_pending d (dev_pending d ++ [k]));
    _ ← emit (EvWakeUp device);
    mret BLK_STS_OK.

(** [bius_complete_rq] reads [int_result] of a request whose union holds the
    other arm. *)
Definition bius_complete_rq (k : Z) : K unit :=
  r ← get_pdu k;
  i ← int_arm r;
  v ← deref UninitRead (i_int_result i);
  blk_mq_end_request k v.

(** ** Zone reports *)

(** The zones handed to the callback, [blkz\[0\]] to [blkz\[nr - 1\]]; [left]
    counts those still to hand out. *)
Fixpoint report_zones_loop (blkz size : Z) (cb : list Z -> Z -> K Z) (nr : Z) (left : nat) : K Z :=
  match left with
  | O => mret nr
  | S left' =>
      let i := nr - Z.of_nat left in
      if size <? (i + 1) * sizeof_blk_zone then fail OutOfBounds
      else
        m ← gets kmem;
        result ← cb (mem_read m (blkz + i * sizeof_blk_zone) sizeof_blk_zone) i;
        if negb (result =? 0) then mret result
        else report_zones_loop blkz size cb nr left'
  end.

(** Up to the wait: the request goes on the pending list of the device. *)
Definition report_submit (device sector nr blkz kreq : Z) : K unit :=
  _ ← modify (set_kbufs <[blkz := sizeof_blk_zone * nr]>);
  id ← inc_request_id;
  _ ← put_pdu kreq (BiusRequest id BIUS_REPORT_ZONES (s64 (u64 (Z.shiftl sector SECTOR_SHIFT)))
         nr (UInt (IntPart blkz 0 None)) fn_bius_report_zones_request_end);
  d ← get_dev device;
  _ ← put_dev device (dev_with_pending d (dev_pending d ++ [kreq]));
  emit (EvWakeUp device).

(** [down_killable(&request.sem)]: it takes the semaphore if it is up, else it gives up
    when the task has been [killed], else it sleeps. *)
Definition down_killable (killed : bool) (kreq : Z) : K Z :=
  r ← get_pdu kreq;
  i ← int_arm r;
  if i_sem i <=? 0 then if killed then mret (- EINTR) else exhausted
  else
    _ ← put_pdu kreq (with_int r (IntPart (i_data i) (i_sem i - 1) (i_int_result i)));
    mret 0.

(** From the wait on, with [res] its result.  On return the buffer is freed and
    the stack frame is gone. *)
Definition report_finish (nr blkz kreq : Z) (cb : list Z -> Z -> K Z) (res : Z) : K Z :=
  result ← (if res <? 0 then mret res
            else
              r ← get_pdu kreq;
              i ← int_arm r;
              v ← deref UninitRead (i_int_result i);
              if v <? 0 then mret v
              else report_zones_loop blkz (sizeof_blk_zone * nr) cb (v / sizeof_blk_zone)
                     (Z.to_nat (v / sizeof_blk_zone)));
  _ ← modify (set_kbufs (delete blkz));
  _ ← modify (set_pdus (delete kreq));
  mret result.

(** [bius_report_zones].  [blkz] is the kvmalloc'ed buffer ([None]: no memory),
    [kreq] the address of the on-stack request, [wait] what happens
    until the semaphore is taken or the sleep is interrupted. *)
Definition bius_report_zones (device sector nr_zones : Z) (blkz : option Z) (kreq : Z)
    (wait : K Z) (cb : list Z -> Z -> K Z) : K Z :=
  let nr := Z.min nr_zones BIUS_MAX_ZONES in
  match blkz with
  | None => mret (- ENOMEM)
  | Some blkz =>
      _ ← report_submit device sector nr blkz kreq;
      res ← wait;
      report_finish nr blkz kreq cb res
  end.

(** ** Devices *)

(** The results of the allocations [create_block_device] makes:
    [ce_kmalloc] the device's address, [ce_register_blkdev] the major number
    or an error, [ce_init_queue] 0 or [PTR_ERR] of the queue. *)
Record create_env := CreateEnv {
  ce_kmalloc : option Z;
  ce_register_blkdev : Z;
  ce_alloc_disk : bool;
  ce_alloc_tag_set : Z;
  ce_init_queue : Z }.

Definition create_limits (o : bius_block_device_options) : queue_limits :=
  QueueLimits 0 BIUS_MAX_SEGMENTS (BIUS_MAX_SIZE_PER_COMMAND / SECTOR_SIZE)
    (BIUS_MAX_SIZE_PER_COMMAND / SECTOR_SIZE) (BIUS_MAX_SIZE_PER_COMMAND / SECTOR_SIZE)
    (512 * 1024)
    (if bool_decide (opt_model o = BLK_ZONED_NONE) then None
     else Some (ZoneLimits BLK_ZONED_HM true BIUS_MAX_ZONE_SECTORS (opt_max_open_zones o)
                  (opt_max_active_zones o))).

Definition create_gendisk (o : bius_block_device_options) (major : Z) : gendisk :=
  Gendisk (strncpy (Z.to_nat DISK_NAME_LEN) (opt_disk_name o)) major 1
    (opt_disk_size o / SECTOR_SIZE) (create_limits o).

(** The labels [out_free_tag_set] .. [out_free_device]: releasing, from the
    label on, in the code's order. *)
Definition out_free_device (ret : Z) : K (Z * option Z) :=
  _ ← emit (EvRelease ResDevice); mret (ret, None).
Definition out_unregister (ret : Z) : K (Z * option Z) :=
  _ ← emit (EvRelease ResMajor); out_free_device ret.
Definition out_put_disk (ret : Z) : K (Z * option Z) :=
  _ ← emit (EvRelease ResDisk); out_unregister ret.
Definition out_free_tag_set (ret : Z) : K (Z * option Z) :=
  _ ← emit (EvRelease ResTagSet); out_put_disk ret.

(** The result is [ret] and what [*out_device] is set to, if it is. *)
Definition create_block_device (e : create_env) (o : bius_block_device_options)
    : K (Z * option Z) :=
  match ce_kmalloc e with
  | None => mret (- ENOMEM, None)
  | Some dev =>
      _ ← emit (EvAcquire ResDevice);
      let ret := ce_register_blkdev e in
      if ret <? 0 then out_free_device ret
      else
        _ ← emit (EvAcquire ResMajor);
        let major := ret in
        if negb (ce_alloc_disk e) then out_unregister ret
        else
          _ ← emit (EvAcquire ResDisk);
          let ret := ce_alloc_tag_set e in
          if ret <? 0 then out_put_disk ret
          else
            _ ← emit (EvAcquire ResTagSet);
            if negb (ce_init_queue e =? 0) then out_free_tag_set (ce_init_queue e)
            else
              _ ← emit (EvAcquire ResQueue);
              _ ← put_dev dev (BlockDevice major (create_gendisk o major) (opt_model o) 0 []);
              _ ← emit (EvAddDisk dev);
              _ ← modify (set_disk_list (fun l => l ++ [dev]));
              mret (0, Some dev)
  end.

(** The loop of [get_block_device], over the reversed list. *)
Fixpoint find_device (l : list Z) (name : list Z) : K (option Z) :=
  match l with
  | [] => mret None
  | d :: l' =>
      v ← get_dev d;
      if strncmp_eq (Z.to_nat DISK_NAME_LEN) (gd_disk_name (dev_disk v)) name then mret (Some d)
      else find_device l' name
  end.
Definition get_block_device (name : list Z) : K (option Z) :=
  l ← gets all_disk_list;
  find_device (reverse l) name.

(** The loop of [remove_block_device] over the pending requests.  No lock is held:
    [meanwhile] is what others do to the lists after a request has ended. *)
Definition end_pending (meanwhile : Z -> K unit) (dev : Z) : K unit :=
  list_for_each_entry meanwhile (fun k => blk_mq_end_request k BLK_STS_IOERR) (pending_requests dev).

(** [remove_block_device(owner->disk->disk_name)], as its only caller calls it.  The
    name is read where it lies, in the disk of [owner]: at the start to find the
    device, and at the end, after [put_disk], by [unregister_blkdev]. *)
Definition remove_around (meanwhile : Z -> K unit) (owner : Z) : K unit :=
  v ← get_dev owner;
  o ← get_block_device (gd_disk_name (dev_disk v));
  match o with
  | None => mret tt
  | Some dev =>
      _ ← modify (set_disk_list (list_del dev));
      _ ← get_dev dev;
      _ ← end_pending meanwhile dev;
      _ ← emit (EvDelDisk dev);
      _ ← emit (EvRelease ResTagSet);
      _ ← emit (EvRelease ResDisk);
      _ ← emit (EvReadName owner);
      emit (EvRelease ResMajor)
  end.
Definition remove_block_device (owner : Z) : K unit := remove_around undisturbed_walk owner.

(** [bius_revalidate] starts a kernel thread that calls [blk_revalidate_disk_zones]. *)
Definition bius_revalidate (dev : Z) : K unit := emit (EvRevalidate dev).
End block_dev.

(** ** Requests from blk-mq *)
Section queueing.
Context `{BL : BioLaws} `{LCL : LinuxConstLaws}.

(** [to_bius_request] maps each supported operation of the block layer to
    the protocol's operation of the same name, zone operations keeping their
    number, and every other operation to [BIUS_INVALID_OP]. *)
Theorem to_bius_request_faithful op :
  (op = REQ_OP_READ /\ to_bius_request op = BIUS_READ) \/
  (op = REQ_OP_WRITE /\ to_bius_request op = BIUS_WRITE) \/
  (op = REQ_OP_FLUSH /\ to_bius_request op = BIUS_FLUSH) \/
  (op = REQ_OP_DISCARD /\ to_bius_request op = BIUS_DISCARD) \/
  (op ∈ [REQ_OP_ZONE_OPEN; REQ_OP_ZONE_CLOSE; REQ_OP_ZONE_FINISH; REQ_OP_ZONE_APPEND;
         REQ_OP_ZONE_RESET; REQ_OP_ZONE_RESET_ALL] /\
    to_bius_request op ∈ [BIUS_ZONE_OPEN; BIUS_ZONE_CLOSE; BIUS_ZONE_FINISH; BIUS_ZONE_APPEND;
                          BIUS_ZONE_RESET; BIUS_ZONE_RESET_ALL] /\
    bius_req_value (to_bius_request op) = op) \/
  (op ∉ [REQ_OP_READ; REQ_OP_WRITE; REQ_OP_FLUSH; REQ_OP_DISCARD; REQ_OP_ZONE_OPEN;
         REQ_OP_ZONE_CLOSE; REQ_OP_ZONE_FINISH; REQ_OP_ZONE_APPEND; REQ_OP_ZONE_RESET;
         REQ_OP_ZONE_RESET_ALL] /\ to_bius_request op = BIUS_INVALID_OP).
Proof.
  pose proof req_op_zone as Hz. pose proof req_op_distinct as Hnd. unfold to_bius_request.
  repeat (apply NoDup_cons in Hnd as [? Hnd]).
  repeat (case_decide; [subst; tauto|]).
  case_decide as Hin.
  - do 4 right. left. split; [done|]. rewrite Hz in Hin. simpl in Hin.
    repeat (apply elem_of_cons in Hin as [->|Hin]; [split; [|done]; set_solver|]). by apply elem_of_nil in Hin.
  - do 5 right. split; [|done]. rewrite !not_elem_of_cons in *. tauto.
Qed.

(** The pdu a queued request gets, and the state after queueing. *)
Definition queued_pdu (s : kstate) (k : Z) (rq : request) : bius_request :=
  let b := old_blk_part (pdus s !! k) in
  BiusRequest (u64 (next_request_id s + 1)) (to_bius_request (rq_op rq))
    (s64 (u64 (Z.shiftl (rq_pos rq) SECTOR_SHIFT))) (rq_bytes rq)
    (UBlk (BlkPart 0 (b_map_data b) (b_mapped_size b) BIUS_DATAMAP_UNMAPPED (b_blk_result b)))
    fn_bius_blk_request_end.
Definition queued (s : kstate) (device k : Z) (rq : request) (d : bius_block_device) : kstate :=
  KState (u64 (next_request_id s + 1)) (blk_rqs s) (<[k := queued_pdu s k rq]> (pdus s))
    (<[device := dev_with_pending d (dev_pending d ++ [k])]> (devices s)) (all_disk_list s)
    (connections s) (kmem s) (kbufs s) (trace s ++ [EvStart k; EvWakeUp device]).

Lemma queue_rq_supported device k rq d s :
  blk_rqs s !! k = Some rq -> devices s !! device = Some d ->
  to_bius_request (rq_op rq) <> BIUS_INVALID_OP ->
  bius_queue_rq device k s = Ret (BLK_STS_OK, queued s device k rq d).
Proof.
  intros Hrq Hd Hop. unfold bius_queue_rq, get_rq, gets, mbind, ST_bind. rewrite Hrq.
  cbn [deref mret ST_ret]. unfold emit, modify, inc_request_id, put_pdu.
  rewrite bool_decide_eq_false_2 by done. unfold get_dev, gets, mbind, ST_bind. simpl.
  rewrite Hd. simpl. unfold queued, emit_event, set_devices; simpl. by rewrite <- app_assoc.
Qed.

(** A supported request is accepted: it gets the next request id, is
    described by its operation, byte position and length, and joins the
    device's pending requests at the tail, the device's readers being woken. *)
Theorem bius_queue_rq_enqueues device k rq d s :
  blk_rqs s !! k = Some rq -> devices s !! device = Some d ->
  to_bius_request (rq_op rq) <> BIUS_INVALID_OP ->
  0 <= rq_pos rq < 2 ^ 54 -> next_request_id s + 1 < 2 ^ 64 -> 0 <= next_request_id s ->
  wp (bius_queue_rq device k) (fun res s' =>
    res = BLK_STS_OK /\ blk_rqs s' = blk_rqs s /\
    devices s' = <[device := dev_with_pending d (dev_pending d ++ [k])]> (devices s) /\
    trace s' = trace s ++ [EvStart k; EvWakeUp device] /\
    exists r b, pdus s' = <[k := r]> (pdus s) /\ req_u r = UBlk b /\ b_bio b = O /\
      b_map_type b = BIUS_DATAMAP_UNMAPPED /\ req_id r = next_request_id s + 1 /\
      req_type r = to_bius_request (rq_op rq) /\ req_pos r = rq_pos rq * SECTOR_SIZE /\
      req_length r = rq_bytes rq) s.
Proof.
  intros Hrq Hd Hop Hpos Hid Hid0. eapply wp_intro; [by apply queue_rq_supported|].
  split_and!; try done. eexists _, _. split_and!; try done; simpl.
  - apply wrap_small; lia.
  - unfold SECTOR_SHIFT, SECTOR_SIZE. rewrite Z.shiftl_mul_pow2 by lia.
    rewrite wrap_small, swrap_small by lia. lia.
Qed.

(** A request with an unsupported operation is completed with
    [BLK_STS_NOTSUPP] and, in addition, reported as failed to the caller, which
    owns no request any more: completing it on that report, as blk-mq does, is
    a use after free. *)
Theorem bius_queue_rq_unsupported_ended_twice device k rq s :
  blk_rqs s !! k = Some rq -> to_bius_request (rq_op rq) = BIUS_INVALID_OP ->
  wp (bius_queue_rq device k) (fun res s' =>
    res = BLK_STS_NOTSUPP /\ devices s' = devices s /\
    trace s' = trace s ++ [EvStart k; EvEnd k BLK_STS_NOTSUPP] /\
    blk_rqs s' = delete k (blk_rqs s) /\ blk_mq_end_request k BLK_STS_IOERR s' = Fault DanglingPtr) s.
Proof.
  intros Hrq Hop. unfold bius_queue_rq. ksteps. unfold inc_request_id. ksteps.
  rewrite bool_decide_eq_true_2 by done. unfold blk_mq_end_request at 1. ksteps. simpl.
  split_and!; try done.
  - by rewrite <- app_assoc.
  - unfold blk_mq_end_request, get_rq, gets, mbind, ST_bind; simpl.
    by rewrite lookup_delete_eq.
Qed.
End queueing.

(** ** The life of a device *)
Section lifetime.
Context `{BO : BioOps}.

(** [find_device] and [get_block_device], when every listed device is live. *)
Definition named (s : kstate) (name : list Z) (d : Z) : bool :=
  match devices s !! d with
  | Some v => strncmp_eq (Z.to_nat DISK_NAME_LEN) (gd_disk_name (dev_disk v)) name
  | None => false
  end.
Definition all_live (s : kstate) : Prop := Forall (fun d => is_Some (devices s !! d)) (all_disk_list s).

Lemma find_device_spec l name s :
  Forall (fun d => is_Some (devices s !! d)) l ->
  find_device l name s = Ret (head (filter (fun d => named s name d = true) l), s).
Proof.
  induction 1 as [|d l [v Hv] _ IH]; [done|].
  cbn [find_device]. unfold mbind, ST_bind, get_dev, gets, deref. unfold mbind, ST_bind.
  rewrite Hv. cbn [mret ST_ret]. rewrite filter_cons.
  assert (named s name d = strncmp_eq (Z.to_nat DISK_NAME_LEN) (gd_disk_name (dev_disk v)) name) as <-
    by (unfold named; by rewrite Hv).
  case_decide as Hn; destruct (named s name d); done.
Qed.
Lemma get_block_device_spec name s :
  all_live s ->
  get_block_device name s
    = Ret (head (filter (fun d => named s name d = true) (reverse (all_disk_list s))), s).
Proof.
  intros Hl. unfold get_block_device, mbind, ST_bind, gets. apply find_device_spec.
  unfold all_live in Hl. rewrite !Forall_forall in *. intros d Hd. apply Hl.
  by rewrite <- elem_of_reverse.
Qed.

(** [get_block_device] finds the most recently created device with the
    given name, and NULL only when no device has it; it changes nothing. *)
Theorem get_block_device_newest name s :
  all_live s ->
  exists o, get_block_device name s = Ret (o, s) /\
    match o with
    | Some d => exists l1 l2, all_disk_list s = l1 ++ d :: l2 /\ named s name d = true /\
                  forall d', d' ∈ l2 -> named s name d' = false
    | None => forall d, d ∈ all_disk_list s -> named s name d = false
    end.
Proof.
  intros Hl. rewrite get_block_device_spec by done. eexists; split; [done|].
  pose proof (reverse_involutive (all_disk_list s)) as HL. symmetry in HL.
  revert HL. generalize (reverse (all_disk_list s)). intros R ->. clear Hl.
  induction R as [|d l IH]; [by intros d Hd%elem_of_nil|].
  rewrite filter_cons, reverse_cons. case_decide as Hd; simpl.
  - exists (reverse l), []. split_and!; [done|done|]. by intros d' Hd'%elem_of_nil.
  - apply not_true_is_false in Hd. destruct (head _) as [d'|].
    + destruct IH as (l1 & l2 & Hl' & Hn & Hl2). exists l1, (l2 ++ [d]).
      split_and!; [by rewrite Hl', <- app_assoc|done|].
      intros d'' [Hd''|Hd'']%elem_of_app; [by apply Hl2|].
      by apply list_elem_of_singleton in Hd'' as ->.
    + intros d' [Hd'|Hd']%elem_of_app; [by apply IH|].
      by apply list_elem_of_singleton in Hd' as ->.
Qed.

(** The allocations of [create_block_device], in order, and how far they get. *)
Definition create_acquired (e : create_env) : list resource :=
  match ce_kmalloc e with
  | None => []
  | Some _ =>
      if ce_register_blkdev e <? 0 then [ResDevice]
      else if negb (ce_alloc_disk e) then [ResDevice; ResMajor]
      else if ce_alloc_tag_set e <? 0 then [ResDevice; ResMajor; ResDisk]
      else if negb (ce_init_queue e =? 0) then [ResDevice; ResMajor; ResDisk; ResTagSet]
      else [ResDevice; ResMajor; ResDisk; ResTagSet; ResQueue]
  end.
Definition create_succeeds (e : create_env) : bool :=
  bool_decide (create_acquired e = [ResDevice; ResMajor; ResDisk; ResTagSet; ResQueue]).

(** C30: [create_block_device] is all or nothing.  When every allocation
    succeeds it returns 0 and the device, initialised from the options, with no
    connection and no pending request, added to the disk and to the tail of
    [all_disk_list].  When one fails, what was acquired before it is released,
    each once and in reverse order, and no device exists. *)
Theorem create_block_device_all_or_nothing e o s :
  wp (create_block_device e o) (fun res s' =>
    if create_succeeds e then
      exists dev, ce_kmalloc e = Some dev /\ res = (0, Some dev) /\
        devices s' = <[dev := BlockDevice (ce_register_blkdev e) (create_gendisk o (ce_register_blkdev e))
                        (opt_model o) 0 []]> (devices s) /\
        all_disk_list s' = all_disk_list s ++ [dev] /\
        trace s' = trace s ++ (EvAcquire <$> create_acquired e) ++ [EvAddDisk dev]
    else
      res.2 = None /\ devices s' = devices s /\ all_disk_list s' = all_disk_list s /\
        trace s' = trace s ++ (EvAcquire <$> create_acquired e)
                     ++ (EvRelease <$> reverse (create_acquired e))) s.
Proof.
  unfold create_block_device, create_succeeds, create_acquired.
  destruct (ce_kmalloc e) as [dev|]; [|ksteps; simpl; by rewrite !app_nil_r].
  ksteps. destruct (ce_register_blkdev e <? 0).
  { unfold out_free_device. ksteps. simpl. by rewrite <- !app_assoc. }
  ksteps. destruct (ce_alloc_disk e); simpl negb; cbv iota;
    [|unfold out_unregister, out_free_device; ksteps; simpl; by rewrite <- !app_assoc].
  ksteps. destruct (ce_alloc_tag_set e <? 0).
  { unfold out_put_disk, out_unregister, out_free_device. ksteps. simpl. by rewrite <- !app_assoc. }
  ksteps. destruct (ce_init_queue e =? 0); simpl negb; cbv iota.
  - ksteps. simpl. exists dev. split_and!; try done. by rewrite <- !app_assoc.
  - unfold out_free_tag_set, out_put_disk, out_unregister, out_free_device. ksteps. simpl.
    by rewrite <- !app_assoc.
Qed.

(** When [alloc_disk] fails the result is not an error code but the major
    number just registered, a positive number, and no device is stored. *)
Theorem create_alloc_disk_failure_positive e o dev s :
  ce_kmalloc e = Some dev -> 0 < ce_register_blkdev e -> ce_alloc_disk e = false ->
  wp (create_block_device e o) (fun res s' => res = (ce_register_blkdev e, None) /\ 0 < res.1) s.
Proof.
  intros Hk Hm Hd. unfold create_block_device. rewrite Hk, Hd. ksteps.
  destruct (Z.ltb_spec (ce_register_blkdev e) 0); [lia|]. ksteps. simpl negb. cbv iota.
  unfold out_unregister, out_free_device. by ksteps.
Qed.

(** A created device can be found under its name: [get_block_device] with
    the name of the options returns the device just created. *)
Theorem create_then_get_block_device e o s :
  create_succeeds e = true -> all_live s ->
  wp (r ← create_block_device e o; d ← get_block_device (opt_disk_name o); mret (r, d))
    (fun res _ => exists dev, ce_kmalloc e = Some dev /\ res = ((0, Some dev), Some dev)) s.
Proof.
  unfold create_succeeds, create_acquired. intros Hs Hl.
  unfold create_block_device. destruct (ce_kmalloc e) as [dev|]; [|done]. ksteps.
  destruct (ce_register_blkdev e <? 0); [done|]. ksteps.
  destruct (ce_alloc_disk e); [|done]. simpl negb. cbv iota. ksteps.
  destruct (ce_alloc_tag_set e <? 0); [done|]. ksteps.
  destruct (ce_init_queue e =? 0); [|done]. simpl negb. cbv iota. ksteps.
  eapply wp_intro.
  { apply get_block_device_spec. unfold all_live in *; simpl. apply Forall_app. split.
    - eapply Forall_impl; [exact Hl|]. intros d Hd. simpl.
      destruct (decide (d = dev)) as [->|]; [by rewrite lookup_insert_eq|by rewrite lookup_insert_ne].
    - repeat constructor. by rewrite lookup_insert_eq. }
  ksteps. exists dev. split; [done|]. f_equal.
  cbn [all_disk_list set_disk_list]. rewrite reverse_app. simpl reverse.
  change (reverse [dev]) with [dev]. simpl app. rewrite filter_cons.
  rewrite decide_True; [done|]. unfold named; simpl. rewrite lookup_insert_eq. simpl.
  apply strncpy_eq.
Qed.
End lifetime.

(** ** Zone reports and removal *)
Section reports.
Context `{BO : BioOps}.

(** The zones in a report of [n] zones at [blkz], as bytes. *)
Definition reported_zones (m : memory) (blkz n : Z) : list (list Z) :=
  (fun i => mem_read m (blkz + i * sizeof_blk_zone) sizeof_blk_zone) <$> seqZ 0 n.

(** [cb] takes one more zone of the report and returns 0: [P] describes the
    store after the zones seen so far. *)
Definition report_cb_ok (m : memory) (P : list (list Z) -> kstate -> Prop)
    (cb : list Z -> Z -> ST kstate Z) : Prop :=
  forall seen z t, kmem t = m -> P seen t ->
    wp (cb z (Z.of_nat (length seen))) (fun r t' => r = 0 /\ kmem t' = m /\ P (seen ++ [z]) t') t.

Lemma report_zones_loop_ok m P cb blkz size nr left t :
  report_cb_ok m P cb -> kmem t = m -> Z.of_nat left <= nr -> nr * sizeof_blk_zone <= size ->
  P (reported_zones m blkz (nr - Z.of_nat left)) t ->
  wp (report_zones_loop blkz size cb nr left) (fun r t' => r = nr /\ P (reported_zones m blkz nr) t') t.
Proof.
  intros Hcb. revert t. induction left as [|left IH]; intros t Hm Hle Hsz HP.
  { apply wp_ret. split; [done|]. by rewrite Z.sub_0_r in HP. }
  cbn [report_zones_loop]. set (i := nr - Z.of_nat (S left)) in *.
  destruct (Z.ltb_spec size ((i + 1) * sizeof_blk_zone)); [unfold sizeof_blk_zone in *; lia|].
  ksteps. rewrite Hm.
  assert (Z.of_nat (length (reported_zones m blkz i)) = i) as Hlen
    by (unfold reported_zones; rewrite length_fmap, length_seqZ; lia).
  eapply wp_mono.
  { rewrite <- Hlen at 2. by apply Hcb. }
  intros r t' (-> & Hm' & HP'). simpl negb. cbv iota. apply IH; [done|lia|done|].
  unfold reported_zones in *. replace (nr - Z.of_nat left) with (i + 1) by lia.
  rewrite seqZ_app, fmap_app by lia. exact HP'.
Qed.

(** The store when [bius_report_zones] sleeps on the semaphore. *)
Definition report_queued (s : kstate) (device sector nr blkz kreq : Z) (d : bius_block_device) : kstate :=
  KState (u64 (next_request_id s + 1)) (blk_rqs s)
    (<[kreq := BiusRequest (u64 (next_request_id s + 1)) BIUS_REPORT_ZONES
         (s64 (u64 (Z.shiftl sector SECTOR_SHIFT))) nr (UInt (IntPart blkz 0 None))
         fn_bius_report_zones_request_end]> (pdus s))
    (<[device := dev_with_pending d (dev_pending d ++ [kreq])]> (devices s)) (all_disk_list s)
    (connections s) (kmem s) (<[blkz := sizeof_blk_zone * nr]> (kbufs s))
    (trace s ++ [EvWakeUp device]).

Lemma report_submit_spec device sector nr blkz kreq d s :
  devices s !! device = Some d ->
  report_submit device sector nr blkz kreq s = Ret (tt, report_queued s device sector nr blkz kreq d).
Proof.
  intros Hd. assert (wp (report_submit device sector nr blkz kreq)
    (fun _ s' => s' = report_queued s device sector nr blkz kreq d) s) as Hwp.
  { unfold report_submit, inc_request_id. by ksteps. }
  destruct (wp_inv _ _ _ Hwp) as ([] & s' & Hrun & ->). exact Hrun.
Qed.
Lemma report_zones_run device sector nr_zones blkz kreq wait cb d s res t Q :
  devices s !! device = Some d ->
  let nr := Z.min nr_zones BIUS_MAX_ZONES in
  wait (report_queued s device sector nr blkz kreq d) = Ret (res, t) ->
  wp (report_finish nr blkz kreq cb res) Q t ->
  wp (bius_report_zones device sector nr_zones (Some blkz) kreq wait cb) Q s.
Proof.
  intros Hd nr Hdown Hrest. unfold bius_report_zones. apply wp_bind.
  eapply wp_intro; [by apply report_submit_spec|]. apply wp_bind. by eapply wp_intro.
Qed.

(** An answer with [v] bytes, as many as the buffer has room for at most. *)
Lemma report_finish_zones nr blkz kreq cb t r sem v P :
  pdus t !! kreq = Some r -> req_u r = UInt (IntPart blkz sem (Some v)) ->
  0 <= v <= sizeof_blk_zone * nr -> report_cb_ok (kmem t) P cb -> P [] t ->
  wp (report_finish nr blkz kreq cb 0) (fun res s' =>
    res = v / sizeof_blk_zone /\
    exists t', P (reported_zones (kmem t) blkz (v / sizeof_blk_zone)) t' /\
      s' = set_pdus (delete kreq) (set_kbufs (delete blkz) t')) t.
Proof.
  intros Hr Hu Hv Hcb HP. unfold report_finish. rewrite Z.ltb_irrefl. ksteps. eapply wp_deref; [reflexivity|]. cbv beta.
  destruct (Z.ltb_spec v 0); [lia|].
  assert (0 <= v / sizeof_blk_zone) by (apply Z.div_pos; unfold sizeof_blk_zone; lia).
  eapply wp_mono.
  - apply (report_zones_loop_ok (kmem t) P); try done; [lia| |].
    + pose proof (Z.mul_div_le v sizeof_blk_zone). unfold sizeof_blk_zone in *. lia.
    + by replace (v / sizeof_blk_zone - _) with 0 by lia.
  - intros res t' [-> HP']. ksteps. split; [done|]. by exists t'.
Qed.

Lemma report_zones_reports device sector nr_zones blkz kreq wait cb d s t r sem v P :
  devices s !! device = Some d ->
  let nr := Z.min nr_zones BIUS_MAX_ZONES in
  wait (report_queued s device sector nr blkz kreq d) = Ret (0, t) ->
  pdus t !! kreq = Some r -> req_u r = UInt (IntPart blkz sem (Some v)) ->
  0 <= v <= sizeof_blk_zone * nr -> report_cb_ok (kmem t) P cb -> P [] t ->
  wp (bius_report_zones device sector nr_zones (Some blkz) kreq wait cb) (fun res s' =>
    res = v / sizeof_blk_zone /\
    exists t', P (reported_zones (kmem t) blkz (v / sizeof_blk_zone)) t' /\
      s' = set_pdus (delete kreq) (set_kbufs (delete blkz) t')) s.
Proof.
  intros Hd nr Hdown Hr Hu Hv Hcb HP. eapply report_zones_run; [done|exact Hdown|].
  by eapply report_finish_zones.
Qed.
(** A zone report that completes with [v] bytes of zones, as many as it
    has room for at most, returns their number, after the callback has seen
    each of them, as the buffer holds them and in order.  The request it used is
    on the stack and is gone when it returns, as is the buffer. *)
Theorem bius_report_zones_reports device sector nr_zones blkz kreq wait cb d s t r sem v P :
  devices s !! device = Some d ->
  let nr := Z.min nr_zones BIUS_MAX_ZONES in
  wait (report_queued s device sector nr blkz kreq d) = Ret (0, t) ->
  pdus t !! kreq = Some r -> req_u r = UInt (IntPart blkz sem (Some v)) ->
  0 <= v <= sizeof_blk_zone * nr -> report_cb_ok (kmem t) P cb -> P [] t ->
  wp (bius_report_zones device sector nr_zones (Some blkz) kreq wait cb) (fun res s' =>
    res = v / sizeof_blk_zone /\
    exists t', P (reported_zones (kmem t) blkz (v / sizeof_blk_zone)) t' /\
      s' = set_pdus (delete kreq) (set_kbufs (delete blkz) t')) s.
Proof. apply report_zones_reports. Qed.

(** A zone report that is killed while it sleeps returns the error and
    takes its request, which lives on its stack, with it, but leaves it on
    whatever list it is: a pending request that is no object any more. *)
Theorem bius_report_zones_killed_dangles device sector nr_zones blkz kreq wait cb d s t res :
  devices s !! device = Some d ->
  let nr := Z.min nr_zones BIUS_MAX_ZONES in
  wait (report_queued s device sector nr blkz kreq d) = Ret (res, t) -> res < 0 ->
  wp (bius_report_zones device sector nr_zones (Some blkz) kreq wait cb) (fun ret s' =>
    ret = res /\ devices s' = devices t /\ connections s' = connections t /\
    pdus s' !! kreq = None) s.
Proof.
  intros Hd nr Hdown Hres. eapply report_zones_run; [done|exact Hdown|]. unfold report_finish.
  rewrite (proj2 (Z.ltb_lt _ _) Hres). ksteps. split_and!; [done..|].
  apply lookup_delete_eq.
Qed.

(** The requests of [l] are in flight: blk-mq has not completed them. *)
Definition in_flight (s : kstate) (l : list Z) : Prop := Forall (fun k => is_Some (blk_rqs s !! k)) l.

Lemma visit_pending_spec l s :
  NoDup l -> in_flight s l ->
  visit (fun k => blk_mq_end_request k BLK_STS_IOERR) l s =
    Ret (tt, KState (next_request_id s) (foldr delete (blk_rqs s) l) (pdus s) (devices s)
               (all_disk_list s) (connections s) (kmem s) (kbufs s)
               (trace s ++ ((fun k => EvEnd k BLK_STS_IOERR) <$> l))).
Proof.
  intros Hnd. revert s. induction Hnd as [|k l Hk _ IH]; intros s Hl.
  { destruct s; simpl. by rewrite app_nil_r. }
  apply Forall_cons in Hl as [[rq Hrq] Hl].
  cbn [visit]. unfold mbind at 1, ST_bind at 1.
  unfold blk_mq_end_request at 1, mbind at 1, ST_bind at 1, get_rq, gets, mbind, ST_bind. rewrite Hrq.
  cbn [deref mret ST_ret]. unfold modify, emit, modify. rewrite IH.
  - simpl. do 2 f_equal. unfold emit_event, set_blk_rqs; simpl. f_equal.
    + clear. induction l as [|x l IH]; [done|]. simpl. rewrite IH. apply delete_delete.
    + by rewrite <- app_assoc.
  - unfold in_flight in *. rewrite Forall_forall in *. intros x Hx. simpl.
    rewrite lookup_delete_ne; [by apply Hl|]. by intros ->.
Qed.
Lemma end_pending_spec dev d s :
  devices s !! dev = Some d -> NoDup (dev_pending d) -> in_flight s (dev_pending d) ->
  linked_once s (pending_requests dev) ->
  end_pending undisturbed_walk dev s =
    Ret (tt, KState (next_request_id s) (foldr delete (blk_rqs s) (dev_pending d)) (pdus s) (devices s)
               (all_disk_list s) (connections s) (kmem s) (kbufs s)
               (trace s ++ ((fun k => EvEnd k BLK_STS_IOERR) <$> dev_pending d))).
Proof.
  intros Hd Hnd Hl Hone. assert (on_list s (pending_requests dev) = dev_pending d) as El by (unfold on_list; by rewrite Hd).
  unfold end_pending. rewrite walk_visits; [|auto with lists|by rewrite El|done].
  rewrite El. by apply visit_pending_spec.
Qed.
Lemma linked_once_delisted s h dev : linked_once s h -> linked_once (set_disk_list (list_del dev) s) h.
Proof.
  intros Hone k h' Hk Hin Hk'. apply (Hone k); [done| |done]. unfold list_heads in *. cbn [all_disk_list connections set_disk_list] in Hin.
  rewrite elem_of_app, list_elem_of_fmap in Hin |- *. destruct Hin as [(d & -> & [Hd _]%elem_of_list_del)|]; [left|by right].
  by exists d.
Qed.

(** What [remove_block_device] tells Linux: the disk is dropped before its name is read. *)
Definition removal_events (owner dev : Z) : list kevent :=
  [EvDelDisk dev; EvRelease ResTagSet; EvRelease ResDisk; EvReadName owner; EvRelease ResMajor].

(** [dev] is the device that [remove_block_device] finds for the name of [owner]. *)
Record removes (s : kstate) (owner dev : Z) (d : bius_block_device) : Prop := {
  rm_live : all_live s;
  rm_found : exists v, devices s !! owner = Some v /\
    head (filter (fun x => named s (gd_disk_name (dev_disk v)) x = true) (reverse (all_disk_list s))) = Some dev;
  rm_dev : devices s !! dev = Some d }.
Lemma remove_block_device_spec owner dev d s :
  removes s owner dev d -> NoDup (dev_pending d) -> in_flight s (dev_pending d) -> linked_once s (pending_requests dev) ->
  remove_block_device owner s =
    Ret (tt, KState (next_request_id s) (foldr delete (blk_rqs s) (dev_pending d)) (pdus s) (devices s)
      (list_del dev (all_disk_list s)) (connections s) (kmem s) (kbufs s)
      (trace s ++ ((fun k => EvEnd k BLK_STS_IOERR) <$> dev_pending d) ++ removal_events owner dev)).
Proof.
  intros [Hl (v & Hv & Hfind) Hd] Hnd Hfl Hone.
  assert (wp (remove_block_device owner) (fun _ s' => s' = KState (next_request_id s)
      (foldr delete (blk_rqs s) (dev_pending d)) (pdus s) (devices s)
      (list_del dev (all_disk_list s)) (connections s) (kmem s) (kbufs s)
      (trace s ++ ((fun k => EvEnd k BLK_STS_IOERR) <$> dev_pending d) ++ removal_events owner dev)) s) as Hwp.
  { unfold remove_block_device, remove_around. ksteps.
    eapply wp_intro; [by apply get_block_device_spec|]. rewrite Hfind. ksteps.
    eapply wp_intro; [by apply (end_pending_spec dev d); [..|by apply linked_once_delisted]|]. ksteps. unfold removal_events. kstate_eq. }
  destruct (wp_inv _ _ _ Hwp) as ([] & s' & Hrun & ->). exact Hrun.
Qed.
Lemma lookup_foldr_delete_list {A} (m : gmap Z A) l k :
  foldr delete m l !! k = if decide (k ∈ l) then None else m !! k.
Proof.
  induction l as [|x l IH]; [done|]. cbn [foldr]. destruct (decide (k = x)) as [->|Hne].
  - rewrite lookup_delete_eq. rewrite decide_True by (by left). done.
  - rewrite lookup_delete_ne by done. rewrite IH. apply decide_ext. rewrite elem_of_cons. tauto.
Qed.

(** Removing a device takes it off [all_disk_list] and completes each of its
    pending requests once, with an I/O error, in the order they arrived, before
    the disk goes away.  The name by which [unregister_blkdev] finds the major number is
    read after that, where it was: in the disk of [owner]. *)
Theorem remove_block_device_ends_pending owner dev d s :
  removes s owner dev d -> NoDup (dev_pending d) -> in_flight s (dev_pending d) -> linked_once s (pending_requests dev) ->
  wp (remove_block_device owner) (fun _ s' =>
    all_disk_list s' = list_del dev (all_disk_list s) /\
    (forall k, blk_rqs s' !! k = if decide (k ∈ dev_pending d) then None else blk_rqs s !! k) /\
    trace s' = trace s ++ ((fun k => EvEnd k BLK_STS_IOERR) <$> dev_pending d) ++ removal_events owner dev) s.
Proof.
  intros Hrm Hnd Hfl Hone. eapply wp_intro; [by eapply remove_block_device_spec|]. kfields.
  split_and!; [done|intros k; apply lookup_foldr_delete_list|done].
Qed.

(** Removing a device whose first pending request is a zone report passes
    the report's stack address to [blk_mq_rq_from_pdu]: there is no such
    request. *)
Theorem remove_pending_report_faults owner dev d kreq rest s :
  removes s owner dev d -> dev_pending d = kreq :: rest -> blk_rqs s !! kreq = None ->
  remove_block_device owner s = Fault DanglingPtr.
Proof.
  intros [Hl (v & Hv & Hfind) Hd] Hp Hk. unfold remove_block_device, remove_around.
  assert (get_dev owner s = Ret (v, s)) as Ev by (unfold get_dev, gets, mbind, ST_bind; by rewrite Hv).
  rewrite (bind_ret _ _ _ _ _ Ev), (bind_ret _ _ _ _ _ (get_block_device_spec _ s Hl)), Hfind.
  unfold modify, get_dev, gets, mbind, ST_bind. cbn [devices set_disk_list]. rewrite Hd.
  unfold end_pending, list_for_each_entry, on_list, id, gets, mbind, ST_bind; simpl. rewrite Hd. simpl. rewrite Hp. simpl.
  unfold mbind, ST_bind, blk_mq_end_request, mbind, ST_bind, get_rq, gets, mbind, ST_bind.
  simpl. by rewrite Hk.
Qed.
End reports.

(** ** Concrete runs *)
Definition good_env (dev : Z) : create_env := CreateEnv (Some dev) 241 true 0 0.
Definition sample_options (name : list Z) : bius_block_device_options :=
  {| opt_model := BLK_ZONED_NONE; opt_num_threads := 4; opt_disk_size := 2 ^ 20;
     opt_max_open_zones := 0; opt_max_active_zones := 0; opt_disk_name := name |}.

Lemma bius_queue_rq_enqueues_witness :
  wp (bius_queue_rq 100 10) (fun res s' => res = BLK_STS_OK /\
    devices s' !! 100 = Some (BlockDevice 240 sample_disk BLK_ZONED_NONE 1 [7; 10]))
    (sample_state [7] [] None).
Proof.
  eapply wp_mono.
  - by apply (bius_queue_rq_enqueues 100 10 (Request 2 0 0 [] 0)
      (BlockDevice 240 sample_disk BLK_ZONED_NONE 1 [7]) (sample_state [7] [] None)).
  - intros res s' (-> & _ & -> & _). split; [done|]. by rewrite lookup_insert_eq.
Defined.

(** Operation 5 is no operation of the protocol. *)
Definition odd_state : @kstate seg_bio := set_blk_rqs <[11 := Request 5 0 0 [] 0]> (sample_state [] [] None).
Lemma bius_queue_rq_unsupported_witness :
  wp (bius_queue_rq 100 11) (fun res s' => res = BLK_STS_NOTSUPP /\
    trace s' = [EvStart 11; EvEnd 11 BLK_STS_NOTSUPP]) odd_state.
Proof.
  eapply wp_mono.
  - by apply (bius_queue_rq_unsupported_ended_twice 100 11 (Request 5 0 0 [] 0) odd_state).
  - intros res s' (-> & _ & -> & _). done.
Defined.

Lemma sample_all_live p w o : all_live (sample_state p w o).
Proof. repeat constructor. by eexists. Qed.

(** Device 101 is created with the name of device 100. *)
Definition two_named : @kstate seg_bio :=
  KState 4 ∅ ∅ {[ 100 := BlockDevice 240 sample_disk BLK_ZONED_NONE 1 [];
                  101 := BlockDevice 241 sample_disk BLK_ZONED_NONE 1 [] ]} [100; 101] ∅ ∅ ∅ [].
Lemma get_block_device_newest_witness :
  get_block_device [98; 105; 117; 115] two_named = Ret (Some 101, two_named).
Proof.
  destruct (get_block_device_newest [98; 105; 117; 115] two_named) as (o & Ho & Hspec).
  - repeat constructor; by eexists.
  - rewrite Ho. destruct o as [d|]; [|specialize (Hspec 100 ltac:(by left)); by vm_compute in Hspec].
    destruct Hspec as (l1 & l2 & Hl & Hd & _).
    change ([100; 101] = l1 ++ d :: l2) in Hl. vm_compute in Ho. congruence.
Defined.

Lemma create_alloc_disk_failure_positive_witness :
  wp (create_block_device (CreateEnv (Some 101) 241 false 0 0) (sample_options [98]))
    (fun res _ => res = (241, None) /\ 0 < res.1) (sample_state [] [] None).
Proof.
  eapply wp_mono; [by apply (create_alloc_disk_failure_positive
    (CreateEnv (Some 101) 241 false 0 0) (sample_options [98]) 101)|done].
Defined.

Lemma create_then_get_block_device_witness :
  wp (r ← create_block_device (good_env 101) (sample_options [98; 49]);
      d ← get_block_device [98; 49]; mret (r, d))
    (fun res _ => res = ((0, Some 101), Some 101)) (sample_state [] [] None).
Proof.
  eapply wp_mono.
  - apply (create_then_get_block_device (good_env 101) (sample_options [98; 49])); [done|].
    apply sample_all_live.
  - by intros res s' (dev & [= <-] & ->).
Defined.

(** The reply to a report of eight zones: two zones arrive. *)
Definition answered (s : @kstate seg_bio) : @kstate seg_bio :=
  set_pdus <[300 := BiusRequest 5 BIUS_REPORT_ZONES 0 8 (UInt (IntPart 5000 1 (Some 128)))
                      fn_bius_report_zones_request_end]> (set_kmem <[5064 := 77]> s).
Lemma bius_report_zones_reports_witness :
  wp (bius_report_zones 100 0 8 (Some 5000) 300 (fun t => Ret (0, answered t)) (fun _ _ => mret 0))
    (fun res s' => res = 2 /\ pdus s' !! 300 = None) (sample_state [] [] None).
Proof.
  eapply wp_mono.
  - eapply (bius_report_zones_reports 100 0 8 5000 300 (fun t => Ret (0, answered t)) (fun _ _ => mret 0)
      (BlockDevice 240 sample_disk BLK_ZONED_NONE 1 []) (sample_state [] [] None) _
      (BiusRequest 5 BIUS_REPORT_ZONES 0 8 (UInt (IntPart 5000 1 (Some 128))) fn_bius_report_zones_request_end)
      1 128 (fun _ _ => True)); try reflexivity.
    + by vm_compute.
    + intros seen z t Hm _. by apply wp_ret.
  - intros res s' (-> & t' & _ & ->). split; [done|]. apply lookup_delete_eq.
Defined.

Lemma bius_report_zones_killed_dangles_witness :
  wp (bius_report_zones 100 0 8 (Some 5000) 300 (fun t => Ret (- EINTR, t)) (fun _ _ => mret 0))
    (fun res s' => res = - EINTR /\ pdus s' !! 300 = None /\
       devices s' !! 100 = Some (BlockDevice 240 sample_disk BLK_ZONED_NONE 1 [300]))
    (sample_state [] [] None).
Proof.
  eapply wp_mono.
  - eapply (bius_report_zones_killed_dangles 100 0 8 5000 300 (fun t => Ret (- EINTR, t)) (fun _ _ => mret 0)
      (BlockDevice 240 sample_disk BLK_ZONED_NONE 1 []) (sample_state [] [] None));
      try reflexivity.
  - intros res s' (-> & -> & _ & Hk). by split_and!.
Defined.

Lemma sample_removes p : removes (sample_state p [] None) 100 100 (BlockDevice 240 sample_disk BLK_ZONED_NONE 1 p).
Proof. split; [apply sample_all_live|eexists; split; reflexivity|reflexivity]. Qed.
Lemma remove_block_device_ends_pending_witness :
  wp (remove_block_device 100) (fun _ s' =>
      all_disk_list s' = [] /\ blk_rqs s' !! 8 = None /\ is_Some (blk_rqs s' !! 10))
    (sample_state [7; 8] [] None).
Proof.
  eapply wp_mono.
  - apply (remove_block_device_ends_pending 100 100
      (BlockDevice 240 sample_disk BLK_ZONED_NONE 1 [7; 8])); [apply sample_removes|..].
    + by apply (bool_decide_unpack _).
    + repeat constructor; by eexists.
    + apply linked_once_all, (bool_decide_unpack _). by vm_compute.
  - intros _ s' (-> & Hb & _). rewrite !Hb. by vm_compute; split_and!; try eexists.
Defined.

Lemma remove_pending_report_faults_witness :
  remove_block_device 100 (sample_state [300] [] None) = Fault DanglingPtr.
Proof.
  by apply (remove_pending_report_faults 100 100
    (BlockDevice 240 sample_disk BLK_ZONED_NONE 1 [300]) 300 []); [apply sample_removes|..].
Defined.

Lemma to_bius_request_faithful_witness :
  bius_req_value (to_bius_request 13) = 13 /\ to_bius_request 13 <> BIUS_INVALID_OP.
Proof.
  destruct (to_bius_request_faithful 13) as [[H _]|[[H _]|[[H _]|[[H _]|[(_ & _ & H)|[H _]]]]]];
    try (by vm_compute in H).
Defined.
