(* ===== verification/CharDev.v ===== *)
(** * The character device

    [char_dev.c] without [CONFIG_BIUS_DATAMAP] ([DataMapping.v] has it): a user process opens
    [/dev/bius], creates or connects to a device, reads requests and writes
    replies. *)
From S2P Require Import Prelude Protocol Linux Kernel Command BlockDev.

Section char_dev.
Context `{BO : BioOps} `{IO : IovOps} `{LC : LinuxConst}.
Abbreviation K := (ST kstate).

(** [bius_dev_open]: [kmalloc] is the address of the new connection. *)
Definition bius_dev_open (kmalloc : option Z) : K Z :=
  match kmalloc with
  | None => mret (- ENOMEM)
  | Some c => _ ← put_conn c init_bius_connection; mret 0
  end.

(** The [while (1)] of [bius_dev_read].  An element of [waits] is one
    [wait_event_interruptible_exclusive] that returned: its value and the
    state the thread wakes up in.  With no element left the thread sleeps.
    [None]: a request is pending (and the lock is held). *)
Fixpoint wait_pending (waits : list (Z * kstate)) (device : Z) : K (option Z) :=
  d ← get_dev device;
  match dev_pending d with
  | _ :: _ => mret None
  | [] =>
      match waits with
      | [] => exhausted
      | (ret, s') :: waits' =>
          _ ← modify (fun _ => s');
          if negb (ret =? 0) then mret (Some ret) else wait_pending waits' device
      end
  end.

(** The request has been taken from the pending list: note its data, send the
    header, and move it to the waiting list. *)
Definition read_dispatch (c : Z) (pad1 pad2 : list Z) (k : Z) (to : iov_iter)
    : K (Z * iov_iter) :=
  r ← get_pdu k;
  _ ← (if request_may_have_data (req_type r) && (0 <? req_length r) then
         if request_is_write (req_type r) then
           b ← blk_arm r;
           _ ← put_pdu k (with_blk r (with_map_data b (req_length r)));
           conn ← get_conn c;
           put_conn c (conn_with_sending conn (Some k))
         else mret tt
       else mret tt);
  res ← bius_send_command pad1 pad2 k to;
  if res.1 <=? 0 then
    _ ← end_blk_request k BLK_STS_IOERR;
    conn ← get_conn c;
    _ ← put_conn c (conn_with_sending conn None);
    mret res
  else
    conn ← get_conn c;
    _ ← put_conn c (conn_with_waiting conn (conn_waiting conn ++ [k]));
    mret res.

Definition bius_dev_read (c : Z) (pad1 pad2 : list Z) (waits : list (Z * kstate))
    (to : iov_iter) : K (Z * iov_iter) :=
  conn ← get_conn c;
  let user_buffer_size := iov_iter_count to in
  match conn_block_dev conn with
  | None => mret (- EIO, to)
  | Some device =>
      match conn_sending conn with
      | Some k =>
          res ← bius_send_data k user_buffer_size to;
          io_done ← request_io_done k;
          _ ← (if io_done : bool then
                 conn ← get_conn c; put_conn c (conn_with_sending conn None)
               else mret tt);
          mret res
      | None =>
          if user_buffer_size <? sizeof_k2u then mret (- EINVAL, to)
          else
            w ← wait_pending waits device;
            match w with
            | Some ret => mret (ret, to)
            | None =>
                d ← get_dev device;
                match dev_pending d with
                | [] => exhausted
                | k :: rest =>
                    _ ← put_dev device (dev_with_pending d rest);
                    read_dispatch c pad1 pad2 k to
                end
            end
      end
  end.

(** The end of [handle_initialization], with [device] as the local variable
    holds it: [None] when nothing has been stored in it. *)
Definition attach_device (c : Z) (device : option Z) : K Z :=
  dev ← deref UninitRead device;
  d ← get_dev dev;
  _ ← put_dev dev (dev_with_conns d (u32 (dev_num_connection d + 1)));
  conn ← get_conn c;
  _ ← put_conn c (conn_with_dev conn (Some dev));
  mret sizeof_u2k.

(** [result] is an [unsigned long]: the error test compares it unsigned. *)
Definition handle_create (um : user_mem) (e : create_env) (c : Z) (user_buffer : Z) : K Z :=
  if negb (not_copied um user_buffer sizeof_options =? 0) then mret (- EIO)
  else
    let options := options_of_bytes (copy_from_user um user_buffer sizeof_options) in
    out ← create_block_device e options;
    let result := u64 out.1 in
    if result <? 0 then mret (s64 (- result))
    else
      _ ← (if negb (bool_decide (opt_model options = BLK_ZONED_NONE)) then
             dev ← deref UninitRead out.2; bius_revalidate dev
           else mret tt);
      attach_device c out.2.

Definition handle_connect (um : user_mem) (c : Z) (user_buffer len : Z) : K Z :=
  let name_length := Z.min DISK_NAME_LEN len in
  if negb (not_copied um user_buffer name_length =? 0) then mret (- EIO)
  else
    let disk_name := copy_from_user um user_buffer name_length ++
                       replicate (Z.to_nat (DISK_NAME_LEN - name_length)) 0 in
    o ← get_block_device disk_name;
    match o with
    | None => mret (- ENOENT)
    | Some dev => attach_device c (Some dev)
    end.

Definition handle_initialization (um : user_mem) (e : create_env) (c : Z)
    (header : bius_u2k_header) : K Z :=
  let user_buffer := u2k_user_data header in
  if u2k_type header =? bius_req_value BIUS_CREATE then handle_create um e c user_buffer
  else if u2k_type header =? bius_req_value BIUS_CONNECT then
    handle_connect um c user_buffer (u2k_length header)
  else mret (- EINVAL).

(** The reply to a block request.  [written] is [total_written]. *)
Definition reply_blk (um : user_mem) (k : Z) (header : bius_u2k_header) (written : Z) : K Z :=
  r ← get_pdu k;
  let finish :=
    r ← get_pdu k;
    _ ← (if bool_decide (req_type r = BIUS_ZONE_APPEND) then
           put_pdu k (with_pos r (s64 (u2k_user_data header)))
         else mret tt);
    _ ← end_blk_request k (u2k_reply header);
    mret written in
  if (u2k_reply header =? BLK_STS_OK) && bool_decide (req_type r = BIUS_READ) then
    ret ← bius_receive_data um k (u2k_user_data header);
    if ret <? 0 then _ ← end_blk_request k BLK_STS_IOERR; mret ret else finish
  else finish.

(** [copy_from_user] into [request->data], [n] bytes as the reply says: what it returns.
    Lengths above [INT_MAX] it refuses before it touches the buffer; of others it
    fills what it cannot read with zeros. *)
Definition copy_into_data (um : user_mem) (k src n : Z) : K Z :=
  r ← get_pdu k;
  i ← int_arm r;
  if INT_MAX <? n then mret n
  else
    bufs ← gets kbufs;
    size ← deref DanglingPtr (bufs !! i_data i);
    if size <? n then fail OutOfBounds
    else _ ← modify (set_kmem (fun m => mem_write m (i_data i) (copied_padded um src n)));
         mret (not_copied um src n).

(** The reply to a zone report. *)
Definition reply_int (um : user_mem) (k : Z) (header : bius_u2k_header) (written : Z) : K Z :=
  if u2k_reply header <=? 0 then
    _ ← end_request_int k (u2k_reply header); mret written
  else
    result ← copy_into_data um k (u2k_user_data header) (u2k_reply header);
    _ ← (if 0 <? result then end_request_int k (- EINVAL) else end_request_int k (u2k_reply header));
    mret written.

(** [stack] are the bytes of the uninitialised [header] variable. *)
Definition bius_dev_write (um : user_mem) (e : create_env) (c : Z) (stack : list Z)
    (from : iov_iter) : K Z :=
  conn ← get_conn c;
  if iov_iter_count from <? sizeof_u2k then mret (- EINVAL)
  else
    let bs := (copy_from_iter sizeof_u2k from).1 in
    let ret := Z.of_nat (length bs) in
    if ret <=? 0 then mret ret
    else
      let header := u2k_of_bytes (bs ++ drop (length bs) stack) in
      match conn_block_dev conn with
      | None => handle_initialization um e c header
      | Some _ =>
          o ← get_request_by_id (conn_waiting conn) (u2k_id header);
          match o with
          | None => mret (- EINVAL)
          | Some k =>
              _ ← put_conn c (Connection (conn_block_dev conn) (list_del k (conn_waiting conn))
                     (if bool_decide (conn_sending conn = Some k) then None
                      else conn_sending conn));
              r ← get_pdu k;
              if is_blk_request (req_type r) then reply_blk um k header ret
              else reply_int um k header ret
          end
      end.

(** The loop of [bius_dev_release] over the waiting requests, without a lock:
    [meanwhile] is what others do after a request has ended. *)
Definition end_waiting (meanwhile : Z -> K unit) (c : Z) : K unit :=
  list_for_each_entry meanwhile (fun k => end_blk_request k BLK_STS_IOERR) (waiting_requests c).

Definition release_around (while_waiting while_pending : Z -> K unit) (c : Z) : K Z :=
  conn ← get_conn c;
  _ ← end_waiting while_waiting c;
  _ ← match conn_block_dev conn with
      | None => mret tt
      | Some dev =>
          d ← get_dev dev;
          let n := u32 (dev_num_connection d - 1) in
          _ ← put_dev dev (dev_with_conns d n);
          if n =? 0 then remove_around while_pending dev else mret tt
      end;
  _ ← modify (set_conns (delete c));
  mret 0.
Definition bius_dev_release (c : Z) : K Z := release_around undisturbed_walk undisturbed_walk c.
End char_dev.
