(* ===== verification/CharDevProps.v ===== *)
(** * Properties of the character device

    Reading: dispatch in order, payloads; writing: what each reply does to the
    request it names; release.  The faults the code has are theorems too. *)
From S2P Require Import Prelude Protocol Linux Kernel Sample Command BlockDev CharDev.

(** ** Reading requests *)
Section reading.
Context `{BL : BioLaws} `{IL : IovLaws} `{LC : LinuxConst}.
Implicit Types s : kstate.

(** The request carries data that the user reads after the header. *)
Definition sends_data (r : bius_request) : bool :=
  request_may_have_data (req_type r) && (0 <? req_length r) && request_is_write (req_type r).

(** Connection [c], idle and attached to [dev], whose first pending request is [k]. *)
Record ready_to_read (s : kstate) (c dev : Z) (w : list Z) (d : bius_block_device)
    (k : Z) (rest : list Z) (r : bius_request) : Prop := {
  rd_conn : connections s !! c = Some (Connection (Some dev) w None);
  rd_dev : devices s !! dev = Some d;
  rd_pending : dev_pending d = k :: rest;
  rd_pdu : pdus s !! k = Some r;
  rd_arm : sends_data r = true -> exists b, req_u r = UBlk b }.

(** The pdu of a dispatched request. *)
Definition dispatched_pdu (r : bius_request) : bius_request :=
  match req_u r with
  | UBlk b => if sends_data r then with_blk r (with_map_data b (req_length r)) else r
  | UInt _ => r
  end.
Definition dispatched (s : kstate) (c dev : Z) (w : list Z) (d : bius_block_device)
    (k : Z) (rest : list Z) (r : bius_request) : kstate :=
  KState (next_request_id s) (blk_rqs s)
    (if sends_data r then <[k := dispatched_pdu r]> (pdus s) else pdus s)
    (<[dev := dev_with_pending d rest]> (devices s)) (all_disk_list s)
    (<[c := Connection (Some dev) (w ++ [k]) (if sends_data r then Some k else None)]> (connections s))
    (kmem s) (kbufs s) (trace s).

Lemma wait_pending_ready waits device d k rest s :
  devices s !! device = Some d -> dev_pending d = k :: rest ->
  wait_pending waits device s = Ret (None, s).
Proof.
  intros Hd Hp. destruct waits; unfold wait_pending; unfold mbind, ST_bind, get_dev, gets, mbind, ST_bind;
    rewrite Hd; simpl; by rewrite Hp.
Qed.

(** The part of [read_dispatch] before the header is sent. *)
Lemma dispatch_prefix (m : ST kstate (Z * iov_iter)) s c dev w d k rest r Q :
  ready_to_read s c dev w d k rest r ->
  (let s1 := KState (next_request_id s) (blk_rqs s)
      (if sends_data r then <[k := dispatched_pdu r]> (pdus s) else pdus s)
      (<[dev := dev_with_pending d rest]> (devices s)) (all_disk_list s)
      (if sends_data r then <[c := Connection (Some dev) w (Some k)]> (connections s) else connections s)
      (kmem s) (kbufs s) (trace s) in wp m Q s1) ->
  wp (_ ← (if request_may_have_data (req_type r) && (0 <? req_length r) then
         if request_is_write (req_type r) then
           b ← blk_arm r;
           _ ← put_pdu k (with_blk r (with_map_data b (req_length r)));
           conn ← get_conn c;
           put_conn c (conn_with_sending conn (Some k))
         else mret tt
       else mret tt); m) Q (set_devices <[dev := dev_with_pending d rest]> s).
Proof.
  intros [Hc Hd Hp Hr Ha] Hm. unfold dispatched_pdu in Hm. unfold sends_data in *. apply wp_bind.
  destruct (request_may_have_data (req_type r) && (0 <? req_length r)); simpl in *; [|by ksteps].
  destruct (request_is_write (req_type r)); simpl in *; [|by ksteps].
  destruct Ha as [b Hb]; [done|]. rewrite Hb in Hm. by ksteps.
Qed.

Lemma dev_read_run pad1 pad2 waits to s c dev w d k rest r Q :
  ready_to_read s c dev w d k rest r -> sizeof_k2u <= iov_iter_count to ->
  wp (read_dispatch c pad1 pad2 k to) Q (set_devices <[dev := dev_with_pending d rest]> s) ->
  wp (bius_dev_read c pad1 pad2 waits to) Q s.
Proof.
  intros [Hc Hd Hp Hr Ha] Hsz Hrun. unfold bius_dev_read. ksteps. cbn [conn_block_dev conn_sending].
  destruct (Z.ltb_spec (iov_iter_count to) sizeof_k2u); [lia|]. ksteps.
  eapply wp_intro; [by eapply wait_pending_ready|]. cbv beta iota. ksteps. rewrite Hp. by ksteps.
Qed.

Lemma read_dispatch_spec pad1 pad2 to s c dev w d k rest r :
  ready_to_read s c dev w d k rest r -> length pad1 = 4%nat -> length pad2 = 4%nat ->
  0 < iov_avail to ->
  let n := Z.min sizeof_k2u (iov_avail to) in
  wp (read_dispatch c pad1 pad2 k to) (fun res s' =>
    res.1 = n /\
    iov_received res.2 =
      iov_received to ++ take (Z.to_nat n) (k2u_bytes pad1 pad2 (command_header (dispatched_pdu r))) /\
    s' = dispatched s c dev w d k rest r) (set_devices <[dev := dev_with_pending d rest]> s).
Proof.
  intros Hrd Hp1 Hp2 Hav n. pose proof Hrd as [Hc Hd Hp Hr Ha]. unfold read_dispatch.
  eapply wp_bind, wp_get_pdu; [exact Hr|]. eapply dispatch_prefix; [exact Hrd|].
  set (s1 := KState _ _ _ _ _ _ _ _ _). cbv beta zeta.
  assert (pdus s1 !! k = Some (dispatched_pdu r)) as Hr1.
  { unfold s1, dispatched_pdu; simpl. unfold sends_data in *.
    destruct (_ && request_is_write _); [by rewrite lookup_insert_eq|].
    by destruct (req_u r). }
  set (bs := k2u_bytes pad1 pad2 (command_header (dispatched_pdu r))).
  pose proof (length_k2u_bytes pad1 pad2 (command_header (dispatched_pdu r)) Hp1 Hp2) as Hlen.
  pose proof (copy_to_iter_ret bs to) as Hret. pose proof (copy_to_iter_received bs to) as Hrcv.
  fold bs in Hlen. rewrite Hlen in Hret. fold n in Hret.
  apply wp_bind. unfold bius_send_command. eapply wp_bind, wp_get_pdu; [exact Hr1|]. apply wp_ret.
  fold bs. rewrite Hret in Hrcv. rewrite Hret.
  destruct (Z.leb_spec n 0); [unfold sizeof_k2u in *; lia|].
  assert (exists conn, connections s1 !! c = Some conn /\
    conn_with_waiting conn (conn_waiting conn ++ [k])
      = Connection (Some dev) (w ++ [k]) (if sends_data r then Some k else None)) as (conn & Hc1 & Hconn).
  { unfold s1; simpl. destruct (sends_data r).
    - by eexists; rewrite lookup_insert_eq.
    - by eexists; rewrite Hc. }
  eapply wp_bind, wp_get_conn; [exact Hc1|]. ksteps.
  split_and!; [done|done|]. rewrite Hconn. unfold s1, dispatched, set_conns; simpl. f_equal.
  destruct (sends_data r); [by rewrite insert_insert_eq|done].
Qed.

Lemma dispatched_header r : command_header (dispatched_pdu r) = command_header r.
Proof. unfold dispatched_pdu. destruct (req_u r); [|done]. by destruct (sends_data r). Qed.

(** A read on an idle connection takes the oldest pending request of the
    device, fills the user's buffer with its header (all of it when the buffer
    is mapped), and appends it to the connection's waiting requests; a request
    with data to send becomes the one being sent, with all of its data ahead. *)
Theorem bius_dev_read_dispatches pad1 pad2 waits to s c dev w d k rest r :
  ready_to_read s c dev w d k rest r -> length pad1 = 4%nat -> length pad2 = 4%nat ->
  sizeof_k2u <= iov_avail to ->
  wp (bius_dev_read c pad1 pad2 waits to) (fun res s' =>
    res.1 = sizeof_k2u /\
    iov_received res.2 = iov_received to ++ k2u_bytes pad1 pad2 (command_header r) /\
    devices s' = <[dev := dev_with_pending d rest]> (devices s) /\
    connections s' = <[c := Connection (Some dev) (w ++ [k])
                              (if sends_data r then Some k else None)]> (connections s) /\
    blk_rqs s' = blk_rqs s /\ trace s' = trace s /\
    (forall b, req_u r = UBlk b -> sends_data r = true ->
       pdus s' = <[k := with_blk r (with_map_data b (req_length r))]> (pdus s))) s.
Proof.
  intros Hrd Hp1 Hp2 Hav. pose proof (iov_avail_range to).
  eapply dev_read_run; [exact Hrd|lia|].
  eapply wp_mono; [apply (read_dispatch_spec pad1 pad2 to s c dev w d k rest r); try done;
    unfold sizeof_k2u in *; lia|].
  intros res s' (Hres & Hrcv & ->). rewrite Z.min_l in * by lia. rewrite dispatched_header in Hrcv.
  pose proof (length_k2u_bytes pad1 pad2 (command_header r) Hp1 Hp2) as Hlen.
  rewrite take_ge in Hrcv by (unfold sizeof_k2u in *; lia). unfold dispatched; simpl.
  split_and!; try done. intros b Hb Hs. unfold dispatched_pdu. by rewrite Hs, Hb.
Qed.

(** The store when [k] has been taken from the pending list. *)
Definition taken (s : kstate) (c dev : Z) (w : list Z) (d : bius_block_device)
    (k : Z) (rest : list Z) (r : bius_request) : kstate :=
  KState (next_request_id s) (blk_rqs s)
    (if sends_data r then <[k := dispatched_pdu r]> (pdus s) else pdus s)
    (<[dev := dev_with_pending d rest]> (devices s)) (all_disk_list s)
    (if sends_data r then <[c := Connection (Some dev) w (Some k)]> (connections s) else connections s)
    (kmem s) (kbufs s) (trace s).

Lemma dispatch_fails_spec pad1 pad2 to s c dev w d k rest r b rq :
  ready_to_read s c dev w d k rest r -> blk_request s k r b rq -> length pad1 = 4%nat ->
  length pad2 = 4%nat -> iov_avail to = 0 ->
  wp (read_dispatch c pad1 pad2 k to) (fun res s' =>
    res.1 = 0 /\ iov_received res.2 = iov_received to /\
    exists b', blk_request (taken s c dev w d k rest r) k (dispatched_pdu r) b' rq /\
      s' = set_conns <[c := Connection (Some dev) w None]>
             (ended (taken s c dev w d k rest r) k (dispatched_pdu r) b' BLK_STS_IOERR))
    (set_devices <[dev := dev_with_pending d rest]> s).
Proof.
  intros Hrd Hbr Hp1 Hp2 Hav. pose proof Hrd as [Hc Hd Hp Hr Ha]. pose proof Hbr as [_ Hu He Hrq Hb].
  unfold read_dispatch.
  eapply wp_bind, wp_get_pdu; [exact Hr|]. eapply dispatch_prefix; [exact Hrd|].
  cbv zeta. fold (taken s c dev w d k rest r). set (s1 := taken _ _ _ _ _ _ _ _).
  assert (exists b', blk_request s1 k (dispatched_pdu r) b' rq) as [b' Hbr1].
  { unfold s1, taken, dispatched_pdu. rewrite Hu.
    destruct (sends_data r); (eexists; split; simpl; [| |exact He|exact Hrq|exact Hb]);
      rewrite ?lookup_insert_eq; done. }
  set (bs := k2u_bytes pad1 pad2 (command_header (dispatched_pdu r))).
  pose proof (copy_to_iter_ret bs to) as Hret. pose proof (copy_to_iter_received bs to) as Hrcv.
  rewrite Hav, Z.min_r in Hret by lia. rewrite Hret in Hrcv.
  apply wp_bind. unfold bius_send_command. eapply wp_bind, wp_get_pdu; [by destruct Hbr1|].
  apply wp_ret. fold bs. rewrite Hret. simpl Z.leb. cbv iota. apply wp_bind.
  eapply wp_intro; [by eapply end_blk_request_spec|]. cbv beta.
  assert (exists conn, connections s1 !! c = Some conn /\
    conn_with_sending conn None = Connection (Some dev) w None) as (conn & Hc1 & Hconn).
  { unfold s1, taken; simpl. destruct (sends_data r).
    - by eexists; rewrite lookup_insert_eq.
    - by eexists; rewrite Hc. }
  eapply wp_bind, wp_get_conn; [exact Hc1|]. ksteps. rewrite Hconn.
  split_and!; [done|by rewrite Hrcv, take_0, app_nil_r|]. by exists b'.
Qed.

Lemma read_fails_spec pad1 pad2 waits to s c dev w d k rest r b rq :
  ready_to_read s c dev w d k rest r -> blk_request s k r b rq -> length pad1 = 4%nat ->
  length pad2 = 4%nat -> sizeof_k2u <= iov_iter_count to -> iov_avail to = 0 ->
  wp (bius_dev_read c pad1 pad2 waits to) (fun res s' =>
    res.1 = 0 /\ iov_received res.2 = iov_received to /\
    exists b', blk_request (taken s c dev w d k rest r) k (dispatched_pdu r) b' rq /\
      s' = set_conns <[c := Connection (Some dev) w None]>
             (ended (taken s c dev w d k rest r) k (dispatched_pdu r) b' BLK_STS_IOERR)) s.
Proof.
  intros Hrd Hbr Hp1 Hp2 Hsz Hav. eapply dev_read_run; [exact Hrd|lia|]. by eapply dispatch_fails_spec.
Qed.

(** When the header of a block request cannot be copied at all, the request
    completes with an I/O error and is on no list of the connection or the
    device; the connection is idle again. *)
Theorem bius_dev_read_fails pad1 pad2 waits to s c dev w d k rest r b rq :
  ready_to_read s c dev w d k rest r -> blk_request s k r b rq -> length pad1 = 4%nat ->
  length pad2 = 4%nat -> sizeof_k2u <= iov_iter_count to -> iov_avail to = 0 ->
  wp (bius_dev_read c pad1 pad2 waits to) (fun res s' =>
    res.1 = 0 /\ iov_received res.2 = iov_received to /\
    devices s' = <[dev := dev_with_pending d rest]> (devices s) /\
    connections s' = <[c := Connection (Some dev) w None]> (connections s) /\
    blk_rqs s' = delete k (blk_rqs s) /\
    trace s' = trace s ++ end_events k r BLK_STS_IOERR) s.
Proof.
  intros Hrd Hbr Hp1 Hp2 Hsz Hav. pose proof Hbr as [_ Hu _ _ _].
  eapply wp_mono; [by eapply read_fails_spec|].
  intros res s' (-> & -> & b' & _ & ->). unfold taken; simpl. split_and!; try done.
  - destruct (sends_data r); [by rewrite insert_insert_eq|done].
  - unfold end_events, dispatched_pdu. rewrite Hu. by destruct (sends_data r).
Qed.

(** When the same happens to a zone report, whose request holds no blk arm,
    the error path stores the status over the report's semaphore: a zone report
    is ended as if it were a block request. *)
Theorem bius_dev_read_report_fails_faults pad1 pad2 waits to s c dev w d k rest r i :
  ready_to_read s c dev w d k rest r -> req_u r = UInt i -> req_type r = BIUS_REPORT_ZONES ->
  sizeof_k2u <= iov_iter_count to -> iov_avail to = 0 ->
  bius_dev_read c pad1 pad2 waits to s = Fault UnionMix.
Proof.
  intros [Hc Hd Hp Hr _] Hu Ht Hsz Hav. unfold bius_dev_read.
  unfold mbind at 1, ST_bind at 1. unfold get_conn, gets, mbind, ST_bind. rewrite Hc.
  cbn [deref mret ST_ret conn_block_dev conn_sending].
  destruct (Z.ltb_spec (iov_iter_count to) sizeof_k2u); [lia|].
  rewrite (wait_pending_ready waits dev d k rest s) by done.
  unfold get_dev, gets, mbind, ST_bind. rewrite Hd. cbn [deref mret ST_ret]. rewrite Hp.
  unfold put_dev, modify. unfold read_dispatch, get_pdu, gets, mbind, ST_bind. simpl.
  rewrite Hr. simpl. rewrite Ht. simpl. unfold bius_send_command, get_pdu, gets, mbind, ST_bind. simpl.
  rewrite Hr. simpl. rewrite copy_to_iter_ret, Hav, Z.min_r by lia. simpl.
  unfold end_blk_request, get_pdu, gets, mbind, ST_bind, blk_arm. simpl. rewrite Hr. simpl. by rewrite Hu.
Qed.

(** A buffer smaller than a header is refused and nothing changes; so is a
    read before the connection has a device. *)
Lemma bius_dev_read_refused pad1 pad2 waits to s c conn :
  connections s !! c = Some conn ->
  conn_block_dev conn = None \/ (conn_sending conn = None /\ iov_iter_count to < sizeof_k2u) ->
  bius_dev_read c pad1 pad2 waits to s =
    Ret ((match conn_block_dev conn with None => - EIO | Some _ => - EINVAL end, to), s).
Proof.
  intros Hc Hwhy. unfold bius_dev_read, get_conn, gets, mbind, ST_bind. rewrite Hc. cbn [deref mret ST_ret].
  destruct (conn_block_dev conn) as [dev|]; [|done].
  destruct Hwhy as [Hn|[Hs Hlt]]; [done|]. rewrite Hs. by rewrite (proj2 (Z.ltb_lt _ _) Hlt).
Qed.

(** *** Sending payloads *)

(** Connection [c] is sending block request [k]. *)
Record sending (s : kstate) (c dev : Z) (w : list Z) (k : Z) (r : bius_request) (b : blk_part)
    (rq : request) : Prop := {
  sd_conn : connections s !! c = Some (Connection (Some dev) w (Some k));
  sd_pdu : pdus s !! k = Some r;
  sd_arm : req_u r = UBlk b;
  sd_rq : blk_rqs s !! k = Some rq;
  sd_unmapped : b_map_type b = BIUS_DATAMAP_UNMAPPED;
  sd_wf : xfer_wf rq b }.

(** While a request is being sent, a read returns the next bytes of its
    payload, as many as the user's buffer takes; the connection goes on
    sending exactly when bytes are left. *)
Lemma read_payload_spec pad1 pad2 waits to s c dev w k r b rq :
  sending s c dev w k r b rq ->
  let n := Z.min (b_map_data b) (iov_avail to) in
  wp (bius_dev_read c pad1 pad2 waits to) (fun res s' =>
    res.1 = n /\
    iov_received res.2 = iov_received to ++ take (Z.to_nat n) (mem_gather (kmem s) (payload rq b)) /\
    kmem s' = kmem s /\
    (exists s1 b' rq', sent_bytes k r b rq n s s1 b' rq' /\
       s' = if b_map_data b <=? iov_avail to
            then set_conns <[c := Connection (Some dev) w None]> s1 else s1) /\
    if b_map_data b <=? iov_avail to then
      connections s' = <[c := Connection (Some dev) w None]> (connections s)
    else exists b' rq', sending s' c dev w k (with_blk r b') b' rq' /\
           b_map_data b' = b_map_data b - n /\
           payload rq' b' = drop (Z.to_nat n) (payload rq b)) s.
Proof.
  intros [Hc Hr Hu Hrq Hmt Hwf] n. pose proof (iov_avail_range to) as Hav.
  pose proof Hwf as (_ & Hmd & _).
  unfold bius_dev_read. ksteps. cbn [conn_block_dev conn_sending]. apply wp_bind.
  eapply wp_mono; [by apply (send_data_spec k (iov_iter_count to) to s r b rq); try done; lia|].
  rewrite (Z.min_r (iov_iter_count to)) by lia. fold n.
  intros res s' (Hres & Hrcv & b' & rq' & Hsent). cbv beta. pose proof Hsent as [-> Hpay Hmd' Hwf' Hmt' _ _].
  apply wp_bind. unfold request_io_done. eapply wp_bind, wp_get_pdu; [apply lookup_insert_eq|].
  eapply wp_bind, wp_blk_arm; [reflexivity|]. rewrite Hmt', Hmt. simpl negb. cbv iota. apply wp_ret.
  case_bool_decide as Hdone.
  - ksteps. kfields. destruct (Z.leb_spec (b_map_data b) (iov_avail to)); [|lia].
    split_and!; try done. by eexists _, b', rq'.
  - ksteps. kfields. destruct (Z.leb_spec (b_map_data b) (iov_avail to)); [lia|].
    split_and!; try done; [by eexists _, b', rq'|].
    exists b', rq'. split_and!; try done. split; simpl; rewrite ?lookup_insert_eq; try done. congruence.
Qed.

(** Reads into empty buffers, one after the other, and what they received. *)
Fixpoint read_all (c : Z) (pad1 pad2 : list Z) (bufs : list iov_iter) : ST kstate (list Z) :=
  match bufs with
  | [] => mret []
  | to :: bufs' =>
      res ← bius_dev_read c pad1 pad2 [] to;
      rest ← read_all c pad1 pad2 bufs';
      mret (iov_received res.2 ++ rest)
  end.
Definition room (bufs : list iov_iter) : Z := foldr (fun to acc => iov_avail to + acc) 0 bufs.
Lemma room_nonneg bufs : 0 <= room bufs.
Proof. induction bufs as [|to bufs IH]; simpl; [lia|]. pose proof (iov_avail_range to). lia. Qed.

(** C24: However the user cuts its buffers, the reads that follow a dispatched
    write return its payload, whole and in order; with the last byte the
    connection is idle again.  [bufs ++ \[last\]] are the buffers, the payload
    ending in the last one. *)
Theorem write_payload_complete pad1 pad2 bufs last s c dev w k r b rq :
  sending s c dev w k r b rq ->
  Forall (fun to => iov_received to = []) (bufs ++ [last]) ->
  room bufs < b_map_data b <= room bufs + iov_avail last ->
  wp (read_all c pad1 pad2 (bufs ++ [last])) (fun received s' =>
    received = mem_gather (kmem s) (payload rq b) /\
    connections s' !! c = Some (Connection (Some dev) w None)) s.
Proof.
  revert s r b rq. induction bufs as [|to bufs IH]; intros s r b rq Hsd Hrcv Hroom;
    pose proof (sd_wf _ _ _ _ _ _ _ _ Hsd) as (_ & Hmd & _);
    [change ([] ++ [last]) with [last] in *|rewrite <- app_comm_cons in *]; cbn [read_all];
    apply Forall_cons in Hrcv as [Hto Hrcv]; cbn [room foldr] in Hroom; apply wp_bind.
  - eapply wp_mono; [by eapply read_payload_spec|].
    intros res s' (_ & Hbs & _ & _ & Hc). ksteps. simpl. rewrite app_nil_r, Hbs, Hto.
    rewrite (proj2 (Z.leb_le _ _)) in Hc by lia. rewrite Hc. split; [|apply lookup_insert_eq].
    apply take_ge. rewrite length_mem_gather. lia.
  - fold (room bufs) in Hroom. pose proof (room_nonneg bufs). pose proof (iov_avail_range to).
    eapply wp_mono; [by eapply read_payload_spec|].
    intros res s' (_ & Hbs & Hm & _ & Hc). rewrite (proj2 (Z.leb_gt _ _)) in Hc by lia.
    destruct Hc as (b' & rq' & Hsd' & Hmd' & Hpay). rewrite Z.min_r in * by lia.
    apply wp_bind. eapply wp_mono; [apply (IH s' (with_blk r b') b' rq'); try done; lia|].
    intros rest s2 [-> Hc2]. ksteps. split; [|done].
    rewrite Hbs, Hto, Hm, Hpay, mem_gather_drop. apply take_drop.
Qed.
End reading.

(** ** Replies *)
Section replying.
Context `{BL : BioLaws} `{IL : IovLaws} `{LC : LinuxConst}.
Implicit Types s : kstate.

(** The user writes the header [h]. *)
Definition writes (from : iov_iter) (h : bius_u2k_header) : Prop :=
  sizeof_u2k <= iov_iter_count from /\ (copy_from_iter sizeof_u2k from).1 = u2k_bytes h /\ u2k_wf h.

(** Connection [c] waits for the reply to [k], the only one with the id of [h]. *)
Record waiting_for (s : kstate) (c dev : Z) (w : list Z) (snd : option Z) (h : bius_u2k_header)
    (k : Z) (r : bius_request) : Prop := {
  wt_conn : connections s !! c = Some (Connection (Some dev) w snd);
  wt_in : k ∈ w;
  wt_pdu : pdus s !! k = Some r;
  wt_id : req_id r = u2k_id h;
  wt_unique : forall x, x ∈ w -> exists r', pdus s !! x = Some r' /\ (req_id r' = u2k_id h -> x = k) }.

(** The connection once the reply to [k] is taken. *)
Definition answered_conn (dev : Z) (w : list Z) (snd : option Z) (k : Z) : bius_connection :=
  Connection (Some dev) (list_del k w) (if bool_decide (snd = Some k) then None else snd).

Lemma dev_write_header um e c stack from h s :
  writes from h ->
  bius_dev_write um e c stack from s =
    (conn ← get_conn c;
     match conn_block_dev conn with
     | None => handle_initialization um e c h
     | Some _ =>
         o ← get_request_by_id (conn_waiting conn) (u2k_id h);
         match o with
         | None => mret (- EINVAL)
         | Some k =>
             _ ← put_conn c (Connection (conn_block_dev conn) (list_del k (conn_waiting conn))
                    (if bool_decide (conn_sending conn = Some k) then None else conn_sending conn));
             r ← get_pdu k;
             if is_blk_request (req_type r) then reply_blk um k h sizeof_u2k
             else reply_int um k h sizeof_u2k
         end
     end) s.
Proof.
  intros (Hsz & Hbs & Hwf). unfold bius_dev_write. unfold mbind at 1 5, ST_bind at 1 5.
  destruct (get_conn c s) as [[conn s']| |]; [|done|done].
  rewrite (proj2 (Z.ltb_ge _ _)) by lia. rewrite Hbs, length_u2k_bytes.
  simpl Z.leb. cbv iota. pose proof (length_u2k_bytes h) as Hl.
  rewrite u2k_of_bytes_app; done.
Qed.

Lemma dev_write_run um e c stack from h s dev w snd k r Q :
  writes from h -> waiting_for s c dev w snd h k r ->
  wp (if is_blk_request (req_type r) then reply_blk um k h sizeof_u2k
      else reply_int um k h sizeof_u2k) Q (set_conns <[c := answered_conn dev w snd k]> s) ->
  wp (bius_dev_write um e c stack from) Q s.
Proof.
  intros Hwr [Hc Hin Hr Hid Hun] Hrun.
  eapply wp_eq; [by apply dev_write_header|].
  ksteps. cbn [conn_block_dev conn_waiting conn_sending]. apply wp_bind.
  eapply wp_intro; [by apply (get_request_by_id_unique w (u2k_id h) s k r)|]. cbv beta iota. by ksteps.
Qed.

(** The events of the completion of [k] with the reply [h]. *)
Definition reply_events (k : Z) (r : bius_request) (h : bius_u2k_header) : list kevent :=
  (if bool_decide (req_type r = BIUS_ZONE_APPEND)
   then [EvSector k (u64 (s64 (u2k_user_data h) `quot` SECTOR_SIZE))] else [])
    ++ [EvEnd k (wrap blk_status_bits (u2k_reply h))].

Lemma blk_request_conns s f k r b rq :
  blk_request s k r b rq -> blk_request (set_conns f s) k r b rq.
Proof. intros []. by split. Qed.

(** The end of [reply_blk]: the request completes with the reply as its status. *)
Lemma reply_blk_finish um k h n s r b rq :
  blk_request s k r b rq ->
  u2k_reply h <> BLK_STS_OK \/ req_type r <> BIUS_READ ->
  wp (reply_blk um k h n) (fun res s' =>
    res = n /\ blk_rqs s' = delete k (blk_rqs s) /\ connections s' = connections s /\
    devices s' = devices s /\ kmem s' = kmem s /\ trace s' = trace s ++ reply_events k r h /\
    next_request_id s' = next_request_id s /\ all_disk_list s' = all_disk_list s /\ kbufs s' = kbufs s /\
    exists r' b', pdus s' = <[k := r']> (pdus s) /\ req_u r' = UBlk b') s.
Proof.
  intros Hbr Hne. pose proof Hbr as [Hr Hu He Hrq Hb]. unfold reply_blk.
  eapply wp_bind, wp_get_pdu; [exact Hr|]. cbv beta zeta.
  assert ((u2k_reply h =? BLK_STS_OK) && bool_decide (req_type r = BIUS_READ) = false) as ->.
  { apply andb_false_iff. destruct Hne as [?|?]; [left; by apply Z.eqb_neq|right; by apply bool_decide_eq_false_2]. }
  eapply wp_bind, wp_get_pdu; [exact Hr|]. apply wp_bind. case_bool_decide as Ht.
  - apply wp_put_pdu, wp_bind.
    eapply wp_intro.
    { apply (end_blk_request_spec _ k (with_pos r (s64 (u2k_user_data h))) b rq).
      split; simpl; rewrite ?lookup_insert_eq; done. }
    apply wp_ret. simpl. split_and!; try done.
    eexists _, _. split; [apply insert_insert_eq|done].
  - apply wp_ret, wp_bind. eapply wp_intro; [by eapply end_blk_request_spec|].
    apply wp_ret. simpl. split_and!; try done; [|by eexists _, _].
    unfold end_events, reply_events. by rewrite !bool_decide_eq_false_2.
Qed.

(** The reply to a block request (other than the success of a read) ends
    it, once, with the reply's status; the request leaves the connection, which
    stops sending it if it was; a zone append learns the position the user
    reports. *)
Theorem bius_dev_write_completes um e c stack from h s dev w snd k r b rq :
  writes from h -> waiting_for s c dev w snd h k r -> is_blk_request (req_type r) = true ->
  blk_request s k r b rq -> u2k_reply h <> BLK_STS_OK \/ req_type r <> BIUS_READ ->
  wp (bius_dev_write um e c stack from) (fun res s' =>
    res = sizeof_u2k /\ blk_rqs s' = delete k (blk_rqs s) /\
    connections s' = <[c := answered_conn dev w snd k]> (connections s) /\
    devices s' = devices s /\ kmem s' = kmem s /\ trace s' = trace s ++ reply_events k r h) s.
Proof.
  intros Hwr Hwt Hblk Hbr Hne. eapply dev_write_run; [done|exact Hwt|]. rewrite Hblk.
  eapply wp_mono; [eapply reply_blk_finish; [by apply blk_request_conns|done]|].
  intros res s' (? & ? & Hconn & ? & ? & ? & _). by split_and!.
Qed.

(** A reply whose status does not fit [blk_status_t] is truncated.  A reply
    that is a multiple of the type's range, 256 for Linux's u8, completes a read
    successfully although no data was copied. *)
Theorem bius_dev_write_status_truncated um e c stack from h s dev w snd k r b rq :
  writes from h -> waiting_for s c dev w snd h k r -> req_type r = BIUS_READ ->
  blk_request s k r b rq -> u2k_reply h <> BLK_STS_OK -> wrap blk_status_bits (u2k_reply h) = 0 ->
  wp (bius_dev_write um e c stack from) (fun res s' =>
    trace s' = trace s ++ [EvEnd k BLK_STS_OK] /\ kmem s' = kmem s) s.
Proof.
  intros Hwr Hwt Hty Hbr Hne Hwrap. eapply dev_write_run; [done|exact Hwt|]. rewrite Hty. change (is_blk_request BIUS_READ) with true.
  cbv iota.
  eapply wp_mono; [eapply reply_blk_finish; [by apply blk_request_conns|by left]|].
  intros res s' (? & ? & Hconn & ? & ? & -> & _). split; [|done].
  unfold reply_events. by rewrite Hty, Hwrap.
Qed.

(** The success of a read. *)
Lemma reply_blk_read um k h n s r b rq :
  blk_request s k r b rq -> u2k_reply h = BLK_STS_OK -> req_type r = BIUS_READ ->
  b_map_type b = BIUS_DATAMAP_UNMAPPED -> (b_bio b < length (rq_bios rq))%nat ->
  let faults := user_faults um (rq_for_each_segment rq) (u2k_user_data h) in
  exists m, reply_blk um k h n s =
      Ret (if faults then - EIO else n,
           ended (set_kmem (fun _ => m) s) k r b (if faults then BLK_STS_IOERR else BLK_STS_OK)) /\
    (forall x, x ∉ rq_extent rq -> m !! x = kmem s !! x) /\
    (forall bs, user_holds um (u2k_user_data h) bs -> length bs = length (rq_extent rq) ->
      faults = false /\ m = scatter (kmem s) (rq_extent rq) bs).
Proof.
  intros Hbr Hok Hty Hmt Hlen faults. pose proof Hbr as [Hr Hu He Hrq Hb].
  destruct (receive_data_spec um k (u2k_user_data h) s r b rq Hr Hu Hrq Hmt Hlen) as (m & Hm & Hout & Hbs).
  exists m. split; [|by split]. unfold reply_blk. unfold mbind at 1, ST_bind at 1.
  assert (forall t, pdus t = pdus s -> get_pdu k t = Ret (r, t)) as Hget.
  { intros t Ht. unfold get_pdu, gets, mbind, ST_bind. by rewrite Ht, Hr. }
  rewrite Hget by done. cbv beta zeta. rewrite Hok, Hty.
  change ((BLK_STS_OK =? BLK_STS_OK) && bool_decide (BIUS_READ = BIUS_READ)) with true. cbv iota.
  unfold mbind at 1, ST_bind at 1. rewrite Hm. fold faults.
  assert (blk_request (set_kmem (fun _ => m) s) k r b rq) as Hbr' by (by destruct Hbr; split).
  destruct faults; [change (- EIO <? 0) with true|change (0 <? 0) with false]; cbv iota.
  - unfold mbind, ST_bind. by rewrite (end_blk_request_spec _ _ _ _ _ _ Hbr').
  - unfold mbind, ST_bind. rewrite Hget by done. rewrite Hty. simpl.
    by rewrite (end_blk_request_spec _ _ _ _ _ _ Hbr').
Qed.

(** The successful reply to a read stores the user's bytes in the segments
    of the request, in order and nowhere else, and only then completes it
    successfully. *)
Theorem bius_dev_write_read_data um e c stack from h s dev w snd k r b rq bs :
  writes from h -> waiting_for s c dev w snd h k r -> u2k_reply h = BLK_STS_OK ->
  req_type r = BIUS_READ -> blk_request s k r b rq -> b_map_type b = BIUS_DATAMAP_UNMAPPED ->
  (b_bio b < length (rq_bios rq))%nat -> NoDup (rq_extent rq) ->
  user_holds um (u2k_user_data h) bs -> length bs = length (rq_extent rq) ->
  wp (bius_dev_write um e c stack from) (fun res s' =>
    res = sizeof_u2k /\ mem_gather (kmem s') (rq_extent rq) = bs /\
    (forall x, x ∉ rq_extent rq -> kmem s' !! x = kmem s !! x) /\
    blk_rqs s' = delete k (blk_rqs s) /\
    connections s' = <[c := answered_conn dev w snd k]> (connections s) /\
    trace s' = trace s ++ [EvEnd k (wrap blk_status_bits BLK_STS_OK)]) s.
Proof.
  intros Hwr Hwt Hok Hty Hbr Hmt Hlen Hnd Hum Hbs. eapply dev_write_run; [done|exact Hwt|].
  rewrite Hty. change (is_blk_request BIUS_READ) with true. cbv iota.
  destruct (reply_blk_read um k h sizeof_u2k (set_conns <[c := answered_conn dev w snd k]> s) r b rq)
    as (m & Hrun & Hout & Hm); try done; [by apply blk_request_conns|].
  destruct (Hm bs Hum Hbs) as [Hnf ->]. rewrite Hnf in Hrun. eapply wp_intro; [exact Hrun|].
  simpl in *. split_and!; try done.
  - by apply gather_scatter.
  - unfold end_events. by rewrite Hty.
Qed.

(** When the data of a successful read cannot be copied in full, the
    request fails with an I/O error and the write returns -EIO; memory outside
    the request does not change. *)
Theorem bius_dev_write_read_fault um e c stack from h s dev w snd k r b rq :
  writes from h -> waiting_for s c dev w snd h k r -> u2k_reply h = BLK_STS_OK ->
  req_type r = BIUS_READ -> blk_request s k r b rq -> b_map_type b = BIUS_DATAMAP_UNMAPPED ->
  (b_bio b < length (rq_bios rq))%nat ->
  user_faults um (rq_for_each_segment rq) (u2k_user_data h) = true ->
  wp (bius_dev_write um e c stack from) (fun res s' =>
    res = - EIO /\ (forall x, x ∉ rq_extent rq -> kmem s' !! x = kmem s !! x) /\
    blk_rqs s' = delete k (blk_rqs s) /\
    connections s' = <[c := answered_conn dev w snd k]> (connections s) /\
    trace s' = trace s ++ [EvEnd k (wrap blk_status_bits BLK_STS_IOERR)]) s.
Proof.
  intros Hwr Hwt Hok Hty Hbr Hmt Hlen Hf. eapply dev_write_run; [done|exact Hwt|].
  rewrite Hty. change (is_blk_request BIUS_READ) with true. cbv iota.
  destruct (reply_blk_read um k h sizeof_u2k (set_conns <[c := answered_conn dev w snd k]> s) r b rq)
    as (m & Hrun & Hout & _); try done; [by apply blk_request_conns|].
  rewrite Hf in Hrun. eapply wp_intro; [exact Hrun|]. simpl in *. split_and!; try done.
  unfold end_events. by rewrite Hty.
Qed.

(** A reply whose id no waiting request has is refused with -EINVAL and
    changes nothing: no request is ended. *)
Theorem bius_dev_write_unknown_id um e c stack from h s conn dev :
  writes from h -> connections s !! c = Some conn -> conn_block_dev conn = Some dev ->
  (forall x, x ∈ conn_waiting conn -> exists r, pdus s !! x = Some r /\ req_id r <> u2k_id h) ->
  bius_dev_write um e c stack from s = Ret (- EINVAL, s).
Proof.
  intros Hwr Hc Hd Hno. rewrite (dev_write_header _ _ _ _ _ _ _ Hwr).
  unfold mbind, ST_bind at 1. unfold get_conn, gets, mbind, ST_bind. rewrite Hc.
  cbn [deref mret ST_ret]. rewrite Hd. by rewrite get_request_by_id_none.
Qed.

(** A zone report, waiting, whose buffer is [size] bytes at [data]. *)
Record report_request (s : kstate) (k : Z) (r : bius_request) (i : int_part) (size : Z) : Prop := {
  rr_type : req_type r = BIUS_REPORT_ZONES;
  rr_arm : req_u r = UInt i;
  rr_end : req_on_end r = fn_bius_report_zones_request_end;
  rr_buf : kbufs s !! i_data i = Some size }.

Lemma end_request_int_spec k result s r i :
  pdus s !! k = Some r -> req_u r = UInt i -> req_on_end r = fn_bius_report_zones_request_end ->
  end_request_int k result s =
    Ret (tt, emit_event (EvUp k)
      (set_pdus <[k := with_int r (IntPart (i_data i) (i_sem i + 1) (Some (s32 result)))]> s)).
Proof.
  intros Hr Hu He.
  assert (wp (end_request_int k result) (fun _ s' => s' = emit_event (EvUp k)
    (set_pdus <[k := with_int r (IntPart (i_data i) (i_sem i + 1) (Some (s32 result)))]> s)) s) as Hwp.
  { unfold end_request_int. ksteps. unfold on_request_end.
    eapply wp_bind, wp_get_pdu; [apply lookup_insert_eq|]. cbn [with_int req_on_end]. rewrite He.
    unfold bius_report_zones_request_end. eapply wp_bind, wp_get_pdu; [apply lookup_insert_eq|].
    eapply wp_bind, wp_int_arm; [reflexivity|]. ksteps. unfold emit_event, set_pdus; simpl. f_equal.
    by rewrite insert_insert_eq. }
  destruct (wp_inv _ _ _ Hwp) as ([] & s' & Hrun & ->). done.
Qed.

(** The reply to a zone report that fits the report's buffer fills the
    buffer with the user's bytes, records the reply as the result and wakes
    the reporter; the request leaves the connection. *)
Theorem bius_dev_write_report um e c stack from h s dev w snd k r i size bs :
  writes from h -> waiting_for s c dev w snd h k r -> report_request s k r i size ->
  0 < u2k_reply h <= size -> u2k_reply h < 2 ^ 31 ->
  user_holds um (u2k_user_data h) bs -> Z.of_nat (length bs) = u2k_reply h ->
  wp (bius_dev_write um e c stack from) (fun res s' =>
    res = sizeof_u2k /\ mem_read (kmem s') (i_data i) (u2k_reply h) = bs /\
    pdus s' = <[k := with_int r (IntPart (i_data i) (i_sem i + 1) (Some (u2k_reply h)))]> (pdus s) /\
    connections s' = <[c := answered_conn dev w snd k]> (connections s) /\
    trace s' = trace s ++ [EvUp k]) s.
Proof.
  intros Hwr Hwt [Hty Hu He Hb] Hfit Hlt Hum Hbs. eapply dev_write_run; [done|exact Hwt|].
  pose proof (wt_pdu _ _ _ _ _ _ _ _ Hwt) as Hr.
  rewrite Hty. change (is_blk_request BIUS_REPORT_ZONES) with false. cbv iota. unfold reply_int, copy_into_data.
  destruct (Z.leb_spec (u2k_reply h) 0); [lia|]. ksteps. rewrite (proj2 (Z.ltb_ge INT_MAX _)) by (unfold INT_MAX; lia). ksteps.
  destruct (Z.ltb_spec size (u2k_reply h)); [lia|]. ksteps.
  pose proof (user_holds_padded um (u2k_user_data h) bs 0 (u2k_reply h) Hum) as Hpad.
  pose proof (user_holds_not_copied um (u2k_user_data h) bs 0 (u2k_reply h) Hum) as Hnc.
  rewrite Z.add_0_r in Hpad, Hnc. rewrite Hpad, Hnc by lia. rewrite Z.ltb_irrefl.
  rewrite drop_0, take_ge by lia.
  eapply wp_intro; [by apply (end_request_int_spec k (u2k_reply h) _ r i)|].
  apply wp_ret. simpl. rewrite (swrap_small 32) by lia. split_and!; try done.
  by apply mem_read_write_same.
Qed.

(** C40: A positive reply larger than the report's buffer is copied all the same:
    the kernel writes past the end of the buffer, whenever the length is one that
    [copy_from_user] takes; beyond [INT_MAX] it takes none, and the report fails. *)
Theorem bius_dev_write_report_overflow um e c stack from h s dev w snd k r i size :
  writes from h -> waiting_for s c dev w snd h k r -> report_request s k r i size ->
  0 <= size < u2k_reply h ->
  (u2k_reply h <= INT_MAX -> bius_dev_write um e c stack from s = Fault OutOfBounds) /\
  (INT_MAX < u2k_reply h -> wp (bius_dev_write um e c stack from) (fun res s' =>
     res = sizeof_u2k /\ kmem s' = kmem s /\ trace s' = trace s ++ [EvUp k] /\
     pdus s' = <[k := with_int r (IntPart (i_data i) (i_sem i + 1) (Some (- EINVAL)))]> (pdus s)) s).
Proof.
  intros Hwr Hwt [Hty Hu He Hb] Hbig. split; intros Hlen.
  - destruct Hwt as [Hc Hin Hr Hid Hun]. rewrite (dev_write_header _ _ _ _ _ _ _ Hwr).
    unfold mbind, ST_bind at 1. unfold get_conn, gets, mbind, ST_bind. rewrite Hc.
    cbn [deref mret ST_ret conn_block_dev conn_waiting conn_sending].
    rewrite (get_request_by_id_unique w (u2k_id h) s k r) by done.
    unfold put_conn, modify, get_pdu, gets, mbind, ST_bind. cbn [pdus set_conns]. rewrite Hr.
    cbn [deref mret ST_ret]. rewrite Hty. change (is_blk_request BIUS_REPORT_ZONES) with false. cbv iota. unfold reply_int.
    destruct (Z.leb_spec (u2k_reply h) 0); [lia|].
    unfold copy_into_data, get_pdu, gets, mbind, ST_bind, int_arm. cbn [pdus set_conns]. rewrite Hr.
    cbn [deref mret ST_ret]. rewrite Hu. cbn [mret ST_ret kbufs set_conns]. rewrite (proj2 (Z.ltb_ge INT_MAX _)) by done.
    cbn [kbufs set_conns]. rewrite Hb. cbn [deref mret ST_ret]. by rewrite (proj2 (Z.ltb_lt _ _)) by lia.
  - eapply dev_write_run; [done|exact Hwt|]. pose proof (wt_pdu _ _ _ _ _ _ _ _ Hwt) as Hr.
    rewrite Hty. change (is_blk_request BIUS_REPORT_ZONES) with false. cbv iota. unfold reply_int, copy_into_data.
    destruct (Z.leb_spec (u2k_reply h) 0); [lia|]. ksteps. rewrite (proj2 (Z.ltb_lt INT_MAX _)) by done. ksteps.
    rewrite (proj2 (Z.ltb_lt 0 _)) by lia. eapply wp_intro; [by apply (end_request_int_spec k (- EINVAL) _ r i)|].
    by apply wp_ret.
Qed.

(** The reply is 64 bits wide, the result of a report an [int]: a negative reply
    whose low half is positive comes back as a number of bytes that nobody checked,
    and the report hands its callback what lies behind its buffer. *)
Lemma report_zones_loop_overreads blkz size nr left s :
  (0 < left)%nat -> Z.of_nat left <= nr -> size < nr * sizeof_blk_zone ->
  report_zones_loop blkz size (fun _ _ => mret 0) nr left s = Fault OutOfBounds.
Proof.
  intros Hl Hle Hsz. revert Hl Hle. induction left as [|left IH]; intros Hl Hle; [lia|]. cbn [report_zones_loop].
  destruct (Z.ltb_spec size ((nr - Z.of_nat (S left) + 1) * sizeof_blk_zone)); [done|].
  unfold gets, mbind, ST_bind, mret, ST_ret. cbn [negb Z.eqb]. apply IH; [|lia].
  destruct left; [|lia]. replace (nr - Z.of_nat 1 + 1) with nr in * by lia. lia.
Qed.
Theorem report_negative_reply_overreads um e c stack from h s dev w snd k r i nr v :
  writes from h -> waiting_for s c dev w snd h k r -> report_request s k r i (sizeof_blk_zone * nr) ->
  i_sem i = 0 -> u2k_reply h = v - 2 ^ 32 -> 0 <= nr < v / sizeof_blk_zone -> v < 2 ^ 31 ->
  (_ ← bius_dev_write um e c stack from; res ← down_killable false k; report_finish nr (i_data i) k (fun _ _ => mret 0) res) s
    = Fault OutOfBounds.
Proof.
  intros Hwr Hwt [Hty Hu He Hb] Hsem Hv Hnr Hlt.
  pose proof (wt_pdu _ _ _ _ _ _ _ _ Hwt) as Hr. assert (0 < v < 2 ^ 31) as Hpos.
  { split; [|done]. destruct (Z.lt_ge_cases 0 v); [done|]. pose proof (Z.div_le_upper_bound v sizeof_blk_zone 0). unfold sizeof_blk_zone in *. lia. }
  assert (wp (bius_dev_write um e c stack from) (fun _ s' =>
    pdus s' !! k = Some (with_int r (IntPart (i_data i) 1 (Some v)))) s) as Hwp.
  { eapply dev_write_run; [done|exact Hwt|]. rewrite Hty. change (is_blk_request BIUS_REPORT_ZONES) with false. cbv iota.
    unfold reply_int. destruct (Z.leb_spec (u2k_reply h) 0); [|lia]. apply wp_bind.
    eapply wp_intro; [by eapply end_request_int_spec|]. apply wp_ret. kfields.
    rewrite lookup_insert_eq, Hsem, Hv. do 4 f_equal.
    assert (s32 (v - 2 ^ 32) = v) as ->; [|done]. unfold swrap. change (2 ^ (32 - 1)) with (2 ^ 31).
    replace (v - 2 ^ 32 + 2 ^ 31) with (v + 2 ^ 31 + (-1) * 2 ^ 32) by lia. rewrite Z.mod_add by done. rewrite Z.mod_small by lia. lia. }
  destruct (wp_inv _ _ _ Hwp) as (res & s' & Hrun & Hr'). rewrite (bind_ret _ _ _ _ _ Hrun).
  assert (wp (down_killable false k) (fun res t => res = 0 /\ pdus t !! k = Some (with_int r (IntPart (i_data i) 0 (Some v)))) s') as Hdown.
  { unfold down_killable. ksteps. cbn [with_int req_u]. eapply wp_int_arm; [reflexivity|]. cbn [i_sem]. change (1 <=? 0) with false.
    cbv iota. ksteps. split; [done|]. kfields. apply lookup_insert_eq. }
  destruct (wp_inv _ _ _ Hdown) as (? & t & Hrun' & -> & Ht). rewrite (bind_ret _ _ _ _ _ Hrun').
  unfold report_finish. change (0 <? 0) with false. cbv iota. unfold mbind, ST_bind, get_pdu, gets, mbind, ST_bind, int_arm.
  rewrite Ht. cbn [deref mret ST_ret with_int req_u i_int_result]. destruct (Z.ltb_spec v 0); [lia|].
  generalize (v / sizeof_blk_zone) as q, Hnr. intros q Hq. rewrite report_zones_loop_overreads; [done|lia|lia|unfold sizeof_blk_zone; lia].
Qed.
End replying.

(** ** Creating, connecting and closing *)
Section session.
Context `{BL : BioLaws} `{IL : IovLaws} `{LC : LinuxConst}.
Implicit Types s : kstate.

(** The user asks, on a connection [c] without a device, for [u2k_type] [t]. *)
Record asks (s : kstate) (c : Z) (from : iov_iter) (h : bius_u2k_header) (t : bius_req) : Prop := {
  as_writes : writes from h;
  as_conn : exists w snd, connections s !! c = Some (Connection None w snd);
  as_type : u2k_type h = bius_req_value t }.

Lemma dev_write_init um e c stack from h s t :
  asks s c from h t -> bius_dev_write um e c stack from s = handle_initialization um e c h s.
Proof.
  intros [Hwr (w & snd & Hc) _]. rewrite (dev_write_header _ _ _ _ _ _ _ Hwr).
  unfold mbind, ST_bind at 1. unfold get_conn, gets, mbind, ST_bind. by rewrite Hc.
Qed.

Lemma create_options um a o :
  options_wf o -> user_holds um a (options_bytes o) ->
  not_copied um a sizeof_options = 0 /\ options_of_bytes (copy_from_user um a sizeof_options) = o.
Proof.
  intros Ho Hum. pose proof (length_options_bytes o Ho) as Hl. rewrite <- (Z.add_0_r a). split.
  - eapply user_holds_not_copied; [done|lia|unfold sizeof_options; lia|lia].
  - erewrite user_holds_copy; [|done|lia|unfold sizeof_options; lia|lia].
    rewrite drop_0, take_ge by lia. by apply options_of_bytes_bytes.
Qed.

(** The store after a successful creation by connection [c]. *)
Lemma create_device_run e o s Q :
  create_succeeds e = true ->
  (forall dev, ce_kmalloc e = Some dev ->
     Q (0, Some dev) (KState (next_request_id s) (blk_rqs s) (pdus s)
       (<[dev := BlockDevice (ce_register_blkdev e) (create_gendisk o (ce_register_blkdev e))
                   (opt_model o) 0 []]> (devices s)) (all_disk_list s ++ [dev]) (connections s)
       (kmem s) (kbufs s) (trace s ++ (EvAcquire <$> create_acquired e) ++ [EvAddDisk dev]))) ->
  wp (create_block_device e o) Q s.
Proof.
  unfold create_succeeds, create_acquired. intros Hs HQ.
  destruct (ce_kmalloc e) as [dev|] eqn:H1; [|done]. specialize (HQ dev eq_refl).
  destruct (ce_register_blkdev e <? 0) eqn:H2; [done|].
  destruct (ce_alloc_disk e) eqn:H3; [|done]. cbn [negb] in *.
  destruct (ce_alloc_tag_set e <? 0) eqn:H4; [done|].
  destruct (ce_init_queue e =? 0) eqn:H5; [|done]. clear Hs. cbn [negb] in *.
  eapply wp_intro; [|exact HQ]. unfold create_block_device. rewrite H1.
  unfold mbind, ST_bind, emit, put_dev, modify. rewrite H2, H3. cbn [negb]. rewrite H4, H5. cbn [negb].
  unfold mret, ST_ret. do 2 f_equal. kstate_eq.
Qed.

Lemma write_creates_spec um e c stack from h s o :
  asks s c from h BIUS_CREATE -> options_wf o -> user_holds um (u2k_user_data h) (options_bytes o) ->
  create_succeeds e = true ->
  wp (bius_dev_write um e c stack from) (fun res s' =>
    res = sizeof_u2k /\
    exists dev w snd, ce_kmalloc e = Some dev /\ connections s !! c = Some (Connection None w snd) /\
      connections s' = <[c := Connection (Some dev) w snd]> (connections s) /\
      devices s' = <[dev := BlockDevice (ce_register_blkdev e) (create_gendisk o (ce_register_blkdev e))
                      (opt_model o) 1 []]> (devices s) /\
      all_disk_list s' = all_disk_list s ++ [dev] /\
      trace s' = trace s ++ (EvAcquire <$> create_acquired e) ++ [EvAddDisk dev]
        ++ (if bool_decide (opt_model o = BLK_ZONED_NONE) then [] else [EvRevalidate dev])) s.
Proof.
  intros Has Ho Hum Hs. eapply wp_eq; [by eapply dev_write_init|]. destruct Has as [_ (w & snd & Hc) Ht].
  unfold handle_initialization. rewrite Ht, Z.eqb_refl. unfold handle_create.
  destruct (create_options um _ o Ho Hum) as [-> ->]. simpl negb. cbv iota. apply wp_bind.
  apply create_device_run; [done|]. intros dev Hdev. cbv beta. cbn [Datatypes.fst Datatypes.snd].
  change (u64 0 <? 0) with false. cbv iota. apply wp_bind.
  set (s1 := KState _ _ _ _ _ _ _ _ _).
  assert (devices s1 !! dev = Some (BlockDevice (ce_register_blkdev e)
    (create_gendisk o (ce_register_blkdev e)) (opt_model o) 0 [])) as Hd by apply lookup_insert_eq.
  assert (connections s1 !! c = Some (Connection None w snd)) as Hc1 by done.
  case_bool_decide as Hm; simpl negb; cbv iota; unfold attach_device.
  - ksteps. eapply wp_deref; [reflexivity|]. cbv beta. ksteps. kfields. split; [done|].
    exists dev, w, snd. unfold s1; kfields. rewrite insert_insert_eq, app_nil_r. by split_and!.
  - eapply wp_bind, wp_deref; [reflexivity|]. cbv beta. unfold bius_revalidate. ksteps.
    eapply wp_deref; [reflexivity|]. cbv beta. ksteps. kfields. split; [done|].
    exists dev, w, snd. unfold s1; kfields. rewrite insert_insert_eq, <- !app_assoc. by split_and!.
Qed.
(** [BIUS_CREATE] with valid options, when the allocations succeed, creates
    the device the options describe and attaches the connection to it as its
    first user; a zoned device is revalidated. *)
Theorem bius_dev_write_creates um e c stack from h s o :
  asks s c from h BIUS_CREATE -> options_wf o -> user_holds um (u2k_user_data h) (options_bytes o) ->
  create_succeeds e = true ->
  wp (bius_dev_write um e c stack from) (fun res s' =>
    res = sizeof_u2k /\
    exists dev w snd, ce_kmalloc e = Some dev /\ connections s !! c = Some (Connection None w snd) /\
      connections s' = <[c := Connection (Some dev) w snd]> (connections s) /\
      devices s' = <[dev := BlockDevice (ce_register_blkdev e) (create_gendisk o (ce_register_blkdev e))
                      (opt_model o) 1 []]> (devices s) /\
      all_disk_list s' = all_disk_list s ++ [dev] /\
      trace s' = trace s ++ (EvAcquire <$> create_acquired e) ++ [EvAddDisk dev]
        ++ (if bool_decide (opt_model o = BLK_ZONED_NONE) then [] else [EvRevalidate dev])) s.
Proof. apply write_creates_spec. Qed.

(** When creating the device fails, the error is compared as an unsigned
    number with 0 and never seen: the handler goes on with a device pointer
    that was never set. *)
Theorem bius_dev_write_create_failure_uninit um e c stack from h s o :
  asks s c from h BIUS_CREATE -> options_wf o -> user_holds um (u2k_user_data h) (options_bytes o) ->
  create_succeeds e = false ->
  bius_dev_write um e c stack from s = Fault UninitRead.
Proof.
  intros Has Ho Hum Hs. rewrite (dev_write_init _ _ _ _ _ _ _ _ Has).
  destruct Has as [_ _ Ht]. unfold handle_initialization. rewrite Ht, Z.eqb_refl. unfold handle_create.
  destruct (create_options um _ o Ho Hum) as [-> ->]. change (negb (0 =? 0)) with false.
  unfold mbind at 1, ST_bind at 1. cbv beta iota zeta.
  assert (exists ret t, create_block_device e o s = Ret ((ret, None), t)) as (ret & t & ->).
  { unfold create_succeeds, create_acquired, create_block_device in *.
    destruct (ce_kmalloc e) as [dev|]; [|by eexists _, _].
    unfold mbind, ST_bind, emit, modify. simpl.
    destruct (ce_register_blkdev e <? 0); [by eexists _, _|].
    destruct (ce_alloc_disk e); [|by eexists _, _]. simpl.
    destruct (ce_alloc_tag_set e <? 0); [by eexists _, _|].
    destruct (ce_init_queue e =? 0); [done|by eexists _, _]. }
  cbn [Datatypes.fst Datatypes.snd]. destruct (Z.ltb_spec (u64 ret) 0) as [Hlt|_].
  - pose proof (wrap_range 64 ret). lia.
  - by case_bool_decide.
Qed.

Lemma write_connects_spec um e c stack from h s name :
  asks s c from h BIUS_CONNECT -> user_holds um (u2k_user_data h) name ->
  u2k_length h = Z.of_nat (length name) -> (length name <= Z.to_nat DISK_NAME_LEN)%nat -> all_live s ->
  let padded := name ++ replicate (Z.to_nat (DISK_NAME_LEN - Z.of_nat (length name))) 0 in
  wp (bius_dev_write um e c stack from) (fun res s' =>
    match head (filter (fun d => named s padded d = true) (reverse (all_disk_list s))) with
    | None => res = - ENOENT /\ s' = s
    | Some dev =>
        res = sizeof_u2k /\
        exists d w snd, devices s !! dev = Some d /\ connections s !! c = Some (Connection None w snd) /\
          s' = set_conns <[c := Connection (Some dev) w snd]>
                 (set_devices <[dev := dev_with_conns d (u32 (dev_num_connection d + 1))]> s)
    end) s.
Proof.
  intros Has Hum Hlen Hle Hl padded. eapply wp_eq; [by eapply dev_write_init|].
  destruct Has as [_ (w & snd & Hc) Ht]. unfold handle_initialization. rewrite Ht.
  change (bius_req_value BIUS_CONNECT =? bius_req_value BIUS_CREATE) with false. rewrite Z.eqb_refl.
  unfold handle_connect. rewrite Hlen. unfold DISK_NAME_LEN in *.
  rewrite Z.min_r by lia.
  assert (not_copied um (u2k_user_data h) (Z.of_nat (length name)) = 0) as ->.
  { rewrite <- (Z.add_0_r (u2k_user_data h)). eapply user_holds_not_copied; [done|lia..]. }
  assert (copy_from_user um (u2k_user_data h) (Z.of_nat (length name)) = name) as ->.
  { rewrite <- (Z.add_0_r (u2k_user_data h)). erewrite user_holds_copy; [|done|lia..].
    rewrite drop_0, take_ge by lia. done. }
  simpl negb. cbv iota. fold padded. apply wp_bind.
  eapply wp_intro; [by apply get_block_device_spec|]. cbv beta.
  destruct (head _) as [dev|] eqn:Hhead; [|by apply wp_ret].
  assert (is_Some (devices s !! dev)) as [d Hd].
  { unfold all_live in Hl. rewrite Forall_forall in Hl. apply Hl.
    apply head_Some_elem_of, list_elem_of_filter in Hhead as [_ Hin].
    by apply elem_of_reverse. }
  unfold attach_device. eapply wp_bind, wp_deref; [reflexivity|]. cbv beta. ksteps.
  split; [done|]. by exists d, w, snd.
Qed.
(** [BIUS_CONNECT] with a name of at most 32 bytes attaches the connection
    to the newest device of that name and counts it, or fails with -ENOENT and
    changes nothing. *)
Theorem bius_dev_write_connects um e c stack from h s name :
  asks s c from h BIUS_CONNECT -> user_holds um (u2k_user_data h) name ->
  u2k_length h = Z.of_nat (length name) -> (length name <= Z.to_nat DISK_NAME_LEN)%nat -> all_live s ->
  let padded := name ++ replicate (Z.to_nat (DISK_NAME_LEN - Z.of_nat (length name))) 0 in
  wp (bius_dev_write um e c stack from) (fun res s' =>
    match head (filter (fun d => named s padded d = true) (reverse (all_disk_list s))) with
    | None => res = - ENOENT /\ s' = s
    | Some dev =>
        res = sizeof_u2k /\
        exists d w snd, devices s !! dev = Some d /\ connections s !! c = Some (Connection None w snd) /\
          s' = set_conns <[c := Connection (Some dev) w snd]>
                 (set_devices <[dev := dev_with_conns d (u32 (dev_num_connection d + 1))]> s)
    end) s.
Proof. apply write_connects_spec. Qed.

(** The loop of [bius_dev_release]. *)
Fixpoint ended_all (s : kstate) (l : list Z) : kstate :=
  match l with
  | [] => s
  | k :: l' =>
      match pdus s !! k with
      | Some r => match req_u r with
                  | UBlk b => ended_all (ended s k r b BLK_STS_IOERR) l'
                  | UInt _ => s
                  end
      | None => s
      end
  end.
Lemma visit_waiting_spec l s :
  NoDup l -> Forall (fun k => exists r b rq, blk_request s k r b rq) l ->
  visit (fun k => end_blk_request k BLK_STS_IOERR) l s = Ret (tt, ended_all s l).
Proof.
  intros Hnd. revert s. induction Hnd as [|k l Hk _ IH]; intros s Hl; [done|].
  apply Forall_cons in Hl as [(r & b & rq & Hbr) Hl].
  cbn [visit ended_all]. unfold mbind, ST_bind.
  rewrite (end_blk_request_spec _ _ _ _ _ _ Hbr). destruct Hbr as [-> -> _ _ _]. apply IH.
  rewrite Forall_forall in *. intros x Hx. destruct (Hl x Hx) as (r' & b' & rq' & []).
  assert (k <> x) by (by intros ->). exists r', b', rq'. split; simpl; rewrite ?lookup_insert_ne,
    ?lookup_delete_ne by done; done.
Qed.
Lemma end_waiting_spec c v s :
  connections s !! c = Some v -> NoDup (conn_waiting v) -> linked_once s (waiting_requests c) ->
  Forall (fun k => exists r b rq, blk_request s k r b rq) (conn_waiting v) ->
  end_waiting undisturbed_walk c s = Ret (tt, ended_all s (conn_waiting v)).
Proof.
  intros Hc Hnd Hone Hl. assert (on_list s (waiting_requests c) = conn_waiting v) as El by (unfold on_list; by rewrite Hc).
  unfold end_waiting. rewrite walk_visits; [|auto with lists|by rewrite El|done].
  rewrite El. by apply visit_waiting_spec.
Qed.
Lemma end_no_waiting c v s :
  connections s !! c = Some v -> conn_waiting v = [] -> end_waiting undisturbed_walk c s = Ret (tt, s).
Proof. intros Hc Hw. unfold end_waiting, list_for_each_entry, gets, on_list, id, mbind, ST_bind. rewrite Hc. cbn. by rewrite Hw. Qed.
(** What it does, request by request. *)
Lemma ended_all_spec l s :
  NoDup l -> Forall (fun k => exists r b rq, blk_request s k r b rq) l ->
  (forall k, blk_rqs (ended_all s l) !! k = if decide (k ∈ l) then None else blk_rqs s !! k) /\
  devices (ended_all s l) = devices s /\ connections (ended_all s l) = connections s /\
  all_disk_list (ended_all s l) = all_disk_list s /\ next_request_id (ended_all s l) = next_request_id s /\
  (forall k, k ∉ l -> pdus (ended_all s l) !! k = pdus s !! k) /\
  trace (ended_all s l) = trace s ++ concat ((fun k =>
    match pdus s !! k with Some r => end_events k r BLK_STS_IOERR | None => [] end) <$> l).
Proof.
  intros Hnd. revert s. induction Hnd as [|k l Hk Hnd IH]; intros s Hl.
  { simpl. rewrite app_nil_r. by split_and!. }
  apply Forall_cons in Hl as [(r & b & rq & Hbr) Hl]. cbn [ended_all].
  pose proof Hbr as [Hr Hu _ _ _]. rewrite Hr, Hu.
  destruct (IH (ended s k r b BLK_STS_IOERR)) as (H1 & H2 & H3 & H4 & H5 & H6 & H7).
  { rewrite Forall_forall in *. intros x Hx. destruct (Hl x Hx) as (r' & b' & rq' & []).
    assert (k <> x) by (by intros ->). exists r', b', rq'. split; simpl; rewrite ?lookup_insert_ne,
      ?lookup_delete_ne by done; done. }
  rewrite H2, H3, H4, H5, H7. split_and!; try done.
  - intros x. rewrite H1. simpl. destruct (decide (x = k)) as [->|Hne].
    + rewrite lookup_delete_eq. rewrite (decide_True (P := k ∈ k :: l)) by (by left). by case_decide.
    + rewrite lookup_delete_ne by done. apply decide_ext. rewrite elem_of_cons. tauto.
  - intros x [Hne Hx]%not_elem_of_cons. rewrite H6 by done. simpl. by rewrite lookup_insert_ne.
  - rewrite fmap_cons. cbn [concat]. rewrite Hr. simpl. rewrite <- app_assoc. do 3 f_equal.
    apply list_fmap_ext. intros i x Hx. rewrite lookup_insert_ne; [done|].
    intros ->. apply Hk. by eapply list_elem_of_lookup_2.
Qed.

Lemma ended_all_reports l s :
  NoDup l -> Forall (fun k => exists r b rq, blk_request s k r b rq) l ->
  kbufs (ended_all s l) = kbufs s /\
  forall k r i, req_u r = UInt i -> pdus (ended_all s l) !! k = Some r <-> pdus s !! k = Some r.
Proof.
  intros Hnd. revert s. induction Hnd as [|k l Hk Hnd IH]; intros s Hl; [done|].
  apply Forall_cons in Hl as [(r & b & rq & Hbr) Hl]. cbn [ended_all].
  pose proof Hbr as [Hr Hu _ _ _]. rewrite Hr, Hu.
  destruct (IH (ended s k r b BLK_STS_IOERR)) as [-> IHr].
  { rewrite Forall_forall in *. intros x Hx. destruct (Hl x Hx) as (r' & b' & rq' & []).
    assert (k <> x) by (by intros ->). exists r', b', rq'. split; simpl; rewrite ?lookup_insert_ne,
      ?lookup_delete_ne by done; done. }
  split; [done|]. intros x r' i Hi. rewrite (IHr x r' i Hi). simpl. destruct (decide (x = k)) as [->|Hne].
  - rewrite lookup_insert_eq, Hr. split; intros [= <-]; cbn [with_blk req_u] in Hi; congruence.
  - by rewrite lookup_insert_ne.
Qed.

(** Closing a connection that others share the device with completes every
    request it was waiting for with an I/O error, once each and in order, takes
    it off the device's count, and leaves the device and its pending requests
    to the others. *)
Theorem bius_dev_release_ends_waiting s c dev w snd d :
  connections s !! c = Some (Connection (Some dev) w snd) -> devices s !! dev = Some d ->
  NoDup w -> linked_once s (waiting_requests c) -> Forall (fun k => exists r b rq, blk_request s k r b rq) w ->
  1 < dev_num_connection d < 2 ^ 32 ->
  wp (bius_dev_release c) (fun res s' =>
    res = 0 /\ connections s' = delete c (connections s) /\
    (forall k, blk_rqs s' !! k = if decide (k ∈ w) then None else blk_rqs s !! k) /\
    devices s' = <[dev := dev_with_conns d (dev_num_connection d - 1)]> (devices s) /\
    all_disk_list s' = all_disk_list s /\
    trace s' = trace s ++ concat ((fun k =>
      match pdus s !! k with Some r => end_events k r BLK_STS_IOERR | None => [] end) <$> w)) s.
Proof.
  intros Hc Hd Hnd Hone Hw Hn. unfold bius_dev_release, release_around. ksteps. cbn [conn_waiting conn_block_dev].
  eapply wp_intro; [by apply (end_waiting_spec c (Connection (Some dev) w snd))|]. cbn [conn_waiting].
  destruct (ended_all_spec w s Hnd Hw) as (H1 & H2 & H3 & H4 & H5 & H6 & H7).
  apply wp_bind. eapply wp_bind, wp_get_dev; [by rewrite H2|]. ksteps.
  rewrite wrap_small by lia. destruct (Z.eqb_spec (dev_num_connection d - 1) 0); [lia|]. ksteps.
  simpl. rewrite H2, H3, H4, H7. by split_and!.
Qed.

(** Closing a connection that waits for a zone report ends the report as if
    it were a block request. *)
Theorem bius_dev_release_report_faults s c conn k r i rest :
  connections s !! c = Some conn -> conn_waiting conn = k :: rest ->
  pdus s !! k = Some r -> req_u r = UInt i ->
  bius_dev_release c s = Fault UnionMix.
Proof.
  intros Hc Hw Hr Hu. unfold bius_dev_release, release_around, mbind, ST_bind, get_conn, gets, mbind, ST_bind.
  rewrite Hc. simpl. unfold end_waiting, list_for_each_entry, on_list, id, gets, mbind, ST_bind. rewrite Hc. simpl. rewrite Hw. simpl.
  unfold end_blk_request, get_pdu, gets, mbind, ST_bind. simpl. rewrite Hr. simpl.
  unfold blk_arm. by rewrite Hu.
Qed.
End session.

(** ** Concrete runs *)
Definition sample_pad : list Z := [0; 0; 0; 0].
Definition sample_device (n : Z) (pending : list Z) : bius_block_device :=
  BlockDevice 240 sample_disk BLK_ZONED_NONE n pending.
Definition reply_buf (h : bius_u2k_header) : @iov_iter ubuf_iov := sample_buf 24 24 (u2k_bytes h).
Lemma reply_buf_writes h : u2k_wf h -> writes (reply_buf h) h.
Proof.
  intros Hwf. split_and!; [done| |done].
  change (take 24 (u2k_bytes h) = u2k_bytes h).
  pose proof (length_u2k_bytes h) as Hl. unfold sizeof_u2k in *. rewrite take_ge; [done|]. lia.
Qed.

Lemma sample_ready p w k rest id t md :
  p = k :: rest -> sample_pdus !! k = Some (sample_pdu id t md) ->
  ready_to_read (sample_state p w None) 200 100 w (sample_device 1 p) k rest (sample_pdu id t md).
Proof. intros -> Hr. split; try done. by eexists. Qed.
Lemma sample_blk_request p w o k t id md op :
  sample_pdus !! k = Some (sample_pdu id t md) -> sample_rqs !! k = Some (sample_rq op) ->
  blk_request (sample_state p w o) k (sample_pdu id t md) (sample_blk md) (sample_rq op).
Proof. by split. Qed.

Lemma bius_dev_read_dispatches_witness :
  wp (bius_dev_read 200 sample_pad sample_pad [] (sample_buf 100 100 []))
    (fun res s' => res.1 = 56 /\ k2u_of_bytes (iov_received res.2) = K2U 1 BIUS_WRITE 4096 9 0 0 0 /\
       connections s' !! 200 = Some (Connection (Some 100) [7] (Some 7)))
    (sample_state [7; 8] [] None).
Proof.
  eapply wp_mono.
  - by apply (bius_dev_read_dispatches sample_pad sample_pad [] (sample_buf 100 100 [])
      (sample_state [7; 8] [] None) 200 100 [] (sample_device 1 [7; 8]) 7 [8] (sample_pdu 1 BIUS_WRITE 9));
      [apply sample_ready|..].
  - intros res s' (-> & -> & _ & -> & _). split_and!; [done|by vm_compute|apply lookup_insert_eq].
Defined.

Lemma bius_dev_read_fails_witness :
  wp (bius_dev_read 200 sample_pad sample_pad [] (sample_buf 100 0 []))
    (fun res s' => res.1 = 0 /\ trace s' = [EvEnd 8 BLK_STS_IOERR] /\ blk_rqs s' !! 8 = None)
    (sample_state [8] [] None).
Proof.
  eapply wp_mono.
  - by apply (bius_dev_read_fails sample_pad sample_pad [] (sample_buf 100 0 [])
      (sample_state [8] [] None) 200 100 [] (sample_device 1 [8]) 8 [] (sample_pdu 2 BIUS_READ 0)
      (sample_blk 0) (sample_rq 0)); [apply sample_ready|apply sample_blk_request|..].
  - intros res s' (-> & _ & _ & _ & -> & ->). split_and!; [done|done|apply lookup_delete_eq].
Defined.

(** Connection 200 with a zone report of 128 bytes at 5000, pending or waiting. *)
Definition report_pdu : bius_request :=
  BiusRequest 5 BIUS_REPORT_ZONES 0 2 (UInt (IntPart 5000 0 None)) fn_bius_report_zones_request_end.
Definition report_state (p w : list Z) : @kstate seg_bio :=
  set_kbufs <[5000 := 128]> (set_pdus <[300 := report_pdu]> (sample_state p w None)).

Lemma bius_dev_read_report_fails_faults_witness :
  bius_dev_read 200 sample_pad sample_pad [] (sample_buf 100 0 []) (report_state [300] []) = Fault UnionMix.
Proof.
  by apply (bius_dev_read_report_fails_faults sample_pad sample_pad [] (sample_buf 100 0 [])
    (report_state [300] []) 200 100 [] (sample_device 1 [300]) 300 [] report_pdu (IntPart 5000 0 None));
    [split|..].
Defined.

Lemma write_payload_complete_witness :
  wp (read_all 200 sample_pad sample_pad [sample_buf 4 4 []; sample_buf 8 2 []; sample_buf 8 8 []])
    (fun received _ => received = sample_bytes) (sample_state [] [7] (Some 7)).
Proof.
  eapply wp_mono.
  - apply (write_payload_complete sample_pad sample_pad [sample_buf 4 4 []; sample_buf 8 2 []]
      (sample_buf 8 8 []) (sample_state [] [7] (Some 7)) 200 100 [7] 7 (sample_pdu 1 BIUS_WRITE 9)
      (sample_blk 9) (sample_rq 1)); [split; try done; apply sample_xfer_wf|by repeat constructor|by vm_compute].
  - intros received s' [-> _]. by vm_compute.
Defined.

Lemma sample_waiting p w o k r h :
  k ∈ w -> sample_pdus !! k = Some r -> req_id r = u2k_id h ->
  (forall x, x ∈ w -> exists r', sample_pdus !! x = Some r' /\ (req_id r' = u2k_id h -> x = k)) ->
  waiting_for (sample_state p w o) 200 100 w o h k r.
Proof. by split. Qed.
Ltac check_unique := intros x Hx; repeat (apply elem_of_cons in Hx as [->|Hx]; [by eexists|]);
  by apply elem_of_nil in Hx.

(** Zone append 9 was written at byte 4608, sector 9. *)
Lemma bius_dev_write_completes_witness :
  wp (bius_dev_write (user_buffer 0 []) (good_env 101) 200 [] (reply_buf (u2k_with_reply 3 0 4608)))
    (fun res s' => res = 24 /\ trace s' = [EvSector 9 9; EvEnd 9 BLK_STS_OK] /\
       connections s' !! 200 = Some (Connection (Some 100) [7] None))
    (sample_state [] [7; 9] (Some 9)).
Proof.
  eapply wp_mono.
  - apply (bius_dev_write_completes (user_buffer 0 []) (good_env 101) 200 []
      (reply_buf (u2k_with_reply 3 0 4608)) (u2k_with_reply 3 0 4608) (sample_state [] [7; 9] (Some 9))
      100 [7; 9] (Some 9) 9 (sample_pdu 3 BIUS_ZONE_APPEND 9) (sample_blk 9) (sample_rq 13));
      [apply reply_buf_writes; by vm_compute|apply sample_waiting; [by right; left|done|done|check_unique]
      |done|by apply sample_blk_request|by right].
  - intros res s' (-> & _ & -> & _ & _ & ->). split_and!; [done|done|apply lookup_insert_eq].
Defined.

Lemma bius_dev_write_status_truncated_witness :
  wp (bius_dev_write (user_buffer 0 []) (good_env 101) 200 [] (reply_buf (u2k_with_reply 2 256 0)))
    (fun res s' => trace s' = [EvEnd 8 BLK_STS_OK] /\ kmem s' = sample_mem) (sample_state [] [8] None).
Proof.
  apply (bius_dev_write_status_truncated (user_buffer 0 []) (good_env 101) 200 []
      (reply_buf (u2k_with_reply 2 256 0)) (u2k_with_reply 2 256 0) (sample_state [] [8] None)
      100 [8] None 8 (sample_pdu 2 BIUS_READ 0) (sample_blk 0) (sample_rq 0));
      [apply reply_buf_writes; by vm_compute|apply sample_waiting; [by left|done|done|check_unique]
      |done|by apply sample_blk_request|done|done].
Defined.

Lemma bius_dev_write_read_data_witness :
  wp (bius_dev_write (user_buffer 1000 (rev sample_bytes)) (good_env 101) 200 []
        (reply_buf (u2k_with_reply 2 0 1000)))
    (fun res s' => res = 24 /\ mem_gather (kmem s') sample_addrs = rev sample_bytes /\
       trace s' = [EvEnd 8 BLK_STS_OK]) (sample_state [] [8] None).
Proof.
  eapply wp_mono.
  - apply (bius_dev_write_read_data (user_buffer 1000 (rev sample_bytes)) (good_env 101) 200 []
      (reply_buf (u2k_with_reply 2 0 1000)) (u2k_with_reply 2 0 1000) (sample_state [] [8] None)
      100 [8] None 8 (sample_pdu 2 BIUS_READ 0) (sample_blk 0) (sample_rq 0) (rev sample_bytes));
      [apply reply_buf_writes; by vm_compute|apply sample_waiting; [by left|done|done|check_unique]
      |done|done|by apply sample_blk_request|done|simpl; lia|by apply (bool_decide_unpack _); vm_compute
      |apply user_buffer_holds|done].
  - by intros res s' (-> & Hm & _ & _ & _ & ->).
Defined.

Lemma bius_dev_write_read_fault_witness :
  wp (bius_dev_write (user_buffer 1000 [1; 2; 3; 4]) (good_env 101) 200 []
        (reply_buf (u2k_with_reply 2 0 1000)))
    (fun res s' => res = - EIO /\ trace s' = [EvEnd 8 BLK_STS_IOERR]) (sample_state [] [8] None).
Proof.
  eapply wp_mono.
  - apply (bius_dev_write_read_fault (user_buffer 1000 [1; 2; 3; 4]) (good_env 101) 200 []
      (reply_buf (u2k_with_reply 2 0 1000)) (u2k_with_reply 2 0 1000) (sample_state [] [8] None)
      100 [8] None 8 (sample_pdu 2 BIUS_READ 0) (sample_blk 0) (sample_rq 0));
      [apply reply_buf_writes; by vm_compute|apply sample_waiting; [by left|done|done|check_unique]
      |done|done|by apply sample_blk_request|done|simpl; lia|done].
  - by intros res s' (-> & _ & _ & _ & ->).
Defined.

Lemma bius_dev_write_unknown_id_witness :
  bius_dev_write (user_buffer 0 []) (good_env 101) 200 [] (reply_buf (u2k_with_reply 99 0 0))
    (sample_state [] [7; 8] None) = Ret (- EINVAL, sample_state [] [7; 8] None).
Proof.
  apply (bius_dev_write_unknown_id (user_buffer 0 []) (good_env 101) 200 [] _ (u2k_with_reply 99 0 0)
    (sample_state [] [7; 8] None) (Connection (Some 100) [7; 8] None) 100);
    [apply reply_buf_writes; by vm_compute|done|done|check_unique].
Defined.

Lemma report_waiting h : u2k_id h = 5 -> waiting_for (report_state [] [300]) 200 100 [300] None h 300 report_pdu.
Proof.
  intros Hid. split; try done; [by left|].
  intros x Hx. apply list_elem_of_singleton in Hx as ->. by eexists.
Qed.
Lemma bius_dev_write_report_witness :
  wp (bius_dev_write (user_buffer 1000 (replicate 64 7)) (good_env 101) 200 []
        (reply_buf (u2k_with_reply 5 64 1000)))
    (fun res s' => res = 24 /\ mem_read (kmem s') 5000 64 = replicate 64 7 /\ trace s' = [EvUp 300])
    (report_state [] [300]).
Proof.
  eapply wp_mono.
  - apply (bius_dev_write_report (user_buffer 1000 (replicate 64 7)) (good_env 101) 200 []
      (reply_buf (u2k_with_reply 5 64 1000)) (u2k_with_reply 5 64 1000) (report_state [] [300])
      100 [300] None 300 report_pdu (IntPart 5000 0 None) 128 (replicate 64 7));
      [apply reply_buf_writes; by vm_compute|by apply report_waiting|by split|by vm_compute|by vm_compute
      |apply user_buffer_holds|done].
  - by intros res s' (-> & Hm & _ & _ & ->).
Defined.

Lemma bius_dev_write_report_overflow_witness :
  bius_dev_write (user_buffer 1000 []) (good_env 101) 200 [] (reply_buf (u2k_with_reply 5 192 1000))
    (report_state [] [300]) = Fault OutOfBounds.
Proof.
  by apply (bius_dev_write_report_overflow (user_buffer 1000 []) (good_env 101) 200 [] _
      (u2k_with_reply 5 192 1000) (report_state [] [300])
      100 [300] None 300 report_pdu (IntPart 5000 0 None) 128);
      [apply reply_buf_writes; by vm_compute|by apply report_waiting|by split|by vm_compute|vm_compute].
Defined.

Definition negative_reply : bius_u2k_header := u2k_with_reply 5 (u64 (192 - 2 ^ 32)) 1000.
Lemma report_negative_reply_overreads_witness :
  (_ ← bius_dev_write (user_buffer 1000 []) (good_env 101) 200 [] (reply_buf negative_reply);
   res ← down_killable false 300; report_finish 2 5000 300 (fun _ _ => mret 0) res) (report_state [] [300]) = Fault OutOfBounds.
Proof.
  apply (report_negative_reply_overreads (user_buffer 1000 []) (good_env 101) 200 [] _ negative_reply
      (report_state [] [300]) 100 [300] None 300 report_pdu (IntPart 5000 0 None) 2 192);
      [apply reply_buf_writes; by vm_compute|by apply report_waiting|by split|done|by vm_compute|by vm_compute|done].
Defined.

(** Connection 201 has no device yet. *)
Definition newcomer : @kstate seg_bio := set_conns <[201 := init_bius_connection]> (sample_state [] [] None).
Definition named_options (name : list Z) : bius_block_device_options :=
  sample_options (name ++ replicate (32 - length name) 0).
Lemma newcomer_asks t len :
  0 <= len < 2 ^ 32 -> 0 <= bius_req_value t < 2 ^ 32 ->
  asks newcomer 201 (reply_buf (u2k_with_type 0 (bius_req_value t) len 1000))
    (u2k_with_type 0 (bius_req_value t) len 1000) t.
Proof.
  intros Hl Ht. split.
  - apply reply_buf_writes. unfold u2k_wf, u2k_with_type; cbn [u2k_id u2k_cell u2k_user_data].
    rewrite (wrap_small 32 len), (wrap_small 32 (bius_req_value t)), Z.shiftl_mul_pow2 by lia. lia.
  - by exists [], None.
  - by apply u2k_type_with_type.
Qed.

Lemma bius_dev_write_creates_witness :
  wp (bius_dev_write (user_buffer 1000 (options_bytes (named_options [98; 49]))) (good_env 101) 201 []
        (reply_buf (u2k_with_type 0 (bius_req_value BIUS_CREATE) 2 1000)))
    (fun res s' => res = 24 /\ all_disk_list s' = [100; 101] /\
       exists w snd, connections s' !! 201 = Some (Connection (Some 101) w snd)) newcomer.
Proof.
  eapply wp_mono.
  - apply (bius_dev_write_creates (user_buffer 1000 (options_bytes (named_options [98; 49]))) (good_env 101) 201 []
      _ (u2k_with_type 0 (bius_req_value BIUS_CREATE) 2 1000) newcomer (named_options [98; 49]));
      [by apply newcomer_asks|by split_and!; vm_compute|apply user_buffer_holds|done].
  - intros res s' (-> & dev & w & snd & [= <-] & _ & -> & _ & -> & _). split_and!; [done|done|].
    exists w, snd. apply lookup_insert_eq.
Defined.

Lemma bius_dev_write_create_failure_uninit_witness :
  bius_dev_write (user_buffer 1000 (options_bytes (named_options [98; 49])))
    (CreateEnv (Some 101) (- ENOMEM) true 0 0) 201 []
    (reply_buf (u2k_with_type 0 (bius_req_value BIUS_CREATE) 2 1000)) newcomer = Fault UninitRead.
Proof.
  apply (bius_dev_write_create_failure_uninit (user_buffer 1000 (options_bytes (named_options [98; 49])))
      (CreateEnv (Some 101) (- ENOMEM) true 0 0) 201 [] _
      (u2k_with_type 0 (bius_req_value BIUS_CREATE) 2 1000) newcomer (named_options [98; 49]));
    [by apply newcomer_asks|by split_and!; vm_compute|apply user_buffer_holds|done].
Defined.

Lemma bius_dev_write_connects_witness :
  wp (bius_dev_write (user_buffer 1000 [98; 105; 117; 115]) (good_env 101) 201 []
        (reply_buf (u2k_with_type 0 (bius_req_value BIUS_CONNECT) 4 1000)))
    (fun res s' => res = 24 /\ devices s' !! 100 = Some (sample_device 2 [])) newcomer.
Proof.
  eapply wp_mono.
  - apply (bius_dev_write_connects (user_buffer 1000 [98; 105; 117; 115]) (good_env 101) 201 [] _
      (u2k_with_type 0 (bius_req_value BIUS_CONNECT) 4 1000) newcomer [98; 105; 117; 115]);
      [by apply newcomer_asks|apply user_buffer_holds|done|by apply Nat.leb_le|apply sample_all_live].
  - intros res s' Hres.
    cbv zeta in Hres. destruct (head _) as [dev|] eqn:Hd in Hres; vm_compute in Hd; [|done].
    injection Hd as <-. destruct Hres as (-> & d & w & snd & [= <-] & _ & ->).
    split; [done|]. apply lookup_insert_eq.
Defined.

(** Device 100 with two connections. *)
Definition shared_state (w : list Z) : @kstate seg_bio :=
  set_devices <[100 := sample_device 2 [7]]> (sample_state [7] w None).
Lemma bius_dev_release_ends_waiting_witness :
  wp (bius_dev_release 200) (fun res s' => res = 0 /\ trace s' = [EvEnd 8 BLK_STS_IOERR; EvSector 9 8; EvEnd 9 BLK_STS_IOERR] /\
      devices s' !! 100 = Some (sample_device 1 [7])) (shared_state [8; 9]).
Proof.
  eapply wp_mono.
  - apply (bius_dev_release_ends_waiting (shared_state [8; 9]) 200 100 [8; 9] None (sample_device 2 [7]));
      [done|done|by apply (bool_decide_unpack _)|apply linked_once_all, (bool_decide_unpack _); by vm_compute| |by vm_compute].
    repeat constructor; eexists _, _, _; by split.
  - intros res s' (-> & _ & _ & -> & _ & ->). by vm_compute.
Defined.

Lemma bius_dev_release_report_faults_witness :
  bius_dev_release 200 (report_state [] [300]) = Fault UnionMix.
Proof.
  by apply (bius_dev_release_report_faults (report_state [] [300]) 200 (Connection (Some 100) [300] None)
    300 report_pdu (IntPart 5000 0 None) []).
Defined.
