(* ===== verification/Invariant.v ===== *)
(** * The system invariant

    Where a request in flight can be, what each list promises of the requests
    it holds, and how devices and connections count each other. *)
From S2P Require Import Prelude Protocol Linux Kernel Sample Command BlockDev CharDev CharDevProps.

(** ** Where a request can be *)
(** Who runs the module's code: the user of connection [c], or the submitter of
    request [k]. *)
Inductive actor := User (c : Z) | Submitter (k : Z).
#[export] Instance actor_eq_dec : EqDecision actor.
Proof. solve_decision. Defined.
#[export] Instance actor_countable : Countable actor.
Proof.
  apply (inj_countable' (fun a => match a with User c => inl c | Submitter k => inr k end)
           (fun x => match x with inl c => User c | inr k => Submitter k end)).
  by intros [].
Defined.
(** The requests that actors in the middle of an operation have in hand: on the
    way to the pending list of [d], taken from there into a buffer with room for [n]
    bytes, or answered with [n]. *)
Inductive hand := Arriving (d : Z) | Taken (n : Z) | Answered (n : Z).
#[export] Instance hand_eq_dec : EqDecision hand.
Proof. solve_decision. Defined.
Class hands := in_hand : gmap actor (Z * hand).

Inductive owner := Pending (d : Z) | Waiting (c : Z) | Hand (a : actor).
#[export] Instance owner_eq_dec : EqDecision owner.
Proof. solve_decision. Defined.

Section queues.
Context `{BL : BioLaws} `{LC : LinuxConst}.

(** A request some list holds: a block request, in flight, unmapped, of an
    operation of the protocol. *)
Record live (rqs : gmap Z request) (ps : gmap Z bius_request) (k : Z)
    (r : bius_request) (b : blk_part) (rq : request) : Prop := {
  lv_pdu : ps !! k = Some r;
  lv_arm : req_u r = UBlk b;
  lv_end : req_on_end r = fn_bius_blk_request_end;
  lv_rq : rqs !! k = Some rq;
  lv_bio : req_type r = BIUS_ZONE_APPEND -> rq_bios rq <> [];
  lv_blk : is_blk_request (req_type r) = true;
  lv_unmapped : b_map_type b = BIUS_DATAMAP_UNMAPPED }.

(** A request that waits to be read has all of its data ahead. *)
Definition data_ready (r : bius_request) (b : blk_part) (rq : request) : Prop :=
  request_is_write (req_type r) = true -> xfer_wf rq (with_map_data b (req_length r)).

(** A zone report: the arm of the union says so. *)
Definition is_report (ps : gmap Z bius_request) (k : Z) : Prop :=
  exists r i, ps !! k = Some r /\ req_u r = UInt i.
Lemma live_no_report rqs ps k r b rq : live rqs ps k r b rq -> ~ is_report ps k.
Proof. intros [Hr Hu _ _ _ _ _] (r' & i & Hr' & Hu'). congruence. Qed.
Lemma is_report_insert ps k r x :
  ~ is_report ps k -> (forall i, req_u r <> UInt i) -> is_report (<[k := r]> ps) x <-> is_report ps x.
Proof.
  intros Hk Hr. unfold is_report. destruct (decide (x = k)) as [->|Hne]; [|by rewrite lookup_insert_ne].
  rewrite lookup_insert_eq. split; [|done]. intros (r' & i & [= <-] & Hi). by destruct (Hr i).
Qed.

(** What a list promises of a request it holds. *)
Definition listed (rqs : gmap Z request) (ps : gmap Z bius_request) (o : owner) (k : Z) : Prop :=
  is_report ps k \/
  exists r b rq, live rqs ps k r b rq /\ (forall d, o = Pending d -> data_ready r b rq).
Lemma listed_same rqs rqs' ps ps' o k :
  listed rqs ps o k -> rqs' !! k = rqs !! k -> ps' !! k = ps !! k -> listed rqs' ps' o k.
Proof.
  intros [(r & i & Hr & Hu)|(r & b & rq & [] & Hd)] Hrq Hps; [left; exists r, i; split; congruence|].
  right. exists r, b, rq. split; [|done]. split; first [done|congruence].
Qed.

(** The lists [Q], the requests in flight [rqs], the pdus and the last id. *)
Record qinv (Q : owner -> list Z) (rqs : gmap Z request) (ps : gmap Z bius_request) (nid : Z) : Prop := {
  q_nodup o : NoDup (Q o);
  q_disj o1 o2 k : k ∈ Q o1 -> k ∈ Q o2 -> o1 = o2;
  q_listed o k : k ∈ Q o -> listed rqs ps o k;
  q_id o k : k ∈ Q o -> exists r, ps !! k = Some r /\ 0 <= req_id r <= nid;
  q_all k : is_Some (rqs !! k) -> exists o, k ∈ Q o;
  q_ids o1 o2 k1 k2 r1 r2 : k1 ∈ Q o1 -> k2 ∈ Q o2 -> ps !! k1 = Some r1 -> ps !! k2 = Some r2 ->
    req_id r1 = req_id r2 -> k1 = k2 }.
Lemma q_live Q rqs ps nid o k :
  qinv Q rqs ps nid -> k ∈ Q o -> ~ is_report ps k ->
  exists r b rq, live rqs ps k r b rq /\ (forall d, o = Pending d -> data_ready r b rq).
Proof. intros Hq Hk Hn. by destruct (q_listed _ _ _ _ Hq o k Hk). Qed.

(** Requests in [G] complete and leave their lists. *)
Lemma qinv_leave Q Q' rqs rqs' ps ps' nid (G : list Z) :
  qinv Q rqs ps nid ->
  (forall o, NoDup (Q' o)) -> (forall o k, k ∈ Q' o <-> k ∈ Q o /\ k ∉ G) ->
  (forall k, rqs' !! k = if decide (k ∈ G) then None else rqs !! k) ->
  (forall k, k ∉ G -> ps' !! k = ps !! k) ->
  qinv Q' rqs' ps' nid.
Proof.
  intros [H1 H2 H3 H4 H5 H6] Hnd HQ Hrq Hps. split.
  - done.
  - intros o1 o2 k [? _]%HQ [? _]%HQ. eauto.
  - intros o k [Hk Hg]%HQ. eapply listed_same; [by apply H3| |by apply Hps]. rewrite Hrq. by rewrite decide_False.
  - intros o k [Hk Hg]%HQ. rewrite Hps by done. eauto.
  - intros k [rq Hk]. rewrite Hrq in Hk. case_decide; [done|].
    destruct (H5 k) as [o Ho]; [by eexists|]. exists o. by apply HQ.
  - intros o1 o2 k1 k2 r1 r2 [? ?]%HQ [? ?]%HQ Hr1 Hr2. rewrite Hps in Hr1, Hr2 by done. eauto.
Qed.

(** Request [k] is put on a list, from another or anew: its id is the one it had
    on the lists, or none of those on the lists. *)
Lemma qinv_put Q Q' rqs rqs' ps ps' nid nid' k o1 r :
  qinv Q rqs ps nid -> nid <= nid' -> ps' !! k = Some r -> 0 <= req_id r <= nid' ->
  (forall o x r', x ∈ Q o -> ps !! x = Some r' -> req_id r' = req_id r -> x = k) ->
  (forall o, NoDup (Q' o)) -> (forall o x, x <> k -> x ∈ Q' o <-> x ∈ Q o) ->
  (forall o, k ∈ Q' o <-> o = o1) ->
  (forall x, x <> k -> rqs' !! x = rqs !! x) -> (forall x, x <> k -> ps' !! x = ps !! x) ->
  listed rqs' ps' o1 k ->
  qinv Q' rqs' ps' nid'.
Proof.
  intros [H1 H2 H3 H4 H5 H6] Hle Hr Hid Hun Hnd HQ Hk' Hrqs Hps Hl. split.
  - done.
  - intros oa ob x Ha Hb. destruct (decide (x = k)) as [->|Hne].
    + apply Hk' in Ha, Hb. congruence.
    + apply HQ in Ha, Hb; eauto.
  - intros o x Hx. destruct (decide (x = k)) as [->|Hne]; [by apply Hk' in Hx as ->|].
    apply HQ in Hx; [|done]. eapply listed_same; [by apply H3|by apply Hrqs|by apply Hps].
  - intros o x Hx. destruct (decide (x = k)) as [->|Hne]; [by exists r|].
    apply HQ in Hx; [|done]. rewrite Hps by done. destruct (H4 o x Hx) as (r' & ? & ?). exists r'. split; [done|lia].
  - intros x [rq' Hx]. destruct (decide (x = k)) as [->|Hne].
    + exists o1. by apply Hk'.
    + rewrite Hrqs in Hx by done. destruct (H5 x) as [o Ho]; [by eexists|].
      exists o. by apply HQ.
  - intros oa ob k1 k2 r1 r2 Ha Hb Hr1 Hr2 Heq.
    destruct (decide (k1 = k)) as [->|Hn1], (decide (k2 = k)) as [->|Hn2];
      [done|apply HQ in Hb; [|done]; rewrite Hps in Hr2 by done|apply HQ in Ha; [|done]; rewrite Hps in Hr1 by done
      |apply HQ in Ha, Hb; [|done..]; rewrite Hps in Hr1, Hr2 by done].
    + symmetry. apply (Hun ob k2 r2); congruence.
    + apply (Hun oa k1 r1); congruence.
    + eauto.
Qed.
Lemma qinv_move Q Q' rqs rqs' ps ps' nid k o0 o1 r0 r :
  qinv Q rqs ps nid -> k ∈ Q o0 -> ps !! k = Some r0 -> ps' !! k = Some r -> req_id r = req_id r0 ->
  (forall o, NoDup (Q' o)) -> (forall o x, x <> k -> x ∈ Q' o <-> x ∈ Q o) ->
  (forall o, k ∈ Q' o <-> o = o1) ->
  (forall x, x <> k -> rqs' !! x = rqs !! x) -> (forall x, x <> k -> ps' !! x = ps !! x) ->
  listed rqs' ps' o1 k ->
  qinv Q' rqs' ps' nid.
Proof.
  intros Hq Hk Hr0 Hr Hid. destruct (q_id _ _ _ _ Hq o0 k Hk) as (r0' & Hr0' & Hr0id).
  assert (r0' = r0) as -> by congruence. intros. eapply (qinv_put Q); try done; [by rewrite Hid|].
  intros o x r' Hx Hr' Heq. eapply (q_ids _ _ _ _ Hq); [exact Hx|exact Hk|done|done|congruence].
Qed.
Lemma qinv_join Q Q' rqs rqs' ps ps' nid nid' k o1 r :
  qinv Q rqs ps nid -> ps' !! k = Some r -> nid < req_id r <= nid' -> 0 <= nid ->
  (forall o, NoDup (Q' o)) -> (forall o x, x <> k -> x ∈ Q' o <-> x ∈ Q o) ->
  (forall o, k ∈ Q' o <-> o = o1) ->
  (forall x, x <> k -> rqs' !! x = rqs !! x) -> (forall x, x <> k -> ps' !! x = ps !! x) ->
  listed rqs' ps' o1 k ->
  qinv Q' rqs' ps' nid'.
Proof.
  intros Hq Hr Hid Hn. intros. eapply (qinv_put Q); try done; [lia|lia|].
  intros o x r' Hx Hr' Heq. destruct (q_id _ _ _ _ Hq o x Hx) as (r2 & Hr2 & ?). assert (r2 = r') as -> by congruence. lia.
Qed.

(** Zone reports.  One that some list holds has not been answered; one that no list
    holds has, with at most the bytes its buffer has room for, and its reporter
    has been woken up.  None is a request of blk-mq, and no two share a buffer. *)
Record report_wf (bufs : gmap Z Z) (r : bius_request) (i : int_part) : Prop := {
  rw_type : req_type r = BIUS_REPORT_ZONES;
  rw_end : req_on_end r = fn_bius_report_zones_request_end;
  rw_length : 0 <= req_length r <= BIUS_MAX_ZONES;
  rw_buf : bufs !! i_data i = Some (sizeof_blk_zone * req_length r) }.
Definition answered_wf (r : bius_request) (i : int_part) : Prop :=
  i_sem i = 1 /\ exists v, i_int_result i = Some v /\ v <= sizeof_blk_zone * req_length r.
Record rinv (Q : owner -> list Z) (rqs : gmap Z request) (ps : gmap Z bius_request) (bufs : gmap Z Z) : Prop := {
  r_wf k r i : ps !! k = Some r -> req_u r = UInt i -> report_wf bufs r i;
  r_rq k : is_report ps k -> rqs !! k = None;
  r_phase k r i : ps !! k = Some r -> req_u r = UInt i ->
    (i_sem i = 0 /\ i_int_result i = None /\ exists o, k ∈ Q o) \/
    (answered_wf r i /\ forall o, k ∉ Q o);
  r_bufs k1 k2 r1 r2 i1 i2 : ps !! k1 = Some r1 -> req_u r1 = UInt i1 -> ps !! k2 = Some r2 -> req_u r2 = UInt i2 ->
    i_data i1 = i_data i2 -> k1 = k2 }.

Lemma qinv_ext Q Q' rqs ps nid : (forall o, Q' o = Q o) -> qinv Q rqs ps nid -> qinv Q' rqs ps nid.
Proof.
  intros HQ [N1 N2 N3 N4 N5 N6]. split; intros; rewrite ?HQ in *; eauto.
  destruct (N5 k) as [o Ho]; [done|]. exists o. by rewrite HQ.
Qed.

(** Nothing changes of the reports. *)
Lemma rinv_same Q Q' rqs rqs' ps ps' bufs :
  rinv Q rqs ps bufs ->
  (forall k r i, req_u r = UInt i -> ps' !! k = Some r <-> ps !! k = Some r) ->
  (forall k, is_report ps k -> rqs !! k = None -> rqs' !! k = None) ->
  (forall k, is_report ps k -> (exists o, k ∈ Q' o) <-> (exists o, k ∈ Q o)) ->
  rinv Q' rqs' ps' bufs.
Proof.
  intros [H1 H2 H3 H4] Hps Hrq HQ. split.
  - intros k r i Hr Hu. apply (H1 k r i); [|done]. by eapply Hps.
  - intros k (r & i & Hr & Hu). apply (Hps k r i Hu) in Hr. assert (is_report ps k) by (by exists r, i). eauto.
  - intros k r i Hr Hu. apply (Hps k r i Hu) in Hr. assert (is_report ps k) as Hrep by (by exists r, i).
    specialize (HQ k Hrep). destruct (H3 k r i Hr Hu) as [(? & ? & Ho)|[Hans Ho]]; [left|right].
    + split_and!; [done|done|by apply HQ].
    + split; [done|]. intros o Hk. destruct (proj1 HQ) as [o' Ho']; [by exists o|]. by apply (Ho o').
  - intros k1 k2 r1 r2 i1 i2 Hr1 Hu1 Hr2 Hu2. apply (Hps _ _ _ Hu1) in Hr1. apply (Hps _ _ _ Hu2) in Hr2. eauto.
Qed.
Lemma rinv_ext Q Q' rqs ps bufs : (forall o, Q' o = Q o) -> rinv Q rqs ps bufs -> rinv Q' rqs ps bufs.
Proof.
  intros HQ Hr. eapply rinv_same; [exact Hr|done|done|]. intros k _. split; intros [o Ho]; exists o; congruence.
Qed.
End queues.

(** ** The invariant *)
Section invariant.
Context `{BL : BioLaws} `{LC : LinuxConst}.
Implicit Types s : kstate.

Definition queue_of `{inh : hands} (L : list Z) (D : gmap Z bius_block_device) (C : gmap Z bius_connection)
    (o : owner) : list Z :=
  match o with
  | Pending d => if decide (d ∈ L) then from_option dev_pending [] (D !! d) else []
  | Waiting c => from_option conn_waiting [] (C !! c)
  | Hand a => option_list (Datatypes.fst <$> (in_hand (hands := inh) !! a))
  end.
Context `{inh : hands}.
Definition queue s : owner -> list Z := queue_of (all_disk_list s) (devices s) (connections s).

Lemma queue_of_dev L D C d v o :
  d ∈ L -> queue_of L (<[d := v]> D) C o = if decide (o = Pending d) then dev_pending v else queue_of L D C o.
Proof.
  intros Hd. destruct o as [d'|c|a]; cbn [queue_of]; [|by rewrite decide_False..].
  destruct (decide (d' = d)) as [->|Hne].
  - rewrite !decide_True by done. by rewrite lookup_insert_eq.
  - rewrite (decide_False (P := Pending d' = Pending d)) by congruence. by rewrite lookup_insert_ne.
Qed.
Lemma queue_of_conn L D C c v o :
  queue_of L D (<[c := v]> C) o = if decide (o = Waiting c) then conn_waiting v else queue_of L D C o.
Proof.
  destruct o as [d|c'|a]; cbn [queue_of]; [by rewrite (decide_False (P := Pending d = _))| |by rewrite decide_False].
  destruct (decide (c' = c)) as [->|Hne].
  - rewrite decide_True by done. by rewrite lookup_insert_eq.
  - rewrite (decide_False (P := Waiting c' = Waiting c)) by congruence. by rewrite lookup_insert_ne.
Qed.
Lemma queue_of_conn_delete L D C c o :
  queue_of L D (delete c C) o = if decide (o = Waiting c) then [] else queue_of L D C o.
Proof.
  destruct o as [d|c'|a]; cbn [queue_of]; [by rewrite (decide_False (P := Pending d = _))| |by rewrite decide_False].
  destruct (decide (c' = c)) as [->|Hne].
  - rewrite decide_True by done. by rewrite lookup_delete_eq.
  - rewrite (decide_False (P := Waiting c' = Waiting c)) by congruence. by rewrite lookup_delete_ne.
Qed.

(** Devices and the connections that use them. *)
Definition conns_of (C : gmap Z bius_connection) (d : Z) : gset Z :=
  dom (filter (fun x => conn_block_dev x.2 = Some d) C).
Lemma elem_of_conns_of C d c :
  c ∈ conns_of C d <-> exists v, C !! c = Some v /\ conn_block_dev v = Some d.
Proof.
  unfold conns_of. rewrite elem_of_dom. split.
  - intros [v Hv]. apply map_lookup_filter_Some in Hv as [? ?]. by exists v.
  - intros (v & ? & ?). exists v. by apply map_lookup_filter_Some.
Qed.

Record dinv s : Prop := {
  d_nodup : NoDup (all_disk_list s);
  d_devs d : d ∈ all_disk_list s -> is_Some (devices s !! d);
  d_conn c v d : connections s !! c = Some v -> conn_block_dev v = Some d -> d ∈ all_disk_list s;
  d_count d v : d ∈ all_disk_list s -> devices s !! d = Some v ->
    dev_num_connection v = Z.of_nat (size (conns_of (connections s) d)) /\ 1 <= dev_num_connection v < 2 ^ 32;
  d_names d1 d2 v : d1 ∈ all_disk_list s -> d2 ∈ all_disk_list s -> devices s !! d1 = Some v ->
    named s (gd_disk_name (dev_disk v)) d2 = true -> d2 = d1 }.

(** What a connection sends it waits for; without a device it does neither. *)
Record cinv s : Prop := {
  c_send c v k : connections s !! c = Some v -> conn_sending v = Some k ->
    k ∈ conn_waiting v /\ exists r b rq, live (blk_rqs s) (pdus s) k r b rq /\ xfer_wf rq b;
  c_idle c v : connections s !! c = Some v -> conn_block_dev v = None ->
    conn_waiting v = [] /\ conn_sending v = None }.

(** Every request started and not in flight has been ended, once. *)
Definition ev_starts (k : Z) (e : kevent) : Z :=
  match e with EvStart k' => if decide (k' = k) then 1 else 0 | _ => 0 end.
Definition ev_ends (k : Z) (e : kevent) : Z :=
  match e with EvEnd k' _ => if decide (k' = k) then 1 else 0 | _ => 0 end.
Definition tally (f : kevent -> Z) (t : list kevent) : Z := foldr (fun e acc => f e + acc) 0 t.
Definition tinv s : Prop := forall k,
  tally (ev_starts k) (trace s)
    = tally (ev_ends k) (trace s) + (if decide (is_Some (blk_rqs s !! k)) then 1 else 0).

Lemma tally_app f t1 t2 : tally f (t1 ++ t2) = tally f t1 + tally f t2.
Proof. induction t1 as [|e t1 IH]; simpl; [done|]. rewrite IH. lia. Qed.

(** What the actors rely on while they have a request in hand. *)
Definition hand_ok s (a : actor) (k : Z) (h : hand) : Prop :=
  match h with
  | Arriving d => a = Submitter k /\ d ∈ all_disk_list s /\ listed (blk_rqs s) (pdus s) (Pending d) k
  | Taken n => exists c dev w, a = User c /\ connections s !! c = Some (Connection (Some dev) w None) /\
      listed (blk_rqs s) (pdus s) (Pending dev) k /\ (is_report (pdus s) k -> 0 < n)
  | Answered n => (exists c dev w snd, a = User c /\ connections s !! c = Some (Connection (Some dev) w snd)) /\
      forall r i, pdus s !! k = Some r -> req_u r = UInt i -> - 2 ^ 31 <= n <= sizeof_blk_zone * req_length r
  end.
Definition hinv s : Prop := forall a k h, in_hand !! a = Some (k, h) -> hand_ok s a k h.

(** The others do not touch what the actors with a request in hand rely on. *)
Lemma hinv_frame s s' :
  hinv s ->
  (forall c k h, in_hand !! User c = Some (k, h) -> connections s' !! c = connections s !! c) ->
  (forall a k d, in_hand !! a = Some (k, Arriving d) -> d ∈ all_disk_list s -> d ∈ all_disk_list s') ->
  (forall a k, k ∈ queue s (Hand a) -> pdus s' !! k = pdus s !! k /\ blk_rqs s' !! k = blk_rqs s !! k) ->
  hinv s'.
Proof.
  intros Hh HC HL HP a k h Ha. specialize (Hh a k h Ha). destruct (HP a k) as [Hp Hr].
  { cbn [queue queue_of]. unfold queue, queue_of. rewrite Ha. by left. }
  destruct h as [d|n|n]; cbn [hand_ok] in *.
  - destruct Hh as (-> & Hd & Hl). split_and!; [done|by eapply HL|by eapply listed_same].
  - destruct Hh as (c & dev & w & -> & Hc & Hl & Hn). exists c, dev, w.
    split_and!; [done|by rewrite (HC c k (Taken n) Ha)|by eapply listed_same|].
    intros (r & i & Hr' & Hi). apply Hn. exists r, i. split; [congruence|done].
  - destruct Hh as [(c & dev & w & snd & -> & Hc) Hn]. split; [|intros r i; rewrite Hp; eauto].
    exists c, dev, w, snd. split; [done|by rewrite (HC c k (Answered n) Ha)].
Qed.
(** Nobody else has the request [k] of another list in hand. *)
Lemma hand_elsewhere s o k a x :
  qinv (queue s) (blk_rqs s) (pdus s) (next_request_id s) -> k ∈ queue s o -> o <> Hand a -> x ∈ queue s (Hand a) -> x <> k.
Proof. intros Hq Hk Ho Hx ->. apply Ho. by eapply (q_disj _ _ _ _ Hq). Qed.
(** The user of [c] is in no operation. *)
Definition idle_user (c : Z) : Prop := in_hand !! User c = None.
Lemma idle_conns s c v : idle_user c ->
  forall c' k h, in_hand !! User c' = Some (k, h) -> <[c := v]> (connections s) !! c' = connections s !! c'.
Proof.
  intros Hc c' k h Ha. rewrite lookup_insert_ne; [done|]. intros ->. unfold idle_user in Hc. congruence.
Qed.
Lemma hand_queue s a k h : in_hand !! a = Some (k, h) -> queue s (Hand a) = [k].
Proof. intros Ha. unfold queue, queue_of. by rewrite Ha. Qed.

Record kinv s : Prop := {
  k_queues : qinv (queue s) (blk_rqs s) (pdus s) (next_request_id s);
  k_next : 0 <= next_request_id s;
  k_devices : dinv s;
  k_conns : cinv s;
  k_trace : tinv s;
  k_reports : rinv (queue s) (blk_rqs s) (pdus s) (kbufs s);
  k_hands : hinv s }.

(** Nothing [dinv] looks at changes. *)
Lemma conns_of_same C C' d :
  (forall c, conn_block_dev <$> (C' !! c) = conn_block_dev <$> (C !! c)) -> conns_of C' d = conns_of C d.
Proof.
  intros HC. apply set_eq. intros c. rewrite !elem_of_conns_of. specialize (HC c).
  split; intros (v & Hv & Hd); rewrite Hv in HC;
    [destruct (C !! c) as [v'|] eqn:E|destruct (C' !! c) as [v'|] eqn:E]; try done;
    injection HC as HC; exists v'; split; congruence.
Qed.
Lemma dinv_same s s' :
  dinv s -> all_disk_list s' = all_disk_list s ->
  (forall c, conn_block_dev <$> (connections s' !! c) = conn_block_dev <$> (connections s !! c)) ->
  (forall d, (fun v => (dev_disk v, dev_num_connection v)) <$> (devices s' !! d)
     = (fun v => (dev_disk v, dev_num_connection v)) <$> (devices s !! d)) ->
  dinv s'.
Proof.
  intros [H1 H2 H3 H4 H5] HL HC HD.
  assert (forall d v', devices s' !! d = Some v' -> exists v, devices s !! d = Some v /\
    dev_disk v' = dev_disk v /\ dev_num_connection v' = dev_num_connection v) as Hdev.
  { intros d v' Hv. specialize (HD d). rewrite Hv in HD. destruct (devices s !! d) as [v|]; [|done].
    exists v. by injection HD. }
  split; rewrite ?HL.
  - done.
  - intros d Hd. destruct (H2 d Hd) as [v Hv]. specialize (HD d). rewrite Hv in HD.
    destruct (devices s' !! d); [by eexists|done].
  - intros c v d Hv Hd. specialize (HC c). rewrite Hv in HC.
    destruct (connections s !! c) as [v'|] eqn:Hv'; [|done]. injection HC as HC. eapply H3; [done|congruence].
  - intros d v' Hd Hv'. destruct (Hdev d v' Hv') as (v & Hv & _ & ->).
    rewrite (conns_of_same _ _ _ HC). eauto.
  - intros d1 d2 v' Hd1 Hd2 Hv' Hn. destruct (Hdev d1 v' Hv') as (v & Hv & Hdisk & _).
    apply (H5 d1 d2 v Hd1 Hd2 Hv). rewrite Hdisk in Hn. unfold named in *.
    destruct (devices s' !! d2) as [v2'|] eqn:E2; [|done].
    destruct (Hdev d2 v2' E2) as (v2 & -> & <- & _). done.
Qed.
End invariant.
