(* ===== verification/StepsIO.v ===== *)
(** * The module's operations keep the invariant: queueing, opening, reading, replying

    The operations as steps, and what each of them asks of its caller. *)
From S2P Require Import Prelude Protocol Linux Kernel Sample Command BlockDev CharDev CharDevProps Invariant.

(** ** The steps *)
Section steps.
Context `{BL : BioLaws} `{IL : IovLaws} `{LCL : LinuxConstLaws} `{inh : hands}.
Implicit Types s : kstate.

(** [OpQueue]: blk-mq allocates a request and hands it to [bius_queue_rq].
    [OpReport], [OpReturn]: a zone report up to its wait, and from there on, the task
    [killed] or not.  The others are the file operations of [/dev/bius] on connection [c]. *)
Inductive kop :=
  | OpQueue (d k : Z) (rq : request)
  | OpReport (d sector nr_zones blkz kreq : Z)
  | OpReturn (killed : bool) (nr blkz kreq : Z) (cb : list Z -> Z -> ST kstate Z)
  | OpOpen (c : Z)
  | OpRead (c : Z) (pad1 pad2 : list Z) (to : iov_iter)
  | OpWrite (um : user_mem) (e : create_env) (c : Z) (stack : list Z) (from : iov_iter)
  | OpRelease (c : Z).

Definition run_kop (op : kop) : ST kstate unit :=
  match op with
  | OpQueue d k rq => _ ← modify (set_blk_rqs <[k := rq]>); _ ← bius_queue_rq d k; mret tt
  | OpReport d sector nr_zones blkz kreq => report_submit d sector (Z.min nr_zones BIUS_MAX_ZONES) blkz kreq
  | OpReturn killed nr blkz kreq cb => res ← down_killable killed kreq; _ ← report_finish nr blkz kreq cb res; mret tt
  | OpOpen c => _ ← bius_dev_open (Some c); mret tt
  | OpRead c pad1 pad2 to => _ ← bius_dev_read c pad1 pad2 [] to; mret tt
  | OpWrite um e c stack from => _ ← bius_dev_write um e c stack from; mret tt
  | OpRelease c => _ ← bius_dev_release c; mret tt
  end.

(** [bius_report_zones] is the two steps, and what happens in between. *)
Lemma report_zones_steps killed device sector nr_zones blkz kreq meanwhile cb s :
  (_ ← bius_report_zones device sector nr_zones (Some blkz) kreq (_ ← meanwhile; down_killable killed kreq) cb; mret tt : ST kstate unit) s =
  (_ ← run_kop (OpReport device sector nr_zones blkz kreq); _ ← (meanwhile : ST kstate unit);
   run_kop (OpReturn killed (Z.min nr_zones BIUS_MAX_ZONES) blkz kreq cb)) s.
Proof.
  unfold bius_report_zones. cbn [run_kop]. unfold mbind, ST_bind.
  destruct (report_submit _ _ _ _ _ s) as [[[] s1]| |]; [|done|done].
  destruct (meanwhile s1) as [[[] s2]| |]; [|done|done].
  destruct (down_killable killed kreq s2) as [[res s3]| |]; done.
Qed.

(** The callback of a zone report stores what it likes in its own memory. *)
Definition cb_ok (cb : list Z -> Z -> ST kstate Z) : Prop :=
  forall z i s, wp (cb z i) (fun _ s' => exists m, s' = set_kmem (fun _ => m) s) s.

(** What the block layer guarantees of a request: a supported operation, and
    bios that hold the data it has. *)
Definition rq_ok (rq : request) : Prop :=
  let type := to_bius_request (rq_op rq) in
  type <> BIUS_INVALID_OP /\
  (request_may_have_data type = true ->
     rq_bios rq <> [] /\ Forall (fun x => 0 < bi_size x) (rq_bios rq) /\
     rq_bytes rq = Z.of_nat (length (rq_extent rq)) /\ rq_bytes rq < 2 ^ 64).

(** The header [bius_dev_write] works on, whatever part of it was written. *)
Definition written_header (stack : list Z) (from : iov_iter) : bius_u2k_header :=
  let bs := (copy_from_iter sizeof_u2k from).1 in u2k_of_bytes (bs ++ drop (length bs) stack).

(** A creation that succeeds, at a fresh address, under a name no device has. *)
Definition create_ok s (um : user_mem) (e : create_env) (h : bius_u2k_header) : Prop :=
  let o := options_of_bytes (copy_from_user um (u2k_user_data h) sizeof_options) in
  create_succeeds e = true /\
  (forall dev, ce_kmalloc e = Some dev -> devices s !! dev = None) /\
  (forall d, d ∈ all_disk_list s -> named s (opt_disk_name o) d = false).

(** A read on [c] would take a zone report. *)
Definition report_next s (c : Z) : Prop :=
  exists dev w d k rest, connections s !! c = Some (Connection (Some dev) w None) /\
    devices s !! dev = Some d /\ dev_pending d = k :: rest /\ is_report (pdus s) k.

(** What the module relies on.  For zone reports it relies on the user process: a
    buffer that can take the header, an answer that fits, and no closing while one is on
    the way. *)
Definition kop_ok s (op : kop) : Prop :=
  match op with
  | OpQueue d k rq =>
      blk_rqs s !! k = None /\ ~ is_report (pdus s) k /\ d ∈ all_disk_list s /\ rq_ok rq /\
      next_request_id s + 1 < 2 ^ 64
  | OpReport d _ nr_zones blkz kreq =>
      pdus s !! kreq = None /\ blk_rqs s !! kreq = None /\ kbufs s !! blkz = None /\ d ∈ all_disk_list s /\
      0 <= nr_zones /\ next_request_id s + 1 < 2 ^ 64
  | OpReturn killed nr blkz kreq cb =>
      (exists r i, pdus s !! kreq = Some r /\ req_u r = UInt i /\ req_length r = nr /\ i_data i = blkz) /\ cb_ok cb /\
      (killed = true -> forall o, kreq ∉ queue s o)
  | OpOpen c => connections s !! c = None
  | OpRead c pad1 pad2 to =>
      is_Some (connections s !! c) /\ length pad1 = 4%nat /\ length pad2 = 4%nat /\
      (report_next s c -> 0 < iov_avail to)
  | OpWrite um e c stack from =>
      is_Some (connections s !! c) /\
      (conn_block_dev <$> (connections s !! c) = Some None ->
         u2k_type (written_header stack from) = bius_req_value BIUS_CREATE ->
         create_ok s um e (written_header stack from)) /\
      (forall d v, devices s !! d = Some v -> dev_num_connection v + 1 < 2 ^ 32) /\
      (forall k r i, pdus s !! k = Some r -> req_u r = UInt i -> req_id r = u2k_id (written_header stack from) ->
         - 2 ^ 31 <= u2k_reply (written_header stack from) <= sizeof_blk_zone * req_length r)
  | OpRelease c =>
      is_Some (connections s !! c) /\
      forall k, is_report (pdus s) k -> k ∉ queue s (Waiting c) /\
        forall dev v, conn_block_dev <$> (connections s !! c) = Some (Some dev) -> devices s !! dev = Some v ->
          dev_num_connection v = 1 -> k ∉ queue s (Pending dev)
  end.

(** No actor in the middle of an operation is in the way. *)
Definition undisturbed s (op : kop) : Prop :=
  match op with
  | OpRead c _ _ _ | OpWrite _ _ c _ _ => idle_user c
  | OpRelease c => idle_user c /\ forall a k d, in_hand !! a = Some (k, Arriving d) ->
      conn_block_dev <$> (connections s !! c) <> Some (Some d)
  | _ => True
  end.

(** Request [k] completes between [s] and [s'], and nothing else happens. *)
Record completed s (k : Z) s' : Prop := {
  cp_next : next_request_id s' = next_request_id s;
  cp_rqs : blk_rqs s' = delete k (blk_rqs s);
  cp_pdus x : x <> k -> pdus s' !! x = pdus s !! x;
  cp_devices : devices s' = devices s;
  cp_disks : all_disk_list s' = all_disk_list s;
  cp_conns : connections s' = connections s;
  cp_bufs : kbufs s' = kbufs s;
  cp_arm r : pdus s' !! k = Some r -> exists b, req_u r = UBlk b;
  cp_starts x : tally (ev_starts x) (trace s') = tally (ev_starts x) (trace s);
  cp_ends x : tally (ev_ends x) (trace s') = tally (ev_ends x) (trace s) + (if decide (x = k) then 1 else 0) }.

Lemma end_events_tally k r res x :
  tally (ev_starts x) (end_events k r res) = 0 /\
  tally (ev_ends x) (end_events k r res) = if decide (x = k) then 1 else 0.
Proof.
  unfold end_events. rewrite !tally_app. cbn [tally foldr ev_starts ev_ends].
  destruct (decide (k = x)) as [->|Hne].
  - rewrite (decide_True (P := x = x)) by done. by case_bool_decide.
  - rewrite (decide_False (P := x = k)) by congruence. by case_bool_decide.
Qed.
Lemma ended_completed s k r b res : completed s k (ended s k r b res).
Proof.
  split; try done; simpl.
  - intros x Hx. by rewrite lookup_insert_ne.
  - intros r'. rewrite lookup_insert_eq. intros [= <-]. by eexists.
  - intros x. rewrite tally_app. destruct (end_events_tally k r res x) as [-> _]. lia.
  - intros x. rewrite tally_app. by destruct (end_events_tally k r res x) as [_ ->].
Qed.
Lemma completed_tinv s k s' : completed s k s' -> is_Some (blk_rqs s !! k) -> tinv s -> tinv s'.
Proof.
  intros Hcp Hk Ht x. pose proof (cp_rqs _ _ _ Hcp) as Hrq. pose proof (cp_starts _ _ _ Hcp) as Hst. pose proof (cp_ends _ _ _ Hcp) as Hen. specialize (Ht x). rewrite Hst, Hen, Hrq, Ht.
  destruct (decide (x = k)) as [->|Hne].
  - rewrite lookup_delete_eq. rewrite (decide_True (P := is_Some (blk_rqs s !! k))) by done.
    rewrite decide_False; [lia|by intros []].
  - rewrite lookup_delete_ne by done. lia.
Qed.

(** A request that completes leaves the lists [Q'] it is taken off. *)
Lemma completed_qinv s k s' Q Q' :
  completed s k s' -> qinv Q (blk_rqs s) (pdus s) (next_request_id s) ->
  (forall o, NoDup (Q' o)) -> (forall o x, x ∈ Q' o <-> x ∈ Q o /\ x <> k) ->
  qinv Q' (blk_rqs s') (pdus s') (next_request_id s').
Proof.
  intros Hcp Hq Hnd HQ. rewrite (cp_next _ _ _ Hcp). eapply (qinv_leave _ _ _ _ _ _ _ [k]); try done.
  - intros o x. rewrite HQ. by rewrite list_elem_of_singleton.
  - intros x. rewrite (cp_rqs _ _ _ Hcp). case_decide as Hx.
    + apply list_elem_of_singleton in Hx as ->. apply lookup_delete_eq.
    + apply lookup_delete_ne. intros ->. apply Hx. by apply list_elem_of_singleton.
  - intros x Hx. apply (cp_pdus _ _ _ Hcp). by rewrite list_elem_of_singleton in Hx.
Qed.
(** The reports do not notice. *)
Lemma completed_reports s k s' x r i :
  completed s k s' -> ~ is_report (pdus s) k -> req_u r = UInt i -> pdus s' !! x = Some r <-> pdus s !! x = Some r.
Proof.
  intros Hcp Hk Hi. destruct (decide (x = k)) as [->|Hne]; [|by rewrite (cp_pdus _ _ _ Hcp)].
  split; intros Hr; [destruct (cp_arm _ _ _ Hcp r Hr) as [b Hb]; congruence|]. destruct Hk. by exists r, i.
Qed.
Lemma completed_rinv s k s' Q Q' :
  completed s k s' -> ~ is_report (pdus s) k -> rinv Q (blk_rqs s) (pdus s) (kbufs s) ->
  (forall o x, x ∈ Q' o <-> x ∈ Q o /\ x <> k) -> rinv Q' (blk_rqs s') (pdus s') (kbufs s').
Proof.
  intros Hcp Hk Hr HQ. rewrite (cp_bufs _ _ _ Hcp). eapply rinv_same; [exact Hr| | |].
  - intros x r i. intros Hi. by eapply completed_reports.
  - intros x Hx Hn. rewrite (cp_rqs _ _ _ Hcp). destruct (decide (x = k)) as [->|]; [done|by rewrite lookup_delete_ne].
  - intros x Hx. assert (x <> k) by congruence. split; intros [o Ho]; exists o; apply HQ in Ho || apply HQ; tauto.
Qed.

(** Sending goes on undisturbed when another request completes. *)
Lemma live_completed s k s' x r b rq :
  completed s k s' -> x <> k -> live (blk_rqs s) (pdus s) x r b rq ->
  live (blk_rqs s') (pdus s') x r b rq.
Proof.
  intros Hcp Hx []. split; try done; [by rewrite (cp_pdus _ _ _ Hcp)|].
  rewrite (cp_rqs _ _ _ Hcp). by rewrite lookup_delete_ne.
Qed.

Lemma live_blk_request s k r b rq : live (blk_rqs s) (pdus s) k r b rq -> blk_request s k r b rq.
Proof. intros []. by split. Qed.

(** *** Arrival *)
Lemma to_bius_request_blk op : is_blk_request (to_bius_request op) = true.
Proof.
  pose proof req_op_zone as Hz. unfold to_bius_request. repeat (case_decide; [done|]).
  case_decide as Hin; [|done]. rewrite Hz in Hin. simpl in Hin.
  repeat (apply elem_of_cons in Hin as [->|Hin]; [done|]). by apply elem_of_nil in Hin.
Qed.

Lemma queue_step s d k rq :
  kinv s -> kop_ok s (OpQueue d k rq) -> wp (run_kop (OpQueue d k rq)) (fun _ s' => kinv s') s.
Proof.
  intros [Hq Hn Hd Hc Ht Hrep Hh] (Hnone & Hnorep & Hin & [Hop Hdata] & Hid). destruct (d_devs _ Hd d Hin) as [v Hv].
  cbn [run_kop]. ksteps. set (s0 := set_blk_rqs <[k := rq]> s).
  eapply wp_intro; [by apply (queue_rq_supported d k rq v s0); [apply lookup_insert_eq|..]|].
  ksteps. assert (forall o, k ∉ queue s o) as Hfresh.
  { intros o Ho. destruct (q_live _ _ _ _ o k Hq Ho Hnorep) as (? & ? & ? & [] & _). congruence. }
  assert (u64 (next_request_id s + 1) = next_request_id s + 1) as Eid by (apply wrap_small; lia).
  set (r := queued_pdu s0 k rq).
  assert (exists b, req_u r = UBlk b /\ b_bio b = O /\ b_map_type b = BIUS_DATAMAP_UNMAPPED) as (b & Hu & Hb0 & Hbm)
    by (by eexists).
  assert (forall o, queue (queued s0 d k rq v) o = if decide (o = Pending d) then dev_pending v ++ [k] else queue s o) as HQ.
  { intros o. apply (queue_of_dev (all_disk_list s) (devices s)). done. }
  assert (queue s (Pending d) = dev_pending v) as Hpend.
  { unfold queue, queue_of. rewrite decide_True by done. by rewrite Hv. }
  split.
  - simpl. eapply (qinv_join (queue s) _ _ _ _ _ (next_request_id s) _ k (Pending d) r);
      [exact Hq|apply lookup_insert_eq|unfold r; simpl; rewrite Eid; lia|done| | | | | |].
    + intros o. rewrite HQ. case_decide as Ho; [|by apply (q_nodup _ _ _ _ Hq)].
      rewrite <- Hpend. apply NoDup_app. split_and!; [by apply (q_nodup _ _ _ _ Hq)| |by apply NoDup_singleton].
      intros x Hx ->%list_elem_of_singleton. by apply (Hfresh (Pending d)).
    + intros o x Hx. rewrite HQ. case_decide as Ho; [|done]. subst o. rewrite Hpend, elem_of_app, list_elem_of_singleton.
      naive_solver.
    + intros o. rewrite HQ. case_decide as Ho; [|split; [by intros ?%Hfresh|done]].
      split; [done|]. intros _. apply elem_of_app. right. by apply list_elem_of_singleton.
    + intros x Hx. by rewrite lookup_insert_ne.
    + intros x Hx. by rewrite lookup_insert_ne.
    + right. exists r, b, rq. split.
      { split; try done; try apply lookup_insert_eq; [|apply to_bius_request_blk].
        intros Ha. apply Hdata. unfold r in Ha; simpl in Ha. by rewrite Ha. }
      intros d' [= ->] Hw. unfold r in Hw; simpl in Hw.
      destruct (Hdata (request_is_write_may_have_data _ Hw)) as (_ & Hpos & Hlen & Hlt).
      split_and!; simpl; rewrite ?Hb0, ?drop_0; [done| |done].
      unfold payload; simpl. rewrite Hb0, drop_0. exact Hlen.
  - simpl. lia.
  - eapply dinv_same; [exact Hd|done|done|]. intros x. simpl.
    destruct (decide (x = d)) as [->|]; [|by rewrite lookup_insert_ne].
    by rewrite lookup_insert_eq, Hv.
  - destruct Hc as [Hs Hi]. split; [|done]. intros c w x Hw Hx. simpl in Hw.
    destruct (Hs c w x Hw Hx) as (Hxw & r' & b' & rq' & Hl & Hxf). split; [done|].
    exists r', b', rq'. split; [|done].
    assert (x <> k) as Hne. { intros ->. apply (Hfresh (Waiting c)). unfold queue, queue_of. by rewrite Hw. }
    destruct Hl. split; try done; simpl; by rewrite lookup_insert_ne.
  - intros x. simpl. specialize (Ht x). rewrite !tally_app. simpl.
    destruct (decide (k = x)) as [->|Hne].
    + rewrite lookup_insert_eq, (decide_True (P := is_Some (Some rq))) by (by eexists).
      rewrite (decide_False (P := is_Some (blk_rqs s !! x))) in Ht by (rewrite Hnone; by intros []). lia.
    + rewrite lookup_insert_ne by done. lia.
  - simpl. eapply rinv_same; [exact Hrep| | |].
    + intros x r' i Hi. simpl. destruct (decide (x = k)) as [->|Hne]; [|by rewrite lookup_insert_ne].
      rewrite lookup_insert_eq. split; [intros [= <-]; by simpl in Hi|]. intros Hr'. destruct Hnorep. by exists r', i.
    + intros x Hx Hxn. rewrite lookup_insert_ne; [done|]. by intros ->.
    + intros x Hx. assert (x <> k) by (by intros ->). split; intros [o Ho]; exists o; revert Ho; rewrite HQ;
        case_decide as Ho; try done; subst o; rewrite Hpend, elem_of_app, list_elem_of_singleton; tauto.
  - eapply hinv_frame; [exact Hh|done|done|]. intros a x Hx. simpl.
    assert (x <> k) by (intros ->; by apply (Hfresh (Hand a))). by rewrite !lookup_insert_ne.
Qed.

(** *** Opening *)
Lemma open_step s c : kinv s -> kop_ok s (OpOpen c) -> wp (run_kop (OpOpen c)) (fun _ s' => kinv s') s.
Proof.
  intros [Hq Hn Hd [Hs Hi] Ht Hrep Hh] Hc. simpl in Hc. cbn [run_kop bius_dev_open]. ksteps.
  assert (forall o, queue (set_conns <[c := init_bius_connection]> s) o = queue s o) as HQ.
  { intros o. unfold queue at 1. kfields. rewrite queue_of_conn. case_decide as Ho; [|done].
    subst o. unfold queue, queue_of. by rewrite Hc. }
  split; kfields; try done.
  - by eapply qinv_ext.
  - destruct Hd as [N1 N2 N3 N4 N5]. split; kfields; try done.
    + intros c' v d Hv Hv2. destruct (decide (c' = c)) as [->|Hne].
      * rewrite lookup_insert_eq in Hv. by injection Hv as <-.
      * rewrite lookup_insert_ne in Hv by done. eauto.
    + intros d v Hin Hv. destruct (N4 d v Hin Hv) as [-> Hlt]. split; [|done]. do 2 f_equal.
      apply set_eq. intros c'. rewrite !elem_of_conns_of.
      destruct (decide (c' = c)) as [->|Hne]; [rewrite lookup_insert_eq, Hc; naive_solver|].
      by rewrite lookup_insert_ne.
  - split; kfields.
    + intros c' v k. destruct (decide (c' = c)) as [->|Hne];
        [by rewrite lookup_insert_eq; intros [= <-]|rewrite lookup_insert_ne by done; eauto].
    + intros c' v. destruct (decide (c' = c)) as [->|Hne];
        [by rewrite lookup_insert_eq; intros [= <-]|rewrite lookup_insert_ne by done; eauto].
  - by eapply rinv_ext.
  - eapply hinv_frame; [exact Hh| |done|done]. intros c' k h Ha. kfields. rewrite lookup_insert_ne; [done|].
    intros <-. specialize (Hh _ _ _ Ha). destruct h; cbn [hand_ok] in Hh; [by destruct Hh| |]; naive_solver.
Qed.

(** *** Reading *)
Lemma pending_queue s dev d : dev ∈ all_disk_list s -> devices s !! dev = Some d ->
  queue s (Pending dev) = dev_pending d.
Proof. intros Hin Hd. unfold queue, queue_of. rewrite decide_True by done. by rewrite Hd. Qed.
Lemma waiting_queue s c v : connections s !! c = Some v -> queue s (Waiting c) = conn_waiting v.
Proof. intros Hc. unfold queue, queue_of. by rewrite Hc. Qed.

(** Devices, when one pending list and one connection's lists change. *)
Lemma dinv_lists s s' dev d l c v v' :
  dinv s -> devices s !! dev = Some d -> connections s !! c = Some v ->
  conn_block_dev v' = conn_block_dev v -> all_disk_list s' = all_disk_list s ->
  devices s' = <[dev := dev_with_pending d l]> (devices s) -> connections s' = <[c := v']> (connections s) ->
  dinv s'.
Proof.
  intros Hdi Hd Hc Hv HL HD HC. eapply dinv_same; [exact Hdi|done| |].
  - intros x. rewrite HC. destruct (decide (x = c)) as [->|]; [|by rewrite lookup_insert_ne].
    rewrite lookup_insert_eq, Hc. simpl. by rewrite Hv.
  - intros x. rewrite HD. destruct (decide (x = dev)) as [->|]; [|by rewrite lookup_insert_ne].
    by rewrite lookup_insert_eq, Hd.
Qed.

(** What the invariant says of the request a read takes. *)
Lemma ready_facts s c dev w d k rest r :
  kinv s -> ready_to_read s c dev w d k rest r ->
  listed (blk_rqs s) (pdus s) (Pending dev) k /\ dev ∈ all_disk_list s /\
    queue s (Pending dev) = k :: rest /\ queue s (Waiting c) = w /\ k ∉ rest /\ k ∉ w /\ NoDup rest /\ NoDup w.
Proof.
  intros [Hq _ Hdi _ _ _ _] [Hc Hd Hp Hr _]. pose proof (d_conn _ Hdi _ _ dev Hc eq_refl) as Hin.
  pose proof (pending_queue s dev d Hin Hd) as HP. rewrite Hp in HP. assert (queue s (Waiting c) = w) as HW by apply (waiting_queue s c _ Hc).
  assert (k ∈ queue s (Pending dev)) as Hk by (rewrite HP; by left).
  pose proof (q_nodup _ _ _ _ Hq (Pending dev)) as Hnd. rewrite HP in Hnd. apply NoDup_cons in Hnd as [Hkr Hnd].
  pose proof (q_nodup _ _ _ _ Hq (Waiting c)) as Hndw. rewrite HW in Hndw.
  split_and!; eauto using q_listed. intros Hkw.
  assert (Pending dev = Waiting c); [|done]. eapply (q_disj _ _ _ _ Hq); [exact Hk|by rewrite HW].
Qed.

Lemma live_elsewhere s k rq' r' x r b rq :
  x <> k -> live (blk_rqs s) (pdus s) x r b rq ->
  live (<[k := rq']> (blk_rqs s)) (<[k := r']> (pdus s)) x r b rq.
Proof. intros Hx []. split; try done; by rewrite lookup_insert_ne. Qed.

(** Other connections are not sending [k]. *)
Lemma sending_elsewhere s o c v x k :
  kinv s -> k ∈ queue s o -> o <> Waiting c -> connections s !! c = Some v -> conn_sending v = Some x -> x <> k.
Proof.
  intros [Hq _ _ [Hs _] _ _ _] Hk Ho Hv Hx ->. destruct (Hs c v k Hv Hx) as [Hw _].
  apply Ho. eapply (q_disj _ _ _ _ Hq); [exact Hk|]. by rewrite (waiting_queue s c v Hv).
Qed.

(** The pdu of the request a read takes, in both cases of [dispatched]. *)
Lemma dispatched_pdus r (ps : gmap Z bius_request) k :
  ps !! k = Some r -> (if sends_data r then <[k := dispatched_pdu r]> ps else ps) = <[k := dispatched_pdu r]> ps.
Proof.
  intros Hr. destruct (sends_data r) eqn:Hs; [done|]. symmetry. apply insert_id. rewrite Hr.
  unfold dispatched_pdu. rewrite Hs. by destruct (req_u r).
Qed.
Lemma dispatched_pdu_id r : req_id (dispatched_pdu r) = req_id r.
Proof. unfold dispatched_pdu. destruct (req_u r); [by destruct (sends_data r)|done]. Qed.
Lemma report_sends_nothing s k r : kinv s -> is_report (pdus s) k -> pdus s !! k = Some r -> sends_data r = false.
Proof.
  intros Hk (r' & i & Hr' & Hu) Hr. assert (r' = r) as -> by congruence. unfold sends_data.
  by rewrite (rw_type _ _ _ (r_wf _ _ _ _ (k_reports _ Hk) k r i Hr Hu)).
Qed.

(** What the invariant says of the first pending request. *)
Lemma kinv_ready s c dev w d k rest r :
  kinv s -> connections s !! c = Some (Connection (Some dev) w None) -> devices s !! dev = Some d ->
  dev_pending d = k :: rest -> pdus s !! k = Some r -> k ∈ queue s (Pending dev) -> ready_to_read s c dev w d k rest r.
Proof.
  intros Hk Hc Hd Hp Hr Hkq. split; try done. intros Hsd.
  destruct (q_listed _ _ _ _ (k_queues _ Hk) _ k Hkq) as [Hrp|(r' & b & rq & [] & _)].
  - by rewrite (report_sends_nothing s k r Hk Hrp Hr) in Hsd.
  - exists b. congruence.
Qed.

(** The read has the data of the request ahead, and is sending it. *)
Definition dispatched_part (r : bius_request) (b : blk_part) : blk_part :=
  if sends_data r then with_map_data b (req_length r) else b.
Lemma dispatched_live s k r b rq :
  live (blk_rqs s) (pdus s) k r b rq ->
  live (blk_rqs s) (<[k := dispatched_pdu r]> (pdus s)) k (dispatched_pdu r) (dispatched_part r b) rq.
Proof.
  intros [Hr Hu He Hrq Hb Hblk Hum]. unfold dispatched_pdu, dispatched_part.
  rewrite Hu. split; rewrite ?lookup_insert_eq; destruct (sends_data r); done.
Qed.
Lemma dispatched_is_report s k r x :
  pdus s !! k = Some r -> is_report (<[k := dispatched_pdu r]> (pdus s)) x <-> is_report (pdus s) x.
Proof.
  intros Hr. unfold is_report. destruct (decide (x = k)) as [->|Hne]; [|by rewrite lookup_insert_ne].
  rewrite lookup_insert_eq, Hr. unfold dispatched_pdu. destruct (req_u r) as [b|i] eqn:Hu; [|done].
  split; intros (r' & j & [= <-] & Hj); [destruct (sends_data r); cbn [with_blk req_u] in Hj|]; congruence.
Qed.
Lemma dispatched_report s k r x r' i :
  pdus s !! k = Some r -> req_u r' = UInt i ->
  <[k := dispatched_pdu r]> (pdus s) !! x = Some r' <-> pdus s !! x = Some r'.
Proof.
  intros Hr Hi. destruct (decide (x = k)) as [->|Hne]; [|by rewrite lookup_insert_ne].
  rewrite lookup_insert_eq, Hr. unfold dispatched_pdu. destruct (req_u r) as [b|j] eqn:Hu; [|done].
  split; intros [= <-]; [destruct (sends_data r); cbn [with_blk req_u] in Hi|]; congruence.
Qed.

Lemma dispatched_queue s c dev w d k rest r o :
  dev ∈ all_disk_list s ->
  queue (dispatched s c dev w d k rest r) o =
    if decide (o = Waiting c) then w ++ [k] else if decide (o = Pending dev) then rest else queue s o.
Proof. intros Hin. unfold queue, dispatched; kfields. rewrite queue_of_conn, queue_of_dev by done. done. Qed.

Lemma dispatched_cinv s c dev w d k rest r :
  kinv s -> ready_to_read s c dev w d k rest r -> cinv (dispatched s c dev w d k rest r).
Proof.
  intros Hk Hrd. destruct (ready_facts _ _ _ _ _ _ _ _ Hk Hrd) as (Hl & _ & HP & _).
  pose proof Hk as [Hq Hn Hdi [Hs Hi] Ht Hrep _]. pose proof Hrd as [Hc Hd Hp Hr Ha].
  split; unfold dispatched; kfields; rewrite ?dispatched_pdus by done; intros c' v.
  - intros x. destruct (decide (c' = c)) as [->|Hne].
    + rewrite lookup_insert_eq. intros [= <-]. kfields. destruct (sends_data r) eqn:Hsd; [|done].
      intros [= <-]. split; [apply elem_of_app; right; by apply list_elem_of_singleton|].
      destruct Hl as [Hk'|(r' & b & rq & Hl & Hdr)]; [rewrite (report_sends_nothing s k r Hk Hk' Hr) in Hsd; done|].
      assert (r' = r) as -> by (destruct Hl; congruence).
      exists (dispatched_pdu r), (dispatched_part r b), rq. split; [by apply dispatched_live|].
      unfold dispatched_part. rewrite Hsd. apply (Hdr dev eq_refl).
      unfold sends_data in Hsd. by apply andb_true_iff in Hsd as [_ ?].
    + rewrite lookup_insert_ne by done. intros Hv Hx. destruct (Hs c' v x Hv Hx) as (Hxw & r2 & b2 & rq2 & Hl2 & Hx2).
      split; [done|]. exists r2, b2, rq2. split; [|done].
      assert (x <> k) as Hxk by (apply (sending_elsewhere s (Pending dev) c' v); try done; rewrite HP; by left).
      destruct Hl2. split; try done. by rewrite lookup_insert_ne.
  - destruct (decide (c' = c)) as [->|Hne]; [|rewrite lookup_insert_ne by done; eauto].
    rewrite lookup_insert_eq. by intros [= <-].
Qed.

Lemma dispatched_kinv s c dev w d k rest r :
  kinv s -> idle_user c -> ready_to_read s c dev w d k rest r -> kinv (dispatched s c dev w d k rest r).
Proof.
  intros Hk Hidle Hrd. destruct (ready_facts _ _ _ _ _ _ _ _ Hk Hrd) as (Hl & Hin & HP & HW & Hkr & Hkw & Hndr & Hndw).
  pose proof Hk as [Hq Hn Hdi Hcinv Ht Hrep Hh]. pose proof Hrd as [Hc Hd Hp Hr Ha].
  assert (k ∈ queue s (Pending dev)) as Hkq by (rewrite HP; by left).
  assert (forall o, queue (dispatched s c dev w d k rest r) o =
    if decide (o = Waiting c) then w ++ [k] else if decide (o = Pending dev) then rest else queue s o) as HQ
    by (intros o; by apply dispatched_queue).
  assert (forall o, k ∈ queue (dispatched s c dev w d k rest r) o <-> o = Waiting c) as HQk.
  { intros o. rewrite HQ. case_decide as Ho.
    - split; [done|]. intros _. apply elem_of_app. right. by apply list_elem_of_singleton.
    - split; [|done]. case_decide as Ho'; [done|]. intros Hko. exfalso. apply Ho'.
      by eapply (q_disj _ _ _ _ Hq). }
  assert (forall o x, x <> k -> x ∈ queue (dispatched s c dev w d k rest r) o <-> x ∈ queue s o) as HQx.
  { intros o x Hx. rewrite HQ. case_decide as Ho; [subst o; rewrite HW, elem_of_app, list_elem_of_singleton; tauto|].
    case_decide as Ho'; [|done]. subst o. rewrite HP, elem_of_cons. tauto. }
  split.
  - unfold dispatched at 2 3 4; kfields. rewrite dispatched_pdus by done.
    eapply (qinv_move (queue s) _ _ _ _ _ _ k (Pending dev) (Waiting c) r);
      [done|done|done|apply lookup_insert_eq|apply dispatched_pdu_id| |done|done|done| |].
    + intros o. rewrite HQ. case_decide; [|case_decide; [done|by apply (q_nodup _ _ _ _ Hq)]].
      apply NoDup_app. split_and!; [done| |by apply NoDup_singleton].
      by intros x Hx ->%list_elem_of_singleton.
    + intros x Hx. by rewrite lookup_insert_ne.
    + destruct Hl as [Hk'|(r' & b & rq & Hl & Hdr)]; [left; by apply dispatched_is_report|].
      assert (r' = r) as -> by (destruct Hl; congruence). right.
      exists (dispatched_pdu r), (dispatched_part r b), rq. split; [by apply dispatched_live|done].
  - done.
  - eapply (dinv_lists s _ dev d rest c); [exact Hdi|exact Hd|exact Hc| |done|done|done]. done.
  - by apply dispatched_cinv.
  - exact Ht.
  - unfold dispatched at 2 3 4; kfields. rewrite dispatched_pdus by done.
    eapply rinv_same; [exact Hrep|intros x r' i Hi; by eapply dispatched_report|done|].
    intros x Hx. destruct (decide (x = k)) as [->|Hne].
    + split; intros _; [by eexists|exists (Waiting c); by apply HQk].
    + split; intros [o Ho]; exists o; by apply HQx.
  - eapply hinv_frame; [exact Hh| |done|].
    + intros c' k' h Hc'. unfold dispatched; kfields. by eapply idle_conns.
    + intros a x Hx. assert (x <> k) by by eapply (hand_elsewhere s (Pending dev)).
      unfold dispatched; kfields. rewrite dispatched_pdus by done. by rewrite lookup_insert_ne.
Qed.

(** A part of the payload goes out. *)
Lemma payload_kinv s s1 c dev w k r b rq n b' rq' snd :
  kinv s -> idle_user c -> sending s c dev w k r b rq -> sent_bytes k r b rq n s s1 b' rq' ->
  snd = None \/ snd = Some k ->
  kinv (set_conns <[c := Connection (Some dev) w snd]> s1).
Proof.
  intros Hk Hidle [Hc Hr Hu Hrq Hum Hxf] [-> _ _ Hxf' Hmt _ Hlen] Hsnd. pose proof Hk as [Hq Hn Hdi [Hs Hi] Ht Hrep Hh].
  assert (queue s (Waiting c) = w) as HW by apply (waiting_queue s c _ Hc).
  destruct (Hs c _ k Hc eq_refl) as (Hkw & r0 & b0 & rq0 & Hl & _). cbn [conn_waiting] in Hkw.
  assert (r0 = r /\ b0 = b /\ rq0 = rq) as (-> & -> & ->) by (destruct Hl; split_and!; congruence).
  assert (live (<[k := rq']> (blk_rqs s)) (<[k := with_blk r b']> (pdus s)) k (with_blk r b') b' rq') as Hl'.
  { destruct Hl as [_ _ He _ Hb Hblk _]. split; rewrite ?lookup_insert_eq; try done; [|congruence].
    intros Ha Hnil. apply Hb in Ha. rewrite Hnil in Hlen. destruct (rq_bios rq); [done|discriminate]. }
  assert (forall o, queue (set_conns <[c := Connection (Some dev) w snd]>
    (set_blk_rqs <[k := rq']> (set_pdus <[k := with_blk r b']> s))) o = queue s o) as HQ.
  { intros o. unfold queue at 1; kfields. rewrite queue_of_conn. case_decide as Ho; [|done]. by subst o. }
  assert (k ∈ queue s (Waiting c)) as Hkq by by rewrite HW.
  split.
  - kfields. eapply (qinv_move (queue s) _ _ _ _ _ _ k (Waiting c) (Waiting c) r);
      [done|done|done|apply lookup_insert_eq|done| | | | | |].
    + intros o. rewrite HQ. by apply (q_nodup _ _ _ _ Hq).
    + intros o x _. by rewrite HQ.
    + intros o. rewrite HQ. split; [|by intros ->]. intros Ho. by eapply (q_disj _ _ _ _ Hq).
    + intros x Hx. by rewrite lookup_insert_ne.
    + intros x Hx. by rewrite lookup_insert_ne.
    + right. by exists (with_blk r b'), b', rq'.
  - done.
  - eapply dinv_same; [exact Hdi|done| |done]. intros x. kfields.
    destruct (decide (x = c)) as [->|]; [|by rewrite lookup_insert_ne]. by rewrite lookup_insert_eq, Hc.
  - split; kfields.
    + intros c' v x. destruct (decide (c' = c)) as [->|Hne].
      * rewrite lookup_insert_eq. intros [= <-]. kfields. intros ->.
        destruct Hsnd as [|[= ->]]; [done|]. split; [done|]. by exists (with_blk r b'), b', rq'.
      * rewrite lookup_insert_ne by done. intros Hv Hx.
        destruct (Hs c' v x Hv Hx) as (Hxw & r2 & b2 & rq2 & Hl2 & Hx2).
        split; [done|]. exists r2, b2, rq2. split; [|done]. apply live_elsewhere; [|done].
        apply (sending_elsewhere s (Waiting c) c' v); try done. congruence.
    + intros c' v. destruct (decide (c' = c)) as [->|Hne]; [|rewrite lookup_insert_ne by done; eauto].
      rewrite lookup_insert_eq. by intros [= <-].
  - intros x. kfields. specialize (Ht x). rewrite Ht. f_equal.
    destruct (decide (x = k)) as [->|]; [|by rewrite lookup_insert_ne].
    rewrite lookup_insert_eq. rewrite !decide_True; [done|by eexists|by eexists].
  - kfields. eapply rinv_same; [exact Hrep| | |].
    + intros x r2 i Hi2. destruct (decide (x = k)) as [->|Hne]; [|by rewrite lookup_insert_ne].
      rewrite lookup_insert_eq, Hr. split; intros [= <-]; [by cbn [with_blk req_u] in Hi2|congruence].
    + intros x Hx Hxn. rewrite lookup_insert_ne; [done|]. intros ->. congruence.
    + intros x _. split; intros [o Ho]; exists o; revert Ho; by rewrite HQ.
  - eapply hinv_frame; [exact Hh| |done|]; kfields.
    + intros c' k' h Hc'. by eapply idle_conns.
    + intros a x Hx. assert (x <> k) by by eapply (hand_elsewhere s (Waiting c)). by rewrite !lookup_insert_ne.
Qed.

(** The header could not be sent. *)
Lemma failed_kinv s c dev w d k rest r b rq b' :
  kinv s -> idle_user c -> ready_to_read s c dev w d k rest r -> live (blk_rqs s) (pdus s) k r b rq ->
  kinv (set_conns <[c := Connection (Some dev) w None]>
          (ended (taken s c dev w d k rest r) k (dispatched_pdu r) b' BLK_STS_IOERR)).
Proof.
  intros Hk Hidle Hrd Hl. destruct (ready_facts _ _ _ _ _ _ _ _ Hk Hrd) as (_ & Hin & HP & HW & Hkr & Hkw & Hndr & Hndw).
  pose proof Hk as [Hq Hn Hdi [Hs Hi] Ht Hrep Hh]. pose proof Hrd as [Hc Hd Hp Hr Ha].
  set (s' := set_conns _ _).
  assert (connections s' = <[c := Connection (Some dev) w None]> (connections s)) as EC.
  { unfold s', ended, taken; kfields. destruct (sends_data r); [by rewrite insert_insert_eq|done]. }
  assert (forall x, x <> k -> pdus s' !! x = pdus s !! x) as Hps.
  { intros x Hx. unfold s', ended, taken; kfields. rewrite lookup_insert_ne by done.
    destruct (sends_data r); [by rewrite lookup_insert_ne|done]. }
  assert (forall o, queue s' o = if decide (o = Pending dev) then rest else queue s o) as HQ.
  { intros o. unfold queue at 1. rewrite EC, queue_of_conn. case_decide as Ho.
    - rewrite decide_False by congruence. by subst o.
    - unfold s', ended, taken; kfields. by rewrite queue_of_dev by done. }
  pose proof (ended_completed (taken s c dev w d k rest r) k (dispatched_pdu r) b' BLK_STS_IOERR) as Hcp.
  assert (forall o x, x ∈ queue s' o <-> x ∈ queue s o /\ x <> k) as HQx.
  { intros o x. rewrite HQ. case_decide as Ho.
    - subst o. rewrite HP, elem_of_cons. naive_solver.
    - split; [|tauto]. intros Hx. split; [done|]. intros ->. apply Ho.
      eapply (q_disj _ _ _ _ Hq); [exact Hx|]. rewrite HP. by left. }
  split.
  - change (blk_rqs s') with (delete k (blk_rqs s)). change (next_request_id s') with (next_request_id s).
    eapply (qinv_leave (queue s) _ _ _ _ _ _ [k]); [done| | | |].
    + intros o. rewrite HQ. case_decide; [done|by apply (q_nodup _ _ _ _ Hq)].
    + intros o x. by rewrite HQx, list_elem_of_singleton.
    + intros x. case_decide as Hx; [apply list_elem_of_singleton in Hx as ->; apply lookup_delete_eq|].
      apply lookup_delete_ne. intros ->. apply Hx. by apply list_elem_of_singleton.
    + intros x Hx. apply Hps. by rewrite list_elem_of_singleton in Hx.
  - done.
  - eapply (dinv_lists s _ dev d rest c); [exact Hdi|exact Hd|exact Hc| |done|done|exact EC]. done.
  - split; rewrite EC.
    + intros c' v x. destruct (decide (c' = c)) as [->|Hne].
      * rewrite lookup_insert_eq. by intros [= <-].
      * rewrite lookup_insert_ne by done. intros Hv Hx.
        destruct (Hs c' v x Hv Hx) as (Hxw & r2 & b2 & rq2 & Hl2 & Hx2).
        split; [done|]. exists r2, b2, rq2. split; [|done].
        assert (x <> k) as Hxk.
        { apply (sending_elsewhere s (Pending dev) c' v); try done. rewrite HP. by left. }
        destruct Hl2. split; try done; [by rewrite Hps|].
        change (blk_rqs s') with (delete k (blk_rqs s)). by rewrite lookup_delete_ne.
    + intros c' v. destruct (decide (c' = c)) as [->|Hne]; [|rewrite lookup_insert_ne by done; eauto].
      rewrite lookup_insert_eq. by intros [= <-].
  - apply (completed_tinv (taken s c dev w d k rest r) k _ Hcp).
    + destruct Hl. by eexists.
    + exact Ht.
  - assert (kbufs s' = kbufs s) as -> by done. pose proof (live_no_report _ _ _ _ _ _ Hl) as Hnr.
    eapply rinv_same; [exact Hrep| | |].
    + intros x r2 i Hi2. destruct (decide (x = k)) as [->|Hne]; [|by rewrite Hps].
      split; intros Hx; [|destruct Hnr; by exists r2, i]. change (pdus s' !! k) with (pdus (ended (taken s c dev w d k rest r) k (dispatched_pdu r) b' BLK_STS_IOERR) !! k) in Hx.
      destruct (cp_arm _ _ _ Hcp r2 Hx). congruence.
    + intros x Hx Hxn. change (blk_rqs s') with (delete k (blk_rqs s)). rewrite lookup_delete_ne; [done|]. by intros ->.
    + intros x Hx. assert (x <> k) by (by intros ->). split; intros [o Ho]; exists o; apply HQx in Ho || apply HQx; tauto.
  - eapply hinv_frame; [exact Hh| |done|].
    + intros c' k' h Hc'. rewrite EC. by eapply idle_conns.
    + intros a x Hx. assert (x <> k) by (eapply (hand_elsewhere s (Pending dev)); try done; rewrite HP; by left).
      split; [by apply Hps|]. change (blk_rqs s') with (delete k (blk_rqs s)). by rewrite lookup_delete_ne.
Qed.

Lemma read_step s c pad1 pad2 to :
  kinv s -> kop_ok s (OpRead c pad1 pad2 to) -> idle_user c ->
  safe (run_kop (OpRead c pad1 pad2 to)) (fun _ s' => kinv s') s.
Proof.
  intros Hk ([v Hc] & Hp1 & Hp2 & Hrd) Hidle. pose proof Hk as [Hq Hn Hdi [Hs Hi] Ht Hrep _]. cbn [run_kop].
  destruct v as [[dev|] w [k|]].
  - destruct (Hs c _ k Hc eq_refl) as (Hkw & r & b & rq & Hl & Hxf). pose proof Hl as [Hr Hu _ Hrq _ _ Hum].
    apply wp_safe. apply wp_bind. eapply wp_mono; [by eapply read_payload_spec|].
    intros res s' (_ & _ & _ & (s1 & b' & rq' & Hsent & ->) & _). ksteps.
    destruct (b_map_data b <=? iov_avail to).
    + by eapply payload_kinv; eauto.
    + assert (s1 = set_conns <[c := Connection (Some dev) w (Some k)]> s1) as ->.
      { pose proof Hsent as [-> _ _ _ _ _ _]. unfold set_conns, set_blk_rqs, set_pdus; kfields. f_equal.
        symmetry. by apply insert_id. }
      by eapply payload_kinv; eauto.
  - destruct (Z.lt_ge_cases (iov_iter_count to) sizeof_k2u) as [Hlt|Hge].
    + unfold safe, mbind, ST_bind. rewrite (bius_dev_read_refused pad1 pad2 [] to s c _ Hc) by (by right). done.
    + destruct (d_devs _ Hdi dev (d_conn _ Hdi _ _ dev Hc eq_refl)) as [d Hd].
      destruct (dev_pending d) as [|k rest] eqn:Hp.
      * unfold safe, mbind, ST_bind. unfold bius_dev_read, get_conn, gets, mbind, ST_bind. rewrite Hc.
        cbn [deref mret ST_ret conn_block_dev conn_sending]. rewrite (proj2 (Z.ltb_ge _ _)) by lia.
        cbn [wait_pending]. unfold get_dev, gets, mbind, ST_bind. rewrite Hd. cbn [deref mret ST_ret].
        by rewrite Hp.
      * assert (k ∈ queue s (Pending dev)) as Hkq.
        { rewrite (pending_queue s dev d) by (done || by apply (d_conn _ Hdi _ _ dev Hc eq_refl)).
          rewrite Hp. by left. }
        destruct (q_id _ _ _ _ Hq _ k Hkq) as (r & Hr & _).
        assert (ready_to_read s c dev w d k rest r) as Hready by by apply kinv_ready.
        apply wp_safe. apply wp_bind. pose proof (iov_avail_range to) as Hav.
        destruct (decide (iov_avail to = 0)) as [Hz|Hz].
        -- destruct (q_listed _ _ _ _ Hq _ k Hkq) as [Hrp|(r' & b & rq & Hl & _)].
           { assert (report_next s c) as Hnext by (by exists dev, w, d, k, rest). specialize (Hrd Hnext). lia. }
           assert (r' = r) as -> by (destruct Hl; congruence).
           eapply wp_mono; [eapply read_fails_spec; eauto using live_blk_request|].
           intros res s' (_ & _ & b' & _ & ->). ksteps. by eapply failed_kinv.
        -- eapply dev_read_run; [exact Hready|lia|].
           eapply wp_mono; [eapply (read_dispatch_spec pad1 pad2 to s c dev w d k rest r); try done; lia|].
           intros res s' (_ & _ & ->). ksteps. by apply dispatched_kinv.
  - by destruct (Hi c _ Hc eq_refl).
  - unfold safe, mbind, ST_bind. rewrite (bius_dev_read_refused pad1 pad2 [] to s c _ Hc) by (by left). done.
Qed.

(** *** Replying *)
Lemma receive_any um k ud s r b rq :
  live (blk_rqs s) (pdus s) k r b rq ->
  exists ret m, bius_receive_data um k ud s = Ret (ret, set_kmem (fun _ => m) s).
Proof.
  intros [Hr Hu _ Hrq _ _ Hum]. destruct (decide (b_bio b < length (rq_bios rq))%nat) as [Hlt|Hge].
  - destruct (receive_data_spec um k ud s r b rq Hr Hu Hrq Hum Hlt) as (m & Hm & _). by eexists _, m.
  - exists 0, (kmem s). unfold bius_receive_data, get_pdu, get_rq, gets, mbind, ST_bind, blk_arm.
    rewrite Hr. cbn [deref mret ST_ret]. rewrite Hu. cbn [mret ST_ret]. rewrite Hrq. cbn [deref mret ST_ret].
    rewrite bool_decide_eq_true_2 by (apply lookup_ge_None; lia). by destruct s.
Qed.

Lemma reply_events_tally k r h x :
  tally (ev_starts x) (reply_events k r h) = 0 /\
  tally (ev_ends x) (reply_events k r h) = if decide (x = k) then 1 else 0.
Proof.
  unfold reply_events. rewrite !tally_app. cbn [tally foldr ev_starts ev_ends].
  destruct (decide (k = x)) as [->|Hne].
  - rewrite (decide_True (P := x = x)) by done. by case_bool_decide.
  - rewrite (decide_False (P := x = k)) by congruence. by case_bool_decide.
Qed.

Lemma reply_blk_any um k h n s r b rq :
  live (blk_rqs s) (pdus s) k r b rq -> wp (reply_blk um k h n) (fun _ s' => completed s k s') s.
Proof.
  intros Hl. pose proof (live_blk_request _ _ _ _ _ Hl) as Hbr.
  destruct (decide (u2k_reply h = BLK_STS_OK /\ req_type r = BIUS_READ)) as [[Hok Hty]|Hne].
  - pose proof Hl as [Hr _ _ _ _ _ _]. unfold reply_blk. eapply wp_bind, wp_get_pdu; [exact Hr|]. cbv beta zeta.
    rewrite Hok, Hty. change ((BLK_STS_OK =? BLK_STS_OK) && bool_decide (BIUS_READ = BIUS_READ)) with true. cbv iota.
    destruct (receive_any um k (u2k_user_data h) s r b rq Hl) as (ret & m & Hm).
    apply wp_bind. eapply wp_intro; [exact Hm|]. cbv beta.
    assert (blk_request (set_kmem (fun _ => m) s) k r b rq) as Hbr' by (by destruct Hbr; split).
    assert (forall res, completed s k (ended (set_kmem (fun _ => m) s) k r b res)) as Hcp.
    { intros res. destruct (ended_completed (set_kmem (fun _ => m) s) k r b res). by split. }
    destruct (ret <? 0).
    + apply wp_bind. eapply wp_intro; [by eapply end_blk_request_spec|]. by apply wp_ret.
    + eapply wp_bind, wp_get_pdu; [exact Hr|]. rewrite Hty. simpl bool_decide. cbv iota. apply wp_bind, wp_ret, wp_bind.
      eapply wp_intro; [by eapply end_blk_request_spec|]. by apply wp_ret.
  - eapply wp_mono; [eapply reply_blk_finish; [exact Hbr|]|].
    { destruct (decide (u2k_reply h = BLK_STS_OK)); [right; naive_solver|by left]. }
    intros res s' (_ & Hrq & Hc & Hd & _ & Ht & Hn & HL & Hb & r' & b' & Hp & Hu').
    split; try done; rewrite ?Ht.
    + intros x Hx. rewrite Hp. by rewrite lookup_insert_ne.
    + intros r2. rewrite Hp, lookup_insert_eq. intros [= <-]. by exists b'.
    + intros x. rewrite tally_app. destruct (reply_events_tally k r h x) as [-> _]. lia.
    + intros x. rewrite tally_app. by destruct (reply_events_tally k r h x) as [_ ->].
Qed.

Lemma get_request_by_id_any l id s :
  (forall x, x ∈ l -> exists r, pdus s !! x = Some r) ->
  exists o, get_request_by_id l id s = Ret (o, s) /\
    forall k, o = Some k -> k ∈ l /\ exists r, pdus s !! k = Some r /\ req_id r = id.
Proof.
  intros Hl. induction l as [|x l IH]; [by exists None|].
  destruct (Hl x) as [r Hr]; [by left|].
  cbn [get_request_by_id]. unfold mbind at 1, ST_bind at 1. unfold get_pdu, gets, mbind, ST_bind.
  rewrite Hr. cbn [deref mret ST_ret]. destruct (decide (req_id r = id)).
  - exists (Some x). split; [done|]. intros k [= ->]. split; [by left|by exists r].
  - destruct IH as (o & -> & Ho); [intros y Hy; apply Hl; by right|].
    exists o. split; [done|]. intros k Hk. destruct (Ho k Hk). split; [by right|done].
Qed.

Lemma replied_kinv s s' c dev w snd k :
  kinv s -> connections s !! c = Some (Connection (Some dev) w snd) -> k ∈ w ->
  ~ is_report (pdus s) k -> idle_user c ->
  completed (set_conns <[c := answered_conn dev w snd k]> s) k s' -> kinv s'.
Proof.
  intros Hk Hc Hkw Hnr Hidle Hcp. pose proof Hk as [Hq Hn Hdi [Hs Hi] Ht Hrep Hh].
  assert (queue s (Waiting c) = w) as HW by apply (waiting_queue s c _ Hc).
  assert (k ∈ queue s (Waiting c)) as Hkq by by rewrite HW.
  pose proof (q_nodup _ _ _ _ Hq (Waiting c)) as Hnd. rewrite HW in Hnd.
  assert (forall o, queue s' o = if decide (o = Waiting c) then list_del k w else queue s o) as HQ.
  { intros o. unfold queue at 1. rewrite (cp_disks _ _ _ Hcp), (cp_devices _ _ _ Hcp), (cp_conns _ _ _ Hcp).
    kfields. rewrite queue_of_conn. done. }
  assert (forall o x, x ∈ queue s' o <-> x ∈ queue s o /\ x <> k) as HQx.
  { intros o x. rewrite HQ. case_decide as Ho.
    - subst o. rewrite HW. by apply elem_of_list_del.
    - split; [|tauto]. intros Hx. split; [done|]. intros ->. apply Ho. by eapply (q_disj _ _ _ _ Hq). }
  split.
  - eapply (completed_qinv _ k s' (queue s)); [exact Hcp|exact Hq| |exact HQx].
    intros o. rewrite HQ. case_decide; [by apply NoDup_list_del|by apply (q_nodup _ _ _ _ Hq)].
  - rewrite (cp_next _ _ _ Hcp). exact Hn.
  - eapply dinv_same; [exact Hdi|exact (cp_disks _ _ _ Hcp)| |].
    + intros x. rewrite (cp_conns _ _ _ Hcp). kfields. destruct (decide (x = c)) as [->|]; [|by rewrite lookup_insert_ne].
      by rewrite lookup_insert_eq, Hc.
    + intros x. by rewrite (cp_devices _ _ _ Hcp).
  - split; rewrite (cp_conns _ _ _ Hcp); kfields.
    + intros c' v x. destruct (decide (c' = c)) as [->|Hne].
      * rewrite lookup_insert_eq. intros [= <-]. unfold answered_conn; kfields. case_bool_decide as Hsk; [done|].
        intros ->. destruct (Hs c _ x Hc eq_refl) as (Hxw & r & b & rq & Hl & Hxf).
        assert (x <> k) as Hxk by congruence. split; [by apply elem_of_list_del|].
        exists r, b, rq. split; [|done]. by eapply live_completed.
      * rewrite lookup_insert_ne by done. intros Hv Hx.
        destruct (Hs c' v x Hv Hx) as (Hxw & r & b & rq & Hl & Hxf). split; [done|].
        exists r, b, rq. split; [|done]. eapply live_completed; [exact Hcp| |exact Hl].
        apply (sending_elsewhere s (Waiting c) c' v); try done. congruence.
    + intros c' v. destruct (decide (c' = c)) as [->|Hne]; [|rewrite lookup_insert_ne by done; eauto].
      rewrite lookup_insert_eq. by intros [= <-].
  - eapply completed_tinv; [exact Hcp| |exact Ht]. kfields.
    destruct (q_live _ _ _ _ _ k Hq Hkq Hnr) as (r & b & rq & [] & _). by eexists.
  - by eapply (completed_rinv _ k s' (queue s)).
  - eapply hinv_frame; [exact Hh| | |].
    + intros c' k' h Hc'. rewrite (cp_conns _ _ _ Hcp). by eapply idle_conns.
    + intros a k' d' _. by rewrite (cp_disks _ _ _ Hcp).
    + intros a x Hx. assert (x <> k) by by eapply (hand_elsewhere s (Waiting c)).
      rewrite (cp_pdus _ _ _ Hcp), (cp_rqs _ _ _ Hcp) by done. by rewrite lookup_delete_ne.
Qed.
End steps.
