(* ===== verification/StepsReport.v ===== *)
(** * The module's operations keep the invariant: zone reports

    A report joins the pending list of its device, is answered, and returns. *)
From S2P Require Import Prelude Protocol Linux Kernel Sample Command BlockDev CharDev CharDevProps Invariant StepsIO.

Section steps.
Context `{BL : BioLaws} `{IL : IovLaws} `{LCL : LinuxConstLaws} `{inh : hands}.
Implicit Types s : kstate.

(** What holds of the connections when only the pdu of a report changes. *)
Lemma cinv_report s s' k :
  cinv s -> connections s' = connections s -> blk_rqs s' = blk_rqs s ->
  (forall x, x <> k -> pdus s' !! x = pdus s !! x) ->
  (forall r b rq, ~ live (blk_rqs s) (pdus s) k r b rq) -> cinv s'.
Proof.
  intros [Hs Hi] HC HR HP Hk. split; rewrite HC; [|exact Hi].
  intros c v x Hv Hx. destruct (Hs c v x Hv Hx) as (Hxw & r & b & rq & Hl & Hxf). split; [done|].
  exists r, b, rq. split; [|done]. assert (x <> k) as Hne by (intros ->; by destruct (Hk r b rq)).
  destruct Hl. split; try done; [by rewrite HP|by rewrite HR].
Qed.

(** *** Up to the wait *)
Lemma report_step s d sector nr_zones blkz kreq :
  kinv s -> kop_ok s (OpReport d sector nr_zones blkz kreq) ->
  wp (run_kop (OpReport d sector nr_zones blkz kreq)) (fun _ s' => kinv s') s.
Proof.
  intros Hk (Hnone & Hrq & Hbuf & Hin & Hnr & Hid). pose proof Hk as [Hq Hn Hd Hc Ht Hrep Hh].
  destruct (d_devs _ Hd d Hin) as [v Hv]. cbn [run_kop]. set (nr := Z.min nr_zones BIUS_MAX_ZONES).
  assert (0 <= nr <= BIUS_MAX_ZONES) as Hnr' by (unfold nr; assert (0 < BIUS_MAX_ZONES) by done; lia).
  eapply wp_intro; [by apply report_submit_spec|].
  assert (u64 (next_request_id s + 1) = next_request_id s + 1) as Eid by (apply wrap_small; lia).
  set (s' := report_queued s d sector nr blkz kreq v).
  assert (forall o, queue s' o = if decide (o = Pending d) then dev_pending v ++ [kreq] else queue s o) as HQ
    by (intros o; by apply (queue_of_dev (all_disk_list s) (devices s))).
  assert (queue s (Pending d) = dev_pending v) as Hpend by by apply pending_queue.
  assert (forall o, kreq ∉ queue s o) as Hfresh.
  { intros o Ho. destruct (q_id _ _ _ _ Hq o kreq Ho) as (? & ? & _). congruence. }
  assert (forall o x, x <> kreq -> x ∈ queue s' o <-> x ∈ queue s o) as HQx.
  { intros o x Hx. rewrite HQ. case_decide as Ho; [|done]. subst o. rewrite Hpend, elem_of_app, list_elem_of_singleton. tauto. }
  assert (forall o, kreq ∈ queue s' o <-> o = Pending d) as HQk.
  { intros o. rewrite HQ. case_decide as Ho; [|split; [by intros ?%Hfresh|done]].
    split; [done|]. intros _. apply elem_of_app. right. by apply list_elem_of_singleton. }
  assert (forall x r, x <> kreq -> pdus s' !! x = Some r <-> pdus s !! x = Some r) as HP
    by (intros x r Hx; unfold s', report_queued; kfields; by rewrite lookup_insert_ne).
  set (r := BiusRequest (u64 (next_request_id s + 1)) BIUS_REPORT_ZONES (s64 (u64 (Z.shiftl sector SECTOR_SHIFT)))
    nr (UInt (IntPart blkz 0 None)) fn_bius_report_zones_request_end).
  assert (pdus s' !! kreq = Some r) as Hr by apply lookup_insert_eq.
  split.
  - eapply (qinv_join (queue s) _ _ _ _ _ (next_request_id s) _ kreq (Pending d) r);
      [exact Hq|exact Hr|unfold r, s', report_queued; simpl; rewrite Eid; lia|done| |exact HQx|exact HQk|done| |].
    + intros o. rewrite HQ. case_decide as Ho; [|by apply (q_nodup _ _ _ _ Hq)].
      rewrite <- Hpend. apply NoDup_app. split_and!; [by apply (q_nodup _ _ _ _ Hq)| |by apply NoDup_singleton].
      intros x Hx ->%list_elem_of_singleton. by apply (Hfresh (Pending d)).
    + intros x Hx. unfold s', report_queued; kfields. by rewrite lookup_insert_ne.
    + left. by exists r, (IntPart blkz 0 None).
  - unfold s', report_queued; kfields. lia.
  - eapply dinv_same; [exact Hd|done|done|]. intros x. simpl.
    destruct (decide (x = d)) as [->|]; [|by rewrite lookup_insert_ne].
    by rewrite lookup_insert_eq, Hv.
  - eapply (cinv_report s _ kreq); [done|done|done| |].
    + intros x Hx. unfold s', report_queued; kfields. by rewrite lookup_insert_ne.
    + intros r' b rq []. congruence.
  - intros x. unfold s', report_queued; kfields. rewrite !tally_app. simpl. rewrite !Z.add_0_r. apply Ht.
  - unfold s', report_queued; kfields. destruct Hrep as [R1 R2 R3 R4]. split.
    + intros x r' i. destruct (decide (x = kreq)) as [->|Hne].
      * rewrite lookup_insert_eq. intros [= <-] [= <-]. split; try done. apply lookup_insert_eq.
      * rewrite lookup_insert_ne by done. intros Hx Hu. destruct (R1 x r' i Hx Hu) as [W1 W2 W3 W4].
        split; try done. rewrite lookup_insert_ne; [done|]. congruence.
    + intros x (r' & i & Hx & Hu). destruct (decide (x = kreq)) as [->|Hne]; [done|].
      rewrite lookup_insert_ne in Hx by done. apply R2. by exists r', i.
    + intros x r' i. destruct (decide (x = kreq)) as [->|Hne].
      * rewrite lookup_insert_eq. intros [= <-] [= <-]. left. split_and!; [done|done|]. exists (Pending d). by apply HQk.
      * rewrite lookup_insert_ne by done. intros Hx Hu. destruct (R3 x r' i Hx Hu) as [(? & ? & o & Ho)|[? Ho]]; [left|right].
        -- split_and!; [done|done|]. exists o. by apply HQx.
        -- split; [done|]. intros o ?%HQx; [|done]. by apply (Ho o).
    + assert (forall x r' i, pdus s !! x = Some r' -> req_u r' = UInt i -> i_data i <> blkz) as Hnew.
      { intros x r' i Hx Hu <-. pose proof (rw_buf _ _ _ (R1 x r' i Hx Hu)). congruence. }
      intros k1 k2 r1 r2 i1 i2. destruct (decide (k1 = kreq)) as [->|Hn1], (decide (k2 = kreq)) as [->|Hn2]; [done| | |];
        rewrite ?lookup_insert_eq, ?lookup_insert_ne by done.
      * intros [= <-] [= <-] H2 U2 E. cbn [i_data] in E. by destruct (Hnew k2 r2 i2 H2 U2).
      * intros H1' U1 [= <-] [= <-] E. cbn [i_data] in E. by destruct (Hnew k1 r1 i1 H1' U1).
      * eauto.
  - eapply hinv_frame; [exact Hh|done|done|]. intros a x Hx. unfold s', report_queued; kfields.
    assert (x <> kreq) by (intros ->; by apply (Hfresh (Hand a))). by rewrite lookup_insert_ne.
Qed.

(** *** The reply *)
(** The reply to report [k] has been taken, with result [v]. *)
Record report_answered s (k : Z) (r : bius_request) (i : int_part) (v : Z) s' : Prop := {
  ra_pdus : pdus s' = <[k := with_int r (IntPart (i_data i) (i_sem i + 1) (Some v))]> (pdus s);
  ra_next : next_request_id s' = next_request_id s;
  ra_rqs : blk_rqs s' = blk_rqs s;
  ra_devices : devices s' = devices s;
  ra_disks : all_disk_list s' = all_disk_list s;
  ra_conns : connections s' = connections s;
  ra_bufs : kbufs s' = kbufs s;
  ra_trace : trace s' = trace s ++ [EvUp k];
  ra_fits : v <= sizeof_blk_zone * req_length r }.

Lemma reply_int_any um k h n s r i :
  pdus s !! k = Some r -> req_u r = UInt i -> report_wf (kbufs s) r i ->
  - 2 ^ 31 <= u2k_reply h <= sizeof_blk_zone * req_length r ->
  wp (reply_int um k h n) (fun _ s' => exists v, report_answered s k r i v s') s.
Proof.
  intros Hr Hu [Hty He Hlen Hbuf] Hfit. assert (BIUS_MAX_ZONES = 131072) as Hmax by done. unfold sizeof_blk_zone in *.
  unfold reply_int, copy_into_data. destruct (Z.leb_spec (u2k_reply h) 0) as [Hle|Hgt].
  - apply wp_bind. eapply wp_intro; [by eapply end_request_int_spec|]. apply wp_ret.
    exists (u2k_reply h). rewrite (swrap_small 32) by lia. split; try done; unfold sizeof_blk_zone; lia.
  - ksteps. rewrite (proj2 (Z.ltb_ge INT_MAX _)) by (unfold INT_MAX; lia). ksteps.
    destruct (Z.ltb_spec (64 * req_length r) (u2k_reply h)); [lia|]. ksteps.
    destruct (0 <? not_copied um (u2k_user_data h) (u2k_reply h)).
    + eapply wp_intro; [by eapply end_request_int_spec|]. apply wp_ret.
      exists (s32 (- EINVAL)). split; try done. assert (s32 (- EINVAL) < 0) by done. unfold sizeof_blk_zone; lia.
    + eapply wp_intro; [by eapply end_request_int_spec|]. apply wp_ret.
      exists (u2k_reply h). rewrite (swrap_small 32) by lia. split; try done; unfold sizeof_blk_zone; lia.
Qed.

Lemma answered_report_kinv s s' c dev w snd k r i v :
  kinv s -> connections s !! c = Some (Connection (Some dev) w snd) -> k ∈ w ->
  pdus s !! k = Some r -> req_u r = UInt i -> idle_user c ->
  report_answered (set_conns <[c := answered_conn dev w snd k]> s) k r i v s' -> kinv s'.
Proof.
  intros Hk Hc Hkw Hr Hu Hidle [HP HN HR HD HL HC HB HT Hfit]. pose proof Hk as [Hq Hn Hdi [Hs Hi] Ht Hrep Hh]. cbn [kbufs pdus set_conns] in *.
  assert (queue s (Waiting c) = w) as HW by apply (waiting_queue s c _ Hc).
  assert (k ∈ queue s (Waiting c)) as Hkq by by rewrite HW.
  assert (is_report (pdus s) k) as Hkrep by (by exists r, i).
  pose proof (q_nodup _ _ _ _ Hq (Waiting c)) as Hnd. rewrite HW in Hnd.
  assert (forall o, queue s' o = if decide (o = Waiting c) then list_del k w else queue s o) as HQ.
  { intros o. unfold queue at 1. rewrite HL, HD, HC. kfields. by rewrite queue_of_conn. }
  assert (forall o x, x ∈ queue s' o <-> x ∈ queue s o /\ x <> k) as HQx.
  { intros o x. rewrite HQ. case_decide as Ho.
    - subst o. rewrite HW. by apply elem_of_list_del.
    - split; [|tauto]. intros Hx. split; [done|]. intros ->. apply Ho. by eapply (q_disj _ _ _ _ Hq). }
  assert (forall x, x <> k -> pdus s' !! x = pdus s !! x) as Hps by (intros x Hx; by rewrite HP, lookup_insert_ne).
  pose proof (r_rq _ _ _ _ Hrep k Hkrep) as Hknone.
  split.
  - rewrite HN, HR. kfields. eapply (qinv_leave (queue s) _ _ _ _ _ _ [k]); [exact Hq| | | |].
    + intros o. rewrite HQ. case_decide; [by apply NoDup_list_del|by apply (q_nodup _ _ _ _ Hq)].
    + intros o x. by rewrite HQx, list_elem_of_singleton.
    + intros x. case_decide as Hx; [by apply list_elem_of_singleton in Hx as ->|done].
    + intros x Hx. apply Hps. by rewrite list_elem_of_singleton in Hx.
  - by rewrite HN.
  - eapply dinv_same; [exact Hdi|exact HL| |].
    + intros x. rewrite HC. kfields. destruct (decide (x = c)) as [->|]; [|by rewrite lookup_insert_ne].
      by rewrite lookup_insert_eq, Hc.
    + intros x. by rewrite HD.
  - split; rewrite HC, ?HR; kfields.
    + intros c' v' x Hv Hx.
      assert (exists v0, connections s !! c' = Some v0 /\ conn_sending v0 = Some x /\ (x ∈ conn_waiting v0 -> x <> k -> x ∈ conn_waiting v'))
        as (v0 & Hv0 & Hx0 & Hsub).
      { destruct (decide (c' = c)) as [->|Hne].
        - rewrite lookup_insert_eq in Hv. injection Hv as <-. revert Hx. unfold answered_conn; kfields.
          case_bool_decide; [done|]. intros ->. eexists; split_and!; [exact Hc|done|]. intros. by apply elem_of_list_del.
        - rewrite lookup_insert_ne in Hv by done. by exists v'. }
      destruct (Hs c' v0 x Hv0 Hx0) as (Hxw & r2 & b2 & rq2 & Hl2 & Hx2).
      assert (x <> k) as Hxk by (intros ->; by destruct (live_no_report _ _ _ _ _ _ Hl2)).
      split; [by apply Hsub|]. exists r2, b2, rq2. split; [|done]. destruct Hl2. split; try done. by rewrite Hps.
    + intros c' v'. destruct (decide (c' = c)) as [->|Hne]; [|rewrite lookup_insert_ne by done; eauto].
      rewrite lookup_insert_eq. by intros [= <-].
  - intros x. rewrite HT, HR, !tally_app. kfields. simpl. rewrite !Z.add_0_r. apply Ht.
  - rewrite HR, HB. kfields. destruct Hrep as [R1 R2 R3 R4].
    assert (forall x r' j, pdus s' !! x = Some r' -> req_u r' = UInt j ->
      exists r0 i0, pdus s !! x = Some r0 /\ req_u r0 = UInt i0 /\ i_data i0 = i_data j /\
        req_type r' = req_type r0 /\ req_on_end r' = req_on_end r0 /\ req_length r' = req_length r0) as Hback.
    { intros x r' j Hx Hj. destruct (decide (x = k)) as [->|Hne]; [|rewrite Hps in Hx by done; by exists r', j].
      rewrite HP, lookup_insert_eq in Hx. injection Hx as <-. injection Hj as <-. by exists r, i. }
    split.
    + intros x r' j Hx Hj. destruct (Hback x r' j Hx Hj) as (r0 & i0 & H0' & U0 & E1 & E2 & E3 & E4).
      destruct (R1 x r0 i0 H0' U0) as [W1 W2 W3 W4]. split; congruence.
    + intros x (r' & j & Hx & Hj). destruct (Hback x r' j Hx Hj) as (r0 & i0 & H0' & U0 & _). apply R2. by exists r0, i0.
    + intros x r' j Hx Hj. destruct (decide (x = k)) as [->|Hne].
      * right. rewrite HP, lookup_insert_eq in Hx. injection Hx as <-. injection Hj as <-.
        destruct (R3 k r i Hr Hu) as [(Hsem & _ & _)|[_ Ho]]; [|by destruct (Ho (Waiting c))].
        split; [split; [cbn [i_sem]; lia|by exists v]|]. intros o ?%HQx. tauto.
      * rewrite Hps in Hx by done. destruct (R3 x r' j Hx Hj) as [(? & ? & o & Ho)|[? Ho]]; [left|right].
        -- split_and!; [done|done|]. exists o. by apply HQx.
        -- split; [done|]. intros o [? _]%HQx. by apply (Ho o).
    + intros k1 k2 r1 r2 i1 i2 H1' U1 H2' U2 E.
      destruct (Hback k1 r1 i1 H1' U1) as (r1' & i1' & ? & ? & E1 & _), (Hback k2 r2 i2 H2' U2) as (r2' & i2' & ? & ? & E2 & _).
      eapply R4; eauto; congruence.
  - eapply hinv_frame; [exact Hh| | |].
    + intros c' k' h Hc'. rewrite HC. by eapply idle_conns.
    + intros a k' d' _. by rewrite HL.
    + intros a x Hx. assert (x <> k) by by eapply (hand_elsewhere s (Waiting c)). rewrite HR. split; [by apply Hps|done].
Qed.

(** *** From the wait on *)
Lemma report_zones_loop_any blkz size cb nr left s :
  cb_ok cb -> nr * sizeof_blk_zone <= size -> Z.of_nat left <= nr ->
  wp (report_zones_loop blkz size cb nr left) (fun res s' => exists m, s' = set_kmem (fun _ => m) s) s.
Proof.
  intros Hcb Hsz. revert s. induction left as [|left IH]; intros s Hle.
  { apply wp_ret. exists (kmem s). by destruct s. }
  cbn [report_zones_loop]. destruct (Z.ltb_spec size ((nr - Z.of_nat (S left) + 1) * sizeof_blk_zone)).
  { unfold sizeof_blk_zone in *. lia. }
  ksteps. eapply wp_mono; [apply Hcb|]. intros res s' (m & ->). cbv beta. destruct (negb (res =? 0)); [apply wp_ret; by exists m|].
  eapply wp_mono; [apply IH; lia|]. intros res' s' (m' & ->). by exists m'.
Qed.

(** The report returns: its request and its buffer are gone. *)
Definition returned s (k blkz : Z) (m : memory) : kstate :=
  set_pdus (delete k) (set_kbufs (delete blkz) (set_kmem (fun _ => m) s)).
Lemma report_finish_any nr blkz k cb r i v s :
  cb_ok cb -> pdus s !! k = Some r -> req_u r = UInt i -> i_int_result i = Some v -> v <= sizeof_blk_zone * nr ->
  wp (report_finish nr blkz k cb 0) (fun _ s' => exists m, s' = returned s k blkz m) s.
Proof.
  intros Hcb Hr Hu Hv Hle. unfold report_finish. rewrite Z.ltb_irrefl. ksteps.
  assert (wp (if v <? 0 then mret v else report_zones_loop blkz (sizeof_blk_zone * nr) cb (v / sizeof_blk_zone)
    (Z.to_nat (v / sizeof_blk_zone))) (fun _ s' => exists m, s' = set_kmem (fun _ => m) s) s) as Hloop.
  { destruct (Z.ltb_spec v 0); [apply wp_ret; exists (kmem s); by destruct s|].
    assert (0 <= v / sizeof_blk_zone) by (apply Z.div_pos; unfold sizeof_blk_zone; lia).
    apply report_zones_loop_any; [done| |lia]. pose proof (Z.mul_div_le v sizeof_blk_zone). unfold sizeof_blk_zone in *. lia. }
  eapply wp_mono; [exact Hloop|]. intros res s' (m & ->). ksteps. by exists m.
Qed.

Lemma returned_kinv s k r i m :
  kinv s -> pdus s !! k = Some r -> req_u r = UInt i -> (forall o, k ∉ queue s o) -> kinv (returned s k (i_data i) m).
Proof.
  intros [Hq Hn Hdi Hcinv Ht [R1 R2 R3 R4] Hh] Hr Hu Hno. unfold returned.
  assert (forall o, queue (set_pdus (delete k) (set_kbufs (delete (i_data i)) (set_kmem (fun _ => m) s))) o = queue s o) as HQ by done.
  split; kfields; [|done| |  |exact Ht| |].
  - eapply (qinv_leave (queue s) _ _ _ _ _ _ [k]); [exact Hq| | | |].
    + intros o. rewrite HQ. apply (q_nodup _ _ _ _ Hq).
    + intros o x. rewrite HQ, list_elem_of_singleton. split; [|tauto]. intros Hx. split; [done|]. intros ->. by apply (Hno o).
    + intros x. case_decide as Hx; [|done]. apply list_elem_of_singleton in Hx as ->. apply R2. by exists r, i.
    + intros x Hx. rewrite list_elem_of_singleton in Hx. by rewrite lookup_delete_ne.
  - by eapply dinv_same.
  - eapply (cinv_report s _ k); kfields; try done.
    + intros x Hx. by rewrite lookup_delete_ne.
    + intros r' b rq Hl. apply (live_no_report _ _ _ _ _ _ Hl). by exists r, i.
  - split.
    + intros x r' j Hx Hj. apply lookup_delete_Some in Hx as [Hne Hx]. destruct (R1 x r' j Hx Hj) as [W1 W2 W3 W4]. split; try done.
      rewrite lookup_delete_ne; [done|]. intros E. apply Hne. by apply (R4 k x r r' i j).
    + intros x (r' & j & Hx & Hj). apply lookup_delete_Some in Hx as [Hne Hx]. apply R2. by exists r', j.
    + intros x r' j Hx Hj. apply lookup_delete_Some in Hx as [Hne Hx]. eauto.
    + intros k1 k2 r1 r2 i1 i2 H1' U1 H2' U2. apply lookup_delete_Some in H1' as [_ H1'], H2' as [_ H2']. eauto.
  - eapply hinv_frame; [exact Hh|done|done|]. kfields. intros a x Hx.
    assert (k <> x) by (intros <-; by apply (Hno (Hand a))). by rewrite lookup_delete_ne.
Qed.

(** The wait ends when the report has been answered. *)
Lemma down_spec killed k s r i :
  pdus s !! k = Some r -> req_u r = UInt i ->
  down_killable killed k s = if i_sem i <=? 0 then if killed then Ret (- EINTR, s) else NoFuel
    else Ret (0, set_pdus <[k := with_int r (IntPart (i_data i) (i_sem i - 1) (i_int_result i))]> s).
Proof.
  intros Hr Hu. unfold down_killable, get_pdu, gets, mbind, ST_bind, int_arm. rewrite Hr. cbn [deref mret ST_ret]. rewrite Hu.
  cbn [mret ST_ret]. by destruct (i_sem i <=? 0), killed.
Qed.
Lemma returned_after_down s k r' blkz m : returned (set_pdus <[k := r']> s) k blkz m = returned s k blkz m.
Proof. unfold returned. apply kstate_ext; kfields; try done. apply delete_insert_eq. Qed.

Lemma return_answered s killed nr blkz k cb r i v :
  cb_ok cb -> pdus s !! k = Some r -> req_u r = UInt i -> i_sem i = 1 -> i_int_result i = Some v ->
  v <= sizeof_blk_zone * nr ->
  wp (run_kop (OpReturn killed nr blkz k cb)) (fun _ s' => exists m, s' = returned s k blkz m) s.
Proof.
  intros Hcb Hr Hu Hsem Hv Hle. cbn [run_kop]. apply wp_bind.
  eapply wp_intro; [rewrite (down_spec killed k s r i Hr Hu), Hsem; reflexivity|]. cbv beta. apply wp_bind.
  eapply wp_mono.
  { apply (report_finish_any nr blkz k cb (with_int r (IntPart (i_data i) (1 - 1) (i_int_result i)))
      (IntPart (i_data i) (1 - 1) (i_int_result i)) v); [done|apply lookup_insert_eq|done|done|done]. }
  intros res s' (m & ->). ksteps. exists m. apply returned_after_down.
Qed.

Lemma return_step s killed nr blkz kreq cb :
  kinv s -> kop_ok s (OpReturn killed nr blkz kreq cb) -> safe (run_kop (OpReturn killed nr blkz kreq cb)) (fun _ s' => kinv s') s.
Proof.
  intros Hk ((r & i & Hr & Hu & <- & <-) & Hcb & Hkill).
  destruct (r_phase _ _ _ _ (k_reports _ Hk) kreq r i Hr Hu) as [(Hsem & _ & o & Ho)|[[Hsem (v & Hv & Hle)] Hno]].
  - destruct killed; [by destruct (Hkill eq_refl o)|]. unfold safe. cbn [run_kop]. unfold mbind, ST_bind. rewrite (down_spec false kreq s r i Hr Hu), Hsem. done.
  - apply wp_safe. eapply wp_mono; [by eapply return_answered|]. intros [] s' (m & ->). by eapply returned_kinv.
Qed.
End steps.
