(* ===== verification/StepsDev.v ===== *)
(** * The module's operations keep the invariant: creating, connecting, writing, closing *)
From S2P Require Import Prelude Protocol Linux Kernel Sample Command BlockDev CharDev CharDevProps Invariant StepsIO StepsReport.

Section steps.
Context `{BL : BioLaws} `{IL : IovLaws} `{LCL : LinuxConstLaws} `{inh : hands}.
Implicit Types s : kstate.

(** *** Creating and connecting *)
Lemma conns_of_attach C c v v' d :
  C !! c = Some v -> conn_block_dev v = None ->
  conns_of (<[c := v']> C) d
    = if decide (conn_block_dev v' = Some d) then {[c]} ∪ conns_of C d else conns_of C d.
Proof.
  intros Hc Hv. apply set_eq. intros x. rewrite elem_of_conns_of.
  assert (c ∉ conns_of C d) as Hno by (rewrite elem_of_conns_of; naive_solver).
  destruct (decide (x = c)) as [->|Hne].
  - rewrite lookup_insert_eq. case_decide as Hd.
    + rewrite elem_of_union, elem_of_singleton. naive_solver.
    + naive_solver.
  - rewrite lookup_insert_ne by done. rewrite <- elem_of_conns_of.
    case_decide; [|done]. rewrite elem_of_union, elem_of_singleton. tauto.
Qed.
Lemma size_conns_of_attach C c v v' d :
  C !! c = Some v -> conn_block_dev v = None ->
  Z.of_nat (size (conns_of (<[c := v']> C) d))
    = Z.of_nat (size (conns_of C d)) + (if decide (conn_block_dev v' = Some d) then 1 else 0).
Proof.
  intros Hc Hv. rewrite (conns_of_attach C c v v' d Hc Hv). case_decide; [|lia].
  assert (c ∉ conns_of C d) as Hno by (rewrite elem_of_conns_of; naive_solver).
  rewrite size_union by set_solver. rewrite size_singleton. lia.
Qed.

(** Connection [c], idle so far, uses device [dev], old or new. *)
Lemma attached_kinv s s' c dev v' :
  kinv s -> connections s !! c = Some (Connection None [] None) ->
  dev ∈ all_disk_list s' -> devices s' = <[dev := v']> (devices s) ->
  connections s' = <[c := Connection (Some dev) [] None]> (connections s) ->
  blk_rqs s' = blk_rqs s -> pdus s' = pdus s -> next_request_id s' = next_request_id s -> kbufs s' = kbufs s ->
  NoDup (all_disk_list s') ->
  (forall d, d ∈ all_disk_list s' <-> d ∈ all_disk_list s \/ d = dev) ->
  dev_pending v' = (if decide (dev ∈ all_disk_list s) then queue s (Pending dev) else []) ->
  dev_num_connection v' = Z.of_nat (size (conns_of (connections s) dev)) + 1 ->
  dev_num_connection v' < 2 ^ 32 ->
  (forall d1 d2 v, d1 ∈ all_disk_list s' -> d2 ∈ all_disk_list s' -> devices s' !! d1 = Some v ->
    named s' (gd_disk_name (dev_disk v)) d2 = true -> d2 = d1) ->
  (forall x, tally (ev_starts x) (trace s') = tally (ev_starts x) (trace s) /\
     tally (ev_ends x) (trace s') = tally (ev_ends x) (trace s)) ->
  idle_user c -> kinv s'.
Proof.
  intros [Hq Hn Hdi [Hs Hi] Ht Hrep Hh] Hc Hdev HD HC Hrq Hps Hnid Hbufs Hnd HL Hpend Hnum Hlt Hnames Htr Hidle.
  assert (forall o, queue s' o = queue s o) as HQ.
  { intros [d|c'|a]; [| |done].
    - destruct (decide (d = dev)) as [->|Hne].
      + transitivity (dev_pending v').
        * unfold queue, queue_of. rewrite decide_True, HD, lookup_insert_eq by done. done.
        * rewrite Hpend. case_decide; [done|]. unfold queue, queue_of. by rewrite decide_False.
      + unfold queue, queue_of. rewrite HD, lookup_insert_ne by done.
        apply decide_ext. rewrite HL. naive_solver.
    - unfold queue, queue_of. rewrite HC. destruct (decide (c' = c)) as [->|Hne].
      + by rewrite lookup_insert_eq, Hc.
      + by rewrite lookup_insert_ne. }
  split.
  - rewrite Hrq, Hps, Hnid. by eapply qinv_ext.
  - by rewrite Hnid.
  - destruct Hdi as [N1 N2 N3 N4 N5]. split.
    + done.
    + intros d Hd. rewrite HD. destruct (decide (d = dev)) as [->|Hne]; [by rewrite lookup_insert_eq|].
      rewrite lookup_insert_ne by done. apply N2. apply HL in Hd. naive_solver.
    + intros c' v d. rewrite HC. destruct (decide (c' = c)) as [->|Hne].
      * rewrite lookup_insert_eq. intros [= <-] [= <-]. done.
      * rewrite lookup_insert_ne by done. intros Hv Hd. apply HL. left. eauto.
    + intros d v Hd. rewrite HD, HC, (size_conns_of_attach _ c (Connection None [] None)) by done. kfields.
      destruct (decide (d = dev)) as [->|Hne].
      * rewrite lookup_insert_eq. intros [= <-]. rewrite decide_True by done. split; [done|lia].
      * rewrite lookup_insert_ne by done. intros Hv. rewrite decide_False by congruence.
        rewrite Z.add_0_r. apply N4; [|done]. apply HL in Hd. naive_solver.
    + exact Hnames.
  - split; rewrite HC.
    + intros c' v k. destruct (decide (c' = c)) as [->|Hne].
      * rewrite lookup_insert_eq. by intros [= <-].
      * rewrite lookup_insert_ne, Hrq, Hps by done. eauto.
    + intros c' v. destruct (decide (c' = c)) as [->|Hne]; [|rewrite lookup_insert_ne by done; eauto].
      rewrite lookup_insert_eq. by intros [= <-].
  - intros x. destruct (Htr x) as [-> ->]. rewrite Hrq. apply Ht.
  - rewrite Hrq, Hps, Hbufs. by eapply rinv_ext.
  - eapply hinv_frame; [exact Hh| | |by rewrite Hrq, Hps].
    + intros c' k' h Hc'. rewrite HC. by eapply idle_conns.
    + intros a k' d' _ Hd'. apply HL. by left.
Qed.

Lemma idle_connection s c v :
  kinv s -> connections s !! c = Some v -> conn_block_dev v = None -> v = Connection None [] None.
Proof.
  intros [_ _ _ [_ Hi] _ _ _] Hc Hv. destruct (Hi c v Hc Hv) as [Hw Hsd]. destruct v; simpl in *. congruence.
Qed.

Lemma kinv_all_live s : kinv s -> all_live s.
Proof.
  intros [_ _ [_ Hdev _ _ _] _ _ _ _]. unfold all_live. apply Forall_forall. intros d Hd. by apply Hdev.
Qed.

Lemma connect_step s um c user_buffer len v :
  kinv s -> connections s !! c = Some v -> conn_block_dev v = None ->
  (forall d v, devices s !! d = Some v -> dev_num_connection v + 1 < 2 ^ 32) -> idle_user c ->
  wp (handle_connect um c user_buffer len) (fun _ s' => kinv s') s.
Proof.
  intros Hk Hc Hv Hov Hidle. pose proof (idle_connection s c v Hk Hc Hv) as ->. pose proof Hk as [Hq Hn Hdi _ Ht _ _].
  unfold handle_connect. destruct (negb _); [by apply wp_ret|]. apply wp_bind.
  eapply wp_intro; [apply get_block_device_spec; by apply kinv_all_live|]. cbv beta.
  destruct (head _) as [dev|] eqn:Hhead; [|by apply wp_ret].
  apply head_Some_elem_of, list_elem_of_filter in Hhead as [_ Hin]. rewrite elem_of_reverse in Hin.
  destruct (d_devs _ Hdi dev Hin) as [d Hd]. destruct (d_count _ Hdi dev d Hin Hd) as [Hnum Hlt].
  pose proof (Hov dev d Hd) as Hov'.
  unfold attach_device. eapply wp_bind, wp_deref; [reflexivity|]. cbv beta. ksteps.
  assert (u32 (dev_num_connection d + 1) = dev_num_connection d + 1) as -> by (apply wrap_small; lia).
  eapply attached_kinv; kfields; [exact Hk|exact Hc|exact Hin|reflexivity|reflexivity|done|done|done|done| | | | | | |done|done].
  - exact (d_nodup _ Hdi).
  - intros d'. split; [by left|]. by intros [?| ->].
  - rewrite decide_True by done. by rewrite (pending_queue s dev d).
  - kfields. lia.
  - kfields. lia.
  - intros d1 d2 w Hd1 Hd2 Hw Hn12. destruct Hdi as [_ _ _ _ N5].
    assert (forall x y, <[dev := dev_with_conns d (dev_num_connection d + 1)]> (devices s) !! x = Some y ->
      exists y', devices s !! x = Some y' /\ dev_disk y' = dev_disk y) as Hsame.
    { intros x y. destruct (decide (x = dev)) as [->|Hne]; [|rewrite lookup_insert_ne by done; eauto].
      rewrite lookup_insert_eq. intros [= <-]. by exists d. }
    destruct (Hsame d1 w Hw) as (w' & Hw' & Ew). apply (N5 d1 d2 w' Hd1 Hd2 Hw'). rewrite Ew.
    unfold named in *. kfields. cbn [devices set_conns set_devices] in Hn12.
    destruct (<[dev:=_]> (devices s) !! d2) as [y|] eqn:Ey; [|done].
    destruct (Hsame d2 y Ey) as (y' & -> & ->). done.
Qed.

Lemma tally_zero f t : Forall (fun e => f e = 0) t -> tally f t = 0.
Proof. induction 1 as [|e t He _ IH]; [done|]. cbn [tally foldr]. fold (tally f t). lia. Qed.
Lemma tally_quiet x dev l l' :
  tally (ev_starts x) ((EvAcquire <$> l) ++ EvAddDisk dev :: (EvRevalidate <$> l')) = 0 /\
  tally (ev_ends x) ((EvAcquire <$> l) ++ EvAddDisk dev :: (EvRevalidate <$> l')) = 0.
Proof.
  split; apply tally_zero, Forall_app; (split; [by apply Forall_fmap, Forall_true|]);
    (constructor; [done|]); by apply Forall_fmap, Forall_true.
Qed.

(** Device [dev] is new, under a new name, and [c] its first connection. *)
Lemma created_kinv s s' c dev v' :
  kinv s -> connections s !! c = Some (Connection None [] None) -> devices s !! dev = None ->
  (forall d, d ∈ all_disk_list s -> named s (gd_disk_name (dev_disk v')) d = false) ->
  all_disk_list s' = all_disk_list s ++ [dev] -> devices s' = <[dev := v']> (devices s) ->
  connections s' = <[c := Connection (Some dev) [] None]> (connections s) ->
  blk_rqs s' = blk_rqs s -> pdus s' = pdus s -> next_request_id s' = next_request_id s -> kbufs s' = kbufs s ->
  dev_pending v' = [] -> dev_num_connection v' = 1 ->
  (forall x, tally (ev_starts x) (trace s') = tally (ev_starts x) (trace s) /\
     tally (ev_ends x) (trace s') = tally (ev_ends x) (trace s)) ->
  idle_user c -> kinv s'.
Proof.
  intros Hk Hc Hfresh Hname EL ED EC ER EP EN EB Hpend Hnum Htr Hidle. pose proof (k_devices _ Hk) as Hdi.
  assert (dev ∉ all_disk_list s) as Hnew.
  { intros Hin. destruct (d_devs _ Hdi dev Hin) as [d Hd]. congruence. }
  assert (conns_of (connections s) dev = ∅) as Hnone.
  { apply set_eq. intros x. rewrite elem_of_conns_of. split; [|set_solver].
    intros (w & Hw & Hwd). destruct Hnew. by eapply (d_conn _ Hdi). }
  apply (attached_kinv s s' c dev v'); try done; rewrite ?EL.
  - apply elem_of_app. right. by left.
  - apply NoDup_app. split_and!; [apply (d_nodup _ Hdi)| |by apply NoDup_singleton].
    by intros x Hx ->%list_elem_of_singleton.
  - intros d. by rewrite elem_of_app, list_elem_of_singleton.
  - by rewrite decide_False.
  - by rewrite Hnone, size_empty.
  - by rewrite Hnum.
  - intros d1 d2 w. rewrite !elem_of_app, !list_elem_of_singleton. unfold named in *. rewrite ED.
    intros Hd1 Hd2. destruct (decide (d1 = dev)) as [->|Hn1], (decide (d2 = dev)) as [->|Hn2]; [done| | |];
      rewrite ?lookup_insert_eq, ?lookup_insert_ne by done.
    + intros [= <-]. destruct Hd2 as [Hd2|]; [|done]. specialize (Hname d2 Hd2).
      destruct (devices s !! d2); [congruence|done].
    + intros Hw. destruct Hd1 as [Hd1|]; [|done]. specialize (Hname d1 Hd1). rewrite Hw in Hname.
      rewrite strncmp_eq_sym. congruence.
    + intros Hw Hn12. destruct Hd1 as [Hd1|]; [|done]. destruct Hd2 as [Hd2|]; [|done].
      by apply (d_names _ Hdi d1 d2 w).
Qed.

Lemma create_step s um e c h v :
  kinv s -> connections s !! c = Some v -> conn_block_dev v = None -> create_ok s um e h -> idle_user c ->
  wp (handle_create um e c (u2k_user_data h)) (fun _ s' => kinv s') s.
Proof.
  intros Hk Hc Hv (Hs & Hfresh & Hname) Hidle. pose proof (idle_connection s c v Hk Hc Hv) as ->.
  unfold handle_create. destruct (negb _); [by apply wp_ret|].
  set (o := options_of_bytes _) in *. apply wp_bind. apply create_device_run; [done|].
  intros dev Hdev. cbn [Datatypes.fst Datatypes.snd]. change (u64 0 <? 0) with false. cbv iota.
  set (dv n := BlockDevice (ce_register_blkdev e) (create_gendisk o (ce_register_blkdev e)) (opt_model o) n []).
  apply wp_bind. set (s1 := KState _ _ _ _ _ _ _ _ _).
  set (zoned := negb (bool_decide (opt_model o = BLK_ZONED_NONE))).
  assert (wp (if zoned then dev0 ← deref UninitRead (Some dev); bius_revalidate dev0 else mret tt)
    (fun _ s2 => s2 = if zoned then emit_event (EvRevalidate dev) s1 else s1) s1) as Hrev.
  { destruct zoned; [|by apply wp_ret]. apply wp_bind. eapply wp_deref; [reflexivity|]. done. }
  eapply wp_mono; [exact Hrev|]. intros [] s2 ->. cbv beta.
  assert (connections (if zoned then emit_event (EvRevalidate dev) s1 else s1) = connections s /\
    devices (if zoned then emit_event (EvRevalidate dev) s1 else s1) = <[dev := dv 0]> (devices s)) as [EC ED]
    by (by destruct zoned).
  unfold attach_device. eapply wp_bind, wp_deref; [reflexivity|]. cbv beta.
  eapply wp_bind, wp_get_dev; [by rewrite ED, lookup_insert_eq|]. ksteps.
  eapply wp_get_conn; [kfields; by rewrite EC|]. ksteps.
  eapply (created_kinv s _ c dev (dv 1)); [exact Hk|exact Hc|by apply Hfresh|..]; kfields.
  - intros d Hd. cbn [create_gendisk gd_disk_name dv dev_disk]. specialize (Hname d Hd). unfold named in *.
    destruct (devices s !! d) as [y|]; [|done]. by rewrite strncmp_eq_strncpy.
  - by destruct zoned; unfold s1; kfields.
  - by rewrite ED, insert_insert_eq.
  - by rewrite EC.
  - by destruct zoned; unfold s1; kfields.
  - by destruct zoned; unfold s1; kfields.
  - by destruct zoned; unfold s1; kfields.
  - by destruct zoned; unfold s1; kfields.
  - reflexivity.
  - reflexivity.
  - intros x. destruct (tally_quiet x dev (create_acquired e) (if zoned then [dev] else [])) as [Q1 Q2].
    assert (forall f, tally f (trace (if zoned then emit_event (EvRevalidate dev) s1 else s1)) = tally f (trace s)
      + tally f ((EvAcquire <$> create_acquired e) ++ EvAddDisk dev :: (EvRevalidate <$> (if zoned then [dev] else [])))) as Htr.
    { intros f. rewrite <- tally_app. f_equal. unfold s1. destruct zoned; kfields; by rewrite <- ?app_assoc. }
    rewrite !Htr, Q1, Q2. lia.
  - exact Hidle.
Qed.

(** *** Writing *)
Lemma dev_write_cases um e c stack from s v :
  connections s !! c = Some v ->
  (exists res, bius_dev_write um e c stack from s = Ret (res, s)) \/
  exists n, let h := written_header stack from in
    bius_dev_write um e c stack from s =
      (match conn_block_dev v with
       | None => handle_initialization um e c h
       | Some _ =>
           o ← get_request_by_id (conn_waiting v) (u2k_id h);
           match o with
           | None => mret (- EINVAL)
           | Some k =>
               _ ← put_conn c (Connection (conn_block_dev v) (list_del k (conn_waiting v))
                      (if bool_decide (conn_sending v = Some k) then None else conn_sending v));
               r ← get_pdu k;
               if is_blk_request (req_type r) then reply_blk um k h n else reply_int um k h n
           end
       end) s.
Proof.
  intros Hc.
  assert (get_conn c s = Ret (v, s)) as Hget by (unfold get_conn, gets, mbind, ST_bind; by rewrite Hc).
  unfold bius_dev_write. rewrite (bind_ret _ _ _ _ _ Hget).
  destruct (iov_iter_count from <? sizeof_u2k); [left; by eexists|].
  cbv zeta. destruct (Z.of_nat (length (copy_from_iter sizeof_u2k from).1) <=? 0); [left; by eexists|].
  right. by exists (Z.of_nat (length (copy_from_iter sizeof_u2k from).1)).
Qed.

Lemma write_step s um e c stack from :
  kinv s -> kop_ok s (OpWrite um e c stack from) -> idle_user c ->
  wp (run_kop (OpWrite um e c stack from)) (fun _ s' => kinv s') s.
Proof.
  intros Hk ([v Hc] & Hcreate & Hov & Hreply) Hidle. cbn [run_kop]. apply wp_bind.
  destruct (dev_write_cases um e c stack from s v Hc) as [[res Hres]|[n Hrun]].
  { eapply wp_intro; [exact Hres|]. by apply wp_ret. }
  cbv zeta in Hrun. set (h := written_header stack from) in *. eapply wp_eq; [exact Hrun|].
  destruct v as [[dev|] w snd]; kfields.
  - apply wp_bind. pose proof Hk as [Hq _ _ _ _ Hrep _].
    assert (queue s (Waiting c) = w) as HW by apply (waiting_queue s c _ Hc).
    destruct (get_request_by_id_any w (u2k_id h) s) as (o & Ho & Hin).
    { intros x Hx. rewrite <- HW in Hx. destruct (q_id _ _ _ _ Hq _ x Hx) as (r & ? & _). by exists r. }
    eapply wp_intro; [exact Ho|]. cbv beta. destruct o as [k|]; [|by ksteps].
    destruct (Hin k eq_refl) as (Hkw & r & Hr & Hrid). assert (k ∈ queue s (Waiting c)) as Hkq by by rewrite HW.
    ksteps. destruct (q_listed _ _ _ _ Hq _ k Hkq) as [Hrp|(r' & b & rq & Hl & _)].
    + pose proof Hrp as (r' & i & Hr' & Hu). assert (r' = r) as -> by congruence. pose proof (r_wf _ _ _ _ Hrep k r i Hr Hu) as Hwf.
      rewrite (rw_type _ _ _ Hwf). change (is_blk_request BIUS_REPORT_ZONES) with false. cbv iota.
      eapply wp_mono; [by eapply (reply_int_any um k h n (set_conns <[c := answered_conn dev w snd k]> s) r i), (Hreply k)|].
      intros res s' (v & Hans). ksteps. by eapply answered_report_kinv.
    + pose proof Hl as [Hr' _ _ _ _ Hblk _]. assert (r' = r) as -> by congruence. rewrite Hblk.
      eapply wp_mono; [by eapply (reply_blk_any um k h n (set_conns <[c := answered_conn dev w snd k]> s) r b rq)|].
      intros res s' Hcp. ksteps. eapply replied_kinv; [done|exact Hc|done|by eapply live_no_report|done|done].
  - assert (wp (handle_initialization um e c h) (fun _ s' => kinv s') s) as Hinit.
    { unfold handle_initialization. destruct (Z.eqb_spec (u2k_type h) (bius_req_value BIUS_CREATE)) as [Ht|].
      - eapply create_step; [done|exact Hc|done| |done]. apply Hcreate; [by rewrite Hc|done].
      - destruct (u2k_type h =? bius_req_value BIUS_CONNECT); [|by apply wp_ret].
        by eapply connect_step. }
    eapply wp_mono; [exact Hinit|]. intros res s' Hk'. by ksteps.
Qed.

(** *** Closing *)
Lemma conns_of_delete C c d : conns_of (delete c C) d = conns_of C d ∖ {[c]}.
Proof.
  apply set_eq. intros x. rewrite elem_of_difference, !elem_of_conns_of, elem_of_singleton.
  destruct (decide (x = c)) as [->|Hne].
  - rewrite lookup_delete_eq. naive_solver.
  - rewrite lookup_delete_ne by done. naive_solver.
Qed.

(** Requests that all end together. *)
Lemma tally_ends_concat (f : Z -> list kevent) l x :
  NoDup l ->
  (forall k, k ∈ l -> tally (ev_starts x) (f k) = 0 /\
     tally (ev_ends x) (f k) = if decide (x = k) then 1 else 0) ->
  tally (ev_starts x) (concat (f <$> l)) = 0 /\
  tally (ev_ends x) (concat (f <$> l)) = if decide (x ∈ l) then 1 else 0.
Proof.
  intros Hnd Hf. induction Hnd as [|k l Hk _ IH]; [done|].
  rewrite fmap_cons. cbn [concat]. rewrite !tally_app.
  destruct (Hf k) as [-> ->]; [by left|]. destruct IH as [-> ->]; [intros y Hy; apply Hf; by right|].
  split; [done|]. destruct (decide (x = k)) as [->|Hne].
  - rewrite decide_False by done. by rewrite decide_True by (by left).
  - rewrite Z.add_0_l. apply decide_ext. rewrite elem_of_cons. tauto.
Qed.

(** Connection [c] is gone, with the requests [G] it or its device held; the
    device goes with its last connection. *)
Record released s s' (c dev : Z) (w : list Z) (snd : option Z) (d : bius_block_device) (G : list Z) : Prop := {
  rl_conn : connections s !! c = Some (Connection (Some dev) w snd);
  rl_dev : devices s !! dev = Some d;
  rl_devices : devices s' = <[dev := dev_with_conns d (dev_num_connection d - 1)]> (devices s);
  rl_conns : connections s' = delete c (connections s);
  rl_next : next_request_id s' = next_request_id s;
  rl_case : dev_num_connection d = 1 /\ all_disk_list s' = list_del dev (all_disk_list s) /\ G = w ++ dev_pending d \/
    dev_num_connection d <> 1 /\ all_disk_list s' = all_disk_list s /\ G = w;
  rl_rqs k : blk_rqs s' !! k = if decide (k ∈ G) then None else blk_rqs s !! k;
  rl_pdus k : k ∉ G -> pdus s' !! k = pdus s !! k;
  rl_bufs : kbufs s' = kbufs s;
  rl_no_report k : k ∈ G -> ~ is_report (pdus s) k;
  rl_reports k r i : req_u r = UInt i -> pdus s' !! k = Some r <-> pdus s !! k = Some r;
  rl_trace x : tally (ev_starts x) (trace s') = tally (ev_starts x) (trace s) /\
     tally (ev_ends x) (trace s') = tally (ev_ends x) (trace s) + (if decide (x ∈ G) then 1 else 0) }.

Arguments rl_conn {s s' c dev w snd d G} _.
Arguments rl_dev {s s' c dev w snd d G} _.
Arguments rl_devices {s s' c dev w snd d G} _.
Arguments rl_conns {s s' c dev w snd d G} _.
Arguments rl_next {s s' c dev w snd d G} _.
Arguments rl_case {s s' c dev w snd d G} _.
Arguments rl_rqs {s s' c dev w snd d G} _ _.
Arguments rl_pdus {s s' c dev w snd d G} _ _.
Arguments rl_bufs {s s' c dev w snd d G} _.
Arguments rl_no_report {s s' c dev w snd d G} _ _ _.
Arguments rl_reports {s s' c dev w snd d G} _ _ _ _ _.
Arguments rl_trace {s s' c dev w snd d G} _ _.

Section released.
Context s s' (c dev : Z) (w : list Z) (snd : option Z) (d : bius_block_device) (G : list Z).
Hypothesis Hk : kinv s.
Hypothesis R : released s s' c dev w snd d G.
Hypothesis Hidle : idle_user c.
Hypothesis Hnobody : forall a k d', in_hand !! a = Some (k, Arriving d') -> d' <> dev.

Lemma released_listed : dev ∈ all_disk_list s.
Proof. exact (d_conn _ (k_devices _ Hk) _ _ dev (rl_conn R) eq_refl). Qed.
Lemma released_queues : queue s (Waiting c) = w /\ queue s (Pending dev) = dev_pending d.
Proof.
  split; [apply (waiting_queue s c _ (rl_conn R))|].
  apply pending_queue; [apply released_listed|apply R].
Qed.
Lemma released_size d' :
  Z.of_nat (size (conns_of (connections s') d'))
    = Z.of_nat (size (conns_of (connections s) d')) - (if decide (d' = dev) then 1 else 0).
Proof.
  assert (c ∈ conns_of (connections s) dev) as Hcin by (apply elem_of_conns_of; eexists; by split; [apply R|]).
  rewrite (rl_conns R), conns_of_delete. case_decide as Hd'.
  - subst d'. rewrite size_difference by set_solver. rewrite size_singleton.
    assert (size (conns_of (connections s) dev) <> O); [|lia].
    intros Hz. apply size_empty_inv in Hz. set_solver.
  - assert (c ∉ conns_of (connections s) d') as Hno.
    { rewrite elem_of_conns_of, (rl_conn R). naive_solver. }
    rewrite difference_disjoint by set_solver. lia.
Qed.
Lemma released_sub d' : d' ∈ all_disk_list s' -> d' ∈ all_disk_list s.
Proof.
  destruct (rl_case R) as [(_ & -> & _)|(_ & -> & _)]; [|done].
  by intros [? _]%elem_of_list_del.
Qed.
Lemma released_gone x : x ∈ G -> x ∈ w \/ x ∈ dev_pending d.
Proof. destruct (rl_case R) as [(_ & _ & ->)|(_ & _ & ->)]; [apply elem_of_app|tauto]. Qed.
Lemma released_waiting x : x ∈ w -> x ∈ G.
Proof. destruct (rl_case R) as [(_ & _ & ->)|(_ & _ & ->)]; [|done]. rewrite elem_of_app. tauto. Qed.

(** The lists of other owners hold none of the requests in [G]. *)
Lemma released_others o x : x ∈ queue s o -> o <> Waiting c -> o <> Pending dev -> x ∉ G.
Proof.
  pose proof (k_queues _ Hk) as Hq. destruct released_queues as [HW HP].
  intros Hx Hc Hd [Hxw|Hxp]%released_gone.
  - apply Hc. eapply (q_disj _ _ _ _ Hq); [exact Hx|]. by rewrite HW.
  - apply Hd. eapply (q_disj _ _ _ _ Hq); [exact Hx|]. by rewrite HP.
Qed.
Lemma released_pending x : x ∈ queue s' (Pending dev) <-> x ∈ queue s (Pending dev) /\ x ∉ G.
Proof.
  destruct released_queues as [HW HP]. pose proof released_listed as Hin. unfold queue at 1, queue_of.
  destruct (rl_case R) as [(_ & -> & HG)|(_ & -> & HG)].
  - rewrite decide_False by (rewrite elem_of_list_del; tauto).
    rewrite HP, HG, elem_of_app. split; [by intros ?%elem_of_nil|tauto].
  - rewrite decide_True, (rl_devices R), lookup_insert_eq by done.
    rewrite HP, HG. split; [|tauto]. intros Hx. split; [done|]. intros Hxw.
    assert (Pending dev = Waiting c); [|done].
    eapply (q_disj _ _ _ _ (k_queues _ Hk)); [by rewrite HP|by rewrite HW].
Qed.
Lemma released_queue o : o <> Waiting c -> o <> Pending dev -> queue s' o = queue s o.
Proof.
  destruct o as [d'|c'|a]; intros Hc Hd; unfold queue, queue_of; [| |done].
  - rewrite (rl_devices R), lookup_insert_ne by congruence. apply decide_ext.
    destruct (rl_case R) as [(_ & -> & _)|(_ & -> & _)]; [|done].
    rewrite elem_of_list_del. naive_solver.
  - by rewrite (rl_conns R), lookup_delete_ne by congruence.
Qed.
Lemma released_waits : queue s' (Waiting c) = [].
Proof. unfold queue, queue_of. by rewrite (rl_conns R), lookup_delete_eq. Qed.
Lemma released_members o x : x ∈ queue s' o <-> x ∈ queue s o /\ x ∉ G.
Proof.
  destruct (decide (o = Waiting c)) as [->|Hc].
  - rewrite released_waits. destruct released_queues as [-> _]. split; [by intros ?%elem_of_nil|].
    intros [Hx []]. by apply released_waiting.
  - destruct (decide (o = Pending dev)) as [->|Hd]; [apply released_pending|].
    rewrite released_queue by done. split; [|tauto]. intros Hx. split; [done|]. by eapply released_others.
Qed.
Lemma released_nodup o : NoDup (queue s' o).
Proof.
  destruct (decide (o = Waiting c)) as [->|Hc]; [rewrite released_waits; by apply NoDup_nil|].
  destruct (decide (o = Pending dev)) as [->|Hd].
  - unfold queue, queue_of. case_decide; [|by apply NoDup_nil].
    rewrite (rl_devices R), lookup_insert_eq. simpl.
    destruct released_queues as [_ <-]. apply (k_queues _ Hk).
  - rewrite released_queue by done. apply (k_queues _ Hk).
Qed.

Lemma released_disks x y : devices s' !! x = Some y -> exists y', devices s !! x = Some y' /\ dev_disk y' = dev_disk y.
Proof.
  rewrite (rl_devices R). destruct (decide (x = dev)) as [->|Hne].
  - rewrite lookup_insert_eq. intros [= <-]. exists d. by split; [apply R|].
  - rewrite lookup_insert_ne by done. eauto.
Qed.
(** The connection was the only one of a device that goes. *)
Lemma released_last c' v :
  dev_num_connection d = 1 -> connections s !! c' = Some v -> conn_block_dev v = Some dev -> c' = c.
Proof.
  intros Hone Hv Hvd. pose proof (rl_conn R) as Hc. pose proof (rl_dev R) as Hd.
  destruct (d_count _ (k_devices _ Hk) dev d released_listed Hd) as [Hnum _].
  assert (size (conns_of (connections s) dev) = 1%nat) as Hsz by lia.
  apply size_1_elem_of in Hsz as [x Hx].
  assert (c' ∈ conns_of (connections s) dev) as Hc' by (apply elem_of_conns_of; by eexists).
  assert (c ∈ conns_of (connections s) dev) as Hcin by (apply elem_of_conns_of; by eexists).
  rewrite Hx in Hc', Hcin. set_solver.
Qed.
Lemma released_dinv : dinv s'.
Proof.
  pose proof (k_devices _ Hk) as [N1 N2 N3 N4 N5]. pose proof (rl_conn R) as Hc. pose proof (rl_dev R) as Hd. pose proof (rl_devices R) as HD. pose proof (rl_conns R) as HC. pose proof (rl_case R) as Hcase. split.
  - destruct Hcase as [(_ & -> & _)|(_ & -> & _)]; [by apply NoDup_list_del|done].
  - intros d' Hd'. rewrite HD. destruct (decide (d' = dev)) as [->|Hne]; [by rewrite lookup_insert_eq|].
    rewrite lookup_insert_ne by done. by apply N2, released_sub.
  - intros c' v d' Hv Hvd. rewrite HC in Hv. apply lookup_delete_Some in Hv as [Hne Hv].
    destruct Hcase as [(H1n & -> & _)|(_ & -> & _)]; [|eauto]. apply elem_of_list_del. split; [eauto|].
    intros ->. apply Hne. symmetry. by eapply released_last.
  - intros d' v Hd' Hv. rewrite released_size. rewrite HD in Hv. destruct (decide (d' = dev)) as [->|Hne].
    + rewrite lookup_insert_eq in Hv. injection Hv as <-. kfields.
      destruct (N4 dev d released_listed Hd). destruct Hcase as [(_ & HL & _)|(? & _)]; [|lia].
      rewrite HL, elem_of_list_del in Hd'. tauto.
    + rewrite lookup_insert_ne in Hv by done. rewrite Z.sub_0_r. apply N4; [by apply released_sub|done].
  - intros d1 d2 v Hd1 Hd2 Hv Hnm. destruct (released_disks d1 v Hv) as (v' & Hv' & Ev).
    apply (N5 d1 d2 v'); [by apply released_sub|by apply released_sub|done|]. rewrite Ev.
    unfold named in *. destruct (devices s' !! d2) as [y|] eqn:Ey; [|done].
    destruct (released_disks d2 y Ey) as (y' & -> & ->). done.
Qed.
Lemma released_cinv : cinv s'.
Proof.
  pose proof (k_conns _ Hk) as [Hs Hi]. pose proof (rl_conns R) as HC. pose proof (rl_rqs R) as Hrq. pose proof (rl_pdus R) as Hps. split; intros c' v; rewrite HC.
  - intros k Hv Hk'. apply lookup_delete_Some in Hv as [Hne Hv].
    destruct (Hs c' v k Hv Hk') as (Hkw & r & b & rq & [] & Hxf). split; [done|].
    assert (k ∉ G) as HkG.
    { apply (released_others (Waiting c')); [|congruence|done]. by rewrite (waiting_queue s c' v Hv). }
    exists r, b, rq. split; [|done]. split; try done; [by rewrite Hps|]. rewrite Hrq. by rewrite decide_False.
  - intros Hv. apply lookup_delete_Some in Hv as [_ Hv]. eauto.
Qed.
Lemma released_tinv : tinv s'.
Proof.
  intros x. pose proof (rl_rqs R) as Hrq. pose proof (rl_trace R) as Htr. destruct (Htr x) as [-> ->]. rewrite Hrq.
  pose proof (k_trace _ Hk x) as Ht. destruct (decide (x ∈ G)) as [Hx|Hx]; [|lia].
  assert (exists o, x ∈ queue s o) as [o Ho].
  { destruct released_queues as [HW HP]. destruct (released_gone x Hx).
    - exists (Waiting c). by rewrite HW.
    - exists (Pending dev). by rewrite HP. }
  destruct (q_live _ _ _ _ o x (k_queues _ Hk) Ho (rl_no_report R x Hx)) as (r & b & rq & [] & _).
  rewrite (decide_True (P := is_Some (blk_rqs s !! x))) in Ht by (by eexists).
  rewrite (decide_False (P := is_Some None)) by (by intros []). lia.
Qed.
Lemma released_kinv : kinv s'.
Proof.
  pose proof (k_queues _ Hk) as Hq. pose proof (k_next _ Hk) as Hn. pose proof (rl_next R) as Hnid. pose proof (rl_rqs R) as Hrq. pose proof (rl_pdus R) as Hps. split.
  - rewrite Hnid. eapply (qinv_leave (queue s) _ _ _ _ _ _ G); [done|apply released_nodup|apply released_members|done|done].
  - by rewrite Hnid.
  - apply released_dinv.
  - apply released_cinv.
  - apply released_tinv.
  - rewrite (rl_bufs R). eapply rinv_same; [apply (k_reports _ Hk)|apply (rl_reports R)| |].
    + intros x _ Hx. rewrite Hrq, Hx. by case_decide.
    + intros x Hx. assert (x ∉ G) by (intros Hg; by apply (rl_no_report R x Hg)).
      split; intros [o Ho]; exists o; apply released_members in Ho || apply released_members; tauto.
  - eapply hinv_frame; [apply (k_hands _ Hk)| | |].
    + intros c' k h Hc'. rewrite (rl_conns R). rewrite lookup_delete_ne; [done|]. intros ->. unfold idle_user in Hidle. congruence.
    + intros a k d' Ha Hd'. destruct (rl_case R) as [(_ & -> & _)|(_ & -> & _)]; [|done].
      apply elem_of_list_del. split; [done|]. by eapply Hnobody.
    + intros a x Hx. assert (x ∉ G) by by eapply released_others.
      rewrite Hps, Hrq by done. by rewrite decide_False.
Qed.
End released.

Lemma idle_release_kinv s c :
  kinv s -> connections s !! c = Some (Connection None [] None) -> idle_user c -> kinv (set_conns (delete c) s).
Proof.
  intros [Hq Hn Hdi [Hs Hi] Ht Hrep Hh] Hc Hidle.
  assert (forall o, queue (set_conns (delete c) s) o = queue s o) as HQ.
  { intros o. unfold queue at 1; kfields. rewrite queue_of_conn_delete. case_decide as Ho; [|done].
    subst o. by rewrite (waiting_queue s c _ Hc). }
  split; kfields; try done.
  - by eapply qinv_ext.
  - destruct Hdi as [N1 N2 N3 N4 N5]. split; kfields; try done.
    + intros c' v d Hv. apply lookup_delete_Some in Hv as [_ Hv]. eauto.
    + intros d v Hd Hv. rewrite conns_of_delete. rewrite difference_disjoint; [eauto|].
      assert (c ∉ conns_of (connections s) d) by (rewrite elem_of_conns_of; naive_solver). set_solver.
  - split; kfields; intros c' v.
    + intros k Hv. apply lookup_delete_Some in Hv as [_ Hv]. eauto.
    + intros Hv. apply lookup_delete_Some in Hv as [_ Hv]. eauto.
  - by eapply rinv_ext.
  - eapply hinv_frame; [exact Hh| |done|done]. intros c' k h Hc'. kfields.
    rewrite lookup_delete_ne; [done|]. intros <-. unfold idle_user in Hidle. congruence.
Qed.

(** A device is found under its own name, the names being distinct. *)
Lemma find_own_name s dev d :
  dinv s -> dev ∈ all_disk_list s -> devices s !! dev = Some d ->
  head (filter (fun x => named s (gd_disk_name (dev_disk d)) x = true) (reverse (all_disk_list s))) = Some dev.
Proof.
  intros [_ _ _ _ N5] Hin Hd.
  assert (dev ∈ filter (fun x => named s (gd_disk_name (dev_disk d)) x = true) (reverse (all_disk_list s))) as Hf.
  { apply list_elem_of_filter. split; [|by apply elem_of_reverse]. unfold named. rewrite Hd. apply strncmp_eq_refl. }
  destruct (filter _ _) as [|x l] eqn:E; [by apply elem_of_nil in Hf|]. simpl. f_equal.
  assert (x ∈ filter (fun x => named s (gd_disk_name (dev_disk d)) x = true) (reverse (all_disk_list s))) as Hx
    by (rewrite E; by left).
  apply list_elem_of_filter in Hx as [Hx1 Hx2]. apply (N5 dev x d); try done. by apply elem_of_reverse.
Qed.

Lemma tally_failed l x :
  NoDup l ->
  tally (ev_starts x) ((fun k => EvEnd k BLK_STS_IOERR) <$> l) = 0 /\
  tally (ev_ends x) ((fun k => EvEnd k BLK_STS_IOERR) <$> l) = if decide (x ∈ l) then 1 else 0.
Proof.
  intros Hnd. destruct (tally_ends_concat (fun k => [EvEnd k BLK_STS_IOERR]) l x Hnd) as [Q1 Q2].
  { intros k _. simpl. destruct (decide (k = x)) as [->|Hne];
      [by rewrite decide_True|by rewrite decide_False by congruence]. }
  assert (concat ((fun k => [EvEnd k BLK_STS_IOERR]) <$> l) = (fun k => EvEnd k BLK_STS_IOERR) <$> l) as <-; [|done].
  clear. induction l as [|k l IH]; [done|]. rewrite !fmap_cons. cbn [concat]. by rewrite IH.
Qed.

(** The lists of the invariant are those the loops walk. *)
Definition holder (h : list_head) : owner :=
  match h with pending_requests d => Pending d | waiting_requests c => Waiting c end.
Lemma heads_queue s h : h ∈ list_heads s -> queue s (holder h) = on_list s h.
Proof.
  intros [(d & -> & Hd)%list_elem_of_fmap|(c & -> & _)%list_elem_of_fmap]%elem_of_app; cbn [holder on_list]; unfold queue, queue_of; [|done].
  by rewrite decide_True.
Qed.
Lemma kinv_linked_once s h : kinv s -> h ∈ list_heads s -> linked_once s h.
Proof.
  intros Hk Hh k h' Hkh Hh' Hkh'. rewrite <- heads_queue in Hkh, Hkh' by done.
  assert (holder h' = holder h) as E by by eapply (q_disj _ _ _ _ (k_queues _ Hk)).
  destruct h, h'; cbn in E; congruence.
Qed.
Lemma pending_head s d : d ∈ all_disk_list s -> pending_requests d ∈ list_heads s.
Proof. intros Hd. apply elem_of_app. left. apply list_elem_of_fmap. by exists d. Qed.
Lemma waiting_head s c v : connections s !! c = Some v -> waiting_requests c ∈ list_heads s.
Proof.
  intros Hc. apply elem_of_app. right. apply list_elem_of_fmap. exists c. split; [done|].
  apply list_elem_of_fmap. exists (c, v). split; [done|]. by apply elem_of_map_to_list.
Qed.
Lemma linked_once_same s s' h :
  (forall h', on_list s' h' = on_list s h') -> all_disk_list s' = all_disk_list s -> connections s' = connections s ->
  linked_once s h -> linked_once s' h.
Proof. intros Hl Ha Hc Hone k h' Hk Hin Hk'. rewrite Hl in Hk, Hk'. unfold list_heads in Hin. rewrite Ha, Hc in Hin. by eapply Hone. Qed.

Section closing.
Context s (c dev : Z) (w : list Z) (snd : option Z) (d : bius_block_device).
Hypothesis Hk : kinv s.
Hypothesis Hc : connections s !! c = Some (Connection (Some dev) w snd).
Hypothesis Hd : devices s !! dev = Some d.
Hypothesis Hnw : forall k, is_report (pdus s) k -> k ∉ queue s (Waiting c).
Hypothesis Hnp : forall k, is_report (pdus s) k -> dev_num_connection d = 1 -> k ∉ queue s (Pending dev).

(** The state once the waiting requests have ended and the device counts one
    connection less. *)
Definition closing_state : kstate :=
  set_devices <[dev := dev_with_conns d (dev_num_connection d - 1)]> (ended_all s w).

Lemma closing_listed : dev ∈ all_disk_list s.
Proof. exact (d_conn _ (k_devices _ Hk) _ _ dev Hc eq_refl). Qed.
Lemma closing_pending : queue s (Pending dev) = dev_pending d.
Proof. apply pending_queue; [apply closing_listed|done]. Qed.
Lemma closing_waiting : queue s (Waiting c) = w.
Proof. apply (waiting_queue s c _ Hc). Qed.
Lemma closing_count : 1 <= dev_num_connection d < 2 ^ 32.
Proof.
  clear Hnw Hnp.
  destruct (d_count _ (k_devices _ Hk) dev d closing_listed Hd) as [Hnum Hlt].
  assert (c ∈ conns_of (connections s) dev) by (apply elem_of_conns_of; by eexists).
  assert (size (conns_of (connections s) dev) <> O); [|lia]. intros Hz. apply size_empty_inv in Hz. set_solver.
Qed.
Lemma closing_waiting_nodup : NoDup w.
Proof. rewrite <- closing_waiting. apply (k_queues _ Hk). Qed.
Lemma closing_requests : Forall (fun k => exists r b rq, blk_request s k r b rq) w.
Proof.
  apply Forall_forall. intros k Hkw. rewrite <- closing_waiting in Hkw.
  destruct (q_live _ _ _ _ _ k (k_queues _ Hk) Hkw) as (r & b & rq & Hl & _); [intros Hrp; by apply (Hnw k)|].
  exists r, b, rq. by apply live_blk_request.
Qed.
Lemma closing_tally x :
  tally (ev_starts x) (trace (ended_all s w)) = tally (ev_starts x) (trace s) /\
  tally (ev_ends x) (trace (ended_all s w)) = tally (ev_ends x) (trace s) + (if decide (x ∈ w) then 1 else 0).
Proof.
  destruct (ended_all_spec w s closing_waiting_nodup closing_requests) as (_ & _ & _ & _ & _ & _ & ->).
  rewrite !tally_app.
  destruct (tally_ends_concat (fun k => match pdus s !! k with Some r => end_events k r BLK_STS_IOERR | None => [] end)
    w x closing_waiting_nodup) as [-> ->]; [|lia].
  intros k Hkw. pose proof closing_requests as Hall. rewrite Forall_forall in Hall.
  destruct (Hall k Hkw) as (r & b & rq & [-> _ _ _ _]). apply end_events_tally.
Qed.
Lemma closing_fields :
  all_disk_list closing_state = all_disk_list s /\ connections closing_state = connections s /\
  devices closing_state = <[dev := dev_with_conns d (dev_num_connection d - 1)]> (devices s) /\
  next_request_id closing_state = next_request_id s /\
  (forall k, blk_rqs closing_state !! k = if decide (k ∈ w) then None else blk_rqs s !! k) /\
  (forall k, k ∉ w -> pdus closing_state !! k = pdus s !! k).
Proof.
  destruct (ended_all_spec w s closing_waiting_nodup closing_requests) as (E1 & E2 & E3 & E4 & E5 & E6 & _).
  unfold closing_state; kfields. rewrite E2. by split_and!.
Qed.
Lemma closing_reports :
  kbufs closing_state = kbufs s /\
  forall k r i, req_u r = UInt i -> pdus closing_state !! k = Some r <-> pdus s !! k = Some r.
Proof. exact (ended_all_reports w s closing_waiting_nodup closing_requests). Qed.

(** Other connections stay: only the waiting requests have ended. *)
Lemma closing_keeps :
  dev_num_connection d <> 1 -> released s (set_conns (delete c) closing_state) c dev w snd d w.
Proof.
  intros Hn. destruct closing_fields as (EL & EC & ED & EN & ER & EP). split; kfields; try done.
  - by rewrite EC.
  - by right.
  - apply closing_reports.
  - rewrite <- closing_waiting. intros k Hk' Hrp. by apply (Hnw k).
  - apply closing_reports.
  - apply closing_tally.
Qed.

(** It was the last connection: the device goes, and what it had pending. *)
Lemma closing_disjoint x : x ∈ dev_pending d -> x ∉ w.
Proof.
  rewrite <- closing_pending, <- closing_waiting. intros Hx Hxw. assert (Pending dev = Waiting c); [|done].
  by eapply (q_disj _ _ _ _ (k_queues _ Hk)).
Qed.
Lemma closing_named x name : named closing_state name x = named s name x.
Proof.
  destruct closing_fields as (_ & _ & ED & _). unfold named. rewrite ED. destruct (decide (x = dev)) as [->|Hne].
  - by rewrite lookup_insert_eq, Hd.
  - by rewrite lookup_insert_ne.
Qed.
Lemma closing_all_live : all_live closing_state.
Proof.
  destruct closing_fields as (EL & _ & ED & _). unfold all_live. rewrite EL, ED. apply Forall_forall. intros x Hx.
  destruct (decide (x = dev)) as [->|Hne]; [by rewrite lookup_insert_eq|].
  rewrite lookup_insert_ne by done. by apply (d_devs _ (k_devices _ Hk)).
Qed.
Lemma closing_in_flight : dev_num_connection d = 1 -> in_flight closing_state (dev_pending d).
Proof.
  intros Hn.
  destruct closing_fields as (_ & _ & _ & _ & ER & _). apply Forall_forall. intros x Hx.
  rewrite ER, decide_False by (by apply closing_disjoint). rewrite <- closing_pending in Hx.
  destruct (q_live _ _ _ _ _ x (k_queues _ Hk) Hx) as (? & ? & ? & [] & _); [intros Hrp; by apply (Hnp x)|by eexists].
Qed.
Lemma closing_found : removes closing_state dev dev (dev_with_conns d (dev_num_connection d - 1)).
Proof.
  destruct closing_fields as (EL & EC & ED & EN & ER & EP).
  assert (devices closing_state !! dev = Some (dev_with_conns d (dev_num_connection d - 1))) as Hd'
    by (by rewrite ED, lookup_insert_eq).
  split; [apply closing_all_live| |done]. eexists. split; [done|]. cbn [dev_with_conns dev_disk].
  rewrite EL, (list_filter_iff _ (fun x => named s (gd_disk_name (dev_disk d)) x = true))
    by (intros x; by rewrite closing_named).
  apply find_own_name; [by apply k_devices|apply closing_listed|done].
Qed.
Lemma closing_linked : linked_once closing_state (pending_requests dev).
Proof.
  destruct closing_fields as (EL & EC & ED & EN & ER & EP).
  apply (linked_once_same s); [|done|done|apply kinv_linked_once; [done|apply pending_head, closing_listed]].
  intros [d'|c']; unfold on_list; rewrite ?ED, ?EC; [|done]. destruct (decide (d' = dev)) as [->|Hne].
  - by rewrite lookup_insert_eq, Hd.
  - by rewrite lookup_insert_ne.
Qed.
Lemma closing_removes :
  dev_num_connection d = 1 ->
  wp (remove_block_device dev)
    (fun _ s' => released s (set_conns (delete c) s') c dev w snd d (w ++ dev_pending d)) closing_state.
Proof.
  intros Hn. destruct closing_fields as (EL & EC & ED & EN & ER & EP).
  assert (NoDup (dev_pending d)) as Hndp by (rewrite <- closing_pending; apply (k_queues _ Hk)).
  eapply wp_intro.
  { apply (remove_block_device_spec dev dev (dev_with_conns d (dev_num_connection d - 1)));
      [apply closing_found|done|by apply closing_in_flight|apply closing_linked]. }
  split; kfields; try done.
  - by rewrite EC.
  - left. split_and!; [lia|by rewrite EL|done].
  - intros k. rewrite lookup_foldr_delete_list, ER. destruct (decide (k ∈ dev_pending d)) as [Hkp|Hkp].
    + rewrite decide_True; [done|]. apply elem_of_app. by right.
    + apply decide_ext. rewrite elem_of_app. tauto.
  - intros k Hkg. apply EP. intros Hkw. apply Hkg, elem_of_app. by left.
  - apply closing_reports.
  - intros k [Hkw|Hkp]%elem_of_app Hrp; [apply (Hnw k Hrp); by rewrite closing_waiting|].
    apply (Hnp k Hrp Hn). by rewrite closing_pending.
  - apply closing_reports.
  - intros x. change (trace closing_state) with (trace (ended_all s w)).
    rewrite !tally_app. destruct (closing_tally x) as [-> ->]. destruct (tally_failed (dev_pending d) x Hndp) as [-> ->].
    simpl. split; [lia|]. destruct (decide (x ∈ w)) as [Hxw|Hxw].
    + rewrite (decide_False (P := x ∈ dev_pending d)) by (intros ?; by eapply closing_disjoint).
      rewrite decide_True by (apply elem_of_app; by left). lia.
    + rewrite Z.add_0_r, Z.add_0_r. f_equal. apply decide_ext. rewrite elem_of_app. tauto.
Qed.
End closing.

(** Closing a connection to [dev]: it is gone, with its requests. *)
Lemma release_released s c dev w snd d :
  kinv s -> kop_ok s (OpRelease c) -> connections s !! c = Some (Connection (Some dev) w snd) -> devices s !! dev = Some d ->
  wp (bius_dev_release c) (fun _ s' => exists G, released s s' c dev w snd d G) s.
Proof.
  intros Hk [_ Hnr] Hc Hd. pose proof (closing_count s c dev w snd d Hk Hc Hd) as Hnum.
  assert (forall k, is_report (pdus s) k -> k ∉ queue s (Waiting c)) as Hnw by (intros k Hrp; by apply Hnr).
  assert (forall k, is_report (pdus s) k -> dev_num_connection d = 1 -> k ∉ queue s (Pending dev)) as Hnp.
  { intros k Hrp Hone. destruct (Hnr k Hrp) as [_ Hp]. apply (Hp dev d); [by rewrite Hc|done|done]. }
  unfold bius_dev_release, release_around. ksteps. cbn [conn_waiting conn_block_dev].
  eapply wp_intro; [apply (end_waiting_spec c (Connection (Some dev) w snd)); [done|by eapply closing_waiting_nodup
    |by eapply kinv_linked_once, waiting_head|by eapply closing_requests]|].
  cbn [conn_waiting]. ksteps.
  destruct (ended_all_spec w s) as (_ & E2 & _); [by eapply closing_waiting_nodup|by eapply closing_requests|].
  eapply wp_get_dev; [by rewrite E2|]. ksteps.
  assert (u32 (dev_num_connection d - 1) = dev_num_connection d - 1) as -> by (apply wrap_small; lia).
  destruct (Z.eqb_spec (dev_num_connection d - 1) 0) as [Hz|Hz].
  - eapply wp_mono; [apply (closing_removes s c dev w snd d); try done; lia|].
    intros [] s' HR. ksteps. by eexists.
  - ksteps. exists w. apply (closing_keeps s c dev w snd d); try done. lia.
Qed.

Lemma release_step s c :
  kinv s -> kop_ok s (OpRelease c) -> undisturbed s (OpRelease c) -> wp (run_kop (OpRelease c)) (fun _ s' => kinv s') s.
Proof.
  intros Hk Hop [Hidle Harr]. pose proof Hop as [[v Hc] _]. cbn [run_kop]. apply wp_bind. destruct v as [[dev|] w snd].
  - destruct (d_devs _ (k_devices _ Hk) dev (closing_listed s c dev w snd Hk Hc)) as [d Hd].
    assert (forall a k d', in_hand !! a = Some (k, Arriving d') -> d' <> dev) as Hnobody.
    { intros a k d' Ha ->. apply (Harr a k dev Ha). by rewrite Hc. }
    eapply wp_mono; [by eapply release_released|]. intros res s' [G HR]. apply wp_ret. by eapply released_kinv.
  - pose proof (idle_connection s c _ Hk Hc eq_refl) as E. injection E as -> ->.
    unfold bius_dev_release, release_around. ksteps. eapply wp_intro; [by eapply end_no_waiting|]. cbn [conn_block_dev]. ksteps.
    by apply idle_release_kinv.
Qed.

(** Any of them. *)
Lemma kop_step s op : kinv s -> kop_ok s op -> undisturbed s op -> safe (run_kop op) (fun _ s' => kinv s') s.
Proof.
  intros Hk Hop Hidle. destruct op.
  - by apply wp_safe, queue_step.
  - by apply wp_safe, report_step.
  - by apply return_step.
  - by apply wp_safe, open_step.
  - by apply read_step.
  - by apply wp_safe, write_step.
  - by apply wp_safe, release_step.
Qed.
End steps.
