(* ===== verification/System.v ===== *)
(** * The module as a system

    Requests arrive from blk-mq, processes open, read, write and close
    connections, the kernel asks for zone reports, in any order.  The states this
    reaches satisfy an invariant, and in them no operation faults and no request is
    lost or completed twice.  Where errors or removal meet a zone report the code is
    faulty, see [CharDevProps.v] and [BlockDev.v]: [kop_ok] leaves these cases out. *)
From S2P Require Import Prelude Protocol Linux Kernel Sample Command BlockDev CharDev CharDevProps Invariant StepsIO StepsReport StepsDev.

(** Each operation runs to its end: nobody has a request in hand. *)
#[local] Instance nobody : hands := (∅ : gmap actor (Z * hand)).

Section system.
Context `{BL : BioLaws} `{IL : IovLaws} `{LCL : LinuxConstLaws}.
Implicit Types s : kstate.

(** ** Reachable states *)
Definition initial_kernel : kstate := KState 0 ∅ ∅ ∅ [] ∅ ∅ ∅ [].

Inductive kreachable : kstate -> Prop :=
  | kr_init : kreachable initial_kernel
  | kr_step s op a s' : kreachable s -> kop_ok s op -> run_kop op s = Ret (a, s') -> kreachable s'.

Lemma initial_kinv : kinv initial_kernel.
Proof.
  assert (forall o, queue initial_kernel o = []) as HQ by (by intros [d|c|a]).
  split; [|done| | |done|by split; intros k; intros; try intros (? & ? & ? & _)|done].
  - split.
    + intros o. rewrite HQ. by apply NoDup_nil.
    + intros o1 o2 k. rewrite HQ. by intros ?%elem_of_nil.
    + intros o k. rewrite HQ. by intros ?%elem_of_nil.
    + intros o k. rewrite HQ. by intros ?%elem_of_nil.
    + intros k [r Hr]. done.
    + intros o1 o2 k1 k2 r1 r2. rewrite HQ. by intros ?%elem_of_nil.
  - split; simpl; try (intros d Hd; by apply elem_of_nil in Hd); [by apply NoDup_nil| | |];
      intros x y; intros; by set_solver.
  - by split.
Qed.

Lemma step_safe s op : kinv s -> kop_ok s op -> safe (run_kop op) (fun _ s' => kinv s') s.
Proof. intros Hk Hop. apply kop_step; [done..|]. by destruct op. Qed.
Lemma reachable_kinv s : kreachable s -> kinv s.
Proof.
  induction 1 as [|s op a s' _ IH Hop Hrun]; [apply initial_kinv|].
  pose proof (step_safe s op IH Hop) as Hs. unfold safe in Hs. by rewrite Hrun in Hs.
Qed.

(** C2: Every state that the module reaches by operations that satisfy [kop_ok] (requests of
    the protocol's operations, with their data; devices created without error and under a
    name no other has; replies to zone reports that fit; no zone report killed, failed or
    closed before it is answered; ids and connection counts that do not wrap) satisfies the
    system invariant: each request in flight is on exactly one list, once, with an id of its
    own; what a connection sends it is waiting for, with the rest of its payload ahead;
    every connected device is listed and counts its connections. *)
Theorem system_invariant s : kreachable s -> kinv s.
Proof. apply reachable_kinv. Qed.

(** C3: In a state reached by operations that satisfy [kop_ok] no further operation that
    does so faults, whatever bytes the user process hands over: no dangling request, device
    or connection is used and no union is misread. Where [kop_ok] fails the code does fault:
    see the theorems on failed creations, zone reports that are too large, killed, failed or
    removed, and [Races.v]. The name that [unregister_blkdev] reads after [put_disk] is an
    event of the trace, not a fault. (A read with nothing to read sleeps.) *)
Theorem system_no_fault s op f : kreachable s -> kop_ok s op -> run_kop op s <> Fault f.
Proof.
  intros Hs Hop Hf. pose proof (step_safe s op (reachable_kinv s Hs) Hop) as Hsafe.
  unfold safe in Hsafe. by rewrite Hf in Hsafe.
Qed.

(** The reporter of [k] has no answer. *)
Definition unanswered s (k : Z) : Prop :=
  exists r i, pdus s !! k = Some r /\ req_u r = UInt i /\ i_int_result i = None.

(** C4: No request is lost and none completes twice, as long as the operations satisfy
    [kop_ok] and run one after the other: in a state so reached a request has been ended as
    often as it was started, except for one start while it is in flight; and the requests in
    flight, with the zone reports that have no answer, are those that a list holds, each on
    one list only and once. *)
Theorem requests_end_once s k :
  kreachable s ->
  tally (ev_starts k) (trace s)
    = tally (ev_ends k) (trace s) + (if decide (is_Some (blk_rqs s !! k)) then 1 else 0) /\
  (is_Some (blk_rqs s !! k) \/ unanswered s k <-> exists o, k ∈ queue s o) /\
  (forall o1 o2, k ∈ queue s o1 -> k ∈ queue s o2 -> o1 = o2) /\ (forall o, NoDup (queue s o)).
Proof.
  intros Hs. destruct (reachable_kinv s Hs) as [Hq _ _ _ Ht Hrep _].
  split; [apply Ht|]. split; [|split; [intros o1 o2; apply (q_disj _ _ _ _ Hq)|apply (q_nodup _ _ _ _ Hq)]]. split.
  - intros [Hin|(r & i & Hr & Hu & Hn)]; [by apply (q_all _ _ _ _ Hq)|].
    destruct (r_phase _ _ _ _ Hrep k r i Hr Hu) as [(_ & _ & ?)|[[_ (v & Hv & _)] _]]; [done|congruence].
  - intros [o Ho]. destruct (q_listed _ _ _ _ Hq o k Ho) as [(r & i & Hr & Hu)|(r & b & rq & [] & _)]; [right|left; by eexists].
    exists r, i. split_and!; [done|done|].
    destruct (r_phase _ _ _ _ Hrep k r i Hr Hu) as [(_ & ? & _)|[_ Hno]]; [done|by destruct (Hno o)].
Qed.

(** C17: A zone report that nobody kills sleeps exactly while a list of the module holds its
    request.  Once it has been answered it returns, killed or not, and its stack frame and
    its buffer are gone, but no list and no other report points to them.  If it is killed
    before, it returns all the same, and leaves a list with a pointer into its stack. *)
Theorem report_returns_when_answered s nr blkz k cb :
  kreachable s -> kop_ok s (OpReturn false nr blkz k cb) ->
  (run_kop (OpReturn false nr blkz k cb) s = NoFuel <-> exists o, k ∈ queue s o) /\
  (forall killed, (forall o, k ∉ queue s o) -> exists s',
     run_kop (OpReturn killed nr blkz k cb) s = Ret (tt, s') /\ (exists m, s' = returned s k blkz m) /\
     pdus s' !! k = None /\ kbufs s' !! blkz = None /\ (forall o, k ∉ queue s' o) /\
     forall x r i, pdus s' !! x = Some r -> req_u r = UInt i -> i_data i <> blkz) /\
  (forall o, k ∈ queue s o -> exists s',
     run_kop (OpReturn true nr blkz k cb) s = Ret (tt, s') /\ pdus s' !! k = None /\ kbufs s' !! blkz = None /\ k ∈ queue s' o).
Proof.
  intros Hs Hop. pose proof (reachable_kinv s Hs) as Hk. pose proof Hop as ((r & i & Hr & Hu & Hnr & Hblkz) & Hcb & _).
  assert (forall killed o, k ∈ queue s o -> down_killable killed k s = if killed then Ret (- EINTR, s) else NoFuel) as Hsleep.
  { intros killed o Ho. destruct (r_phase _ _ _ _ (k_reports _ Hk) k r i Hr Hu) as [(Hsem & _)|[_ Hno]]; [|by destruct (Hno o)].
    by rewrite (down_spec killed k s r i Hr Hu), Hsem. }
  split_and!.
  - split.
    + intros Hf. destruct (r_phase _ _ _ _ (k_reports _ Hk) k r i Hr Hu) as [(_ & _ & ?)|[[Hsem (v & Hv & Hle)] _]]; [done|].
      rewrite <- Hnr in *. pose proof (return_answered s false (req_length r) blkz k cb r i v Hcb Hr Hu Hsem Hv Hle) as Hwp.
      unfold wp in Hwp. by rewrite Hf in Hwp.
    + intros [o Ho]. cbn [run_kop]. unfold mbind, ST_bind. by rewrite (Hsleep false o Ho).
  - intros killed Hno. destruct (r_phase _ _ _ _ (k_reports _ Hk) k r i Hr Hu) as [(_ & _ & o & Ho)|[[Hsem (v & Hv & Hle)] _]]; [by destruct (Hno o)|].
    rewrite <- Hnr in *. destruct (wp_inv _ _ _ (return_answered s killed (req_length r) blkz k cb r i v Hcb Hr Hu Hsem Hv Hle)) as ([] & s' & Hrun & m & ->).
    eexists. split; [exact Hrun|]. split; [by exists m|]. unfold returned; kfields.
    split_and!; [apply lookup_delete_eq|apply lookup_delete_eq|exact Hno|].
    intros x r' j Hx Hj Heq. apply lookup_delete_Some in Hx as [Hne Hx]. apply Hne.
    eapply (r_bufs _ _ _ _ (k_reports _ Hk)); [exact Hr|exact Hu|exact Hx|exact Hj|congruence].
  - intros o Ho. eexists. split.
    { cbn [run_kop]. unfold mbind at 1, ST_bind at 1. rewrite (Hsleep true o Ho). reflexivity. }
    kfields. split_and!; [apply lookup_delete_eq|apply lookup_delete_eq|exact Ho].
Qed.

(** A read sleeps only when its connection has nothing to send and its device
    nothing pending. *)
Lemma read_sleeps_only_when_idle s c pad1 pad2 to :
  kreachable s -> kop_ok s (OpRead c pad1 pad2 to) -> run_kop (OpRead c pad1 pad2 to) s = NoFuel ->
  exists dev w, connections s !! c = Some (Connection (Some dev) w None) /\ queue s (Pending dev) = [].
Proof.
  intros Hs ([v Hc] & Hp1 & Hp2 & Hrep) Hsleep. pose proof (reachable_kinv s Hs) as Hk.
  pose proof Hk as [Hq _ Hdi [Hsd Hi] _ _ _]. cbn [run_kop] in Hsleep. unfold mbind, ST_bind in Hsleep.
  destruct v as [[dev|] w [k|]].
  - exfalso. destruct (Hsd c _ k Hc eq_refl) as (Hkw & r & b & rq & Hl & Hxf). pose proof Hl as [Hr Hu _ Hrq _ _ Hum].
    assert (sending s c dev w k r b rq) as Hsend by done.
    pose proof (read_payload_spec pad1 pad2 [] to s c dev w k r b rq Hsend) as Hwp.
    destruct (wp_inv _ _ _ Hwp) as (res & s' & Hrun & _). by rewrite Hrun in Hsleep.
  - exists dev, w. split; [done|]. destruct (d_devs _ Hdi dev (d_conn _ Hdi _ _ dev Hc eq_refl)) as [d Hd].
    rewrite (pending_queue s dev d) by (done || by apply (d_conn _ Hdi _ _ dev Hc eq_refl)).
    destruct (dev_pending d) as [|k rest] eqn:Hp; [done|]. exfalso.
    destruct (Z.lt_ge_cases (iov_iter_count to) sizeof_k2u) as [Hlt|Hge].
    { rewrite (bius_dev_read_refused pad1 pad2 [] to s c _ Hc) in Hsleep by (by right). done. }
    assert (k ∈ queue s (Pending dev)) as Hkq.
    { rewrite (pending_queue s dev d) by (done || by apply (d_conn _ Hdi _ _ dev Hc eq_refl)).
      rewrite Hp. by left. }
    destruct (q_id _ _ _ _ Hq _ k Hkq) as (r & Hr & _).
    assert (ready_to_read s c dev w d k rest r) as Hrd by by apply kinv_ready.
    assert (wp (bius_dev_read c pad1 pad2 [] to) (fun _ _ => True) s) as Hwp; cycle 1.
    { destruct (wp_inv _ _ _ Hwp) as (res & s' & Hrun & _). by rewrite Hrun in Hsleep. }
    pose proof (iov_avail_range to). destruct (decide (iov_avail to = 0)) as [Hz|Hz].
    + destruct (q_listed _ _ _ _ Hq _ k Hkq) as [Hrp|(r' & b & rq & Hl & _)].
      { assert (report_next s c) as Hnext by (by exists dev, w, d, k, rest). specialize (Hrep Hnext). lia. }
      assert (r' = r) as -> by (destruct Hl; congruence).
      eapply wp_mono; [eapply read_fails_spec; eauto using live_blk_request|done].
    + eapply dev_read_run; [exact Hrd|lia|].
      eapply wp_mono; [eapply (read_dispatch_spec pad1 pad2 to s c dev w d k rest r); try done; lia|done].
  - by destruct (Hi c _ Hc eq_refl).
  - rewrite (bius_dev_read_refused pad1 pad2 [] to s c _ Hc) in Hsleep by (by left). done.
Qed.
End system.

(** ** A concrete run *)
Definition after `{BioOps} `{IovOps} `{LinuxConst} (op : kop) (s : kstate) : kstate :=
  match run_kop op s with Ret (_, s') => s' | _ => s end.
Definition runs `{BioOps} `{IovOps} `{LinuxConst} (op : kop) (s : kstate) : bool :=
  match run_kop op s with Ret _ => true | _ => false end.
Lemma kreachable_after `{BioLaws} `{IovLaws} `{LinuxConstLaws} (op : kop) s :
  kreachable s -> kop_ok s op -> runs op s = true -> kreachable (after op s).
Proof.
  intros Hs Hop Hrun. unfold runs, after in *. destruct (run_kop op s) as [[[] s']| |] eqn:E; [|done|done].
  by eapply kr_step.
Qed.

(** A process opens [/dev/bius] and creates a device; a write of nine bytes
    arrives, is read with its payload, and is answered. *)
Definition run_create : @kop seg_bio ubuf_iov :=
  OpWrite (user_buffer 1000 (options_bytes (named_options [98; 49]))) (good_env 101) 200 []
    (reply_buf (u2k_with_type 0 (bius_req_value BIUS_CREATE) 2 1000)).
Definition run_queue : @kop seg_bio ubuf_iov := OpQueue 101 7 (sample_rq 1).
Definition run_read : @kop seg_bio ubuf_iov := OpRead 200 sample_pad sample_pad (sample_buf 57 57 []).
Definition run_reply : @kop seg_bio ubuf_iov :=
  OpWrite (user_buffer 0 []) (good_env 102) 200 [] (reply_buf (u2k_with_reply 1 0 0)).
Definition run_idle : @kstate seg_bio := after run_create (after (OpOpen 200) initial_kernel).
Definition run_sent : @kstate seg_bio := after run_read (after run_queue run_idle).
Definition run_done : @kstate seg_bio := after run_reply run_sent.

Definition no_reports (s : @kstate seg_bio) : Prop :=
  map_Forall (fun _ r => match req_u r with UBlk _ => true | UInt _ => false end = true) (pdus s).
Lemma no_reports_none s k r i : no_reports s -> pdus s !! k = Some r -> req_u r <> UInt i.
Proof. intros Hs Hr Hu. pose proof (Hs k r Hr) as H. simpl in H. by rewrite Hu in H. Qed.
Lemma no_reports_is s k : no_reports s -> ~ is_report (pdus s) k.
Proof. intros Hs (r & i & Hr & Hu). by eapply no_reports_none. Qed.

Lemma run_idle_reachable : kreachable run_idle.
Proof.
  apply kreachable_after; [apply kreachable_after; [apply kr_init|reflexivity|reflexivity]| |by vm_compute].
  split_and!; [by eexists| | |].
  - intros _ _. split_and!; [done|by intros dev [= <-]|by intros d Hd%elem_of_nil].
  - intros d v Hd. vm_compute in Hd. done.
  - intros k r i Hr Hu. destruct (no_reports_none (after (OpOpen 200) initial_kernel) k r i); [by apply (bool_decide_unpack _); vm_compute|done|done].
Qed.
Lemma run_queued_reachable : kreachable (after run_queue run_idle).
Proof.
  apply kreachable_after; [apply run_idle_reachable| |by vm_compute].
  split_and!; [done|apply no_reports_is; by apply (bool_decide_unpack _); vm_compute
    |apply (bool_decide_unpack _); by vm_compute| |done].
  split; [done|]. intros _. split_and!; [done| |done|done]. repeat constructor.
Qed.
Lemma run_sent_reachable : kreachable run_sent.
Proof.
  apply kreachable_after; [apply run_queued_reachable| |by vm_compute].
  split_and!; [by eexists|done|done|]. intros _. by vm_compute.
Qed.
Lemma run_reply_ok : kop_ok run_sent run_reply.
Proof.
  split_and!; [by eexists| | |].
  - intros Hc. exfalso. by vm_compute in Hc.
  - intros d v Hd. assert (map_Forall (fun _ v => dev_num_connection v + 1 < 2 ^ 32) (devices run_sent)) as Hall.
    { apply (bool_decide_unpack _). by vm_compute. }
    by apply (Hall d v).
  - intros k r i Hr Hu. destruct (no_reports_none run_sent k r i); [by apply (bool_decide_unpack _); vm_compute|done|done].
Qed.
Lemma run_done_reachable : kreachable run_done.
Proof. apply kreachable_after; [apply run_sent_reachable|apply run_reply_ok|by vm_compute]. Qed.

Lemma system_invariant_witness : kinv run_done.
Proof. apply (system_invariant run_done), run_done_reachable. Defined.

Lemma system_no_fault_witness : run_kop run_reply run_sent <> Fault DanglingPtr.
Proof. apply (system_no_fault run_sent run_reply DanglingPtr); [apply run_sent_reachable|apply run_reply_ok]. Defined.

Lemma requests_end_once_witness :
  tally (ev_starts 7) (trace run_done) = 1 /\ tally (ev_ends 7) (trace run_done) = 1 /\
  (tally (ev_ends 7) (trace run_sent) = 0 /\ exists o, 7 ∈ queue run_sent o).
Proof.
  destruct (requests_end_once run_done 7 run_done_reachable) as [Hd _].
  destruct (requests_end_once run_sent 7 run_sent_reachable) as [Hs [Ho _]].
  split_and!; [by vm_compute|by vm_compute|by vm_compute|].
  apply Ho. left. apply (bool_decide_unpack _). by vm_compute.
Defined.

(** The kernel asks for two zones; the driver answers with one, and is read from
    [/dev/bius] and answered before the report returns. *)
Definition run_report : @kop seg_bio ubuf_iov := OpReport 101 0 2 5000 300.
Definition run_report_read : @kop seg_bio ubuf_iov := OpRead 200 sample_pad sample_pad (sample_buf 57 57 []).
Definition run_report_reply : @kop seg_bio ubuf_iov :=
  OpWrite (user_buffer 9000 (replicate 64 7)) (good_env 102) 200 [] (reply_buf (u2k_with_reply 1 64 9000)).
Definition run_return : @kop seg_bio ubuf_iov := OpReturn false 2 5000 300 (fun _ _ => mret 0).
Definition run_reporting : @kstate seg_bio := after run_report_read (after run_report run_idle).
Definition run_reported : @kstate seg_bio := after run_report_reply run_reporting.

Lemma run_reporting_reachable : kreachable run_reporting.
Proof.
  apply kreachable_after; [apply kreachable_after; [apply run_idle_reachable| |by vm_compute]| |by vm_compute].
  - split_and!; [by vm_compute..|apply (bool_decide_unpack _); by vm_compute|done|done].
  - split_and!; [by eexists|done|done|]. intros _. by vm_compute.
Qed.
(** The only pdu is the report's. *)
Lemma run_reporting_pdu k r i :
  pdus run_reporting !! k = Some r -> req_u r = UInt i -> k = 300 /\ req_length r = 2.
Proof.
  intros Hr _. assert (map_Forall (fun k r => k = 300 /\ req_length r = 2) (pdus run_reporting)) as Hall.
  { apply (bool_decide_unpack _). by vm_compute. }
  by apply (Hall k r).
Qed.
Lemma run_reported_reachable : kreachable run_reported.
Proof.
  apply kreachable_after; [apply run_reporting_reachable| |by vm_compute]. split_and!; [by eexists| | |].
  - intros Hc. exfalso. by vm_compute in Hc.
  - intros d v Hd. assert (map_Forall (fun _ v => dev_num_connection v + 1 < 2 ^ 32) (devices run_reporting)) as Hall.
    { apply (bool_decide_unpack _). by vm_compute. }
    by apply (Hall d v).
  - intros k r i Hr Hu _. destruct (run_reporting_pdu k r i Hr Hu) as [_ ->].
    assert (u2k_reply (written_header [] (reply_buf (u2k_with_reply 1 64 9000))) = 64) as -> by (by vm_compute).
    unfold sizeof_blk_zone. lia.
Qed.
Lemma run_return_ok s :
  (exists r i, pdus s !! 300 = Some r /\ req_u r = UInt i /\ req_length r = 2 /\ i_data i = 5000) -> kop_ok s run_return.
Proof. intros Hr. split_and!; [done| |done]. intros z i t. apply wp_ret. exists (kmem t). by destruct t. Qed.

(** Asleep, answered, and killed while the connection waits for its answer. *)
Lemma report_returns_when_answered_witness :
  run_kop run_return run_reporting = NoFuel /\
  (exists m, run_kop run_return run_reported = Ret (tt, returned run_reported 300 5000 m)) /\
  exists s', run_kop (OpReturn true 2 5000 300 (fun _ _ => mret 0)) run_reporting = Ret (tt, s') /\
    pdus s' !! 300 = None /\ 300 ∈ queue s' (Waiting 200).
Proof.
  assert (300 ∈ queue run_reporting (Waiting 200)) as Hq by (apply (bool_decide_unpack _); by vm_compute).
  destruct (report_returns_when_answered run_reporting 2 5000 300 (fun _ _ => mret 0) run_reporting_reachable) as (Hs & _ & Hkill).
  { apply run_return_ok. eexists _, _. split_and!; [by vm_compute|done|done|done]. }
  destruct (report_returns_when_answered run_reported 2 5000 300 (fun _ _ => mret 0) run_reported_reachable) as (Hw & Hr & _).
  { apply run_return_ok. eexists _, _. split_and!; [by vm_compute|done|done|done]. }
  split; [|split].
  - apply Hs. by exists (Waiting 200).
  - destruct (Hr false) as (s' & Hrun & (m & ->) & _); [|by exists m].
    intros o Ho. assert (run_kop run_return run_reported <> NoFuel) as Hne by (by vm_compute).
    apply Hne, Hw. by exists o.
  - destruct (Hkill (Waiting 200) Hq) as (s' & Hrun & Hp & _ & Hin). exists s'. split; [exact Hrun|]. split; [exact Hp|exact Hin].
Defined.
