(* ===== verification/Wakeups.v ===== *)
(** * Wake-ups

    A read of [/dev/bius] with nothing to do sleeps on the wait queue of its device,
    exclusively: a wake-up takes one reader off the queue.  Whatever joins a pending list
    wakes a reader, and so no request is left pending while readers sleep on. *)
From S2P Require Import Prelude Protocol Linux Kernel Sample Command BlockDev CharDev CharDevProps Invariant StepsIO StepsReport StepsDev System.

Create HintDb wakes.
#[local] Existing Instance nobody.

Section wakeups.
Context `{BL : BioLaws} `{IL : IovLaws} `{LCL : LinuxConstLaws}.
Implicit Types s : kstate.

(** ** What an operation announces *)
Definition npending s (d : Z) : nat := length (on_list s (pending_requests d)).
Definition wakes (d : Z) (evs : list kevent) : nat := length (filter (fun e => e = EvWakeUp d) evs).
Lemma wakes_app d evs evs' : wakes d (evs ++ evs') = (wakes d evs + wakes d evs')%nat.
Proof. unfold wakes. by rewrite filter_app, length_app. Qed.

Lemma wakes_one d x : wakes x [EvWakeUp d] = if decide (x = d) then 1%nat else 0%nat.
Proof.
  unfold wakes. rewrite filter_cons, filter_nil. destruct (decide (x = d)) as [->|Hne]; [by rewrite decide_True|].
  by rewrite decide_False by congruence.
Qed.

(** From [s0] to [s], run by the user of connection [c]: pending lists grow at most as much as
    wake-ups were sent, and the connections of others are as they were. *)
Record announced (c : option Z) s0 s : Prop := {
  an_trace : exists evs, trace s = trace s0 ++ evs /\ forall d, (npending s d <= npending s0 d + wakes d evs)%nat;
  an_conns : forall c', c <> Some c' -> connections s !! c' = connections s0 !! c' }.

Context (c : option Z) (s0 : kstate).
Abbreviation ann := (announced c s0).

Lemma an_refl : ann s0.
Proof. split; [|done]. exists []. rewrite app_nil_r. split; [done|]. intros d. cbn. lia. Qed.
Lemma an_same s s' : devices s' = devices s -> connections s' = connections s -> trace s' = trace s -> ann s -> ann s'.
Proof.
  intros HD HC HT [(evs & Ht & Hn) Hc]. split.
  - exists evs. rewrite HT. split; [done|]. intros d. unfold npending, on_list in *. rewrite HD. apply Hn.
  - by rewrite HC.
Qed.
Lemma an_emit s e : ann s -> ann (emit_event e s).
Proof.
  intros [(evs & Ht & Hn) Hc]. split; [|exact Hc]. exists (evs ++ [e]). kfields. rewrite Ht, <- app_assoc.
  split; [done|]. intros d. specialize (Hn d). rewrite wakes_app. unfold npending, on_list in *. kfields. lia.
Qed.
Lemma an_pdus s f : ann s -> ann (set_pdus f s).
Proof. by apply an_same. Qed.
Lemma an_rqs s f : ann s -> ann (set_blk_rqs f s).
Proof. by apply an_same. Qed.
Lemma an_next s f : ann s -> ann (set_next_id f s).
Proof. by apply an_same. Qed.
Lemma an_disks s f : ann s -> ann (set_disk_list f s).
Proof. by apply an_same. Qed.
Lemma an_kmem s f : ann s -> ann (set_kmem f s).
Proof. by apply an_same. Qed.
Lemma an_kbufs s f : ann s -> ann (set_kbufs f s).
Proof. by apply an_same. Qed.
Lemma npending_put s d v x :
  npending (set_devices <[d := v]> s) x = if decide (x = d) then length (dev_pending v) else npending s x.
Proof.
  unfold npending, on_list; kfields. destruct (decide (x = d)) as [->|Hne].
  - by rewrite lookup_insert_eq.
  - by rewrite lookup_insert_ne.
Qed.
Lemma an_put_dev s d v : (length (dev_pending v) <= npending s d)%nat -> ann s -> ann (set_devices <[d := v]> s).
Proof.
  intros Hle [(evs & Ht & Hn) Hc]. split; [|exact Hc]. exists evs. split; [exact Ht|]. intros x. rewrite npending_put.
  case_decide as Hx; [subst x|apply Hn]. specialize (Hn d). lia.
Qed.
Lemma an_put_conn s c' v : c = Some c' -> ann s -> ann (set_conns <[c' := v]> s).
Proof.
  intros Hc [Ht Hcs]. split; [exact Ht|]. intros x Hx. kfields. rewrite lookup_insert_ne by congruence. by apply Hcs.
Qed.
Lemma an_del_conn s c' : c = Some c' -> ann s -> ann (set_conns (delete c') s).
Proof.
  intros Hc [Ht Hcs]. split; [exact Ht|]. intros x Hx. kfields. rewrite lookup_delete_ne by congruence. by apply Hcs.
Qed.
(** A request joins the pending list, and a reader is woken. *)
Lemma an_push s d v k :
  devices s !! d = Some v -> ann s ->
  ann (emit_event (EvWakeUp d) (set_devices <[d := dev_with_pending v (dev_pending v ++ [k])]> s)).
Proof.
  intros Hv [(evs & Ht & Hn) Hc]. split; [|exact Hc]. exists (evs ++ [EvWakeUp d]). kfields. rewrite Ht, <- app_assoc.
  split; [done|]. intros x. specialize (Hn x). rewrite wakes_app.
  change (npending (emit_event (EvWakeUp d) (set_devices <[d := dev_with_pending v (dev_pending v ++ [k])]> s)) x)
    with (npending (set_devices <[d := dev_with_pending v (dev_pending v ++ [k])]> s) x).
  rewrite npending_put, wakes_one. case_decide as Hx; [|lia]. subst x. unfold npending at 1, on_list in Hn. rewrite Hv in Hn.
  cbn [from_option default] in Hn. kfields. rewrite length_app. cbn [length]. lia.
Qed.
Lemma an_put_dev_same s d v v' :
  devices s !! d = Some v -> (length (dev_pending v') <= length (dev_pending v))%nat -> ann s -> ann (set_devices <[d := v']> s).
Proof. intros Hv Hle. apply an_put_dev. unfold npending, on_list. by rewrite Hv. Qed.
Lemma an_put_dev_conns s d v n : devices s !! d = Some v -> ann s -> ann (set_devices <[d := dev_with_conns v n]> s).
Proof. intros Hv. by apply (an_put_dev_same s d v). Qed.
Lemma an_put_dev_new s d m g b n : ann s -> ann (set_devices <[d := BlockDevice m g b n []]> s).
Proof. apply an_put_dev. cbn. lia. Qed.
End wakeups.

#[export] Hint Resolve an_emit an_pdus an_rqs an_next an_disks an_kmem an_kbufs an_put_dev_conns an_put_dev_new : wakes.
#[export] Hint Extern 5 (announced _ _ (set_conns <[_ := _]> _)) => apply an_put_conn; [reflexivity|] : wakes.
#[export] Hint Extern 5 (announced _ _ (set_conns (delete _) _)) => apply an_del_conn; [reflexivity|] : wakes.

(** Step through a computation; what the hints know of its parts stands in for them. *)
Ltac wake_steps :=
  repeat (ksteps; try lazymatch goal with
    | |- wlp (fail _) _ _ => apply wlp_fail
    | |- wlp exhausted _ _ => exact I
    | |- wlp (if ?b then _ else _) _ _ => destruct b
    | |- wlp (match ?x with _ => _ end) _ _ => destruct x
    | |- wlp _ _ _ => eapply wlp_mono; [solve [eauto 12 with wakes]|let Hn := fresh "Hn" in intros ? ? Hn; cbv beta in Hn |- *]
    end).

Section operations.
Context `{BL : BioLaws} `{IL : IovLaws} `{LCL : LinuxConstLaws} (s0 : kstate).
Implicit Types s : kstate.
Abbreviation tells c m := (forall s, announced c s0 s -> wlp m (fun _ s' => announced c s0 s') s).

(** ** Ending and finding requests *)
Lemma mq_end_tells c k z : tells c (blk_mq_end_request k z).
Proof. intros s Hs. unfold blk_mq_end_request. wake_steps. eauto with wakes. Qed.
#[local] Hint Resolve mq_end_tells : wakes.
Lemma blk_end_tells c k : tells c (bius_blk_request_end k).
Proof. intros s Hs. unfold bius_blk_request_end. wake_steps; eauto with wakes. Qed.
Lemma zones_end_tells c k : tells c (bius_report_zones_request_end k).
Proof. intros s Hs. unfold bius_report_zones_request_end. wake_steps. eauto with wakes. Qed.
#[local] Hint Resolve blk_end_tells zones_end_tells : wakes.
Lemma on_end_tells c k : tells c (on_request_end k).
Proof. intros s Hs. unfold on_request_end. wake_steps; eauto with wakes. Qed.
#[local] Hint Resolve on_end_tells : wakes.
Lemma end_blk_tells c k z : tells c (end_blk_request k z).
Proof. intros s Hs. unfold end_blk_request. wake_steps; eauto 8 with wakes. Qed.
Lemma end_int_tells c k z : tells c (end_request_int k z).
Proof. intros s Hs. unfold end_request_int. wake_steps. eauto with wakes. Qed.
#[local] Hint Resolve end_blk_tells end_int_tells : wakes.
Lemma get_by_id_tells c l id : tells c (get_request_by_id l id).
Proof. induction l as [|k l IH]; intros s Hs; cbn [get_request_by_id]; wake_steps; eauto with wakes. Qed.
Lemma io_done_tells c k : tells c (request_io_done k).
Proof. intros s Hs. unfold request_io_done. wake_steps; eauto with wakes. Qed.
Lemma find_tells c l name : tells c (find_device l name).
Proof. induction l as [|k l IH]; intros s Hs; cbn [find_device]; wake_steps; eauto with wakes. Qed.
Lemma get_device_tells c name : tells c (get_block_device name).
Proof. intros s Hs. unfold get_block_device. wake_steps. by apply find_tells. Qed.
Lemma wait_tells c dev : tells c (wait_pending [] dev).
Proof. intros s Hs. cbn [wait_pending]. wake_steps; eauto with wakes. Qed.
#[local] Hint Resolve get_by_id_tells io_done_tells get_device_tells wait_tells : wakes.
Lemma list_next_tells c h k : tells c (list_next h k).
Proof. intros s Hs. unfold list_next. wake_steps; eauto with wakes. Qed.
#[local] Hint Resolve list_next_tells : wakes.
Lemma walk_tells c body h : (forall k, tells c (body k)) -> tells c (list_for_each_entry undisturbed_walk body h).
Proof.
  intros Hb s Hs. unfold list_for_each_entry. ksteps. generalize (head (on_list (id s) h)) as pos, (length (on_list (id s) h)) as n.
  intros pos n. revert pos s Hs. induction n as [|n IH]; intros [k|] s Hs; cbn [for_each_from]; [by wake_steps..| |by wake_steps].
  apply wlp_bind. eapply wlp_mono; [by apply Hb|]. intros [] s1 Hs1. apply wlp_bind, wlp_ret, wlp_bind.
  eapply wlp_mono; [by apply list_next_tells|]. intros next s2 Hs2. by apply IH.
Qed.

(** ** Data *)
Lemma send_loop_tells c fuel k remain total to : tells c (bius_send_data_loop fuel k remain total to).
Proof.
  revert remain total to. induction fuel as [|fuel IH]; intros remain total to s Hs; cbn [bius_send_data_loop]; [done|].
  ksteps. destruct (_ && _); [|done]. ksteps.
  match goal with |- wlp _ _ ?s' => assert (announced c s0 s') as Hs' by eauto with wakes end.
  destruct (_ && _); [by ksteps|by apply IH].
Qed.
#[local] Hint Resolve send_loop_tells : wakes.
Lemma send_data_tells c k remain to : tells c (bius_send_data k remain to).
Proof. intros s Hs. unfold bius_send_data. wake_steps; eauto with wakes. Qed.
Lemma send_command_tells c pad1 pad2 k to : tells c (bius_send_command pad1 pad2 k to).
Proof. intros s Hs. unfold bius_send_command. wake_steps; eauto with wakes. Qed.
Lemma receive_segments_tells c um segs ud : tells c (receive_segments um segs ud).
Proof. revert ud. induction segs as [|v segs IH]; intros ud s Hs; cbn [receive_segments]; wake_steps; eauto with wakes. Qed.
#[local] Hint Resolve receive_segments_tells : wakes.
Lemma receive_data_tells c um k ud : tells c (bius_receive_data um k ud).
Proof. intros s Hs. unfold bius_receive_data. wake_steps; eauto with wakes. Qed.
#[local] Hint Resolve send_data_tells send_command_tells receive_data_tells : wakes.

(** ** Arrival and zone reports *)
Lemma queue_rq_tells c d k : tells c (bius_queue_rq d k).
Proof.
  intros s Hs. unfold bius_queue_rq, inc_request_id. ksteps. cbv zeta. ksteps. case_bool_decide; wake_steps; eauto with wakes.
  apply an_push; [done|]. eauto with wakes.
Qed.
Lemma report_submit_tells c d sector nr blkz kreq : tells c (report_submit d sector nr blkz kreq).
Proof.
  intros s Hs. unfold report_submit, inc_request_id. ksteps. apply an_push; [done|]. eauto with wakes.
Qed.
Lemma down_tells c killed k : tells c (down_killable killed k).
Proof. intros s Hs. unfold down_killable. wake_steps; eauto with wakes. Qed.
Lemma zones_loop_tells c blkz size cb nr left : cb_ok cb -> tells c (report_zones_loop blkz size cb nr left).
Proof.
  intros Hcb. induction left as [|n IH]; intros s Hs; cbn [report_zones_loop]; [done|]. cbv zeta. wake_steps; eauto with wakes.
  eapply wlp_mono; [apply wp_wlp, Hcb|]. intros res s' [m ->]. destruct (negb _); [by apply wlp_ret, an_kmem|by apply IH, an_kmem].
Qed.
Lemma report_finish_tells c nr blkz kreq cb res : cb_ok cb -> tells c (report_finish nr blkz kreq cb res).
Proof.
  intros Hcb s Hs. unfold report_finish. apply wlp_bind. eapply (wlp_mono _ (fun _ s' => announced c s0 s')).
  - wake_steps; try done. by apply zones_loop_tells.
  - intros v s' Hs'. ksteps. eauto with wakes.
Qed.
#[local] Hint Resolve queue_rq_tells report_submit_tells down_tells report_finish_tells : wakes.

(** ** Devices *)
Lemma create_device_tells c e o : tells c (BlockDev.create_block_device e o).
Proof.
  intros s Hs. unfold BlockDev.create_block_device, out_free_tag_set, out_put_disk, out_unregister, out_free_device. cbv zeta.
  wake_steps; eauto 12 with wakes.
Qed.
Lemma end_pending_tells c dev : tells c (end_pending undisturbed_walk dev).
Proof. intros s Hs. unfold end_pending. apply walk_tells; [|done]. intros k. apply mq_end_tells. Qed.
Lemma end_waiting_tells c c' : tells c (end_waiting undisturbed_walk c').
Proof. intros s Hs. unfold end_waiting. apply walk_tells; [|done]. intros k. apply end_blk_tells. Qed.
#[local] Hint Resolve end_pending_tells end_waiting_tells create_device_tells : wakes.
Lemma remove_device_tells c owner : tells c (remove_around undisturbed_walk owner).
Proof. intros s Hs. unfold remove_around. wake_steps; eauto 12 with wakes. Qed.
Lemma attach_tells c dev : tells (Some c) (attach_device c dev).
Proof. intros s Hs. unfold attach_device. wake_steps; eauto 12 with wakes. Qed.
#[local] Hint Resolve remove_device_tells attach_tells : wakes.
Lemma initialization_tells um e c h : tells (Some c) (handle_initialization um e c h).
Proof.
  intros s Hs. unfold handle_initialization, handle_create, handle_connect, bius_revalidate. cbv zeta. wake_steps; eauto with wakes.
Qed.

(** ** The file operations *)
Lemma dispatch_tells c pad1 pad2 k to : tells (Some c) (read_dispatch c pad1 pad2 k to).
Proof. intros s Hs. unfold read_dispatch. wake_steps; eauto 8 with wakes. Qed.
#[local] Hint Resolve dispatch_tells initialization_tells : wakes.
Lemma read_tells c pad1 pad2 to : tells (Some c) (bius_dev_read c pad1 pad2 [] to).
Proof.
  intros s Hs. unfold bius_dev_read. cbv zeta. ksteps. destruct (conn_block_dev v); [|by ksteps].
  destruct (conn_sending v); [wake_steps; eauto 8 with wakes|]. destruct (_ <? _); [by ksteps|]. ksteps.
  eapply wlp_mono; [by apply wait_tells|]. intros [ret|] s1 Hs1; ksteps; [done|].
  destruct (dev_pending v0) as [|k rest] eqn:Hp; [done|]. ksteps. apply dispatch_tells.
  eapply an_put_dev_same; [done| |done]. rewrite Hp. cbn. lia.
Qed.
Lemma reply_blk_tells c um k h n : tells c (reply_blk um k h n).
Proof. intros s Hs. unfold reply_blk. cbv zeta. wake_steps; eauto 8 with wakes. Qed.
Lemma reply_int_tells c um k h n : tells c (reply_int um k h n).
Proof. intros s Hs. unfold reply_int, copy_into_data. wake_steps; eauto 8 with wakes. Qed.
#[local] Hint Resolve reply_blk_tells reply_int_tells : wakes.
Lemma write_tells um e c stack from : tells (Some c) (bius_dev_write um e c stack from).
Proof. intros s Hs. unfold bius_dev_write. cbv zeta. wake_steps; eauto 8 with wakes. Qed.
Lemma release_tells c : tells (Some c) (bius_dev_release c).
Proof. intros s Hs. unfold bius_dev_release, release_around. cbv zeta. wake_steps; eauto 8 with wakes. Qed.
End operations.

(** ** Readers on the wait queues *)
Section readers.
Context `{BL : BioLaws} `{IL : IovLaws} `{LCL : LinuxConstLaws}.
Implicit Types s : kstate.

(** A thread in [bius_dev_read], on connection [rd_conn] to device [rd_dev]. *)
Record reader := Reader { rd_conn : Z; rd_dev : Z; rd_pad1 : list Z; rd_pad2 : list Z; rd_to : iov_iter }.
Definition rd_op (r : reader) : kop := OpRead (rd_conn r) (rd_pad1 r) (rd_pad2 r) (rd_to r).
(** [w_asleep]: the wait queues of the devices, in the order of arrival.  [w_woken]: the
    readers that have been taken off them and have not run since. *)
Record wstate := WState { w_kernel : kstate; w_asleep : list reader; w_woken : list reader }.
Definition readers (st : wstate) : list reader := w_asleep st ++ w_woken st.

(** [wake_up(&device->wait_queue)] takes the first exclusive waiter off the queue. *)
Fixpoint first_waiter (d : Z) (l : list reader) : option (reader * list reader) :=
  match l with
  | [] => None
  | r :: l' => if decide (rd_dev r = d) then Some (r, l') else prod_map id (cons r) <$> first_waiter d l'
  end.
Definition wake_event (st : wstate) (e : kevent) : wstate :=
  match e with
  | EvWakeUp d =>
      match first_waiter d (w_asleep st) with
      | Some (r, l) => WState (w_kernel st) l (w_woken st ++ [r])
      | None => st
      end
  | _ => st
  end.
(** The operation has left [s], and sent the wake-ups its trace shows. *)
Definition after_run (st : wstate) s : wstate :=
  foldl wake_event (WState s (w_asleep st) (w_woken st)) (drop (length (trace (w_kernel st))) (trace s)).

(** One thread uses a connection. *)
Definition user_of (op : kop) : option Z :=
  match op with
  | OpOpen c | OpRead c _ _ _ | OpWrite _ _ c _ _ | OpRelease c => Some c
  | _ => None
  end.
Definition idle (st : wstate) (c : Z) : Prop := c ∉ rd_conn <$> readers st.

Inductive wstep : wstate -> wstate -> Prop :=
  (** An operation that does not have to wait. *)
  | ws_run st op s' :
      kop_ok (w_kernel st) op -> (forall c, user_of op = Some c -> idle st c) ->
      run_kop op (w_kernel st) = Ret (tt, s') -> wstep st (after_run st s')
  (** A read that waits. *)
  | ws_sleep st r :
      kop_ok (w_kernel st) (rd_op r) -> idle st (rd_conn r) -> run_kop (rd_op r) (w_kernel st) = NoFuel ->
      conn_block_dev <$> connections (w_kernel st) !! rd_conn r = Some (Some (rd_dev r)) ->
      wstep st (WState (w_kernel st) (w_asleep st ++ [r]) (w_woken st))
  (** A reader that was woken goes on, or finds nothing and waits again. *)
  | ws_resume st l1 r l2 s' :
      w_woken st = l1 ++ r :: l2 -> kop_ok (w_kernel st) (rd_op r) ->
      run_kop (rd_op r) (w_kernel st) = Ret (tt, s') ->
      wstep st (after_run (WState (w_kernel st) (w_asleep st) (l1 ++ l2)) s')
  | ws_sleep_again st l1 r l2 :
      w_woken st = l1 ++ r :: l2 -> kop_ok (w_kernel st) (rd_op r) -> run_kop (rd_op r) (w_kernel st) = NoFuel ->
      wstep st (WState (w_kernel st) (w_asleep st ++ [r]) (l1 ++ l2))
  (** A signal: the reader returns, unless it was woken and something is pending. *)
  | ws_signal st l1 r l2 :
      w_asleep st = l1 ++ r :: l2 -> wstep st (WState (w_kernel st) (l1 ++ l2) (w_woken st))
  | ws_signal_woken st l1 r l2 :
      w_woken st = l1 ++ r :: l2 -> kop_ok (w_kernel st) (rd_op r) -> run_kop (rd_op r) (w_kernel st) = NoFuel ->
      wstep st (WState (w_kernel st) (w_asleep st) (l1 ++ l2)).
Inductive wreachable : wstate -> Prop :=
  | wr_init : wreachable (WState initial_kernel [] [])
  | wr_step st st' : wreachable st -> wstep st st' -> wreachable st'.

(** *** Delivering wake-ups *)
Definition woken_for (d : Z) (l : list reader) : nat := length (filter (fun r => rd_dev r = d) l).
Lemma woken_app d l l' : woken_for d (l ++ l') = (woken_for d l + woken_for d l')%nat.
Proof. unfold woken_for. by rewrite filter_app, length_app. Qed.
Lemma woken_cons d r l : woken_for d (r :: l) = ((if decide (rd_dev r = d) then 1 else 0) + woken_for d l)%nat.
Proof. unfold woken_for. rewrite filter_cons. by case_decide. Qed.
Lemma first_waiter_spec d l :
  match first_waiter d l with
  | Some (r, l') => rd_dev r = d /\ l ≡ₚ r :: l'
  | None => forall r, r ∈ l -> rd_dev r <> d
  end.
Proof.
  induction l as [|x l IH]; cbn [first_waiter]; [by intros r ?%elem_of_nil|]. case_decide as Hx; [done|].
  destruct (first_waiter d l) as [[r l']|]; cbn [fmap option_fmap option_map prod_map].
  - destruct IH as [Hr ->]. split; [done|]. apply Permutation_swap.
  - intros r [->|Hr]%elem_of_cons; [done|by apply IH].
Qed.
(** Nobody is lost, and unless the queue of [d] has run empty every wake-up woke somebody. *)
Lemma deliver_spec evs st :
  let st' := foldl wake_event st evs in
  w_kernel st' = w_kernel st /\ readers st' ≡ₚ readers st /\ (forall r, r ∈ w_asleep st' -> r ∈ w_asleep st) /\
  forall d, (exists r, r ∈ w_asleep st' /\ rd_dev r = d) ->
    woken_for d (w_woken st') = (woken_for d (w_woken st) + wakes d evs)%nat.
Proof.
  revert st. induction evs as [|e evs IH]; intros st; cbn [foldl].
  { split_and!; try done; intros; cbn; lia. }
  assert (wakes_cons : forall d, wakes d (e :: evs) = ((if decide (e = EvWakeUp d) then 1 else 0) + wakes d evs)%nat).
  { intros d. unfold wakes. rewrite filter_cons. by case_decide. }
  destruct (IH (wake_event st e)) as (E1 & E2 & E3 & E4). cbv zeta.
  assert (Hev : w_kernel (wake_event st e) = w_kernel st /\ readers (wake_event st e) ≡ₚ readers st /\
    (forall r, r ∈ w_asleep (wake_event st e) -> r ∈ w_asleep st) /\
    forall d, (exists r, r ∈ w_asleep (wake_event st e) /\ rd_dev r = d) ->
      woken_for d (w_woken (wake_event st e)) = (woken_for d (w_woken st) + (if decide (e = EvWakeUp d) then 1 else 0))%nat).
  { destruct e; cbn [wake_event]; try (split_and!; try done; intros; rewrite decide_False by done; lia).
    pose proof (first_waiter_spec dev (w_asleep st)) as Hf. destruct (first_waiter dev (w_asleep st)) as [[r l]|].
    - destruct Hf as [Hr Hl]. unfold readers; cbn [w_kernel w_asleep w_woken]. split_and!; [done| | |].
      + rewrite Hl, app_assoc. apply (Permutation_app_comm _ [r]).
      + intros x Hx. rewrite Hl. by right.
      + intros d _. rewrite woken_app, woken_cons, Hr. unfold woken_for at 2. cbn [filter list_filter length].
        destruct (decide (dev = d)) as [->|Hne]; [by rewrite decide_True|by rewrite decide_False by congruence].
    - split_and!; try done. intros d (r & Hin & Hd). rewrite decide_False; [lia|]. intros [= ->]. by apply (Hf r). }
  destruct Hev as (F1 & F2 & F3 & F4). split_and!; [congruence|by rewrite E2|auto|].
  intros d Hd. rewrite E4, wakes_cons by done. rewrite F4; [lia|]. destruct Hd as (r & Hr & <-). exists r. by auto.
Qed.

(** *** The invariant *)
(** A reader waits on a connection that is sending nothing, with room for a header. *)
Definition reader_ok s (r : reader) : Prop :=
  (exists w, connections s !! rd_conn r = Some (Connection (Some (rd_dev r)) w None)) /\ sizeof_k2u <= iov_iter_count (rd_to r).
Record winv (st : wstate) : Prop := {
  wi_kernel : kreachable (w_kernel st);
  wi_readers : forall r, r ∈ readers st -> reader_ok (w_kernel st) r;
  wi_nodup : NoDup (rd_conn <$> readers st);
  wi_balance : forall r, r ∈ w_asleep st -> (npending (w_kernel st) (rd_dev r) <= woken_for (rd_dev r) (w_woken st))%nat }.

(** A read that sleeps: its connection is sending nothing, nothing is pending. *)
Lemma sleeps_idle s r :
  kreachable s -> kop_ok s (rd_op r) -> run_kop (rd_op r) s = NoFuel ->
  exists dev w, connections s !! rd_conn r = Some (Connection (Some dev) w None) /\ npending s dev = O /\
    sizeof_k2u <= iov_iter_count (rd_to r).
Proof.
  intros Hs Hop Hrun. destruct (read_sleeps_only_when_idle s _ _ _ _ Hs Hop Hrun) as (dev & w & Hc & Hq).
  exists dev, w. split; [done|]. pose proof (reachable_kinv s Hs) as Hk.
  pose proof (d_conn _ (k_devices _ Hk) _ _ dev Hc eq_refl) as Hin. destruct (d_devs _ (k_devices _ Hk) dev Hin) as [d Hd].
  rewrite (pending_queue s dev d Hin Hd) in Hq. unfold npending, on_list. rewrite Hd. split; [cbn; by rewrite Hq|].
  destruct (Z.lt_ge_cases (iov_iter_count (rd_to r)) sizeof_k2u) as [Hlt|]; [|done].
  cbn [rd_op run_kop] in Hrun. unfold mbind, ST_bind in Hrun.
  rewrite (bius_dev_read_refused (rd_pad1 r) (rd_pad2 r) [] (rd_to r) s (rd_conn r) _ Hc) in Hrun by (by right). done.
Qed.
Lemma dispatch_devices c pad1 pad2 k to s :
  wlp (read_dispatch c pad1 pad2 k to) (fun _ s' => devices s' = devices s) s.
Proof.
  assert (forall z t, devices t = devices s -> wlp (end_blk_request k z) (fun _ t' => devices t' = devices s) t) as Hend.
  { intros z t Ht. unfold wlp. destruct (end_blk_request k z t) as [[[] t']| |] eqn:E; [|done..].
    by destruct (end_blk_request_lists k z t tt t' E) as (-> & _). }
  unfold read_dispatch, bius_send_command.
  repeat (ksteps; try lazymatch goal with
    | |- wlp (if ?b then _ else _) _ _ => destruct b
    | |- wlp (end_blk_request _ _) _ _ => eapply wlp_mono; [apply Hend; done|intros [] ? ?]
    end); done.
Qed.

(** One that returns takes the first request that is pending. *)
Lemma reader_takes s r s' :
  reader_ok s r -> run_kop (rd_op r) s = Ret (tt, s') ->
  exists d k rest, devices s !! rd_dev r = Some d /\ dev_pending d = k :: rest /\
    announced (Some (rd_conn r)) (set_devices <[rd_dev r := dev_with_pending d rest]> s) s' /\
    devices s' = <[rd_dev r := dev_with_pending d rest]> (devices s).
Proof.
  intros [[w Hc] Hsz] Hrun. cbn [rd_op run_kop] in Hrun. unfold bius_dev_read, get_conn, gets, mbind, ST_bind in Hrun.
  rewrite Hc in Hrun. cbn [deref mret ST_ret conn_block_dev conn_sending] in Hrun. rewrite (proj2 (Z.ltb_ge _ _) Hsz) in Hrun.
  unfold wait_pending, get_dev, gets, mbind, ST_bind in Hrun. destruct (devices s !! rd_dev r) as [d|] eqn:Hd; [|done].
  cbn [deref mret ST_ret] in Hrun. destruct (dev_pending d) as [|k rest] eqn:Hp; [done|]. cbn [mret ST_ret] in Hrun.
  rewrite Hd in Hrun. cbn [deref mret ST_ret] in Hrun. rewrite Hp in Hrun. unfold put_dev, modify in Hrun.
  pose proof (dispatch_tells (set_devices <[rd_dev r := dev_with_pending d rest]> s) (rd_conn r) (rd_pad1 r) (rd_pad2 r) k (rd_to r)
    _ (an_refl _ _)) as Hd'. unfold wlp in Hd'.
  pose proof (dispatch_devices (rd_conn r) (rd_pad1 r) (rd_pad2 r) k (rd_to r) (set_devices <[rd_dev r := dev_with_pending d rest]> s)) as HD.
  unfold wlp in HD. destruct (read_dispatch _ _ _ _ _ _) as [[x t]| |]; [|done..]. injection Hrun as <-.
  by exists d, k, rest.
Qed.
(** An operation, whatever it is. *)
Lemma op_tells s op s' : kop_ok s op -> run_kop op s = Ret (tt, s') -> announced (user_of op) s s'.
Proof.
  intros Hop Hrun.
  assert (wlp (run_kop op) (fun _ s' => announced (user_of op) s s') s) as Hw; [|unfold wlp in Hw; by rewrite Hrun in Hw].
  assert (announced (user_of op) s s) as Hs by apply an_refl.
  destruct op as [d k rq|d sector nr blkz kreq|killed nr blkz kreq cb|c|c pad1 pad2 to|um e c stack from|c]; cbn [run_kop user_of] in *.
  - ksteps. eapply wlp_mono; [by apply queue_rq_tells, an_rqs|]. intros. by ksteps.
  - by apply report_submit_tells.
  - destruct Hop as (_ & Hcb & _). ksteps. eapply wlp_mono; [by apply down_tells|]. intros res s1 Hs1. ksteps.
    eapply wlp_mono; [exact (report_finish_tells s None nr blkz kreq cb res Hcb s1 Hs1)|]. intros. by ksteps.
  - ksteps. cbn [bius_dev_open]. ksteps. by apply an_put_conn.
  - ksteps. eapply wlp_mono; [by apply read_tells|]. intros. by ksteps.
  - ksteps. eapply wlp_mono; [by apply write_tells|]. intros. by ksteps.
  - ksteps. eapply wlp_mono; [by apply release_tells|]. intros. by ksteps.
Qed.

(** The operation of [c] has run to its end; [st] are the readers without it. *)
Lemma run_keeps st s' c (popped : Z -> nat) :
  kreachable s' -> (forall r, r ∈ readers st -> reader_ok (w_kernel st) r) -> NoDup (rd_conn <$> readers st) ->
  (forall c', c = Some c' -> idle st c') ->
  (exists s1, trace s1 = trace (w_kernel st) /\ connections s1 = connections (w_kernel st) /\
    (forall d, npending s1 d = popped d) /\ announced c s1 s') ->
  (forall r, r ∈ w_asleep st -> (popped (rd_dev r) <= woken_for (rd_dev r) (w_woken st))%nat) ->
  winv (after_run st s').
Proof.
  intros Hs' Hrd Hnd Hc (s1 & Ht & Hcs & Hpop & [(evs & Htr & Hn) Hconns]) Hbal.
  assert (drop (length (trace (w_kernel st))) (trace s') = evs) as Hevs by (rewrite Htr, Ht; apply drop_app_length).
  unfold after_run. rewrite Hevs. destruct (deliver_spec evs (WState s' (w_asleep st) (w_woken st))) as (E1 & E2 & E3 & E4).
  set (st' := foldl _ _ _) in *. cbn [w_kernel w_asleep w_woken] in *.
  assert (readers st' ≡ₚ readers st) as Hp by exact E2. split.
  - by rewrite E1.
  - intros r Hr. rewrite Hp in Hr. destruct (Hrd r Hr) as [[w Hw] Hsz]. rewrite E1. split; [|done]. exists w.
    rewrite Hconns, Hcs; [done|]. intros ->. apply (Hc (rd_conn r) eq_refl). apply list_elem_of_fmap. by exists r.
  - by rewrite Hp.
  - intros r Hr. rewrite E1, E4 by (by exists r). specialize (Hn (rd_dev r)). specialize (Hbal r (E3 r Hr)). rewrite Hpop in Hn. lia.
Qed.
Lemma readers_woken st l1 r l2 :
  w_woken st = l1 ++ r :: l2 -> readers st ≡ₚ r :: readers (WState (w_kernel st) (w_asleep st) (l1 ++ l2)).
Proof. intros Hw. unfold readers. rewrite Hw. cbn [w_asleep w_woken]. rewrite !app_assoc. symmetry. apply Permutation_middle. Qed.
Lemma woken_without d l1 r l2 : rd_dev r <> d -> woken_for d (l1 ++ r :: l2) = woken_for d (l1 ++ l2).
Proof. intros Hne. rewrite !woken_app, woken_cons. by rewrite decide_False. Qed.
Lemma sleeper_device st r :
  kreachable (w_kernel st) -> kop_ok (w_kernel st) (rd_op r) -> run_kop (rd_op r) (w_kernel st) = NoFuel ->
  conn_block_dev <$> connections (w_kernel st) !! rd_conn r = Some (Some (rd_dev r)) ->
  reader_ok (w_kernel st) r /\ npending (w_kernel st) (rd_dev r) = O.
Proof.
  intros Hs Hop Hrun Hd. destruct (sleeps_idle _ _ Hs Hop Hrun) as (dev & w & Hc & Hz & Hsz). rewrite Hc in Hd.
  cbn in Hd. injection Hd as ->. split; [split; [by exists w|done]|done].
Qed.
Lemma reader_device s r : reader_ok s r -> conn_block_dev <$> connections s !! rd_conn r = Some (Some (rd_dev r)).
Proof. intros [[w ->] _]. done. Qed.

Lemma wstep_winv st st' : winv st -> wstep st st' -> winv st'.
Proof.
  intros [Hs Hrd Hnd Hbal] Hstep. destruct Hstep as
    [st op s' Hop Hidle Hrun|st r Hop Hidle Hrun Hdev|st l1 r l2 s' Hw Hop Hrun|st l1 r l2 Hw Hop Hrun|st l1 r l2 Ha|st l1 r l2 Hw Hop Hrun].
  - apply (run_keeps _ _ (user_of op) (npending (w_kernel st))); try done; [by eapply kr_step|].
    exists (w_kernel st). split_and!; [done..|]. by eapply op_tells.
  - destruct (sleeper_device st r Hs Hop Hrun Hdev) as [Hr Hz]. split; cbn [w_kernel w_asleep w_woken].
    + done.
    + intros x Hx. unfold readers in Hx; cbn [w_asleep w_woken] in Hx. rewrite <- app_assoc in Hx.
      apply elem_of_app in Hx as [Hx|[->|Hx]%elem_of_cons]; [apply Hrd, elem_of_app; by left|done|apply Hrd, elem_of_app; by right].
    + unfold readers; cbn [w_asleep w_woken]. rewrite <- app_assoc. cbn [app]. rewrite <- Permutation_middle, fmap_cons.
      by apply NoDup_cons.
    + intros x [Hx| ->%list_elem_of_singleton]%elem_of_app; [by apply Hbal|]. lia.
  - pose proof (readers_woken st l1 r l2 Hw) as Hp. assert (reader_ok (w_kernel st) r) as Hr by (apply Hrd; rewrite Hp; by left).
    rewrite Hp in Hnd. apply NoDup_cons in Hnd as [Hnr Hnd].
    destruct (reader_takes _ _ _ Hr Hrun) as (d & k & rest & Hd & Hpd & Hann & _).
    apply (run_keeps _ _ (Some (rd_conn r)) (fun x => if decide (x = rd_dev r) then length rest else npending (w_kernel st) x));
      cbn [w_kernel w_asleep w_woken]; try done.
    + by eapply kr_step.
    + intros x Hx. apply Hrd. rewrite Hp. by right.
    + by intros c' [= <-].
    + eexists. split_and!; [..|exact Hann]; [done|done|]. intros x. rewrite npending_put. by case_decide.
    + intros x Hx. specialize (Hbal x Hx). rewrite Hw in Hbal. case_decide as Hxd.
      * rewrite woken_app, woken_cons, decide_True in Hbal by done. rewrite woken_app. rewrite Hxd in Hbal |- *.
        unfold npending, on_list in Hbal. rewrite Hd in Hbal. cbn [from_option default] in Hbal. rewrite Hpd in Hbal. cbn [length] in Hbal. lia.
      * by rewrite woken_without in Hbal.
  - pose proof (readers_woken st l1 r l2 Hw) as Hp. assert (reader_ok (w_kernel st) r) as Hr by (apply Hrd; rewrite Hp; by left).
    destruct (sleeper_device st r Hs Hop Hrun (reader_device _ _ Hr)) as [_ Hz].
    assert (readers (WState (w_kernel st) (w_asleep st ++ [r]) (l1 ++ l2)) ≡ₚ readers st) as Hp'.
    { rewrite Hp. unfold readers; cbn [w_asleep w_woken]. rewrite <- app_assoc. cbn [app]. symmetry. apply Permutation_middle. }
    split; cbn [w_kernel w_asleep w_woken]; [done|intros x Hx; apply Hrd; by rewrite <- Hp'|by rewrite Hp'|].
    intros x Hx. destruct (decide (rd_dev x = rd_dev r)) as [->|Hne]; [lia|]. rewrite <- (woken_without _ l1 r l2), <- Hw by congruence.
    apply Hbal. apply elem_of_app in Hx as [| ->%list_elem_of_singleton]; done.
  - assert (readers st ≡ₚ r :: readers (WState (w_kernel st) (l1 ++ l2) (w_woken st))) as Hp.
    { unfold readers; cbn [w_asleep w_woken]. rewrite Ha, <- !app_assoc. cbn [app]. symmetry. apply Permutation_middle. }
    rewrite Hp in Hnd. apply NoDup_cons in Hnd as [_ Hnd].
    split; cbn [w_kernel w_asleep w_woken]; [done|intros x Hx; apply Hrd; rewrite Hp; by right|done|].
    intros x Hx. apply Hbal. rewrite Ha. apply elem_of_app in Hx as [|]; apply elem_of_app; [by left|right; by right].
  - pose proof (readers_woken st l1 r l2 Hw) as Hp. assert (reader_ok (w_kernel st) r) as Hr by (apply Hrd; rewrite Hp; by left).
    destruct (sleeper_device st r Hs Hop Hrun (reader_device _ _ Hr)) as [_ Hz].
    rewrite Hp in Hnd. apply NoDup_cons in Hnd as [_ Hnd].
    split; cbn [w_kernel w_asleep w_woken]; [done|intros x Hx; apply Hrd; rewrite Hp; by right|done|].
    intros x Hx. destruct (decide (rd_dev x = rd_dev r)) as [->|Hne]; [lia|]. rewrite <- (woken_without _ l1 r l2), <- Hw by congruence.
    by apply Hbal.
Qed.
Lemma wreachable_winv st : wreachable st -> winv st.
Proof.
  induction 1 as [|st st' _ IH Hstep]; [|by eapply wstep_winv]. split; cbn [w_kernel w_asleep w_woken]; [apply kr_init|..].
  - intros r Hr. by apply elem_of_nil in Hr.
  - apply NoDup_nil_2.
  - intros r Hr. by apply elem_of_nil in Hr.
Qed.

End readers.

(** ** A concrete run: two processes wait for one device *)
Lemma wreachable_kernel `{BioLaws} `{IovLaws} `{LinuxConstLaws} s : kreachable s -> wreachable (WState s [] []).
Proof.
  induction 1 as [|s op [] s' _ IH Hop Hrun]; [apply wr_init|].
  assert (forall evs, foldl wake_event (WState s' [] []) evs = WState s' [] []) as Hno.
  { induction evs as [|e evs IHe]; [done|]. cbn [foldl]. by destruct e. }
  pose proof (ws_run (WState s [] []) op s' Hop) as Hstep. unfold after_run in Hstep. cbn [w_asleep w_woken w_kernel] in Hstep.
  rewrite Hno in Hstep. eapply wr_step; [exact IH|]. apply Hstep; [|done]. intros c _ Hc. by apply elem_of_nil in Hc.
Qed.
Definition run_connect : @kop seg_bio ubuf_iov :=
  OpWrite (user_buffer 1000 [98; 49]) (good_env 102) 201 [] (reply_buf (u2k_with_type 0 (bius_req_value BIUS_CONNECT) 2 1000)).
Definition run_both : @kstate seg_bio := after run_connect (after (OpOpen 201) run_idle).
Lemma run_both_reachable : kreachable run_both.
Proof.
  apply kreachable_after; [apply kreachable_after; [apply run_idle_reachable|vm_compute; reflexivity|vm_compute; reflexivity]| |by vm_compute].
  split_and!; [by eexists| | |].
  - intros _ Hc. exfalso. by vm_compute in Hc.
  - intros d v Hd. assert (map_Forall (fun _ v => dev_num_connection v + 1 < 2 ^ 32) (devices (after (OpOpen 201) run_idle))) as Hall.
    { apply (bool_decide_unpack _). by vm_compute. }
    by apply (Hall d v).
  - intros k r i Hr Hu. destruct (no_reports_none (after (OpOpen 201) run_idle) k r i); [by apply (bool_decide_unpack _); vm_compute|done|done].
Qed.
Definition waiter (c : Z) : @reader ubuf_iov := Reader c 101 sample_pad sample_pad (sample_buf 57 57 []).
(** Both wait; a request arrives, and the first is woken. *)
Definition run_woken : @wstate seg_bio ubuf_iov := WState (after (OpQueue 101 7 (sample_rq 1)) run_both) [waiter 201] [waiter 200].
Lemma waiter_ok (s : @kstate seg_bio) c : is_Some (connections s !! c) -> kop_ok s (rd_op (waiter c)).
Proof. intros Hc. split_and!; [done|done|done|]. intros _. by vm_compute. Qed.
Lemma run_woken_reachable : wreachable run_woken.
Proof.
  assert (wreachable (WState run_both [waiter 200; waiter 201] [])) as Hsleep.
  { eapply wr_step; [eapply wr_step; [apply wreachable_kernel, run_both_reachable|]|].
    - apply (ws_sleep (WState run_both [] []) (waiter 200)); [apply waiter_ok; by apply (bool_decide_unpack _); vm_compute
        |by intros ?%elem_of_nil|vm_compute; reflexivity|vm_compute; reflexivity].
    - apply (ws_sleep (WState run_both [waiter 200] []) (waiter 201)); [apply waiter_ok; by apply (bool_decide_unpack _); vm_compute
        |by intros Hc%list_elem_of_singleton|vm_compute; reflexivity|vm_compute; reflexivity]. }
  eapply wr_step; [exact Hsleep|].
  assert (kop_ok run_both (OpQueue 101 7 (sample_rq 1))) as Hop.
  { split_and!; [by vm_compute|apply no_reports_is; by apply (bool_decide_unpack _); vm_compute
      |by apply (bool_decide_unpack _); vm_compute| |by vm_compute].
    split; [done|]. intros _. split_and!; [done| |done|done]. repeat constructor. }
  assert (run_kop (OpQueue 101 7 (sample_rq 1)) run_both = Ret (tt, after (OpQueue 101 7 (sample_rq 1)) run_both)) as Hrun
    by (vm_compute; reflexivity).
  pose proof (ws_run (WState run_both [waiter 200; waiter 201] []) _ _ Hop ltac:(done) Hrun) as Hstep.
  assert (after_run (WState run_both [waiter 200; waiter 201] []) (after (OpQueue 101 7 (sample_rq 1)) run_both) = run_woken) as E
    by (vm_compute; reflexivity).
  rewrite E in Hstep. exact Hstep.
Qed.
