(* ===== verification/Closing.v ===== *)
(** * When the driver dies

    The kernel closes the connections of a process that ends, one after the other, in
    whatever state it left them.  No client is left waiting: every request in flight is
    ended, and every device is gone. *)
From S2P Require Import Prelude Protocol Linux Kernel Sample Command BlockDev CharDev CharDevProps Invariant StepsIO StepsReport StepsDev System.

#[local] Existing Instance nobody.

Section closing.
Context `{BL : BioLaws} `{IL : IovLaws} `{LCL : LinuxConstLaws}.
Implicit Types s : kstate.

(** [bius_dev_release] for each of the connections. *)
Fixpoint close_all (l : list Z) : ST kstate unit :=
  match l with
  | [] => mret tt
  | c :: l' => _ ← bius_dev_release c; close_all l'
  end.

(** Every listed device has a connection. *)
Lemma device_connected s d :
  kinv s -> d ∈ all_disk_list s -> exists c v, connections s !! c = Some v /\ conn_block_dev v = Some d.
Proof.
  intros Hk Hd. destruct (d_devs _ (k_devices _ Hk) d Hd) as [v Hv].
  destruct (d_count _ (k_devices _ Hk) d v Hd Hv) as [Hn Hpos].
  destruct (set_choose_L (conns_of (connections s) d)) as [c Hc]; [|exists c; by apply elem_of_conns_of].
  intros Hz. rewrite Hz, size_empty in Hn. lia.
Qed.
(** Without connections there is nothing. *)
Lemma disconnected s :
  kinv s -> connections s = ∅ -> all_disk_list s = [] /\ blk_rqs s = ∅.
Proof.
  intros Hk Hc. assert (all_disk_list s = []) as HL.
  { destruct (all_disk_list s) as [|d l] eqn:E; [done|]. destruct (device_connected s d) as (c & v & Hv & _); [done| |].
    - rewrite E. by left.
    - by rewrite Hc in Hv. }
  split; [done|]. apply map_empty. intros k. destruct (blk_rqs s !! k) as [rq|] eqn:E; [|done].
  destruct (q_all _ _ _ _ (k_queues _ Hk) k) as [[d|c|a] Ho]; [by eexists| | |].
  - unfold queue, queue_of in Ho. rewrite HL in Ho. by apply elem_of_nil in Ho.
  - unfold queue, queue_of in Ho. rewrite Hc in Ho. by apply elem_of_nil in Ho.
  - by apply elem_of_nil in Ho.
Qed.

(** No zone report is on its way. *)
Definition report_free s : Prop := forall k, ~ is_report (pdus s) k.
Lemma release_ok s c : is_Some (connections s !! c) -> report_free s -> kop_ok s (OpRelease c).
Proof. intros Hc Hf. split; [done|]. intros k Hk. by destruct (Hf k). Qed.
Lemma release_closes s c :
  kinv s -> is_Some (connections s !! c) -> report_free s ->
  wp (bius_dev_release c) (fun _ s' => kinv s' /\ report_free s' /\ connections s' = delete c (connections s) /\
    forall x, tally (ev_starts x) (trace s') = tally (ev_starts x) (trace s)) s.
Proof.
  intros Hk [v Hc] Hf. assert (kop_ok s (OpRelease c)) as Hop by (apply release_ok; [by eexists|done]).
  pose proof (release_step s c Hk Hop ltac:(by split)) as Hstep.
  assert (wp (bius_dev_release c) (fun _ s' => report_free s' /\ connections s' = delete c (connections s) /\
    forall x, tally (ev_starts x) (trace s') = tally (ev_starts x) (trace s)) s) as Hrel.
  { destruct v as [[d|] w snd].
    - destruct (d_devs _ (k_devices _ Hk) d (d_conn _ (k_devices _ Hk) _ _ d Hc eq_refl)) as [v Hv].
      eapply wp_mono; [by eapply release_released|]. intros res s' [G [_ _ _ HC _ _ _ _ _ _ Hrep Htr]]. split_and!; [|done|].
      + intros k (r & i & Hr & Hi). apply (Hf k). exists r, i. split; [by apply (Hrep k r i)|done].
      + intros x. apply (Htr x).
    - pose proof (idle_connection s c _ Hk Hc eq_refl) as E. injection E as -> ->.
      unfold bius_dev_release, release_around. ksteps. eapply wp_intro; [by eapply end_no_waiting|]. cbn [conn_block_dev]. ksteps. done. }
  cbn [run_kop] in Hstep. unfold wp, mbind, ST_bind in *. destruct (bius_dev_release c s) as [[res s']| |]; [|done..]. done.
Qed.

(** C5: In a state reached by operations that satisfy [kop_ok], with no zone report on its
    way, the connections of the drivers are closed, in any order, and nothing else happens
    meanwhile. Whatever block requests are pending, being sent or waiting for an answer, no
    close faults or sleeps, and at the end no connection is left, no device is listed, and
    every request that was ever started has been ended, as often as it was started. *)
Theorem closing_ends_everything s l :
  kreachable s -> report_free s -> NoDup l -> (forall c, c ∈ l <-> is_Some (connections s !! c)) ->
  exists s', close_all l s = Ret (tt, s') /\ connections s' = ∅ /\ all_disk_list s' = [] /\ blk_rqs s' = ∅ /\
    forall k, tally (ev_ends k) (trace s') = tally (ev_starts k) (trace s).
Proof.
  intros Hs Hf Hnd Hl. pose proof (reachable_kinv s Hs) as Hk.
  assert (wp (close_all l) (fun _ s' => kinv s' /\ connections s' = ∅ /\
    forall x, tally (ev_starts x) (trace s') = tally (ev_starts x) (trace s)) s) as Hwp.
  { clear Hs. revert s Hk Hf Hl. induction Hnd as [|c l Hc Hnd IH]; intros s Hk Hf Hl; cbn [close_all].
    - apply wp_ret. split_and!; [done| |done]. apply map_empty. intros c.
      destruct (connections s !! c) eqn:E; [|done]. assert (c ∈ ([] : list Z)) as ?%elem_of_nil by (apply Hl; by eexists). done.
    - apply wp_bind. eapply wp_mono; [apply release_closes; [done|apply Hl; by left|done]|].
      intros res s1 (Hk1 & Hf1 & HC & Htr). eapply wp_mono; [apply IH; [done|done|]|].
      + intros x. rewrite HC. destruct (decide (x = c)) as [->|Hne].
        * rewrite lookup_delete_eq. split; [done|by intros []].
        * rewrite lookup_delete_ne, <- Hl, elem_of_cons by done. naive_solver.
      + intros [] s2 (Hk2 & HC2 & Htr2). split_and!; [done|done|]. intros x. by rewrite Htr2. }
  apply wp_inv in Hwp as ([] & s' & Hrun & Hk' & HC & Htr). destruct (disconnected s' Hk' HC) as [HL HR].
  exists s'. split_and!; try done. intros k. pose proof (k_trace _ Hk' k) as Ht. rewrite HR, lookup_empty, Htr in Ht.
  rewrite decide_False in Ht by (by intros []). lia.
Qed.
End closing.

(** The process dies with a request half sent and another pending. *)
Definition run_dying : @kstate seg_bio := after (OpQueue 101 8 (sample_rq 0)) run_sent.
Lemma run_dying_reachable : kreachable run_dying.
Proof.
  apply kreachable_after; [apply run_sent_reachable| |vm_compute; reflexivity].
  split_and!; [by vm_compute|apply no_reports_is; by apply (bool_decide_unpack _); vm_compute
    |by apply (bool_decide_unpack _); vm_compute| |by vm_compute].
  split; [done|]. intros _. split_and!; [done| |done|done]. repeat constructor.
Qed.
Lemma closing_ends_everything_witness :
  exists s', close_all [200] run_dying = Ret (tt, s') /\ connections s' = ∅ /\ all_disk_list s' = [] /\ blk_rqs s' = ∅ /\
    tally (ev_ends 7) (trace s') = 1 /\ tally (ev_ends 8) (trace s') = 1.
Proof.
  destruct (closing_ends_everything run_dying [200]) as (s' & Hrun & HC & HL & HR & Hends).
  - apply run_dying_reachable.
  - intros k. apply no_reports_is. by apply (bool_decide_unpack _); vm_compute.
  - apply NoDup_singleton.
  - intros c. rewrite list_elem_of_singleton. split.
    + intros ->. by apply (bool_decide_unpack _); vm_compute.
    + intros [v Hv]. assert (map_Forall (fun c _ => c = 200) (connections run_dying)) as Hall
        by (apply (bool_decide_unpack _); by vm_compute). by apply (Hall c v).
  - exists s'. split_and!; [exact Hrun|exact HC|exact HL|exact HR| |]; rewrite Hends; vm_compute; reflexivity.
Defined.
