(* ===== verification/Segments.v ===== *)
(** * Operations in two halves

    [bius_queue_rq], [bius_report_zones], [bius_dev_read] and [bius_dev_write] hold
    a request in hand between two critical sections: not yet on a list, or on none any
    more.  Their halves, and that each keeps the invariant while other actors are in
    the middle of theirs. *)
From S2P Require Import Prelude Protocol Linux Kernel Sample Command BlockDev CharDev CharDevProps Invariant StepsIO StepsReport StepsDev.

Section halves.
Context `{BO : BioOps} `{IO : IovOps} `{LC : LinuxConst}.
Abbreviation K := (ST kstate).

(** [bius_queue_rq] up to the test of the type, which it returns. *)
Definition queue_prepare (k : Z) : K bius_req :=
  rq ← get_rq k;
  let pos := s64 (u64 (Z.shiftl (rq_pos rq) SECTOR_SHIFT)) in
  _ ← emit (EvStart k);
  id ← inc_request_id;
  ps ← gets pdus;
  let b := old_blk_part (ps !! k) in
  let type := to_bius_request (rq_op rq) in
  _ ← put_pdu k (BiusRequest id type pos (rq_bytes rq)
         (UBlk (BlkPart 0 (b_map_data b) (b_mapped_size b) BIUS_DATAMAP_UNMAPPED (b_blk_result b)))
         fn_bius_blk_request_end);
  mret type.
(** The request joins the pending list, under [pending_lock], and a reader is woken. *)
Definition push_pending (device k : Z) : K unit :=
  d ← get_dev device;
  _ ← put_dev device (dev_with_pending d (dev_pending d ++ [k]));
  emit (EvWakeUp device).
(** [bius_report_zones] up to there. *)
Definition report_prepare (sector nr blkz kreq : Z) : K unit :=
  _ ← modify (set_kbufs <[blkz := sizeof_blk_zone * nr]>);
  id ← inc_request_id;
  put_pdu kreq (BiusRequest id BIUS_REPORT_ZONES (s64 (u64 (Z.shiftl sector SECTOR_SHIFT)))
         nr (UInt (IntPart blkz 0 None)) fn_bius_report_zones_request_end).

(** What a read does with the request it found in [connection->sending]. *)
Definition read_payload (c : Z) (k : Z) (to : iov_iter) : K (Z * iov_iter) :=
  res ← bius_send_data k (iov_iter_count to) to;
  io_done ← request_io_done k;
  _ ← (if io_done : bool then
         conn ← get_conn c; put_conn c (conn_with_sending conn None)
       else mret tt);
  mret res.

(** [bius_dev_read] up to [pending_lock]: a result, or the request taken off the
    pending list.  [read_dispatch] is the rest. *)
Definition read_take (c : Z) (to : iov_iter) : K ((Z * iov_iter) + Z) :=
  conn ← get_conn c;
  let user_buffer_size := iov_iter_count to in
  match conn_block_dev conn with
  | None => mret (inl (- EIO, to))
  | Some device =>
      match conn_sending conn with
      | Some k => res ← read_payload c k to; mret (inl res)
      | None =>
          if user_buffer_size <? sizeof_k2u then mret (inl (- EINVAL, to))
          else
            w ← wait_pending [] device;
            match w with
            | Some ret => mret (inl (ret, to))
            | None =>
                d ← get_dev device;
                match dev_pending d with
                | [] => exhausted
                | k :: rest => _ ← put_dev device (dev_with_pending d rest); mret (inr k)
                end
            end
      end
  end.

(** [handle_initialization] of a connecting process up to [disk_list_lock]: an
    error, or the device it found.  [attach_device] is the rest. *)
Definition connect_lookup (um : user_mem) (user_buffer len : Z) : K (Z + Z) :=
  let name_length := Z.min DISK_NAME_LEN len in
  if negb (not_copied um user_buffer name_length =? 0) then mret (inl (- EIO))
  else
    o ← get_block_device (copy_from_user um user_buffer name_length ++
                            replicate (Z.to_nat (DISK_NAME_LEN - name_length)) 0);
    match o with None => mret (inl (- ENOENT)) | Some dev => mret (inr dev) end.

(** [bius_dev_write] up to [waiting_lock]: a result, or the request taken off the
    waiting list, the header and its length. *)
Definition write_take (um : user_mem) (e : create_env) (c : Z) (stack : list Z) (from : iov_iter)
    : K (Z + Z * bius_u2k_header * Z) :=
  conn ← get_conn c;
  if iov_iter_count from <? sizeof_u2k then mret (inl (- EINVAL))
  else
    let bs := (copy_from_iter sizeof_u2k from).1 in
    let ret := Z.of_nat (length bs) in
    if ret <=? 0 then mret (inl ret)
    else
      let header := u2k_of_bytes (bs ++ drop (length bs) stack) in
      match conn_block_dev conn with
      | None => res ← handle_initialization um e c header; mret (inl res)
      | Some _ =>
          o ← get_request_by_id (conn_waiting conn) (u2k_id header);
          match o with
          | None => mret (inl (- EINVAL))
          | Some k =>
              _ ← put_conn c (Connection (conn_block_dev conn) (list_del k (conn_waiting conn))
                     (if bool_decide (conn_sending conn = Some k) then None
                      else conn_sending conn));
              mret (inr (k, header, ret))
          end
      end.
Definition answer_finish (um : user_mem) (k : Z) (header : bius_u2k_header) (ret : Z) : K Z :=
  r ← get_pdu k;
  if is_blk_request (req_type r) then reply_blk um k header ret else reply_int um k header ret.

(** Nothing else is in the operations. *)
Lemma queue_rq_halves device k s :
  bius_queue_rq device k s =
    (type ← queue_prepare k;
     if bool_decide (type = BIUS_INVALID_OP) then
       _ ← blk_mq_end_request k BLK_STS_NOTSUPP; mret BLK_STS_NOTSUPP
     else _ ← push_pending device k; mret BLK_STS_OK) s.
Proof.
  unfold bius_queue_rq, queue_prepare, push_pending. unfold mbind, ST_bind.
  destruct (get_rq k s) as [[rq s1]| |]; [|done..]. destruct (emit (EvStart k) s1) as [[[] s2]| |]; [|done..].
  destruct (inc_request_id s2) as [[id s3]| |]; [|done..]. destruct (gets pdus s3) as [[ps s4]| |]; [|done..].
  destruct (put_pdu _ _ s4) as [[[] s5]| |]; [|done..]. unfold mret, ST_ret. destruct (bool_decide _); [done|].
  destruct (get_dev device s5) as [[d s6]| |]; [|done..]. destruct (put_dev _ _ s6) as [[[] s7]| |]; done.
Qed.
Lemma report_submit_halves device sector nr blkz kreq s :
  report_submit device sector nr blkz kreq s = (_ ← report_prepare sector nr blkz kreq; push_pending device kreq) s.
Proof.
  unfold report_submit, report_prepare, push_pending. unfold mbind, ST_bind.
  destruct (modify _ s) as [[[] s1]| |]; [|done..]. destruct (inc_request_id s1) as [[id s2]| |]; [|done..].
  destruct (put_pdu _ _ s2) as [[[] s3]| |]; [|done..]. done.
Qed.
Lemma dev_read_halves c pad1 pad2 to s :
  bius_dev_read c pad1 pad2 [] to s =
    (x ← read_take c to; match x with inl res => mret res | inr k => read_dispatch c pad1 pad2 k to end) s.
Proof.
  unfold bius_dev_read, read_take, read_payload. unfold mbind, ST_bind. destruct (get_conn c s) as [[conn s1]| |]; [|done..].
  destruct (conn_block_dev conn) as [device|]; [|done]. destruct (conn_sending conn) as [k|].
  - destruct (bius_send_data k _ to s1) as [[res s2]| |]; [|done..]. destruct (request_io_done k s2) as [[[] s3]| |]; [|done..].
    destruct (get_conn c s3) as [[conn' s4]| |]; [|done..]. done.
  - destruct (_ <? _); [done|]. destruct (wait_pending [] device s1) as [[[ret|] s2]| |]; [done| |done..].
    destruct (get_dev device s2) as [[d s3]| |]; [|done..]. by destruct (dev_pending d).
Qed.
Lemma dev_write_halves um e c stack from s :
  bius_dev_write um e c stack from s =
    (x ← write_take um e c stack from;
     match x with inl res => mret res | inr (k, header, ret) => answer_finish um k header ret end) s.
Proof.
  unfold bius_dev_write, write_take. unfold mbind, ST_bind. destruct (get_conn c s) as [[conn s1]| |]; [|done..].
  destruct (_ <? _); [done|]. cbv zeta. destruct (_ <=? _); [done|]. destruct (conn_block_dev conn).
  - destruct (get_request_by_id _ _ s1) as [[[k|] s2]| |]; done.
  - destruct (handle_initialization _ _ _ _ s1) as [[res s2]| |]; done.
Qed.
Lemma connect_halves um c user_buffer len s :
  handle_connect um c user_buffer len s =
    (x ← connect_lookup um user_buffer len;
     match x with inl ret => mret ret | inr dev => attach_device c (Some dev) end) s.
Proof.
  unfold handle_connect, connect_lookup. cbv zeta. destruct (negb _); [done|]. unfold mbind, ST_bind.
  by destruct (get_block_device _ s) as [[[dev|] s1]| |].
Qed.
End halves.

(** ** The halves keep the invariant *)
Section keep.
Context `{BL : BioLaws} `{IL : IovLaws} `{LCL : LinuxConstLaws}.
Implicit Types (s : kstate) (h : hands).
Abbreviation kinv_with h := (kinv (inh := h)).
Abbreviation queue_with h := (queue (inh := h)).

Definition held h (a : actor) : option (Z * hand) := in_hand (hands := h) !! a.
Definition holding h (a : actor) (k : Z) (x : hand) : hands := <[a := (k, x)]> (h : gmap actor (Z * hand)).
Definition without h (a : actor) : hands := delete a (h : gmap actor (Z * hand)).
Lemma queue_take h a k x s o :
  queue_with (holding h a k x) s o = if decide (o = Hand a) then [k] else queue_with h s o.
Proof.
  destruct o as [d|c|b]; [done..|]. unfold queue, queue_of, in_hand, holding, without. destruct (decide (b = a)) as [->|Hne].
  - by rewrite decide_True, lookup_insert_eq.
  - by rewrite decide_False, lookup_insert_ne by congruence.
Qed.
Lemma queue_drop h a s o : queue_with (without h a) s o = if decide (o = Hand a) then [] else queue_with h s o.
Proof.
  destruct o as [d|c|b]; [done..|]. unfold queue, queue_of, in_hand, holding, without. destruct (decide (b = a)) as [->|Hne].
  - by rewrite decide_True, lookup_delete_eq.
  - by rewrite decide_False, lookup_delete_ne by congruence.
Qed.
Lemma hinv_drop h a s : hinv (inh := h) s -> hinv (inh := without h a) s.
Proof. intros Hh b k x Hb. unfold in_hand, without in Hb. apply lookup_delete_Some in Hb as [_ Hb]. by apply (Hh b k x). Qed.
Lemma hinv_take h a k x s : hinv (inh := h) s -> hand_ok s a k x -> hinv (inh := holding h a k x) s.
Proof.
  intros Hh Ho b k' x' Hb. unfold in_hand, holding in Hb. destruct (decide (b = a)) as [->|Hne].
  - rewrite lookup_insert_eq in Hb. by injection Hb as <- <-.
  - rewrite lookup_insert_ne in Hb by done. by apply (Hh b k' x').
Qed.

(** Request [k] moves from [o0] to [o1], from a list or a hand to another. *)
Lemma kinv_relist h h' s s' k o0 o1 :
  kinv_with h s ->
  next_request_id s' = next_request_id s -> blk_rqs s' = blk_rqs s -> pdus s' = pdus s -> kbufs s' = kbufs s ->
  (forall x, tally (ev_starts x) (trace s') = tally (ev_starts x) (trace s) /\
     tally (ev_ends x) (trace s') = tally (ev_ends x) (trace s)) ->
  k ∈ queue_with h s o0 ->
  (forall o, queue_with h' s' o = queue_with h s o \/ NoDup (queue_with h' s' o)) ->
  (forall o x, x <> k -> x ∈ queue_with h' s' o <-> x ∈ queue_with h s o) ->
  (forall o, k ∈ queue_with h' s' o <-> o = o1) -> listed (blk_rqs s) (pdus s) o1 k ->
  dinv s' -> cinv s' -> hinv (inh := h') s' -> kinv_with h' s'.
Proof.
  intros [Hq Hn _ _ Ht Hrep _] EN ER EP EB ET Hk Hnd HQ Hk' Hl Hd Hc Hh. split; [| |done|done| | |done].
  - rewrite EN, ER, EP. destruct (q_id _ _ _ _ Hq o0 k Hk) as (r & Hr & _).
    eapply (qinv_move (queue_with h s) _ _ _ _ _ _ k o0 o1 r r); try done.
    intros o. destruct (Hnd o) as [->|]; [by apply (q_nodup _ _ _ _ Hq)|done].
  - by rewrite EN.
  - intros x. destruct (ET x) as [-> ->]. rewrite ER. apply Ht.
  - rewrite ER, EP, EB. eapply rinv_same; [exact Hrep|done|done|]. intros x _. destruct (decide (x = k)) as [->|Hne].
    + split; intros _; [by exists o0|by exists o1; apply Hk'].
    + split; intros [o Ho]; exists o; by apply HQ.
Qed.

Lemma conn_sends_listed h s c v k :
  kinv_with h s -> connections s !! c = Some v -> conn_sending v = Some k -> k ∈ queue_with h s (Waiting c).
Proof.
  intros Hk Hc Hs. destruct (c_send _ (k_conns _ Hk) c v k Hc Hs) as [Hw _]. by rewrite (waiting_queue s c v Hc).
Qed.

(** *** A request arrives *)
Lemma push_keeps h s a k d :
  kinv_with h s -> held h a = Some (k, Arriving d) ->
  wp (push_pending d k) (fun _ s' => kinv_with (without h a) s') s.
Proof.
  intros Hk Ha. destruct (k_hands _ Hk a k _ Ha) as (-> & Hd & Hl).
  pose proof Hk as [Hq Hn Hdi Hc Ht Hrep Hh]. destruct (d_devs _ Hdi d Hd) as [v Hv].
  assert (k ∈ queue_with h s (Hand (Submitter k))) as Hkq by (rewrite (hand_queue (inh := h) s _ _ _ Ha); by left).
  pose proof (pending_queue (inh := h) s d v Hd Hv) as HP.
  unfold push_pending. ksteps. set (s' := emit_event _ _).
  assert (forall o, queue_with (without h (Submitter k)) s' o =
    if decide (o = Hand (Submitter k)) then [] else if decide (o = Pending d) then dev_pending v ++ [k] else queue_with h s o) as HQ.
  { intros o. rewrite queue_drop. case_decide; [done|]. by apply (queue_of_dev (inh := h)). }
  assert (forall o, k ∈ queue_with h s o -> o = Hand (Submitter k)) as Hko by (intros o Ho; by eapply (q_disj _ _ _ _ Hq)).
  eapply (kinv_relist h _ s _ k (Hand (Submitter k)) (Pending d)); try done.
  - intros x. unfold s'; kfields. rewrite !tally_app. simpl. lia.
  - intros o. rewrite HQ. case_decide as Eo; [right; by apply NoDup_nil|]. case_decide as Eo2; [right|by left].
    rewrite <- HP. apply NoDup_app. split_and!; [by apply (q_nodup _ _ _ _ Hq)| |by apply NoDup_singleton].
    intros x Hx ->%list_elem_of_singleton. by apply Hko in Hx.
  - intros o x Hx. rewrite HQ. case_decide as Eo.
    + subst o. rewrite (hand_queue (inh := h) s _ _ _ Ha), list_elem_of_singleton. split; [by intros ?%elem_of_nil|done].
    + case_decide as Eo2; [|done]. subst o. rewrite HP, elem_of_app, list_elem_of_singleton. tauto.
  - intros o. rewrite HQ. case_decide as Eo; [subst o; split; [by intros ?%elem_of_nil|done]|].
    case_decide as Eo2; [|split; [intros Ho; by apply Hko in Ho|done]].
    split; [done|]. intros _. apply elem_of_app. right. by apply list_elem_of_singleton.
  - eapply dinv_same; [exact Hdi|done|done|]. intros x. unfold s'; kfields. destruct (decide (x = d)) as [->|]; [|by rewrite lookup_insert_ne].
    by rewrite lookup_insert_eq, Hv.
  - by split; apply Hc.
  - by eapply hinv_drop.
Qed.

(** *** A reader takes the first pending request *)
Record takes s (c dev : Z) (w : list Z) (d : bius_block_device) (k : Z) (rest : list Z) : Prop := {
  tk_conn : connections s !! c = Some (Connection (Some dev) w None);
  tk_dev : devices s !! dev = Some d;
  tk_pending : dev_pending d = k :: rest }.
Definition take_state s (dev : Z) (d : bius_block_device) (rest : list Z) : kstate :=
  set_devices <[dev := dev_with_pending d rest]> s.

Lemma take_keeps h s c dev w d k rest n :
  kinv_with h s -> held h (User c) = None -> takes s c dev w d k rest -> (is_report (pdus s) k -> 0 < n) ->
  kinv_with (holding h (User c) k (Taken n)) (take_state s dev d rest).
Proof.
  intros Hk Hidle [Hc Hd Hp] Hroom. pose proof Hk as [Hq Hn Hdi Hcinv Ht Hrep Hh].
  pose proof (d_conn _ Hdi _ _ dev Hc eq_refl) as Hin. pose proof (pending_queue (inh := h) s dev d Hin Hd) as HP. rewrite Hp in HP.
  assert (k ∈ queue_with h s (Pending dev)) as Hkq by (rewrite HP; by left).
  pose proof (q_nodup _ _ _ _ Hq (Pending dev)) as Hnd. rewrite HP in Hnd. apply NoDup_cons in Hnd as [Hkr Hnd].
  pose proof (q_listed _ _ _ _ Hq _ _ Hkq) as Hl.
  assert (forall o, queue_with (holding h (User c) k (Taken n)) (take_state s dev d rest) o =
    if decide (o = Hand (User c)) then [k] else if decide (o = Pending dev) then rest else queue_with h s o) as HQ.
  { intros o. rewrite queue_take. case_decide; [done|]. by apply (queue_of_dev (inh := h)). }
  assert (forall o, k ∈ queue_with h s o -> o = Pending dev) as Hko by (intros o Ho; by eapply (q_disj _ _ _ _ Hq)).
  assert (queue_with h s (Hand (User c)) = []) as Hempty by (unfold queue, queue_of; unfold held in Hidle; by rewrite Hidle).
  eapply (kinv_relist h _ s _ k (Pending dev) (Hand (User c))); try done.
  - intros o. rewrite HQ. case_decide; [right; apply NoDup_singleton|]. case_decide; [by right|by left].
  - intros o x Hx. rewrite HQ. case_decide as Eo.
    + subst o. rewrite Hempty, list_elem_of_singleton. split; [done|by intros ?%elem_of_nil].
    + case_decide as Eo2; [|done]. subst o. rewrite HP, elem_of_cons. tauto.
  - intros o. rewrite HQ. case_decide as Eo; [subst o; split; [done|intros _; by apply list_elem_of_singleton]|].
    case_decide as Eo2; [split; [by intros ?%Hkr|done]|]. split; [intros Ho; by apply Hko in Ho|done].
  - destruct Hl as [|(r & b & rq & Hl & _)]; [by left|right; by exists r, b, rq].
  - eapply dinv_same; [exact Hdi|done|done|]. intros x. unfold take_state; kfields. destruct (decide (x = dev)) as [->|]; [|by rewrite lookup_insert_ne].
    by rewrite lookup_insert_eq, Hd.
  - by split; apply Hcinv.
  - apply hinv_take; [exact Hh|]. by exists c, dev, w.
Qed.

(** Without it in hand: the state in which the request was still pending. *)
Lemma untake_keeps h s c dev w d k n :
  kinv_with h s -> held h (User c) = Some (k, Taken n) ->
  connections s !! c = Some (Connection (Some dev) w None) -> devices s !! dev = Some d ->
  listed (blk_rqs s) (pdus s) (Pending dev) k ->
  kinv_with (without h (User c)) (take_state s dev d (k :: dev_pending d)).
Proof.
  intros Hk Ha Hc Hd Hl. pose proof Hk as [Hq Hn Hdi Hcinv Ht Hrep Hh].
  pose proof (d_conn _ Hdi _ _ dev Hc eq_refl) as Hin. pose proof (pending_queue (inh := h) s dev d Hin Hd) as HP.
  assert (k ∈ queue_with h s (Hand (User c))) as Hkq by (rewrite (hand_queue (inh := h) s _ _ _ Ha); by left).
  assert (forall o, k ∈ queue_with h s o -> o = Hand (User c)) as Hko by (intros o Ho; by eapply (q_disj _ _ _ _ Hq)).
  assert (k ∉ dev_pending d) as Hkd by (rewrite <- HP; intros Ho; by apply Hko in Ho).
  assert (forall o, queue_with (without h (User c)) (take_state s dev d (k :: dev_pending d)) o =
    if decide (o = Hand (User c)) then [] else if decide (o = Pending dev) then k :: dev_pending d else queue_with h s o) as HQ.
  { intros o. rewrite queue_drop. case_decide; [done|]. by apply (queue_of_dev (inh := h)). }
  eapply (kinv_relist h _ s _ k (Hand (User c)) (Pending dev)); try done.
  - intros o. rewrite HQ. case_decide; [right; by apply NoDup_nil|]. case_decide; [right|by left].
    apply NoDup_cons. split; [done|]. rewrite <- HP. apply (q_nodup _ _ _ _ Hq).
  - intros o x Hx. rewrite HQ. case_decide as Eo.
    + subst o. rewrite (hand_queue (inh := h) s _ _ _ Ha), list_elem_of_singleton. split; [by intros ?%elem_of_nil|done].
    + case_decide as Eo2; [|done]. subst o. rewrite HP, elem_of_cons. tauto.
  - intros o. rewrite HQ. case_decide as Eo; [subst o; split; [by intros ?%elem_of_nil|done]|].
    case_decide as Eo2; [|split; [intros Ho; by apply Hko in Ho|done]]. split; [done|]. intros _. by left.
  - eapply dinv_same; [exact Hdi|done|done|]. intros x. unfold take_state; kfields. destruct (decide (x = dev)) as [->|]; [|by rewrite lookup_insert_ne].
    by rewrite lookup_insert_eq, Hd.
  - by split; apply Hcinv.
  - by apply hinv_drop.
Qed.
Lemma retake s dev d l : devices s !! dev = Some d ->
  take_state (take_state s dev d l) dev (dev_with_pending d l) (dev_pending d) = s.
Proof.
  intros Hd. unfold take_state. apply kstate_ext; kfields; try done. rewrite insert_insert_eq.
  destruct d; by apply insert_id.
Qed.

(** What a submitter has in hand is the request it submits. *)
Lemma submitter_free h s k o :
  kinv_with h s -> k ∈ queue_with h s o -> o <> Hand (Submitter k) -> held h (Submitter k) = None.
Proof.
  intros Hk Ho Hne. destruct (held h (Submitter k)) as [[k' x]|] eqn:E; [|done]. exfalso. apply Hne.
  pose proof (k_hands _ Hk _ _ _ E) as Hok. destruct x as [d|n|n]; cbn [hand_ok] in Hok.
  - destruct Hok as ([= ->] & _). eapply (q_disj _ _ _ _ (k_queues _ Hk)); [exact Ho|].
    rewrite (hand_queue (inh := h) s _ _ _ E). by left.
  - by destruct Hok as (? & ? & ? & ? & _).
  - by destruct Hok as [(? & ? & ? & ? & ? & _) _].
Qed.
(** The state in which the request that arrived last had not joined the list yet. *)
Lemma unpush_keeps h s s' d v k l :
  kinv_with h s -> d ∈ all_disk_list s -> devices s !! d = Some v -> dev_pending v = l ++ [k] ->
  next_request_id s' = next_request_id s -> blk_rqs s' = blk_rqs s -> pdus s' = pdus s -> kbufs s' = kbufs s ->
  all_disk_list s' = all_disk_list s -> connections s' = connections s ->
  devices s' = <[d := dev_with_pending v l]> (devices s) ->
  (forall x, tally (ev_starts x) (trace s') = tally (ev_starts x) (trace s) /\
     tally (ev_ends x) (trace s') = tally (ev_ends x) (trace s)) ->
  kinv_with (holding h (Submitter k) k (Arriving d)) s'.
Proof.
  intros Hk Hin Hv Hp EN ER EP EB EL EC ED ET. pose proof Hk as [Hq Hn Hdi Hcinv Ht Hrep Hh].
  pose proof (pending_queue (inh := h) s d v Hin Hv) as HP. rewrite Hp in HP.
  assert (k ∈ queue_with h s (Pending d)) as Hkq by (rewrite HP, elem_of_app; right; by left).
  pose proof (q_nodup _ _ _ _ Hq (Pending d)) as Hnd. rewrite HP in Hnd. apply NoDup_app in Hnd as (Hnd & Hkl & _).
  assert (forall o, k ∈ queue_with h s o -> o = Pending d) as Hko by (intros o Ho; by eapply (q_disj _ _ _ _ Hq)).
  assert (queue_with h s (Hand (Submitter k)) = []) as Hempty.
  { unfold queue, queue_of. pose proof (submitter_free h s k _ Hk Hkq ltac:(done)) as Hf. unfold held in Hf. by rewrite Hf. }
  assert (forall o, queue_with (holding h (Submitter k) k (Arriving d)) s' o =
    if decide (o = Hand (Submitter k)) then [k] else if decide (o = Pending d) then l else queue_with h s o) as HQ.
  { intros o. rewrite queue_take. case_decide; [done|]. unfold queue. rewrite EL, ED, EC. by apply (queue_of_dev (inh := h)). }
  eapply (kinv_relist h _ s _ k (Pending d) (Hand (Submitter k))); try done.
  - intros o. rewrite HQ. case_decide; [right; apply NoDup_singleton|]. case_decide; [by right|by left].
  - intros o x Hx. rewrite HQ. case_decide as Eo.
    + subst o. rewrite Hempty, list_elem_of_singleton. split; [done|by intros ?%elem_of_nil].
    + case_decide as Eo2; [|done]. subst o. rewrite HP, elem_of_app, list_elem_of_singleton. tauto.
  - intros o. rewrite HQ. case_decide as Eo; [subst o; split; [done|intros _; by apply list_elem_of_singleton]|].
    case_decide as Eo2; [|split; [intros Ho; by apply Hko in Ho|done]].
    split; [|done]. intros Hkl'. exfalso. apply (Hkl k Hkl'). by left.
  - destruct (q_listed _ _ _ _ Hq _ _ Hkq) as [|(r & b & rq & Hl & _)]; [by left|right; by exists r, b, rq].
  - eapply dinv_same; [exact Hdi|done|by rewrite EC|]. intros x. rewrite ED. destruct (decide (x = d)) as [->|]; [|by rewrite lookup_insert_ne].
    by rewrite lookup_insert_eq, Hv.
  - destruct Hcinv as [Hs Hi]. split; rewrite EC, ?ER, ?EP; [exact Hs|exact Hi].
  - apply hinv_take.
    + eapply (hinv_frame (inh := h) s); [exact Hh|by rewrite EC|by rewrite EL|by rewrite EP, ER].
    + split_and!; [done|by rewrite EL|]. rewrite ER, EP. by eapply q_listed.
Qed.

Lemma queue_prepare_keeps h s d k rq :
  kinv_with h s -> kop_ok (inh := h) s (OpQueue d k rq) ->
  wp (_ ← modify (set_blk_rqs <[k := rq]>); queue_prepare k) (fun type s' =>
    type <> BIUS_INVALID_OP /\ kinv_with (holding h (Submitter k) k (Arriving d)) s') s.
Proof.
  intros Hk Hok. pose proof (queue_step (inh := h) s d k rq Hk Hok) as Hstep. pose proof Hok as (_ & _ & Hin & [Hop _] & _).
  destruct (d_devs _ (k_devices _ Hk) d Hin) as [v Hv].
  cbn [run_kop] in Hstep. apply wp_inv in Hstep as ([] & s2 & Hrun & Hk2). unfold mbind, ST_bind, modify in Hrun.
  rewrite (queue_rq_supported d k rq v) in Hrun by (done || apply lookup_insert_eq). injection Hrun as <-.
  ksteps. unfold queue_prepare. eapply wp_bind, wp_get_rq; [apply lookup_insert_eq|]. cbv beta zeta. ksteps. unfold inc_request_id. ksteps.
  split; [done|]. eapply (unpush_keeps h _ _ d (dev_with_pending v (dev_pending v ++ [k])) k (dev_pending v));
    [exact Hk2|exact Hin|apply lookup_insert_eq|done|done|done|done|done|done|done| |].
  - kfields. unfold queued; kfields. rewrite insert_insert_eq. symmetry. destruct v. by apply insert_id.
  - intros x. kfields. unfold queued; kfields. rewrite !tally_app. simpl. lia.
Qed.
Lemma report_prepare_keeps h s d sector nr_zones blkz kreq :
  kinv_with h s -> kop_ok (inh := h) s (OpReport d sector nr_zones blkz kreq) ->
  wp (report_prepare sector (Z.min nr_zones BIUS_MAX_ZONES) blkz kreq)
    (fun _ s' => kinv_with (holding h (Submitter kreq) kreq (Arriving d)) s') s.
Proof.
  intros Hk Hok. pose proof (report_step (inh := h) s d sector nr_zones blkz kreq Hk Hok) as Hstep.
  pose proof Hok as (_ & _ & _ & Hin & _). destruct (d_devs _ (k_devices _ Hk) d Hin) as [v Hv].
  cbn [run_kop] in Hstep. apply wp_inv in Hstep as ([] & s2 & Hrun & Hk2).
  rewrite (report_submit_spec _ _ _ _ _ v) in Hrun by done. injection Hrun as <-.
  unfold report_prepare, inc_request_id. ksteps.
  eapply (unpush_keeps h _ _ d (dev_with_pending v (dev_pending v ++ [kreq])) kreq (dev_pending v));
    [exact Hk2|exact Hin|apply lookup_insert_eq|done|done|done|done|done|done|done| |].
  - kfields. unfold report_queued; kfields. rewrite insert_insert_eq. symmetry. destruct v. by apply insert_id.
  - intros x. kfields. unfold report_queued; kfields. rewrite !tally_app. simpl. lia.
Qed.

(** *** A reader hands the request it took to its process *)
Lemma dispatch_keeps h s c pad1 pad2 to k :
  kinv_with h s -> held h (User c) = Some (k, Taken (iov_avail to)) -> length pad1 = 4%nat -> length pad2 = 4%nat ->
  wp (read_dispatch c pad1 pad2 k to) (fun _ s' => kinv_with (without h (User c)) s') s.
Proof.
  intros Hk Ha Hp1 Hp2. destruct (k_hands _ Hk _ _ _ Ha) as (c' & dev & w & [= <-] & Hc & Hl & Hrep).
  destruct (d_devs _ (k_devices _ Hk) dev (d_conn _ (k_devices _ Hk) _ _ dev Hc eq_refl)) as [d Hd].
  pose proof (untake_keeps h s c dev w d k _ Hk Ha Hc Hd Hl) as Hk0.
  set (s0 := take_state s dev d (k :: dev_pending d)) in *.
  assert (devices s0 !! dev = Some (dev_with_pending d (k :: dev_pending d))) as Hd0 by apply lookup_insert_eq.
  destruct (q_id _ _ _ _ (k_queues _ Hk) (Hand (User c)) k) as (r & Hr & _).
  { rewrite (hand_queue (inh := h) s _ _ _ Ha). by left. }
  assert (dev ∈ all_disk_list s0) as Hin0 by exact (d_conn _ (k_devices _ Hk) _ _ dev Hc eq_refl).
  assert (ready_to_read s0 c dev w (dev_with_pending d (k :: dev_pending d)) k (dev_pending d) r) as Hready.
  { eapply (kinv_ready (inh := without h (User c))); try done. rewrite (pending_queue (inh := without h (User c)) s0 dev _ Hin0 Hd0). by left. }
  assert (idle_user (inh := without h (User c)) c) as Hidle by apply lookup_delete_eq.
  rewrite <- (retake s dev d (k :: dev_pending d) Hd). fold s0. unfold take_state.
  destruct (decide (iov_avail to = 0)) as [Hz|Hz].
  - destruct Hl as [Hrp|(r' & b & rq & Hl & _)]; [specialize (Hrep Hrp); lia|]. assert (r' = r) as -> by (destruct Hl; congruence).
    eapply wp_mono; [by eapply dispatch_fails_spec; eauto using live_blk_request|].
    intros res s' (_ & _ & b' & _ & ->). by eapply failed_kinv.
  - eapply wp_mono; [eapply (read_dispatch_spec pad1 pad2 to s0 c dev w); try done; pose proof (iov_avail_range to); lia|].
    intros res s' (_ & _ & ->). by apply dispatched_kinv.
Qed.

(** *** The reply of a process *)

(** The lists of connection [c] change, of request [k] only. *)
Lemma cinv_conn s c v v' :
  cinv s -> connections s !! c = Some v -> conn_block_dev v' <> None ->
  (forall x, conn_sending v' = Some x -> conn_sending v = Some x /\ x ∈ conn_waiting v') ->
  cinv (set_conns <[c := v']> s).
Proof.
  intros [Hs Hi] Hc Hdev Hsnd. split; kfields; intros c' y.
  - intros x. destruct (decide (c' = c)) as [->|Hne]; [|rewrite lookup_insert_ne by done; eauto].
    rewrite lookup_insert_eq. intros [= <-] Hx. destruct (Hsnd x Hx) as [Hx' Hw].
    destruct (Hs c v x Hc Hx') as [_ Hl]. by split.
  - destruct (decide (c' = c)) as [->|Hne]; [|rewrite lookup_insert_ne by done; eauto].
    rewrite lookup_insert_eq. by intros [= <-].
Qed.

Lemma answer_keeps h s c dev w snd k n :
  kinv_with h s -> held h (User c) = None -> connections s !! c = Some (Connection (Some dev) w snd) -> k ∈ w ->
  (forall r i, pdus s !! k = Some r -> req_u r = UInt i -> - 2 ^ 31 <= n <= sizeof_blk_zone * req_length r) ->
  kinv_with (holding h (User c) k (Answered n)) (set_conns <[c := answered_conn dev w snd k]> s).
Proof.
  intros Hk Hidle Hc Hkw Hreply. pose proof Hk as [Hq Hn Hdi Hcinv Ht Hrep Hh].
  pose proof (waiting_queue (inh := h) s c _ Hc) as HW. cbn [conn_waiting] in HW.
  assert (k ∈ queue_with h s (Waiting c)) as Hkq by by rewrite HW.
  pose proof (q_nodup _ _ _ _ Hq (Waiting c)) as Hnd. rewrite HW in Hnd.
  assert (forall o, k ∈ queue_with h s o -> o = Waiting c) as Hko by (intros o Ho; by eapply (q_disj _ _ _ _ Hq)).
  assert (queue_with h s (Hand (User c)) = []) as Hempty by (unfold queue, queue_of; unfold held in Hidle; by rewrite Hidle).
  set (s' := set_conns _ _).
  assert (forall o, queue_with (holding h (User c) k (Answered n)) s' o =
    if decide (o = Hand (User c)) then [k] else if decide (o = Waiting c) then list_del k w else queue_with h s o) as HQ.
  { intros o. rewrite queue_take. case_decide; [done|]. by apply (queue_of_conn (inh := h)). }
  eapply (kinv_relist h _ s _ k (Waiting c) (Hand (User c))); try done.
  - intros o. rewrite HQ. case_decide; [right; apply NoDup_singleton|]. case_decide; [right; by apply NoDup_list_del|by left].
  - intros o x Hx. rewrite HQ. case_decide as Eo.
    + subst o. rewrite Hempty, list_elem_of_singleton. split; [done|by intros ?%elem_of_nil].
    + case_decide as Eo2; [|done]. subst o. rewrite HW, elem_of_list_del. tauto.
  - intros o. rewrite HQ. case_decide as Eo; [subst o; split; [done|intros _; by apply list_elem_of_singleton]|].
    case_decide as Eo2; [rewrite elem_of_list_del; tauto|]. split; [intros Ho; by apply Hko in Ho|done].
  - destruct (q_listed _ _ _ _ Hq _ _ Hkq) as [|(r & b & rq & Hl & _)]; [by left|right; by exists r, b, rq].
  - eapply dinv_same; [exact Hdi|done| |done]. intros x. unfold s'; kfields. destruct (decide (x = c)) as [->|]; [|by rewrite lookup_insert_ne].
    by rewrite lookup_insert_eq, Hc.
  - eapply cinv_conn; [exact Hcinv|exact Hc|done|]. unfold answered_conn; kfields. intros x.
    case_bool_decide as Hsk; [done|]. intros Hx. split; [done|]. apply elem_of_list_del.
    destruct (c_send _ Hcinv c _ x Hc Hx) as [Hxw _]. split; [done|congruence].
  - apply hinv_take.
    + eapply (hinv_frame (inh := h) s); [exact Hh| |done|done]. by apply (idle_conns (inh := h)).
    + split; [|exact Hreply]. eexists c, dev, _, _. split; [done|]. unfold s'; kfields. apply lookup_insert_eq.
Qed.

(** The state in which the connection still waited for the request in hand. *)
Lemma unanswer_keeps h s c dev w snd k n :
  kinv_with h s -> held h (User c) = Some (k, Answered n) -> connections s !! c = Some (Connection (Some dev) w snd) ->
  let s0 := set_conns <[c := Connection (Some dev) (k :: w) snd]> s in
  kinv_with (without h (User c)) s0 /\ set_conns <[c := answered_conn dev (k :: w) snd k]> s0 = s.
Proof.
  intros Hk Ha Hc s0. pose proof Hk as [Hq Hn Hdi Hcinv Ht Hrep Hh].
  pose proof (waiting_queue (inh := h) s c _ Hc) as HW. cbn [conn_waiting] in HW.
  assert (k ∈ queue_with h s (Hand (User c))) as Hkq by (rewrite (hand_queue (inh := h) s _ _ _ Ha); by left).
  assert (forall o, k ∈ queue_with h s o -> o = Hand (User c)) as Hko by (intros o Ho; by eapply (q_disj _ _ _ _ Hq)).
  assert (k ∉ w) as Hkw by (rewrite <- HW; intros Ho; by apply Hko in Ho).
  assert (forall o, queue_with (without h (User c)) s0 o =
    if decide (o = Hand (User c)) then [] else if decide (o = Waiting c) then k :: w else queue_with h s o) as HQ.
  { intros o. rewrite queue_drop. case_decide; [done|]. by apply (queue_of_conn (inh := h)). }
  assert (snd <> Some k) as Hsk.
  { intros ->. destruct (c_send _ Hcinv c _ k Hc eq_refl) as [Hw _]. done. }
  split.
  - eapply (kinv_relist h _ s _ k (Hand (User c)) (Waiting c)); try done.
    + intros o. rewrite HQ. case_decide; [right; by apply NoDup_nil|]. case_decide; [right|by left].
      apply NoDup_cons. split; [done|]. rewrite <- HW. apply (q_nodup _ _ _ _ Hq).
    + intros o x Hx. rewrite HQ. case_decide as Eo.
      * subst o. rewrite (hand_queue (inh := h) s _ _ _ Ha), list_elem_of_singleton. split; [by intros ?%elem_of_nil|done].
      * case_decide as Eo2; [|done]. subst o. rewrite HW, elem_of_cons. tauto.
    + intros o. rewrite HQ. case_decide as Eo; [subst o; split; [by intros ?%elem_of_nil|done]|].
      case_decide as Eo2; [|split; [intros Ho; by apply Hko in Ho|done]]. split; [done|]. intros _. by left.
    + destruct (q_listed _ _ _ _ Hq _ _ Hkq) as [|(r & b & rq & Hl & _)]; [by left|right; by exists r, b, rq].
    + eapply dinv_same; [exact Hdi|done| |done]. intros x. unfold s0; kfields. destruct (decide (x = c)) as [->|]; [|by rewrite lookup_insert_ne].
      by rewrite lookup_insert_eq, Hc.
    + eapply cinv_conn; [exact Hcinv|exact Hc|done|]. kfields. intros x Hx. split; [done|].
      destruct (c_send _ Hcinv c _ x Hc Hx) as [Hxw _]. by right.
    + eapply (hinv_frame (inh := without h (User c)) s); [by apply hinv_drop| |done|done].
      apply (idle_conns (inh := without h (User c))). apply lookup_delete_eq.
  - unfold s0. apply kstate_ext; kfields; try done. rewrite insert_insert_eq. apply insert_id. rewrite Hc. f_equal.
    pose proof (q_nodup _ _ _ _ Hq (Waiting c)) as Hnd. rewrite HW in Hnd.
    unfold answered_conn. rewrite list_del_head by (by apply NoDup_cons). by rewrite bool_decide_eq_false_2.
Qed.

Lemma finish_keeps h s um c k hd n :
  kinv_with h s -> held h (User c) = Some (k, Answered (u2k_reply hd)) ->
  wp (answer_finish um k hd n) (fun _ s' => kinv_with (without h (User c)) s') s.
Proof.
  intros Hk Ha. destruct (k_hands _ Hk _ _ _ Ha) as [(c' & dev & w & snd & [= <-] & Hc) Hreply].
  destruct (unanswer_keeps h s c dev w snd k _ Hk Ha Hc) as [Hk0 Hs]. set (s0 := set_conns _ s) in *.
  assert (connections s0 !! c = Some (Connection (Some dev) (k :: w) snd)) as Hc0 by apply lookup_insert_eq.
  assert (idle_user (inh := without h (User c)) c) as Hidle by apply lookup_delete_eq.
  assert (k ∈ k :: w) as Hkw by by left.
  assert (k ∈ queue_with h s (Hand (User c))) as Hkq by (rewrite (hand_queue (inh := h) s _ _ _ Ha); by left).
  destruct (q_id _ _ _ _ (k_queues _ Hk) _ k Hkq) as (r & Hr & _).
  unfold answer_finish. ksteps. destruct (q_listed _ _ _ _ (k_queues _ Hk) _ k Hkq) as [Hrp|(r' & b & rq & Hl & _)].
  - pose proof Hrp as (r' & i & Hr' & Hu). assert (r' = r) as -> by congruence.
    pose proof (r_wf _ _ _ _ (k_reports _ Hk) k r i Hr Hu) as Hwf.
    rewrite (rw_type _ _ _ Hwf). change (is_blk_request BIUS_REPORT_ZONES) with false. cbv iota.
    eapply wp_mono; [by eapply reply_int_any, Hreply|]. intros res s' (v & Hans). rewrite <- Hs in Hans.
    by eapply (answered_report_kinv (inh := without h (User c)) s0 s' c dev (k :: w) snd k r i v).
  - pose proof Hl as [Hr' _ _ _ _ Hblk _]. assert (r' = r) as -> by congruence. rewrite Hblk.
    eapply wp_mono; [by eapply reply_blk_any|]. intros res s' Hcp. rewrite <- Hs in Hcp.
    eapply (replied_kinv (inh := without h (User c)) s0 s' c dev (k :: w) snd k); try done.
    by eapply (live_no_report _ _ _ _ _ _ Hl).
Qed.

(** ** What the first halves return *)
Lemma read_take_request c to s k s' :
  read_take c to s = Ret (inr k, s') ->
  exists dev w d rest, takes s c dev w d k rest /\ s' = take_state s dev d rest.
Proof.
  unfold read_take, get_conn, gets, mbind, ST_bind. destruct (connections s !! c) as [[[dev|] w [x|]]|] eqn:Hc; try done;
    cbn [deref mret ST_ret conn_block_dev conn_sending].
  - by destruct (read_payload c x to s) as [[res s1]| |].
  - destruct (_ <? _); [done|]. cbn [wait_pending]. unfold get_dev, gets, mbind, ST_bind.
    destruct (devices s !! dev) as [d|] eqn:Hd; [|done]. cbn [deref mret ST_ret].
    destruct (dev_pending d) as [|y rest] eqn:Hp; [done|]. cbn [mret ST_ret].
    rewrite Hd. cbn [deref mret ST_ret]. rewrite Hp. intros [= -> <-]. exists dev, w, d, rest. done.
Qed.
Lemma read_take_keeps h s c pad1 pad2 to :
  kinv_with h s -> kop_ok (inh := h) s (OpRead c pad1 pad2 to) -> held h (User c) = None ->
  safe (read_take c to) (fun x s' => match x with
    | inl _ => kinv_with h s'
    | inr k => kinv_with (holding h (User c) k (Taken (iov_avail to))) s' end) s.
Proof.
  intros Hk Hok Hidle. pose proof (read_step (inh := h) s c pad1 pad2 to Hk Hok Hidle) as Hstep.
  unfold safe in *. cbn [run_kop] in Hstep. unfold mbind, ST_bind in Hstep. rewrite dev_read_halves in Hstep. unfold mbind, ST_bind in Hstep.
  destruct (read_take c to s) as [[[res|k] s']| |] eqn:Htake; [exact Hstep| |done|done].
  apply read_take_request in Htake as (dev & w & d & rest & Ht & ->). eapply take_keeps; try done.
  intros Hrep. apply Hok. destruct Ht as [Hc Hd Hp]. by exists dev, w, d, k, rest.
Qed.

Lemma write_take_request um e c stack from s k hd n s' :
  write_take um e c stack from s = Ret (inr (k, hd, n), s') ->
  (forall v, connections s !! c = Some v -> forall x, x ∈ conn_waiting v -> exists r, pdus s !! x = Some r) ->
  exists dev w snd r, connections s !! c = Some (Connection (Some dev) w snd) /\ k ∈ w /\ hd = written_header stack from /\
    pdus s !! k = Some r /\ req_id r = u2k_id hd /\ s' = set_conns <[c := answered_conn dev w snd k]> s.
Proof.
  unfold write_take. unfold mbind, ST_bind. unfold get_conn at 1, gets, mbind, ST_bind.
  destruct (connections s !! c) as [[o w snd]|] eqn:Hc; [|done]. cbn [deref mret ST_ret conn_block_dev conn_waiting conn_sending].
  destruct (_ <? _); [done|]. cbv zeta. destruct (_ <=? _); [done|]. destruct o as [dev|].
  - intros Hrun Hw. specialize (Hw _ eq_refl). cbn [conn_waiting] in Hw.
    destruct (get_request_by_id_any w (u2k_id (written_header stack from)) s Hw) as (o & Hget & Ho).
    unfold written_header in Hget. rewrite Hget in Hrun. destruct o as [x|]; [|done].
    destruct (Ho x eq_refl) as (Hx & r & Hr & Hid). injection Hrun as <- <- <- <-.
    exists dev, w, snd, r. split_and!; done.
  - by destruct (handle_initialization _ _ _ _ s) as [[res s1]| |].
Qed.
Lemma write_take_keeps h s um e c stack from :
  kinv_with h s -> kop_ok (inh := h) s (OpWrite um e c stack from) -> held h (User c) = None ->
  safe (write_take um e c stack from) (fun x s' => match x with
    | inl _ => kinv_with h s'
    | inr (k, hd, _) => kinv_with (holding h (User c) k (Answered (u2k_reply hd))) s' end) s.
Proof.
  intros Hk Hok Hidle. pose proof (wp_safe _ _ _ (write_step (inh := h) s um e c stack from Hk Hok Hidle)) as Hstep.
  unfold safe in *. cbn [run_kop] in Hstep. unfold mbind, ST_bind in Hstep. rewrite dev_write_halves in Hstep. unfold mbind, ST_bind in Hstep.
  destruct (write_take um e c stack from s) as [[[res|[[k hd] n]] s']| |] eqn:Htake; [exact Hstep| |done|done].
  apply write_take_request in Htake as (dev & w & snd & r & Hc & Hkw & -> & Hr & Hid & ->).
  - eapply answer_keeps; try done. intros r' i Hr' Hu. eapply (proj2 (proj2 (proj2 Hok))); [exact Hr'|exact Hu|congruence].
  - intros v Hv x Hx. destruct (q_id _ _ _ _ (k_queues _ Hk) (Waiting c) x) as (r & Hr & _); [|by exists r].
    by rewrite (waiting_queue (inh := h) s c v Hv).
Qed.
End keep.
