(* ===== verification/Interleaving.v ===== *)
(** * Several threads in the module

    Submitters and processes run at the same time: an operation stops between its two
    halves ([Segments.v]) and others run in the meantime, whole or in halves too.  As
    long as a connection has one thread, and no request is on its way to a device whose
    last connection is closing, the system invariant holds throughout.  Where these
    conditions fail the code does: three races at the end. *)
From S2P Require Import Prelude Protocol Linux Kernel Sample Command BlockDev CharDev CharDevProps Invariant StepsIO StepsReport StepsDev System Segments.

Section interleaving.
Context `{BL : BioLaws} `{IL : IovLaws} `{LCL : LinuxConstLaws}.

(** ** Threads *)

(** What a thread in the middle of an operation has to do yet. *)
Inductive activity :=
  | AArriving (d : Z)
  | ATaken (c : Z) (pad1 pad2 : list Z) (to : iov_iter)
  | AAnswered (um : user_mem) (header : bius_u2k_header) (ret : Z).
Abbreviation activities := (gmap actor (Z * activity)).
Record istate := IState { i_kernel : kstate; i_acts : activities }.
Abbreviation I := (ST istate).

Definition in_kernel {A} (m : ST kstate A) : I A := fun st =>
  match m (i_kernel st) with
  | Ret (a, s) => Ret (a, IState s (i_acts st))
  | NoFuel => NoFuel
  | Fault f => Fault f
  end.
Definition suspend (a : actor) (k : Z) (x : activity) : I unit :=
  modify (fun st => IState (i_kernel st) (<[a := (k, x)]> (i_acts st))).
Definition wind_up (k : Z) (x : activity) : ST kstate unit :=
  match x with
  | AArriving d => push_pending d k
  | ATaken c pad1 pad2 to => _ ← read_dispatch c pad1 pad2 k to; mret tt
  | AAnswered um header ret => _ ← answer_finish um k header ret; mret tt
  end.

(** [IWhole]: an operation nobody interrupts.  The next four stop after their first
    half, if there is a second one, and [IResume] runs that. *)
Inductive iop :=
  | IWhole (op : kop)
  | ISubmit (d k : Z) (rq : request)
  | IReport (d sector nr_zones blkz kreq : Z)
  | ITake (c : Z) (pad1 pad2 : list Z) (to : iov_iter)
  | IAnswer (um : user_mem) (e : create_env) (c : Z) (stack : list Z) (from : iov_iter)
  | IResume (a : actor).

Definition run_iop (op : iop) : I unit :=
  match op with
  | IWhole op => in_kernel (run_kop op)
  | ISubmit d k rq =>
      type ← in_kernel (_ ← modify (set_blk_rqs <[k := rq]>); queue_prepare k);
      if bool_decide (type = BIUS_INVALID_OP) then in_kernel (blk_mq_end_request k BLK_STS_NOTSUPP)
      else suspend (Submitter k) k (AArriving d)
  | IReport d sector nr_zones blkz kreq =>
      _ ← in_kernel (report_prepare sector (Z.min nr_zones BIUS_MAX_ZONES) blkz kreq);
      suspend (Submitter kreq) kreq (AArriving d)
  | ITake c pad1 pad2 to =>
      x ← in_kernel (read_take c to);
      match x with inl _ => mret tt | inr k => suspend (User c) k (ATaken c pad1 pad2 to) end
  | IAnswer um e c stack from =>
      x ← in_kernel (write_take um e c stack from);
      match x with
      | inl _ => mret tt
      | inr (k, header, ret) => suspend (User c) k (AAnswered um header ret)
      end
  | IResume a =>
      acts ← gets i_acts;
      match acts !! a with
      | None => mret tt
      | Some (k, x) =>
          _ ← modify (fun st => IState (i_kernel st) (delete a (i_acts st)));
          in_kernel (wind_up k x)
      end
  end.

(** The halves of an operation, and who runs them. *)
Definition halves (op : kop) : option (iop * actor) :=
  match op with
  | OpQueue d k rq => Some (ISubmit d k rq, Submitter k)
  | OpReport d sector nr_zones blkz kreq => Some (IReport d sector nr_zones blkz kreq, Submitter kreq)
  | OpRead c pad1 pad2 to => Some (ITake c pad1 pad2 to, User c)
  | OpWrite um e c stack from => Some (IAnswer um e c stack from, User c)
  | _ => None
  end.

(** The requests in hand. *)
Definition hand_of (x : activity) : hand :=
  match x with
  | AArriving d => Arriving d
  | ATaken _ _ _ to => Taken (iov_avail to)
  | AAnswered _ header _ => Answered (u2k_reply header)
  end.
Definition hands_of (acts : activities) : hands := (fun x => (x.1, hand_of x.2)) <$> acts.

(** What the module relies on, of an operation that starts: as when it runs alone, and
    that its thread is in no other operation. *)
Definition iop_ok (st : istate) (op : iop) : Prop :=
  let inh := hands_of (i_acts st) in
  let s := i_kernel st in
  match op with
  | IWhole op => kop_ok (inh := inh) s op /\ undisturbed (inh := inh) s op
  | ISubmit d k rq => kop_ok (inh := inh) s (OpQueue d k rq)
  | IReport d sector nr_zones blkz kreq => kop_ok (inh := inh) s (OpReport d sector nr_zones blkz kreq)
  | ITake c pad1 pad2 to => kop_ok (inh := inh) s (OpRead c pad1 pad2 to) /\ i_acts st !! User c = None
  | IAnswer um e c stack from => kop_ok (inh := inh) s (OpWrite um e c stack from) /\ i_acts st !! User c = None
  | IResume _ => True
  end.

Inductive ireachable : istate -> Prop :=
  | ir_init : ireachable (IState initial_kernel ∅)
  | ir_step st op st' : ireachable st -> iop_ok st op -> run_iop op st = Ret (tt, st') -> ireachable st'.

(** ** The invariant *)
Definition activity_wf (a : actor) (x : activity) : Prop :=
  match x with
  | ATaken c pad1 pad2 _ => a = User c /\ length pad1 = 4%nat /\ length pad2 = 4%nat
  | AArriving _ => exists k, a = Submitter k
  | AAnswered _ _ _ => exists c, a = User c
  end.
Record iinv (st : istate) : Prop := {
  i_kinv : kinv (inh := hands_of (i_acts st)) (i_kernel st);
  i_wf : map_Forall (fun a x => activity_wf a x.2) (i_acts st) }.

Lemma held_of acts a : held (hands_of acts) a = (fun x => (x.1, hand_of x.2)) <$> acts !! a.
Proof. apply lookup_fmap. Qed.
Lemma hands_suspend acts a k x : hands_of (<[a := (k, x)]> acts) = holding (hands_of acts) a k (hand_of x).
Proof. apply (fmap_insert (M := gmap actor) (fun x : Z * activity => (x.1, hand_of x.2)) acts a (k, x)). Qed.
Lemma hands_resume acts a : hands_of (delete a acts) = without (hands_of acts) a.
Proof. apply (fmap_delete (M := gmap actor) (fun x : Z * activity => (x.1, hand_of x.2)) acts a). Qed.

(** A computation inside the kernel. *)
Lemma in_kernel_safe {A} (m : ST kstate A) Q st :
  safe m (fun a s => Q a (IState s (i_acts st))) (i_kernel st) -> safe (in_kernel m) Q st.
Proof. unfold safe, in_kernel. by destruct (m (i_kernel st)) as [[a s]| |]. Qed.
Lemma in_kernel_wp {A} (m : ST kstate A) Q st :
  wp m (fun a s => Q a (IState s (i_acts st))) (i_kernel st) -> wp (in_kernel m) Q st.
Proof. unfold wp, in_kernel. by destruct (m (i_kernel st)) as [[a s]| |]. Qed.
Lemma suspend_iinv st a k x :
  map_Forall (fun a x => activity_wf a x.2) (i_acts st) -> activity_wf a x ->
  kinv (inh := holding (hands_of (i_acts st)) a k (hand_of x)) (i_kernel st) ->
  safe (suspend a k x) (fun _ => iinv) st.
Proof.
  intros Hw Hx Hk. unfold safe, suspend, modify. split; cbn [i_kernel i_acts]; [by rewrite hands_suspend|].
  by apply map_Forall_insert_2.
Qed.

(** The second half always finishes, and the thread is in no operation any more. *)
Lemma resume_step st a : iinv st ->
  wp (run_iop (IResume a)) (fun _ st' => iinv st' /\ i_acts st' = delete a (i_acts st)) st.
Proof.
  intros [Hk Hw]. cbn [run_iop]. wp_steps. destruct (i_acts st !! a) as [[k x]|] eqn:Ha; cycle 1.
  { wp_steps. split; [done|]. by rewrite delete_id. }
  wp_steps. apply in_kernel_wp. cbn [i_kernel i_acts].
  assert (held (hands_of (i_acts st)) a = Some (k, hand_of x)) as Hh by by rewrite held_of, Ha.
  pose proof (Hw a _ Ha) as Hx. cbn [Datatypes.snd] in Hx.
  assert (forall s', kinv (inh := without (hands_of (i_acts st)) a) s' ->
    iinv (IState s' (delete a (i_acts st))) /\ i_acts (IState s' (delete a (i_acts st))) = delete a (i_acts st)) as Hend.
  { intros s' Hs'. split; [|done]. split; cbn [i_kernel i_acts]; [by rewrite hands_resume|by apply map_Forall_delete]. }
  destruct x as [d|c pad1 pad2 to|um hd n]; cbn [wind_up activity_wf hand_of] in *.
  - eapply wp_mono; [by eapply push_keeps|]. intros ? s' Hs'. by apply Hend.
  - destruct Hx as (-> & Hp1 & Hp2). apply wp_bind. eapply wp_mono; [by eapply dispatch_keeps|].
    intros ? s' Hs'. by apply wp_ret, Hend.
  - destruct Hx as [c ->]. apply wp_bind. eapply wp_mono; [by eapply (finish_keeps _ _ um c)|].
    intros ? s' Hs'. by apply wp_ret, Hend.
Qed.

Lemma iop_step st op : iinv st -> iop_ok st op -> safe (run_iop op) (fun _ => iinv) st.
Proof.
  intros Hi Hop. pose proof Hi as [Hk Hw].
  assert (forall s, kinv (inh := hands_of (i_acts st)) s -> iinv (IState s (i_acts st))) as Hsame by by split.
  assert (forall c, i_acts st !! User c = None -> held (hands_of (i_acts st)) (User c) = None) as Hfree
    by (intros c Hc; by rewrite held_of, Hc).
  destruct op as [op|d k rq|d sector nr_zones blkz kreq|c pad1 pad2 to|um e c stack from|a]; cbn [run_iop iop_ok] in *.
  - destruct Hop as [Hop Hu]. apply in_kernel_safe. eapply safe_weaken; [by eapply (kop_step (inh := hands_of (i_acts st)))|].
    intros [] s'. apply Hsame.
  - apply safe_seq, in_kernel_safe, wp_safe. eapply wp_mono; [by eapply queue_prepare_keeps|].
    intros type s' [Hty Hs']. cbv beta. rewrite bool_decide_eq_false_2 by done. apply suspend_iinv; [done|by exists k|done].
  - apply safe_seq, in_kernel_safe, wp_safe. eapply wp_mono; [by eapply report_prepare_keeps|].
    intros [] s' Hs'. apply suspend_iinv; [done|by exists kreq|done].
  - destruct Hop as [Hop Hidle]. pose proof Hop as (_ & Hp1 & Hp2 & _). apply safe_seq, in_kernel_safe.
    eapply safe_weaken; [by eapply read_take_keeps; [..|by apply Hfree]|].
    intros [res|k] s' Hs'; [by apply Hsame|by apply suspend_iinv].
  - destruct Hop as [Hop Hidle]. apply safe_seq, in_kernel_safe.
    eapply safe_weaken; [by eapply write_take_keeps; [..|by apply Hfree]|].
    intros [res|[[k hd] n]] s' Hs'; [by apply Hsame|]. apply suspend_iinv; [done|by exists c|done].
  - apply wp_safe. eapply wp_mono; [by apply resume_step|]. by intros ? ? [? _].
Qed.

Lemma initial_iinv : iinv (IState initial_kernel ∅).
Proof.
  split; [|apply map_Forall_empty]. cbn [i_kernel i_acts].
  assert (hands_of ∅ = nobody) as -> by apply (fmap_empty (M := gmap actor)). apply initial_kinv.
Qed.
Lemma ireachable_iinv st : ireachable st -> iinv st.
Proof.
  induction 1 as [|st op st' _ IH Hop Hrun]; [apply initial_iinv|].
  pose proof (iop_step st op IH Hop) as Hs. unfold safe in Hs. by rewrite Hrun in Hs.
Qed.



(** Let the threads finish, in some order. *)
Fixpoint settle (l : list actor) : I unit :=
  match l with
  | [] => mret tt
  | a :: l' => _ ← run_iop (IResume a); settle l'
  end.
Lemma settle_spec l st :
  iinv st -> wp (settle l) (fun _ st' => iinv st' /\ forall a, i_acts st' !! a = if decide (a ∈ l) then None else i_acts st !! a) st.
Proof.
  revert st. induction l as [|a l IH]; intros st Hi; cbn [settle].
  { apply wp_ret. split; [done|]. intros a. rewrite decide_False; [done|apply not_elem_of_nil]. }
  apply wp_bind. eapply wp_mono; [by apply resume_step|]. intros [] st1 [Hi1 Ha1].
  eapply wp_mono; [by apply IH|]. intros [] st2 [Hi2 Ha2]. split; [done|]. intros b. rewrite Ha2, Ha1.
  destruct (decide (b ∈ l)) as [Hb|Hb]; [rewrite decide_True; [done|by right]|].
  destruct (decide (b = a)) as [->|Hne].
  - rewrite lookup_delete_eq, decide_True; [done|by left].
  - rewrite lookup_delete_ne, decide_False; [done| |done]. by intros [|]%elem_of_cons.
Qed.


(** Running on from where a thread was suspended, or was not. *)
Lemma seq_assoc {A B C} (m : I A) (f : A -> I B) (g : B -> I C) st :
  ((m ≫= f) ≫= g) st = (x ← m; y ← f x; g y) st.
Proof. unfold mbind, ST_bind. by destruct (m st) as [[a s]| |]. Qed.
Lemma in_kernel_acts {A} (m : ST kstate A) st a st' : in_kernel m st = Ret (a, st') -> i_acts st' = i_acts st.
Proof. unfold in_kernel. destruct (m (i_kernel st)) as [[x s]| |]; [|done..]. by intros [= <- <-]. Qed.
(** A kernel operation in two parts: the thread goes on with the second. *)
Lemma whole_is {A} (op : ST kstate unit) (m : ST kstate A) (f : A -> ST kstate unit) (g : A -> I unit) st :
  op (i_kernel st) = (m ≫= f) (i_kernel st) ->
  (forall a st', i_acts st' = i_acts st -> g a st' = in_kernel (f a) st') ->
  (in_kernel m ≫= g) st = in_kernel op st.
Proof.
  intros Hop Hg. unfold in_kernel at 2. rewrite Hop. unfold in_kernel, mbind, ST_bind.
  destruct (m (i_kernel st)) as [[a s]| |]; [|done..]. by rewrite Hg.
Qed.
Lemma suspend_resume a k x st :
  i_acts st !! a = None -> (_ ← suspend a k x; run_iop (IResume a)) st = in_kernel (wind_up k x) st.
Proof.
  destruct st as [s acts]. cbn [i_acts run_iop]. intros Ha. unfold suspend, gets, modify, mbind, ST_bind. cbn [i_acts i_kernel].
  rewrite lookup_insert_eq. cbn [i_acts i_kernel]. by rewrite delete_insert_id.
Qed.
Lemma resume_idle a st : i_acts st !! a = None -> run_iop (IResume a) st = Ret (tt, st).
Proof. intros Ha. cbn [run_iop]. unfold gets, mbind, ST_bind. by rewrite Ha. Qed.

(** The halves are the operations: a thread that is not interrupted between them
    does to the kernel what the operation does. *)
Lemma halves_run_whole st op i a :
  halves op = Some (i, a) -> i_acts st !! a = None ->
  (_ ← run_iop i; run_iop (IResume a)) st = in_kernel (run_kop op) st.
Proof.
  intros Hop Ha. destruct op as [d k rq|d sector nr_zones blkz kreq| | |c pad1 pad2 to|um e c stack from|]; try done;
    injection Hop as <- <-; unfold run_iop at 1; cbv beta iota; (etransitivity; [apply seq_assoc|]).
  - apply (whole_is _ (_ ← modify (set_blk_rqs <[k := rq]>); queue_prepare k) (fun type =>
      if bool_decide (type = BIUS_INVALID_OP) then blk_mq_end_request k BLK_STS_NOTSUPP else push_pending d k)).
    { cbn [run_kop]. unfold modify, mbind, ST_bind. rewrite queue_rq_halves. unfold mbind, ST_bind.
      destruct (queue_prepare k _) as [[type s1]| |]; [|done..]. case_bool_decide.
      - by destruct (blk_mq_end_request k BLK_STS_NOTSUPP s1) as [[[] s2]| |].
      - by destruct (push_pending d k s1) as [[[] s2]| |]. }
    intros type st' Hacts. assert (i_acts st' !! Submitter k = None) as Ha' by by rewrite Hacts.
    case_bool_decide; [|by apply suspend_resume].
    unfold mbind, ST_bind. destruct (in_kernel _ st') as [[[] st2]| |] eqn:E; [|done..].
    apply resume_idle. by rewrite (in_kernel_acts _ _ _ _ E).
  - apply (whole_is _ _ (fun _ => push_pending d kreq)); [apply report_submit_halves|].
    intros [] st' Hacts. apply suspend_resume. by rewrite Hacts.
  - apply (whole_is _ _ (fun x => match x with inl _ => mret tt | inr k => _ ← read_dispatch c pad1 pad2 k to; mret tt end)).
    { cbn [run_kop]. unfold mbind at 1, ST_bind at 1. rewrite dev_read_halves. unfold mbind, ST_bind.
      by destruct (read_take c to _) as [[[res|k] s1]| |]. }
    intros [res|k] st' Hacts; [|apply suspend_resume; by rewrite Hacts].
    destruct st' as [s' acts]. apply (resume_idle (User c)). by rewrite Hacts.
  - apply (whole_is _ _ (fun x => match x with inl _ => mret tt | inr (k, h, n) => _ ← answer_finish um k h n; mret tt end)).
    { cbn [run_kop]. unfold mbind at 1, ST_bind at 1. rewrite dev_write_halves. unfold mbind, ST_bind.
      by destruct (write_take um e c stack from _) as [[[res|[[k hd] n]] s1]| |]. }
    intros [res|[[k hd] n]] st' Hacts; [|apply suspend_resume; by rewrite Hacts].
    destruct st' as [s' acts]. apply (resume_idle (User c)). by rewrite Hacts.
Qed.
End interleaving.

(** ** A concrete run *)
Definition istep `{BioLaws} `{IovLaws} `{LinuxConstLaws} (op : iop) (st : istate) : istate :=
  match run_iop op st with Ret (_, st') => st' | _ => st end.
Definition isteps `{BioLaws} `{IovLaws} `{LinuxConstLaws} (op : iop) (st : istate) : bool :=
  match run_iop op st with Ret _ => true | _ => false end.
Lemma ireachable_step `{BioLaws} `{IovLaws} `{LinuxConstLaws} (op : iop) st :
  ireachable st -> iop_ok st op -> isteps op st = true -> ireachable (istep op st).
Proof.
  intros Hst Hop Hrun. unfold isteps, istep in *. destruct (run_iop op st) as [[[] st']| |] eqn:E; [|done|done].
  by eapply ir_step.
Qed.
Lemma ireachable_kernel `{BioLaws} `{IovLaws} `{LinuxConstLaws} s : kreachable s -> ireachable (IState s ∅).
Proof.
  induction 1 as [|s op [] s' _ IH Hop Hrun]; [apply ir_init|]. eapply (ir_step _ (IWhole op)); [exact IH| |].
  - assert (hands_of ∅ = nobody) as Hno by apply (fmap_empty (M := gmap actor)). cbn [iop_ok i_acts i_kernel]. rewrite Hno.
    split; [done|by destruct op].
  - cbn [run_iop]. unfold in_kernel. cbn [i_kernel i_acts]. by rewrite Hrun.
Qed.

(** Two requests are on their way; the later one arrives first, and a reader takes it. *)
Definition irun_arriving : @istate seg_bio ubuf_iov := istep (ISubmit 101 7 (sample_rq 1)) (IState run_idle ∅).
Definition irun_both : @istate seg_bio ubuf_iov := istep (ISubmit 101 8 (sample_rq 0)) irun_arriving.
Definition irun_taken : @istate seg_bio ubuf_iov :=
  istep (ITake 200 sample_pad sample_pad (sample_buf 57 57 [])) (istep (IResume (Submitter 8)) irun_both).

Lemma submit_ok st d k (rq : @request seg_bio) :
  blk_rqs (i_kernel st) !! k = None -> no_reports (i_kernel st) -> d ∈ all_disk_list (i_kernel st) -> rq_ok rq ->
  next_request_id (i_kernel st) + 1 < 2 ^ 64 -> iop_ok (st : @istate seg_bio ubuf_iov) (ISubmit d k rq).
Proof. intros Hk Hn Hd Hrq Hid. split_and!; [done|by apply no_reports_is|done|done|done]. Qed.
Lemma sample_rq_ok op : op = 0 \/ op = 1 -> rq_ok (sample_rq op).
Proof.
  intros Hop. assert (Forall (fun x => 0 < bi_size x) (rq_bios (sample_rq op))) as Hb by repeat constructor.
  destruct Hop as [-> | ->]; (split; [done|]); intros _; by split_and!.
Qed.
Lemma irun_arriving_reachable : ireachable irun_arriving.
Proof.
  apply ireachable_step; [apply ireachable_kernel, run_idle_reachable| |by vm_compute].
  apply submit_ok; [by vm_compute|by apply (bool_decide_unpack _); vm_compute|by apply (bool_decide_unpack _); vm_compute|apply sample_rq_ok; by right|by vm_compute].
Qed.
Lemma irun_taken_reachable : ireachable irun_taken.
Proof.
  apply ireachable_step; [apply ireachable_step; [apply ireachable_step; [apply irun_arriving_reachable| |by vm_compute]|done|by vm_compute]| |by vm_compute].
  - apply submit_ok; [by vm_compute|by apply (bool_decide_unpack _); vm_compute|by apply (bool_decide_unpack _); vm_compute|apply sample_rq_ok; by left|by vm_compute].
  - split; [|by vm_compute]. split_and!; [by apply (bool_decide_unpack _); vm_compute|done|done|]. intros _. by vm_compute.
Qed.

