(* ===== verification/Races.v ===== *)
(** * Races

    Where the conditions of [Interleaving.v] fail: a request that arrives while the last
    connection of its device closes, a process that connects to a device that is being
    removed, a process that answers a request with one thread while another sends its
    data, and a client whose request reuses the tag of one that is just being ended.  Each
    is possible from every state of its kind, not from one sample only. *)
From S2P Require Import Prelude Protocol Linux Kernel Sample Command BlockDev CharDev CharDevProps Invariant StepsIO StepsReport StepsDev System Segments Interleaving.

Section races.
Context `{BL : BioLaws} `{IL : IovLaws} `{LCL : LinuxConstLaws}.

(** ** Arrival and removal *)
(** The last connection of [d] closes while request [k] is on its way. *)
Lemma arrival_after_removal h s c d w snd v k :
  kinv (inh := h) s -> held h (Submitter k) = Some (k, Arriving d) -> kop_ok (inh := h) s (OpRelease c) ->
  connections s !! c = Some (Connection (Some d) w snd) -> devices s !! d = Some v -> dev_num_connection v = 1 ->
  ~ is_report (pdus s) k ->
  wp (_ ← bius_dev_release c; push_pending d k)
    (fun _ s' => is_Some (blk_rqs s' !! k) /\ tally (ev_ends k) (trace s') = tally (ev_ends k) (trace s) /\
       d ∉ all_disk_list s' /\ forall o, k ∉ queue (inh := without h (Submitter k)) s' o) s.
Proof.
  intros Hk Ha Hop Hc Hd Hone Hnr. destruct (k_hands _ Hk _ _ _ Ha) as (_ & Hin & Hl).
  assert (k ∈ queue (inh := h) s (Hand (Submitter k))) as Hkq by (rewrite (hand_queue (inh := h) s _ _ _ Ha); by left).
  assert (forall o, k ∈ queue (inh := h) s o -> o = Hand (Submitter k)) as Hko by (intros o Ho; by eapply (q_disj _ _ _ _ (k_queues _ Hk))).
  apply wp_bind. eapply wp_mono; [by eapply (release_released (inh := h))|]. intros res s1 [G HR].
  assert (k ∉ G) as HkG by by eapply (released_others (inh := h)).
  pose proof HR as [_ _ HD _ _ HG HQ _ _ _ _ HT]. destruct HG as [(_ & HL & _)|(? & _)]; [|done].
  destruct Hl as [|(r & b & rq & [_ _ _ Hrq _ _ _] & _)]; [done|].
  assert (devices s1 !! d = Some (dev_with_conns v (dev_num_connection v - 1))) as Hd1 by (rewrite HD; apply lookup_insert_eq).
  unfold push_pending. ksteps. split_and!.
  - kfields. rewrite HQ, decide_False by done. by eexists.
  - kfields. rewrite tally_app. destruct (HT k) as [_ ->]. rewrite decide_False by done. simpl. lia.
  - kfields. rewrite HL, elem_of_list_del. tauto.
  - assert (forall o, o <> Hand (Submitter k) -> k ∉ queue (inh := h) s1 o) as Hgone.
    { intros o Ho Hk1. apply Ho, Hko. by apply (released_members (inh := h) s s1 c d w snd v G Hk HR) in Hk1 as [? _]. }
    set (s2 := emit_event _ _). intros o. rewrite queue_drop. case_decide as Ho; [by intros ?%elem_of_nil|].
    specialize (Hgone o Ho). destruct (decide (o = Pending d)) as [->|Hnd].
    + unfold queue, queue_of, s2; kfields. rewrite HL, decide_False by (rewrite elem_of_list_del; tauto). by intros ?%elem_of_nil.
    + destruct o as [d'|c'|a]; [|exact Hgone|exact Hgone]. unfold queue, queue_of, s2 in Hgone |- *; kfields.
      rewrite lookup_insert_ne by congruence. exact Hgone.
Qed.

(** C35: A block request that is on its way to a device when the last connection of the
    device closes is lost: closing ends what the pending list holds, the request joins the
    list afterwards, and so it stays in flight with no list of the module holding it. *)
Theorem arrival_races_removal st k c d w snd v :
  ireachable st -> i_acts st !! Submitter k = Some (k, AArriving d) -> kop_ok (inh := hands_of (i_acts st)) (i_kernel st) (OpRelease c) ->
  connections (i_kernel st) !! c = Some (Connection (Some d) w snd) ->
  devices (i_kernel st) !! d = Some v -> dev_num_connection v = 1 -> ~ is_report (pdus (i_kernel st)) k ->
  exists st', (_ ← run_iop (IWhole (OpRelease c)); run_iop (IResume (Submitter k))) st = Ret (tt, st') /\
    is_Some (blk_rqs (i_kernel st') !! k) /\
    tally (ev_ends k) (trace (i_kernel st')) = tally (ev_ends k) (trace (i_kernel st)) /\
    d ∉ all_disk_list (i_kernel st') /\
    forall o, k ∉ queue (inh := hands_of (i_acts st')) (i_kernel st') o.
Proof.
  intros Hst Ha Hop Hc Hd Hone Hnr. destruct (ireachable_iinv st Hst) as [Hk _]. destruct st as [s acts]. cbn [i_kernel i_acts] in *.
  assert (held (hands_of acts) (Submitter k) = Some (k, Arriving d)) as Hh by by rewrite held_of, Ha.
  pose proof (arrival_after_removal (hands_of acts) s c d w snd v k Hk Hh Hop Hc Hd Hone Hnr) as Hwp.
  apply wp_inv in Hwp as ([] & s' & Hrun & Hq). exists (IState s' (delete (Submitter k) acts)). split.
  - unfold run_iop, in_kernel. cbn [run_kop]. unfold mbind, ST_bind, gets, modify in *. cbn [i_kernel i_acts] in *.
    destruct (bius_dev_release c s) as [[res s1]| |]; [|done..]. cbn [mret ST_ret i_kernel i_acts]. rewrite Ha.
    cbn [wind_up i_kernel i_acts]. by rewrite Hrun.
  - cbn [i_kernel i_acts]. by rewrite hands_resume.
Qed.

(** ** Connecting and removal *)
Lemma connect_lookup_state um ub len s x s' :
  connect_lookup um ub len s = Ret (x, s') ->
  s' = s /\ forall dev, x = inr dev -> dev ∈ all_disk_list s /\ is_Some (devices s !! dev).
Proof.
  unfold connect_lookup. destruct (negb _); [by intros [= <- <-]|]. unfold get_block_device, gets, mbind, ST_bind.
  assert (forall l name y t, find_device l name s = Ret (y, t) -> t = s /\ forall dev, y = Some dev -> dev ∈ l /\ is_Some (devices s !! dev)) as Hfind.
  { induction l as [|a l IH]; intros name y t; cbn [find_device]; [by intros [= <- <-]|].
    unfold get_dev, gets, mbind, ST_bind. destruct (devices s !! a) as [v|] eqn:Hv; [|done]. cbn [deref mret ST_ret].
    destruct (strncmp_eq _ _ _).
    - intros [= <- <-]. split; [done|]. intros dev [= <-]. split; [by left|by eexists].
    - intros Ht. apply IH in Ht as [-> Hy]. split; [done|]. intros dev Hdev. destruct (Hy dev Hdev). split; [by right|done]. }
  destruct (find_device _ _ s) as [[[dev|] t]| |] eqn:E; [| |done|done]; intros [= <- <-]; apply Hfind in E as [-> Hdev]; split; try done.
  intros dev' [= <-]. destruct (Hdev dev eq_refl) as [Hin Hv]. split; [by apply elem_of_reverse|done].
Qed.

(** [handle_connect], with what happens between its look-up and its count. *)
Definition connect_around (um : user_mem) (c ub len : Z) (meanwhile : ST kstate unit) : ST kstate Z :=
  x ← connect_lookup um ub len;
  _ ← meanwhile;
  match x with inl ret => mret ret | inr dev => attach_device c (Some dev) end.

(** C36: A process that looks a device up by name while its last connection closes is
    told that it is connected, to a device that is gone: not on the list, its disk deleted. *)
Theorem connect_races_removal s um ub len c1 c2 dev w snd v s1 :
  kreachable s -> connect_lookup um ub len s = Ret (inr dev, s1) ->
  kop_ok (inh := nobody) s (OpRelease c1) -> connections s !! c1 = Some (Connection (Some dev) w snd) ->
  devices s !! dev = Some v -> dev_num_connection v = 1 ->
  connections s !! c2 = Some init_bius_connection ->
  exists s', connect_around um c2 ub len (run_kop (OpRelease c1)) s = Ret (sizeof_u2k, s') /\
    conn_block_dev <$> connections s' !! c2 = Some (Some dev) /\ dev ∉ all_disk_list s'.
Proof.
  intros Hs Hlook Hop Hc Hd Hone Hc2. pose proof (reachable_kinv s Hs) as Hk.
  assert (c1 <> c2) as Hne by (intros ->; rewrite Hc in Hc2; done).
  assert (wp (connect_around um c2 ub len (run_kop (OpRelease c1))) (fun res s' => res = sizeof_u2k /\
    conn_block_dev <$> connections s' !! c2 = Some (Some dev) /\ dev ∉ all_disk_list s') s) as Hwp.
  { unfold connect_around. apply wp_bind. eapply wp_intro; [exact Hlook|].
    destruct (connect_lookup_state _ _ _ _ _ _ Hlook) as [-> _]. cbn [run_kop]. apply wp_bind, wp_bind.
    eapply wp_mono; [by eapply (release_released (inh := nobody))|]. intros res s2 [G HR]. apply wp_ret.
    pose proof HR as [_ _ HD HC _ HG _ _ _ _ _]. destruct HG as [(_ & HL & _)|(? & _)]; [|done].
    assert (devices s2 !! dev = Some (dev_with_conns v (dev_num_connection v - 1))) as Hd1 by (rewrite HD; apply lookup_insert_eq).
    assert (connections s2 !! c2 = Some init_bius_connection) as Hc2' by (by rewrite HC, lookup_delete_ne).
    unfold attach_device. eapply wp_bind, wp_deref; [done|]. ksteps. split_and!; [done|kfields; by rewrite lookup_insert_eq|].
    kfields. rewrite HL, elem_of_list_del. tauto. }
  apply wp_inv in Hwp as (res & s' & Hrun & -> & Hp). by exists s'.
Qed.

(** ** Two threads on one connection *)
(** C37: A process that answers a request with one thread while another reads the data of
    the request makes the kernel use the request after it has ended: the reader holds the
    pointer it found in [connection->sending], and nothing tells it that the write took the
    request. *)
Theorem answer_races_sending s um e c stack from to dev w k hd n s1 :
  kreachable s -> connections s !! c = Some (Connection (Some dev) w (Some k)) ->
  write_take um e c stack from s = Ret (inr (k, hd, n), s1) ->
  exists res s', bius_dev_write um e c stack from s = Ret (res, s') /\ read_payload c k to s' = Fault DanglingPtr.
Proof.
  intros Hs Hc Htake. pose proof (reachable_kinv s Hs) as Hk.
  destruct (c_send _ (k_conns _ Hk) c _ k Hc eq_refl) as (Hkw & r & b & rq & Hl & _).
  rewrite dev_write_halves. unfold mbind, ST_bind. rewrite Htake.
  apply write_take_request in Htake as (dev' & w' & snd & r' & Hc' & _ & _ & _ & _ & ->).
  2:{ intros v Hv x Hx. destruct (q_id _ _ _ _ (k_queues _ Hk) (Waiting c) x) as (r' & Hr' & _); [|by exists r'].
      by rewrite (waiting_queue (inh := nobody) s c v Hv). }
  set (s1 := set_conns _ s). assert (live (blk_rqs s1) (pdus s1) k r b rq) as Hl1 by exact Hl.
  assert (wp (answer_finish um k hd n) (fun _ s' => completed s1 k s') s1) as Hwp.
  { pose proof Hl1 as [Hr _ _ _ _ Hblk _]. unfold answer_finish. eapply wp_bind, wp_get_pdu; [exact Hr|]. rewrite Hblk. by eapply reply_blk_any. }
  apply wp_inv in Hwp as (res & s' & -> & Hcp). exists res, s'. split; [done|].
  unfold read_payload, bius_send_data, get_pdu, get_rq, gets, mbind, ST_bind.
  destruct (pdus s' !! k) as [r2|] eqn:Hr2; [|done]. destruct (cp_arm _ _ _ Hcp r2 Hr2) as [b2 Hb2].
  cbn [deref mret ST_ret]. unfold blk_arm. rewrite Hb2. cbn [mret ST_ret].
  rewrite (cp_rqs _ _ _ Hcp), lookup_delete_eq. done.
Qed.
(** ** Tags that are used again *)
(** [bius_dev_release] and [remove_block_device] hold no lock while they walk a list, and
    read the successor of a request after they have ended it.  By then blk-mq may have used
    the tag again, and with it the request: [rq] in [k].  (Nothing unlinked [k] before: on the
    list that is being walked it is then twice, and [k->list.next] is that of its new place.) *)
Definition requeue (dev k : Z) (rq : request) (x : Z) : ST kstate unit :=
  if decide (x = k) then run_kop (OpQueue dev k rq) else mret tt.
Definition requeued (s : kstate) (dev k : Z) (rq : request) (d : bius_block_device) : kstate :=
  queued (set_blk_rqs <[k := rq]> s) dev k rq d.
Lemma requeue_run dev k rq d s :
  devices s !! dev = Some d -> rq_ok rq -> requeue dev k rq k s = Ret (tt, requeued s dev k rq d).
Proof.
  intros Hd [Hop _]. unfold requeue. rewrite decide_True by done. cbn [run_kop].
  assert (bius_queue_rq dev k (set_blk_rqs <[k := rq]> s) = Ret (BLK_STS_OK, requeued s dev k rq d)) as E
    by (apply queue_rq_supported; [kfields; apply lookup_insert_eq|done|done]).
  unfold modify, mbind, ST_bind in *. by rewrite E.
Qed.
Lemma requeued_heads s dev k rq d : list_heads (requeued s dev k rq d) = list_heads s.
Proof. done. Qed.
Lemma requeued_on s dev k rq d h :
  on_list (requeued s dev k rq d) h
    = if decide (h = pending_requests dev) then dev_pending d ++ [k] else on_list s h.
Proof.
  destruct h as [d'|c]; cbn [on_list requeued queued devices connections set_blk_rqs]; [|by rewrite decide_False].
  destruct (decide (d' = dev)) as [->|Hne].
  - by rewrite lookup_insert_eq, decide_True.
  - rewrite lookup_insert_ne by done. by rewrite decide_False by congruence.
Qed.
Lemma next_on_last l k : next_on (l ++ [k]) k = Some None.
Proof. rewrite next_on_unique; [done|apply not_elem_of_nil]. Qed.

(** Where the walk of the list at [h] goes on after [k]: the pending list ends there. *)
Lemma list_next_requeued s dev d k rq h :
  devices s !! dev = Some d -> k ∈ on_list s h -> linked_once s h ->
  list_next h k (requeued s dev k rq d)
    = if decide (h = pending_requests dev) then Ret (None, requeued s dev k rq d)
      else if decide (dev ∈ all_disk_list s) then Fault DanglingPtr
      else list_next h k (requeued s dev k rq d).
Proof.
  intros Hd Hk Hone.
  assert (forall h', h' ∈ elsewhere (requeued s dev k rq d) h k -> h' = pending_requests dev) as Helse.
  { intros h' [[Hne Hin] Hh]%list_elem_of_filter. rewrite requeued_on in Hin. case_decide; [done|].
    destruct Hne. by apply (Hone k). }
  destruct (decide (h = pending_requests dev)) as [->|Hne].
  - unfold list_next, gets, mbind, ST_bind, id. destruct (elsewhere _ _ _) as [|h' l] eqn:E.
    + by rewrite requeued_on, decide_True, next_on_last.
    + assert (h' ∈ elsewhere (requeued s dev k rq d) (pending_requests dev) k) as [[Hne _] _]%list_elem_of_filter
        by (rewrite E; by left).
      destruct Hne. apply Helse. by left.
  - destruct (decide (dev ∈ all_disk_list s)) as [Hl|]; [|done].
    unfold list_next, gets, mbind, ST_bind, id. destruct (elsewhere _ _ _) as [|h' l] eqn:E.
    + exfalso. assert (pending_requests dev ∈ elsewhere (requeued s dev k rq d) h k) as Hin; [|rewrite E in Hin; by apply elem_of_nil in Hin].
      apply list_elem_of_filter. split; [split; [done|]|by apply pending_head].
      rewrite requeued_on, decide_True by done. apply elem_of_app. right. by left.
    + assert (h' = pending_requests dev) as -> by (apply Helse; by left).
      by rewrite requeued_on, decide_True, next_on_last.
Qed.

(** C15: While a connection is being closed, a client's next request may reuse the tag of the
    request that the loop over the waiting requests has just ended.  It goes on the pending
    list, the loop follows it there, reaches the head of that list and takes it for a request. *)
Theorem reused_tag_derails_closing s c dev w snd k rq :
  kreachable s -> kop_ok (inh := nobody) s (OpRelease c) ->
  connections s !! c = Some (Connection (Some dev) (k :: w) snd) -> rq_ok rq ->
  release_around (requeue dev k rq) undisturbed_walk c s = Fault DanglingPtr.
Proof.
  intros Hs [_ Hnr] Hc Hrq. pose proof (reachable_kinv s Hs) as Hk.
  pose proof (d_conn _ (k_devices _ Hk) _ _ dev Hc eq_refl) as Hin.
  destruct (d_devs _ (k_devices _ Hk) dev Hin) as [d Hd].
  assert (queue (inh := nobody) s (Waiting c) = k :: w) as HW by apply (waiting_queue (inh := nobody) s c _ Hc).
  destruct (q_live _ _ _ _ (Waiting c) k (k_queues _ Hk)) as (r & b & rq0 & Hl & _); [rewrite HW; by left| |].
  { intros Hr. destruct (Hnr k Hr) as [Hno _]. apply Hno. rewrite HW. by left. }
  assert (get_conn c s = Ret (Connection (Some dev) (k :: w) snd, s)) as E1
    by (unfold get_conn, gets, mbind, ST_bind; by rewrite Hc).
  unfold release_around. rewrite (bind_ret _ _ _ _ _ E1).
  assert (on_list s (waiting_requests c) = k :: w) as El by (unfold on_list; by rewrite Hc).
  assert (linked_once s (waiting_requests c)) as Hone by by eapply (kinv_linked_once (inh := nobody)), waiting_head.
  assert (end_waiting (requeue dev k rq) c s = Fault DanglingPtr) as Hf; [|unfold mbind, ST_bind; by rewrite Hf].
  unfold end_waiting. rewrite walk_start, El. cbn [head length for_each_from].
  assert (blk_request s k r b rq0) as Hbr by by apply live_blk_request.
  rewrite (bind_ret _ _ _ _ _ (end_blk_request_spec s k r b rq0 BLK_STS_IOERR Hbr)).
  rewrite (bind_ret _ _ _ _ _ (requeue_run dev k rq d (ended s k r b BLK_STS_IOERR) Hd Hrq)).
  unfold mbind, ST_bind. rewrite list_next_requeued; [|done|unfold on_list; cbn [ended connections]; rewrite Hc; by left|].
  - by rewrite decide_False, decide_True.
  - by apply (linked_once_same s).
Qed.

(** The loop of [remove_block_device], when the tag of the first request is used again. *)
Lemma end_pending_requeued s dev d k rest rq :
  devices s !! dev = Some d -> dev_pending d = k :: rest -> is_Some (blk_rqs s !! k) -> rq_ok rq ->
  linked_once s (pending_requests dev) ->
  end_pending (requeue dev k rq) dev s
    = Ret (tt, requeued (emit_event (EvEnd k BLK_STS_IOERR) (set_blk_rqs (delete k) s)) dev k rq d).
Proof.
  intros Hd Hp [rq0 Hrq0] Hrq Hone. assert (on_list s (pending_requests dev) = k :: rest) as El by (unfold on_list; by rewrite Hd).
  unfold end_pending. rewrite walk_start, El. cbn [head length for_each_from].
  assert (blk_mq_end_request k BLK_STS_IOERR s = Ret (tt, emit_event (EvEnd k BLK_STS_IOERR) (set_blk_rqs (delete k) s))) as E
    by (unfold blk_mq_end_request, get_rq, gets, mbind, ST_bind; by rewrite Hrq0).
  rewrite (bind_ret _ _ _ _ _ E). set (t := emit_event _ _).
  rewrite (bind_ret _ _ _ _ _ (requeue_run dev k rq d t Hd Hrq)).
  assert (list_next (pending_requests dev) k (requeued t dev k rq d) = Ret (None, requeued t dev k rq d)) as En.
  { rewrite list_next_requeued; [by rewrite decide_True|done| |by apply (linked_once_same s)].
    unfold on_list; cbn [devices t emit_event set_blk_rqs]. rewrite Hd. cbn [from_option default]. rewrite Hp. by left. }
  rewrite (bind_ret _ _ _ _ _ En). by destruct rest.
Qed.
(** The last connection closes while that happens to the device's pending requests. *)
Lemma release_requeued s c dev w snd d k rest rq :
  kinv (inh := nobody) s -> kop_ok (inh := nobody) s (OpRelease c) ->
  connections s !! c = Some (Connection (Some dev) w snd) -> devices s !! dev = Some d ->
  dev_num_connection d = 1 -> dev_pending d = k :: rest -> rq_ok rq ->
  exists u, release_around undisturbed_walk (requeue dev k rq) c s
      = Ret (0, set_conns (delete c) (emit_event (EvRelease ResMajor) (emit_event (EvReadName dev)
          (emit_event (EvRelease ResDisk) (emit_event (EvRelease ResTagSet) (emit_event (EvDelDisk dev) u)))))) /\
    all_disk_list u = list_del dev (all_disk_list s) /\ connections u = connections s /\
    (forall x, x <> dev -> devices u !! x = devices s !! x) /\
    (forall x, x <> k -> x ∉ w -> blk_rqs u !! x = blk_rqs s !! x) /\
    (forall x, x <> k -> x ∉ w -> tally (ev_ends x) (trace u) = tally (ev_ends x) (trace s)).
Proof.
  intros Hk [_ Hnr] Hc Hd Hone Hp Hrq.
  assert (forall k, is_report (pdus s) k -> k ∉ queue (inh := nobody) s (Waiting c)) as Hnw by (intros x Hx; by apply Hnr).
  assert (forall k, is_report (pdus s) k -> dev_num_connection d = 1 -> k ∉ queue (inh := nobody) s (Pending dev)) as Hnp.
  { intros x Hx H1'. destruct (Hnr x Hx) as [_ Hq]. apply (Hq dev d); [by rewrite Hc|done|done]. }
  destruct (closing_fields (inh := nobody) s c dev w snd d Hk Hc Hnw) as (EL & EC & ED & EN & ER & EP).
  set (v := dev_with_conns d (dev_num_connection d - 1)).
  set (t := set_disk_list (list_del dev) (closing_state s dev w d)).
  assert (devices t !! dev = Some v) as Hdt by (unfold t; kfields; by rewrite ED, lookup_insert_eq).
  set (u := requeued (emit_event (EvEnd k BLK_STS_IOERR) (set_blk_rqs (delete k) t)) dev k rq v).
  assert (end_pending (requeue dev k rq) dev t = Ret (tt, u)) as Hend.
  { apply end_pending_requeued with (rest := rest); [done|done| |done|].
    - assert (in_flight (closing_state s dev w d) (dev_pending d)) as Hfl by by eapply (closing_in_flight (inh := nobody)).
      rewrite Hp in Hfl. by apply Forall_cons in Hfl as [? _].
    - apply linked_once_delisted. by eapply (closing_linked (inh := nobody)). }
  assert (wp (release_around undisturbed_walk (requeue dev k rq) c) (fun res s' => res = 0 /\
    s' = set_conns (delete c) (emit_event (EvRelease ResMajor) (emit_event (EvReadName dev) (emit_event (EvRelease ResDisk)
           (emit_event (EvRelease ResTagSet) (emit_event (EvDelDisk dev) u)))))) s) as Hwp.
  { unfold release_around. ksteps. eapply wp_intro; [apply (end_waiting_spec c (Connection (Some dev) w snd)); [done|by eapply closing_waiting_nodup
      |by eapply kinv_linked_once, waiting_head|by eapply closing_requests]|].
    cbn [conn_waiting conn_block_dev]. ksteps.
    destruct (ended_all_spec w s) as (_ & E2 & _); [by eapply closing_waiting_nodup|by eapply closing_requests|].
    eapply wp_get_dev; [by rewrite E2|]. ksteps.
    assert (u32 (dev_num_connection d - 1) = dev_num_connection d - 1) as -> by (rewrite Hone; done).
    rewrite (proj2 (Z.eqb_eq _ 0)) by lia. destruct (closing_found (inh := nobody) s c dev w snd d Hk Hc Hd Hnw) as [Hlive (v' & Hv' & Hfind) _].
    unfold remove_around. ksteps. eapply wp_intro; [exact (get_block_device_spec _ (closing_state s dev w d) Hlive)|]. rewrite Hfind. ksteps.
    eapply wp_intro; [exact Hend|]. ksteps. done. }
  apply wp_inv in Hwp as (res & s' & Hrun & -> & ->). exists u. split; [exact Hrun|].
  split_and!.
  - change (list_del dev (all_disk_list (closing_state s dev w d)) = list_del dev (all_disk_list s)). by rewrite EL.
  - exact EC.
  - intros x Hx. change (<[dev := dev_with_pending v (dev_pending v ++ [k])]> (devices (closing_state s dev w d)) !! x = devices s !! x).
    by rewrite ED, !lookup_insert_ne.
  - intros x Hx Hxw. change (<[k := rq]> (delete k (blk_rqs (closing_state s dev w d))) !! x = blk_rqs s !! x).
    by rewrite lookup_insert_ne, lookup_delete_ne, ER, decide_False.
  - intros x Hx Hxw. change (trace u) with ((trace (ended_all s w) ++ [EvEnd k BLK_STS_IOERR]) ++ [EvStart k; EvWakeUp dev]).
    rewrite !tally_app. edestruct (closing_tally (inh := nobody)) as [_ ->]; [done..|]. rewrite decide_False by done.
    cbn [tally foldr ev_ends]. rewrite decide_False by congruence. lia.
Qed.
(** C16: In the loop that ends the pending requests of a device that goes, the successor of a
    request whose tag has been used again is the head of the list: the loop stops, closing
    reports success, and the requests that were still to be ended stay in flight, with no list
    of the module holding them. *)
Theorem reused_tag_cuts_removal s c dev w snd d k rest rq :
  kreachable s -> kop_ok (inh := nobody) s (OpRelease c) ->
  connections s !! c = Some (Connection (Some dev) w snd) -> devices s !! dev = Some d ->
  dev_num_connection d = 1 -> dev_pending d = k :: rest -> rq_ok rq ->
  exists s', release_around undisturbed_walk (requeue dev k rq) c s = Ret (0, s') /\ dev ∉ all_disk_list s' /\
    forall x, x ∈ rest -> is_Some (blk_rqs s' !! x) /\
      tally (ev_ends x) (trace s') = tally (ev_ends x) (trace s) /\ forall o, x ∉ queue (inh := nobody) s' o.
Proof.
  intros Hs Hop Hc Hd Hone Hp Hrq. pose proof (reachable_kinv s Hs) as Hk.
  destruct (release_requeued s c dev w snd d k rest rq Hk Hop Hc Hd Hone Hp Hrq) as (u & Hrun & UA & UC & UD & UR & UT).
  destruct Hop as [_ Hnr]. eexists. split; [exact Hrun|].
  kfields. rewrite UA. split; [rewrite elem_of_list_del; tauto|]. intros x Hx.
  assert (x ∈ queue (inh := nobody) s (Pending dev)) as Hxq
    by (erewrite closing_pending by done; rewrite Hp; by right).
  assert (x <> k) as Hne.
  { intros ->. pose proof (q_nodup _ _ _ _ (k_queues _ Hk) (Pending dev)) as Hnd.
    erewrite closing_pending, Hp in Hnd by done. by apply NoDup_cons in Hnd as [? _]. }
  assert (x ∉ w) as Hxw by (eapply (closing_disjoint (inh := nobody)); [done..|rewrite Hp; by right]).
  split_and!.
  - rewrite UR by done. destruct (q_listed _ _ _ _ (k_queues _ Hk) _ x Hxq) as [Hr|(r & b & rq' & [] & _)]; [|by eexists].
    destruct (Hnr x Hr) as [_ Hno]. destruct (Hno dev d); [by rewrite Hc|done|done|done].
  - rewrite !tally_app, UT by done. cbn [tally foldr ev_ends]. lia.
  - assert (forall o, x ∈ queue (inh := nobody) s o -> o = Pending dev) as Ho by (intros o Ho; by eapply (q_disj _ _ _ _ (k_queues _ Hk))).
    intros [d'|c'|a] Hin; unfold queue, queue_of in Hin; cbn [all_disk_list devices connections set_conns emit_event] in Hin.
    + rewrite UA in Hin. case_decide as Hl; [|by apply elem_of_nil in Hin]. apply elem_of_list_del in Hl as [Hl Hne'].
      rewrite UD in Hin by done. assert (Pending d' = Pending dev) as E; [|congruence].
      apply Ho. unfold queue, queue_of. by rewrite decide_True.
    + rewrite UC in Hin. destruct (decide (c' = c)) as [->|]; [rewrite lookup_delete_eq in Hin; by apply elem_of_nil in Hin|].
      rewrite lookup_delete_ne in Hin by done. assert (Waiting c' = Pending dev) as E; [|congruence]. by apply Ho.
    + by apply elem_of_nil in Hin.
Qed.
End races.

(** ** Concrete runs *)
Definition run_device : bius_block_device :=
  BlockDevice 241 (create_gendisk (named_options [98; 49]) 241) BLK_ZONED_NONE 1 [].
(** A request is on its way to device 101 when process 200 closes it. *)
Definition run_close : @kop seg_bio ubuf_iov := OpRelease 200.
Lemma run_close_ok (h : hands) s : is_Some (connections s !! 200) -> no_reports s -> kop_ok (inh := h) s run_close.
Proof. intros Hc Hn. split; [done|]. intros k Hk. by apply no_reports_is in Hk. Qed.
Lemma arrival_races_removal_witness :
  exists st', (_ ← run_iop (IWhole run_close); run_iop (IResume (Submitter 7))) irun_arriving = Ret (tt, st') /\
    is_Some (blk_rqs (i_kernel st') !! 7) /\ tally (ev_ends 7) (trace (i_kernel st')) = 0 /\
    forall o, 7 ∉ queue (inh := hands_of (i_acts st')) (i_kernel st') o.
Proof.
  assert (i_acts irun_arriving !! Submitter 7 = Some (7, AArriving 101)) as Ha by (vm_compute; reflexivity).
  assert (kop_ok (inh := hands_of (i_acts irun_arriving)) (i_kernel irun_arriving) run_close) as Hop
    by (apply run_close_ok; by apply (bool_decide_unpack _); vm_compute).
  assert (connections (i_kernel irun_arriving) !! 200 = Some (Connection (Some 101) [] None)) as Hc by (vm_compute; reflexivity).
  assert (devices (i_kernel irun_arriving) !! 101 = Some run_device) as Hd by (vm_compute; reflexivity).
  assert (~ is_report (pdus (i_kernel irun_arriving)) 7) as Hnr by (apply no_reports_is; by apply (bool_decide_unpack _); vm_compute).
  destruct (arrival_races_removal irun_arriving 7 200 101 [] None run_device irun_arriving_reachable Ha Hop Hc Hd eq_refl Hnr)
    as (st' & Hrun & Hin & Hends & _ & Hno).
  exists st'. split_and!; [exact Hrun|exact Hin| |exact Hno]. rewrite Hends. vm_compute. reflexivity.
Defined.

(** Process 201 connects to the device of process 200 while 200 closes it. *)
Definition run_opened : @kstate seg_bio := after (OpOpen 201) run_idle.
Definition run_name : user_mem := user_buffer 1000 [98; 49].
Lemma connect_races_removal_witness :
  exists s', connect_around run_name 201 1000 2 (run_kop run_close) run_opened = Ret (sizeof_u2k, s') /\
    conn_block_dev <$> connections s' !! 201 = Some (Some 101) /\ 101 ∉ all_disk_list s'.
Proof.
  assert (kreachable run_opened) as Hs.
  { apply kreachable_after; [apply run_idle_reachable|vm_compute; reflexivity|vm_compute; reflexivity]. }
  assert (connect_lookup run_name 1000 2 run_opened = Ret (inr 101, run_opened)) as Hlook by (vm_compute; reflexivity).
  assert (kop_ok (inh := nobody) run_opened run_close) as Hop
    by (apply run_close_ok; by apply (bool_decide_unpack _); vm_compute).
  assert (connections run_opened !! 200 = Some (Connection (Some 101) [] None)) as Hc by by vm_compute.
  assert (devices run_opened !! 101 = Some run_device) as Hd by by vm_compute.
  assert (connections run_opened !! 201 = Some init_bius_connection) as Hc2 by by vm_compute.
  exact (connect_races_removal run_opened run_name 1000 2 200 201 101 [] None run_device run_opened Hs Hlook Hop Hc Hd eq_refl Hc2).
Defined.

(** What comes of it: another process creates a device of that name, and 201 closes its
    connection to the device that is gone.  That takes the new device off the list while
    its creator uses it. *)
Definition run_ghost : @kstate seg_bio :=
  match connect_around run_name 201 1000 2 (run_kop run_close) run_opened with Ret (_, s) => s | _ => run_opened end.
Definition run_namesake : @kstate seg_bio :=
  after (OpWrite (user_buffer 1000 (options_bytes (named_options [98; 49]))) (good_env 102) 202 []
    (reply_buf (u2k_with_type 0 (bius_req_value BIUS_CREATE) 2 1000))) (after (OpOpen 202) run_ghost).
Lemma ghost_removes_namesake :
  all_disk_list run_namesake = [102] /\ all_disk_list (after (OpRelease 201) run_namesake) = [] /\
  conn_block_dev <$> connections (after (OpRelease 201) run_namesake) !! 202 = Some (Some 102).
Proof. by vm_compute. Qed.

(** Request 7 is answered by one thread of process 200 while another reads its data. *)
Lemma answer_races_sending_witness :
  exists res s', bius_dev_write (user_buffer 0 []) (good_env 102) 200 [] (reply_buf (u2k_with_reply 1 0 0)) run_sent = Ret (res, s') /\
    read_payload 200 7 (sample_buf 9 9 []) s' = Fault DanglingPtr.
Proof.
  assert (connections run_sent !! 200 = Some (Connection (Some 101) [7] (Some 7))) as Hc by (vm_compute; reflexivity).
  assert (exists hd n s1, write_take (user_buffer 0 []) (good_env 102) 200 [] (reply_buf (u2k_with_reply 1 0 0)) run_sent
    = Ret (inr (7, hd, n), s1)) as (hd & n & s1 & Htake) by (eexists _, _, _; vm_compute; reflexivity).
  exact (answer_races_sending run_sent _ _ _ _ _ (sample_buf 9 9 []) 101 [7] 7 hd n s1 run_sent_reachable Hc Htake).
Defined.

(** Request 7 is being sent when its connection closes; its tag is used for a read. *)
Lemma reused_tag_derails_closing_witness :
  release_around (requeue 101 7 (sample_rq 0)) undisturbed_walk 200 run_sent = Fault DanglingPtr.
Proof.
  assert (connections run_sent !! 200 = Some (Connection (Some 101) [7] (Some 7))) as Hc by (vm_compute; reflexivity).
  assert (kop_ok (inh := nobody) run_sent run_close) as Hop by (apply run_close_ok; by apply (bool_decide_unpack _); vm_compute).
  assert (rq_ok (sample_rq 0)) as Hrq by (apply sample_rq_ok; by left).
  exact (reused_tag_derails_closing run_sent 200 101 [] (Some 7) 7 (sample_rq 0) run_sent_reachable Hop Hc Hrq).
Defined.

(** Requests 7 and 8 are pending when the connection closes. *)
Definition run_two_pending : @kstate seg_bio := after (OpQueue 101 8 (sample_rq 0)) (after run_queue run_idle).
Lemma run_two_pending_reachable : kreachable run_two_pending.
Proof.
  apply kreachable_after; [apply run_queued_reachable| |by vm_compute].
  split_and!; [by vm_compute|apply no_reports_is; by apply (bool_decide_unpack _); vm_compute
    |by apply (bool_decide_unpack _); vm_compute|apply sample_rq_ok; by left|by vm_compute].
Qed.
Lemma reused_tag_cuts_removal_witness :
  exists s', release_around undisturbed_walk (requeue 101 7 (sample_rq 0)) 200 run_two_pending = Ret (0, s') /\
    101 ∉ all_disk_list s' /\ is_Some (blk_rqs s' !! 8) /\ forall o, 8 ∉ queue (inh := nobody) s' o.
Proof.
  assert (connections run_two_pending !! 200 = Some (Connection (Some 101) [] None)) as Hc by (vm_compute; reflexivity).
  assert (kop_ok (inh := nobody) run_two_pending run_close) as Hop by (apply run_close_ok; by apply (bool_decide_unpack _); vm_compute).
  assert (devices run_two_pending !! 101 = Some (BlockDevice 241 (create_gendisk (named_options [98; 49]) 241) BLK_ZONED_NONE 1 [7; 8])) as Hd
    by (vm_compute; reflexivity).
  assert (rq_ok (sample_rq 0)) as Hrq by (apply sample_rq_ok; by left).
  destruct (reused_tag_cuts_removal run_two_pending 200 101 [] None _ 7 [8] (sample_rq 0) run_two_pending_reachable Hop Hc Hd eq_refl eq_refl Hrq)
    as (s' & Hrun & Hl & Hx).
  destruct (Hx 8 ltac:(by left)) as (Hin & _ & Hno). exists s'. split; [exact Hrun|]. split; [exact Hl|]. split; [exact Hin|exact Hno].
Defined.
