(* ===== verification/Zoned.v ===== *)
(** * The zoned block device emulation

    [examples/zoned-common.h]: the zone state machine with its write pointers
    and open/active accounting, on top of three raw operations.  Operations are
    modelled as the critical sections they are, one at a time. *)
From S2P Require Import Prelude Protocol.

(** [enum blk_zone_type], [enum blk_zone_cond] and [struct blk_zone] of
    [linux/blkzoned.h]: the fields the code uses.  [BLK_ZONE_TYPE_NONE] is the value 0,
    which [memset] leaves. *)
Inductive blk_zone_type := BLK_ZONE_TYPE_NONE | BLK_ZONE_TYPE_CONVENTIONAL | BLK_ZONE_TYPE_SEQWRITE_REQ.
Inductive blk_zone_cond :=
  | BLK_ZONE_COND_NOT_WP | BLK_ZONE_COND_EMPTY | BLK_ZONE_COND_IMP_OPEN
  | BLK_ZONE_COND_EXP_OPEN | BLK_ZONE_COND_CLOSED | BLK_ZONE_COND_FULL
  | BLK_ZONE_COND_READONLY | BLK_ZONE_COND_OFFLINE.
#[export] Instance blk_zone_type_eq_dec : EqDecision blk_zone_type.
Proof. solve_decision. Defined.
#[export] Instance blk_zone_cond_eq_dec : EqDecision blk_zone_cond.
Proof. solve_decision. Defined.

Record blk_zone := Zone {
  z_start : Z; z_len : Z; z_wp : Z;
  z_type : blk_zone_type; z_cond : blk_zone_cond; z_capacity : Z }.
Record zone_stat := ZoneStat {
  st_written : Z; st_read : Z; st_reset_count : Z; st_discard_count : Z }.

(** The globals an example defines: [ZONE_SIZE], [zoned_disk_size], ... *)
Record zone_config := ZoneConfig {
  ZONE_SIZE : Z;
  zoned_disk_size : Z;
  num_conventional_zones : Z;
  max_open_zones : Z;
  max_active_zones : Z }.
Definition num_zones (c : zone_config) : Z := zoned_disk_size c / ZONE_SIZE c.

(** [W] is the state the raw operations work on. *)
Record zstate (W : Type) := ZState {
  zone_info : list blk_zone;
  stats : list zone_stat;
  num_open_zones : Z;
  num_imp_open_zones : Z;
  num_active_zones : Z;
  raw_state : W }.
Arguments ZState {W}.
Arguments zone_info {W}. Arguments stats {W}. Arguments num_open_zones {W}.
Arguments num_imp_open_zones {W}. Arguments num_active_zones {W}. Arguments raw_state {W}.

Section zoned.
Context {W : Type} (cfg : zone_config).
Context (raw_read raw_write : Z -> Z -> Z -> ST W Z) (raw_discard : Z -> Z -> ST W Z).
Abbreviation M := (ST (zstate W)).

Definition set_zones (f : list blk_zone -> list blk_zone) (s : zstate W) : zstate W :=
  ZState (f (zone_info s)) (stats s) (num_open_zones s) (num_imp_open_zones s)
    (num_active_zones s) (raw_state s).
Definition set_stats (f : list zone_stat -> list zone_stat) (s : zstate W) : zstate W :=
  ZState (zone_info s) (f (stats s)) (num_open_zones s) (num_imp_open_zones s)
    (num_active_zones s) (raw_state s).
Definition add_open (d : Z) (s : zstate W) : zstate W :=
  ZState (zone_info s) (stats s) (u32 (num_open_zones s + d)) (num_imp_open_zones s)
    (num_active_zones s) (raw_state s).
Definition add_imp (d : Z) (s : zstate W) : zstate W :=
  ZState (zone_info s) (stats s) (num_open_zones s) (u32 (num_imp_open_zones s + d))
    (num_active_zones s) (raw_state s).
Definition add_active (d : Z) (s : zstate W) : zstate W :=
  ZState (zone_info s) (stats s) (num_open_zones s) (num_imp_open_zones s)
    (u32 (num_active_zones s + d)) (raw_state s).

Definition get_zone (i : Z) : M blk_zone :=
  l ← gets zone_info; deref OutOfBounds (l !! Z.to_nat i).
Definition put_zone (i : Z) (z : blk_zone) : M unit := modify (set_zones <[Z.to_nat i := z]>).
Definition get_stat (i : Z) : M zone_stat :=
  l ← gets stats; deref OutOfBounds (l !! Z.to_nat i).
Definition put_stat (i : Z) (z : zone_stat) : M unit := modify (set_stats <[Z.to_nat i := z]>).
Definition with_cond (z : blk_zone) (c : blk_zone_cond) : blk_zone :=
  Zone (z_start z) (z_len z) (z_wp z) (z_type z) c (z_capacity z).
Definition with_wp (z : blk_zone) (wp : Z) : blk_zone :=
  Zone (z_start z) (z_len z) wp (z_type z) (z_cond z) (z_capacity z).
Definition raw {A} (m : ST W A) : M A := fun s =>
  match m (raw_state s) with
  | Ret (a, w) => Ret (a, ZState (zone_info s) (stats s) (num_open_zones s)
                            (num_imp_open_zones s) (num_active_zones s) w)
  | Fault f => Fault f
  | NoFuel => NoFuel
  end.

(** [initialize_zone_info].  [ZONE_SIZE / SECTOR_SIZE * i] is computed in [int], and
    undefined when it does not fit, and stored in a 64-bit field. *)
Definition zone_sectors : Z := ZONE_SIZE cfg / SECTOR_SIZE.
Definition init_zone (i : Z) : blk_zone :=
  let start := u64 (zone_sectors * i) in
  if i <? num_conventional_zones cfg then
    Zone start zone_sectors start BLK_ZONE_TYPE_CONVENTIONAL BLK_ZONE_COND_NOT_WP zone_sectors
  else
    Zone start zone_sectors start BLK_ZONE_TYPE_SEQWRITE_REQ BLK_ZONE_COND_EMPTY zone_sectors.
Definition initialize_zone_info : M unit :=
  if num_zones cfg <? num_conventional_zones cfg then fail OutOfBounds
  else if 2 ^ 31 <=? zone_sectors * (num_zones cfg - 1) then fail SignedOverflow
  else modify (fun s => ZState (init_zone <$> seqZ 0 (num_zones cfg)) (stats s) 0 0 0 (raw_state s)).

(** [initialize], when the allocations succeed, and the state it leaves. *)
Definition initialize (w : W) : outcome (unit * zstate W) :=
  initialize_zone_info (ZState [] (replicate (Z.to_nat (num_zones cfg)) (ZoneStat 0 0 0 0)) 0 0 0 w).
Definition initial_state (w : W) : zstate W :=
  ZState (init_zone <$> seqZ 0 (num_zones cfg))
    (replicate (Z.to_nat (num_zones cfg)) (ZoneStat 0 0 0 0)) 0 0 0 w.

Definition zone_number (offset : Z) : Z := u32 (offset `quot` ZONE_SIZE cfg).

(** [close_imp_open_zone]: the loop from [zone] on, [left] zones to go. *)
Fixpoint close_imp_open_loop (zone_to_skip zone : Z) (left : nat) : M unit :=
  match left with
  | O => mret tt
  | S left' =>
      if zone =? zone_to_skip then close_imp_open_loop zone_to_skip (zone + 1) left'
      else
        z ← get_zone zone;
        if bool_decide (z_cond z = BLK_ZONE_COND_IMP_OPEN) then
          _ ← put_zone zone (with_cond z BLK_ZONE_COND_CLOSED);
          _ ← modify (add_open (-1));
          modify (add_imp (-1))
        else close_imp_open_loop zone_to_skip (zone + 1) left'
  end.
Definition close_imp_open_zone (zone_to_skip : Z) : M unit :=
  close_imp_open_loop zone_to_skip (num_conventional_zones cfg)
    (Z.to_nat (num_zones cfg - num_conventional_zones cfg)).

(** The [case BLK_ZONE_COND_CLOSED] of [open_zone_locked], also entered from EMPTY. *)
Definition open_closed (zone : Z) (explicit : bool) : M Z :=
  nopen ← gets num_open_zones;
  if max_open_zones cfg <=? nopen then
    nimp ← gets num_imp_open_zones;
    if 0 <? nimp then _ ← close_imp_open_zone zone; mret BLK_STS_OK
    else mret BLK_STS_ZONE_OPEN_RESOURCE
  else
    _ ← modify (add_open 1);
    z ← get_zone zone;
    if explicit then _ ← put_zone zone (with_cond z BLK_ZONE_COND_EXP_OPEN); mret BLK_STS_OK
    else
      _ ← modify (add_imp 1);
      _ ← put_zone zone (with_cond z BLK_ZONE_COND_IMP_OPEN);
      mret BLK_STS_OK.

Definition open_zone_locked (zone : Z) (explicit : bool) : M Z :=
  z ← get_zone zone;
  match z_cond z with
  | BLK_ZONE_COND_IMP_OPEN =>
      if explicit then
        _ ← modify (add_imp (-1));
        _ ← put_zone zone (with_cond z BLK_ZONE_COND_EXP_OPEN);
        mret BLK_STS_OK
      else mret BLK_STS_OK
  | BLK_ZONE_COND_EXP_OPEN => mret BLK_STS_OK
  | BLK_ZONE_COND_EMPTY =>
      nact ← gets num_active_zones;
      if max_active_zones cfg <=? nact then mret BLK_STS_ZONE_ACTIVE_RESOURCE
      else _ ← modify (add_active 1); open_closed zone explicit
  | BLK_ZONE_COND_CLOSED => open_closed zone explicit
  | _ => mret BLK_STS_IOERR
  end.

(** The fall-through of the counters in [mark_zone_full_locked],
    [zoned_close_zone] and [zoned_reset_zone]. *)
Definition uncount_open (c : blk_zone_cond) : M unit :=
  match c with
  | BLK_ZONE_COND_IMP_OPEN => _ ← modify (add_imp (-1)); modify (add_open (-1))
  | BLK_ZONE_COND_EXP_OPEN => modify (add_open (-1))
  | _ => mret tt
  end.
Definition is_active (c : blk_zone_cond) : bool :=
  bool_decide (c ∈ [BLK_ZONE_COND_IMP_OPEN; BLK_ZONE_COND_EXP_OPEN; BLK_ZONE_COND_CLOSED]).

Definition mark_zone_full_locked (zone : Z) : M Z :=
  z ← get_zone zone;
  match z_cond z with
  | BLK_ZONE_COND_IMP_OPEN | BLK_ZONE_COND_EXP_OPEN | BLK_ZONE_COND_CLOSED
  | BLK_ZONE_COND_EMPTY | BLK_ZONE_COND_FULL =>
      _ ← uncount_open (z_cond z);
      _ ← (if is_active (z_cond z) then modify (add_active (-1)) else mret tt);
      _ ← put_zone zone (with_wp (with_cond z BLK_ZONE_COND_FULL) (u64 (z_start z + z_len z)));
      mret BLK_STS_OK
  | _ => mret BLK_STS_IOERR
  end.

Definition zoned_read (data offset length : Z) : M Z :=
  let zone := zone_number offset in
  st ← get_stat zone;
  _ ← put_stat zone (ZoneStat (st_written st) (u64 (st_read st + length)) (st_reset_count st)
                       (st_discard_count st));
  raw (raw_read data offset length).

(** The end of [zoned_write_common] once the checks passed. *)
Definition write_finish (zone data offset length : Z) (out : option Z) : M (Z * option Z) :=
  st ← get_stat zone;
  _ ← put_stat zone (ZoneStat (u64 (st_written st + length)) (st_read st) (st_reset_count st)
                       (st_discard_count st));
  r ← raw (raw_write data offset length);
  mret (r, out).

(** Advancing the write pointer, for a sequential zone. *)
Definition advance_wp (zone length : Z) : M unit :=
  z ← get_zone zone;
  let wp := u64 (z_wp z + length / SECTOR_SIZE) in
  _ ← put_zone zone (with_wp z wp);
  if wp =? u64 (z_start z + z_capacity z) then _ ← mark_zone_full_locked zone; mret tt
  else mret tt.

(** [zoned_write_common].  [want_out]: [out_written_position] is not NULL; the
    second result is what is stored there, if anything. *)
Definition zoned_write_common (data offset length : Z) (want_out append : bool)
    : M (Z * option Z) :=
  let zone := zone_number offset in
  z ← get_zone zone;
  if bool_decide (z_type z = BLK_ZONE_TYPE_CONVENTIONAL) then
    if append then mret (BLK_STS_IOERR, None)
    else write_finish zone data offset length None
  else
    if negb append && negb (u64 (z_wp z * SECTOR_SIZE) =? u64 offset) then
      mret (BLK_STS_IOERR, None)
    else
      let offset := if append then s64 (z_wp z * SECTOR_SIZE) else offset in
      let out := if append && want_out then Some offset else None in
      if u64 (u64 (z_start z + z_capacity z) * SECTOR_SIZE) <? u64 (offset + length) then
        mret (BLK_STS_IOERR, out)
      else
        match z_cond z with
        | BLK_ZONE_COND_EMPTY | BLK_ZONE_COND_CLOSED =>
            result ← open_zone_locked zone false;
            if negb (result =? BLK_STS_OK) then mret (result, out)
            else
              _ ← advance_wp zone length;
              write_finish zone data offset length out
        | BLK_ZONE_COND_IMP_OPEN | BLK_ZONE_COND_EXP_OPEN =>
            _ ← advance_wp zone length;
            write_finish zone data offset length out
        | _ => mret (BLK_STS_IOERR, out)
        end.

Definition zoned_write (data offset length : Z) : M Z :=
  r ← zoned_write_common data offset length false false; mret r.1.
Definition zoned_append_zone (data offset length : Z) (want_out : bool) : M (Z * option Z) :=
  zoned_write_common data offset length want_out true.

(** [zoned_report_zones]; [min] compares the [int] and the [size_t] unsigned. *)
Fixpoint copy_zones (zone : Z) (n : nat) : M (list blk_zone) :=
  match n with
  | O => mret []
  | S n' => z ← get_zone zone; rest ← copy_zones (zone + 1) n'; mret (z :: rest)
  end.
Definition zoned_report_zones (offset nr_zones : Z) : M (Z * list blk_zone) :=
  let start_zone := s32 (zone_number offset) in
  let left := u64 (num_zones cfg - start_zone) in
  let nr := s32 (if left <? u64 nr_zones then left else u64 nr_zones) in
  zs ← copy_zones start_zone (Z.to_nat nr);
  mret (nr, zs).

Definition zoned_open_zone (offset : Z) : M Z :=
  let zone := zone_number offset in
  z ← get_zone zone;
  match z_cond z with
  | BLK_ZONE_COND_EMPTY | BLK_ZONE_COND_IMP_OPEN | BLK_ZONE_COND_CLOSED =>
      open_zone_locked zone true
  | BLK_ZONE_COND_EXP_OPEN => mret BLK_STS_OK
  | _ => mret BLK_STS_IOERR
  end.

Definition zoned_close_zone (offset : Z) : M Z :=
  let zone := zone_number offset in
  z ← get_zone zone;
  match z_cond z with
  | BLK_ZONE_COND_IMP_OPEN | BLK_ZONE_COND_EXP_OPEN | BLK_ZONE_COND_CLOSED =>
      _ ← uncount_open (z_cond z);
      if z_wp z =? z_start z then
        _ ← put_zone zone (with_cond z BLK_ZONE_COND_EMPTY);
        _ ← modify (add_active (-1));
        mret BLK_STS_OK
      else
        _ ← put_zone zone (with_cond z BLK_ZONE_COND_CLOSED);
        mret BLK_STS_OK
  | _ => mret BLK_STS_IOERR
  end.

(** [zoned_finish_zone] drops the result of [mark_zone_full_locked]. *)
Definition zoned_finish_zone (offset : Z) : M Z :=
  let zone := zone_number offset in
  _ ← mark_zone_full_locked zone;
  mret BLK_STS_OK.

Definition zoned_reset_zone (offset : Z) : M Z :=
  let zone := zone_number offset in
  z ← get_zone zone;
  st ← get_stat zone;
  _ ← put_stat zone (ZoneStat (st_written st) (st_read st) (u64 (st_reset_count st + 1))
        (u64 (st_discard_count st + u64 ((z_wp z - z_start z) * SECTOR_SIZE))));
  match z_cond z with
  | BLK_ZONE_COND_EMPTY => mret BLK_STS_OK
  | BLK_ZONE_COND_IMP_OPEN | BLK_ZONE_COND_EXP_OPEN | BLK_ZONE_COND_CLOSED
  | BLK_ZONE_COND_FULL =>
      _ ← uncount_open (z_cond z);
      _ ← (if is_active (z_cond z) then modify (add_active (-1)) else mret tt);
      _ ← put_zone zone (with_wp (with_cond z BLK_ZONE_COND_EMPTY) (z_start z));
      raw (raw_discard (s64 (z_start z * SECTOR_SIZE)) (u64 (z_len z * SECTOR_SIZE)))
  | _ => mret BLK_STS_IOERR
  end.

Definition zoned_reset_all_zone : M Z :=
  _ ← initialize_zone_info;
  raw (raw_discard 0 (zoned_disk_size cfg)).
End zoned.
