(* ===== verification/ZonedInv.v ===== *)
(** * The zone invariant

    The geometry of the zones, the bounds of the write pointers and the
    accounting of open and active zones, and that every operation of
    [zoned-common.h] preserves them and runs without a fault. *)
From S2P Require Import Prelude Protocol Zoned.

(** ** Counting zones by condition *)

Definition is_imp (c : blk_zone_cond) : bool := bool_decide (c = BLK_ZONE_COND_IMP_OPEN).
Definition is_open (c : blk_zone_cond) : bool :=
  bool_decide (c ∈ [BLK_ZONE_COND_IMP_OPEN; BLK_ZONE_COND_EXP_OPEN]).

Fixpoint count_zones (p : blk_zone_cond -> bool) (l : list blk_zone) : Z :=
  match l with
  | [] => 0
  | z :: l' => Z.b2z (p (z_cond z)) + count_zones p l'
  end.

Lemma count_zones_range p l : 0 <= count_zones p l <= Z.of_nat (length l).
Proof. induction l as [|z l IH]; cbn [count_zones length]; [lia|]. destruct (p (z_cond z)); simpl; lia. Qed.
Lemma count_zones_insert p l i z z' :
  l !! i = Some z ->
  count_zones p (<[i := z']> l) = count_zones p l - Z.b2z (p (z_cond z)) + Z.b2z (p (z_cond z')).
Proof.
  revert i; induction l as [|y l IH]; intros [|i] Hi; simplify_eq/=; [lia|]. rewrite (IH i); [lia|done].
Qed.
Lemma count_zones_lookup p l i z : l !! i = Some z -> Z.b2z (p (z_cond z)) <= count_zones p l.
Proof.
  intros Hi. pose proof (count_zones_insert p l i z z Hi). pose proof (count_zones_range p (delete i l)).
  revert i Hi H H0. induction l as [|y l IH]; intros [|i] Hi _ _; simplify_eq/=.
  - pose proof (count_zones_range p l). lia.
  - specialize (IH i Hi). destruct (p (z_cond y)); simpl;
      pose proof (count_zones_insert p l i z z Hi); pose proof (count_zones_range p (delete i l));
      specialize (IH H H0); lia.
Qed.
Lemma count_zones_pos p l : 0 < count_zones p l -> exists i z, l !! i = Some z /\ p (z_cond z) = true.
Proof.
  induction l as [|y l IH]; simpl; [lia|]. destruct (p (z_cond y)) eqn:E.
  - intros _. by exists 0%nat, y.
  - simpl. intros H. destruct IH as (i & z & ? & ?); [lia|]. by exists (S i), z.
Qed.

Section inv.
Context {W : Type} (cfg : zone_config).

(** A configuration whose zones fit the [int] arithmetic of [initialize_zone_info]. *)
Record cfg_ok : Prop := {
  cfg_zone_size : 0 < ZONE_SIZE cfg < 2 ^ 31;
  cfg_sectors : zone_sectors cfg * SECTOR_SIZE = ZONE_SIZE cfg;
  cfg_disk : 0 <= zoned_disk_size cfg < 2 ^ 63;
  cfg_int : zone_sectors cfg * num_zones cfg <= 2 ^ 31;
  cfg_conv : 0 <= num_conventional_zones cfg <= num_zones cfg;
  cfg_max_open : 0 <= max_open_zones cfg < 2 ^ 32;
  cfg_max_active : 0 <= max_active_zones cfg < 2 ^ 32 }.

(** Where zone [i] lies, and what its condition says about its write pointer. *)
Record zone_wf (i : nat) (z : blk_zone) : Prop := {
  zw_start : z_start z = zone_sectors cfg * Z.of_nat i;
  zw_len : z_len z = zone_sectors cfg;
  zw_capacity : z_capacity z = zone_sectors cfg;
  zw_wp : z_start z <= z_wp z <= z_start z + zone_sectors cfg;
  zw_type : z_type z = if Z.of_nat i <? num_conventional_zones cfg
                       then BLK_ZONE_TYPE_CONVENTIONAL else BLK_ZONE_TYPE_SEQWRITE_REQ;
  zw_cond : if Z.of_nat i <? num_conventional_zones cfg
            then z_cond z = BLK_ZONE_COND_NOT_WP /\ z_wp z = z_start z
            else z_cond z ∈ [BLK_ZONE_COND_EMPTY; BLK_ZONE_COND_IMP_OPEN;
                             BLK_ZONE_COND_EXP_OPEN; BLK_ZONE_COND_CLOSED;
                             BLK_ZONE_COND_FULL];
  zw_full : z_cond z = BLK_ZONE_COND_FULL -> z_wp z = z_start z + zone_sectors cfg }.

(** The accounting.  [num_active_zones] may be above the number of active
    zones: see [open_zone_locked] at the open limit. *)
Record zinv (s : zstate W) : Prop := {
  zi_zones : Z.of_nat (length (zone_info s)) = num_zones cfg;
  zi_stats : Z.of_nat (length (stats s)) = num_zones cfg;
  zi_wf : forall i z, zone_info s !! i = Some z -> zone_wf i z;
  zi_open : num_open_zones s = count_zones is_open (zone_info s);
  zi_imp : num_imp_open_zones s = count_zones is_imp (zone_info s);
  zi_open_max : num_open_zones s <= max_open_zones cfg;
  zi_active : count_zones is_active (zone_info s) <= num_active_zones s;
  zi_active_max : num_active_zones s <= max_active_zones cfg }.

(** Replacing one zone, with the counters moved accordingly. *)
Lemma zinv_update s s' i z z' :
  zinv s -> zone_info s !! i = Some z -> zone_wf i z' ->
  zone_info s' = <[i := z']> (zone_info s) -> length (stats s') = length (stats s) ->
  num_open_zones s' = num_open_zones s + Z.b2z (is_open (z_cond z')) - Z.b2z (is_open (z_cond z)) ->
  num_imp_open_zones s' = num_imp_open_zones s + Z.b2z (is_imp (z_cond z')) - Z.b2z (is_imp (z_cond z)) ->
  num_open_zones s' <= max_open_zones cfg ->
  count_zones is_active (zone_info s) + Z.b2z (is_active (z_cond z')) - Z.b2z (is_active (z_cond z))
    <= num_active_zones s' ->
  num_active_zones s' <= max_active_zones cfg ->
  zinv s'.
Proof.
  intros [] Hz Hwf Hzi Hst Ho Hi Hom Ha Ham.
  split; rewrite ?Hzi, ?length_insert, ?Hst; try done.
  - intros j y. destruct (decide (i = j)) as [<-|Hne].
    + rewrite list_lookup_insert_eq by (by eapply lookup_lt_Some). by intros [= <-].
    + rewrite list_lookup_insert_ne by done. auto.
  - rewrite (count_zones_insert _ _ _ _ _ Hz). lia.
  - rewrite (count_zones_insert _ _ _ _ _ Hz). lia.
  - rewrite (count_zones_insert _ _ _ _ _ Hz). lia.
Qed.

(** Only statistics or the raw state changed, or the active count went up. *)
Lemma zinv_same s s' :
  zinv s -> zone_info s' = zone_info s -> length (stats s') = length (stats s) ->
  num_open_zones s' = num_open_zones s -> num_imp_open_zones s' = num_imp_open_zones s ->
  num_active_zones s <= num_active_zones s' <= max_active_zones cfg -> zinv s'.
Proof. intros [] Hz Hs Ho Hi Ha. split; rewrite ?Hz, ?Hs, ?Ho, ?Hi; try done; lia. Qed.

(** ** Rules for the accessors *)
Lemma wp_get_zone i z Q (s : zstate W) :
  zone_info s !! Z.to_nat i = Some z -> Q z s -> wp (get_zone i) Q s.
Proof. intros H ?. unfold wp, get_zone, mbind, ST_bind, gets. by rewrite H. Qed.
Lemma wp_put_zone i z Q (s : zstate W) :
  Q tt (set_zones <[Z.to_nat i := z]> s) -> wp (put_zone i z) Q s.
Proof. done. Qed.
Lemma wp_get_stat i z Q (s : zstate W) :
  stats s !! Z.to_nat i = Some z -> Q z s -> wp (get_stat i) Q s.
Proof. intros H ?. unfold wp, get_stat, mbind, ST_bind, gets. by rewrite H. Qed.
Lemma wp_put_stat i z Q (s : zstate W) :
  Q tt (set_stats <[Z.to_nat i := z]> s) -> wp (put_stat i z) Q s.
Proof. done. Qed.
End inv.

Ltac zstep :=
  lazymatch goal with
  | |- wp (get_zone _) _ _ => eapply wp_get_zone; [eassumption|]
  | |- wp (put_zone _ _) _ _ => apply wp_put_zone
  | |- wp (get_stat _) _ _ => eapply wp_get_stat; [eassumption|]
  | |- wp (put_stat _ _) _ _ => apply wp_put_stat
  | _ => wp_step
  end; cbv beta.
Ltac zsteps := repeat zstep.

Section preserve.
Context {W : Type} (cfg : zone_config).
Context (Hcfg : cfg_ok cfg).
Implicit Types s : zstate W.
Abbreviation inv := (zinv cfg).

(** What a counter of an unsigned int decreases to when zone [i] was counted. *)
Lemma dec_open s i z :
  inv s -> zone_info s !! i = Some z -> is_open (z_cond z) = true ->
  u32 (num_open_zones s + -1) = num_open_zones s - 1.
Proof.
  intros [] Hz Hp. pose proof (count_zones_lookup is_open _ _ _ Hz) as H.
  rewrite Hp in H. simpl in H. destruct Hcfg. apply wrap_small. lia.
Qed.
Lemma dec_imp s i z :
  inv s -> zone_info s !! i = Some z -> is_imp (z_cond z) = true ->
  u32 (num_imp_open_zones s + -1) = num_imp_open_zones s - 1.
Proof.
  intros [] Hz Hp. pose proof (count_zones_lookup is_imp _ _ _ Hz) as H.
  rewrite Hp in H. simpl in H. destruct Hcfg.
  assert (count_zones is_imp (zone_info s) <= count_zones is_open (zone_info s)).
  { clear. induction (zone_info s) as [|y l IH]; simpl; [lia|].
    destruct (z_cond y); simpl; lia. }
  apply wrap_small. lia.
Qed.
Lemma dec_active s i z :
  inv s -> zone_info s !! i = Some z -> is_active (z_cond z) = true ->
  u32 (num_active_zones s + -1) = num_active_zones s - 1.
Proof.
  intros [] Hz Hp. pose proof (count_zones_lookup is_active _ _ _ Hz) as H.
  rewrite Hp in H. simpl in H. destruct Hcfg. apply wrap_small. lia.
Qed.
Lemma imp_le_open s : inv s -> num_imp_open_zones s <= num_open_zones s.
Proof.
  intros []. rewrite zi_open0, zi_imp0. clear. induction (zone_info s) as [|y l IH]; simpl; [lia|].
  destruct (z_cond y); simpl; lia.
Qed.

Lemma zone_seq s i z : inv s -> zone_info s !! i = Some z ->
  z_cond z <> BLK_ZONE_COND_NOT_WP -> num_conventional_zones cfg <= Z.of_nat i.
Proof.
  intros [] Hz Hc. destruct (zi_wf0 i z Hz) as [].
  destruct (Z.ltb_spec (Z.of_nat i) (num_conventional_zones cfg)); [|lia]. by destruct zw_cond0.
Qed.

(** A sequential zone stays well formed under a change of condition (FULL apart). *)
Lemma zone_wf_cond i z c :
  zone_wf cfg i z -> num_conventional_zones cfg <= Z.of_nat i ->
  c ∈ [BLK_ZONE_COND_EMPTY; BLK_ZONE_COND_IMP_OPEN; BLK_ZONE_COND_EXP_OPEN; BLK_ZONE_COND_CLOSED] ->
  zone_wf cfg i (with_cond z c).
Proof.
  intros [] Hi Hc. split; simpl; try done.
  - destruct (Z.ltb_spec (Z.of_nat i) (num_conventional_zones cfg)); [lia|]. set_solver.
  - intros ->. set_solver.
Qed.
Lemma zone_wf_wp i z wp :
  zone_wf cfg i z -> num_conventional_zones cfg <= Z.of_nat i ->
  z_cond z <> BLK_ZONE_COND_FULL -> z_start z <= wp <= z_start z + zone_sectors cfg ->
  zone_wf cfg i (with_wp z wp).
Proof.
  intros [] Hi Hc Hw. split; simpl; try done.
  destruct (Z.ltb_spec (Z.of_nat i) (num_conventional_zones cfg)); [lia|done].
Qed.
Lemma zone_wf_full i z :
  zone_wf cfg i z -> num_conventional_zones cfg <= Z.of_nat i -> 0 <= zone_sectors cfg ->
  zone_wf cfg i (with_wp (with_cond z BLK_ZONE_COND_FULL) (z_start z + zone_sectors cfg)).
Proof.
  intros [] Hi Hs. split; simpl; try done; [lia|].
  destruct (Z.ltb_spec (Z.of_nat i) (num_conventional_zones cfg)); [lia|]. set_solver.
Qed.

(** ** [close_imp_open_zone] *)

(** Zone [j] was implicitly open and is now closed. *)
Definition closed_one (j : nat) (zj : blk_zone) s s' : Prop :=
  zone_info s !! j = Some zj /\ z_cond zj = BLK_ZONE_COND_IMP_OPEN /\
  s' = ZState (<[j := with_cond zj BLK_ZONE_COND_CLOSED]> (zone_info s)) (stats s)
         (num_open_zones s - 1) (num_imp_open_zones s - 1) (num_active_zones s) (raw_state s).

Lemma close_imp_loop_spec s skip zone left j zj :
  inv s -> 0 <= zone -> zone + Z.of_nat left <= num_zones cfg ->
  zone <= Z.of_nat j < zone + Z.of_nat left -> zone_info s !! j = Some zj ->
  z_cond zj = BLK_ZONE_COND_IMP_OPEN -> Z.of_nat j <> skip ->
  wp (close_imp_open_loop skip zone left)
    (fun _ s' => exists j zj, closed_one j zj s s' /\ Z.of_nat j <> skip) s.
Proof.
  intros Hinv. revert zone. induction left as [|left IH]; intros zone Hz Hlen Hj Hzj Hc Hskip; [lia|].
  cbn [close_imp_open_loop].
  destruct (Z.eqb_spec zone skip) as [->|Hne]; [apply IH; try done; lia|].
  destruct (lookup_lt_is_Some_2 (zone_info s) (Z.to_nat zone)) as [z Hzone].
  { destruct Hinv. lia. }
  zsteps. case_bool_decide as Himp.
  - zsteps. exists (Z.to_nat zone), z. split; [|lia]. split; [done|]. split; [done|].
    destruct s as [zi st no ni na w]; unfold add_imp, add_open, set_zones; simpl in *.
    pose proof (dec_open _ _ _ Hinv Hzone) as Ho. pose proof (dec_imp _ _ _ Hinv Hzone) as Hi.
    simpl in Ho, Hi. rewrite Himp in Ho, Hi. rewrite Ho, Hi by done. done.
  - apply IH; try done; [lia..|]. split; [|lia].
    destruct (decide (zone = Z.of_nat j)) as [->|]; [|lia].
    rewrite Nat2Z.id in Hzone. congruence.
Qed.

Lemma closed_one_inv s s' j zj : inv s -> closed_one j zj s s' -> inv s'.
Proof.
  intros Hinv (Hj & Hc & ->). pose proof Hinv as [].
  eapply (zinv_update cfg s _ j zj); simpl; try done; rewrite ?Hc; simpl; try lia.
  apply zone_wf_cond; [eauto| |set_solver]. eapply zone_seq; [done..|]. by rewrite Hc.
Qed.

Lemma close_imp_open_zone_spec s zone z :
  inv s -> zone_info s !! Z.to_nat zone = Some z -> 0 <= zone ->
  z_cond z <> BLK_ZONE_COND_IMP_OPEN -> 0 < num_imp_open_zones s ->
  wp (close_imp_open_zone cfg zone)
    (fun _ s' => exists j zj, closed_one j zj s s' /\ Z.of_nat j <> zone) s.
Proof.
  intros Hinv Hz Hzone Hc Himp. pose proof Hinv as [].
  rewrite zi_imp0 in Himp. apply count_zones_pos in Himp as (j & zj & Hj & Hcj).
  unfold is_imp in Hcj. apply bool_decide_eq_true in Hcj.
  assert (num_conventional_zones cfg <= Z.of_nat j).
  { eapply zone_seq; [done..|]. by rewrite Hcj. }
  pose proof (lookup_lt_Some _ _ _ Hj). destruct Hcfg.
  apply (close_imp_loop_spec s zone _ _ j zj); try done; try lia.
  intros <-. rewrite Nat2Z.id in Hz. congruence.
Qed.

(** ** [open_zone_locked] *)

(** Zone [i] is still zone [z], possibly in another condition; statistics and
    the raw state are untouched. *)
Definition recond (i : nat) (z : blk_zone) s s' : Prop :=
  inv s' /\ stats s' = stats s /\ raw_state s' = raw_state s /\
  exists c, zone_info s' !! i = Some (with_cond z c) /\
    c ∈ [BLK_ZONE_COND_EMPTY; BLK_ZONE_COND_IMP_OPEN; BLK_ZONE_COND_EXP_OPEN; BLK_ZONE_COND_CLOSED].

Lemma with_cond_id z : with_cond z (z_cond z) = z.
Proof. by destruct z. Qed.
Lemma recond_refl i z s :
  inv s -> zone_info s !! i = Some z ->
  z_cond z ∈ [BLK_ZONE_COND_EMPTY; BLK_ZONE_COND_IMP_OPEN; BLK_ZONE_COND_EXP_OPEN; BLK_ZONE_COND_CLOSED] ->
  recond i z s s.
Proof. intros ???. split_and!; try done. exists (z_cond z). by rewrite with_cond_id. Qed.

Lemma zone_index s i z : inv s -> zone_info s !! i = Some z -> Z.of_nat i < num_zones cfg.
Proof. intros [] H%lookup_lt_Some. lia. Qed.

(** An operation that turns zone [i] into [with_cond z c]. *)
Lemma recond_put i z c s s' :
  inv s -> zone_info s !! i = Some z -> z_cond z <> BLK_ZONE_COND_NOT_WP ->
  c ∈ [BLK_ZONE_COND_EMPTY; BLK_ZONE_COND_IMP_OPEN; BLK_ZONE_COND_EXP_OPEN; BLK_ZONE_COND_CLOSED] ->
  zone_info s' = <[i := with_cond z c]> (zone_info s) -> stats s' = stats s ->
  raw_state s' = raw_state s ->
  num_open_zones s' = num_open_zones s + Z.b2z (is_open c) - Z.b2z (is_open (z_cond z)) ->
  num_imp_open_zones s' = num_imp_open_zones s + Z.b2z (is_imp c) - Z.b2z (is_imp (z_cond z)) ->
  num_open_zones s' <= max_open_zones cfg ->
  count_zones is_active (zone_info s) + Z.b2z (is_active c) - Z.b2z (is_active (z_cond z))
    <= num_active_zones s' ->
  num_active_zones s' <= max_active_zones cfg ->
  recond i z s s'.
Proof.
  intros Hinv Hz Hc Hcs Hzi Hst Hraw Ho Hi Hom Ha Ham. pose proof Hinv as [].
  split_and!; [|done|done|].
  - eapply (zinv_update cfg s s' i z (with_cond z c)); try done; [|congruence].
    apply zone_wf_cond; [by eauto|by eapply zone_seq|done].
  - exists c. split; [|done]. rewrite Hzi. apply list_lookup_insert_eq. by eapply lookup_lt_Some.
Qed.

Lemma inv_put_cond i z c s s' :
  inv s -> zone_info s !! i = Some z -> z_cond z <> BLK_ZONE_COND_NOT_WP ->
  c ∈ [BLK_ZONE_COND_EMPTY; BLK_ZONE_COND_IMP_OPEN; BLK_ZONE_COND_EXP_OPEN; BLK_ZONE_COND_CLOSED] ->
  zone_info s' = <[i := with_cond z c]> (zone_info s) -> stats s' = stats s ->
  raw_state s' = raw_state s ->
  num_open_zones s' = num_open_zones s + Z.b2z (is_open c) - Z.b2z (is_open (z_cond z)) ->
  num_imp_open_zones s' = num_imp_open_zones s + Z.b2z (is_imp c) - Z.b2z (is_imp (z_cond z)) ->
  num_open_zones s' <= max_open_zones cfg ->
  count_zones is_active (zone_info s) + Z.b2z (is_active c) - Z.b2z (is_active (z_cond z))
    <= num_active_zones s' ->
  num_active_zones s' <= max_active_zones cfg ->
  inv s'.
Proof. intros. eapply proj1, recond_put; eassumption. Qed.

Lemma open_closed_spec s zone z explicit :
  inv s -> 0 <= zone -> zone_info s !! Z.to_nat zone = Some z ->
  z_cond z ∈ [BLK_ZONE_COND_EMPTY; BLK_ZONE_COND_CLOSED] ->
  count_zones is_active (zone_info s) + 1 - Z.b2z (is_active (z_cond z)) <= num_active_zones s ->
  wp (open_closed cfg zone explicit) (fun _ s' => recond (Z.to_nat zone) z s s') s.
Proof.
  intros Hinv Hzone Hz Hc Hact. pose proof Hinv as [].
  assert (is_open (z_cond z) = false /\ is_imp (z_cond z) = false /\
          z_cond z <> BLK_ZONE_COND_NOT_WP /\ z_cond z <> BLK_ZONE_COND_IMP_OPEN) as (Eo & Ei & En & Ep).
  { apply elem_of_cons in Hc as [->|Hc]; [done|]. by apply list_elem_of_singleton in Hc as ->. }
  unfold open_closed. zsteps. destruct (Z.leb_spec (max_open_zones cfg) (num_open_zones s)).
  - zsteps. destruct (Z.ltb_spec 0 (num_imp_open_zones s)).
    + wp_step. eapply wp_mono; [by eapply close_imp_open_zone_spec|].
      intros _ s' (j & zj & Hcl & Hj). zsteps.
      assert (inv s') as Hinv' by (by eapply closed_one_inv).
      destruct Hcl as (Hzj & Hcj & ->). split_and!; try done.
      exists (z_cond z). rewrite with_cond_id. simpl. rewrite list_lookup_insert_ne by lia.
      split; [done|]. set_solver.
    + zsteps. apply recond_refl; try done. set_solver.
  - assert (u32 (num_open_zones s + 1) = num_open_zones s + 1) as Hadd.
    { destruct Hcfg. pose proof (count_zones_range is_open (zone_info s)). apply wrap_small. lia. }
    zsteps. destruct explicit; zsteps.
    + eapply (recond_put _ _ BLK_ZONE_COND_EXP_OPEN); simpl; try done;
        rewrite ?Hadd, ?Eo, ?Ei; simpl; try lia. set_solver.
    + assert (u32 (num_imp_open_zones s + 1) = num_imp_open_zones s + 1) as Hadd'.
      { destruct Hcfg. pose proof (imp_le_open s Hinv).
        pose proof (count_zones_range is_imp (zone_info s)). apply wrap_small. lia. }
      eapply (recond_put _ _ BLK_ZONE_COND_IMP_OPEN); simpl; try done;
        rewrite ?Hadd, ?Hadd', ?Eo, ?Ei; simpl; try lia. set_solver.
Qed.

Lemma open_zone_locked_spec s zone z explicit :
  inv s -> 0 <= zone -> zone_info s !! Z.to_nat zone = Some z ->
  wp (open_zone_locked cfg zone explicit)
    (fun r s' => inv s' /\ (r = BLK_STS_OK -> recond (Z.to_nat zone) z s s')) s.
Proof.
  intros Hinv Hzone Hz. pose proof Hinv as [].
  assert (forall r s', recond (Z.to_nat zone) z s s' ->
            inv s' /\ (r = BLK_STS_OK -> recond (Z.to_nat zone) z s s')) as Hdone.
  { intros r s' Hr. split; [|done]. apply Hr. }
  unfold open_zone_locked. zsteps. destruct (z_cond z) eqn:Hc; zsteps; try done.
  - (* EMPTY *)
    destruct (Z.leb_spec (max_active_zones cfg) (num_active_zones s)); zsteps; [done|].
    assert (u32 (num_active_zones s + 1) = num_active_zones s + 1) as Hadd.
    { destruct Hcfg. pose proof (count_zones_range is_active (zone_info s)). apply wrap_small. lia. }
    set (s1 := add_active 1 s).
    assert (inv s1) as Hinv1.
    { apply (zinv_same cfg s); try done; unfold s1; simpl; rewrite Hadd; lia. }
    eapply wp_mono.
    { apply (open_closed_spec s1 zone z); try done; rewrite Hc; [set_solver|].
      unfold s1; simpl. rewrite Hadd. lia. }
    intros r s' (? & ? & ? & ?). by apply Hdone.
  - (* IMP_OPEN *)
    destruct explicit; zsteps; apply Hdone.
    + pose proof (dec_imp _ _ _ Hinv Hz) as Hd. rewrite Hc in Hd. specialize (Hd eq_refl).
      eapply (recond_put _ _ BLK_ZONE_COND_EXP_OPEN); simpl; rewrite ?Hc, ?Hd; simpl;
        try done; try lia. set_solver.
    + apply recond_refl; rewrite ?Hc; try done. set_solver.
  - (* EXP_OPEN *) apply Hdone, recond_refl; rewrite ?Hc; try done. set_solver.
  - (* CLOSED *)
    eapply wp_mono; [apply (open_closed_spec s zone z); try done; rewrite Hc; [set_solver|simpl; lia]|].
    intros r s' Hr. by apply Hdone.
Qed.

(** ** The other operations *)

Lemma zone_bounds s i z :
  inv s -> zone_info s !! i = Some z ->
  0 <= z_start z /\ z_start z + zone_sectors cfg <= 2 ^ 31 /\ 0 <= zone_sectors cfg.
Proof.
  intros Hinv Hz. pose proof (zone_index _ _ _ Hinv Hz).
  pose proof Hinv as []. destruct (zi_wf0 i z Hz). destruct Hcfg.
  assert (0 <= zone_sectors cfg) by (unfold SECTOR_SIZE in *; lia). nia.
Qed.

Lemma mark_zone_full_spec s zone z :
  inv s -> zone_info s !! Z.to_nat zone = Some z ->
  wp (mark_zone_full_locked zone)
    (fun _ s' => inv s' /\ stats s' = stats s /\ raw_state s' = raw_state s) s.
Proof.
  intros Hinv Hz. pose proof Hinv as [].
  destruct (zone_bounds _ _ _ Hinv Hz) as (Hb1 & Hb2 & Hb3).
  assert (u64 (z_start z + z_len z) = z_start z + zone_sectors cfg) as Hend.
  { destruct (zi_wf0 _ _ Hz). rewrite zw_len0. apply wrap_small. lia. }
  pose proof (dec_open _ _ _ Hinv Hz) as Ho. pose proof (dec_imp _ _ _ Hinv Hz) as Hi.
  pose proof (dec_active _ _ _ Hinv Hz) as Ha.
  pose proof (zone_seq _ _ _ Hinv Hz) as Hseq.
  unfold mark_zone_full_locked. zsteps.
  destruct (z_cond z) eqn:Hc; unfold uncount_open; zsteps; try done;
    simpl is_active; cbn [negb]; zsteps;
    (split_and!; [|done|done]);
    eapply (zinv_update cfg s _ (Z.to_nat zone) z
             (with_wp (with_cond z BLK_ZONE_COND_FULL) (z_start z + zone_sectors cfg)));
    simpl; rewrite ?Hend, ?Hc; try done;
    try (apply zone_wf_full; [by eauto|by apply Hseq|done]);
    rewrite ?Ho, ?Hi, ?Ha by done; simpl; lia.
Qed.

(** The raw operations return on every range of the disk. *)
Definition on_disk (o l : Z) : Prop := 0 <= o /\ 0 <= l /\ o + l <= zoned_disk_size cfg.
Lemma wp_raw {A} (m : ST W A) (Q : A -> zstate W -> Prop) s :
  (exists r w, m (raw_state s) = Ret (r, w)) ->
  (forall r w, Q r (ZState (zone_info s) (stats s) (num_open_zones s) (num_imp_open_zones s)
                     (num_active_zones s) w)) ->
  wp (raw m) Q s.
Proof. intros (r & w & H) HQ. unfold wp, raw. by rewrite H. Qed.

Lemma inv_raw s (w : W) :
  inv s -> inv (ZState (zone_info s) (stats s) (num_open_zones s) (num_imp_open_zones s)
                  (num_active_zones s) w).
Proof. intros []. by split. Qed.

Lemma advance_wp_spec s zone z len :
  inv s -> zone_info s !! Z.to_nat zone = Some z ->
  z_cond z ∈ [BLK_ZONE_COND_EMPTY; BLK_ZONE_COND_IMP_OPEN; BLK_ZONE_COND_EXP_OPEN; BLK_ZONE_COND_CLOSED] ->
  0 <= len -> z_wp z + len / SECTOR_SIZE <= z_start z + zone_sectors cfg ->
  wp (advance_wp zone len)
    (fun _ s' => inv s' /\ stats s' = stats s /\ raw_state s' = raw_state s) s.
Proof.
  intros Hinv Hz Hc Hlen Hfit. pose proof Hinv as [].
  destruct (zone_bounds _ _ _ Hinv Hz) as (Hb1 & Hb2 & Hb3).
  pose proof (zi_wf0 _ _ Hz) as Hwf. pose proof Hwf as [].
  assert (0 <= len / SECTOR_SIZE) by (apply Z.div_pos; unfold SECTOR_SIZE; lia).
  assert (z_cond z <> BLK_ZONE_COND_NOT_WP /\ z_cond z <> BLK_ZONE_COND_FULL) as [Hn1 Hn2].
  { split; intros Heq; rewrite Heq in Hc; set_solver. }
  unfold advance_wp. zsteps.
  assert (u64 (z_wp z + len / SECTOR_SIZE) = z_wp z + len / SECTOR_SIZE) as ->
    by (apply wrap_small; lia).
  set (z1 := with_wp z _). set (s1 := set_zones _ s).
  assert (inv s1) as Hinv1.
  { eapply (zinv_update cfg s s1 _ z z1); try done; unfold z1, s1; simpl; try lia.
    apply zone_wf_wp; try done; [by eapply zone_seq|lia]. }
  assert (zone_info s1 !! Z.to_nat zone = Some z1) as Hz1.
  { unfold s1; simpl. apply list_lookup_insert_eq. by eapply lookup_lt_Some. }
  destruct (_ =? _); zsteps; [|done].
  eapply wp_mono; [by apply (mark_zone_full_spec s1 zone z1)|].
  intros r s' (? & ? & ?). by zsteps.
Qed.

Lemma disk_fits : num_zones cfg * ZONE_SIZE cfg < 2 ^ 63.
Proof.
  destruct Hcfg. pose proof (Z.mul_div_le (zoned_disk_size cfg) (ZONE_SIZE cfg)).
  unfold num_zones. lia.
Qed.

Lemma zone_end_on_disk s i z :
  inv s -> zone_info s !! i = Some z ->
  0 <= z_start z * SECTOR_SIZE /\
  (z_start z + zone_sectors cfg) * SECTOR_SIZE <= zoned_disk_size cfg.
Proof.
  intros Hinv Hz. destruct (zone_bounds _ _ _ Hinv Hz) as (? & ? & ?).
  pose proof (zone_index _ _ _ Hinv Hz). pose proof Hinv as []. destruct (zi_wf0 i z Hz).
  pose proof Hcfg as []. pose proof (Z.mul_div_le (zoned_disk_size cfg) (ZONE_SIZE cfg)) as Hd.
  fold (num_zones cfg) in Hd. split; [unfold SECTOR_SIZE; lia|].
  rewrite zw_start0. nia.
Qed.

(** An offset on the disk falls in a zone that exists. *)
Lemma zone_number_range offset :
  0 <= offset < num_zones cfg * ZONE_SIZE cfg ->
  zone_number cfg offset = offset / ZONE_SIZE cfg /\ 0 <= zone_number cfg offset < num_zones cfg.
Proof.
  intros Ho. pose proof Hcfg as []. unfold zone_number.
  assert (0 <= offset / ZONE_SIZE cfg < num_zones cfg) as Hq.
  { split; [apply Z.div_pos; lia|]. apply Z.div_lt_upper_bound; lia. }
  assert (1 <= zone_sectors cfg) by (unfold SECTOR_SIZE in *; lia).
  assert (u32 (offset `quot` ZONE_SIZE cfg) = offset / ZONE_SIZE cfg) as ->; [|done].
  rewrite Z.quot_div_nonneg by lia. apply wrap_small. nia.
Qed.
Lemma zone_number_ok offset s :
  inv s -> 0 <= offset < num_zones cfg * ZONE_SIZE cfg ->
  exists z st, zone_info s !! Z.to_nat (zone_number cfg offset) = Some z /\
    stats s !! Z.to_nat (zone_number cfg offset) = Some st /\
    zone_number cfg offset = offset / ZONE_SIZE cfg /\
    0 <= zone_number cfg offset < num_zones cfg.
Proof.
  intros [] Ho. destruct (zone_number_range offset Ho) as [Hn Hr].
  destruct (lookup_lt_is_Some_2 (zone_info s) (Z.to_nat (zone_number cfg offset))) as [z ?]; [lia|].
  destruct (lookup_lt_is_Some_2 (stats s) (Z.to_nat (zone_number cfg offset))) as [st ?]; [lia|].
  by exists z, st.
Qed.

Lemma recond_lookup i z s s' :
  recond i z s s' -> exists z', zone_info s' !! i = Some z' /\ z_wp z' = z_wp z /\
    z_start z' = z_start z /\
    z_cond z' ∈ [BLK_ZONE_COND_EMPTY; BLK_ZONE_COND_IMP_OPEN; BLK_ZONE_COND_EXP_OPEN; BLK_ZONE_COND_CLOSED].
Proof. intros (_ & _ & _ & c & Hc & ?). by eexists. Qed.

Lemma zoned_open_zone_inv s offset :
  inv s -> 0 <= offset < num_zones cfg * ZONE_SIZE cfg ->
  wp (zoned_open_zone cfg offset) (fun _ s' => inv s') s.
Proof.
  intros Hinv Hoff.
  destruct (zone_number_ok offset s Hinv Hoff) as (z & st & Hz & Hst & Hzn & Hzr).
  unfold zoned_open_zone. zsteps. destruct (z_cond z); zsteps; try done;
    (eapply wp_mono; [by apply (open_zone_locked_spec s _ z); [..|lia|]|]; intros r s' [? _]; done).
Qed.

Lemma zoned_close_zone_inv s offset :
  inv s -> 0 <= offset < num_zones cfg * ZONE_SIZE cfg ->
  wp (zoned_close_zone cfg offset) (fun _ s' => inv s') s.
Proof.
  intros Hinv Hoff.
  destruct (zone_number_ok offset s Hinv Hoff) as (z & st & Hz & Hst & Hzn & Hzr).
  pose proof Hinv as [].
  pose proof (dec_open _ _ _ Hinv Hz) as Ho. pose proof (dec_imp _ _ _ Hinv Hz) as Hi.
  pose proof (dec_active _ _ _ Hinv Hz) as Ha.
  unfold zoned_close_zone. zsteps.
  destruct (z_cond z) eqn:Hc; zsteps; try done; unfold uncount_open; zsteps;
    specialize (Ha eq_refl); try specialize (Ho eq_refl); try specialize (Hi eq_refl);
    destruct (_ =? _); zsteps;
    match goal with
    | |- context [with_cond z ?c] =>
        apply (inv_put_cond (Z.to_nat (zone_number cfg offset)) z c s)
    end; simpl; rewrite ?Hc, ?Ho, ?Hi, ?Ha; simpl; try done; try lia; set_solver.
Qed.

Lemma zoned_finish_zone_inv s offset :
  inv s -> 0 <= offset < num_zones cfg * ZONE_SIZE cfg ->
  wp (zoned_finish_zone cfg offset) (fun _ s' => inv s') s.
Proof.
  intros Hinv Hoff.
  destruct (zone_number_ok offset s Hinv Hoff) as (z & st & Hz & Hst & Hzn & Hzr).
  unfold zoned_finish_zone. zsteps. eapply wp_mono; [by apply (mark_zone_full_spec s _ z)|].
  intros r s' [? _]. by zsteps.
Qed.

Lemma init_zone_wf (i : nat) :
  Z.of_nat i < num_zones cfg -> zone_wf cfg i (init_zone cfg (Z.of_nat i)).
Proof.
  intros Hi. destruct Hcfg.
  assert (1 <= zone_sectors cfg) by (unfold SECTOR_SIZE in *; lia).
  assert (u64 (zone_sectors cfg * Z.of_nat i) = zone_sectors cfg * Z.of_nat i) as Hs.
  { apply wrap_small. nia. }
  unfold init_zone. rewrite Hs.
  destruct (Z.ltb_spec (Z.of_nat i) (num_conventional_zones cfg)) as [Hlt|Hge];
    split; simpl; try done; try lia;
    destruct (Z.ltb_spec (Z.of_nat i) (num_conventional_zones cfg)); try done; try lia.
  set_solver.
Qed.

Lemma count_init p l :
  (forall i, i ∈ l -> p (z_cond (init_zone cfg i)) = false) ->
  count_zones p (init_zone cfg <$> l) = 0.
Proof.
  induction l as [|i l IH]; intros Hp; [done|]. rewrite fmap_cons. cbn [count_zones].
  rewrite Hp by set_solver. rewrite IH; [done|]. intros j Hj. apply Hp. set_solver.
Qed.
Lemma init_zone_cond i :
  z_cond (init_zone cfg i) = BLK_ZONE_COND_NOT_WP \/ z_cond (init_zone cfg i) = BLK_ZONE_COND_EMPTY.
Proof. unfold init_zone. destruct (_ <? _); simpl; auto. Qed.

Lemma fresh_inv (st : list zone_stat) (w : W) :
  Z.of_nat (length st) = num_zones cfg ->
  inv (ZState (init_zone cfg <$> seqZ 0 (num_zones cfg)) st 0 0 0 w).
Proof.
  intros Hst. pose proof Hcfg as []. split; simpl; try done; try lia.
  - rewrite length_fmap, length_seqZ. lia.
  - intros i z Hz. rewrite list_lookup_fmap in Hz. apply fmap_Some in Hz as (j & Hj & ->).
    apply lookup_seqZ in Hj as [-> ?]. apply init_zone_wf. lia.
  - rewrite count_init; [done|]. intros i _. by destruct (init_zone_cond i) as [-> | ->].
  - rewrite count_init; [done|]. intros i _. by destruct (init_zone_cond i) as [-> | ->].
  - rewrite count_init; [done|]. intros i _. by destruct (init_zone_cond i) as [-> | ->].
Qed.

Lemma no_overflow : (2 ^ 31 <=? zone_sectors cfg * (num_zones cfg - 1)) = false.
Proof. apply Z.leb_gt. destruct Hcfg. assert (1 <= zone_sectors cfg) by (unfold SECTOR_SIZE in *; lia). lia. Qed.
Lemma initialize_spec (w : W) : initialize cfg w = Ret (tt, initial_state cfg w).
Proof.
  unfold initialize, initialize_zone_info. rewrite no_overflow. destruct Hcfg.
  by destruct (Z.ltb_spec (num_zones cfg) (num_conventional_zones cfg)); [lia|].
Qed.
Lemma initial_inv (w : W) : inv (initial_state cfg w).
Proof. apply fresh_inv. destruct Hcfg. rewrite length_replicate. lia. Qed.

(** ** Operations that call the raw device *)

Context (raw_read raw_write : Z -> Z -> Z -> ST W Z) (raw_discard : Z -> Z -> ST W Z).
Context (Hraw_read : forall d o l w, on_disk o l -> exists r w', raw_read d o l w = Ret (r, w')).
Context (Hraw_write : forall d o l w, on_disk o l -> exists r w', raw_write d o l w = Ret (r, w')).
Context (Hraw_discard : forall o l w, on_disk o l -> exists r w', raw_discard o l w = Ret (r, w')).

Lemma write_finish_spec s zone st data offset length out :
  inv s -> stats s !! Z.to_nat zone = Some st -> on_disk offset length ->
  wp (write_finish raw_write zone data offset length out) (fun r s' => inv s') s.
Proof.
  intros Hinv Hst Hon. unfold write_finish. zsteps.
  apply wp_raw; [by apply Hraw_write|]. intros r w. zsteps. apply inv_raw.
  apply (zinv_same cfg s); try done; simpl; [by rewrite length_insert|].
  destruct Hinv; lia.
Qed.

(** After the checks of [zoned_write_common]: advancing, and the raw write. *)
Lemma write_rest_spec s s0 zone z st data offset length out :
  recond (Z.to_nat zone) z s0 s -> stats s !! Z.to_nat zone = Some st -> on_disk offset length ->
  z_wp z + length / SECTOR_SIZE <= z_start z + zone_sectors cfg ->
  wp (_ ← advance_wp zone length; write_finish raw_write zone data offset length out)
    (fun _ s' => inv s') s.
Proof.
  intros Hre Hst Hon Hfit. pose proof Hre as (Hinv & _). pose proof Hon as (_ & Hlen & _).
  destruct (recond_lookup _ _ _ _ Hre) as (z' & Hz' & Hwp & Hstart & Hc).
  wp_step. eapply wp_mono; [apply (advance_wp_spec s zone z'); try done; lia|].
  intros _ s' (Hinv' & Hst' & _). apply write_finish_spec with st; [done|congruence|done].
Qed.

Lemma zoned_write_common_inv s data offset length want append :
  inv s -> 0 <= offset < num_zones cfg * ZONE_SIZE cfg -> 0 <= length < 2 ^ 63 ->
  (append = false -> on_disk offset length) ->
  wp (zoned_write_common cfg raw_write data offset length want append) (fun _ s' => inv s') s.
Proof.
  intros Hinv Hoff Hlen Hon.
  destruct (zone_number_ok offset s Hinv Hoff) as (z & st & Hz & Hst & Hzn & Hzr).
  destruct (zone_bounds _ _ _ Hinv Hz) as (Hb1 & Hb2 & Hb3). pose proof Hcfg as [].
  pose proof Hinv as []. pose proof (zi_wf0 _ _ Hz) as [].
  unfold zoned_write_common. zsteps. case_bool_decide as Hty.
  { destruct append; zsteps; [done|]. by eapply write_finish_spec; auto. }
  assert (u64 (z_wp z * SECTOR_SIZE) = z_wp z * SECTOR_SIZE) as Ew
    by (apply wrap_small; unfold SECTOR_SIZE; lia).
  assert (s64 (z_wp z * SECTOR_SIZE) = z_wp z * SECTOR_SIZE) as Esw
    by (apply swrap_small; unfold SECTOR_SIZE; lia).
  assert (u64 offset = offset) as Eo by (apply wrap_small; pose proof disk_fits; lia).
  rewrite Ew, Esw, Eo.
  destruct (negb append && negb (z_wp z * SECTOR_SIZE =? offset)) eqn:Ehead; zsteps; [done|].
  set (off := if append then z_wp z * SECTOR_SIZE else offset).
  assert (off = z_wp z * SECTOR_SIZE) as Hoffwp.
  { unfold off. destruct append; [done|]. simpl in Ehead.
    apply negb_false_iff in Ehead. apply Z.eqb_eq in Ehead. done. }
  assert (u64 (u64 (z_start z + z_capacity z) * SECTOR_SIZE) = (z_start z + zone_sectors cfg) * SECTOR_SIZE) as ->.
  { rewrite zw_capacity0, (wrap_small 64 (_ + _)) by lia. apply wrap_small. unfold SECTOR_SIZE; lia. }
  assert (u64 (off + length) = off + length) as ->
    by (apply wrap_small; rewrite Hoffwp; unfold SECTOR_SIZE; lia).
  destruct (Z.ltb_spec ((z_start z + zone_sectors cfg) * SECTOR_SIZE) (off + length)) as [|Hfit];
    zsteps; [done|].
  assert (z_wp z + length / SECTOR_SIZE <= z_start z + zone_sectors cfg) as Hfit'.
  { rewrite Hoffwp in Hfit. unfold SECTOR_SIZE in *.
    pose proof (Z.mul_div_le length 512). lia. }
  assert (on_disk off length) as Hond.
  { destruct (zone_end_on_disk _ _ _ Hinv Hz) as [He1 He2].
    split_and!; [rewrite Hoffwp; unfold SECTOR_SIZE; lia|lia|lia]. }
  assert (z_cond z ∈ [BLK_ZONE_COND_EMPTY; BLK_ZONE_COND_IMP_OPEN; BLK_ZONE_COND_EXP_OPEN;
            BLK_ZONE_COND_CLOSED] -> recond (Z.to_nat (zone_number cfg offset)) z s s) as Hrefl
    by (by apply recond_refl).
  assert (forall out, wp (result ← open_zone_locked cfg (zone_number cfg offset) false;
            if negb (result =? BLK_STS_OK) then mret (result, out)
            else _ ← advance_wp (zone_number cfg offset) length;
                 write_finish raw_write (zone_number cfg offset) data off length out)
            (fun _ s' => inv s') s) as Hopen.
  { intros out. wp_step. eapply wp_mono; [by apply (open_zone_locked_spec s _ z); [..|lia|]|].
    intros r s' [Hinv' Hr]. destruct (Z.eqb_spec r BLK_STS_OK); [|by zsteps].
    assert (recond (Z.to_nat (zone_number cfg offset)) z s s') as Hre by auto.
    eapply write_rest_spec; [done| |done|done]. destruct Hre as (_ & -> & _). done. }
  destruct (z_cond z) eqn:Hc; try apply Hopen; try (apply wp_ret; done);
    (eapply write_rest_spec; [apply Hrefl; set_solver|done|done|done]).
Qed.

Lemma zoned_reset_zone_inv s offset :
  inv s -> 0 <= offset < num_zones cfg * ZONE_SIZE cfg ->
  wp (zoned_reset_zone cfg raw_discard offset) (fun _ s' => inv s') s.
Proof.
  intros Hinv Hoff.
  destruct (zone_number_ok offset s Hinv Hoff) as (z & st & Hz & Hst & Hzn & Hzr).
  pose proof Hinv as []. destruct (zone_bounds _ _ _ Hinv Hz) as (Hb1 & Hb2 & Hb3).
  pose proof (dec_open _ _ _ Hinv Hz) as Ho. pose proof (dec_imp _ _ _ Hinv Hz) as Hi.
  pose proof (dec_active _ _ _ Hinv Hz) as Ha. pose proof (zone_seq _ _ _ Hinv Hz) as Hseq.
  assert (z_cond z <> BLK_ZONE_COND_NOT_WP ->
    zone_wf cfg (Z.to_nat (zone_number cfg offset))
      (with_wp (with_cond z BLK_ZONE_COND_EMPTY) (z_start z))) as Hwf.
  { intros Hc. apply (zone_wf_wp _ (with_cond z _)); simpl; try done; [|by apply Hseq|lia].
    apply zone_wf_cond; [by eauto|by apply Hseq|set_solver]. }
  assert (on_disk (s64 (z_start z * SECTOR_SIZE)) (u64 (z_len z * SECTOR_SIZE))) as Hon.
  { destruct (zone_end_on_disk _ _ _ Hinv Hz) as [He1 He2]. destruct (zi_wf0 _ _ Hz).
    rewrite zw_len0, swrap_small, wrap_small by (unfold SECTOR_SIZE in *; lia).
    split_and!; unfold SECTOR_SIZE in *; lia. }
  unfold zoned_reset_zone. zsteps.
  assert (forall st', inv (set_stats <[Z.to_nat (zone_number cfg offset):=st']> s)) as Hst'.
  { intros st'. apply (zinv_same cfg s); simpl; rewrite ?length_insert; done || lia. }
  destruct (z_cond z) eqn:Hc; zsteps; try (by apply Hst'); unfold uncount_open; zsteps;
    simpl is_active; zsteps; (apply wp_raw; [by apply Hraw_discard|]); intros r w; apply inv_raw;
    (eapply (zinv_update cfg s _ (Z.to_nat (zone_number cfg offset)) z
              (with_wp (with_cond z BLK_ZONE_COND_EMPTY) (z_start z))));
    simpl; rewrite ?Hc, ?length_insert; try done; try (by apply Hwf);
    rewrite ?Ho, ?Hi, ?Ha by done; simpl; lia.
Qed.

Lemma zoned_reset_all_zone_inv s :
  inv s -> wp (zoned_reset_all_zone cfg raw_discard) (fun _ s' => inv s') s.
Proof.
  intros Hinv. pose proof Hcfg as []. unfold zoned_reset_all_zone, initialize_zone_info.
  destruct (Z.ltb_spec (num_zones cfg) (num_conventional_zones cfg)); [lia|]. rewrite no_overflow. zsteps.
  apply wp_raw; [apply Hraw_discard; split_and!; lia|]. intros r w. apply inv_raw, fresh_inv. by destruct Hinv.
Qed.

Lemma zoned_read_inv s data offset length :
  inv s -> 0 <= offset < num_zones cfg * ZONE_SIZE cfg -> on_disk offset length ->
  wp (zoned_read cfg raw_read data offset length) (fun _ s' => inv s') s.
Proof.
  intros Hinv Hoff Hon.
  destruct (zone_number_ok offset s Hinv Hoff) as (z & st & Hz & Hst & Hzn & Hzr).
  unfold zoned_read. zsteps. apply wp_raw; [by apply Hraw_read|]. intros r w. apply inv_raw.
  apply (zinv_same cfg s); simpl; rewrite ?length_insert; try done. destruct Hinv; lia.
Qed.
End preserve.
