(* ===== verification/ZonedProps.v ===== *)
(** * Properties of the zoned device

    Reachable states satisfy the zone invariant and no operation faults; the
    effect of each operation on its zone; what happens at the open limit. *)
From S2P Require Import Prelude Protocol Zoned ZonedInv.

(** The raw operations an example supplies ([raw_read], [raw_write],
    [raw_discard]), and that they return on every range of the disk. *)
Class RawOps (W : Type) := {
  raw_read : Z -> Z -> Z -> ST W Z;
  raw_write : Z -> Z -> Z -> ST W Z;
  raw_discard : Z -> Z -> ST W Z }.
Class RawTotal (W : Type) `{RawOps W} (cfg : zone_config) := {
  raw_read_total d o l w : on_disk cfg o l -> exists r w', raw_read d o l w = Ret (r, w');
  raw_write_total d o l w : on_disk cfg o l -> exists r w', raw_write d o l w = Ret (r, w');
  raw_discard_total o l w : on_disk cfg o l -> exists r w', raw_discard o l w = Ret (r, w') }.

(** The requests the library passes to the zoned operations. *)
Inductive zop :=
  | ZRead (data offset length : Z)
  | ZWrite (data offset length : Z)
  | ZAppend (data offset length : Z) (want_out : bool)
  | ZReport (offset nr_zones : Z)
  | ZOpen (offset : Z) | ZClose (offset : Z) | ZFinish (offset : Z) | ZReset (offset : Z)
  | ZResetAll.

Section props.
Context {W : Type} `{RO : RawOps W} (cfg : zone_config).
Implicit Types s : zstate W.
Abbreviation M := (ST (zstate W)).

Definition run_zop (op : zop) : M Z :=
  match op with
  | ZRead d o l => zoned_read cfg raw_read d o l
  | ZWrite d o l => zoned_write cfg raw_write d o l
  | ZAppend d o l want => r ← zoned_append_zone cfg raw_write d o l want; mret r.1
  | ZReport o n => r ← zoned_report_zones cfg o n; mret r.1
  | ZOpen o => zoned_open_zone cfg o
  | ZClose o => zoned_close_zone cfg o
  | ZFinish o => zoned_finish_zone cfg o
  | ZReset o => zoned_reset_zone cfg raw_discard o
  | ZResetAll => zoned_reset_all_zone cfg raw_discard
  end.

(** What the block layer guarantees of a request: it lies on the disk. *)
Definition in_zones (o : Z) : Prop := 0 <= o < num_zones cfg * ZONE_SIZE cfg.
Definition op_ok (op : zop) : Prop :=
  match op with
  | ZRead _ o l | ZWrite _ o l => in_zones o /\ on_disk cfg o l
  | ZAppend _ o l _ => in_zones o /\ 0 <= l < 2 ^ 63
  | ZReport o n => in_zones o /\ 0 <= n < 2 ^ 31
  | ZOpen o | ZClose o | ZFinish o | ZReset o => in_zones o
  | ZResetAll => True
  end.

Inductive zreachable : zstate W -> Prop :=
  | zr_init w s : initialize cfg w = Ret (tt, s) -> zreachable s
  | zr_step s op r s' :
      zreachable s -> op_ok op -> run_zop op s = Ret (r, s') -> zreachable s'.

Context (Hcfg : cfg_ok cfg) `{RT : !RawTotal W cfg}.

Lemma copy_zones_spec (s : zstate W) zone n :
  0 <= zone -> (Z.to_nat zone + n <= length (zone_info s))%nat ->
  copy_zones zone n s = Ret (take n (drop (Z.to_nat zone) (zone_info s)), s).
Proof.
  revert zone. induction n as [|n IH]; intros zone Hz Hn; [by rewrite take_0|].
  destruct (lookup_lt_is_Some_2 (zone_info s) (Z.to_nat zone)) as [z Hzn]; [lia|].
  cbn [copy_zones]. unfold mbind, ST_bind, get_zone, gets, deref. simpl.
  unfold mbind, ST_bind. rewrite Hzn. simpl. rewrite IH by lia.
  rewrite (drop_S _ z (Z.to_nat zone)) by done.
  replace (Z.to_nat (zone + 1)) with (S (Z.to_nat zone)) by lia. done.
Qed.

Lemma report_zones_result s offset nr :
  zinv cfg s -> in_zones offset -> 0 <= nr < 2 ^ 31 ->
  let first := offset / ZONE_SIZE cfg in
  let n := Z.min nr (num_zones cfg - first) in
  zoned_report_zones cfg offset nr s
    = Ret ((n, take (Z.to_nat n) (drop (Z.to_nat first) (zone_info s))), s).
Proof.
  intros Hinv Ho Hn first n. pose proof Hcfg as [].
  destruct (zone_number_ok cfg Hcfg offset s Hinv Ho) as (z & st & Hz & Hst & Hzn & Hzr).
  assert (1 <= zone_sectors cfg) by (unfold SECTOR_SIZE in *; lia).
  assert (num_zones cfg <= 2 ^ 31) by nia.
  unfold zoned_report_zones. rewrite Hzn in *. fold first in Hz, Hst, Hzr |- *.
  assert (s32 first = first) as -> by (apply swrap_small; unfold first; lia).
  assert (u64 (num_zones cfg - first) = num_zones cfg - first) as ->
    by (apply wrap_small; unfold first; lia).
  rewrite (wrap_small 64 nr) by lia.
  assert (s32 (if num_zones cfg - first <? nr then num_zones cfg - first else nr) = n) as ->.
  { unfold n. destruct (Z.ltb_spec (num_zones cfg - first) nr);
      rewrite swrap_small by (unfold first in *; lia); lia. }
  unfold mbind, ST_bind. destruct Hinv. rewrite copy_zones_spec; [done|unfold first; lia|].
  unfold n, first in *. lia.
Qed.

Lemma run_zop_inv op s : zinv cfg s -> op_ok op -> wp (run_zop op) (fun _ s' => zinv cfg s') s.
Proof.
  pose proof raw_read_total as Hr. pose proof raw_write_total as Hw.
  pose proof raw_discard_total as Hd.
  intros Hinv Hop. destruct op; simpl in *.
  - destruct Hop. by apply (zoned_read_inv cfg Hcfg raw_read Hr).
  - destruct Hop as [? Hon]. pose proof Hon as (? & ? & ?). pose proof Hcfg as [].
    unfold zoned_write. wp_step. eapply wp_mono.
    { apply (zoned_write_common_inv cfg Hcfg raw_read raw_write raw_discard Hr Hw Hd); try done; lia. }
    intros. by wp_step.
  - destruct Hop. wp_step. eapply wp_mono; [by apply (zoned_write_common_inv cfg Hcfg raw_read raw_write raw_discard Hr Hw Hd)|].
    intros. by wp_step.
  - destruct Hop. unfold wp, mbind, ST_bind. by rewrite report_zones_result.
  - by apply zoned_open_zone_inv.
  - by apply zoned_close_zone_inv.
  - by apply zoned_finish_zone_inv.
  - by apply (zoned_reset_zone_inv cfg Hcfg raw_read raw_write raw_discard Hr Hw Hd).
  - by apply (zoned_reset_all_zone_inv cfg Hcfg raw_discard Hd).
Qed.

Lemma reachable_inv s : zreachable s -> zinv cfg s.
Proof.
  induction 1 as [w s Hinit|s op r s' _ IH Hop Hrun].
  { rewrite (initialize_spec cfg Hcfg) in Hinit. injection Hinit as <-. by apply initial_inv. }
  pose proof (run_zop_inv op s IH Hop) as H. unfold wp in H. by rewrite Hrun in H.
Qed.

(** ** Writing, exactly *)

(** Sequential zone [i] is [z], open, and has room for [len] more bytes. *)
Record writable (s : zstate W) (offset len : Z) (z : blk_zone) : Prop := {
  wr_inv : zinv cfg s;
  wr_in : in_zones offset;
  wr_zone : zone_info s !! Z.to_nat (zone_number cfg offset) = Some z;
  wr_type : z_type z = BLK_ZONE_TYPE_SEQWRITE_REQ;
  wr_open : z_cond z = BLK_ZONE_COND_IMP_OPEN \/ z_cond z = BLK_ZONE_COND_EXP_OPEN;
  wr_len : 0 <= len;
  wr_fits : z_wp z * SECTOR_SIZE + len <= (z_start z + z_capacity z) * SECTOR_SIZE }.

(** The write pointer after [len] bytes, and the zone with it. *)
Definition wp_after (z : blk_zone) (len : Z) : Z := z_wp z + len / SECTOR_SIZE.
Definition written_zone (z : blk_zone) (len : Z) : blk_zone :=
  if wp_after z len =? z_start z + z_capacity z
  then with_wp (with_cond z BLK_ZONE_COND_FULL) (z_start z + z_len z)
  else with_wp z (wp_after z len).
(** The state after the critical section of a write of [len] bytes. *)
Definition after_write (s : zstate W) (offset len : Z) (z : blk_zone) : zstate W :=
  let full := wp_after z len =? z_start z + z_capacity z in
  ZState (<[Z.to_nat (zone_number cfg offset) := written_zone z len]> (zone_info s)) (stats s)
    (num_open_zones s - Z.b2z full) (num_imp_open_zones s - Z.b2z (full && is_imp (z_cond z)))
    (num_active_zones s - Z.b2z full) (raw_state s).

Lemma writable_facts s offset len z :
  writable s offset len z ->
  u64 (z_wp z * SECTOR_SIZE) = z_wp z * SECTOR_SIZE /\
  s64 (z_wp z * SECTOR_SIZE) = z_wp z * SECTOR_SIZE /\
  u64 (u64 (z_start z + z_capacity z) * SECTOR_SIZE) = (z_start z + z_capacity z) * SECTOR_SIZE /\
  u64 (z_wp z * SECTOR_SIZE + len) = z_wp z * SECTOR_SIZE + len /\
  0 <= len / SECTOR_SIZE /\ u64 (wp_after z len) = wp_after z len /\
  u64 (z_start z + z_capacity z) = z_start z + z_capacity z /\
  u64 (z_start z + z_len z) = z_start z + z_len z /\
  wp_after z len <= z_start z + zone_sectors cfg.
Proof.
  intros [Hinv _ Hz _ _ Hlen Hfit].
  destruct (zone_bounds cfg Hcfg _ _ _ Hinv Hz) as (Hb1 & Hb2 & Hb3).
  destruct (zi_wf cfg s Hinv _ _ Hz) as [_ Hzl Hcap Hwpr _ _ _].
  assert (0 <= len / SECTOR_SIZE) by (apply Z.div_pos; unfold SECTOR_SIZE; lia).
  assert (wp_after z len <= z_start z + zone_sectors cfg).
  { unfold wp_after, SECTOR_SIZE in *. rewrite Hcap in Hfit.
    pose proof (Z.mul_div_le len 512). lia. }
  rewrite Hcap, Hzl in *. unfold wp_after, SECTOR_SIZE in *.
  rewrite (wrap_small 64 (z_start z + _)) by lia.
  split_and!; try lia; try (apply wrap_small; lia). apply swrap_small; lia.
Qed.

Lemma advance_wp_eq s offset len z :
  writable s offset len z ->
  advance_wp (zone_number cfg offset) len s = Ret (tt, after_write s offset len z).
Proof.
  intros Hw. destruct (writable_facts _ _ _ _ Hw) as (_ & _ & _ & _ & _ & Ewp & Eend & Elen & _).
  destruct Hw as [Hinv _ Hz Hty Hop _ _].
  pose proof (dec_open cfg Hcfg _ _ _ Hinv Hz) as Ho. pose proof (dec_imp cfg Hcfg _ _ _ Hinv Hz) as Hi.
  pose proof (dec_active cfg Hcfg _ _ _ Hinv Hz) as Ha.
  pose proof (lookup_lt_Some _ _ _ Hz) as Hlt.
  unfold advance_wp. unfold mbind at 1, ST_bind at 1, get_zone.
  unfold mbind at 1, ST_bind at 1, gets. rewrite Hz. cbn [deref mret ST_ret].
  unfold mbind at 1, ST_bind at 1, put_zone, modify.
  fold (wp_after z len). rewrite Ewp, Eend. unfold after_write, written_zone.
  destruct (wp_after z len =? z_start z + z_capacity z).
  - unfold mark_zone_full_locked, get_zone, gets, mbind, ST_bind, set_zones; cbn [zone_info].
    rewrite list_lookup_insert_eq by done. cbn [deref mret ST_ret with_wp z_cond z_start z_len].
    destruct Hop as [Hc|Hc]; rewrite Hc in *; specialize (Ho eq_refl); specialize (Ha eq_refl);
      try specialize (Hi eq_refl); simpl; unfold add_open, add_imp, add_active, set_zones, put_zone,
      modify; simpl; rewrite ?list_insert_insert_eq, ?Ho, ?Ha, ?Hi, ?Elen; simpl; rewrite ?Z.sub_0_r;
      done.
  - destruct s; simpl. by rewrite !Z.sub_0_r.
Qed.

Lemma write_common_eq s data offset len want append z :
  writable s offset len z -> (append = false -> offset = z_wp z * SECTOR_SIZE) ->
  zoned_write_common cfg raw_write data offset len want append s
    = write_finish raw_write (zone_number cfg offset) data (z_wp z * SECTOR_SIZE) len
        (if append && want then Some (z_wp z * SECTOR_SIZE) else None)
        (after_write s offset len z).
Proof.
  intros Hw Happ.
  destruct (writable_facts _ _ _ _ Hw) as (Ew & Esw & Eend & Eoff & _).
  pose proof (advance_wp_eq _ _ _ _ Hw) as Hadv. destruct Hw as [Hinv _ Hz Hty Hop _ Hfit].
  unfold zoned_write_common. unfold mbind at 1, ST_bind at 1, get_zone.
  unfold mbind at 1, ST_bind at 1, gets. rewrite Hz. cbn [deref mret ST_ret].
  rewrite bool_decide_eq_false_2 by congruence.
  assert (negb append && negb (u64 (z_wp z * SECTOR_SIZE) =? u64 offset) = false) as ->.
  { destruct append; [done|]. rewrite <- (Happ eq_refl), Z.eqb_refl. done. }
  assert ((if append then s64 (z_wp z * SECTOR_SIZE) else offset) = z_wp z * SECTOR_SIZE) as ->.
  { destruct append; [done|auto]. }
  rewrite Eend, Eoff. rewrite (proj2 (Z.ltb_ge _ _) Hfit).
  destruct Hop as [-> | ->]; unfold mbind, ST_bind; by rewrite Hadv.
Qed.

Lemma write_finish_frame (s : zstate W) zone st data offset len out :
  stats s !! Z.to_nat zone = Some st -> on_disk cfg offset len ->
  wp (write_finish raw_write zone data offset len out) (fun r s' =>
    r.2 = out /\ raw_write data offset len (raw_state s) = Ret (r.1, raw_state s') /\
    zone_info s' = zone_info s /\ num_open_zones s' = num_open_zones s /\
    num_imp_open_zones s' = num_imp_open_zones s /\ num_active_zones s' = num_active_zones s) s.
Proof.
  intros Hst Hon. unfold write_finish. zsteps.
  destruct (raw_write_total data offset len (raw_state s) Hon) as (r & w & Hr).
  unfold wp, raw, mbind, ST_bind, set_stats. simpl. rewrite Hr. by simpl.
Qed.

Lemma writable_on_disk s offset len z :
  writable s offset len z -> on_disk cfg (z_wp z * SECTOR_SIZE) len.
Proof.
  intros [Hinv _ Hz _ _ Hlen Hfit].
  destruct (zone_end_on_disk cfg Hcfg _ _ _ Hinv Hz) as [He1 He2].
  destruct (zi_wf cfg s Hinv _ _ Hz) as [_ _ Hcap Hwpr _ _ _]. rewrite Hcap in Hfit.
  split_and!; unfold SECTOR_SIZE in *; lia.
Qed.

(** A write or append to an open zone with room, whichever of the two. *)
Lemma write_common_spec s data offset len want append z :
  writable s offset len z -> len < 2 ^ 63 -> (append = false -> offset = z_wp z * SECTOR_SIZE) ->
  wp (zoned_write_common cfg raw_write data offset len want append) (fun r s' =>
    r.2 = (if append && want then Some (z_wp z * SECTOR_SIZE) else None) /\
    raw_write data (z_wp z * SECTOR_SIZE) len (raw_state s) = Ret (r.1, raw_state s') /\
    zone_info s' = <[Z.to_nat (zone_number cfg offset) := written_zone z len]> (zone_info s) /\
    num_open_zones s' = num_open_zones (after_write s offset len z) /\ zinv cfg s') s.
Proof.
  intros Hw Hlen Happ. pose proof (writable_on_disk _ _ _ _ Hw) as Hon.
  pose proof raw_read_total as Hr. pose proof raw_write_total as Hwr.
  pose proof raw_discard_total as Hd.
  assert (wp (zoned_write_common cfg raw_write data offset len want append) (fun _ s' => zinv cfg s') s) as Hinv'.
  { pose proof Hw as [Hinv Hin _ _ _ ? _].
    apply (zoned_write_common_inv cfg Hcfg raw_read raw_write raw_discard Hr Hwr Hd); try done.
    intros ->. by rewrite (Happ eq_refl). }
  destruct (zone_number_ok cfg Hcfg offset s (wr_inv _ _ _ _ Hw) (wr_in _ _ _ _ Hw))
    as (z' & st & _ & Hst & _).
  unfold wp in Hinv' |- *. rewrite (write_common_eq _ _ _ _ _ _ _ Hw Happ) in Hinv' |- *.
  pose proof (write_finish_frame (after_write s offset len z) (zone_number cfg offset) st data
    (z_wp z * SECTOR_SIZE) len (if append && want then Some (z_wp z * SECTOR_SIZE) else None)
    Hst Hon) as Hf.
  unfold wp in Hf. destruct (write_finish _ _ _ _ _ _ _) as [[r s']| |]; [|done|done].
  destruct Hf as (? & ? & ? & ? & _). by split_and!.
Qed.

(** ** Properties *)

(** C18: Of a device whose configuration satisfies [cfg_ok] (zones of whole sectors and less
    than 2 GiB, and at most 2^31 sectors, 1 TiB), every state reached from initialisation by
    requests that lie on the disk satisfies the zone invariant: each zone keeps its
    geometry, its write pointer stays between its start and its end, [num_open_zones] and
    [num_imp_open_zones] are exactly the numbers of open and implicitly open zones, the open
    limit holds, and the active zones are at most [num_active_zones], which is at most the
    active limit. *)
Theorem zoned_reachable_inv s : zreachable s -> zinv cfg s.
Proof. apply reachable_inv. Qed.

(** C19: In a reachable state of a device whose configuration satisfies [cfg_ok] no request
    that lies on the disk faults: every array access is in bounds and the operation returns
    a status. *)
Theorem zoned_no_fault s op :
  zreachable s -> op_ok op -> exists r s', run_zop op s = Ret (r, s') /\ zreachable s'.
Proof.
  intros Hs Hop. destruct (wp_inv _ _ _ (run_zop_inv op s (reachable_inv s Hs) Hop)) as (r & s' & Hr & _).
  exists r, s'. split; [done|]. by eapply zr_step.
Qed.

(** A write at the write pointer of an open zone with room returns what the
    raw write returns, stores the data there, and moves the write pointer by
    the sectors written; the zone becomes full when the pointer reaches the
    end of its capacity, and then it no longer counts as open. *)
Theorem zoned_write_advances s data offset len z :
  writable s offset len z -> len < 2 ^ 63 -> offset = z_wp z * SECTOR_SIZE ->
  wp (zoned_write cfg raw_write data offset len) (fun r s' =>
    raw_write data offset len (raw_state s) = Ret (r, raw_state s') /\
    zone_info s' = <[Z.to_nat (zone_number cfg offset) := written_zone z len]> (zone_info s) /\
    num_open_zones s' = num_open_zones s -
      Z.b2z (z_wp z + len / SECTOR_SIZE =? z_start z + z_capacity z)) s.
Proof.
  intros Hw Hlen Hoff. unfold zoned_write. wp_step.
  eapply wp_mono; [by apply (write_common_spec s data offset len false false z)|].
  intros [r o] s' (_ & Hraw & Hz & Hop & _). wp_step. rewrite <- Hoff in Hraw. done.
Qed.

Lemma write_rejected s data offset len z :
  zinv cfg s -> in_zones offset -> 0 <= len -> offset + len < 2 ^ 64 ->
  zone_info s !! Z.to_nat (zone_number cfg offset) = Some z ->
  z_type z = BLK_ZONE_TYPE_SEQWRITE_REQ ->
  offset <> z_wp z * SECTOR_SIZE \/ (z_start z + z_capacity z) * SECTOR_SIZE < offset + len \/
    z_cond z = BLK_ZONE_COND_FULL ->
  zoned_write cfg raw_write data offset len s = Ret (BLK_STS_IOERR, s).
Proof.
  intros Hinv Hin Hlen Hlt Hz Hty Hbad.
  destruct (zone_bounds cfg Hcfg _ _ _ Hinv Hz) as (Hb1 & Hb2 & Hb3). pose proof Hcfg as [].
  destruct (zi_wf cfg s Hinv _ _ Hz) as [_ _ Hcap Hwpr _ _ _].
  pose proof (disk_fits cfg Hcfg). unfold in_zones in Hin.
  unfold zoned_write, zoned_write_common, get_zone, gets, mbind, ST_bind. rewrite Hz.
  cbn [deref mret ST_ret]. rewrite bool_decide_eq_false_2 by congruence. rewrite Hcap in *.
  rewrite (wrap_small 64 (z_wp z * _)), (wrap_small 64 offset) by (unfold SECTOR_SIZE; lia).
  rewrite (wrap_small 64 (z_start z + _)) by lia.
  rewrite (wrap_small 64 (_ * SECTOR_SIZE)), (wrap_small 64 (offset + len)) by (unfold SECTOR_SIZE; lia).
  cbn [negb andb]. destruct (Z.eqb_spec (z_wp z * SECTOR_SIZE) offset) as [He|]; [|done]. cbn [negb].
  destruct (Z.ltb_spec ((z_start z + zone_sectors cfg) * SECTOR_SIZE) (offset + len)); [done|].
  destruct Hbad as [?|[?|Hc]]; [congruence|lia|]. by rewrite Hc.
Qed.
(** A write to a sequential zone anywhere else than at its write pointer,
    past its capacity, or when the zone is full, fails with an I/O error and
    changes nothing. *)
Theorem zoned_write_rejected s data offset len z :
  zinv cfg s -> in_zones offset -> 0 <= len -> offset + len < 2 ^ 64 ->
  zone_info s !! Z.to_nat (zone_number cfg offset) = Some z ->
  z_type z = BLK_ZONE_TYPE_SEQWRITE_REQ ->
  offset <> z_wp z * SECTOR_SIZE \/ (z_start z + z_capacity z) * SECTOR_SIZE < offset + len \/
    z_cond z = BLK_ZONE_COND_FULL ->
  zoned_write cfg raw_write data offset len s = Ret (BLK_STS_IOERR, s).
Proof. apply write_rejected. Qed.

(** A client that appends to one zone: the positions it is told. *)
Fixpoint run_appends (data offset : Z) (lens : list Z) : M (list (option Z)) :=
  match lens with
  | [] => mret []
  | len :: lens' =>
      r ← zoned_append_zone cfg raw_write data offset len true;
      rest ← run_appends data offset lens';
      mret (r.2 :: rest)
  end.
Fixpoint positions_from (pos : Z) (lens : list Z) : list (option Z) :=
  match lens with
  | [] => []
  | len :: lens' => Some pos :: positions_from (pos + len) lens'
  end.
Definition total (lens : list Z) : Z := foldr Z.add 0 lens.

Lemma total_nonneg lens : Forall (fun l => 0 <= l /\ l mod SECTOR_SIZE = 0) lens -> 0 <= total lens.
Proof. induction 1 as [|l lens [? _] _ IH]; simpl; lia. Qed.

(** Room is left after an append that does not reach the end of the zone. *)
Lemma writable_again s offset len rest z s' :
  writable s offset (len + rest) z -> 0 <= len -> len mod SECTOR_SIZE = 0 -> 0 <= rest ->
  z_wp z * SECTOR_SIZE + len < (z_start z + z_capacity z) * SECTOR_SIZE ->
  zinv cfg s' ->
  zone_info s' = <[Z.to_nat (zone_number cfg offset) := written_zone z len]> (zone_info s) ->
  written_zone z len = with_wp z (wp_after z len) /\
  z_wp (with_wp z (wp_after z len)) * SECTOR_SIZE = z_wp z * SECTOR_SIZE + len /\
  writable s' offset rest (with_wp z (wp_after z len)).
Proof.
  intros [Hinv Hin Hz Hty Hop _ Hfit] Hlen Hmod Hrest Hlt Hinv' Hzi.
  assert (wp_after z len * SECTOR_SIZE = z_wp z * SECTOR_SIZE + len) as Hwp.
  { unfold wp_after, SECTOR_SIZE in *. pose proof (Z.div_mod len 512). lia. }
  assert (written_zone z len = with_wp z (wp_after z len)) as Hwz.
  { unfold written_zone. destruct (Z.eqb_spec (wp_after z len) (z_start z + z_capacity z)) as [He|];
      [|done]. rewrite He in Hwp. lia. }
  split_and!; [done|done|]. split; try done; simpl.
  - rewrite Hzi, Hwz. apply list_lookup_insert_eq. by eapply lookup_lt_Some.
  - rewrite Hwp. lia.
Qed.


(** Opening a closed or empty zone while the open limit leaves room makes it
    explicitly open and counts it. *)
Theorem zoned_open_zone_opens s offset z :
  zinv cfg s -> in_zones offset ->
  zone_info s !! Z.to_nat (zone_number cfg offset) = Some z ->
  z_cond z = BLK_ZONE_COND_EMPTY \/ z_cond z = BLK_ZONE_COND_CLOSED ->
  num_open_zones s < max_open_zones cfg -> num_active_zones s < max_active_zones cfg ->
  wp (zoned_open_zone cfg offset) (fun r s' =>
    r = BLK_STS_OK /\
    zone_info s' = <[Z.to_nat (zone_number cfg offset) := with_cond z BLK_ZONE_COND_EXP_OPEN]> (zone_info s) /\
    num_open_zones s' = num_open_zones s + 1 /\
    num_active_zones s' = num_active_zones s + Z.b2z (bool_decide (z_cond z = BLK_ZONE_COND_EMPTY))) s.
Proof.
  intros Hinv Hin Hz Hc Ho Ha. pose proof Hcfg as [].
  pose proof (count_zones_range is_open (zone_info s)) as Hco.
  pose proof (count_zones_range is_active (zone_info s)) as Hca.
  destruct Hinv as [_ _ _ Hopen _ _ Hact _].
  assert (u32 (num_open_zones s + 1) = num_open_zones s + 1) as Eo by (apply wrap_small; lia).
  assert (u32 (num_active_zones s + 1) = num_active_zones s + 1) as Ea by (apply wrap_small; lia).
  unfold zoned_open_zone. zsteps.
  destruct Hc as [Hc|Hc]; rewrite Hc; unfold open_zone_locked; zsteps; rewrite Hc; zsteps;
    [destruct (Z.leb_spec (max_active_zones cfg) (num_active_zones s)); [lia|]; zsteps|];
    unfold open_closed; zsteps; simpl;
    (destruct (Z.leb_spec (max_open_zones cfg) (num_open_zones s)); [lia|]); zsteps; simpl;
    rewrite ?Eo, ?Ea; split_and!; (done || lia).
Qed.


(** Resetting a zone that is not empty makes it empty, puts its write
    pointer back to its start and discards exactly its sectors. *)
Theorem zoned_reset_zone_empties s offset z :
  zinv cfg s -> in_zones offset ->
  zone_info s !! Z.to_nat (zone_number cfg offset) = Some z ->
  z_cond z <> BLK_ZONE_COND_EMPTY -> z_cond z <> BLK_ZONE_COND_NOT_WP ->
  wp (zoned_reset_zone cfg raw_discard offset) (fun r s' =>
    raw_discard (z_start z * SECTOR_SIZE) (ZONE_SIZE cfg) (raw_state s) = Ret (r, raw_state s') /\
    zone_info s' = <[Z.to_nat (zone_number cfg offset) :=
      with_wp (with_cond z BLK_ZONE_COND_EMPTY) (z_start z)]> (zone_info s) /\
    num_open_zones s' = num_open_zones s - Z.b2z (is_open (z_cond z)) /\
    num_active_zones s' = num_active_zones s - Z.b2z (is_active (z_cond z))) s.
Proof.
  intros Hinv Hin Hz Hne Hnw. pose proof Hcfg as [].
  destruct (zone_number_ok cfg Hcfg offset s Hinv Hin) as (_ & st & _ & Hst & _ & Hzr).
  destruct (zone_bounds cfg Hcfg _ _ _ Hinv Hz) as (Hb1 & Hb2 & Hb3).
  destruct (zone_end_on_disk cfg Hcfg _ _ _ Hinv Hz) as [He1 He2].
  destruct (zi_wf cfg s Hinv _ _ Hz) as [_ Hzl _ _ _ Hcs _].
  pose proof (zone_seq cfg _ _ _ Hinv Hz Hnw) as Hseq.
  rewrite (proj2 (Z.ltb_ge _ _) Hseq) in Hcs.
  pose proof (dec_open cfg Hcfg _ _ _ Hinv Hz) as Ho. pose proof (dec_active cfg Hcfg _ _ _ Hinv Hz) as Ha.
  assert (s64 (z_start z * SECTOR_SIZE) = z_start z * SECTOR_SIZE) as Es
    by (apply swrap_small; unfold SECTOR_SIZE in *; lia).
  assert (u64 (z_len z * SECTOR_SIZE) = ZONE_SIZE cfg) as El
    by (rewrite Hzl, cfg_sectors; apply wrap_small; lia).
  destruct (raw_discard_total (z_start z * SECTOR_SIZE) (ZONE_SIZE cfg) (raw_state s)) as (r & w & Hr).
  { split_and!; unfold SECTOR_SIZE in *; lia. }
  unfold zoned_reset_zone. zsteps. rewrite Es, El.
  repeat (apply elem_of_cons in Hcs as [Hc|Hcs]; [|]); [done| | | | |by apply elem_of_nil in Hcs];
    rewrite Hc in *; zsteps; unfold uncount_open; zsteps;
    (lazymatch type of Hc with
     | _ = ?c => let b := eval vm_compute in (is_active c) in change (is_active c) with b
     end); cbv iota; zsteps;
    unfold wp, raw; cbn [raw_state put_zone modify set_zones set_stats add_open add_active add_imp];
    rewrite Hr; simpl; rewrite ?Ho, ?Ha by done; split_and!; (done || lia).
Qed.

(** Resetting a zone whose condition is EMPTY leaves the zones as they are,
    write pointer included, and discards nothing.  With the previous
    property: a zone written while it was empty and at the open limit keeps
    its write pointer through a reset that reports success. *)
Theorem zoned_reset_empty_noop s offset z :
  zinv cfg s -> in_zones offset ->
  zone_info s !! Z.to_nat (zone_number cfg offset) = Some z ->
  z_cond z = BLK_ZONE_COND_EMPTY ->
  wp (zoned_reset_zone cfg raw_discard offset) (fun r s' =>
    r = BLK_STS_OK /\ zone_info s' = zone_info s /\ raw_state s' = raw_state s) s.
Proof.
  intros Hinv Hin Hz Hc.
  destruct (zone_number_ok cfg Hcfg offset s Hinv Hin) as (_ & st & _ & Hst & _ & Hzr).
  unfold zoned_reset_zone. zsteps. rewrite Hc. by zsteps.
Qed.

(** A zone report returns the zones from the one at [offset] on, as many as
    asked for and exist, and changes nothing. *)
Theorem zoned_report_zones_slice s offset nr :
  zinv cfg s -> in_zones offset -> 0 <= nr < 2 ^ 31 ->
  let first := offset / ZONE_SIZE cfg in
  let n := Z.min nr (num_zones cfg - first) in
  zoned_report_zones cfg offset nr s
    = Ret ((n, take (Z.to_nat n) (drop (Z.to_nat first) (zone_info s))), s).
Proof. by apply report_zones_result. Qed.
End props.

(** [initialize_zone_info] computes the start of a zone in [int]: a disk with a zone
    that starts at sector 2^31 or later (zone 2048 of the 512 MiB zones of
    [zoned-passthrough.c], 1 TiB into the target) makes the driver overflow before its
    first request. *)
Theorem init_zone_start_overflows {W} cfg (w : W) :
  num_conventional_zones cfg <= num_zones cfg ->
  initialize cfg w = Fault SignedOverflow <-> 2 ^ 31 <= zone_sectors cfg * (num_zones cfg - 1).
Proof.
  intros Hc. unfold initialize, initialize_zone_info. destruct (Z.ltb_spec (num_zones cfg) (num_conventional_zones cfg)); [lia|].
  destruct (Z.leb_spec (2 ^ 31) (zone_sectors cfg * (num_zones cfg - 1))); [done|]. split; [done|lia].
Qed.

(** ** Concrete devices

    Four zones of four sectors, the first conventional, one open zone and two
    active zones at most, on raw operations that succeed and do nothing. *)
#[export] Instance nop_raw : RawOps unit := {
  raw_read _ _ _ := mret BLK_STS_OK;
  raw_write _ _ _ := mret BLK_STS_OK;
  raw_discard _ _ := mret BLK_STS_OK }.
#[export] Instance nop_total cfg : RawTotal unit cfg.
Proof. split; intros; by eexists _, _. Qed.

Definition small : zone_config := ZoneConfig 2048 8192 1 1 2.
Lemma small_ok : cfg_ok small.
Proof. by split. Qed.

Definition fresh : zstate unit := initial_state small tt.
Definition ran (op : zop) (s : zstate unit) : zstate unit :=
  match run_zop small op s with Ret (_, s') => s' | _ => s end.
(** Zone 1 opened explicitly, and implicitly by a write of one sector. *)
Definition exp_opened : zstate unit := Eval vm_compute in ran (ZOpen 2048) fresh.
Definition imp_opened : zstate unit := Eval vm_compute in ran (ZWrite 0 2048 512) fresh.
Definition zone_of (n : nat) (s : zstate unit) : blk_zone := default (init_zone small 0) (zone_info s !! n).

Lemma fresh_reachable : zreachable small fresh.
Proof. by apply (zr_init small tt). Qed.
Lemma exp_opened_reachable : zreachable small exp_opened.
Proof. by apply (zr_step small fresh (ZOpen 2048) BLK_STS_OK); [apply fresh_reachable|split; vm_compute|]. Qed.
Lemma imp_opened_reachable : zreachable small imp_opened.
Proof.
  by apply (zr_step small fresh (ZWrite 0 2048 512) BLK_STS_OK); [apply fresh_reachable|split_and!; vm_compute|].
Qed.
Lemma exp_opened_writable len :
  0 <= len <= 2048 -> writable small exp_opened 2048 len (zone_of 1 exp_opened).
Proof.
  intros Hl. split; try done; try (by split; vm_compute); try by right.
  - apply (reachable_inv small small_ok), exp_opened_reachable.
  - lia.
  - change (2048 + len <= 4096). lia.
Qed.

Lemma zoned_reachable_inv_witness : zinv small imp_opened.
Proof. apply (zoned_reachable_inv small small_ok), imp_opened_reachable. Defined.

Lemma zoned_no_fault_witness :
  exists r s', run_zop small (ZAppend 0 2048 512 true) imp_opened = Ret (r, s') /\ zreachable small s'.
Proof.
  apply (zoned_no_fault small small_ok); [apply imp_opened_reachable|split_and!; by vm_compute].
Defined.

Lemma zoned_write_advances_witness :
  wp (zoned_write small raw_write 0 2048 2048)
    (fun r s' => z_cond (zone_of 1 s') = BLK_ZONE_COND_FULL /\ num_open_zones s' = 0) exp_opened.
Proof.
  eapply wp_mono.
  - by apply (zoned_write_advances small small_ok exp_opened 0 2048 2048 (zone_of 1 exp_opened));
      [apply exp_opened_writable|..].
  - intros r s' (_ & Hz & Ho). unfold zone_of. rewrite Hz, Ho. by split.
Defined.

Lemma zoned_write_rejected_witness :
  zoned_write small raw_write 0 3072 512 exp_opened = Ret (BLK_STS_IOERR, exp_opened).
Proof.
  by apply (zoned_write_rejected small small_ok exp_opened 0 3072 512 (zone_of 1 exp_opened));
    [apply (reachable_inv small small_ok), exp_opened_reachable|split; by vm_compute|..|left; vm_compute].
Defined.


Lemma zoned_open_zone_opens_witness :
  wp (zoned_open_zone small 2048)
    (fun r s' => r = BLK_STS_OK /\ num_open_zones s' = 1 /\ num_active_zones s' = 1) fresh.
Proof.
  eapply wp_mono.
  - by apply (zoned_open_zone_opens small small_ok fresh 2048 (zone_of 1 fresh));
      [apply (reachable_inv small small_ok), fresh_reachable|split; by vm_compute|..|left|vm_compute|vm_compute].
  - intros r s' (-> & _ & -> & ->). by vm_compute.
Defined.


Lemma zoned_reset_zone_empties_witness :
  wp (zoned_reset_zone small raw_discard 2048)
    (fun r s' => z_wp (zone_of 1 s') = 4 /\ num_open_zones s' = 0 /\ num_active_zones s' = 0) imp_opened.
Proof.
  eapply wp_mono.
  - by apply (zoned_reset_zone_empties small small_ok imp_opened 2048 (zone_of 1 imp_opened));
      [apply (reachable_inv small small_ok), imp_opened_reachable|split; by vm_compute|..].
  - intros r s' (_ & Hz & -> & ->). unfold zone_of. rewrite Hz. by vm_compute.
Defined.

Lemma zoned_reset_empty_noop_witness :
  wp (zoned_reset_zone small raw_discard 4096)
    (fun r s' => r = BLK_STS_OK /\ zone_info s' = zone_info imp_opened /\ raw_state s' = tt) imp_opened.
Proof.
  by apply (zoned_reset_empty_noop small small_ok imp_opened 4096 (zone_of 2 imp_opened));
    [apply (reachable_inv small small_ok), imp_opened_reachable|split; by vm_compute|..].
Defined.

Lemma zoned_report_zones_slice_witness :
  zoned_report_zones small 4096 8 fresh = Ret ((2, [zone_of 2 fresh; zone_of 3 fresh]), fresh).
Proof.
  rewrite (zoned_report_zones_slice small small_ok fresh 4096 8);
    [by vm_compute|apply (reachable_inv small small_ok), fresh_reachable|split; by vm_compute|by split].
Defined.

(** Zone 2048 of 512 MiB zones. *)
Definition terabyte : zone_config := ZoneConfig (512 * 2 ^ 20) (2 ^ 41) 0 128 128.
Lemma init_zone_start_overflows_witness : initialize terabyte tt = Fault SignedOverflow.
Proof. apply (init_zone_start_overflows terabyte tt); by vm_compute. Defined.
