(* ===== verification/Backing.v ===== *)
(** * What a driver promises the library

    A driver keeps a memory the data pointers point into and a disk.  The drivers
    of [examples/] that implement plain reads and writes do so in various ways;
    clients use them through this interface: a disk of [backing_size] bytes, and a
    read and a write that move bytes between the two. *)
From S2P Require Import Prelude Protocol.

(** The memory and the disk of a driver's state. *)
Class Store (V : Type) := {
  v_mem : V -> memory;
  v_set_mem : (memory -> memory) -> V -> V;
  v_disk : V -> memory }.
Class StoreLaws (V : Type) `{Store V} := {
  v_mem_set f v : v_mem (v_set_mem f v) = f (v_mem v);
  v_disk_set f v : v_disk (v_set_mem f v) = v_disk v }.

Class Backing (V : Type) `{Store V} := {
  drv_read : Z -> Z -> Z -> ST V Z;
  drv_write : Z -> Z -> Z -> ST V Z }.

Class BackingLaws (V : Type) `{Backing V} := {
  backing_store :: StoreLaws V;
  backing_size : Z;
  backing_size_range : 0 <= backing_size < 2 ^ 63;
  drv_read_ok data offset length v :
    0 <= offset -> 0 < length -> offset + length <= backing_size ->
    wp (drv_read data offset length) (fun r v' =>
      r = BLK_STS_OK /\ v_disk v' = v_disk v /\
      v_mem v' = mem_write (v_mem v) data (mem_read (v_disk v) offset length)) v;
  drv_write_ok data offset length v :
    0 <= offset -> 0 < length -> offset + length <= backing_size ->
    wp (drv_write data offset length) (fun r v' =>
      r = BLK_STS_OK /\ v_mem v' = v_mem v /\
      v_disk v' = mem_write (v_disk v) offset (mem_read (v_mem v) data length)) v }.

Lemma mem_write_app m a l1 l2 :
  mem_write m a (l1 ++ l2) = mem_write (mem_write m a l1) (a + Z.of_nat (length l1)) l2.
Proof.
  revert m a. induction l1 as [|b l1 IH]; intros m a; cbn [app mem_write length].
  - by rewrite Z.add_0_r.
  - rewrite IH. f_equal. lia.
Qed.

(** A promise of the interface, whatever the driver: what was written is
    read back, into any buffer, for any part of what was written. *)
Section backing.
Context {V : Type} `{BK : BackingLaws V}.

Lemma drv_write_then_read data offset len data' offset' len' v :
  0 <= offset -> 0 < len -> offset + len <= backing_size ->
  offset <= offset' -> 0 < len' -> offset' + len' <= offset + len ->
  wp (_ ← drv_write data offset len; drv_read data' offset' len') (fun r v' =>
    r = BLK_STS_OK /\
    mem_read (v_mem v') data' len' = mem_read (v_mem v) (data + (offset' - offset)) len') v.
Proof.
  intros Ho Hl Hend Ho' Hl' Hend'. apply wp_bind. eapply wp_mono; [by apply drv_write_ok|].
  intros _ v1 (_ & Hm1 & Hd1). eapply wp_mono; [apply drv_read_ok; lia|].
  intros r v2 (-> & _ & ->). split; [done|].
  rewrite mem_read_write_same by solve_len.
  apply list_fmap_ext. intros j i [-> Hi]%lookup_seqZ. rewrite Hd1, mem_write_lookup, length_mem_read.
  case_decide; [|lia]. rewrite mem_read_lookup by lia. simpl. do 2 f_equal. lia.
Qed.
End backing.
