(* ===== verification/LibBius.v ===== *)
(** * The user-space library

    [library/libbius.c]: a process reads requests from the character device,
    calls the operations of the driver, and writes the replies.  Messages on
    [stderr] are left out. *)
From S2P Require Import Prelude Protocol.

(** ** Processes

    A computation of a process returns, or ends the process: [exit(code)]. *)
Inductive exec (A : Type) := Go (a : A) | Exit (code : Z).
Arguments Go {A} _.
Arguments Exit {A} _.
Definition P (W A : Type) : Type := ST W (exec A).

Section process_monad.
Context {W : Type}.
Definition pret {A} (a : A) : P W A := (mret (Go a) : ST W (exec A)).
Definition exit {A} (code : Z) : P W A := (mret (Exit code) : ST W (exec A)).
Definition lift {A} (m : ST W A) : P W A := (a ← m; mret (Go a) : ST W (exec A)).
Definition pbind {A B} (m : P W A) (f : A -> P W B) : P W B :=
  mbind (M := ST W) (fun r => match r with Go a => f a | Exit code => exit code end) m.
End process_monad.

Declare Scope process_scope.
Delimit Scope process_scope with process.
Notation "x ⇐ m ; k" := (pbind m (fun x => k))
  (at level 20, m at level 100, k at level 200, only parsing) : process_scope.

(** What a process asks of the C library and the kernel.  [sys_read fd n]
    returns what [read] returns and the bytes it stored; [proc_mem] is the
    memory of the process. *)
Class Process (W : Type) := {
  proc_mem : W -> memory;
  set_proc_mem : (memory -> memory) -> W -> W;
  sys_read : Z -> Z -> ST W (Z * list Z);
  sys_write : Z -> list Z -> ST W Z;
  sys_open : ST W Z;                       (** [open("/dev/bius", O_RDWR)] *)
  mmap : Z -> Z -> ST W Z;                 (** so many bytes of a descriptor; [MAP_FAILED] *)
  aligned_alloc : Z -> Z -> ST W Z;        (** 0 when it fails *)
  malloc : Z -> ST W Z;                    (** 0 when it fails *)
  free : Z -> ST W unit;
  pthread_create : Z -> ST W Z;            (** the thread runs [thread_main] *)
  pthread_join : Z -> ST W Z }.

(** [struct bius_operations] of [libbius.h].  The last argument of
    [op_append_zone] says whether [out_written_position] is non-NULL, its result
    holds what was stored there. *)
Record bius_operations (W : Type) := Operations {
  op_read : option (Z -> Z -> Z -> ST W Z);
  op_write : option (Z -> Z -> Z -> ST W Z);
  op_discard : option (Z -> Z -> ST W Z);
  op_flush : option (ST W Z);
  op_report_zones : option (Z -> Z -> Z -> ST W Z);
  op_open_zone : option (Z -> ST W Z);
  op_close_zone : option (Z -> ST W Z);
  op_finish_zone : option (Z -> ST W Z);
  op_append_zone : option (Z -> Z -> Z -> bool -> ST W (Z * option Z));
  op_reset_zone : option (Z -> ST W Z);
  op_reset_all_zone : option (ST W Z) }.
Arguments op_read {W}. Arguments op_write {W}. Arguments op_discard {W}. Arguments op_flush {W}.
Arguments op_report_zones {W}. Arguments op_open_zone {W}. Arguments op_close_zone {W}.
Arguments op_finish_zone {W}. Arguments op_append_zone {W}. Arguments op_reset_zone {W}.
Arguments op_reset_all_zone {W}. Arguments Operations {W}.

Definition BIUS_DEFAULT_NUM_THREADS : Z := 4.
Definition MAP_FAILED : Z := -1.
Definition DATA_MAP_AREA_SIZE : Z := BIUS_MAX_SIZE_PER_COMMAND + PAGE_SIZE.

Section libbius.
Context {W : Type} `{PS : Process W}.
Local Open Scope process_scope.

(** ** Reading and writing commands *)

(** The header is overwritten by the bytes read; when [read] returns less
    than a header and more than nothing the process ends, so what a short read
    leaves in it is not recorded. *)
Definition read_command (fd : Z) (header : bius_k2u_header) : ST W (Z * bius_k2u_header) :=
  res ← sys_read fd sizeof_k2u;
  if res.1 <? 0 then mret (s32 res.1, header)
  else if res.1 =? 0 then mret (s32 res.1, header)
  else if res.1 <? sizeof_k2u then mret (-1, header)
  else mret (s32 res.1, k2u_of_bytes res.2).

Definition write_command (fd : Z) (header : bius_u2k_header) : ST W Z :=
  result ← sys_write fd (u2k_bytes header);
  if result <? 0 then mret (s32 result)
  else if result =? 0 then mret (s32 result)
  else if result <? sizeof_u2k then mret (-1)
  else mret (s32 result).

(** ** Copying the payload in

    [room] is the size of the buffer.  Every round reads at least one byte:
    [size] rounds are enough. *)
Definition store_in_buffer (buffer room at_ : Z) (bs : list Z) : ST W unit :=
  if room <? at_ + Z.of_nat (length bs) then fail OutOfBounds
  else modify (set_proc_mem (fun m => mem_write m (buffer + at_) bs)).

Fixpoint copy_in_loop (fuel : nat) (fd buffer room size total_read : Z) : P W unit :=
  match fuel with
  | O => exhausted
  | S fuel' =>
      if u64 total_read <? size then
        res ⇐ lift (sys_read fd (u64 (size - total_read)));
        _ ⇐ lift (store_in_buffer buffer room total_read res.2);
        if res.1 <=? 0 then exit 1
        else copy_in_loop fuel' fd buffer room size (s64 (total_read + res.1))
      else pret tt
  end.

Definition handle_copy_in (fd : Z) (header : bius_k2u_header) (buffer room : Z) : P W bius_k2u_header :=
  if request_may_have_data (k2u_opcode header)
     && (k2u_data_map_type header =? data_map_type_value BIUS_DATAMAP_UNMAPPED) then
    let header' := K2U (k2u_id header) (k2u_opcode header) (k2u_offset header) (k2u_length header)
                     buffer 0 (data_map_type_value BIUS_DATAMAP_SIMPLE) in
    if request_is_write (k2u_opcode header) then
      _ ⇐ copy_in_loop (S (Z.to_nat (k2u_length header))) fd buffer room (k2u_length header) 0;
      pret header'
    else pret header'
  else pret header.

(** ** Calling the driver

    [blk_status_t] is an unsigned int, and the result an [int64_t]. *)
Definition call (op : option (ST W Z)) : ST W Z :=
  match op with Some m => r ← m; mret (u32 r) | None => mret BLK_STS_NOTSUPP end.
Definition call_append (op : option (ST W (Z * option Z))) (user_data : Z) : ST W (Z * Z) :=
  match op with
  | Some m => r ← m; mret (u32 r.1, from_option u64 user_data r.2)
  | None => mret (BLK_STS_NOTSUPP, user_data)
  end.

(** [datamap_list] is an array of addresses and sizes ended by a 0 address.
    The result of a missing operation is BLK_STS_NOTSUPP, which is not
    BLK_STS_OK: it returns as well. *)
Definition load_ulong (a : Z) : ST W Z := m ← gets proc_mem; mret (le_value (mem_read m a 8)).

Fixpoint datamap_list_loop (fuel : nat) (k2u : bius_k2u_header) (ops : bius_operations W)
    (i offset : Z) (first_call : bool) (user_data : Z) : ST W (Z * Z) :=
  match fuel with
  | O => exhausted
  | S fuel' =>
      data_address ← load_ulong (k2u_mapping_data k2u + 8 * (i * 2));
      if data_address =? 0 then mret (BLK_STS_OK, user_data)
      else
        segment_size ← load_ulong (k2u_mapping_data k2u + 8 * (i * 2 + 1));
        res ← match k2u_opcode k2u with
              | BIUS_READ =>
                  r ← call ((fun f => f data_address offset segment_size) <$> op_read ops);
                  mret (r, user_data)
              | BIUS_WRITE =>
                  r ← call ((fun f => f data_address offset segment_size) <$> op_write ops);
                  mret (r, user_data)
              | BIUS_ZONE_APPEND =>
                  call_append ((fun f => f data_address offset segment_size first_call)
                                 <$> op_append_zone ops) user_data
              | _ => mret (BLK_STS_NOTSUPP, user_data)
              end;
        if negb (res.1 =? BLK_STS_OK) then mret res
        else datamap_list_loop fuel' k2u ops (i + 1) (s64 (offset + segment_size)) false res.2
  end.

(** The list has at most as many entries as bytes fit the mapping area. *)
Definition datamap_fuel : nat := Z.to_nat (BIUS_PTES_PER_COMMAND + 1).
Definition handle_blk_command_with_datamap_list (k2u : bius_k2u_header) (ops : bius_operations W)
    (user_data : Z) : ST W (Z * Z) :=
  datamap_list_loop datamap_fuel k2u ops 0 (s64 (k2u_offset k2u)) true user_data.

(** The status and the final value of [*out_user_data]. *)
Definition handle_blk_command (k2u : bius_k2u_header) (ops : bius_operations W) (user_data : Z)
    : ST W (Z * Z) :=
  let data := u64 (k2u_data_address k2u + k2u_mapping_data k2u) in
  let offset := s64 (k2u_offset k2u) in
  let length := k2u_length k2u in
  let keep (m : ST W Z) : ST W (Z * Z) := r ← m; mret (r, user_data) in
  if k2u_data_map_type k2u =? data_map_type_value BIUS_DATAMAP_LIST then
    handle_blk_command_with_datamap_list k2u ops user_data
  else
    match k2u_opcode k2u with
    | BIUS_READ =>
        r ← call ((fun f => f data offset length) <$> op_read ops);
        mret (r, data)
    | BIUS_WRITE => keep (call ((fun f => f data offset length) <$> op_write ops))
    | BIUS_DISCARD => keep (call ((fun f => f offset length) <$> op_discard ops))
    | BIUS_FLUSH => keep (call (op_flush ops))
    | BIUS_ZONE_OPEN => keep (call ((fun f => f offset) <$> op_open_zone ops))
    | BIUS_ZONE_CLOSE => keep (call ((fun f => f offset) <$> op_close_zone ops))
    | BIUS_ZONE_FINISH => keep (call ((fun f => f offset) <$> op_finish_zone ops))
    | BIUS_ZONE_APPEND =>
        call_append ((fun f => f data offset length true) <$> op_append_zone ops) user_data
    | BIUS_ZONE_RESET => keep (call ((fun f => f offset) <$> op_reset_zone ops))
    | BIUS_ZONE_RESET_ALL => keep (call (op_reset_all_zone ops))
    | _ => mret (BLK_STS_NOTSUPP, user_data)
    end.

(** ** The request loop

    The locals of [handle_requests] that live across iterations: [k2u] and
    [u2k] start uninitialised. *)
Record locals := Locals { l_k2u : bius_k2u_header; l_u2k : bius_u2k_header }.

Definition prepare_reply (ops : bius_operations W) (k2u : bius_k2u_header) (u2k : bius_u2k_header)
    : ST W (bius_u2k_header * Z) :=
  if is_blk_request (k2u_opcode k2u) then
    res ← handle_blk_command k2u ops 0;
    mret (u2k_with_reply (k2u_id k2u) res.1 res.2, 0)
  else
    match op_report_zones ops with
    | Some report =>
        zone_info ← malloc (u64 (sizeof_blk_zone * k2u_length k2u));
        n ← report (s64 (k2u_offset k2u)) (s32 (k2u_length k2u)) zone_info;
        mret (u2k_with_reply (k2u_id k2u) (s64 (s32 n * sizeof_blk_zone)) zone_info, zone_info)
    | None => mret (U2K (k2u_id k2u) (u2k_cell u2k) (u2k_user_data u2k), 0)
    end.

(** One round of the [while (1)]. *)
Definition handle_request (fd : Z) (ops : bius_operations W) (buffer room : Z) (l : locals) : P W locals :=
  cmd ⇐ lift (read_command fd (l_k2u l));
  if cmd.1 <? 0 then exit 1
  else
    k2u ⇐ handle_copy_in fd cmd.2 buffer room;
    reply ⇐ lift (prepare_reply ops k2u (l_u2k l));
    result ⇐ lift (write_command fd reply.1);
    if result <? 0 then exit 1
    else
      _ ⇐ (if negb (reply.2 =? 0) then lift (free reply.2) else pret tt);
      pret (Locals k2u reply.1).

(** [fuel] rounds; the loop has no other end than [exit]. *)
Fixpoint request_loop (fuel : nat) (fd : Z) (ops : bius_operations W) (buffer room : Z) (l : locals)
    : P W unit :=
  match fuel with
  | O => exhausted
  | S fuel' => l' ⇐ handle_request fd ops buffer room l; request_loop fuel' fd ops buffer room l'
  end.

(** [datamap] is [CONFIG_BIUS_DATAMAP]: the area for mapped requests is set up
    first, and the buffer only takes what is not mapped. *)
Definition handle_requests (datamap : bool) (fuel : nat) (fd : Z) (ops : bius_operations W) (l : locals)
    : P W unit :=
  data_area ⇐ (if datamap then lift (mmap fd DATA_MAP_AREA_SIZE) else pret 0);
  if datamap && (data_area =? MAP_FAILED) then exit 1
  else
    let data_copy_buffer_size := if datamap then BIUS_MAP_DATA_THRESHOLD else BIUS_MAX_SIZE_PER_COMMAND in
    buffer ⇐ lift (aligned_alloc PAGE_SIZE data_copy_buffer_size);
    if buffer =? 0 then exit 1
    else request_loop fuel fd ops buffer data_copy_buffer_size l.

(** ** Starting

    [options] is the address of the [struct bius_block_device_options]; its
    name starts at byte 24.  [strlen] runs on until a 0 byte. *)
Fixpoint strlen (fuel : nat) (m : memory) (a : Z) : option Z :=
  match fuel with
  | O => None
  | S fuel' => if default 0 (m !! a) =? 0 then Some 0 else (fun n => n + 1) <$> strlen fuel' m (a + 1)
  end.
Definition offset_num_threads : Z := 4.
Definition offset_disk_name : Z := 24.

Definition disk_name_length (fuel : nat) (options : Z) : ST W Z :=
  m ← gets proc_mem;
  match strlen fuel m (options + offset_disk_name) with Some n => mret n | None => exhausted end.

Definition create_block_device (fuel : nat) (fd options : Z) : P W unit :=
  n ⇐ lift (disk_name_length fuel options);
  result ⇐ lift (sys_write fd (u2k_bytes (u2k_with_type 0 (bius_req_value BIUS_CREATE) n options)));
  if result <? 0 then exit 1 else pret tt.

Definition connect_block_device (fuel : nat) (fd options : Z) : P W unit :=
  n ⇐ lift (disk_name_length fuel options);
  result ⇐ lift (sys_write fd (u2k_bytes (u2k_with_type 0 (bius_req_value BIUS_CONNECT) n
                                            (options + offset_disk_name))));
  if result <? 0 then exit 1 else pret tt.

Definition thread_main (datamap : bool) (fuel : nat) (ops : bius_operations W) (options : Z) (l : locals) : P W unit :=
  fd ⇐ lift sys_open;
  if fd <? 0 then exit 1
  else
    _ ⇐ connect_block_device fuel fd options;
    handle_requests datamap fuel fd ops l.

(** [pthread_create] and [pthread_join] over the threads from [i] on. *)
Fixpoint create_threads (n : nat) (i last : Z) : ST W Z :=
  match n with
  | O => mret last
  | S n' => result ← pthread_create i; if result <? 0 then mret result else create_threads n' (i + 1) result
  end.
Fixpoint join_threads (n : nat) (i last : Z) : ST W Z :=
  match n with
  | O => mret last
  | S n' => result ← pthread_join i; if result <? 0 then mret result else join_threads n' (i + 1) result
  end.

(** [operations] and [options] are [None] and 0 when NULL.  [locals] are the
    locals of this thread's [handle_requests]. *)
Definition bius_main_real (datamap : bool) (fuel : nat) (operations : option (bius_operations W))
    (options : Z) (l : locals) : P W Z :=
  match operations with
  | None => pret (- EINVAL)
  | Some ops =>
      if options =? 0 then pret (- EINVAL)
      else
        m ⇐ lift (gets proc_mem);
        let given := le_value (mem_read m (options + offset_num_threads) 4) in
        let num_threads := if given =? 0 then BIUS_DEFAULT_NUM_THREADS else given in
        threads ⇐ lift (malloc (8 * (num_threads - 1)));
        if threads =? 0 then pret (- ENOMEM)
        else
          fd ⇐ lift sys_open;
          if fd <? 0 then exit 1
          else
            _ ⇐ create_block_device fuel fd options;
            result ⇐ lift (create_threads (Z.to_nat (num_threads - 1)) 0 0);
            if result <? 0 then _ ⇐ lift (free threads); pret result
            else
              _ ⇐ handle_requests datamap fuel fd ops l;
              result ⇐ lift (join_threads (Z.to_nat (num_threads - 1)) 0 result);
              _ ⇐ lift (free threads);
              pret result
  end.

(** The value returned and the value of [errno]. *)
Definition bius_main (datamap : bool) (fuel : nat) (operations : option (bius_operations W)) (options : Z)
    (l : locals) : P W (Z * Z) :=
  result ⇐ bius_main_real datamap fuel operations options l;
  pret (if result <? 0 then (-1, result) else (result, 0)).
End libbius.
