(* ===== verification/LibBiusProps.v ===== *)
(** * Properties of the library

    Payloads are read whole whatever the reads return, lists of segments are
    handled in order, missing operations are answered, and [bius_main] comes back
    only with an error.  What goes wrong at the end of the file is stated too. *)
From S2P Require Import Prelude Protocol LibBius.

Section process_rules.
Context {W : Type}.
Implicit Types s : W.

Lemma pbind_go {A B} (m : P W A) (f : A -> P W B) s a s' :
  m s = Ret (Go a, s') -> pbind m f s = f a s'.
Proof. intros Hm. unfold pbind, mbind, ST_bind. by rewrite Hm. Qed.
Lemma pbind_exit {A B} (m : P W A) (f : A -> P W B) s code s' :
  m s = Ret (Exit code, s') -> pbind m f s = Ret (Exit code, s').
Proof. intros Hm. unfold pbind, mbind, ST_bind. by rewrite Hm. Qed.
Lemma lift_ret {A} (m : ST W A) s a s' : m s = Ret (a, s') -> lift m s = Ret (Go a, s').
Proof. intros Hm. unfold lift, mbind, ST_bind. by rewrite Hm. Qed.
Lemma pbind_lift {A B} (m : ST W A) (f : A -> P W B) s a s' :
  m s = Ret (a, s') -> pbind (lift m) f s = f a s'.
Proof. intros Hm. apply pbind_go. by apply lift_ret. Qed.
Lemma pbind_inv {A B} (m : P W A) (f : A -> P W B) s b s' :
  pbind m f s = Ret (Go b, s') -> exists a s1, m s = Ret (Go a, s1) /\ f a s1 = Ret (Go b, s').
Proof. unfold pbind, mbind, ST_bind. destruct (m s) as [[[a|code] s1]| |]; [eauto|done|done|done]. Qed.

Lemma wp_pbind {A B} (m : P W A) (f : A -> P W B) (Q : exec B -> W -> Prop) s :
  wp m (fun r s' => match r with Go a => wp (f a) Q s' | Exit code => Q (Exit code) s' end) s ->
  wp (pbind m f) Q s.
Proof. intros Hm. apply wp_bind. eapply wp_mono; [exact Hm|]. by intros [a|code] s'. Qed.
Lemma wp_lift {A} (m : ST W A) (Q : exec A -> W -> Prop) s :
  wp m (fun a s' => Q (Go a) s') s -> wp (lift m) Q s.
Proof. intros Hm. apply wp_bind. eapply wp_mono; [exact Hm|]. by intros a s' ?. Qed.
Lemma wp_pbind_lift {A B} (m : ST W A) (f : A -> P W B) (Q : exec B -> W -> Prop) s :
  wp m (fun a s' => wp (f a) Q s') s -> wp (pbind (lift m) f) Q s.
Proof. intros Hm. by apply wp_pbind, wp_lift. Qed.
Lemma wp_pret {A} (a : A) (Q : exec A -> W -> Prop) s : Q (Go a) s -> wp (pret a) Q s.
Proof. done. Qed.
Lemma wp_exit {A} code (Q : exec A -> W -> Prop) s : Q (Exit code) s -> wp (exit code) Q s.
Proof. done. Qed.
End process_rules.

(** The memory is a component of the state of its own. *)
Class ProcessLaws (W : Type) `{Process W} :=
  proc_mem_set f (s : W) : proc_mem (set_proc_mem f s) = f (proc_mem s).

(** [I bs s]: in [s], reads from [fd] will return the bytes [bs], cut as the
    kernel likes but never into nothing; they do not touch the memory. *)
Class Stream {W : Type} `{Process W} (fd : Z) (I : list Z -> W -> Prop) := {
  stream_read bs n s : I bs s -> bs <> [] -> 0 < n ->
    wp (sys_read fd n) (fun res s' =>
      0 < res.1 /\ res.1 <= n /\ res.1 <= Z.of_nat (length bs) /\ res.2 = take (Z.to_nat res.1) bs /\
      I (drop (Z.to_nat res.1) bs) s' /\ proc_mem s' = proc_mem s) s;
  stream_store bs a l s : I bs s -> I bs (set_proc_mem (fun m => mem_write m a l) s) }.

(** ** Copying the payload in *)
Section copy_in.
Context {W : Type} `{PL : ProcessLaws W}.
Context (fd buffer room : Z) (I : list Z -> W -> Prop) `{SI : !Stream fd I}.
Implicit Types s : W.

Lemma copy_in_loop_spec fuel size total bs s :
  I bs s -> 0 <= total -> total + Z.of_nat (length bs) = size -> size <= room -> size < 2 ^ 63 ->
  (length bs < fuel)%nat ->
  wp (copy_in_loop fuel fd buffer room size total) (fun res s' =>
    res = Go tt /\ I [] s' /\ mem_read (proc_mem s') (buffer + total) (size - total) = bs /\
    (forall x, x < buffer + total \/ buffer + size <= x -> proc_mem s' !! x = proc_mem s !! x)) s.
Proof.
  revert total bs s. induction fuel as [|fuel IH]; intros total bs s HI Ht Hsize Hroom Hlt Hfuel; [lia|].
  cbn [copy_in_loop]. rewrite (wrap_small 64) by lia. destruct (Z.ltb_spec total size) as [Hlt'|Hge]; cycle 1.
  { assert (bs = []) as -> by (apply length_zero_iff_nil; lia). apply wp_pret. split_and!; [done|done| |done].
    unfold mem_read. by rewrite seqZ_nil by lia. }
  apply wp_pbind_lift. rewrite (wrap_small 64) by lia.
  assert (bs <> []) as Hne by (intros ->; simpl in *; lia).
  eapply wp_mono; [apply (stream_read bs); [done|done|lia]|].
  intros [n got] s1 (Hn & Hnle & Hnbs & Hgot & HI1 & Hm1). simpl in *.
  assert (Z.of_nat (length got) = n) as Hlen by (rewrite Hgot, length_take; lia).
  apply wp_pbind_lift. unfold store_in_buffer. destruct (Z.ltb_spec room (total + Z.of_nat (length got))); [lia|].
  apply wp_modify. destruct (Z.leb_spec n 0); [lia|]. rewrite (swrap_small 64) by lia.
  set (s2 := set_proc_mem _ s1).
  assert (proc_mem s2 = mem_write (proc_mem s) (buffer + total) got) as Hm2
    by (unfold s2; by rewrite proc_mem_set, Hm1).
  eapply wp_mono.
  { apply (IH (total + n) (drop (Z.to_nat n) bs) s2); try lia; [by apply stream_store| |];
      rewrite length_drop; lia. }
  intros res s' (-> & HI' & Hread & Hout). split_and!; [done|done| |].
  - replace (size - total) with (n + (size - (total + n))) by lia.
    rewrite mem_read_app by lia. rewrite Z.add_assoc in Hread.
    replace (buffer + total + n) with (buffer + total + n) by lia. rewrite Hread.
    rewrite (mem_read_ext (proc_mem s') (proc_mem s2)) by (intros x Hx; apply Hout; lia).
    rewrite Hm2, mem_read_write_same by lia. rewrite Hgot. apply take_drop.
  - intros x Hx. rewrite Hout by lia. rewrite Hm2. apply mem_write_outside. lia.
Qed.

Lemma copy_in_reads_payload_aux header bs s :
  I bs s -> request_is_write (k2u_opcode header) = true -> k2u_data_map_type header = 0 ->
  Z.of_nat (length bs) = k2u_length header -> k2u_length header <= room -> k2u_length header < 2 ^ 63 ->
  wp (handle_copy_in fd header buffer room) (fun res s' =>
    res = Go (K2U (k2u_id header) (k2u_opcode header) (k2u_offset header) (k2u_length header)
                buffer 0 (data_map_type_value BIUS_DATAMAP_SIMPLE)) /\
    I [] s' /\ mem_read (proc_mem s') buffer (k2u_length header) = bs /\
    (forall x, x < buffer \/ buffer + k2u_length header <= x -> proc_mem s' !! x = proc_mem s !! x)) s.
Proof.
  intros HI Hw Hmt Hlen Hroom Hlt. unfold handle_copy_in.
  rewrite (request_is_write_may_have_data _ Hw), Hmt, Hw. cbv [andb Z.eqb data_map_type_value].
  apply wp_pbind. eapply wp_mono.
  { apply (copy_in_loop_spec _ (k2u_length header) 0 bs); [done|lia..]. }
  intros res s' (-> & HI' & Hread & Hout). apply wp_pret.
  rewrite Z.add_0_r, Z.sub_0_r in Hread. rewrite Z.add_0_r in Hout. by split_and!.
Qed.
(** C25: A request with data that is not mapped gets the buffer for its data; a
    write's payload is read into it completely, whatever sizes the reads return,
    and nothing else is stored. *)
Theorem copy_in_reads_payload header bs s :
  I bs s -> request_is_write (k2u_opcode header) = true -> k2u_data_map_type header = 0 ->
  Z.of_nat (length bs) = k2u_length header -> k2u_length header <= room -> k2u_length header < 2 ^ 63 ->
  wp (handle_copy_in fd header buffer room) (fun res s' =>
    res = Go (K2U (k2u_id header) (k2u_opcode header) (k2u_offset header) (k2u_length header)
                buffer 0 (data_map_type_value BIUS_DATAMAP_SIMPLE)) /\
    I [] s' /\ mem_read (proc_mem s') buffer (k2u_length header) = bs /\
    (forall x, x < buffer \/ buffer + k2u_length header <= x -> proc_mem s' !! x = proc_mem s !! x)) s.
Proof. apply copy_in_reads_payload_aux. Qed.
End copy_in.

(** ** Lists of segments *)
Section segments.
Context {W : Type} `{PL : ProcessLaws W}.
Implicit Types s : W.

(** [a] is an array of the segments (addresses and sizes), ended by a 0. *)
Definition segment_bytes (segs : list (Z * Z)) : list Z :=
  concat ((fun sg => le_bytes 8 sg.1 ++ le_bytes 8 sg.2) <$> segs) ++ le_bytes 8 0.
Definition holds_segments (m : memory) (a : Z) (segs : list (Z * Z)) : Prop :=
  mem_read m a (Z.of_nat (length (segment_bytes segs))) = segment_bytes segs.
Definition segment_wf (sg : Z * Z) : Prop := 0 < sg.1 < 2 ^ 64 /\ 0 <= sg.2 < 2 ^ 64.

Lemma length_segment_bytes segs : length (segment_bytes segs) = (16 * length segs + 8)%nat.
Proof.
  unfold segment_bytes. rewrite length_app, length_le_bytes. f_equal.
  induction segs as [|sg segs IH]; [done|]. rewrite fmap_cons. cbn [concat length].
  rewrite !length_app, !length_le_bytes, IH. lia.
Qed.

(** The reference: one call of the driver per segment, at consecutive offsets,
    up to the first that fails. *)
Definition segment_call (ops : bius_operations W) (op : bius_req) (sg : Z * Z) (offset : Z)
    (first : bool) (user_data : Z) : ST W (Z * Z) :=
  match op with
  | BIUS_READ => r ← call ((fun f => f sg.1 offset sg.2) <$> op_read ops); mret (r, user_data)
  | BIUS_WRITE => r ← call ((fun f => f sg.1 offset sg.2) <$> op_write ops); mret (r, user_data)
  | BIUS_ZONE_APPEND => call_append ((fun f => f sg.1 offset sg.2 first) <$> op_append_zone ops) user_data
  | _ => mret (BLK_STS_NOTSUPP, user_data)
  end.
Fixpoint each_segment (ops : bius_operations W) (op : bius_req) (segs : list (Z * Z)) (offset : Z)
    (first : bool) (user_data : Z) : ST W (Z * Z) :=
  match segs with
  | [] => mret (BLK_STS_OK, user_data)
  | sg :: segs' =>
      res ← segment_call ops op sg offset first user_data;
      if negb (res.1 =? BLK_STS_OK) then mret res
      else each_segment ops op segs' (s64 (offset + sg.2)) false res.2
  end.

Lemma field_value m a n (i : nat) z l1 l2 :
  mem_read m a n = l1 ++ le_bytes 8 z ++ l2 -> i = length l1 -> 0 <= z < 2 ^ 64 ->
  le_value (mem_read m (a + Z.of_nat i) 8) = z.
Proof.
  intros Hm -> Hz.
  assert (Z.of_nat (length l1) + 8 <= n) as Hn.
  { pose proof (f_equal length Hm) as Hl. rewrite length_mem_read, !length_app, length_le_bytes in Hl. lia. }
  replace n with (Z.of_nat (length l1) + (8 + (n - 8 - Z.of_nat (length l1)))) in Hm by lia.
  rewrite mem_read_app in Hm by lia. apply app_inj_1 in Hm as [_ Hm]; [|rewrite length_mem_read; lia].
  rewrite mem_read_app in Hm by lia. apply app_inj_1 in Hm as [Hm _]; [|by rewrite length_mem_read, length_le_bytes].
  rewrite Hm, le_value_bytes. by apply Z.mod_small.
Qed.

Lemma segment_bytes_app l1 l2 : segment_bytes (l1 ++ l2) =
  concat ((fun sg => le_bytes 8 sg.1 ++ le_bytes 8 sg.2) <$> l1) ++ segment_bytes l2.
Proof. unfold segment_bytes. by rewrite fmap_app, concat_app, app_assoc. Qed.

(** What the library loads of entry [length done] of the list. *)
Lemma load_segment s a done sg rest :
  holds_segments (proc_mem s) a (done ++ sg :: rest) -> segment_wf sg ->
  load_ulong (a + 8 * (Z.of_nat (length done) * 2)) s = Ret (sg.1, s) /\
  load_ulong (a + 8 * (Z.of_nat (length done) * 2 + 1)) s = Ret (sg.2, s).
Proof.
  intros Hm [Ha Hs]. unfold holds_segments in Hm. rewrite segment_bytes_app in Hm at 2.
  set (pre := concat _) in Hm. assert (length pre = (16 * length done)%nat) as Hpre.
  { pose proof (length_segment_bytes done) as Hl. unfold segment_bytes in Hl. fold pre in Hl.
    rewrite length_app, length_le_bytes in Hl. lia. }
  assert (segment_bytes (sg :: rest) = le_bytes 8 sg.1 ++ le_bytes 8 sg.2 ++ segment_bytes rest) as Hsg.
  { unfold segment_bytes. rewrite fmap_cons. cbn [concat]. by rewrite <- !app_assoc. }
  rewrite Hsg in Hm. unfold load_ulong, mbind, ST_bind, gets, mret, ST_ret. split.
  - replace (a + 8 * (Z.of_nat (length done) * 2)) with (a + Z.of_nat (length pre)) by lia.
    do 2 f_equal. by eapply field_value; [exact Hm| |lia].
  - replace (a + 8 * (Z.of_nat (length done) * 2 + 1)) with (a + Z.of_nat (length (pre ++ le_bytes 8 sg.1)))
      by (rewrite length_app, length_le_bytes; lia).
    do 2 f_equal. eapply field_value; [|done|lia]. rewrite Hm. by rewrite <- !app_assoc.
Qed.
Lemma load_end s a done :
  holds_segments (proc_mem s) a done -> load_ulong (a + 8 * (Z.of_nat (length done) * 2)) s = Ret (0, s).
Proof.
  intros Hm. pose proof (length_segment_bytes done) as Hl. unfold holds_segments in Hm.
  unfold segment_bytes in Hm at 2. set (pre := concat _) in Hm.
  assert (length pre = (16 * length done)%nat) as Hpre.
  { unfold segment_bytes in Hl. fold pre in Hl. rewrite length_app, length_le_bytes in Hl. lia. }
  unfold load_ulong, mbind, ST_bind, gets, mret, ST_ret.
  replace (a + 8 * (Z.of_nat (length done) * 2)) with (a + Z.of_nat (length pre)) by lia.
  do 2 f_equal. eapply (field_value _ _ _ _ 0 pre []); [by rewrite app_nil_r; exact Hm|done|lia].
Qed.
Section list_loop.
Context (k2u : bius_k2u_header) (ops : bius_operations W) (segs : list (Z * Z)).
Hypothesis Hwf : Forall segment_wf segs.
(** The driver leaves the list itself alone. *)
Hypothesis Hkeep : forall sg offset first user_data s res s', sg ∈ segs ->
  holds_segments (proc_mem s) (k2u_mapping_data k2u) segs ->
  segment_call ops (k2u_opcode k2u) sg offset first user_data s = Ret (res, s') ->
  holds_segments (proc_mem s') (k2u_mapping_data k2u) segs.

Lemma datamap_list_loop_spec fuel done rest offset first user_data s :
  segs = done ++ rest -> (length rest < fuel)%nat ->
  holds_segments (proc_mem s) (k2u_mapping_data k2u) segs ->
  datamap_list_loop fuel k2u ops (Z.of_nat (length done)) offset first user_data s
    = each_segment ops (k2u_opcode k2u) rest offset first user_data s.
Proof.
  revert fuel done offset first user_data s. induction rest as [|sg rest IH];
    intros [|fuel] done offset first user_data s Hsegs Hfuel Hm; cbn [length] in Hfuel; try lia; cbn [datamap_list_loop].
  - rewrite app_nil_r in Hsegs. unfold mbind at 1, ST_bind at 1. rewrite load_end by (by rewrite Hsegs in Hm). done.
  - assert (sg ∈ segs) as Hin by (rewrite Hsegs; apply elem_of_app; right; by left).
    assert (segment_wf sg) as Hsg by (by eapply Forall_forall in Hwf).
    destruct (load_segment s (k2u_mapping_data k2u) done sg rest) as [H1' H2']; [by rewrite <- Hsegs|done|].
    unfold mbind at 1, ST_bind at 1. rewrite H1'. destruct (Z.eqb_spec sg.1 0) as [Hz|_]; [destruct Hsg; lia|].
    unfold mbind at 1, ST_bind at 1. rewrite H2'. cbn [each_segment]. fold (segment_call ops (k2u_opcode k2u) sg offset first user_data).
    unfold mbind, ST_bind.
    destruct (segment_call _ _ _ _ _ _ s) as [[res s']| |] eqn:Hcall; [|done|done].
    destruct (negb _); [done|]. replace (Z.of_nat (length done) + 1) with (Z.of_nat (length (done ++ [sg])))
      by (rewrite length_app; simpl; lia).
    apply IH; [by rewrite <- app_assoc|lia|by eapply Hkeep].
Qed.
End list_loop.

(** C26: A request whose data is mapped as a list of segments goes to the driver
    segment by segment, at consecutive offsets, until a call fails: that status
    is the reply, and only the first call of an append learns the position. *)
Theorem datamap_list_in_order k2u ops segs user_data s :
  k2u_data_map_type k2u = data_map_type_value BIUS_DATAMAP_LIST ->
  Forall segment_wf segs -> Z.of_nat (length segs) <= BIUS_PTES_PER_COMMAND ->
  (forall sg offset first ud s1 res s2, sg ∈ segs ->
     holds_segments (proc_mem s1) (k2u_mapping_data k2u) segs ->
     segment_call ops (k2u_opcode k2u) sg offset first ud s1 = Ret (res, s2) ->
     holds_segments (proc_mem s2) (k2u_mapping_data k2u) segs) ->
  holds_segments (proc_mem s) (k2u_mapping_data k2u) segs ->
  handle_blk_command k2u ops user_data s
    = each_segment ops (k2u_opcode k2u) segs (s64 (k2u_offset k2u)) true user_data s.
Proof.
  intros Hmt Hwf Hlen Hkeep Hm. unfold handle_blk_command. rewrite Hmt, Z.eqb_refl.
  unfold handle_blk_command_with_datamap_list.
  apply (datamap_list_loop_spec k2u ops segs Hwf Hkeep datamap_fuel [] segs); [done| |done].
  unfold datamap_fuel. lia.
Qed.
End segments.

(** ** Replies *)
Section replies.
Context {W : Type} `{PS : Process W}.
Implicit Types s : W.

(** The operations a driver has, by request type. *)
Definition provides (ops : bius_operations W) (op : bius_req) : bool :=
  match op with
  | BIUS_READ => bool_decide (is_Some (op_read ops))
  | BIUS_WRITE => bool_decide (is_Some (op_write ops))
  | BIUS_DISCARD => bool_decide (is_Some (op_discard ops))
  | BIUS_FLUSH => bool_decide (is_Some (op_flush ops))
  | BIUS_ZONE_OPEN => bool_decide (is_Some (op_open_zone ops))
  | BIUS_ZONE_CLOSE => bool_decide (is_Some (op_close_zone ops))
  | BIUS_ZONE_FINISH => bool_decide (is_Some (op_finish_zone ops))
  | BIUS_ZONE_APPEND => bool_decide (is_Some (op_append_zone ops))
  | BIUS_ZONE_RESET => bool_decide (is_Some (op_reset_zone ops))
  | BIUS_ZONE_RESET_ALL => bool_decide (is_Some (op_reset_all_zone ops))
  | _ => false
  end.

(** An operation the driver does not have, and a request type the library
    does not know, are answered with BLK_STS_NOTSUPP; nothing is called. *)
Theorem missing_operation_not_supported k2u ops user_data s :
  k2u_data_map_type k2u <> data_map_type_value BIUS_DATAMAP_LIST -> provides ops (k2u_opcode k2u) = false ->
  exists user_data', handle_blk_command k2u ops user_data s = Ret ((BLK_STS_NOTSUPP, user_data'), s).
Proof.
  intros Hmt Hop. unfold handle_blk_command. rewrite (proj2 (Z.eqb_neq _ _) Hmt).
  destruct (k2u_opcode k2u); cbn [provides] in Hop; try (by eexists);
    apply bool_decide_eq_false in Hop; apply eq_None_not_Some in Hop; rewrite Hop; by eexists.
Qed.

Lemma read_command_whole fd header bs s s' :
  sys_read fd sizeof_k2u s = Ret ((sizeof_k2u, bs), s') ->
  read_command fd header s = Ret ((sizeof_k2u, k2u_of_bytes bs), s').
Proof. intros Hr. unfold read_command, mbind, ST_bind. by rewrite Hr. Qed.
Lemma write_command_whole fd header s s' :
  sys_write fd (u2k_bytes header) s = Ret (sizeof_u2k, s') -> write_command fd header s = Ret (sizeof_u2k, s').
Proof. intros Hw. unfold write_command, mbind, ST_bind. by rewrite Hw. Qed.

(** One round, once the command is read and its payload copied in. *)
Lemma handle_request_run fd ops buffer room l s header s1 k2u s2 u2k zone_info s3 s4 :
  read_command fd (l_k2u l) s = Ret ((sizeof_k2u, header), s1) ->
  handle_copy_in fd header buffer room s1 = Ret (Go k2u, s2) ->
  prepare_reply ops k2u (l_u2k l) s2 = Ret ((u2k, zone_info), s3) ->
  sys_write fd (u2k_bytes u2k) s3 = Ret (sizeof_u2k, s4) -> zone_info = 0 ->
  handle_request fd ops buffer room l s = Ret (Go (Locals k2u u2k), s4).
Proof.
  intros Hr Hc Hp Hw ->. unfold handle_request. rewrite (pbind_lift _ _ _ _ _ Hr). cbn [Datatypes.fst Datatypes.snd].
  change (sizeof_k2u <? 0) with false. cbv iota. rewrite (pbind_go _ _ _ _ _ Hc).
  rewrite (pbind_lift _ _ _ _ _ Hp). rewrite (pbind_lift _ _ _ _ _ (write_command_whole _ _ _ _ Hw)).
  change (sizeof_u2k <? 0) with false. cbv iota. done.
Qed.

(** The end of a round, where [free] does nothing that matters. *)
Lemma finish_round fd h zones k2u s (Q : exec locals -> W -> Prop) :
  (forall a s', free a s' = Ret (tt, s')) ->
  wp (sys_write fd (u2k_bytes h)) (fun res s' => res = sizeof_u2k /\ Q (Go (Locals k2u h)) s') s ->
  wp (pbind (lift (write_command fd h)) (fun result =>
    if result <? 0 then exit 1
    else pbind (if negb (zones =? 0) then lift (free zones) else pret tt) (fun _ => pret (Locals k2u h)))) Q s.
Proof.
  intros Hfree Hw. apply wp_pbind_lift. destruct (wp_inv _ _ _ Hw) as (res & s' & Hrun & -> & HQ).
  eapply wp_intro; [by apply write_command_whole|]. change (sizeof_u2k <? 0) with false. cbv iota.
  destruct (zones =? 0); cbn [negb]; [done|]. apply wp_pbind_lift. by eapply wp_intro.
Qed.

(** A zone report the driver has no operation for is answered with whatever
    the previous reply was: only its id is set. *)
Theorem report_zones_missing_stale fd ops buffer room l h p1 p2 s s1 s2 :
  length p1 = 4%nat -> length p2 = 4%nat -> k2u_wf h -> k2u_opcode h = BIUS_REPORT_ZONES ->
  op_report_zones ops = None ->
  sys_read fd sizeof_k2u s = Ret ((sizeof_k2u, k2u_bytes p1 p2 h), s1) ->
  sys_write fd (u2k_bytes (U2K (k2u_id h) (u2k_cell (l_u2k l)) (u2k_user_data (l_u2k l)))) s1
    = Ret (sizeof_u2k, s2) ->
  exists l', handle_request fd ops buffer room l s = Ret (Go l', s2) /\
    u2k_id (l_u2k l') = k2u_id h /\ u2k_reply (l_u2k l') = u2k_reply (l_u2k l).
Proof.
  intros Hp1 Hp2 Hwf Hop Hnone Hr Hw. eexists. split.
  - eapply handle_request_run; [by apply read_command_whole| | |exact Hw|done].
    + unfold handle_copy_in. rewrite k2u_of_bytes_bytes by done. by rewrite Hop.
    + unfold prepare_reply. rewrite Hop. change (is_blk_request BIUS_REPORT_ZONES) with false. cbv iota.
      by rewrite Hnone.
  - done.
Qed.

(** A read that returns 0 is taken for a command: the request handled before
    is handled again.  Here a write, whose data is still in the buffer. *)
Theorem eof_replays_write fd ops buffer room l f r s s1 s2 s3 :
  k2u_opcode (l_k2u l) = BIUS_WRITE ->
  k2u_data_map_type (l_k2u l) = data_map_type_value BIUS_DATAMAP_SIMPLE ->
  op_write ops = Some f -> sys_read fd sizeof_k2u s = Ret ((0, []), s1) ->
  f (u64 (k2u_data_address (l_k2u l) + k2u_mapping_data (l_k2u l))) (s64 (k2u_offset (l_k2u l)))
    (k2u_length (l_k2u l)) s1 = Ret (r, s2) ->
  sys_write fd (u2k_bytes (u2k_with_reply (k2u_id (l_k2u l)) (u32 r) 0)) s2 = Ret (sizeof_u2k, s3) ->
  exists l', handle_request fd ops buffer room l s = Ret (Go l', s3) /\ l_k2u l' = l_k2u l.
Proof.
  intros Hop Hmt Hf Hr Hcall Hw. exists (Locals (l_k2u l) (u2k_with_reply (k2u_id (l_k2u l)) (u32 r) 0)). split; [|done].
  unfold handle_request. erewrite pbind_lift; cycle 1.
  { unfold read_command, mbind, ST_bind. rewrite Hr. cbn [Datatypes.fst Datatypes.snd]. reflexivity. }
  change ((s32 0, l_k2u l).1 <? 0) with false. cbv iota. erewrite pbind_go; cycle 1.
  { cbn [Datatypes.snd]. unfold handle_copy_in. rewrite Hop, Hmt. reflexivity. }
  erewrite pbind_lift; cycle 1.
  { unfold prepare_reply. rewrite Hop. change (is_blk_request BIUS_WRITE) with true. cbv iota.
    unfold handle_blk_command. rewrite Hmt, Hop, Hf. change (data_map_type_value _ =? _) with false. cbv iota.
    unfold call, mbind, ST_bind. cbn [fmap option_fmap option_map]. rewrite Hcall. reflexivity. }
  erewrite pbind_lift by (by apply write_command_whole). reflexivity.
Qed.
End replies.

(** ** Starting and ending *)
Section main.
Context {W : Type} `{PS : Process W}.
Implicit Types s : W.

Lemma request_loop_goes_on fuel fd ops buffer room l s s' :
  request_loop fuel fd ops buffer room l s <> Ret (Go tt, s').
Proof.
  revert l s. induction fuel as [|fuel IH]; intros l s; [done|]. cbn [request_loop].
  intros (l' & s1 & _ & Hrun)%pbind_inv. by eapply IH.
Qed.
Lemma handle_requests_goes_on datamap fuel fd ops l s s' :
  handle_requests datamap fuel fd ops l s <> Ret (Go tt, s').
Proof.
  unfold handle_requests. intros (area & s0 & _ & Hrun)%pbind_inv. destruct (datamap && _); [done|].
  apply pbind_inv in Hrun as (b & s1 & _ & Hrun). destruct (b =? 0); [done|]. revert Hrun.
  by eapply request_loop_goes_on.
Qed.
Lemma create_threads_result n i last s r s' :
  0 <= last -> (forall i s r s', pthread_create i s = Ret (r, s') -> 0 <= r) ->
  create_threads n i last s = Ret (r, s') -> 0 <= r.
Proof.
  intros Hlast Hp. revert i last s Hlast. induction n as [|n IH]; intros i last s Hlast; cbn [create_threads].
  - by intros [= <- _].
  - unfold mbind, ST_bind. destruct (pthread_create i s) as [[r1 s1]| |] eqn:Hr; [|done|done].
    pose proof (Hp _ _ _ _ Hr). destruct (Z.ltb_spec r1 0); [lia|]. by apply IH.
Qed.

(** [bius_main] returns only with an error: -1, with a negative number in
    [errno].  As [pthread_create] reports errors as positive numbers, a thread
    that could not be created is never such an error. *)
Theorem bius_main_returns_errors datamap fuel ops options l s r e s' :
  bius_main datamap fuel ops options l s = Ret (Go (r, e), s') ->
  r = -1 /\ e < 0 /\
  ((forall i s r s', pthread_create i s = Ret (r, s') -> 0 <= r) -> e = - EINVAL \/ e = - ENOMEM).
Proof.
  intros (res & s1 & Hrun & Hret)%pbind_inv.
  assert (res < 0 /\ ((forall i s r s', pthread_create i s = Ret (r, s') -> 0 <= r) ->
    res = - EINVAL \/ res = - ENOMEM)) as [Hneg Hwhy].
  { clear Hret. unfold bius_main_real in Hrun. destruct ops as [ops|]; [|injection Hrun as <- _; split; [done|by left]].
    destruct (options =? 0); [injection Hrun as <- _; split; [done|by left]|].
    apply pbind_inv in Hrun as (m & s2 & _ & Hrun). apply pbind_inv in Hrun as (th & s3 & _ & Hrun).
    destruct (th =? 0); [injection Hrun as <- _; split; [done|by right]|].
    apply pbind_inv in Hrun as (fd & s4 & _ & Hrun). destruct (fd <? 0); [done|].
    apply pbind_inv in Hrun as (? & s5 & _ & Hrun). apply pbind_inv in Hrun as (n & s6 & Hth & Hrun).
    destruct (Z.ltb_spec n 0) as [Hn|Hn].
    - apply pbind_inv in Hrun as (? & s7 & _ & Hrun). injection Hrun as <- _. split; [done|].
      intros Hp. exfalso. unfold lift, mbind, ST_bind in Hth.
      destruct (create_threads _ _ _ s5) as [[n' s6']| |] eqn:Hct; [|done|done]. injection Hth as -> _.
      pose proof (create_threads_result _ _ 0 _ _ _ ltac:(lia) Hp Hct). lia.
    - apply pbind_inv in Hrun as ([] & s7 & Hloop & _). by destruct (handle_requests_goes_on _ _ _ _ _ _ _ Hloop). }
  destruct (Z.ltb_spec res 0); [|lia]. injection Hret as <- <- _. by split_and!.
Qed.
End main.

(** ** [strlen] finds the end of a name of the options *)
Lemma strlen_spec name fuel m a :
  mem_read m a (Z.of_nat (length name)) = name -> 0 ∈ name -> (length name <= fuel)%nat ->
  exists n, strlen fuel m a = Some (Z.of_nat n) /\ (n < length name)%nat /\ name !! n = Some 0 /\
    Forall (fun c => c <> 0) (take n name).
Proof.
  revert fuel a. induction name as [|c name IH]; intros [|fuel] a Hm Hin Hfuel; cbn [length] in *;
    try (by apply elem_of_nil in Hin); [lia|].
  replace (Z.of_nat (S (length name))) with (1 + Z.of_nat (length name)) in Hm by lia.
  rewrite mem_read_app in Hm by lia. apply (app_inj_1 _ [c] _ name) in Hm as [Hc Hm]; [|done].
  injection Hc as Hc. rewrite Z.add_0_r in Hc. cbn [strlen]. rewrite Hc.
  destruct (Z.eqb_spec c 0) as [->|Hne].
  { exists 0%nat. split_and!; [done|lia|done|constructor]. }
  destruct (IH fuel (a + 1) Hm) as (n & Hn & Hlt & Hz & Hnz); [by apply elem_of_cons in Hin as [<-|]|lia|].
  exists (S n). rewrite Hn. split_and!; [simpl; f_equal; lia|lia|done|by constructor].
Qed.

(** ** A concrete process

    Its file descriptors deliver [toy_in], at most two bytes (or one header) at
    a time, and collect what is written; [pthread_create] fails, the way POSIX
    says. *)
Record toy := Toy { toy_mem : memory; toy_in : list Z; toy_out : list Z; toy_disk : memory }.
Definition toy_read (n : Z) (s : toy) : outcome (Z * list Z * toy) :=
  let m := Z.to_nat (if n =? sizeof_k2u then n else Z.min n 2) in
  let bs := take m (toy_in s) in
  Ret ((Z.of_nat (length bs), bs), Toy (toy_mem s) (drop (length bs) (toy_in s)) (toy_out s) (toy_disk s)).
#[export] Instance toy_process : Process toy := {|
  proc_mem := toy_mem;
  set_proc_mem f s := Toy (f (toy_mem s)) (toy_in s) (toy_out s) (toy_disk s);
  sys_read _ := toy_read;
  sys_write _ bs s := Ret (Z.of_nat (length bs), Toy (toy_mem s) (toy_in s) (toy_out s ++ bs) (toy_disk s));
  sys_open := mret 3;
  mmap _ _ := mret MAP_FAILED;
  aligned_alloc _ _ := mret 0;
  malloc _ := mret 0;
  free _ := mret tt;
  pthread_create _ := mret 11;
  pthread_join _ := mret 0 |}.
#[export] Instance toy_laws : ProcessLaws toy.
Proof. by intros f s. Qed.
#[export] Instance toy_stream : Stream (W := toy) 3 (fun bs s => toy_in s = bs).
Proof.
  split; [|done]. intros bs n s <- Hne Hn. unfold wp, sys_read, toy_process, toy_read.
  set (m := Z.to_nat _). assert (0 < m)%nat by (unfold m, sizeof_k2u; destruct (Z.eqb_spec n 56); lia).
  assert (Z.of_nat m <= n) by (unfold m, sizeof_k2u; destruct (Z.eqb_spec n 56); lia).
  cbn [Datatypes.fst Datatypes.snd toy_in toy_mem proc_mem]. rewrite length_take.
  assert (length (toy_in s) <> 0)%nat by (by destruct (toy_in s)).
  split_and!; try lia; try done.
  - rewrite Nat2Z.id. destruct (decide (m <= length (toy_in s))%nat).
    + by rewrite Nat.min_l by lia.
    + rewrite Nat.min_r, !take_ge by lia. done.
  - by rewrite Nat2Z.id.
Defined.
Definition toy_driver : bius_operations toy :=
  Operations None (Some (fun data offset length s => Ret (BLK_STS_OK,
      Toy (toy_mem s) (toy_in s) (toy_out s) (mem_write (toy_disk s) offset (mem_read (toy_mem s) data length)))))
    None None None None None None None None None.
Definition toy_header (op : bius_req) (map_type : Z) : bius_k2u_header := K2U 5 op 40 3 1000 0 map_type.
Definition toy_pad : list Z := [0; 0; 0; 0].

Lemma copy_in_reads_payload_witness :
  wp (handle_copy_in 3 (toy_header BIUS_WRITE 0) 1000 16) (fun res s' =>
    mem_read (toy_mem s') 1000 3 = [7; 8; 9] /\ toy_in s' = []) (Toy ∅ [7; 8; 9] [] ∅).
Proof.
  eapply wp_mono; [by apply (copy_in_reads_payload 3 1000 16 (fun bs s => toy_in s = bs)
    (toy_header BIUS_WRITE 0) [7; 8; 9] (Toy ∅ [7; 8; 9] [] ∅))|].
  intros res s' (_ & Hin & Hread & _). by split.
Defined.

(** Two segments, at 100 and 200, listed at 8. *)
Definition toy_segments : list (Z * Z) := [(100, 2); (200, 3)].
Definition toy_list : toy :=
  Toy (mem_write (mem_write (mem_write ∅ 8 (segment_bytes toy_segments)) 100 [1; 2]) 200 [3; 4; 5]) [] [] ∅.
Definition toy_list_header : bius_k2u_header := K2U 5 BIUS_WRITE 40 5 0 8 (data_map_type_value BIUS_DATAMAP_LIST).
Lemma datamap_list_in_order_witness :
  exists s', handle_blk_command toy_list_header toy_driver 0 toy_list = Ret ((BLK_STS_OK, 0), s') /\
    mem_read (toy_disk s') 40 5 = [1; 2; 3; 4; 5].
Proof.
  eexists. split.
  - rewrite (datamap_list_in_order toy_list_header toy_driver toy_segments 0 toy_list); [| | | | |].
    + vm_compute. reflexivity.
    + done.
    + by repeat constructor.
    + apply Z.leb_le. by vm_compute.
    + intros sg offset first ud s1 res s2 _ Hm Hcall. cbn in Hcall. injection Hcall as _ <-. exact Hm.
    + by vm_compute.
  - by vm_compute.
Defined.

Lemma missing_operation_not_supported_witness :
  exists ud, handle_blk_command (toy_header BIUS_DISCARD 0) toy_driver 0 toy_list
    = Ret ((BLK_STS_NOTSUPP, ud), toy_list).
Proof. by apply (missing_operation_not_supported (toy_header BIUS_DISCARD 0) toy_driver 0 toy_list). Defined.

Lemma report_zones_missing_stale_witness :
  exists l' s', handle_request 3 toy_driver 1000 16 (Locals (toy_header BIUS_FLUSH 0) (u2k_with_reply 4 BLK_STS_IOERR 0))
    (Toy ∅ (k2u_bytes toy_pad toy_pad (toy_header BIUS_REPORT_ZONES 0)) [] ∅) = Ret (Go l', s') /\
    u2k_id (l_u2k l') = 5 /\ u2k_reply (l_u2k l') = BLK_STS_IOERR.
Proof.
  destruct (report_zones_missing_stale 3 toy_driver 1000 16
    (Locals (toy_header BIUS_FLUSH 0) (u2k_with_reply 4 BLK_STS_IOERR 0)) (toy_header BIUS_REPORT_ZONES 0)
    toy_pad toy_pad (Toy ∅ (k2u_bytes toy_pad toy_pad (toy_header BIUS_REPORT_ZONES 0)) [] ∅)
    (Toy ∅ [] [] ∅) (Toy ∅ [] (u2k_bytes (U2K 5 10 0)) ∅)) as (l' & Hrun & Hid & Hrep);
    [done|done|by split_and!; vm_compute|done|done|by vm_compute|by vm_compute|].
  exists l'. eexists. split_and!; [exact Hrun|exact Hid|by rewrite Hrep].
Defined.

Definition toy_replay : toy := Toy (mem_write ∅ 1000 [7; 8; 9]) [] [] ∅.
Lemma eof_replays_write_witness :
  exists l' s', handle_request 3 toy_driver 1000 16 (Locals (toy_header BIUS_WRITE 1) (u2k_with_reply 4 0 0)) toy_replay
    = Ret (Go l', s') /\ mem_read (toy_disk s') 40 3 = [7; 8; 9].
Proof.
  assert (exists s2 s3, sys_read 3 sizeof_k2u toy_replay = Ret ((0, []), toy_replay) /\
    (default (fun _ _ _ => mret 0) (op_write toy_driver)) 1000 40 3 toy_replay = Ret (BLK_STS_OK, s2) /\
    sys_write 3 (u2k_bytes (u2k_with_reply 5 (u32 BLK_STS_OK) 0)) s2 = Ret (sizeof_u2k, s3) /\
    mem_read (toy_disk s3) 40 3 = [7; 8; 9]) as (s2 & s3 & Hr & Hf & Hw & Hd).
  { do 2 eexists. split_and!; [done|reflexivity|reflexivity|by vm_compute]. }
  edestruct (eof_replays_write 3 toy_driver 1000 16 (Locals (toy_header BIUS_WRITE 1) (u2k_with_reply 4 0 0)))
    as (l' & Hrun & _); [done|done|done|exact Hr|exact Hf|exact Hw|]. by exists l', s3.
Defined.

Lemma bius_main_returns_errors_witness :
  (-1 : Z) = -1 /\ - ENOMEM < 0 /\ (- ENOMEM = - EINVAL \/ - ENOMEM = - ENOMEM).
Proof.
  destruct (bius_main_returns_errors false 4 (Some toy_driver) 8 (Locals (toy_header BIUS_READ 0) (u2k_with_reply 0 0 0))
    toy_list (-1) (- ENOMEM) toy_list) as (Hr & He & Hw); [by vm_compute|].
  split_and!; [exact Hr|exact He|]. apply Hw. by intros i s r s' [= <- _].
Defined.
