(* ===== verification/DataMapping.v ===== *)
(** * Mapping the data of a request into user space

    [data_mapping.c] and what [char_dev.c], [connection.h] and [command.h] add
    for it under [CONFIG_BIUS_DATAMAP], an option that is off in [config.h].
    Pages of the client's segments that the request covers whole appear in the
    user's area as they are.  A page it covers in part is replaced by a reserved
    page of the connection, with a copy of the request's bytes. *)
From S2P Require Import Prelude Protocol Linux Kernel Command BlockDev CharDev.

Definition EBUSY : Z := 16.
Definition VM_FAULT_SIGSEGV : Z := 64.
Definition BIUS_NUM_RESERVED_PAGES : Z := BIUS_MAX_SEGMENTS + 2.

(** ** The memory management of Linux

    [phys_pfn p] is the frame of the page at the kernel address [p]
    ([page_to_pfn], [PHYS_PFN(virt_to_phys(p))]), [pfn_address] the kernel
    address of a frame: kernel memory is mapped linearly.  The two errors say at
    which user addresses [partial_map_pfn] and [follow_pte] fail. *)
Class MmOps := {
  phys_pfn : Z -> Z;
  pfn_address : Z -> Z;
  partial_map_pfn_error : Z -> Z;
  follow_pte_error : Z -> Z }.
Class MmLaws `{MmOps} := {
  pfn_address_linear a k : a mod PAGE_SIZE = 0 -> 0 <= k ->
    pfn_address (phys_pfn a + k) = a + PAGE_SIZE * k }.

(** x86-64: the direct mapping starts at [0xffff888000000000]. *)
Definition PAGE_OFFSET : Z := 0xffff888000000000.
#[export] Instance direct_mapping : MmOps := {|
  phys_pfn a := (a - PAGE_OFFSET) / PAGE_SIZE;
  pfn_address p := PAGE_OFFSET + PAGE_SIZE * p;
  partial_map_pfn_error _ := 0;
  follow_pte_error _ := 0 |}.
#[export] Instance direct_mapping_laws : MmLaws.
Proof.
  split. intros a k Ha _. simpl. unfold PAGE_OFFSET, PAGE_SIZE in *.
  apply Z.mod_divide in Ha as [q ->]; [|lia].
  replace (q * 4096 - 0xffff888000000000) with ((q - 0xffff888000000) * 4096) by lia.
  rewrite Z.div_mul by lia. lia.
Qed.

(** ** The state *)

(** The protection of a page table entry: none of the data pages of a request
    is [PAGE_READONLY]. *)
Inductive pgprot := PAGE_READONLY | VM_PAGE_PROT.
Record pte := Pte { pte_pfn : Z; pte_prot : pgprot }.

(** What [CONFIG_BIUS_DATAMAP] adds to [struct bius_connection].  [mc_vma] is
    the start and the end of the area; [mc_ptes] the user address whose page
    table entry [ptes[i]] points to, [None] where nothing was stored. *)
Record map_conn := MapConn {
  mc_vma : option (Z * Z);
  mc_ptes : Z -> option Z;
  mc_reserved_pages : Z;
  mc_reserved_pages_pfn : Z }.
Definition mc_with_vma (mc : map_conn) (vma : option (Z * Z)) : map_conn :=
  MapConn vma (mc_ptes mc) (mc_reserved_pages mc) (mc_reserved_pages_pfn mc).
Definition mc_with_pte (mc : map_conn) (i addr : Z) : map_conn :=
  MapConn (mc_vma mc) (fun j => if j =? i then Some addr else mc_ptes mc j)
    (mc_reserved_pages mc) (mc_reserved_pages_pfn mc).

Section data_mapping.
Context `{BO : BioOps} `{IO : IovOps} `{LC : LinuxConst} `{MO : MmOps}.
Context (zero_page_pfn : Z).

(** The module's store, the page table of the user process by page address, and
    the connections' additions. *)
Record mstate := MState {
  mk : kstate;
  page_table : gmap Z pte;
  map_conns : gmap Z map_conn }.

Definition with_mk (s : mstate) (k : kstate) : mstate := MState k (page_table s) (map_conns s).
Definition set_mem (f : memory -> memory) (s : mstate) : mstate := with_mk s (set_kmem f (mk s)).
Definition set_table (f : gmap Z pte -> gmap Z pte) (s : mstate) : mstate :=
  MState (mk s) (f (page_table s)) (map_conns s).
Definition set_map_conns (f : gmap Z map_conn -> gmap Z map_conn) (s : mstate) : mstate :=
  MState (mk s) (page_table s) (f (map_conns s)).
Definition mem_of (s : mstate) : memory := kmem (mk s).

Abbreviation M := (ST mstate).

(** An operation of the module proper. *)
Definition in_kernel {A} (m : ST kstate A) : M A := fun s =>
  match m (mk s) with
  | Ret (a, k) => Ret (a, with_mk s k)
  | Fault e => Fault e
  | NoFuel => NoFuel
  end.
Definition get_mc (c : Z) : M map_conn := t ← gets map_conns; deref DanglingPtr (t !! c).
Definition put_mc (c : Z) (mc : map_conn) : M unit := modify (set_map_conns <[c := mc]>).

(** The [kmalloc]ed [reserved_pages]: an access outside of it faults. *)
Definition in_reserved (off len : Z) : bool :=
  (0 <=? off) && (off + len <=? PAGE_SIZE * BIUS_NUM_RESERVED_PAGES).
Definition reserved_write (mc : map_conn) (off : Z) (bs : list Z) : M unit :=
  if in_reserved off (Z.of_nat (length bs))
  then modify (set_mem (fun m => mem_write m (mc_reserved_pages mc + off) bs)) else fail OutOfBounds.
Definition reserved_read (mc : map_conn) (off len : Z) : M (list Z) :=
  if in_reserved off len
  then m ← gets mem_of; mret (mem_read m (mc_reserved_pages mc + off) len) else fail OutOfBounds.

(** [mapping_list[i]] and [reserve_mapping_list[i]] are unsigned longs in the
    first and from the second of the reserved pages on. *)
Definition load_entry (mc : map_conn) (i : Z) : M Z := bs ← reserved_read mc (8 * i) 8; mret (le_value bs).
Definition store_entry (mc : map_conn) (i v : Z) : M unit := reserved_write mc (8 * i) (le_bytes 8 v).
Definition load_reserve (mc : map_conn) (i : Z) : M Z :=
  bs ← reserved_read mc (PAGE_SIZE + 8 * i) 8; mret (le_value bs).
Definition store_reserve (mc : map_conn) (i v : Z) : M unit :=
  reserved_write mc (PAGE_SIZE + 8 * i) (le_bytes 8 v).

(** [set_pte_at] through [connection->ptes[i]]. *)
Definition set_pte_at (mc : map_conn) (i : Z) (p : pte) : M unit :=
  if (0 <=? i) && (i <? BIUS_PTES_PER_COMMAND) then
    addr ← deref UninitRead (mc_ptes mc i);
    modify (set_table <[addr := p]>)
  else fail OutOfBounds.

(** ** [bius_map_data]

    The locals that change from segment to segment. *)
Record cursor := Cursor {
  list_entry_index : Z;
  next_reserved_page_num : Z;
  user_addr : Z;
  user_page_num : Z;
  segment_end_aligned : bool }.
Definition next_page (u : cursor) (reserved : Z) : cursor :=
  Cursor (list_entry_index u) (next_reserved_page_num u + reserved)
    (u64 (user_addr u + PAGE_SIZE)) (user_page_num u + 1) (segment_end_aligned u).
Definition end_aligned (u : cursor) (a : bool) : cursor :=
  Cursor (list_entry_index u) (next_reserved_page_num u) (user_addr u) (user_page_num u) a.

(** The list entry of a segment: a new one, or the last one grows. *)
Definition map_entry (mc : map_conn) (v : bio_vec) (u : cursor) : M cursor :=
  let fresh := negb (segment_end_aligned u) || negb (bv_offset v =? 0) in
  u ← (if fresh then
         _ ← store_entry mc (list_entry_index u * 2) (u64 (user_addr u + bv_offset v));
         _ ← store_entry mc (list_entry_index u * 2 + 1) 0;
         mret (Cursor (list_entry_index u + 1) (next_reserved_page_num u) (user_addr u)
                 (user_page_num u) (segment_end_aligned u))
       else mret u);
  size ← load_entry mc (list_entry_index u * 2 - 1);
  _ ← store_entry mc (list_entry_index u * 2 - 1) (u64 (size + bv_len v));
  mret u.

(** Reserved page [n] is cleared; a write's bytes, [size] from [off] of the page
    at [data], are copied there. *)
Definition fill_reserved_page (mc : map_conn) (is_write : bool) (data off size n : Z) : M unit :=
  _ ← reserved_write mc (PAGE_SIZE * n) (replicate (Z.to_nat PAGE_SIZE) 0);
  if is_write then
    m ← gets mem_of;
    reserved_write mc (PAGE_SIZE * n + off) (mem_read m (data + off) size)
  else mret tt.

(** A reserved page in place of the page at [data]: the blocks of the first and
    of the last page of a segment. *)
Definition map_reserved_page (mc : map_conn) (is_write : bool) (data off size : Z) (u : cursor)
    : M cursor :=
  let n := next_reserved_page_num u in
  _ ← fill_reserved_page mc is_write data off size n;
  _ ← set_pte_at mc (user_page_num u) (Pte (mc_reserved_pages_pfn mc + n) VM_PAGE_PROT);
  _ ← store_reserve mc n data;
  mret (next_page u 1).

(** [while (remain_size >= PAGE_SIZE)]: [k] pages are left. *)
Fixpoint map_full_pages (k : nat) (mc : map_conn) (data_pfn : Z) (u : cursor) : M cursor :=
  match k with
  | O => mret u
  | S k' =>
      _ ← set_pte_at mc (user_page_num u) (Pte data_pfn VM_PAGE_PROT);
      map_full_pages k' mc (data_pfn + 1) (next_page u 0)
  end.

(** The pages from a page boundary on, [remain] bytes. *)
Definition map_rest (mc : map_conn) (is_write : bool) (data data_pfn remain : Z) (u : cursor)
    : M cursor :=
  let full := remain / PAGE_SIZE in
  u ← map_full_pages (Z.to_nat full) mc data_pfn u;
  if 0 <? remain - PAGE_SIZE * full then
    u ← map_reserved_page mc is_write (data + PAGE_SIZE * full) 0 (remain - PAGE_SIZE * full) u;
    mret (end_aligned u false)
  else mret (end_aligned u true).

(** One iteration of [rq_for_each_segment]. *)
Definition map_segment (mc : map_conn) (is_write : bool) (v : bio_vec) (u : cursor) : M cursor :=
  u ← map_entry mc v u;
  let data_pfn := phys_pfn (bv_page v) in
  if negb (bv_offset v =? 0) then
    let in_page := Z.min (PAGE_SIZE - bv_offset v) (bv_len v) in
    u ← map_reserved_page mc is_write (bv_page v) (bv_offset v) in_page u;
    if negb (in_page =? PAGE_SIZE - bv_offset v) then mret (end_aligned u false)
    else map_rest mc is_write (bv_page v + PAGE_SIZE) (data_pfn + 1) (bv_len v - in_page) u
  else map_rest mc is_write (bv_page v) data_pfn (bv_len v) u.

Fixpoint map_segments (mc : map_conn) (is_write : bool) (segs : list bio_vec) (u : cursor) : M cursor :=
  match segs with
  | [] => mret u
  | v :: segs' => u ← map_segment mc is_write v u; map_segments mc is_write segs' u
  end.

Definition with_mapping (b : blk_part) (type : data_map_type) (data size : Z) : blk_part :=
  BlkPart (b_bio b) data size type (b_blk_result b).

(** What [bius_map_data] stores in the request. *)
Definition finish_mapping (mc : map_conn) (start : Z) (b : blk_part) (u : cursor) : M blk_part :=
  let n := list_entry_index u in
  if 1 <? n then
    _ ← set_pte_at mc (user_page_num u) (Pte (mc_reserved_pages_pfn mc) VM_PAGE_PROT);
    _ ← store_entry mc (n * 2 + 1) 0;
    _ ← store_entry mc (n * 2) 0;
    mret (with_mapping b BIUS_DATAMAP_LIST (user_addr u) (u64 (user_addr u + PAGE_SIZE - start)))
  else if n =? 1 then
    first ← load_entry mc 0;
    mret (with_mapping b BIUS_DATAMAP_SIMPLE (first mod PAGE_SIZE) (u64 (user_addr u - start)))
  else mret (with_mapping b BIUS_DATAMAP_UNMAPPED (b_map_data b) (u64 (user_addr u - start))).

Definition bius_map_data (k c : Z) : M Z :=
  mc ← get_mc c;
  vma ← deref NullDeref (mc_vma mc);
  r ← in_kernel (get_pdu k);
  b ← in_kernel (blk_arm r);
  if negb (bool_decide (b_map_type b = BIUS_DATAMAP_UNMAPPED)) then mret 0
  else
    rq ← in_kernel (get_rq k);
    u ← map_segments mc (request_is_write (req_type r)) (rq_for_each_segment rq)
          (Cursor 0 2 vma.1 0 false);
    b ← finish_mapping mc vma.1 b u;
    _ ← in_kernel (put_pdu k (with_blk r b));
    mret 0.

(** ** [bius_copy_in_misaligned_pages]

    [entry] reads the list: the array on the stack or the reserved page.  The
    first entry of a pair is the address, the second the size; the offsets are
    computed from [mapping_list[i]]. *)
Definition stack_entry (l : list Z) (i : Z) : M Z :=
  if 0 <=? i then deref OutOfBounds (l !! Z.to_nat i) else fail OutOfBounds.

(** [memcpy(dest + off, src + off, len)] from reserved page [n] to the page it stands for. *)
Definition copy_reserved (mc : map_conn) (n off len : Z) : M unit :=
  dest ← load_reserve mc n;
  bs ← reserved_read mc (PAGE_SIZE * n + off) len;
  modify (set_mem (fun m => mem_write m (dest + off) bs)).

Fixpoint copy_in_entries (fuel : nat) (mc : map_conn) (entry : Z -> M Z) (i reserved_page_num : Z)
    : M unit :=
  match fuel with
  | O => exhausted
  | S fuel' =>
      addr ← entry (i * 2);
      if addr =? 0 then mret tt
      else
        size ← entry (i * 2 + 1);
        at_i ← entry i;
        let front_aligned := addr mod PAGE_SIZE =? 0 in
        let end_is_aligned := u64 (addr + size) mod PAGE_SIZE =? 0 in
        let offset := at_i mod PAGE_SIZE in
        let short := u64 (offset + size) <? PAGE_SIZE in
        _ ← (if front_aligned then mret tt
             else copy_reserved mc reserved_page_num offset (if short then size else PAGE_SIZE - offset));
        let n := if front_aligned then reserved_page_num else reserved_page_num + 1 in
        let end_is_aligned := if front_aligned then end_is_aligned else end_is_aligned || short in
        _ ← (if end_is_aligned then mret tt
             else copy_reserved mc n 0 (u64 (at_i + size) mod PAGE_SIZE));
        copy_in_entries fuel' mc entry (i + 1) (if end_is_aligned then n else n + 1)
  end.

(** Reading past the reserved pages ends the loop at the latest. *)
Definition copy_in_fuel : nat := S (Z.to_nat (PAGE_SIZE * BIUS_NUM_RESERVED_PAGES / 16)).

Definition bius_copy_in_misaligned_pages (k c : Z) : M unit :=
  mc ← get_mc c;
  r ← in_kernel (get_pdu k);
  b ← in_kernel (blk_arm r);
  match b_map_type b with
  | BIUS_DATAMAP_UNMAPPED => mret tt
  | BIUS_DATAMAP_SIMPLE =>
      vma ← deref NullDeref (mc_vma mc);
      copy_in_entries copy_in_fuel mc
        (stack_entry [u64 (vma.1 + b_map_data b); req_length r; 0; 0]) 0 2
  | BIUS_DATAMAP_LIST => copy_in_entries copy_in_fuel mc (load_entry mc) 0 2
  end.

(** ** [bius_unmap_data] *)
Fixpoint unmap_pages (n : nat) (mc : map_conn) (i : Z) : M unit :=
  match n with
  | O => mret tt
  | S n' => _ ← set_pte_at mc i (Pte zero_page_pfn PAGE_READONLY); unmap_pages n' mc (i + 1)
  end.

Definition bius_unmap_data (k c : Z) : M unit :=
  mc ← get_mc c;
  _ ← deref NullDeref (mc_vma mc);
  r ← in_kernel (get_pdu k);
  b ← in_kernel (blk_arm r);
  if bool_decide (b_map_type b = BIUS_DATAMAP_UNMAPPED) then mret tt
  else
    _ ← unmap_pages (Z.to_nat (s32 (b_mapped_size b / PAGE_SIZE))) mc 0;
    in_kernel (put_pdu k (with_blk r (with_mapping b BIUS_DATAMAP_UNMAPPED (b_map_data b)
                                        (b_mapped_size b)))).

(** ** The area: [bius_dev_mmap], [bius_vm_open], [bius_vm_close], [bius_vm_fault] *)

(** The first loop of [bius_vm_open], over [n] pages: false when a page could not be mapped. *)
Fixpoint vm_map_zero (n : nat) (addr : Z) : M bool :=
  match n with
  | O => mret true
  | S n' =>
      if negb (partial_map_pfn_error addr =? 0) then mret false
      else
        _ ← modify (set_table <[addr := Pte zero_page_pfn PAGE_READONLY]>);
        vm_map_zero n' (addr + PAGE_SIZE)
  end.
(** The second: the entries of the first [BIUS_PTES_PER_COMMAND] pages. *)
Fixpoint vm_follow_ptes (n : nat) (c i addr : Z) : M bool :=
  match n with
  | O => mret true
  | S n' =>
      if negb (follow_pte_error addr =? 0) then mret false
      else
        mc ← get_mc c;
        _ ← put_mc c (mc_with_pte mc i addr);
        vm_follow_ptes n' c (i + 1) (addr + PAGE_SIZE)
  end.
Definition zap_vma_ptes (start size : Z) : M unit :=
  modify (set_table (filter (fun '(a, _) => ~ (start <= a < start + size)))).

Definition bius_vm_open (c start vm_end : Z) : M unit :=
  mapped ← vm_map_zero (Z.to_nat ((vm_end - start + (PAGE_SIZE - 1)) / PAGE_SIZE)) start;
  if (mapped : bool) then
    followed ← vm_follow_ptes (Z.to_nat BIUS_PTES_PER_COMMAND) c 0 start;
    if (followed : bool) then mret tt else zap_vma_ptes start (vm_end - start)
  else zap_vma_ptes start (vm_end - start).

Definition bius_vm_close (c : Z) : M unit :=
  mc ← get_mc c; put_mc c (mc_with_vma mc None).

Definition bius_vm_fault : Z := VM_FAULT_SIGSEGV.

Definition bius_dev_mmap (c start vm_end : Z) : M Z :=
  mc ← get_mc c;
  if bool_decide (mc_vma mc <> None) then mret (- EBUSY)
  else if u64 (vm_end - start) <? BIUS_MAX_SIZE_PER_COMMAND then mret (- EINVAL)
  else
    _ ← put_mc c (mc_with_vma mc (Some (start, vm_end)));
    _ ← bius_vm_open c start vm_end;
    mret 0.

(** ** The character device with data mapping

    [char_dev.c] again: what differs from [CharDev.v] is that requests above
    [BIUS_MAP_DATA_THRESHOLD] are mapped. *)
Definition bius_dev_open_mapped (kmalloc reserved : option Z) : M Z :=
  match kmalloc with
  | None => mret (- ENOMEM)
  | Some c =>
      match reserved with
      | None => mret (- ENOMEM)
      | Some pages =>
          _ ← in_kernel (put_conn c init_bius_connection);
          _ ← put_mc c (MapConn None (fun _ => None) pages (phys_pfn pages));
          mret 0
      end
  end.

Definition map_header (start : Z) (r : bius_request) (b : blk_part) : bius_k2u_header :=
  K2U (req_id r) (req_type r) (u64 (req_pos r)) (u64 (req_length r)) start (b_map_data b)
    (data_map_type_value (b_map_type b)).

Definition bius_send_command_mapped (c : Z) (pad1 pad2 : list Z) (k : Z) (to : iov_iter)
    : M (Z * iov_iter) :=
  r ← in_kernel (get_pdu k);
  if is_blk_request (req_type r) then
    b ← in_kernel (blk_arm r);
    if bool_decide (b_map_type b = BIUS_DATAMAP_UNMAPPED) then
      mret (copy_to_iter (k2u_bytes pad1 pad2 (command_header r)) to)
    else
      mc ← get_mc c;
      vma ← deref NullDeref (mc_vma mc);
      mret (copy_to_iter (k2u_bytes pad1 pad2 (map_header vma.1 r b)) to)
  else mret (copy_to_iter (k2u_bytes pad1 pad2 (command_header r)) to).

(** The data of a request that is sent: mapped, or copied in later reads. *)
Definition prepare_data (c k : Z) : M Z :=
  r ← in_kernel (get_pdu k);
  if request_may_have_data (req_type r) && (0 <? req_length r) then
    if BIUS_MAP_DATA_THRESHOLD <? req_length r then bius_map_data k c
    else if request_is_write (req_type r) then
      b ← in_kernel (blk_arm r);
      _ ← in_kernel (put_pdu k (with_blk r (with_map_data b (req_length r))));
      conn ← in_kernel (get_conn c);
      _ ← in_kernel (put_conn c (conn_with_sending conn (Some k)));
      mret 0
    else mret 0
  else mret 0.

Definition read_dispatch_mapped (c : Z) (pad1 pad2 : list Z) (k : Z) (to : iov_iter)
    : M (Z * iov_iter) :=
  ret ← prepare_data c k;
  if ret <? 0 then _ ← in_kernel (end_blk_request k BLK_STS_IOERR); mret (ret, to)
  else
    res ← bius_send_command_mapped c pad1 pad2 k to;
    conn ← in_kernel (get_conn c);
    if res.1 <=? 0 then
      _ ← in_kernel (end_blk_request k BLK_STS_IOERR);
      _ ← in_kernel (put_conn c (conn_with_sending conn None));
      mret res
    else
      _ ← in_kernel (put_conn c (conn_with_waiting conn (conn_waiting conn ++ [k])));
      mret res.

Definition bius_dev_read_mapped (c : Z) (pad1 pad2 : list Z) (waits : list (Z * kstate))
    (to : iov_iter) : M (Z * iov_iter) :=
  conn ← in_kernel (get_conn c);
  match conn_block_dev conn, conn_sending conn with
  | Some device, None =>
      if iov_iter_count to <? sizeof_k2u then mret (- EINVAL, to)
      else
        w ← in_kernel (wait_pending waits device);
        match w with
        | Some ret => mret (ret, to)
        | None =>
            d ← in_kernel (get_dev device);
            match dev_pending d with
            | [] => exhausted
            | k :: rest =>
                _ ← in_kernel (put_dev device (dev_with_pending d rest));
                read_dispatch_mapped c pad1 pad2 k to
            end
        end
  | _, _ => in_kernel (bius_dev_read c pad1 pad2 waits to)
  end.

(** The reply to a block request.  A read above the threshold finds its data in
    the area. *)
Definition reply_blk_mapped (um : user_mem) (c k : Z) (header : bius_u2k_header) (written : Z) : M Z :=
  r ← in_kernel (get_pdu k);
  ret ← (if (u2k_reply header =? BLK_STS_OK) && bool_decide (req_type r = BIUS_READ) then
           if req_length r <=? BIUS_MAP_DATA_THRESHOLD
           then in_kernel (bius_receive_data um k (u2k_user_data header))
           else _ ← bius_copy_in_misaligned_pages k c; mret 0
         else mret 0);
  if ret <? 0 then _ ← in_kernel (end_blk_request k BLK_STS_IOERR); mret ret
  else
    _ ← bius_unmap_data k c;
    r ← in_kernel (get_pdu k);
    _ ← (if bool_decide (req_type r = BIUS_ZONE_APPEND) then
           in_kernel (put_pdu k (with_pos r (s64 (u2k_user_data header))))
         else mret tt);
    _ ← in_kernel (end_blk_request k (u2k_reply header));
    mret written.

Definition bius_dev_write_mapped (um : user_mem) (e : create_env) (c : Z) (stack : list Z)
    (from : iov_iter) : M Z :=
  conn ← in_kernel (get_conn c);
  if iov_iter_count from <? sizeof_u2k then mret (- EINVAL)
  else
    let bs := (copy_from_iter sizeof_u2k from).1 in
    let ret := Z.of_nat (length bs) in
    if ret <=? 0 then mret ret
    else
      let header := u2k_of_bytes (bs ++ drop (length bs) stack) in
      match conn_block_dev conn with
      | None => in_kernel (handle_initialization um e c header)
      | Some _ =>
          o ← in_kernel (get_request_by_id (conn_waiting conn) (u2k_id header));
          match o with
          | None => mret (- EINVAL)
          | Some k =>
              _ ← in_kernel (put_conn c (Connection (conn_block_dev conn)
                     (list_del k (conn_waiting conn))
                     (if bool_decide (conn_sending conn = Some k) then None
                      else conn_sending conn)));
              r ← in_kernel (get_pdu k);
              if is_blk_request (req_type r) then reply_blk_mapped um c k header ret
              else in_kernel (reply_int um k header ret)
          end
      end.

Definition bius_dev_release_mapped (c : Z) : M Z :=
  ret ← in_kernel (bius_dev_release c);
  _ ← modify (set_map_conns (delete c));
  mret ret.
End data_mapping.
