(* ===== verification/PageLayout.v ===== *)
(** * The layout of a mapped request

    Which pages of the user's area show which bytes of a request, and the list
    of entries that describes them: what [bius_map_data] computes, without the
    memory it stores it in.  [MappingProps.v] proves that it does. *)
From S2P Require Import Prelude Protocol Linux Command DataMapping.

(** A page of the area: a page [a] of the client, or reserved page [r] that
    stands for the bytes from [lo] to [hi] of the client's page [a]. *)
Inductive page_use := Direct (a : Z) | Reserved (r a lo hi : Z).

Definition page_lo (p : page_use) : Z := match p with Direct _ => 0 | Reserved _ _ lo _ => lo end.
Definition page_hi (p : page_use) : Z := match p with Direct _ => PAGE_SIZE | Reserved _ _ _ hi => hi end.
Definition page_data (p : page_use) : Z := match p with Direct a => a | Reserved _ a _ _ => a end.
(** The bytes of the request a page shows. *)
Definition page_addrs (p : page_use) : list Z := seqZ (page_data p + page_lo p) (page_hi p - page_lo p).

(** Where the user finds them, when the pages start at [base]. *)
Fixpoint user_ranges (base : Z) (ps : list page_use) : list Z :=
  match ps with
  | [] => []
  | p :: ps' => seqZ (base + page_lo p) (page_hi p - page_lo p) ++ user_ranges (base + PAGE_SIZE) ps'
  end.

Definition reserved_no (p : page_use) : option Z :=
  match p with Direct _ => None | Reserved r _ _ _ => Some r end.
Definition reserved_nos (ps : list page_use) : list Z := omap reserved_no ps.
Abbreviation reserved_count ps := (Z.of_nat (length (reserved_nos ps))).

(** The pages of a segment, with reserved pages from [r] on. *)
Fixpoint full_pages (k : nat) (a : Z) : list page_use :=
  match k with O => [] | S k' => Direct a :: full_pages k' (a + PAGE_SIZE) end.
Definition rest_pages (a n r : Z) : list page_use :=
  full_pages (Z.to_nat (n / PAGE_SIZE)) a ++
  (if 0 <? n mod PAGE_SIZE
   then [Reserved r (a + PAGE_SIZE * (n / PAGE_SIZE)) 0 (n mod PAGE_SIZE)] else []).
Definition seg_pages (v : bio_vec) (r : Z) : list page_use :=
  if bv_offset v =? 0 then rest_pages (bv_page v) (bv_len v) r
  else
    let in_page := Z.min (PAGE_SIZE - bv_offset v) (bv_len v) in
    Reserved r (bv_page v) (bv_offset v) (bv_offset v + in_page)
      :: (if bv_len v <? PAGE_SIZE - bv_offset v then []
          else rest_pages (bv_page v + PAGE_SIZE) (bv_len v - in_page) (r + 1)).

(** The layout so far: pages, entries, and whether the last segment ended at
    the end of a page. *)
Record layout := Layout {
  l_pages : list page_use;
  l_entries : list (Z * Z);
  l_aligned : bool }.
Definition l_empty : layout := Layout [] [] false.

Definition grow_last (es : list (Z * Z)) (n : Z) : list (Z * Z) :=
  match last es with Some e => removelast es ++ [(e.1, e.2 + n)] | None => [] end.
Definition seg_fresh (l : layout) (v : bio_vec) : bool :=
  negb (l_aligned l) || negb (bv_offset v =? 0).
Definition area_end (start : Z) (ps : list page_use) : Z := start + PAGE_SIZE * Z.of_nat (length ps).
Definition lay_entry (start : Z) (v : bio_vec) (l : layout) : list (Z * Z) :=
  if seg_fresh l v then l_entries l ++ [(area_end start (l_pages l) + bv_offset v, bv_len v)]
  else grow_last (l_entries l) (bv_len v).
Definition seg_ends_aligned (v : bio_vec) : bool := (bv_offset v + bv_len v) mod PAGE_SIZE =? 0.
Definition lay (start : Z) (l : layout) (v : bio_vec) : layout :=
  Layout (l_pages l ++ seg_pages v (2 + reserved_count (l_pages l))) (lay_entry start v l)
    (seg_ends_aligned v).
Definition lay_all (start : Z) (segs : list bio_vec) : layout := foldl (lay start) l_empty segs.

(** Segments as the block layer builds them. *)
Record seg_ok (v : bio_vec) : Prop := {
  so_page : bv_page v mod PAGE_SIZE = 0;
  so_addr : 0 <= bv_page v /\ bv_start v + bv_len v <= 2 ^ 64;
  so_offset : 0 <= bv_offset v < PAGE_SIZE;
  so_len : 0 < bv_len v }.

(** ** The pages of a segment are its bytes *)

Lemma page_size_pos : 0 < PAGE_SIZE.
Proof. done. Qed.
Lemma page_split n : 0 <= n -> n = PAGE_SIZE * (n / PAGE_SIZE) + n mod PAGE_SIZE /\
  0 <= n mod PAGE_SIZE < PAGE_SIZE /\ 0 <= n / PAGE_SIZE.
Proof.
  intros. pose proof (Z.div_mod n PAGE_SIZE ltac:(done)).
  pose proof (Z.mod_pos_bound n PAGE_SIZE ltac:(done)).
  pose proof (Z.div_pos n PAGE_SIZE ltac:(done) ltac:(done)). lia.
Qed.
Lemma seqZ_glue a n b m : 0 <= n -> 0 <= m -> b = a + n -> seqZ a n ++ seqZ b m = seqZ a (n + m).
Proof. intros ?? ->. by rewrite seqZ_app. Qed.

Lemma length_full_pages k a : length (full_pages k a) = k.
Proof. revert a; induction k; simpl; auto. Qed.
Lemma reserved_full_pages k a : reserved_nos (full_pages k a) = [].
Proof. revert a; induction k; simpl; auto. Qed.
Lemma full_pages_addrs k a : concat (page_addrs <$> full_pages k a) = seqZ a (PAGE_SIZE * Z.of_nat k).
Proof.
  revert a; induction k as [|k IH]; intros a; [by rewrite Z.mul_0_r|].
  cbn [full_pages]. rewrite fmap_cons. cbn [concat]. rewrite IH.
  unfold page_addrs; cbn [page_data page_lo page_hi]. pose proof page_size_pos.
  rewrite seqZ_glue by lia. f_equal; lia.
Qed.
Lemma full_pages_ranges k a base : user_ranges base (full_pages k a) = seqZ base (PAGE_SIZE * Z.of_nat k).
Proof.
  revert a base; induction k as [|k IH]; intros a base; [by rewrite Z.mul_0_r|].
  cbn [full_pages user_ranges page_lo page_hi]. rewrite IH. pose proof page_size_pos.
  rewrite seqZ_glue by lia. f_equal; lia.
Qed.

Lemma user_ranges_app base ps1 ps2 :
  user_ranges base (ps1 ++ ps2) = user_ranges base ps1 ++ user_ranges (area_end base ps1) ps2.
Proof.
  revert base. induction ps1 as [|p ps1 IH]; intros base.
  - unfold area_end. simpl. f_equal; lia.
  - cbn [app user_ranges]. rewrite IH, app_assoc. do 2 f_equal. unfold area_end. cbn [length]. lia.
Qed.

Section rest.
Context (a n r : Z).
Hypothesis Hn : 0 <= n.
Let ps := rest_pages a n r.

Lemma rest_pages_addrs : concat (page_addrs <$> ps) = seqZ a n.
Proof.
  destruct (page_split n Hn) as (Hs & Hm & Hq). unfold ps, rest_pages.
  rewrite fmap_app, concat_app, full_pages_addrs, Z2Nat.id by lia. pose proof page_size_pos.
  destruct (Z.ltb_spec 0 (n mod PAGE_SIZE)); cbn [fmap list_fmap concat].
  - unfold page_addrs; cbn [page_data page_lo page_hi]. rewrite app_nil_r, seqZ_glue by lia.
    f_equal; lia.
  - rewrite app_nil_r. f_equal; lia.
Qed.
Lemma rest_pages_ranges base : user_ranges base ps = seqZ base n.
Proof.
  destruct (page_split n Hn) as (Hs & Hm & Hq). unfold ps, rest_pages. pose proof page_size_pos.
  rewrite user_ranges_app, full_pages_ranges. unfold area_end. rewrite length_full_pages, Z2Nat.id by lia.
  destruct (Z.ltb_spec 0 (n mod PAGE_SIZE)); cbn [user_ranges page_lo page_hi].
  - rewrite app_nil_r, seqZ_glue by lia. f_equal; lia.
  - rewrite app_nil_r. f_equal; lia.
Qed.
Lemma rest_pages_end base : n mod PAGE_SIZE = 0 -> area_end base ps = base + n.
Proof.
  destruct (page_split n Hn) as (Hs & Hm & Hq). intros Hz. unfold ps, rest_pages, area_end.
  rewrite Hz in *. rewrite length_app, length_full_pages. simpl length. lia.
Qed.
End rest.

Section segment.
Context (v : bio_vec) (r : Z).
Hypothesis Hv : seg_ok v.

Lemma seg_pages_addrs : concat (page_addrs <$> seg_pages v r) = bv_addrs v.
Proof.
  destruct Hv as [Hp _ Ho Hl]. unfold seg_pages, bv_addrs, bv_start.
  destruct (Z.eqb_spec (bv_offset v) 0) as [Hz|Hz].
  { rewrite rest_pages_addrs by lia. f_equal; lia. }
  rewrite fmap_cons. cbn [concat]. unfold page_addrs at 1; cbn [page_data page_lo page_hi].
  destruct (Z.ltb_spec (bv_len v) (PAGE_SIZE - bv_offset v)).
  - cbn [fmap list_fmap concat]. rewrite app_nil_r. f_equal; lia.
  - rewrite rest_pages_addrs by lia. rewrite seqZ_glue by lia. f_equal; lia.
Qed.
Lemma seg_pages_ranges base : user_ranges base (seg_pages v r) = seqZ (base + bv_offset v) (bv_len v).
Proof.
  destruct Hv as [Hp _ Ho Hl]. unfold seg_pages.
  destruct (Z.eqb_spec (bv_offset v) 0) as [Hz|Hz].
  { rewrite rest_pages_ranges by lia. f_equal; lia. }
  cbn [user_ranges page_lo page_hi].
  destruct (Z.ltb_spec (bv_len v) (PAGE_SIZE - bv_offset v)).
  - cbn [user_ranges]. rewrite app_nil_r. f_equal; lia.
  - rewrite rest_pages_ranges by lia. rewrite seqZ_glue by lia. f_equal; lia.
Qed.
Lemma seg_pages_end base :
  seg_ends_aligned v = true -> area_end base (seg_pages v r) = base + bv_offset v + bv_len v.
Proof.
  destruct Hv as [Hp _ Ho Hl]. unfold seg_ends_aligned, seg_pages. rewrite Z.eqb_eq. intros He.
  destruct (Z.eqb_spec (bv_offset v) 0) as [Hz|Hz].
  { rewrite rest_pages_end; [lia|lia|]. by rewrite Hz in He. }
  destruct (Z.ltb_spec (bv_len v) (PAGE_SIZE - bv_offset v)).
  { rewrite Z.mod_small in He by lia. lia. }
  rewrite Z.min_l by lia. set (n := bv_len v - _).
  assert (n mod PAGE_SIZE = 0) as Hm.
  { unfold n. replace (bv_len v - _) with (bv_offset v + bv_len v + (-1) * PAGE_SIZE) by lia.
    by rewrite Z.mod_add by done. }
  pose proof (rest_pages_end (bv_page v + PAGE_SIZE) n (r + 1) ltac:(lia) (base + PAGE_SIZE) Hm) as Hend.
  unfold area_end in *. cbn [length]. lia.
Qed.
End segment.

(** ** The layout of a request is its bytes *)

Abbreviation extents es := (concat ((fun e : Z * Z => seqZ e.1 e.2) <$> es)).

(** [es] are the addresses of the pages' ranges; while the last segment ends at
    a page boundary, the last entry ends where the area does. *)
Record layout_ok (start : Z) (segs : list bio_vec) (l : layout) : Prop := {
  lo_addrs : concat (page_addrs <$> l_pages l) = concat (bv_addrs <$> segs);
  lo_ranges : extents (l_entries l) = user_ranges start (l_pages l);
  lo_sizes : Forall (fun e => start <= e.1 /\ 0 < e.2) (l_entries l);
  lo_last : l_aligned l = true -> exists es a n,
    l_entries l = es ++ [(a, n)] /\ a + n = area_end start (l_pages l) }.

Lemma grow_last_app es a n m : grow_last (es ++ [(a, n)]) m = es ++ [(a, n + m)].
Proof. unfold grow_last. by rewrite last_snoc, removelast_last. Qed.

Lemma extents_app es1 es2 : extents (es1 ++ es2) = extents es1 ++ extents es2.
Proof. by rewrite fmap_app, concat_app. Qed.
Lemma extents_one a n : extents [(a, n)] = seqZ a n.
Proof. apply app_nil_r. Qed.

Lemma area_end_app start ps1 ps2 : area_end start (ps1 ++ ps2) = area_end (area_end start ps1) ps2.
Proof. unfold area_end. rewrite length_app. lia. Qed.
Lemma area_end_ge start ps : start <= area_end start ps.
Proof. unfold area_end. pose proof page_size_pos. lia. Qed.

Lemma lay_ok start segs l v :
  seg_ok v -> layout_ok start segs l -> layout_ok start (segs ++ [v]) (lay start l v).
Proof.
  intros Hv [Ha Hr Hs Hl]. pose proof Hv as [_ _ Ho Hlen].
  set (r := 2 + reserved_count (l_pages l)). pose proof (area_end_ge start (l_pages l)) as Hge.
  assert (exists es a n, lay_entry start v l = es ++ [(a, n)] /\
    extents (es ++ [(a, n)]) = extents (l_entries l) ++ seqZ (area_end start (l_pages l) + bv_offset v) (bv_len v) /\
    Forall (fun e => start <= e.1 /\ 0 < e.2) (es ++ [(a, n)]) /\
    a + n = area_end start (l_pages l) + bv_offset v + bv_len v) as (es & a & n & He & Hx & Hsz & Hend).
  { unfold lay_entry, seg_fresh. destruct (l_aligned l) eqn:Hal; simpl.
    - destruct (Hl eq_refl) as (es & a & n & Hes & Hend). rewrite Hes in *.
      apply Forall_app in Hs as [Hs [[? ?] _]%Forall_cons]. cbn [fst snd] in *.
      destruct (Z.eqb_spec (bv_offset v) 0) as [Hz|Hz]; simpl.
      + exists es, a, (n + bv_len v). split_and!.
        * by rewrite grow_last_app.
        * rewrite !extents_app, !extents_one, <- app_assoc. f_equal. rewrite seqZ_glue by lia. done.
        * apply Forall_app. split; [done|]. repeat constructor; simpl; lia.
        * lia.
      + eexists _, _, _. split; [reflexivity|]. rewrite extents_app, extents_one. split_and!; [done| |lia].
        repeat (apply Forall_app; split); [done| |]; repeat constructor; simpl; lia.
    - eexists _, _, _. split; [reflexivity|]. rewrite extents_app, extents_one. split_and!; [done| |lia].
      apply Forall_app; split; [done|]; repeat constructor; simpl; lia. }
  split; cbn [lay l_pages l_entries l_aligned]; fold r.
  - rewrite !fmap_app, !concat_app, Ha, seg_pages_addrs by done. simpl. by rewrite app_nil_r.
  - by rewrite He, Hx, Hr, user_ranges_app, seg_pages_ranges.
  - by rewrite He.
  - intros Hal. exists es, a, n. split; [done|]. rewrite area_end_app, seg_pages_end by done. lia.
Qed.

Lemma lay_all_ok_aux start done segs l :
  Forall seg_ok segs -> layout_ok start done l -> layout_ok start (done ++ segs) (foldl (lay start) l segs).
Proof.
  intros Hs. revert done l. induction Hs as [|v segs Hv _ IH]; intros done l Hl.
  - by rewrite app_nil_r.
  - simpl. rewrite cons_middle, app_assoc. apply IH. by apply lay_ok.
Qed.
(** The pages show the request's bytes in order, and the entries name them. *)
Lemma lay_all_ok start segs : Forall seg_ok segs -> layout_ok start segs (lay_all start segs).
Proof. intros Hs. apply (lay_all_ok_aux start [] segs l_empty Hs). by split. Qed.

(** ** The layout only grows *)
Lemma rest_pages_span a n r : 0 <= n -> n <= PAGE_SIZE * Z.of_nat (length (rest_pages a n r)).
Proof.
  intros Hn. destruct (page_split n Hn) as (Hs & Hm & Hq). unfold rest_pages.
  rewrite length_app, length_full_pages. destruct (Z.ltb_spec 0 (n mod PAGE_SIZE)); simpl length; unfold PAGE_SIZE in *; lia.
Qed.
Lemma seg_pages_span v r :
  seg_ok v -> bv_offset v + bv_len v <= PAGE_SIZE * Z.of_nat (length (seg_pages v r)).
Proof.
  intros [_ _ Ho Hl]. unfold seg_pages. destruct (Z.eqb_spec (bv_offset v) 0) as [Hz|Hz].
  { pose proof (rest_pages_span (bv_page v) (bv_len v) r). lia. }
  destruct (Z.ltb_spec (bv_len v) (PAGE_SIZE - bv_offset v)); cbn [length]; [lia|].
  rewrite Z.min_l by lia. set (n := bv_len v - _).
  pose proof (rest_pages_span (bv_page v + PAGE_SIZE) n (r + 1)). unfold PAGE_SIZE in *. lia.
Qed.
Lemma lay_pages_prefix start segs l : l_pages l `prefix_of` l_pages (foldl (lay start) l segs).
Proof.
  revert l. induction segs as [|v segs IH]; intros l; [done|]. simpl.
  etransitivity; [|apply IH]. by eexists.
Qed.
Lemma length_lay_entry start done l v :
  layout_ok start done l -> (length (l_entries l) <= length (lay_entry start v l))%nat.
Proof.
  intros [_ _ _ Hl]. unfold lay_entry, seg_fresh. destruct (l_aligned l); simpl; cycle 1.
  { rewrite length_app. lia. }
  destruct (Hl eq_refl) as (es & a & n & -> & _).
  destruct (negb _); [rewrite !length_app; lia|]. by rewrite grow_last_app, !length_app.
Qed.
Lemma length_lay_entries start pre segs l :
  Forall seg_ok segs -> layout_ok start pre l ->
  (length (l_entries l) <= length (l_entries (foldl (lay start) l segs)))%nat.
Proof.
  intros Hs. revert pre l. induction Hs as [|v segs Hv _ IH]; intros pre l Hl; [done|]. simpl.
  etransitivity; [by eapply (length_lay_entry start)|]. exact (IH _ _ (lay_ok _ _ _ _ Hv Hl)).
Qed.

(** ** The shape of the pages

    A reserved page shows a part of its page, not all of it. *)
Definition page_shape (p : page_use) : Prop :=
  match p with
  | Direct _ => True
  | Reserved _ _ lo hi => 0 <= lo < hi /\ hi <= PAGE_SIZE /\ (lo <> 0 \/ hi <> PAGE_SIZE)
  end.

Lemma full_pages_shape k a : Forall page_shape (full_pages k a).
Proof. revert a; induction k; simpl; intros; by constructor. Qed.
Lemma rest_pages_shape a n r : 0 <= n -> Forall page_shape (rest_pages a n r).
Proof.
  intros Hn. destruct (page_split n Hn) as (Hs & Hm & Hq). apply Forall_app. split; [apply full_pages_shape|].
  destruct (Z.ltb_spec 0 (n mod PAGE_SIZE)); [|done]. constructor; [simpl; lia|done].
Qed.
Lemma seg_pages_shape v r : seg_ok v -> Forall page_shape (seg_pages v r).
Proof.
  intros [_ _ Ho Hl]. unfold seg_pages. destruct (Z.eqb_spec (bv_offset v) 0).
  { apply rest_pages_shape. lia. }
  constructor; [simpl; lia|]. destruct (Z.ltb_spec (bv_len v) (PAGE_SIZE - bv_offset v)); [done|].
  apply rest_pages_shape. lia.
Qed.
Lemma lay_shape start segs l :
  Forall seg_ok segs -> Forall page_shape (l_pages l) -> Forall page_shape (l_pages (foldl (lay start) l segs)).
Proof.
  intros Hs. revert l. induction Hs as [|v segs Hv _ IH]; intros l Hl; [done|]. simpl. apply IH.
  apply Forall_app. split; [done|by apply seg_pages_shape].
Qed.
Lemma lay_all_shape start segs : Forall seg_ok segs -> Forall page_shape (l_pages (lay_all start segs)).
Proof. intros Hs. by apply lay_shape. Qed.

Lemma page_range p : page_shape p -> 0 <= page_lo p < page_hi p /\ page_hi p <= PAGE_SIZE.
Proof. destruct p; simpl; [done|]. lia. Qed.

Lemma seqZ_head a n b l : seqZ a n = b :: l -> a = b /\ 0 < n /\ seqZ (a + 1) (n - 1) = l.
Proof.
  intros H. destruct (decide (0 < n)); [|by rewrite seqZ_nil in H by lia].
  rewrite seqZ_cons in H by lia. injection H as -> Hl. rewrite <- Hl.
  split_and!; [done|done|]. f_equal; lia.
Qed.
(** Ranges that start with [seqZ b m] begin at [b] and go on after it. *)
Lemma seqZ_prefix a n b m l :
  0 < m -> seqZ a n = seqZ b m ++ l -> a = b /\ m <= n /\ l = seqZ (b + m) (n - m).
Proof.
  intros Hm H. assert (a = b) as ->.
  { rewrite (seqZ_cons b m) in H by lia. by apply seqZ_head in H as [-> _]. }
  pose proof (f_equal length H) as Hl. rewrite length_app, !length_seqZ in Hl.
  split_and!; [done|lia|]. replace n with (m + (n - m)) in H by lia. rewrite seqZ_app in H by lia.
  by apply app_inv_head in H.
Qed.

(** A stretch from a page boundary: whole pages, then a part of one. *)
Lemma aligned_stretch base ps n :
  Forall page_shape ps -> user_ranges base ps = seqZ base n -> 0 <= n ->
  exists fulls tail, ps = fulls ++ tail /\ reserved_nos fulls = [] /\
    ((n mod PAGE_SIZE = 0 /\ tail = []) \/
     (n mod PAGE_SIZE <> 0 /\ exists r d, tail = [Reserved r d 0 (n mod PAGE_SIZE)])).
Proof.
  intros Hsh. revert base n. induction Hsh as [|p ps Hp Hps IH]; intros base n Hr Hn.
  { exists [], []. split_and!; [done..|]. left. simpl in Hr.
    assert (n = 0) as ->; [|done]. apply (f_equal length) in Hr. rewrite length_seqZ in Hr. simpl in Hr. lia. }
  destruct (page_range p Hp) as [Hlo Hhi]. cbn [user_ranges] in Hr. symmetry in Hr.
  apply seqZ_prefix in Hr as (Hb & Hm & Hr); [|lia]. assert (page_lo p = 0) as Hz by lia. rewrite Hz in *.
  replace (base + 0 + (page_hi p - 0)) with (base + page_hi p) in Hr by lia.
  destruct (decide (page_hi p = PAGE_SIZE)) as [Hfull|Hpart].
  - rewrite Hfull in *. destruct (IH (base + PAGE_SIZE) (n - PAGE_SIZE)) as (fulls & tail & -> & Hno & Ht);
      [by rewrite Hr, Z.sub_0_r|lia|].
    assert ((n - PAGE_SIZE) mod PAGE_SIZE = n mod PAGE_SIZE) as Hmod.
    { replace (n - PAGE_SIZE) with (n + (-1) * PAGE_SIZE) by lia. by rewrite Z.mod_add by done. }
    rewrite Hmod in Ht. exists (p :: fulls), tail. split_and!; [done| |done].
    destruct p as [|r a lo hi]; [done|]. cbn [page_lo page_hi] in Hz, Hfull. simpl in Hp. lia.
  - assert (ps = [] /\ n = page_hi p) as [-> ->].
    { destruct ps as [|q ps]; simpl in Hr.
      - apply (f_equal length) in Hr. rewrite length_seqZ in Hr. simpl in Hr. split; [done|lia].
      - apply Forall_cons in Hps as [[Hql Hqh]%page_range _]. symmetry in Hr.
        apply seqZ_prefix in Hr as (Hq & _); lia. }
    rewrite Z.mod_small by lia. exists [], [p]. split_and!; [done..|]. right. split; [lia|].
    destruct p as [a|r a lo hi]; [done|]. cbn [page_lo page_hi] in *. subst lo. by eexists _, _.
Qed.

(** A stretch that starts inside its first page. *)
Lemma first_page a n start ps :
  Forall page_shape ps -> user_ranges start ps = seqZ a n -> 0 < n ->
  exists p rest, ps = p :: rest /\ a = start + page_lo p /\ 0 <= page_lo p < PAGE_SIZE /\
    ((page_hi p = page_lo p + n /\ rest = []) \/
     (page_hi p = PAGE_SIZE /\ PAGE_SIZE <= page_lo p + n /\
      user_ranges (start + PAGE_SIZE) rest = seqZ (start + PAGE_SIZE) (page_lo p + n - PAGE_SIZE))).
Proof.
  intros Hsh Hr Hn. destruct ps as [|p rest].
  { apply (f_equal length) in Hr. rewrite length_seqZ in Hr. simpl in Hr. lia. }
  apply Forall_cons in Hsh as [[Hlo Hhi]%page_range Hrest]. cbn [user_ranges] in Hr. symmetry in Hr.
  apply seqZ_prefix in Hr as (-> & Hm & Hr); [|lia]. exists p, rest. split_and!; [done|done|lia|lia|].
  destruct rest as [|q rest].
  - simpl in Hr. apply (f_equal length) in Hr. rewrite length_seqZ in Hr. simpl in Hr. left. split; [lia|done].
  - right. pose proof Hr as Hr'. apply Forall_cons in Hrest as [[Hql Hqh]%page_range _]. symmetry in Hr'.
    cbn [user_ranges] in Hr'. apply seqZ_prefix in Hr' as (Hq & _); [|lia]. split_and!; [lia|lia|].
    rewrite Hr. f_equal; lia.
Qed.
