(* ===== verification/MappingProps.v ===== *)
(** * The mapping of a request is its layout

    [bius_map_data] stores the layout of [PageLayout.v]: the user's page table,
    the reserved pages and the list in memory realise it.  Its only fault is that
    the reserved pages run out. *)
From S2P Require Import Prelude Protocol Linux Kernel Command DataMapping PageLayout.

(** [wpb m Q B s]: [m] returns with [Q], or accesses an array out of bounds, and
    then [B] holds. *)
Definition wpb {S A} (m : ST S A) (Q : A -> S -> Prop) (B : Prop) (s : S) : Prop :=
  match m s with Ret (a, s') => Q a s' | Fault OutOfBounds => B | _ => False end.

Section wpb_rules.
Context {S : Type}.
Implicit Types s : S.
Lemma wpb_ret {A} (a : A) (Q : A -> S -> Prop) B s : Q a s -> wpb (mret a) Q B s.
Proof. done. Qed.
Lemma wpb_bind {A C} (m : ST S A) (f : A -> ST S C) Q B s :
  wpb m (fun a s' => wpb (f a) Q B s') B s -> wpb (m ≫= f) Q B s.
Proof. unfold wpb, mbind, ST_bind. destruct (m s) as [[a s']|[]|]; done. Qed.
Lemma wpb_bind_inv {A C} (m : ST S A) (f : A -> ST S C) Q B s :
  wpb (m ≫= f) Q B s -> wpb m (fun a s' => wpb (f a) Q B s') B s.
Proof. unfold wpb, mbind, ST_bind. destruct (m s) as [[a s']|[]|]; done. Qed.
Lemma wpb_gets {A} (f : S -> A) (Q : A -> S -> Prop) B s : Q (f s) s -> wpb (gets f) Q B s.
Proof. done. Qed.
Lemma wpb_modify (f : S -> S) (Q : unit -> S -> Prop) B s : Q tt (f s) -> wpb (modify f) Q B s.
Proof. done. Qed.
Lemma wpb_deref {A} e (o : option A) a (Q : A -> S -> Prop) B s :
  o = Some a -> Q a s -> wpb (deref e o) Q B s.
Proof. by intros ->. Qed.
Lemma wpb_mono {A} (m : ST S A) (P Q : A -> S -> Prop) (B B' : Prop) s :
  wpb m P B s -> (forall a s', P a s' -> Q a s') -> (B -> B') -> wpb m Q B' s.
Proof. unfold wpb. destruct (m s) as [[a s']|[]|]; eauto. Qed.
Lemma wpb_wp {A} (m : ST S A) (Q : A -> S -> Prop) (B : Prop) s : wpb m Q B s -> ~ B -> wp m Q s.
Proof. unfold wpb, wp. by destruct (m s) as [[a s']|[]|]. Qed.
End wpb_rules.

Ltac wpb_step :=
  lazymatch goal with
  | |- wpb (mret _) _ _ _ => apply wpb_ret
  | |- wpb (_ ≫= _) _ _ _ => apply wpb_bind
  | |- wpb (gets _) _ _ _ => apply wpb_gets
  | |- wpb (modify _) _ _ _ => apply wpb_modify
  end; cbv beta.
Ltac wpb_steps := repeat wpb_step.

Definition reserved_size : Z := PAGE_SIZE * BIUS_NUM_RESERVED_PAGES.
Definition entries_bytes (es : list (Z * Z)) : list Z :=
  concat ((fun e : Z * Z => le_bytes 8 e.1 ++ le_bytes 8 e.2) <$> es).
Lemma entries_bytes_app es1 es2 : entries_bytes (es1 ++ es2) = entries_bytes es1 ++ entries_bytes es2.
Proof. unfold entries_bytes. by rewrite fmap_app, concat_app. Qed.
Lemma entries_bytes_one a n : entries_bytes [(a, n)] = le_bytes 8 a ++ le_bytes 8 n.
Proof. apply app_nil_r. Qed.
Lemma length_entries_bytes es : Z.of_nat (length (entries_bytes es)) = 16 * Z.of_nat (length es).
Proof.
  induction es as [|e es IH]; [done|]. change (e :: es) with ([e] ++ es).
  rewrite entries_bytes_app, length_app, Nat2Z.inj_add, IH. unfold entries_bytes. simpl. lia.
Qed.

Section realises.
Context `{BO : BioOps} `{ML : MmLaws}.
Context (mc : map_conn) (start : Z) (is_write : bool) (s0 : mstate).
Let R := mc_reserved_pages mc.

(** What [bius_dev_open] and [bius_dev_mmap] set up of a connection. *)
Record map_ready : Prop := {
  mr_start : 0 < start /\ start mod PAGE_SIZE = 0 /\
             start + PAGE_SIZE * (BIUS_PTES_PER_COMMAND + 1) <= 2 ^ 64;
  mr_ptes : forall i, 0 <= i < BIUS_PTES_PER_COMMAND -> mc_ptes mc i = Some (start + PAGE_SIZE * i);
  mr_reserved : R mod PAGE_SIZE = 0;
  mr_pfn : mc_reserved_pages_pfn mc = phys_pfn R }.

Definition reserved_content (m : memory) (a lo hi : Z) : list Z :=
  replicate (Z.to_nat lo) 0 ++
  (if is_write then mem_read m (a + lo) (hi - lo) else replicate (Z.to_nat (hi - lo)) 0) ++
  replicate (Z.to_nat (PAGE_SIZE - hi)) 0.

(** A reserved page knows the page it stands for, and holds its bytes of a write. *)
Definition page_ok (m : memory) (p : page_use) : Prop :=
  match p with
  | Direct _ => True
  | Reserved r a lo hi =>
      2 <= r < BIUS_NUM_RESERVED_PAGES /\ 0 <= lo /\ lo < hi <= PAGE_SIZE /\ 0 <= a < 2 ^ 64 /\
      le_value (mem_read m (R + (PAGE_SIZE + 8 * r)) 8) = a /\
      mem_read m (R + PAGE_SIZE * r) PAGE_SIZE = reserved_content (mem_of s0) a lo hi
  end.

(** The kernel address of the page the user sees. *)
Definition page_shown (p : page_use) : Z :=
  match p with Direct a => a | Reserved r _ _ _ => R + PAGE_SIZE * r end.

Definition in_reserved_pages (x : Z) : Prop := R <= x < R + reserved_size.

(** The locals of [bius_map_data] after a layout. *)
Definition cursor_of (l : layout) : cursor :=
  Cursor (Z.of_nat (length (l_entries l))) (2 + reserved_count (l_pages l))
    (area_end start (l_pages l)) (Z.of_nat (length (l_pages l))) (l_aligned l).

Record realises (l : layout) (s : mstate) : Prop := {
  re_nos : reserved_nos (l_pages l) = seqZ 2 (reserved_count (l_pages l));
  re_limit : reserved_count (l_pages l) <= BIUS_MAX_SEGMENTS;
  re_pages : forall (i : nat) p, l_pages l !! i = Some p -> exists pfn,
    page_table s !! (start + PAGE_SIZE * Z.of_nat i) = Some (Pte pfn VM_PAGE_PROT) /\
    pfn_address pfn = page_shown p;
  re_content : Forall (page_ok (mem_of s)) (l_pages l);
  re_entries : mem_read (mem_of s) R (16 * Z.of_nat (length (l_entries l))) = entries_bytes (l_entries l);
  re_mem : forall x, ~ in_reserved_pages x -> mem_of s !! x = mem_of s0 !! x;
  re_table : forall a, (forall i : nat, (i < length (l_pages l))%nat -> a <> start + PAGE_SIZE * Z.of_nat i) ->
    page_table s !! a = page_table s0 !! a;
  re_frame : s = MState (set_kmem (fun _ => mem_of s) (mk s0)) (page_table s) (map_conns s0) }.

Hypothesis Hready : map_ready.

(** *** The primitive accesses *)
Lemma wpb_reserved_write off bs (Q : unit -> mstate -> Prop) (B : Prop) s :
  (0 <= off /\ off + Z.of_nat (length bs) <= reserved_size ->
   Q tt (set_mem (fun m => mem_write m (R + off) bs) s)) ->
  (0 <= off -> reserved_size < off + Z.of_nat (length bs) -> B) -> 0 <= off ->
  wpb (reserved_write mc off bs) Q B s.
Proof.
  intros HQ HB Hoff. unfold reserved_write, in_reserved. fold reserved_size.
  destruct (Z.leb_spec 0 off); [|lia]. destruct (Z.leb_spec (off + Z.of_nat (length bs)) reserved_size); simpl.
  - apply wpb_modify, HQ. lia.
  - by apply HB.
Qed.
Lemma wpb_reserved_read off len (Q : list Z -> mstate -> Prop) B s :
  0 <= off -> off + len <= reserved_size -> Q (mem_read (mem_of s) (R + off) len) s ->
  wpb (reserved_read mc off len) Q B s.
Proof.
  intros. unfold reserved_read, in_reserved. fold reserved_size.
  destruct (Z.leb_spec 0 off); [|lia]. destruct (Z.leb_spec (off + len) reserved_size); [|lia].
  by wpb_steps.
Qed.
Lemma wpb_set_pte i p (Q : unit -> mstate -> Prop) B s :
  0 <= i < BIUS_PTES_PER_COMMAND -> Q tt (set_table <[start + PAGE_SIZE * i := p]> s) ->
  wpb (set_pte_at mc i p) Q B s.
Proof.
  intros Hi HQ. unfold set_pte_at. destruct (Z.leb_spec 0 i); [|lia].
  destruct (Z.ltb_spec i BIUS_PTES_PER_COMMAND); [|lia]. simpl. wpb_step.
  eapply wpb_deref; [by apply (mr_ptes Hready)|]. by wpb_steps.
Qed.

(** *** Reading what was written *)
Lemma read_over m a bs b len :
  b + len <= a \/ a + Z.of_nat (length bs) <= b -> mem_read (mem_write m a bs) b len = mem_read m b len.
Proof. apply mem_read_write_disjoint. Qed.

(** Writing in the lower pages, outside page and slot of [p]. *)
Lemma page_ok_write m off bs p :
  page_ok m p ->
  (forall r a lo hi, p = Reserved r a lo hi ->
    (off + Z.of_nat (length bs) <= PAGE_SIZE * r \/ PAGE_SIZE * r + PAGE_SIZE <= off) /\
    (off + Z.of_nat (length bs) <= PAGE_SIZE + 8 * r \/ PAGE_SIZE + 8 * r + 8 <= off)) ->
  page_ok (mem_write m (R + off) bs) p.
Proof.
  destruct p as [a|r a lo hi]; [done|]. intros (Hr & Hlo & Hhi & Ha & Hsl & Hc) Hapart.
  destruct (Hapart r a lo hi eq_refl). unfold page_ok. rewrite !read_over by lia. done.
Qed.

Lemma mem_of_set_mem f s : mem_of (set_mem f s) = f (mem_of s).
Proof. done. Qed.
Lemma frame_set_mem (f : memory -> memory) s :
  s = MState (set_kmem (fun _ => mem_of s) (mk s0)) (page_table s) (map_conns s0) ->
  set_mem f s = MState (set_kmem (fun _ => mem_of (set_mem f s)) (mk s0))
                  (page_table (set_mem f s)) (map_conns s0).
Proof. by intros ->. Qed.

(** A store in the reserved pages that hits nothing of the layout. *)
Lemma realises_write l s off bs :
  realises l s -> 16 * Z.of_nat (length (l_entries l)) <= off ->
  off + Z.of_nat (length bs) <= reserved_size ->
  (forall r a lo hi, Reserved r a lo hi ∈ l_pages l ->
    (off + Z.of_nat (length bs) <= PAGE_SIZE * r \/ PAGE_SIZE * r + PAGE_SIZE <= off) /\
    (off + Z.of_nat (length bs) <= PAGE_SIZE + 8 * r \/ PAGE_SIZE + 8 * r + 8 <= off)) ->
  realises l (set_mem (fun m => mem_write m (R + off) bs) s).
Proof.
  intros [Hnos Hlim Hpg Hc He Hm Ht Hf] Hoff Hend Hapart. split; try done.
  - apply Forall_forall. intros p Hp. apply page_ok_write; [by eapply Forall_forall in Hc|].
    intros r a lo hi ->. by eapply Hapart.
  - rewrite mem_of_set_mem; cbv beta. by rewrite read_over by lia.
  - intros x Hx. rewrite <- Hm by done. apply mem_write_outside. unfold in_reserved_pages in Hx. lia.
  - by apply frame_set_mem.
Qed.

(** The list does not reach the pages as long as it fits its page. *)
Lemma realises_write_list l s off bs :
  realises l s -> 16 * Z.of_nat (length (l_entries l)) <= off ->
  off + Z.of_nat (length bs) <= PAGE_SIZE ->
  realises l (set_mem (fun m => mem_write m (R + off) bs) s).
Proof.
  intros Hs Hoff Hend. apply realises_write; [done..| |].
  - unfold reserved_size, BIUS_NUM_RESERVED_PAGES, BIUS_MAX_SEGMENTS, PAGE_SIZE in *. lia.
  - intros r a lo hi Hin. pose proof (re_content _ _ Hs) as Hc.
    eapply Forall_forall in Hc; [|exact Hin]. destruct Hc as (Hr & _). unfold PAGE_SIZE in *. lia.
Qed.

(** A new entry whose bytes are in place. *)
Definition with_entries (l : layout) (es : list (Z * Z)) : layout := Layout (l_pages l) es (l_aligned l).

Lemma realises_new_entry l s a n :
  realises l s ->
  mem_read (mem_of s) (R + 16 * Z.of_nat (length (l_entries l))) 16 = le_bytes 8 a ++ le_bytes 8 n ->
  realises (with_entries l (l_entries l ++ [(a, n)])) s.
Proof.
  intros [Hnos Hlim Hpg Hc He Hm Ht Hf] Hn. split; try done; cbn [with_entries l_entries l_pages].
  rewrite length_app. cbn [length].
  replace (16 * _) with (16 * Z.of_nat (length (l_entries l)) + 16) by lia.
  rewrite mem_read_app by lia. rewrite He, Hn, entries_bytes_app. by rewrite entries_bytes_one.
Qed.

(** The bytes of the last entry, and those before it. *)
Lemma realises_last l s es a n :
  realises l s -> l_entries l = es ++ [(a, n)] ->
  realises (with_entries l es) s /\
  mem_read (mem_of s) (R + 16 * Z.of_nat (length es)) 8 = le_bytes 8 a /\
  mem_read (mem_of s) (R + 16 * Z.of_nat (length es) + 8) 8 = le_bytes 8 n.
Proof.
  intros [Hnos Hlim Hpg Hc He Hm Ht Hf] Hes. set (k := Z.of_nat (length es)).
  pose proof (length_entries_bytes es) as Hl. rewrite Hes, length_app, entries_bytes_app in He.
  replace (16 * _) with (16 * k + (8 + 8)) in He by (simpl length; lia).
  rewrite mem_read_app in He by lia. apply app_inj_1 in He as [He1 He]; [|rewrite length_mem_read; lia].
  rewrite mem_read_app, entries_bytes_one in He by lia. apply app_inj_1 in He as [He2 He3]; [|by rewrite length_mem_read].
  split; [by split|done].
Qed.

Lemma realises_grow l s es a n n' :
  realises l s -> l_entries l = es ++ [(a, n)] -> 16 * Z.of_nat (length (l_entries l)) <= PAGE_SIZE ->
  realises (with_entries l (es ++ [(a, n')]))
    (set_mem (fun m => mem_write m (R + 8 * (Z.of_nat (length (l_entries l)) * 2 - 1)) (le_bytes 8 n')) s).
Proof.
  intros Hs Hes Hfit. destruct (realises_last l s es a n Hs Hes) as (Hs' & Ha & Hn).
  rewrite Hes, length_app in *. cbn [length] in *. set (k := Z.of_nat (length es)) in *.
  replace (8 * _) with (16 * k + 8) by lia.
  apply (realises_new_entry (with_entries l es)).
  - apply realises_write_list; [done|..]; cbn [with_entries l_entries]; rewrite ?length_le_bytes; lia.
  - cbn [with_entries l_entries]. fold k. rewrite mem_of_set_mem, (mem_read_app _ _ 8 8) by lia.
    rewrite <- Z.add_assoc, mem_read_write_same by (by rewrite length_le_bytes).
    by rewrite read_over, Ha by lia.
Qed.

(** *** The steps of [map_segment] *)
Definition reaches (l : layout) (u : cursor) (s : mstate) : Prop := u = cursor_of l /\ realises l s.

(** The second half of [map_entry]: the last entry grows. *)
Lemma map_entry_grow l s es a n m nm (B : Prop) :
  realises l s -> l_entries l = es ++ [(a, n)] -> 16 * Z.of_nat (length (l_entries l)) <= PAGE_SIZE ->
  nm = n + m -> 0 <= n -> 0 <= m -> n + m < 2 ^ 64 ->
  wpb (size ← load_entry mc (list_entry_index (cursor_of l) * 2 - 1);
       _ ← store_entry mc (list_entry_index (cursor_of l) * 2 - 1) (u64 (size + m)); mret (cursor_of l))
    (reaches (with_entries l (es ++ [(a, nm)]))) B s.
Proof.
  intros Hs Hes Hfit -> Hn Hm Hlt. destruct (realises_last l s es a n Hs Hes) as (_ & _ & Hsz).
  cbn [cursor_of list_entry_index]. set (k := Z.of_nat (length (l_entries l))) in *.
  assert (k = Z.of_nat (length es) + 1) as Hk by (unfold k; rewrite Hes, length_app; simpl; lia).
  assert (PAGE_SIZE <= reserved_size) by done.
  unfold load_entry, store_entry. wpb_steps. apply wpb_reserved_read; [lia..|]. wpb_steps.
  replace (R + 8 * (k * 2 - 1)) with (R + 16 * Z.of_nat (length es) + 8) by lia.
  rewrite Hsz, le_value_bytes, Z.mod_small by (change (256 ^ _) with (2 ^ 64); lia). rewrite wrap_small by lia.
  apply wpb_reserved_write; rewrite ?length_le_bytes; [|lia|lia]. intros _. wpb_steps.
  split; [|by apply (realises_grow _ _ _ _ n)]. unfold cursor_of. cbn [with_entries l_entries l_pages l_aligned].
  f_equal. rewrite Hes, !length_app. done.
Qed.

(** The entry an address and a size are stored in. *)
Lemma store_new_entry l s a :
  realises l s -> 16 * (Z.of_nat (length (l_entries l)) + 1) <= PAGE_SIZE ->
  let n := Z.of_nat (length (l_entries l)) in
  realises (with_entries l (l_entries l ++ [(a, 0)]))
    (set_mem (fun m => mem_write m (R + 8 * (n * 2 + 1)) (le_bytes 8 0))
       (set_mem (fun m => mem_write m (R + 8 * (n * 2)) (le_bytes 8 a)) s)).
Proof.
  intros Hs Hfit n. apply realises_new_entry.
  - do 2 (apply realises_write_list; rewrite ?length_le_bytes; [|lia|lia]). done.
  - fold n. rewrite !mem_of_set_mem, (mem_read_app _ _ 8 8) by lia.
    rewrite read_over by (rewrite ?length_le_bytes; lia).
    replace (8 * (n * 2)) with (16 * n) by lia. replace (8 * (n * 2 + 1)) with (16 * n + 8) by lia.
    rewrite mem_read_write_same by (by rewrite length_le_bytes).
    by rewrite Z.add_assoc, mem_read_write_same by (by rewrite length_le_bytes).
Qed.

Lemma map_entry_spec v l s (B : Prop) :
  realises l s -> seg_ok v -> 16 * Z.of_nat (length (lay_entry start v l)) <= PAGE_SIZE ->
  area_end start (l_pages l) + PAGE_SIZE <= 2 ^ 64 ->
  (l_aligned l = true -> exists es a n, l_entries l = es ++ [(a, n)] /\ 0 <= n /\ n + bv_len v < 2 ^ 64) ->
  bv_len v < 2 ^ 64 ->
  wpb (map_entry mc v (cursor_of l)) (reaches (with_entries l (lay_entry start v l))) B s.
Proof.
  intros Hs [_ _ Ho Hlen] Hfit Hend Hlast Hlt.
  pose proof (area_end_ge start (l_pages l)) as Hge. destruct (mr_start Hready) as (Hst & _).
  assert (PAGE_SIZE <= reserved_size) by done.
  unfold map_entry. revert Hfit. unfold lay_entry, seg_fresh. cbn [cursor_of segment_end_aligned].
  destruct (negb (l_aligned l) || negb (bv_offset v =? 0)) eqn:Hfr; intros Hfit; wpb_steps.
  - cbn [cursor_of list_entry_index user_addr next_reserved_page_num user_page_num].
    rewrite length_app in Hfit. cbn [length] in Hfit.
    rewrite wrap_small by lia. unfold store_entry at 1.
    apply wpb_reserved_write; rewrite ?length_le_bytes; [|lia|lia]. intros _. wpb_steps.
    apply wpb_reserved_write; rewrite ?length_le_bytes; [|lia|lia]. intros _. wpb_steps.
    pose proof (store_new_entry l s (area_end start (l_pages l) + bv_offset v) Hs ltac:(lia)) as Hs2.
    set (l2 := with_entries l _) in Hs2. set (es := l_entries l ++ _).
    match goal with |- context [Cursor ?n _ _ _ _] => replace n with (Z.of_nat (length (l_entries l2)))
      by (unfold l2; cbn [with_entries l_entries]; rewrite length_app; simpl; lia) end.
    apply wpb_bind_inv. change es with (l_entries l ++ [(area_end start (l_pages l) + bv_offset v, bv_len v)]).
    eapply (map_entry_grow l2 _ (l_entries l) _ 0 (bv_len v)); [exact Hs2|done|..]; try lia.
    unfold l2; cbn [with_entries l_entries]. rewrite length_app; cbn [length]. lia.
  - apply orb_false_iff in Hfr as [Hal%negb_false_iff _].
    destruct (Hlast Hal) as (es & a & n & Hes & Hn & Hsum). rewrite Hes, grow_last_app in *.
    rewrite !length_app in Hfit. cbn [length] in Hfit. apply wpb_bind_inv.
    eapply map_entry_grow; [done|done|..]; rewrite ?Hes, ?length_app; cbn [length]; lia.
Qed.

(** One page more. *)
Definition with_pages (l : layout) (ps : list page_use) : layout := Layout ps (l_entries l) (l_aligned l).
Abbreviation count l := (reserved_count (l_pages l)).

Lemma reserved_nos_app ps1 ps2 : reserved_nos (ps1 ++ ps2) = reserved_nos ps1 ++ reserved_nos ps2.
Proof. apply omap_app. Qed.
Lemma reserved_nos_cons r a lo hi ps : reserved_nos (Reserved r a lo hi :: ps) = r :: reserved_nos ps.
Proof. done. Qed.
Lemma reserved_range l s r a lo hi :
  realises l s -> Reserved r a lo hi ∈ l_pages l -> 2 <= r < 2 + count l /\ r < BIUS_NUM_RESERVED_PAGES.
Proof.
  intros Hs Hin. assert (r ∈ reserved_nos (l_pages l)) as Hr.
  { apply list_elem_of_omap. by exists (Reserved r a lo hi). }
  rewrite (re_nos _ _ Hs) in Hr. apply elem_of_seqZ in Hr.
  pose proof (re_limit _ _ Hs). unfold BIUS_NUM_RESERVED_PAGES. lia.
Qed.

Lemma realises_new_page l s p pfn :
  realises l s -> page_ok (mem_of s) p -> pfn_address pfn = page_shown p ->
  (forall r, reserved_no p = Some r -> r = 2 + count l /\ count l < BIUS_MAX_SEGMENTS) ->
  realises (with_pages l (l_pages l ++ [p]))
    (set_table <[start + PAGE_SIZE * Z.of_nat (length (l_pages l)) := Pte pfn VM_PAGE_PROT]> s).
Proof.
  intros [Hnos Hlim Hpg Hc He Hm Ht Hf] Hp Hpfn Hno. pose proof page_size_pos as HP.
  split; cbn [with_pages l_pages l_entries]; try done.
  - rewrite reserved_nos_app, Hnos, length_app, length_seqZ, Nat2Z.inj_add, Z2Nat.id by lia.
    change (reserved_nos [p]) with (match reserved_no p with Some r => [r] | None => [] end).
    destruct (reserved_no p) as [r|] eqn:Hr; cbn [length].
    + destruct (Hno r eq_refl) as [-> _]. rewrite seqZ_app by lia. done.
    + rewrite app_nil_r. f_equal; lia.
  - rewrite reserved_nos_app, length_app.
    change (reserved_nos [p]) with (match reserved_no p with Some r => [r] | None => [] end).
    destruct (reserved_no p) as [r|]; simpl; [destruct (Hno r eq_refl); lia|lia].
  - intros i q [Hq|[Hi Hq]]%lookup_app_Some.
    + destruct (Hpg i q Hq) as (f & Hf1 & Hf2). exists f. split; [|done]. cbn [page_table set_table].
      apply lookup_lt_Some in Hq. by rewrite lookup_insert_ne by (unfold PAGE_SIZE; lia).
    + apply list_lookup_singleton_Some in Hq as [Hz <-]. exists pfn. split; [|done]. cbn [page_table set_table].
      replace i with (length (l_pages l)) by lia. by rewrite lookup_insert_eq.
  - apply Forall_app. split; [done|]. by constructor.
  - intros a Ha. cbn [page_table set_table].
    rewrite lookup_insert_ne by (intros <-; eapply Ha; [|done]; rewrite length_app; simpl; lia).
    apply Ht. intros i Hi. apply Ha. rewrite length_app. lia.
  - by rewrite Hf.
Qed.

Lemma cursor_next l p (u := cursor_of l) :
  area_end start (l_pages l) + PAGE_SIZE < 2 ^ 64 ->
  next_page u (Z.of_nat (length (reserved_nos [p]))) = cursor_of (with_pages l (l_pages l ++ [p])).
Proof.
  intros Hend. pose proof (area_end_ge start (l_pages l)). destruct (mr_start Hready) as (Hst & _).
  pose proof page_size_pos.
  unfold next_page, cursor_of, u; cbn [cursor_of list_entry_index next_reserved_page_num user_addr
    user_page_num segment_end_aligned with_pages l_pages l_entries l_aligned].
  rewrite wrap_small by lia. rewrite area_end_app, reserved_nos_app, !length_app. unfold area_end.
  cbn [length]. f_equal; lia.
Qed.

Lemma set_mem_table f g s : set_mem f (set_table g s) = set_table g (set_mem f s).
Proof. done. Qed.

(** A page of the area is free and the user addresses do not wrap around. *)
Definition fits (ps : list page_use) : Prop := Z.of_nat (length ps) <= BIUS_PTES_PER_COMMAND.
Lemma fits_end ps : fits ps -> area_end start ps + PAGE_SIZE <= 2 ^ 64.
Proof.
  unfold fits, area_end. destruct (mr_start Hready) as (_ & _ & Hend).
  assert (0 <= PAGE_SIZE) by done. nia.
Qed.
Lemma fits_app ps1 ps2 : fits (ps1 ++ ps2) -> fits ps1.
Proof. unfold fits. rewrite length_app. lia. Qed.

(** The data of a segment and the reserved pages do not overlap. *)
Definition apart (a n : Z) : Prop := a + n <= R \/ R + reserved_size <= a.

(** A page-sized stretch of zeros with the bytes [bs] in it. *)
Lemma read_filled m a off bs :
  0 <= off -> off + Z.of_nat (length bs) <= PAGE_SIZE ->
  mem_read m a PAGE_SIZE = replicate (Z.to_nat PAGE_SIZE) 0 ->
  mem_read (mem_write m (a + off) bs) a PAGE_SIZE =
    replicate (Z.to_nat off) 0 ++ bs ++ replicate (Z.to_nat (PAGE_SIZE - (off + Z.of_nat (length bs)))) 0.
Proof.
  intros Hoff Hend Hz. rewrite mem_read_write_inside, Hz, take_replicate, drop_replicate by done.
  f_equal; [f_equal; lia|]. do 2 f_equal. lia.
Qed.

(** A store in reserved page [2 + count l]. *)
Lemma realises_fill l s off bs :
  realises l s -> 0 <= off -> off + Z.of_nat (length bs) <= PAGE_SIZE -> count l < BIUS_MAX_SEGMENTS ->
  16 * Z.of_nat (length (l_entries l)) <= PAGE_SIZE ->
  realises l (set_mem (fun m => mem_write m (R + (PAGE_SIZE * (2 + count l) + off)) bs) s).
Proof.
  intros Hs ? ? ? ?. apply realises_write; [done|..];
    unfold reserved_size, BIUS_NUM_RESERVED_PAGES, PAGE_SIZE, BIUS_MAX_SEGMENTS in *; [lia|lia|].
  intros r a lo hi Hr. destruct (reserved_range l s r a lo hi Hs Hr).
  unfold BIUS_NUM_RESERVED_PAGES, BIUS_MAX_SEGMENTS, PAGE_SIZE in *. lia.
Qed.

(** The reserved page is cleared and, for a write, filled. *)
Lemma fill_reserved_spec l s data off size :
  realises l s -> 0 <= off -> 0 < size -> off + size <= PAGE_SIZE -> 16 * Z.of_nat (length (l_entries l)) <= PAGE_SIZE ->
  apart (data + off) size ->
  wpb (fill_reserved_page mc is_write data off size (2 + count l)) (fun _ s' =>
    count l < BIUS_MAX_SEGMENTS /\ realises l s' /\
    mem_read (mem_of s') (R + PAGE_SIZE * (2 + count l)) PAGE_SIZE
       = reserved_content (mem_of s0) data off (off + size)) (BIUS_MAX_SEGMENTS <= count l) s.
Proof.
  intros Hs Hoff Hsize Hin Hfit Hapart. pose proof (re_limit _ _ Hs) as Hlim. pose proof page_size_pos as HP.
  unfold fill_reserved_page. wpb_step.
  assert (reserved_size = PAGE_SIZE * (2 + BIUS_MAX_SEGMENTS)) as Hrs by done.
  apply wpb_reserved_write; rewrite ?length_replicate, ?Z2Nat.id by lia; [|nia|lia].
  intros [_ Hroom]. assert (count l < BIUS_MAX_SEGMENTS) as Hc by nia. set (s1 := set_mem _ s).
  assert (realises l s1) as Hs1.
  { unfold s1. rewrite <- (Z.add_0_r (PAGE_SIZE * _)). apply realises_fill; rewrite ?length_replicate; lia || done. }
  assert (mem_read (mem_of s1) (R + PAGE_SIZE * (2 + count l)) PAGE_SIZE = replicate (Z.to_nat PAGE_SIZE) 0) as Hz.
  { unfold s1. rewrite mem_of_set_mem. apply mem_read_write_same. by rewrite length_replicate. }
  unfold reserved_content. replace (off + size - off) with size by lia. destruct is_write; wpb_steps.
  - apply wpb_reserved_write; rewrite ?length_mem_read; [|nia|lia]. intros _.
    assert (mem_read (mem_of s1) (data + off) size = mem_read (mem_of s0) (data + off) size) as ->.
    { apply mem_read_ext. intros x Hx. apply (re_mem _ _ Hs1). unfold in_reserved_pages.
      unfold apart in *. lia. }
    split; [exact Hc|]. split; [apply realises_fill; [exact Hs1|..]; rewrite ?length_mem_read; assumption || lia|].
    rewrite mem_of_set_mem, Z.add_assoc, read_filled by (rewrite ?length_mem_read; assumption || lia).
    rewrite length_mem_read. repeat f_equal. lia.
  - split; [exact Hc|]. split; [exact Hs1|]. rewrite Hz, <- !replicate_add. f_equal. lia.
Qed.

Lemma map_reserved_page_spec l s data off size :
  let l' := with_pages l (l_pages l ++ [Reserved (2 + count l) data off (off + size)]) in
  realises l s -> fits (l_pages l') ->
  0 <= off -> 0 < size -> off + size <= PAGE_SIZE -> 0 <= data < 2 ^ 64 ->
  16 * Z.of_nat (length (l_entries l)) <= PAGE_SIZE ->
  apart (data + off) size ->
  wpb (map_reserved_page mc is_write data off size (cursor_of l)) (reaches l')
    (BIUS_MAX_SEGMENTS <= count l) s.
Proof.
  intros l' Hs Hfits Hoff Hsize Hin Hdata Hent Hapart. pose proof page_size_pos as HP.
  assert (Z.of_nat (length (l_pages l)) < BIUS_PTES_PER_COMMAND) as Hroom
    by (unfold fits, l' in Hfits; cbn [with_pages l_pages] in Hfits; rewrite length_app in Hfits; simpl in Hfits; lia).
  unfold map_reserved_page. cbn [cursor_of next_reserved_page_num user_page_num]. wpb_step.
  eapply wpb_mono; [by apply fill_reserved_spec| |done]. cbv beta. intros [] s1 (Hc & Hs1 & Hcont).
  wpb_step. apply wpb_set_pte; [lia|]. wpb_step. unfold store_reserve.
  assert (reserved_size = PAGE_SIZE * (2 + BIUS_MAX_SEGMENTS)) as Hrs by done. pose proof (re_limit _ _ Hs1) as Hlim.
  apply wpb_reserved_write; rewrite ?length_le_bytes; unfold PAGE_SIZE, BIUS_MAX_SEGMENTS in *; [|lia|lia].
  intros _. rewrite set_mem_table. wpb_steps. set (s2 := set_mem _ s1).
  assert (realises l s2) as Hs2.
  { apply realises_write; rewrite ?length_le_bytes; [done|unfold PAGE_SIZE; lia| |].
    - unfold PAGE_SIZE. lia.
    - intros r a lo hi Hr. destruct (reserved_range l s1 r a lo hi Hs1 Hr).
      unfold BIUS_NUM_RESERVED_PAGES, BIUS_MAX_SEGMENTS, PAGE_SIZE in *. lia. }
  split; [apply (cursor_next l (Reserved _ data off (off + size)))|]; cycle 1.
  - apply realises_new_page; [done| | |].
    + unfold page_ok, BIUS_NUM_RESERVED_PAGES, BIUS_MAX_SEGMENTS. unfold PAGE_SIZE at 1. split_and!; try lia.
      * unfold s2. rewrite mem_of_set_mem, mem_read_write_same by (by rewrite length_le_bytes).
        rewrite le_value_bytes. by apply Z.mod_small.
      * unfold s2. rewrite mem_of_set_mem, read_over by (rewrite ?length_le_bytes; unfold PAGE_SIZE; lia). done.
    + cbn [page_shown]. rewrite (mr_pfn Hready). apply pfn_address_linear; [apply (mr_reserved Hready)|lia].
    + intros r [= <-]. done.
  - destruct (mr_start Hready) as (Hst & _ & Hend). unfold area_end, PAGE_SIZE, BIUS_PTES_PER_COMMAND in *. lia.
Qed.

Lemma next_fits l p :
  fits (l_pages l ++ [p]) ->
  Z.of_nat (length (l_pages l)) < BIUS_PTES_PER_COMMAND /\ area_end start (l_pages l) + PAGE_SIZE < 2 ^ 64.
Proof.
  unfold fits, area_end. rewrite length_app. simpl length. destruct (mr_start Hready) as (_ & _ & Hend).
  unfold PAGE_SIZE in *. lia.
Qed.

Lemma map_full_pages_spec k l s a pfn (B : Prop) :
  realises l s -> fits (l_pages l ++ full_pages k a) ->
  (forall j, 0 <= j -> pfn_address (pfn + j) = a + PAGE_SIZE * j) ->
  wpb (map_full_pages k mc pfn (cursor_of l)) (reaches (with_pages l (l_pages l ++ full_pages k a))) B s.
Proof.
  revert l s a pfn. induction k as [|k IH]; intros l s a pfn Hs Hfits Hpfn; cbn [map_full_pages full_pages] in *.
  { wpb_step. rewrite app_nil_r. by destruct l. }
  rewrite cons_middle, app_assoc in Hfits |- *. destruct (next_fits l (Direct a)) as [Hroom Hend]; [by eapply fits_app|].
  wpb_step. apply wpb_set_pte; [cbn [cursor_of user_page_num]; lia|].
  pose proof (cursor_next l (Direct a) Hend) as Hnext. change (Z.of_nat (length _)) with 0 in Hnext.
  rewrite Hnext. apply (IH (with_pages l (l_pages l ++ [Direct a]))); [|done|].
  - apply realises_new_page; [done|done| |done]. rewrite <- (Z.add_0_r pfn), Hpfn by done. simpl. lia.
  - intros j Hj. rewrite <- Z.add_assoc, Hpfn by lia. lia.
Qed.


Lemma map_rest_spec l s a n pfn :
  let l' := Layout (l_pages l ++ rest_pages a n (2 + count l)) (l_entries l) (n mod PAGE_SIZE =? 0) in
  realises l s -> fits (l_pages l') -> 0 <= n -> 0 <= a -> a + n <= 2 ^ 64 -> apart a n ->
  16 * Z.of_nat (length (l_entries l)) <= PAGE_SIZE ->
  (forall j, 0 <= j -> pfn_address (pfn + j) = a + PAGE_SIZE * j) ->
  wpb (map_rest mc is_write a pfn n (cursor_of l)) (reaches l') (BIUS_MAX_SEGMENTS < count l') s.
Proof.
  intros l' Hs Hfits Hn Ha Hend Hapart Hent Hpfn. destruct (page_split n Hn) as (Hsp & Hm & Hq).
  unfold map_rest. unfold l', rest_pages in *. cbn [l_pages] in *. rewrite app_assoc in Hfits |- *.
  set (ps := l_pages l ++ full_pages _ a) in *. wpb_step.
  eapply wpb_mono; [apply map_full_pages_spec; [done|by eapply fits_app|done]| |exact id].
  intros u s1 [-> Hs1]. fold ps in Hs1 |- *. set (l1 := with_pages l ps) in *.
  assert (count l1 = count l) as Hcount.
  { unfold l1, ps; cbn [with_pages l_pages]. by rewrite reserved_nos_app, reserved_full_pages, app_nil_r. }
  replace (n - PAGE_SIZE * (n / PAGE_SIZE)) with (n mod PAGE_SIZE) by lia.
  destruct (Z.ltb_spec 0 (n mod PAGE_SIZE)).
  - wpb_step. destruct (Z.eqb_spec (n mod PAGE_SIZE) 0); [lia|].
    eapply wpb_mono; [apply map_reserved_page_spec| |].
    + exact Hs1.
    + rewrite Hcount. exact Hfits.
    + lia.
    + lia.
    + lia.
    + unfold PAGE_SIZE in *; lia.
    + done.
    + unfold apart, PAGE_SIZE in *. lia.
    + intros u s2 [-> Hs2]. wpb_step. rewrite Hcount in *. split; [done|]. by destruct Hs2; split.
    + intros Hc. rewrite reserved_nos_app, length_app. change (length (reserved_nos [_])) with 1%nat.
      change (count l1) with (reserved_count ps) in *. lia.
  - wpb_step. destruct (Z.eqb_spec (n mod PAGE_SIZE) 0); [|lia]. rewrite app_nil_r.
    split; [done|]. by destruct Hs1; split.
Qed.

Lemma realises_aligned l s b : realises l s -> realises (Layout (l_pages l) (l_entries l) b) s.
Proof. intros Hs. by destruct Hs; split. Qed.
Lemma end_aligned_spec l s b : realises l s ->
  reaches (Layout (l_pages l) (l_entries l) b) (end_aligned (cursor_of l) b) s.
Proof. intros Hs. split; [done|by apply realises_aligned]. Qed.

(** What a segment must satisfy to be mapped after layout [l]. *)
Record mappable (l : layout) (v : bio_vec) : Prop := {
  mp_ok : seg_ok v;
  mp_apart : apart (bv_start v) (bv_len v);
  mp_fits : fits (l_pages (lay start l v));
  mp_entries : 16 * Z.of_nat (length (l_entries (lay start l v))) <= PAGE_SIZE }.

(** The pages of a segment, after its entry. *)
Lemma map_pages_spec l s v es :
  let l' := Layout (l_pages l ++ seg_pages v (2 + count l)) es (seg_ends_aligned v) in
  realises (with_entries l es) s -> seg_ok v -> apart (bv_start v) (bv_len v) -> fits (l_pages l') ->
  16 * Z.of_nat (length es) <= PAGE_SIZE ->
  wpb (let data_pfn := phys_pfn (bv_page v) in
       if negb (bv_offset v =? 0) then
         let in_page := Z.min (PAGE_SIZE - bv_offset v) (bv_len v) in
         u ← map_reserved_page mc is_write (bv_page v) (bv_offset v) in_page (cursor_of (with_entries l es));
         if negb (in_page =? PAGE_SIZE - bv_offset v) then mret (end_aligned u false)
         else map_rest mc is_write (bv_page v + PAGE_SIZE) (data_pfn + 1) (bv_len v - in_page) u
       else map_rest mc is_write (bv_page v) data_pfn (bv_len v) (cursor_of (with_entries l es)))
    (reaches l') (BIUS_MAX_SEGMENTS < count l') s.
Proof.
  intros l' Hs [Hp [Ha0 Ha1] Ho Hl] Hapart Hfits Hent. unfold bv_start in *.
  assert (forall k, 0 <= k -> forall j, 0 <= j ->
    pfn_address (phys_pfn (bv_page v) + k + j) = bv_page v + PAGE_SIZE * k + PAGE_SIZE * j) as Hpfn.
  { intros k Hk j Hj. rewrite <- Z.add_assoc, pfn_address_linear by (done || lia). lia. }
  cbv zeta. unfold l', seg_ends_aligned, seg_pages in *. cbn [l_pages] in *.
  destruct (Z.eqb_spec (bv_offset v) 0) as [Hz|Hz]; cbn [negb].
  { rewrite Hz, Z.add_0_l in *.
    apply (map_rest_spec (with_entries l es)); [done|done|lia|lia|lia| |done|].
    - unfold apart in *. lia.
    - intros j Hj. rewrite <- (Z.add_0_r (phys_pfn _)), (Hpfn _) by lia. lia. }
  assert (PAGE_SIZE = 4096) as HP by done. wpb_step.
  set (in_page := Z.min _ _) in *. rewrite cons_middle, app_assoc in Hfits |- *.
  eapply wpb_mono; [apply (map_reserved_page_spec (with_entries l es)); [done|by eapply fits_app|..]| |].
  1-3: lia. 1: lia. 1: done. { unfold apart in *. lia. }
  2:{ intros Hc. rewrite !reserved_nos_app, !length_app. change (length (reserved_nos [_])) with 1%nat. cbn [with_entries l_pages] in Hc. lia. }
  intros u s1 [-> Hs1]. cbn [with_entries l_pages] in Hs1 |- *.
  set (l1 := with_pages _ _) in *.
  destruct (Z.ltb_spec (bv_len v) (PAGE_SIZE - bv_offset v)); destruct (Z.eqb_spec in_page (PAGE_SIZE - bv_offset v)); try lia; cbn [negb].
  - wpb_step. rewrite app_nil_r. rewrite (Z.mod_small (bv_offset v + _)) by lia.
    destruct (Z.eqb_spec (bv_offset v + bv_len v) 0); [lia|]. by apply (end_aligned_spec l1).
  - replace ((bv_offset v + bv_len v) mod PAGE_SIZE) with ((bv_len v - in_page) mod PAGE_SIZE).
    2:{ replace (bv_offset v + bv_len v) with (bv_len v - in_page + 1 * PAGE_SIZE) by lia.
        by rewrite Z.mod_add by done. }
    assert (count l1 = count l + 1) as Hc1.
    { unfold l1; cbn [with_pages l_pages]. rewrite reserved_nos_app, length_app.
      change (length (reserved_nos [_])) with 1%nat. lia. }
    replace (2 + count l + 1) with (2 + count l1) in * by lia.
    apply (map_rest_spec l1); [done|done|lia|lia|lia| |done|].
    + unfold apart in *. lia.
    + intros j Hj. rewrite (Hpfn _) by lia. lia.
Qed.

Lemma map_segment_spec l s v done_segs :
  realises l s -> layout_ok start done_segs l -> mappable l v ->
  wpb (map_segment mc is_write v (cursor_of l)) (reaches (lay start l v))
    (BIUS_MAX_SEGMENTS < count (lay start l v)) s.
Proof.
  intros Hs Hlo [Hv Hap Hfits Hent]. unfold map_segment. wpb_step.
  pose proof (seg_pages_span v (2 + count l) Hv) as Hspan. pose proof Hv as [_ _ Ho Hl].
  pose proof (fits_end _ Hfits) as Hend. pose proof (fits_end _ (fits_app _ _ Hfits)) as Hend0.
  cbn [lay l_pages] in Hend. rewrite area_end_app in Hend. unfold area_end at 1 in Hend.
  destruct (mr_start Hready) as (Hst & _). pose proof (area_end_ge start (l_pages l)) as Hge.
  pose proof page_size_pos as HP.
  eapply wpb_mono; [apply map_entry_spec; [done..| |]| |exact id].
  - intros Hal. destruct (lo_last _ _ _ Hlo Hal) as (es & a & n & Hes & Han).
    exists es, a, n. pose proof (lo_sizes _ _ _ Hlo) as Hsz. rewrite Hes in Hsz.
    apply Forall_app in Hsz as [_ [[? ?] _]%Forall_cons]. cbn [fst snd] in *. split; [done|]. lia.
  - lia.
  - intros u s1 [-> Hs1]. by apply map_pages_spec.
Qed.

Lemma map_segments_spec segs l s done_segs :
  let l' := foldl (lay start) l segs in
  realises l s -> layout_ok start done_segs l -> Forall seg_ok segs ->
  Forall (fun v => apart (bv_start v) (bv_len v)) segs -> fits (l_pages l') ->
  16 * Z.of_nat (length (l_entries l')) <= PAGE_SIZE ->
  wpb (map_segments mc is_write segs (cursor_of l)) (reaches l') (BIUS_MAX_SEGMENTS < count l') s.
Proof.
  revert l s done_segs. induction segs as [|v segs IH]; intros l s done_segs l' Hs Hlo Hok Hap Hfits Hent.
  { by apply wpb_ret. }
  apply Forall_cons in Hok as [Hv Hok]. apply Forall_cons in Hap as [Hvap Hap]. unfold l' in *; cbn [foldl] in *.
  cbn [map_segments]. pose proof (lay_ok _ _ _ _ Hv Hlo) as Hlo'.
  pose proof (length_lay_entries _ _ _ _ Hok Hlo') as Hen.
  destruct (lay_pages_prefix start segs (lay start l v)) as [more Hmore].
  wpb_step. eapply wpb_mono; [eapply map_segment_spec; [done..|]| |].
  - split; [done|done| |lia]. rewrite Hmore in Hfits. by eapply fits_app.
  - intros u s1 [-> Hs1]. by eapply IH.
  - intros Hc. rewrite Hmore, reserved_nos_app, length_app. lia.
Qed.

(** *** [bius_map_data] *)
Lemma wpb_in_kernel {A} (m : ST kstate A) (Q : A -> mstate -> Prop) B s :
  wp m (fun a k => Q a (with_mk s k)) (mk s) -> wpb (in_kernel m) Q B s.
Proof. unfold wp, wpb, in_kernel. by destruct (m (mk s)) as [[a k]| |]. Qed.
Lemma wpb_get_mc c m (Q : map_conn -> mstate -> Prop) B s :
  map_conns s !! c = Some m -> Q m s -> wpb (get_mc c) Q B s.
Proof. intros Hm HQ. unfold get_mc. wpb_steps. by eapply wpb_deref. Qed.

(** The user's area shows the pages of [l]; [n] of its pages were changed. *)
Record mapped (l : layout) (n : Z) (s : mstate) : Prop := {
  md_pages : forall (i : nat) p, l_pages l !! i = Some p -> exists pfn,
    page_table s !! (start + PAGE_SIZE * Z.of_nat i) = Some (Pte pfn VM_PAGE_PROT) /\
    pfn_address pfn = page_shown p;
  md_content : Forall (page_ok (mem_of s)) (l_pages l);
  md_entries : mem_read (mem_of s) R (16 * Z.of_nat (length (l_entries l))) = entries_bytes (l_entries l);
  md_nos : reserved_nos (l_pages l) = seqZ 2 (reserved_count (l_pages l));
  md_mem : forall x, ~ in_reserved_pages x -> mem_of s !! x = mem_of s0 !! x;
  md_table : forall a, (forall i, 0 <= i < n -> a <> start + PAGE_SIZE * i) ->
    page_table s !! a = page_table s0 !! a;
  md_conns : map_conns s = map_conns s0;
  md_rqs : blk_rqs (mk s) = blk_rqs (mk s0) }.

Lemma realises_mapped l s : realises l s -> mapped l (Z.of_nat (length (l_pages l))) s.
Proof.
  intros [Hnos Hlim Hpg Hc He Hm Ht Hf]. split; try done; try (by rewrite Hf).
  intros a Ha. apply Ht. intros i Hi. apply Ha. lia.
Qed.

(** What [bius_map_data] stores in the request and, for a list, in memory. *)
Inductive described (l : layout) (b : blk_part) (s : mstate) : Prop :=
  | described_simple n :
      b_map_type b = BIUS_DATAMAP_SIMPLE -> l_entries l = [(start + b_map_data b, n)] ->
      0 <= b_map_data b < PAGE_SIZE -> b_mapped_size b = PAGE_SIZE * Z.of_nat (length (l_pages l)) ->
      mapped l (Z.of_nat (length (l_pages l))) s -> described l b s
  | described_list pfn :
      b_map_type b = BIUS_DATAMAP_LIST -> (2 <= length (l_entries l))%nat ->
      b_map_data b = area_end start (l_pages l) ->
      b_mapped_size b = PAGE_SIZE * (Z.of_nat (length (l_pages l)) + 1) ->
      page_table s !! b_map_data b = Some (Pte pfn VM_PAGE_PROT) -> pfn_address pfn = R ->
      mem_read (mem_of s) (R + 16 * Z.of_nat (length (l_entries l))) 16 = le_bytes 8 0 ++ le_bytes 8 0 ->
      mapped l (Z.of_nat (length (l_pages l)) + 1) s -> described l b s.

Lemma realises_zero_entry l s :
  realises l s -> 16 * (Z.of_nat (length (l_entries l)) + 1) <= PAGE_SIZE ->
  let n := Z.of_nat (length (l_entries l)) in
  let s' := set_mem (fun m => mem_write m (R + 8 * (n * 2)) (le_bytes 8 0))
              (set_mem (fun m => mem_write m (R + 8 * (n * 2 + 1)) (le_bytes 8 0)) s) in
  realises l s' /\ mem_read (mem_of s') (R + 16 * n) 16 = le_bytes 8 0 ++ le_bytes 8 0.
Proof.
  intros Hs Hfit n s'. split.
  - unfold s'. do 2 (apply realises_write_list; rewrite ?length_le_bytes; [|lia|lia]). done.
  - unfold s'. rewrite !mem_of_set_mem, (mem_read_app _ _ 8 8) by lia.
    replace (8 * (n * 2)) with (16 * n) by lia. replace (8 * (n * 2 + 1)) with (16 * n + 8) by lia.
    rewrite mem_read_write_same by (by rewrite length_le_bytes).
    rewrite (read_over _ (R + 16 * n)) by (rewrite length_le_bytes; lia).
    by rewrite Z.add_assoc, mem_read_write_same by (by rewrite length_le_bytes).
Qed.

Lemma finish_list_spec l s b (B : Prop) :
  realises l s -> (2 <= length (l_entries l))%nat -> Z.of_nat (length (l_entries l)) < BIUS_MAX_SEGMENTS ->
  Z.of_nat (length (l_pages l)) < BIUS_PTES_PER_COMMAND ->
  wpb (finish_mapping mc start b (cursor_of l)) (fun b' s' => described l b' s' /\
    mk s' = set_kmem (fun _ => mem_of s') (mk s0)) B s.
Proof.
  intros Hs Hn Hmax Hfits. unfold finish_mapping. cbn [cursor_of list_entry_index user_page_num user_addr].
  destruct (Z.ltb_spec 1 (Z.of_nat (length (l_entries l)))); [|lia]. wpb_step. apply wpb_set_pte; [lia|].
  assert (PAGE_SIZE <= reserved_size) as Hrs by done.
  assert (16 * BIUS_MAX_SEGMENTS = PAGE_SIZE) as Hps by done. unfold store_entry. wpb_steps.
  apply wpb_reserved_write; rewrite ?length_le_bytes; [|lia|lia]. intros _. wpb_steps.
  apply wpb_reserved_write; rewrite ?length_le_bytes; [|lia|lia]. intros _. wpb_steps. rewrite !set_mem_table.
  destruct (realises_zero_entry l s Hs ltac:(lia)) as [Hs2 Hz]. set (s2 := set_mem _ (set_mem _ s)) in *.
  pose proof (realises_mapped l s2 Hs2) as [Hpg Hc He Hnos Hm Ht Hco Hrq].
  destruct (mr_start Hready) as (Hst & _ & Hend).
  split; [|by rewrite (re_frame _ _ Hs2)]. eapply described_list; cbn [with_mapping b_map_type b_map_data b_mapped_size]; try done.
  - rewrite wrap_small; unfold area_end, PAGE_SIZE, BIUS_PTES_PER_COMMAND in *; lia.
  - cbn [page_table set_table]. by rewrite lookup_insert_eq.
  - rewrite (mr_pfn Hready), <- (Z.add_0_r (phys_pfn R)), pfn_address_linear by (apply (mr_reserved Hready) || lia). lia.
  - split; try done.
    + intros i p Hp. destruct (Hpg i p Hp) as (f & Hf1 & Hf2). exists f. split; [|done]. cbn [page_table set_table].
      apply lookup_lt_Some in Hp. by rewrite lookup_insert_ne by (unfold PAGE_SIZE; lia).
    + intros a Ha. cbn [page_table set_table]. rewrite lookup_insert_ne by (apply not_eq_sym, Ha; lia).
      apply Ht. intros i Hi. apply Ha. lia.
Qed.

Lemma finish_simple_spec l s b e (B : Prop) :
  realises l s -> l_entries l = [e] -> start <= e.1 < start + PAGE_SIZE -> fits (l_pages l) ->
  wpb (finish_mapping mc start b (cursor_of l)) (fun b' s' => described l b' s' /\
    mk s' = set_kmem (fun _ => mem_of s') (mk s0)) B s.
Proof.
  intros Hs He Hin Hfits. unfold finish_mapping. cbn [cursor_of list_entry_index user_page_num user_addr].
  rewrite He. change (Z.of_nat (length [e])) with 1. cbn [Z.ltb Z.eqb Z.compare Pos.compare Pos.compare_cont Pos.eqb].
  wpb_step. unfold load_entry. wpb_step.
  apply wpb_reserved_read; [done|done|]. wpb_steps. change (8 * 0) with 0. rewrite Z.add_0_r.
  destruct e as [a n]. destruct (realises_last l s [] a n Hs He) as (_ & Ha & _).
  simpl length in Ha. rewrite Z.mul_0_r, Z.add_0_r in Ha. cbn [fst] in Hin.
  destruct (mr_start Hready) as (Hst & Hmod & Hend). unfold fits in Hfits.
  assert (BIUS_PTES_PER_COMMAND = 32768) as Hptes by done.
  assert (le_value (le_bytes 8 a) = a) as Hval.
  { rewrite le_value_bytes. apply Z.mod_small. change (256 ^ _) with (2 ^ 64). unfold PAGE_SIZE in *. lia. }
  rewrite Ha, Hval.
  assert (a mod PAGE_SIZE = a - start) as Hoff.
  { apply Z.mod_divide in Hmod as [q Hq]; [|done]. replace a with (a - start + q * PAGE_SIZE) at 1 by lia.
    rewrite Z.mod_add by done. apply Z.mod_small. lia. }
  pose proof (realises_mapped l s Hs) as Hmd. split; [|by rewrite (re_frame _ _ Hs)].
  eapply (described_simple _ _ _ n); cbn [with_mapping b_map_type b_map_data b_mapped_size]; try done.
  - rewrite He, Hoff. do 2 f_equal. lia.
  - apply Z.mod_pos_bound. done.
  - rewrite wrap_small; unfold area_end, PAGE_SIZE, BIUS_PTES_PER_COMMAND in *; lia.
Qed.
End realises.

Section map_data.
Context `{BL : BioLaws} `{ML : MmLaws}.

(** Request [k], not mapped yet, on connection [c] whose area is set up. *)
Record map_request (c k start : Z) (mc : map_conn) (r : bius_request) (b : blk_part) (rq : request)
    (s : mstate) : Prop := {
  mq_conn : map_conns s !! c = Some mc;
  mq_vma : fst <$> mc_vma mc = Some start;
  mq_ready : map_ready mc start;
  mq_pdu : pdus (mk s) !! k = Some r;
  mq_arm : req_u r = UBlk b;
  mq_rq : blk_rqs (mk s) !! k = Some rq;
  mq_type : b_map_type b = BIUS_DATAMAP_UNMAPPED }.

(** Segments the block layer may give, which fit the area and its list page. *)
Record segments_fit (start : Z) (mc : map_conn) (segs : list bio_vec) : Prop := {
  sf_some : segs <> [];
  sf_ok : Forall seg_ok segs;
  sf_apart : Forall (fun v => apart mc (bv_start v) (bv_len v)) segs;
  sf_pages : Z.of_nat (length (l_pages (lay_all start segs))) < BIUS_PTES_PER_COMMAND;
  sf_entries : Z.of_nat (length (l_entries (lay_all start segs))) < BIUS_MAX_SEGMENTS }.

Lemma realises_empty mc start w s : realises mc start w s l_empty s.
Proof.
  split; try done. by destruct s as [[] ? ?].
Qed.

Lemma lay_all_entries start segs :
  segs <> [] -> Forall seg_ok segs -> (0 < length (l_entries (lay_all start segs)))%nat.
Proof.
  intros Hne Hok. destruct (lay_all_ok start segs Hok) as [Ha Hr _ _].
  destruct (l_entries _) as [|e es] eqn:He; [|simpl; lia]. exfalso.
  destruct segs as [|v segs]; [done|]. apply Forall_cons in Hok as [[_ _ _ Hl] _].
  assert (length (user_ranges start (l_pages (lay_all start (v :: segs))))
    = length (concat (page_addrs <$> l_pages (lay_all start (v :: segs))))) as Hlen.
  { generalize start at 1. intros base. induction (l_pages _) as [|p ps IH] in base |- *; [done|].
    rewrite fmap_cons. cbn [user_ranges concat]. rewrite !length_app, IH. unfold page_addrs. by rewrite !length_seqZ. }
  rewrite <- Hr, Ha in Hlen. cbn in Hlen. rewrite length_app in Hlen. unfold bv_addrs in Hlen.
  rewrite length_seqZ in Hlen. lia.
Qed.

Lemma lay_all_first start segs e :
  Forall seg_ok segs -> l_entries (lay_all start segs) = [e] -> start <= e.1 < start + PAGE_SIZE.
Proof.
  intros Hok He. destruct (lay_all_ok start segs Hok) as [_ Hr Hs _]. rewrite He in Hr, Hs.
  apply Forall_cons in Hs as [[_ Hpos] _]. rewrite fmap_cons in Hr. cbn [fmap list_fmap concat] in Hr.
  rewrite app_nil_r in Hr. symmetry in Hr.
  apply first_page in Hr as (p & rest & _ & -> & Hlo & _); [lia|by apply lay_all_shape|done].
Qed.

(** [bius_map_data] describes the request's layout, unless the reserved pages
    run out. *)
Lemma map_data_spec c k start mc r b rq s :
  let l := lay_all start (rq_for_each_segment rq) in
  map_request c k start mc r b rq s -> segments_fit start mc (rq_for_each_segment rq) ->
  wpb (bius_map_data k c) (fun ret s' => ret = 0 /\ exists b',
    mk s' = set_kmem (fun _ => mem_of s') (set_pdus <[k := with_blk r b']> (mk s)) /\
    described mc start (request_is_write (req_type r)) s l b' s')
    (BIUS_MAX_SEGMENTS < reserved_count (l_pages l)) s.
Proof.
  intros l [Hc Hv Hready Hr Hu Hrq Hty] [Hne Hok Hap Hpages Hent].
  destruct (mc_vma mc) as [vma|] eqn:Hvma; [|done]. injection Hv as Hstart.
  unfold bius_map_data. wpb_step. eapply wpb_get_mc; [done|]. wpb_step. eapply wpb_deref; [done|].
  rewrite Hstart. wpb_step. apply wpb_in_kernel. kstep. wpb_step. apply wpb_in_kernel. kstep.
  rewrite bool_decide_eq_true_2 by done. cbn [negb]. wpb_step. apply wpb_in_kernel. kstep.
  replace (with_mk _ _) with s by (by destruct s). wpb_step. set (w := request_is_write _).
  replace (Cursor 0 2 start 0 false) with (cursor_of start l_empty)
    by (unfold cursor_of, area_end; simpl; f_equal; lia).
  eapply wpb_mono; [apply (map_segments_spec mc start w s Hready _ l_empty s []); [apply realises_empty|by split|done..| |]| |exact id].
  { unfold fits. fold (lay_all start (rq_for_each_segment rq)). lia. }
  { fold (lay_all start (rq_for_each_segment rq)). assert (16 * BIUS_MAX_SEGMENTS = PAGE_SIZE) by done. lia. }
  fold (lay_all start (rq_for_each_segment rq)). fold l. intros u s1 [-> Hs1]. wpb_step.
  assert (forall b' s', described mc start w s l b' s' /\ mk s' = set_kmem (fun _ => mem_of s') (mk s) ->
    wpb (_ ← in_kernel (put_pdu k (with_blk r b')); mret 0) (fun ret s'' => ret = 0 /\ exists b'',
      mk s'' = set_kmem (fun _ => mem_of s'') (set_pdus <[k := with_blk r b'']> (mk s)) /\
      described mc start w s l b'' s'')
      (BIUS_MAX_SEGMENTS < reserved_count (l_pages l)) s') as Hput.
  { intros b' s' [Hd Hk]. wpb_step. apply wpb_in_kernel. kstep. wpb_step. split; [done|]. exists b'.
    split; [cbn [mk with_mk]; by rewrite Hk|]. destruct Hd as [n ???? [] | pfn ???????  []].
    - eapply described_simple; try done. - eapply described_list; done. }
  pose proof (lay_all_entries start _ Hne Hok) as Hn. fold l in Hn.
  destruct (l_entries l) as [|e [|e' es]] eqn:He; [simpl in Hn; lia| |].
  - eapply wpb_mono; [eapply finish_simple_spec; [done|done|done|by eapply lay_all_first|unfold fits; fold l in Hpages; lia]|exact Hput|exact id].
  - eapply wpb_mono; [eapply finish_list_spec; [done|done|rewrite He; simpl; lia|done|done]|exact Hput|exact id].
Qed.
End map_data.
