(* ===== verification/MappingSample.v ===== *)
(** * A concrete machine with data mapping

    A connection with an area, and a request above the mapping threshold: what
    the witnesses of the mapping theorems run on. *)
From S2P Require Import Prelude Protocol Linux Kernel Sample Command DataMapping PageLayout MappingProps.

Definition ms_start : Z := 0x7f0000000000.
Definition ms_reserved : Z := PAGE_OFFSET + 0x100000.
Definition ms_zero_pfn : Z := 77.
Definition ms_conn : map_conn :=
  MapConn (Some (ms_start, ms_start + BIUS_MAX_SIZE_PER_COMMAND))
    (fun i => if (0 <=? i) && (i <? BIUS_PTES_PER_COMMAND) then Some (ms_start + PAGE_SIZE * i) else None)
    ms_reserved (phys_pfn ms_reserved).
(** Every page of the area shows the zero page. *)
Definition ms_table : gmap Z pte :=
  list_to_map ((fun i => (ms_start + PAGE_SIZE * i, Pte ms_zero_pfn PAGE_READONLY)) <$> seqZ 0 BIUS_PTES_PER_COMMAND).

Definition ms_rq (segs : list bio_vec) (len : Z) : @request seg_bio := Request 1 0 len [segs] 0.
Definition ms_blk : blk_part := BlkPart 0 0 0 BIUS_DATAMAP_UNMAPPED 0.
Definition ms_pdu (t : bius_req) (len : Z) : bius_request :=
  BiusRequest 5 t 0 len (UBlk ms_blk) fn_bius_blk_request_end.
Definition ms_device (pending : list Z) : bius_block_device := BlockDevice 240 sample_disk BLK_ZONED_NONE 1 pending.
Definition ms_waits : bius_connection := Connection (Some 100) [] None.
(** Request 7 is pending on device 100, connection 200 is idle. *)
Definition ms_state (t : bius_req) (segs : list bio_vec) (len : Z) : @mstate seg_bio :=
  MState (KState 6 {[ 7 := ms_rq segs len ]} {[ 7 := ms_pdu t len ]} {[ 100 := ms_device [7] ]} [100]
            {[ 200 := ms_waits ]} ∅ ∅ [])
    ms_table {[ 200 := ms_conn ]}.

Lemma ms_ready : map_ready ms_conn ms_start.
Proof.
  split; [split_and!; [done|by vm_compute|by vm_compute]| |by vm_compute|done].
  intros i Hi. simpl. destruct (Z.leb_spec 0 i); [|lia]. by destruct (Z.ltb_spec i BIUS_PTES_PER_COMMAND); [|lia].
Qed.

Lemma ms_table_lookup i :
  0 <= i < BIUS_PTES_PER_COMMAND -> ms_table !! (ms_start + PAGE_SIZE * i) = Some (Pte ms_zero_pfn PAGE_READONLY).
Proof.
  intros Hi. unfold ms_table. apply elem_of_list_to_map_1.
  - rewrite <- list_fmap_compose. apply NoDup_fmap_2; [|apply NoDup_seqZ].
    intros x y. simpl. unfold PAGE_SIZE. lia.
  - apply list_elem_of_fmap. exists i. split; [done|]. by apply elem_of_seqZ.
Qed.

Lemma ms_request t segs len :
  map_request 200 7 ms_start ms_conn (ms_pdu t len) ms_blk (ms_rq segs len) (ms_state t segs len).
Proof. split; try done; apply ms_ready. Qed.

(** Client pages, far from the reserved ones. *)
Definition ms_page : Z := PAGE_OFFSET + 0x10000000.
Lemma ms_seg_ok i o n : 0 <= i < 2 ^ 20 -> 0 <= o < PAGE_SIZE -> 0 < n < 2 ^ 20 ->
  seg_ok (BioVec (ms_page + PAGE_SIZE * i) o n).
Proof.
  intros. split; cbn [bv_page bv_offset bv_len]; unfold bv_start; cbn [bv_page bv_offset bv_len].
  - rewrite Z.mul_comm, Z.mod_add by done. by vm_compute.
  - unfold ms_page, PAGE_OFFSET, PAGE_SIZE in *. lia.
  - done.
  - lia.
Qed.
Lemma ms_apart i o n : 0 <= i -> 0 <= o -> apart ms_conn (ms_page + PAGE_SIZE * i + o) n.
Proof.
  intros. right. cbn [mc_reserved_pages ms_conn]. replace reserved_size with 1056768 by done.
  unfold ms_page, ms_reserved, PAGE_SIZE in *. lia.
Qed.

(** One segment of 33 pages that starts and ends inside a page. *)
Definition ms_len : Z := PAGE_SIZE * 33.
Definition ms_segs : list bio_vec := [BioVec (ms_page + PAGE_SIZE * 0) 512 ms_len].
Lemma ms_segs_fit : segments_fit ms_start ms_conn ms_segs.
Proof.
  split; [done| | | |].
  - constructor; [|done]. by apply ms_seg_ok.
  - constructor; [|done]. by apply ms_apart.
  - by vm_compute.
  - by vm_compute.
Qed.
Lemma ms_segments segs len : Forall seg_ok segs -> rq_for_each_segment (ms_rq segs len) = segs.
Proof.
  intros Hok. unfold rq_for_each_segment; simpl. rewrite app_nil_r. apply seg_norm_id.
  eapply Forall_impl; [exact Hok|]. by intros v [].
Qed.
Lemma addrs_one v : concat (bv_addrs <$> [v]) = bv_addrs v.
Proof. apply app_nil_r. Qed.
Lemma ms_extent : Z.of_nat (length (rq_extent (ms_rq ms_segs ms_len))) = ms_len /\ NoDup (rq_extent (ms_rq ms_segs ms_len)).
Proof.
  rewrite <- rq_segments_extent, ms_segments by apply ms_segs_fit. unfold ms_segs.
  rewrite addrs_one. unfold bv_addrs. cbn [bv_len]. rewrite length_seqZ. split; [apply Z2Nat.id; by vm_compute|apply NoDup_seqZ].
Qed.
Definition ms_pad : list Z := [0; 0; 0; 0].
