(* ===== verification/MappedIO.v ===== *)
(** * Reading and writing the data of a mapped request

    What the user process sees in the area, what its stores reach, and that
    [bius_copy_in_misaligned_pages] and [bius_unmap_data] finish the job. *)
From S2P Require Import Prelude Protocol Linux Kernel Sample Command CharDev LibBiusProps DataMapping PageLayout MappingProps MappingSample.

(** ** The user's view *)
Section view.
Context `{BO : BioOps} `{MO : MmOps}.

(** The kernel address behind a user address. *)
Definition kernel_addr (s : mstate) (a : Z) : option Z :=
  (fun p => pfn_address (pte_pfn p) + a mod PAGE_SIZE) <$> page_table s !! (PAGE_SIZE * (a / PAGE_SIZE)).
(** What a load sees; [None] is a page fault. *)
Definition user_byte (s : mstate) (a : Z) : option Z :=
  (fun x => default 0 (mem_of s !! x)) <$> kernel_addr s a.

(** A store of the process; it faults on a read-only page. *)
Definition store_addr (s : mstate) (a : Z) : option Z :=
  p ← page_table s !! (PAGE_SIZE * (a / PAGE_SIZE));
  match pte_prot p with
  | PAGE_READONLY => None
  | VM_PAGE_PROT => Some (pfn_address (pte_pfn p) + a mod PAGE_SIZE)
  end.
Fixpoint user_stores (addrs bs : list Z) : ST mstate unit :=
  match addrs, bs with
  | a :: addrs', b :: bs' =>
      o ← gets (fun s => store_addr s a);
      x ← deref DanglingPtr o;
      _ ← modify (set_mem <[x := b]>);
      user_stores addrs' bs'
  | _, _ => mret tt
  end.

Lemma store_addr_kernel s a x : store_addr s a = Some x -> kernel_addr s a = Some x.
Proof.
  unfold store_addr, kernel_addr. destruct (page_table s !! _) as [[pfn []]|]; simpl; congruence.
Qed.
Lemma user_stores_spec addrs ks bs s :
  store_addr s <$> addrs = Some <$> ks ->
  user_stores addrs bs s = Ret (tt, set_mem (fun m => scatter m ks bs) s).
Proof.
  revert ks bs s. induction addrs as [|a addrs IH]; intros [|x ks] [|b bs] s; try done;
    try (intros _; by destruct s as [[] ? ?]).
  rewrite !fmap_cons. intros [= Ha Hks]. cbn [user_stores]. unfold mbind, ST_bind, gets, modify. rewrite Ha. simpl.
  by rewrite (IH ks).
Qed.

Lemma page_of start i o :
  start mod PAGE_SIZE = 0 -> 0 <= o < PAGE_SIZE ->
  PAGE_SIZE * ((start + PAGE_SIZE * i + o) / PAGE_SIZE) = start + PAGE_SIZE * i /\
  (start + PAGE_SIZE * i + o) mod PAGE_SIZE = o.
Proof.
  intros [q ->]%Z.mod_divide Ho; [|done].
  replace (q * PAGE_SIZE + PAGE_SIZE * i + o) with (o + (q + i) * PAGE_SIZE) by lia.
  rewrite Z.div_add, Z.mod_add, Z.div_small, Z.mod_small by done. lia.
Qed.

(** The page table has [VM_PAGE_PROT] entries for the frames of [shown]. *)
Definition area_shows (start : Z) (s : mstate) (shown : list Z) : Prop :=
  forall (i : nat) x, shown !! i = Some x -> exists pfn,
    page_table s !! (start + PAGE_SIZE * Z.of_nat i) = Some (Pte pfn VM_PAGE_PROT) /\ pfn_address pfn = x.

Lemma area_shows_addr start s shown (i : nat) x o :
  start mod PAGE_SIZE = 0 -> area_shows start s shown -> shown !! i = Some x -> 0 <= o < PAGE_SIZE ->
  store_addr s (start + PAGE_SIZE * Z.of_nat i + o) = Some (x + o).
Proof.
  intros Hst Hsh Hi Ho. destruct (page_of start (Z.of_nat i) o Hst Ho) as [Hp Hm].
  destruct (Hsh i x Hi) as (pfn & Ht & <-). unfold store_addr. by rewrite Hp, Hm, Ht.
Qed.
End view.

Section mapped.
Context `{BO : BioOps} `{MO : MmOps}.
Context (mc : map_conn) (start : Z).
Let R := mc_reserved_pages mc.

(** Where the bytes of a page of the layout are in kernel memory. *)
Definition page_kernel (p : page_use) : list Z := seqZ (page_shown mc p + page_lo p) (page_hi p - page_lo p).

Lemma seqZ_add_fmap (f : Z -> option Z) a x n :
  (forall o, 0 <= o < n -> f (a + o) = Some (x + o)) -> f <$> seqZ a n = Some <$> seqZ x n.
Proof.
  intros Hf. apply list_eq. intros i. rewrite !list_lookup_fmap.
  destruct (decide (Z.of_nat i < n)); [|by rewrite !lookup_seqZ_ge by lia].
  rewrite !lookup_seqZ_lt by lia. simpl. by rewrite Hf by lia.
Qed.

(** The page table of a mapped request. *)
Hypothesis Hst : start mod PAGE_SIZE = 0.

Lemma ranges_kernel_aux ps pre s :
  Forall page_shape ps -> area_shows start s (page_shown mc <$> (pre ++ ps)) ->
  store_addr s <$> user_ranges (area_end start pre) ps = Some <$> concat (page_kernel <$> ps).
Proof.
  revert pre. induction ps as [|p ps IH]; intros pre Hsh Hs; [done|].
  apply Forall_cons in Hsh as [Hp Hsh]. destruct (page_range p Hp). rewrite (fmap_cons page_kernel). cbn [user_ranges concat].
  rewrite !fmap_app. f_equal.
  - apply seqZ_add_fmap. intros o Ho. unfold area_end. rewrite <- !Z.add_assoc, Z.add_assoc.
    apply (area_shows_addr start s (page_shown mc <$> (pre ++ p :: ps))); [done|done| |lia].
    rewrite list_lookup_fmap, lookup_app_r, Nat.sub_diag by done. done.
  - replace (area_end start pre + PAGE_SIZE) with (area_end start (pre ++ [p])).
    + apply IH; [done|]. by rewrite <- app_assoc.
    + unfold area_end. rewrite length_app. simpl. lia.
Qed.
Lemma ranges_kernel ps s :
  Forall page_shape ps -> area_shows start s (page_shown mc <$> ps) ->
  store_addr s <$> user_ranges start ps = Some <$> concat (page_kernel <$> ps).
Proof.
  intros Hsh Hs. rewrite <- (Z.add_0_r start). change (start + 0) with (start + PAGE_SIZE * Z.of_nat (length (@nil page_use))).
  by apply (ranges_kernel_aux ps []).
Qed.

End mapped.

Section payload.
Context `{BL : BioLaws} `{IL : IovLaws} `{LC : LinuxConst} `{ML : MmLaws}.
Context (zero_page_pfn : Z) (mc : map_conn) (start : Z).
Let R := mc_reserved_pages mc.

Lemma mapped_area w s0 l n s : mapped mc start w s0 l n s -> area_shows start s (page_shown mc <$> l_pages l).
Proof.
  intros Hm i x Hx. rewrite list_lookup_fmap in Hx. destruct (l_pages l !! i) as [p|] eqn:Hp; [|done].
  injection Hx as <-. by apply (md_pages _ _ _ _ _ _ _ Hm).
Qed.

(** The pages show the bytes of a write. *)
Lemma shown_payload s0 m ps :
  Forall page_shape ps -> Forall (page_ok mc true s0 m) ps ->
  (forall x, x ∈ concat (page_addrs <$> ps) -> m !! x = mem_of s0 !! x) ->
  mem_gather m (concat (page_kernel mc <$> ps)) = mem_gather (mem_of s0) (concat (page_addrs <$> ps)).
Proof.
  induction ps as [|p ps IH]; intros Hsh Hok Hout; [done|].
  apply Forall_cons in Hsh as [Hp Hsh]. apply Forall_cons in Hok as [Hpk Hok].
  rewrite !fmap_cons in *. cbn [concat] in *. rewrite !mem_gather_app. f_equal.
  2:{ apply IH; [done..|]. intros x Hx. apply Hout, elem_of_app. by right. }
  destruct (page_range p Hp). destruct p as [a|r a lo hi].
  - apply mem_gather_ext. intros x Hx. apply Hout, elem_of_app. by left.
  - destruct Hpk as (_ & Hlo & Hhi & _ & _ & Hc). unfold page_kernel, page_addrs; cbn [page_shown page_lo page_hi page_data] in *.
    rewrite !mem_gather_seqZ. eapply mem_read_inside; [|exact Hc| |]; rewrite ?length_replicate, ?length_mem_read; done || lia.
Qed.

Lemma segs_outside segs x :
  Forall (fun v => apart mc (bv_start v) (bv_len v)) segs -> x ∈ concat (bv_addrs <$> segs) ->
  ~ in_reserved_pages mc x.
Proof.
  intros Hap (v & Hv & Hx)%elem_of_concat_fmap.
  eapply Forall_forall in Hap; [|exact Hv]. apply elem_of_seqZ in Hx.
  unfold apart, in_reserved_pages, bv_addrs in *. lia.
Qed.

(** The entries of a list or of a single mapping, as the library reads them from the header. *)
Definition header_names (s : mstate) (h : bius_k2u_header) (es : list (Z * Z)) : Prop :=
  (k2u_data_map_type h = data_map_type_value BIUS_DATAMAP_SIMPLE /\
   es = [(u64 (k2u_data_address h + k2u_mapping_data h), k2u_length h)]) \/
  (k2u_data_map_type h = data_map_type_value BIUS_DATAMAP_LIST /\
   user_byte s <$> seqZ (k2u_mapping_data h) (Z.of_nat (length (segment_bytes es))) = Some <$> segment_bytes es).

Lemma length_extents (ps : list page_use) base :
  length (user_ranges base ps) = length (concat (page_addrs <$> ps)).
Proof.
  revert base. induction ps as [|p ps IH]; intros base; [done|]. rewrite fmap_cons. cbn [user_ranges concat].
  rewrite !length_app, IH. unfold page_addrs. by rewrite !length_seqZ.
Qed.

(** A page of the area, as the user sees it. *)
Lemma page_bytes s (i : nat) pfn n :
  start mod PAGE_SIZE = 0 -> page_table s !! (start + PAGE_SIZE * Z.of_nat i) = Some (Pte pfn VM_PAGE_PROT) ->
  n <= PAGE_SIZE ->
  user_byte s <$> seqZ (start + PAGE_SIZE * Z.of_nat i) n = Some <$> mem_read (mem_of s) (pfn_address pfn) n.
Proof.
  intros Hmod Htab Hn. rewrite <- mem_gather_seqZ. unfold mem_gather. rewrite <- list_fmap_compose.
  apply list_eq. intros j. rewrite !list_lookup_fmap. destruct (decide (Z.of_nat j < n)); [|by rewrite !lookup_seqZ_ge by lia].
  rewrite !lookup_seqZ_lt by lia. simpl. f_equal. unfold user_byte, kernel_addr.
  destruct (page_of start (Z.of_nat i) (Z.of_nat j) Hmod) as [-> ->]; [lia|]. by rewrite Htab.
Qed.

Lemma described_header w s0 segs b s r :
  let l := lay_all start segs in
  map_ready mc start -> Forall seg_ok segs -> described mc start w s0 l b s ->
  Z.of_nat (length (l_entries l)) < BIUS_MAX_SEGMENTS ->
  req_length r = Z.of_nat (length (concat (bv_addrs <$> segs))) -> req_length r < 2 ^ 64 ->
  header_names s (map_header start r b) (l_entries l).
Proof.
  intros l Hready Hok Hd Hent Hlen Hlt. destruct (mr_start _ _ Hready) as (Hst & Hmod & Hend).
  destruct (lay_all_ok start segs Hok) as [Ha Hr Hpos _]. fold l in Ha, Hr, Hpos.
  assert (BIUS_PTES_PER_COMMAND = 32768) as Hptes by done.
  destruct Hd as [n Hty He Hoff Hsz Hm | pfn Hty Hn Hdata Hsz Htab Hpfn Hz Hm]; [left|right].
  - split; [by cbn; rewrite Hty|]. cbn [map_header k2u_data_address k2u_mapping_data k2u_length].
    rewrite He in *. unfold PAGE_SIZE in *. rewrite !wrap_small by lia. do 2 f_equal.
    apply (f_equal length) in Hr. rewrite length_extents, Ha in Hr. cbn in Hr. rewrite app_nil_r, length_seqZ in Hr.
    apply Forall_cons in Hpos as [[_ Hpos] _]. cbn [snd] in Hpos. lia.
  - split; [by cbn; rewrite Hty|]. cbn [map_header k2u_mapping_data].
    pose proof (length_segment_bytes (l_entries l)) as Hsb. rewrite Hdata in Htab |- *.
    assert (16 * BIUS_MAX_SEGMENTS = PAGE_SIZE) as Hps by done.
    unfold area_end in *. rewrite (page_bytes _ _ pfn) by (done || lia). f_equal. rewrite Hpfn.
    change (segment_bytes (l_entries l)) with (entries_bytes (l_entries l) ++ le_bytes 8 0).
    rewrite length_app, Nat2Z.inj_add, length_entries_bytes, length_le_bytes.
    rewrite mem_read_app, (md_entries _ _ _ _ _ _ _ Hm) by lia. f_equal.
    apply (mem_read_inside _ _ 16 0 8 [] _ (le_bytes 8 0)) in Hz; [|done..]. by rewrite Z.add_0_r in Hz.
Qed.

(** *** The read call that takes the request *)
Lemma wp_in_kernel {A} (m : ST kstate A) (Q : A -> mstate -> Prop) s :
  wp m (fun a k => Q a (with_mk s k)) (mk s) -> wp (in_kernel m) Q s.
Proof. unfold wp, in_kernel. by destruct (m (mk s)) as [[a k]| |]. Qed.
Lemma wp_get_mc c m (Q : map_conn -> mstate -> Prop) s :
  map_conns s !! c = Some m -> Q m s -> wp (get_mc c) Q s.
Proof. intros Hm HQ. unfold get_mc. by wp_steps. Qed.

Lemma described_with_mk w s0 l b s k :
  described mc start w s0 l b s -> kmem k = mem_of s -> blk_rqs k = blk_rqs (mk s) ->
  described mc start w s0 l b (with_mk s k).
Proof.
  intros Hd Hk Hrq.
  assert (forall n, mapped mc start w s0 l n s -> mapped mc start w s0 l n (with_mk s k)) as Hmd.
  { intros n [Hpg Hc He Hno Hm Ht Hco Hb]. unfold mem_of in *. split; cbn [mk with_mk] in *; unfold mem_of; cbn [mk with_mk]; rewrite ?Hk, ?Hrq; done. }
  destruct Hd as [n Hty He Hoff Hsz Hm | pfn Hty Hn Hdata Hsz Htab Hpfn Hz Hm].
  - by eapply described_simple; auto.
  - eapply described_list; eauto. unfold mem_of. cbn [mk with_mk]. by rewrite Hk.
Qed.

(** An idle connection whose device has request [k] pending first. *)
Record takes (c dev k : Z) (rest : list Z) (conn : bius_connection) (d : bius_block_device) (s : mstate) : Prop := {
  tk_conn : connections (mk s) !! c = Some conn;
  tk_dev : conn_block_dev conn = Some dev;
  tk_sending : conn_sending conn = None;
  tk_device : devices (mk s) !! dev = Some d;
  tk_pending : dev_pending d = k :: rest }.

Lemma prepare_mapped c k r b rq s :
  let l := lay_all start (rq_for_each_segment rq) in
  map_request c k start mc r b rq s -> segments_fit start mc (rq_for_each_segment rq) ->
  reserved_count (l_pages l) <= BIUS_MAX_SEGMENTS -> request_may_have_data (req_type r) = true ->
  BIUS_MAP_DATA_THRESHOLD < req_length r ->
  wp (prepare_data c k) (fun ret s' => ret = 0 /\ exists b',
    mk s' = set_kmem (fun _ => mem_of s') (set_pdus <[k := with_blk r b']> (mk s)) /\
    described mc start (request_is_write (req_type r)) s l b' s') s.
Proof.
  intros l Hq Hfit Hres Hdata Hlen. pose proof Hq as [Hc Hv Hready Hr Hu Hrq Hty].
  unfold prepare_data. wp_step. apply wp_in_kernel. kstep. replace (with_mk s (mk s)) with s by (by destruct s).
  rewrite Hdata. assert (0 < BIUS_MAP_DATA_THRESHOLD) by done.
  destruct (Z.ltb_spec 0 (req_length r)); [|lia]. destruct (Z.ltb_spec BIUS_MAP_DATA_THRESHOLD (req_length r)); [|lia].
  cbn [andb]. eapply wpb_wp; [by apply (map_data_spec c k start mc r b rq s)|]. fold l. lia.
Qed.

Lemma read_dispatch_mapped_spec c k r b rq s conn pad1 pad2 to :
  let l := lay_all start (rq_for_each_segment rq) in
  map_request c k start mc r b rq s -> segments_fit start mc (rq_for_each_segment rq) ->
  reserved_count (l_pages l) <= BIUS_MAX_SEGMENTS -> request_may_have_data (req_type r) = true ->
  BIUS_MAP_DATA_THRESHOLD < req_length r -> connections (mk s) !! c = Some conn ->
  length pad1 = 4%nat -> length pad2 = 4%nat -> sizeof_k2u <= iov_avail to ->
  wp (read_dispatch_mapped c pad1 pad2 k to) (fun res s' => res.1 = sizeof_k2u /\ exists b',
    iov_received res.2 = iov_received to ++ k2u_bytes pad1 pad2 (map_header start r b') /\
    mk s' = set_conns <[c := conn_with_waiting conn (conn_waiting conn ++ [k])]>
              (set_kmem (fun _ => mem_of s') (set_pdus <[k := with_blk r b']> (mk s))) /\
    described mc start (request_is_write (req_type r)) s l b' s') s.
Proof.
  intros l Hq Hfit Hres Hdata Hlen Hconn Hp1 Hp2 Hav. pose proof Hq as [Hc Hv Hready Hr Hu Hrq Hty].
  unfold read_dispatch_mapped. wp_step. eapply wp_mono; [by apply (prepare_mapped c k r b rq s)|].
  intros ret s1 (-> & b' & Hmk & Hd). change (0 <? 0) with false. cbv iota. wp_step.
  assert (pdus (mk s1) !! k = Some (with_blk r b')) as Hr1 by (rewrite Hmk; apply lookup_insert_eq).
  assert (map_conns s1 = map_conns s) as Hmc by (destruct Hd as [? ? ? ? ? Hm | ? ? ? ? ? ? ? ? Hm]; apply Hm).
  assert (b_map_type b' <> BIUS_DATAMAP_UNMAPPED) as Hnu by (destruct Hd; congruence).
  destruct (mc_vma mc) as [vma|] eqn:Hvma; [|done]. injection Hv as Hstart.
  unfold bius_send_command_mapped. wp_step. apply wp_in_kernel. kstep.
  replace (with_mk s1 (mk s1)) with s1 by (by destruct s1).
  cbn [with_blk req_type]. rewrite request_may_have_data_blk by done. wp_step. apply wp_in_kernel.
  eapply wp_blk_arm; [done|]. replace (with_mk s1 (mk s1)) with s1 by (by destruct s1).
  rewrite bool_decide_eq_false_2 by done. wp_step. eapply wp_get_mc; [by rewrite Hmc|].
  wp_step. eapply wp_deref; [done|]. rewrite Hstart. wp_step.
  change (map_header start (with_blk r b') b') with (map_header start r b').
  set (bs := k2u_bytes pad1 pad2 _). assert (Z.of_nat (length bs) = sizeof_k2u) as Hbs by (by apply length_k2u_bytes).
  pose proof (copy_to_iter_ret bs to) as Hret. pose proof (copy_to_iter_received bs to) as Hrcv.
  assert ((copy_to_iter bs to).1 = sizeof_k2u) as Hres1 by lia. rewrite Hres1 in *.
  wp_step. apply wp_in_kernel. eapply wp_get_conn; [by rewrite Hmk|].
  replace (with_mk s1 (mk s1)) with s1 by (by destruct s1).
  change (sizeof_k2u <=? 0) with false. cbv iota. wp_step. apply wp_in_kernel. kstep. wp_step.
  split; [done|]. exists b'. split_and!.
  - rewrite Hrcv. f_equal. fold bs. apply take_ge. unfold sizeof_k2u in *. lia.
  - cbn [mk with_mk]. f_equal. exact Hmk.
  - by apply described_with_mk.
Qed.

(** The mapping does not depend on the pending lists. *)
Lemma described_set_devices w f s l b s' :
  described mc start w (with_mk s (set_devices f (mk s))) l b s' -> described mc start w s l b s'.
Proof.
  intros Hd. assert (forall n, mapped mc start w (with_mk s (set_devices f (mk s))) l n s' ->
    mapped mc start w s l n s') as Hm by (intros n [? ? ? ? ? ? ? ?]; by split).
  destruct Hd; [by eapply described_simple; auto|by eapply described_list; eauto].
Qed.

Lemma bius_dev_read_mapped_spec c dev k rest conn d r b rq s pad1 pad2 waits to :
  let l := lay_all start (rq_for_each_segment rq) in
  takes c dev k rest conn d s ->
  map_request c k start mc r b rq s -> segments_fit start mc (rq_for_each_segment rq) ->
  reserved_count (l_pages l) <= BIUS_MAX_SEGMENTS -> request_may_have_data (req_type r) = true ->
  BIUS_MAP_DATA_THRESHOLD < req_length r ->
  length pad1 = 4%nat -> length pad2 = 4%nat -> sizeof_k2u <= iov_avail to ->
  wp (bius_dev_read_mapped c pad1 pad2 waits to) (fun res s' => res.1 = sizeof_k2u /\ exists b',
    iov_received res.2 = iov_received to ++ k2u_bytes pad1 pad2 (map_header start r b') /\
    mk s' = set_conns <[c := conn_with_waiting conn (conn_waiting conn ++ [k])]>
              (set_kmem (fun _ => mem_of s') (set_pdus <[k := with_blk r b']>
                 (set_devices <[dev := dev_with_pending d rest]> (mk s)))) /\
    described mc start (request_is_write (req_type r)) s l b' s') s.
Proof.
  intros l [Hconn Hdev Hsnd Hd Hp] Hq Hfit Hres Hdata Hlen Hp1 Hp2 Hav.
  unfold bius_dev_read_mapped. wp_step. apply wp_in_kernel. kstep. rewrite Hdev, Hsnd.
  pose proof (iov_avail_range to). destruct (Z.ltb_spec (iov_iter_count to) sizeof_k2u); [lia|].
  replace (with_mk s (mk s)) with s by (by destruct s). wp_step. apply wp_in_kernel.
  assert (wait_pending waits dev (mk s) = Ret (None, mk s)) as Hw.
  { destruct waits; cbn [wait_pending]; unfold mbind, ST_bind, get_dev, gets, mbind, ST_bind; rewrite Hd; simpl; by rewrite Hp. }
  eapply wp_intro; [exact Hw|]. replace (with_mk s (mk s)) with s by (by destruct s).
  wp_step. apply wp_in_kernel. kstep. rewrite Hp. replace (with_mk s (mk s)) with s by (by destruct s).
  wp_step. apply wp_in_kernel. kstep. eapply wp_mono.
  - apply (read_dispatch_mapped_spec c k r b rq); [by destruct Hq; split|done..].
  - intros res s' (H56 & b' & Hrcv & Hmk & Hds). split; [done|]. exists b'. split_and!; [done|exact Hmk|].
    by eapply described_set_devices.
Qed.

Lemma described_mapped w s0 l b s : described mc start w s0 l b s -> exists n, mapped mc start w s0 l n s.
Proof. intros []; eauto. Qed.

(** The area shows a mapped write. *)
Lemma described_payload s0 segs b s :
  let l := lay_all start segs in
  map_ready mc start -> Forall seg_ok segs -> Forall (fun v => apart mc (bv_start v) (bv_len v)) segs ->
  described mc start true s0 l b s ->
  user_byte s <$> extents (l_entries l) = Some <$> mem_gather (mem_of s0) (concat (bv_addrs <$> segs)).
Proof.
  intros l Hready Hok Hap [n Hm]%described_mapped. destruct (mr_start _ _ Hready) as (_ & Hmod & _).
  destruct (lay_all_ok start segs Hok) as [Ha Hr _ _]. fold l in Ha, Hr. rewrite Hr, <- Ha.
  pose proof (lay_all_shape start segs Hok) as Hsh. fold l in Hsh.
  rewrite <- (shown_payload s0 (mem_of s)); [|done|apply (md_content _ _ _ _ _ _ _ Hm)|].
  - pose proof (ranges_kernel mc start Hmod _ s Hsh (mapped_area _ _ _ _ _ Hm)) as Hk.
    apply list_eq. intros i. pose proof (f_equal (.!! i) Hk) as Hi. unfold mem_gather.
    rewrite !list_lookup_fmap in *. destruct (user_ranges start (l_pages l) !! i) as [a|];
      destruct (concat _ !! i) as [x|]; simpl in *; try congruence. injection Hi as Hi.
    unfold user_byte. by rewrite (store_addr_kernel _ _ _ Hi).
  - rewrite Ha. intros x Hx. apply (md_mem _ _ _ _ _ _ _ Hm). by eapply segs_outside.
Qed.

(** A large write is mapped, not copied: the read call returns a header
    whose addresses and sizes, read through the process's page table, give
    exactly the bytes of the request, in order. *)
Theorem mapped_read_shows_payload c dev k rest conn d r b rq s pad1 pad2 waits to :
  takes c dev k rest conn d s ->
  map_request c k start mc r b rq s -> segments_fit start mc (rq_for_each_segment rq) ->
  reserved_count (l_pages (lay_all start (rq_for_each_segment rq))) <= BIUS_MAX_SEGMENTS ->
  request_is_write (req_type r) = true ->
  BIUS_MAP_DATA_THRESHOLD < req_length r < 2 ^ 64 -> req_length r = Z.of_nat (length (rq_extent rq)) ->
  length pad1 = 4%nat -> length pad2 = 4%nat -> sizeof_k2u <= iov_avail to ->
  wp (bius_dev_read_mapped c pad1 pad2 waits to) (fun res s' => res.1 = sizeof_k2u /\ exists h es,
    iov_received res.2 = iov_received to ++ k2u_bytes pad1 pad2 h /\
    k2u_id h = req_id r /\ k2u_opcode h = req_type r /\ header_names s' h es /\
    user_byte s' <$> extents es = Some <$> mem_gather (mem_of s) (rq_extent rq)) s.
Proof.
  intros Ht Hq Hfit Hres Hw [Hlen Hlt] Hext Hp1 Hp2 Hav. pose proof Hq as [_ _ Hready _ _ _ _]. pose proof Hfit as [_ Hok Hap _ Hent].
  eapply wp_mono; [apply (bius_dev_read_mapped_spec c dev k rest conn d r b rq); try done; by apply request_is_write_may_have_data|].
  rewrite Hw, <- rq_segments_extent in *. intros res s' (H56 & b' & Hrcv & _ & Hd). split; [done|].
  exists (map_header start r b'), (l_entries (lay_all start (rq_for_each_segment rq))).
  split_and!; [done..| |by eapply described_payload].
  eapply described_header; done.
Qed.

(** ** Copying in

    What [bius_copy_in_misaligned_pages] owes each page: the bytes the process
    stored in a reserved page belong to the client's page. *)
Definition flush_page (m : memory) (p : page_use) : memory :=
  match p with
  | Direct _ => m
  | Reserved r a lo hi => mem_write m (a + lo) (mem_read m (R + PAGE_SIZE * r + lo) (hi - lo))
  end.

Definition slot_ok (m : memory) (p : page_use) : Prop :=
  match p with
  | Direct _ => True
  | Reserved r a lo hi => 2 <= r < BIUS_NUM_RESERVED_PAGES /\ le_value (mem_read m (R + (PAGE_SIZE + 8 * r)) 8) = a
  end.

Lemma copy_reserved_spec s r a lo hi :
  slot_ok (mem_of s) (Reserved r a lo hi) -> 0 <= lo < hi -> hi <= PAGE_SIZE ->
  copy_reserved mc r lo (hi - lo) s = Ret (tt, set_mem (fun m => flush_page m (Reserved r a lo hi)) s).
Proof.
  intros [Hr Ha] Hlo Hhi. unfold copy_reserved, load_reserve, reserved_read.
  assert (in_reserved (PAGE_SIZE + 8 * r) 8 = true) as Hi1.
  { unfold in_reserved, BIUS_NUM_RESERVED_PAGES, BIUS_MAX_SEGMENTS, PAGE_SIZE in *. apply andb_true_iff. rewrite !Z.leb_le. lia. }
  assert (in_reserved (PAGE_SIZE * r + lo) (hi - lo) = true) as Hi2.
  { unfold in_reserved, BIUS_NUM_RESERVED_PAGES, BIUS_MAX_SEGMENTS, PAGE_SIZE in *. apply andb_true_iff. rewrite !Z.leb_le. lia. }
  unfold mbind, ST_bind. rewrite Hi1, Hi2. unfold mbind, ST_bind, gets, modify, mret, ST_ret. fold R. rewrite Ha.
  unfold flush_page. by rewrite Z.add_assoc.
Qed.

(** The two places [copy_in_entries] copies for an entry. *)
Definition array_entries (l : list Z) : Z -> ST mstate Z := stack_entry l.

Lemma stack_entry_get l (i : nat) v s : l !! i = Some v -> stack_entry l (Z.of_nat i) s = Ret (v, s).
Proof.
  intros Hv. unfold stack_entry. destruct (Z.leb_spec 0 (Z.of_nat i)); [|lia]. by rewrite Nat2Z.id, Hv.
Qed.

Lemma copy_in_simple_loop fuel addr size s :
  0 < addr -> 0 < size -> addr + size < 2 ^ 64 ->
  let offset := addr mod PAGE_SIZE in
  let front := negb (offset =? 0) in
  let short := offset + size <? PAGE_SIZE in
  copy_in_entries (S (S fuel)) mc (stack_entry [addr; size; 0; 0]) 0 2 s =
    ((_ ← (if front then copy_reserved mc 2 offset (if short then size else PAGE_SIZE - offset) else mret tt);
      if ((addr + size) mod PAGE_SIZE =? 0) || (front && short) then mret tt
      else copy_reserved mc (if front then 3 else 2) 0 ((addr + size) mod PAGE_SIZE)) : ST mstate unit) s.
Proof.
  intros Ha Hs Hlt offset front short. pose proof (Z.mod_pos_bound addr PAGE_SIZE ltac:(done)) as Hoff.
  pose proof (Z.mod_le addr PAGE_SIZE ltac:(lia) ltac:(done)) as Hle. fold offset in Hoff, Hle.
  assert (forall m s', (copy_in_entries (S fuel) mc (stack_entry [addr; size; 0; 0]) (0 + 1) m) s' = Ret (tt, s')) as Hend.
  { intros m s'. cbn [copy_in_entries]. unfold mbind at 1, ST_bind at 1. by rewrite (stack_entry_get _ 2 0). }
  remember (S fuel) as fuel'. cbn [copy_in_entries]. unfold mbind at 1, ST_bind at 1.
  rewrite (stack_entry_get _ 0 addr) by done. destruct (Z.eqb_spec addr 0); [lia|].
  unfold mbind at 1, ST_bind at 1. rewrite (stack_entry_get _ 1 size) by done.
  unfold mbind at 1, ST_bind at 1. rewrite (stack_entry_get _ 0 addr) by done.
  fold offset. rewrite (wrap_small 64 (addr + size)), (wrap_small 64 (offset + size)) by lia. fold short.
  assert ((offset =? 0) = negb front) as -> by (unfold front; by rewrite negb_involutive). clearbody front.
  destruct front; cbn [negb andb]; unfold mbind, ST_bind, mret, ST_ret in *.
  - destruct (copy_reserved mc 2 offset _ s) as [[[] s1]| |]; [|done|done].
    destruct (_ || short); [by rewrite Hend|]. change (2 + 1) with 3.
    destruct (copy_reserved mc 3 0 _ s1) as [[[] s2]| |]; [|done|done]. by rewrite Hend.
  - rewrite orb_false_r. destruct (_ =? 0) eqn:He; [by rewrite Hend|].
    destruct (copy_reserved mc 2 0 _ s) as [[[] s2]| |]; [|done|done]. by rewrite Hend.
Qed.

Definition page_apart (p : page_use) : Prop := apart mc (page_data p + page_lo p) (page_hi p - page_lo p).

Lemma flush_direct ps m : reserved_nos ps = [] -> foldl flush_page m ps = m.
Proof. induction ps as [|[a|r a lo hi] ps IH]; [done| |done]. exact IH. Qed.

Lemma flush_outside m p x : page_shape p -> x ∉ page_addrs p -> flush_page m p !! x = m !! x.
Proof.
  destruct p as [a|r a lo hi]; [done|]. intros [Hlo _] Hx. apply mem_write_outside. rewrite length_mem_read.
  unfold page_addrs in Hx; cbn [page_data page_lo page_hi] in Hx. rewrite elem_of_seqZ in Hx. lia.
Qed.
Lemma slot_flush m p q : page_shape p -> page_apart p -> slot_ok m q -> slot_ok (flush_page m p) q.
Proof.
  destruct q as [|r a lo hi]; [done|]. intros Hp Hap [Hr Ha]. split; [done|]. rewrite <- Ha. f_equal.
  apply mem_read_ext. intros x Hx. apply flush_outside; [done|]. unfold page_addrs. rewrite elem_of_seqZ.
  unfold page_apart, apart, reserved_size, BIUS_NUM_RESERVED_PAGES, BIUS_MAX_SEGMENTS, PAGE_SIZE in *. fold R in Hap. lia.
Qed.

Lemma reserved_nos_two r a lo hi fulls tail :
  reserved_nos (Reserved r a lo hi :: fulls ++ tail) = seqZ 2 (reserved_count (Reserved r a lo hi :: fulls ++ tail)) ->
  reserved_nos fulls = [] -> r = 2 /\ forall r' a' lo' hi', tail = [Reserved r' a' lo' hi'] -> r' = 3.
Proof.
  rewrite reserved_nos_cons, reserved_nos_app. intros Hno Hf. rewrite Hf in Hno. cbn [app length] in Hno.
  rewrite seqZ_cons in Hno by lia. injection Hno as -> Hno. split; [done|]. intros r' a' lo' hi' ->.
  change (reserved_nos [_]) with [r'] in Hno. cbn [length] in Hno. rewrite seqZ_cons in Hno by lia. by injection Hno.
Qed.

(** The last page of a stretch is copied when it is a part. *)
Lemma copy_tail s fulls tail n r :
  reserved_nos fulls = [] -> (forall r' a lo hi, tail = [Reserved r' a lo hi] -> r' = r) ->
  Forall (slot_ok (mem_of s)) tail ->
  ((n mod PAGE_SIZE = 0 /\ tail = []) \/
   (n mod PAGE_SIZE <> 0 /\ exists r d, tail = [Reserved r d 0 (n mod PAGE_SIZE)])) ->
  (if n mod PAGE_SIZE =? 0 then mret tt else copy_reserved mc r 0 (n mod PAGE_SIZE)) s
    = Ret (tt, set_mem (fun m => foldl flush_page m (fulls ++ tail)) s).
Proof.
  intros Hno Hr Hsl Ht. pose proof (Z.mod_pos_bound n PAGE_SIZE ltac:(done)) as Hm.
  assert (forall t, set_mem (fun m => foldl flush_page m (fulls ++ t)) s = set_mem (fun m => foldl flush_page m t) s) as Hset.
  { intros t. destruct s as [k t1 t2]. unfold set_mem, with_mk, set_kmem; simpl. by rewrite foldl_app, (flush_direct fulls). }
  rewrite Hset. destruct Ht as [[-> ->]|(Hne & r' & d & ->)].
  - by destruct s as [[] ? ?].
  - destruct (Z.eqb_spec (n mod PAGE_SIZE) 0); [done|]. rewrite <- (Hr r' d 0 (n mod PAGE_SIZE) eq_refl).
    apply Forall_cons in Hsl as [Hsl _]. rewrite <- (Z.sub_0_r (n mod PAGE_SIZE)) at 1.
    by rewrite (copy_reserved_spec s r' d 0 (n mod PAGE_SIZE)) by (done || lia).
Qed.

Lemma copy_in_simple_pages fuel ps s off n :
  Forall page_shape ps -> Forall (slot_ok (mem_of s)) ps -> Forall page_apart ps ->
  reserved_nos ps = seqZ 2 (reserved_count ps) -> user_ranges start ps = seqZ (start + off) n ->
  0 <= off < PAGE_SIZE -> 0 < n -> 0 < start -> start mod PAGE_SIZE = 0 -> start + off + n < 2 ^ 64 ->
  copy_in_entries (S (S fuel)) mc (stack_entry [start + off; n; 0; 0]) 0 2 s
    = Ret (tt, set_mem (fun m => foldl flush_page m ps) s).
Proof.
  intros Hsh Hsl Hap Hno Hr Hoff Hn Hst Hmod Hlt.
  assert ((start + off) mod PAGE_SIZE = off) as Hmo.
  { destruct (page_of start 0 off Hmod Hoff) as [_ Hm]. by rewrite Z.mul_0_r, Z.add_0_r in Hm. }
  assert ((start + off + n) mod PAGE_SIZE = (off + n) mod PAGE_SIZE) as Hme.
  { rewrite <- Zplus_mod_idemp_l, Hmo. done. }
  rewrite copy_in_simple_loop by lia. rewrite Hmo, Hme. cbv zeta.
  destruct (Z.eqb_spec off 0) as [Hz|Hz]; cbn [negb andb].
  - rewrite Hz, orb_false_r, Z.add_0_l, Z.add_0_r in *. unfold mbind, ST_bind, mret at 1, ST_ret at 1.
    destruct (aligned_stretch start ps n Hsh Hr ltac:(lia)) as (fulls & tail & -> & Hfno & Ht).
    apply copy_tail; [done| |by apply Forall_app in Hsl as [_ ?]|done].
    intros r' a lo hi ->. rewrite reserved_nos_app, Hfno in Hno. change (reserved_nos [_]) with [r'] in Hno. by injection Hno.
  - apply first_page in Hr as (p & rest & -> & Hlo & Hlo1 & Hcase); [|done|done].
    assert (page_lo p = off) as Hlop by lia. rewrite Hlop in *.
    destruct p as [d|r d lo hi]; [simpl in Hlop; lia|]. cbn [page_lo page_hi] in *. subst lo.
    apply Forall_cons in Hsl as [Hsl1 Hsl]. apply Forall_cons in Hsh as [Hsh1 Hsh]. apply Forall_cons in Hap as [Hap1 Hap].
    assert (forall rest', Forall (slot_ok (mem_of s)) rest' ->
      Forall (slot_ok (mem_of (set_mem (fun m => flush_page m (Reserved r d off hi)) s))) rest') as Hslot.
    { intros rest' Hrest. eapply Forall_impl; [exact Hrest|]. intros q Hq. by apply slot_flush. }
    destruct Hcase as [[-> ->]|(-> & Hlong & Hrest)].
    + destruct (reserved_nos_two r d off (off + n) [] [] Hno eq_refl) as [-> _].
      assert (((off + n) mod PAGE_SIZE =? 0) || (off + n <? PAGE_SIZE) = true) as ->.
      { destruct Hsh1 as (_ & Hhi & _). destruct (Z.ltb_spec (off + n) PAGE_SIZE); [by rewrite orb_true_r|].
        assert (off + n = PAGE_SIZE) as -> by lia. done. }
      replace (if off + n <? PAGE_SIZE then n else PAGE_SIZE - off) with (off + n - off)
        by (destruct Hsh1; destruct (Z.ltb_spec (off + n) PAGE_SIZE); lia).
      unfold mbind, ST_bind. rewrite (copy_reserved_spec s 2 d off (off + n)) by (done || (destruct Hsh1; lia)). done.
    + destruct (Z.ltb_spec (off + n) PAGE_SIZE); [lia|]. rewrite orb_false_r.
      destruct (aligned_stretch (start + PAGE_SIZE) rest (off + n - PAGE_SIZE) Hsh Hrest ltac:(lia)) as (fulls & tail & -> & Hfno & Ht).
      destruct (reserved_nos_two _ _ _ _ _ _ Hno Hfno) as [-> Htail].
      unfold mbind, ST_bind. rewrite (copy_reserved_spec s 2 d off PAGE_SIZE) by (done || (destruct Hsh1; lia)).
      assert ((off + n) mod PAGE_SIZE = (off + n - PAGE_SIZE) mod PAGE_SIZE) as ->.
      { replace (off + n) with (off + n - PAGE_SIZE + 1 * PAGE_SIZE) at 1 by lia. by rewrite Z.mod_add by done. }
      rewrite (copy_tail _ fulls tail _ 3); [|done..| |done].
      * destruct s; done.
      * apply Hslot. by apply Forall_app in Hsl as [_ ?].
Qed.

(** *** What the copies amount to *)

(** The client's bytes and the reserved pages are apart, no byte is named twice. *)
Record pages_wf (ps : list page_use) : Prop := {
  pw_shape : Forall page_shape ps;
  pw_nodup : NoDup (concat (page_addrs <$> ps));
  pw_outside : forall x, x ∈ concat (page_addrs <$> ps) -> ~ in_reserved_pages mc x;
  pw_range : forall r, r ∈ reserved_nos ps -> 2 <= r < BIUS_NUM_RESERVED_PAGES;
  pw_nos : NoDup (reserved_nos ps) }.

Lemma pages_wf_cons p ps :
  pages_wf (p :: ps) -> pages_wf ps /\ page_shape p /\ page_addrs p ## concat (page_addrs <$> ps) /\
    (forall x, x ∈ page_addrs p -> ~ in_reserved_pages mc x) /\
    (forall r, reserved_no p = Some r -> 2 <= r < BIUS_NUM_RESERVED_PAGES /\ r ∉ reserved_nos ps).
Proof.
  intros [Hsh Hnd Hout Hrg Hno]. apply Forall_cons in Hsh as [Hp Hsh]. rewrite fmap_cons in *. cbn [concat] in *.
  apply NoDup_app in Hnd as (_ & Hdisj & Hnd). setoid_rewrite elem_of_app in Hout.
  split_and!; [split; try done; eauto|done|exact Hdisj|eauto|].
  - intros r Hr. apply Hrg. destruct p as [a|r' a lo hi]; [done|]. rewrite reserved_nos_cons. by right.
  - destruct p as [a|r' a lo hi]; [done|]. rewrite reserved_nos_cons in Hno. by apply NoDup_cons in Hno as [_ ?].
  - intros r Hr. destruct p as [a|r' a lo hi]; [done|]. injection Hr as <-. rewrite reserved_nos_cons in *.
    apply NoDup_cons in Hno as [? _]. split; [apply Hrg; by left|done].
Qed.

(** A page's bytes are at the client's address or in its reserved page. *)
Lemma page_kernel_where p x :
  page_shape p -> x ∈ page_kernel mc p ->
  (reserved_no p = None /\ x ∈ page_addrs p) \/
  (exists r, reserved_no p = Some r /\ R + PAGE_SIZE * r <= x < R + PAGE_SIZE * (r + 1)).
Proof.
  destruct p as [a|r a lo hi]; intros Hp Hx; [by left|]. right. exists r. split; [done|].
  unfold page_kernel in Hx. cbn [page_shown page_lo page_hi] in Hx. apply elem_of_seqZ in Hx. simpl in Hp. fold R in Hx. lia.
Qed.
Lemma pages_kernel_where ps x :
  Forall page_shape ps -> x ∈ concat (page_kernel mc <$> ps) ->
  x ∈ concat (page_addrs <$> ps) \/
  (exists r, r ∈ reserved_nos ps /\ R + PAGE_SIZE * r <= x < R + PAGE_SIZE * (r + 1)).
Proof.
  intros Hsh (p & Hp & Hx)%elem_of_concat_fmap. eapply Forall_forall in Hsh as Hps; [|exact Hp].
  destruct (page_kernel_where p x Hps Hx) as [[_ Ha]|(r & Hr & Hin)].
  - left. apply elem_of_concat_fmap. by exists p.
  - right. exists r. split; [|done]. apply list_elem_of_omap. by exists p.
Qed.

Lemma reserved_page_region r x :
  2 <= r < BIUS_NUM_RESERVED_PAGES -> R + PAGE_SIZE * r <= x < R + PAGE_SIZE * (r + 1) -> in_reserved_pages mc x.
Proof. unfold in_reserved_pages, reserved_size, PAGE_SIZE. fold R. lia. Qed.

Lemma page_kernel_disjoint p ps :
  pages_wf (p :: ps) -> page_kernel mc p ## concat (page_kernel mc <$> ps).
Proof.
  intros Hwf x Hx Hxs. pose proof (pw_shape _ Hwf) as Hsh. apply Forall_cons in Hsh as [_ Hsh].
  destruct (pages_wf_cons p ps Hwf) as (Hwf' & Hp & Hdisj & Hout & Hno).
  destruct (page_kernel_where p x Hp Hx) as [[_ Ha]|(r & Hr & Hin)];
    destruct (pages_kernel_where ps x Hsh Hxs) as [Hb|(r' & Hr' & Hin')].
  - by eapply Hdisj.
  - apply (Hout x Ha). eapply reserved_page_region; [|exact Hin']. by apply (pw_range _ Hwf').
  - apply (pw_outside _ Hwf' x Hb). eapply reserved_page_region; [|exact Hin]. by apply Hno.
  - destruct (Hno r Hr) as [_ Hni]. apply Hni. assert (r = r') as -> by (unfold PAGE_SIZE in *; lia). done.
Qed.
Lemma pages_kernel_nodup ps : pages_wf ps -> NoDup (concat (page_kernel mc <$> ps)).
Proof.
  induction ps as [|p ps IH]; intros Hwf; [constructor|]. rewrite fmap_cons. cbn [concat].
  apply NoDup_app. split; [apply NoDup_seqZ|]. split; [exact (page_kernel_disjoint p ps Hwf)|].
  apply IH. by apply pages_wf_cons in Hwf as [? _].
Qed.

Lemma flush_all_outside m ps x :
  Forall page_shape ps -> x ∉ concat (page_addrs <$> ps) -> foldl flush_page m ps !! x = m !! x.
Proof.
  intros Hsh. revert m. induction Hsh as [|p ps Hp _ IH]; intros m Hx; [done|]. simpl.
  rewrite fmap_cons in Hx. cbn [concat] in Hx. apply not_elem_of_app in Hx as [Hx1 Hx2].
  rewrite IH by done. by apply flush_outside.
Qed.

Lemma flush_page_bytes m p :
  pages_wf [p] -> mem_gather (flush_page m p) (page_addrs p) = mem_gather m (page_kernel mc p).
Proof.
  intros Hwf. destruct (pages_wf_cons p [] Hwf) as (_ & Hp & _ & Hout & _).
  destruct p as [a|r a lo hi]; [done|]. unfold page_addrs, page_kernel. cbn [page_data page_lo page_hi page_shown flush_page].
  rewrite !mem_gather_seqZ. simpl in Hp. apply mem_read_write_same. rewrite length_mem_read. lia.
Qed.

(** Copying every reserved page puts the process's bytes in the request. *)
Lemma flush_all m ps :
  pages_wf ps -> mem_gather (foldl flush_page m ps) (concat (page_addrs <$> ps)) = mem_gather m (concat (page_kernel mc <$> ps)).
Proof.
  revert m. induction ps as [|p ps IH]; intros m Hwf; [done|].
  destruct (pages_wf_cons p ps Hwf) as (Hwf' & Hp & Hdisj & Hout & Hno).
  rewrite !fmap_cons. cbn [concat foldl]. rewrite !mem_gather_app. f_equal.
  - rewrite <- flush_page_bytes.
    + apply mem_gather_ext. intros x Hx. apply flush_all_outside; [apply Hwf'|]. intros Hx'. by eapply Hdisj.
    + split; [by constructor| | |intros r Hr; apply Hno|].
      * simpl. rewrite app_nil_r. apply NoDup_seqZ.
      * intros x. simpl. rewrite app_nil_r. apply Hout.
      * destruct p as [a|r' a lo hi]; [by apply elem_of_nil in Hr|]. rewrite reserved_nos_cons in Hr.
        apply elem_of_cons in Hr as [->|Hr]; [done|]. by apply elem_of_nil in Hr.
      * destruct p; [constructor|apply NoDup_singleton].
  - rewrite IH by done. apply mem_gather_ext. intros x Hx. apply flush_outside; [done|]. intros Hxp.
    destruct (pages_kernel_where ps x (pw_shape _ Hwf') Hx) as [Hb|(r' & Hr' & Hin')]; [by eapply Hdisj|].
    apply (Hout x Hxp). eapply reserved_page_region; [|exact Hin']. by apply (pw_range _ Hwf').
Qed.
End payload.

Lemma ms_takes t segs len : takes 200 100 7 [] ms_waits (ms_device [7]) (ms_state t segs len).
Proof. by split. Qed.

Lemma mapped_read_shows_payload_witness :
  wp (bius_dev_read_mapped 200 ms_pad ms_pad [] (sample_buf 56 56 []))
    (fun res s' => res.1 = 56 /\ exists h es,
      ub_out res.2 = k2u_bytes ms_pad ms_pad h /\ header_names s' h es /\
      user_byte s' <$> extents es
        = Some <$> mem_gather (mem_of (ms_state BIUS_WRITE ms_segs ms_len)) (rq_extent (ms_rq ms_segs ms_len)))
    (ms_state BIUS_WRITE ms_segs ms_len).
Proof.
  pose proof ms_extent as [Hext _]. pose proof (ms_segments ms_segs ms_len (sf_ok _ _ _ ms_segs_fit)) as Hsegs.
  eapply wp_mono.
  - apply (mapped_read_shows_payload ms_conn ms_start 200 100 7 [] ms_waits (ms_device [7]) (ms_pdu BIUS_WRITE ms_len) ms_blk
      (ms_rq ms_segs ms_len) (ms_state BIUS_WRITE ms_segs ms_len) ms_pad ms_pad [] (sample_buf 56 56 [])).
    + apply ms_takes.
    + apply ms_request.
    + rewrite Hsegs. exact ms_segs_fit.
    + rewrite Hsegs. by vm_compute.
    + reflexivity.
    + split; by vm_compute.
    + symmetry. exact Hext.
    + reflexivity.
    + reflexivity.
    + by vm_compute.
  - intros res s' (H56 & h & es & Hrcv & _ & _ & Hn & Hp). split; [exact H56|]. exists h, es. split_and!; [exact Hrcv|exact Hn|exact Hp].
Defined.
