(* ===== verification/MappedReply.v ===== *)
(** * The reply to a mapped request

    The process has stored a read's data in the area: the write call that
    carries the reply copies what is in reserved pages, takes the pages out of the
    area, and completes the request. *)
From S2P Require Import Prelude Protocol Linux Kernel Sample Command BlockDev CharDev CharDevProps LibBiusProps DataMapping PageLayout MappingProps MappingSample MappedIO.

Section reply.
Context `{BL : BioLaws} `{IL : IovLaws} `{LC : LinuxConst} `{ML : MmLaws}.
Context (zero_page_pfn : Z) (mc : map_conn) (start : Z).
Let R := mc_reserved_pages mc.

(** ** [bius_unmap_data] *)
Definition zero_pte : pte := Pte zero_page_pfn PAGE_READONLY.

Lemma unmap_pages_spec n i s :
  map_ready mc start -> 0 <= i -> i + Z.of_nat n <= BIUS_PTES_PER_COMMAND ->
  exists t, unmap_pages zero_page_pfn n mc i s = Ret (tt, set_table (fun _ => t) s) /\
    (forall j, i <= j < i + Z.of_nat n -> t !! (start + PAGE_SIZE * j) = Some zero_pte) /\
    (forall a, (forall j, i <= j < i + Z.of_nat n -> a <> start + PAGE_SIZE * j) -> t !! a = page_table s !! a).
Proof.
  intros Hready. revert i s. induction n as [|n IH]; intros i s Hi Hn.
  { exists (page_table s). split_and!; [by destruct s|lia|done]. }
  cbn [unmap_pages]. set (s1 := set_table <[start + PAGE_SIZE * i := zero_pte]> s).
  destruct (IH (i + 1) s1) as (t & Ht & Hin & Hout); [lia|lia|]. exists t.
  assert (set_pte_at mc i (Pte zero_page_pfn PAGE_READONLY) s = Ret (tt, s1)) as Hset.
  { unfold set_pte_at. destruct (Z.leb_spec 0 i); [|lia]. destruct (Z.ltb_spec i BIUS_PTES_PER_COMMAND); [|lia].
    cbn [andb]. unfold mbind, ST_bind. by rewrite (mr_ptes _ _ Hready) by lia. }
  assert (forall j, j <> i -> start + PAGE_SIZE * j <> start + PAGE_SIZE * i) as Hinj by (unfold PAGE_SIZE; lia).
  split_and!.
  - unfold mbind, ST_bind. by rewrite Hset, Ht.
  - intros j Hj. destruct (decide (j = i)) as [->|Hne]; [|apply Hin; lia].
    rewrite Hout; [apply lookup_insert_eq|]. intros j' Hj'. apply not_eq_sym, Hinj. lia.
  - intros a Ha. rewrite Hout.
    + apply lookup_insert_ne, not_eq_sym, Ha. lia.
    + intros j Hj. apply Ha. lia.
Qed.

(** The pages of the area that can be mapped show the zero page. *)
Definition area_clean (s : mstate) : Prop :=
  forall i, 0 <= i < BIUS_PTES_PER_COMMAND -> page_table s !! (start + PAGE_SIZE * i) = Some zero_pte.

Lemma described_size w s0 l b s :
  described mc start w s0 l b s -> exists n,
    b_mapped_size b = PAGE_SIZE * Z.of_nat n /\ mapped mc start w s0 l (Z.of_nat n) s /\ b_map_type b <> BIUS_DATAMAP_UNMAPPED /\
    Z.of_nat n <= Z.of_nat (length (l_pages l)) + 1.
Proof.
  intros [n Hty He Hoff Hsz Hm | pfn Hty Hn Hdata Hsz Htab Hpfn Hz Hm].
  - exists (length (l_pages l)). split_and!; [done..|congruence|lia].
  - exists (S (length (l_pages l))). rewrite Nat2Z.inj_succ. split_and!; [lia|done|congruence|lia].
Qed.

(** Unmapping what was mapped leaves the page table as it was. *)
Lemma unmap_data_spec c k w r b s0 s1 s vma :
  let l := lay_all start (rq_for_each_segment r) in
  map_ready mc start -> map_conns s !! c = Some mc -> mc_vma mc = Some vma ->
  pdus (mk s) !! k = Some b.1 -> req_u b.1 = UBlk b.2 ->
  described mc start w s0 l b.2 s1 -> page_table s = page_table s1 ->
  Z.of_nat (length (l_pages l)) < BIUS_PTES_PER_COMMAND -> area_clean s0 ->
  wp (bius_unmap_data zero_page_pfn k c) (fun _ s' => page_table s' = page_table s0 /\ map_conns s' = map_conns s /\
    mk s' = set_pdus <[k := with_blk b.1 (with_mapping b.2 BIUS_DATAMAP_UNMAPPED (b_map_data b.2) (b_mapped_size b.2))]> (mk s)) s.
Proof.
  intros l Hready Hc Hv Hr Hu Hd Htab Hfit Hclean.
  destruct (described_size _ _ _ _ _ Hd) as (n & Hsz & Hm & Hty & Hn).
  unfold bius_unmap_data. wp_step. eapply wp_get_mc; [done|]. wp_step. eapply wp_deref; [done|].
  wp_step. apply wp_in_kernel. kstep. replace (with_mk s (mk s)) with s by (by destruct s).
  wp_step. apply wp_in_kernel. kstep. replace (with_mk s (mk s)) with s by (by destruct s).
  rewrite bool_decide_eq_false_2 by done.
  rewrite Hsz, (Z.mul_comm PAGE_SIZE), Z.div_mul by done.
  assert (BIUS_PTES_PER_COMMAND < 2 ^ 31) by done. rewrite (swrap_small 32), Nat2Z.id by lia.
  destruct (unmap_pages_spec n 0 s Hready) as (t & Ht & Hin & Hout); [done|lia|].
  wp_step. eapply wp_intro; [exact Ht|]. cbv beta. apply wp_in_kernel. kstep. split; [|done].
  cbn [page_table with_mk set_table]. apply map_eq. intros a.
  destruct (decide (Exists (fun j => a = start + PAGE_SIZE * j) (seqZ 0 (Z.of_nat n)))) as [Hex|Hne].
  - apply Exists_exists in Hex as (j & Hj & ->). apply elem_of_seqZ in Hj. rewrite Hin by lia. symmetry. apply Hclean. lia.
  - assert (forall j, 0 <= j < 0 + Z.of_nat n -> a <> start + PAGE_SIZE * j) as Ha.
    { intros j Hj ->. apply Hne, Exists_exists. exists j. split; [apply elem_of_seqZ; lia|done]. }
    rewrite Hout by exact Ha. rewrite Htab. apply (md_table _ _ _ _ _ _ _ Hm). exact Ha.
Qed.

(** ** The pages of a layout are disjoint *)
Lemma lay_all_pages_wf w s0 segs n s :
  let l := lay_all start segs in
  Forall seg_ok segs -> Forall (fun v => apart mc (bv_start v) (bv_len v)) segs ->
  NoDup (concat (bv_addrs <$> segs)) -> mapped mc start w s0 l n s -> pages_wf mc (l_pages l).
Proof.
  intros l Hok Hap Hnd Hm. destruct (lay_all_ok start segs Hok) as [Ha _ _ _]. fold l in Ha.
  split; [by apply lay_all_shape|by rewrite Ha| | |].
  - rewrite Ha. intros x. by apply segs_outside.
  - intros r (p & Hp & Hr)%list_elem_of_omap. pose proof (md_content _ _ _ _ _ _ _ Hm) as Hc.
    eapply Forall_forall in Hc; [|exact Hp]. destruct p as [|r' a lo hi]; [done|]. injection Hr as ->. by destruct Hc as [? _].
  - rewrite (md_nos _ _ _ _ _ _ _ Hm). apply NoDup_seqZ.
Qed.

Lemma page_addrs_apart ps :
  pages_wf mc ps -> Forall (page_apart mc) ps.
Proof.
  intros [Hsh _ Hout _ _]. apply Forall_forall. intros p Hp. eapply Forall_forall in Hsh; [|exact Hp].
  destruct (page_range p Hsh) as [Hlo Hhi].
  assert (forall x, x ∈ page_addrs p -> ~ in_reserved_pages mc x) as Hx.
  { intros x Hx. apply Hout, elem_of_concat_fmap. by exists p. }
  unfold page_apart, apart. unfold page_addrs in Hx. setoid_rewrite elem_of_seqZ in Hx. unfold in_reserved_pages in Hx.
  set (a := page_data p + page_lo p) in *. set (k := page_hi p - page_lo p) in *.
  assert (PAGE_SIZE <= reserved_size) as Hrs by done.
  destruct (decide (a + k <= mc_reserved_pages mc)) as [|Hn]; [by left|]. right.
  destruct (decide (mc_reserved_pages mc + reserved_size <= a)) as [|Hn']; [done|]. exfalso.
  destruct (decide (mc_reserved_pages mc <= a)); [apply (Hx a); lia|].
  apply (Hx (mc_reserved_pages mc)); lia.
Qed.

(** The slots of [reserve_mapping_list] survive the process's stores, which reach
    the bytes of the request alone. *)
Lemma stores_keep_slots w s0 l n s m :
  mapped mc start w s0 l n s -> pages_wf mc (l_pages l) ->
  (forall x, x ∉ concat (page_kernel mc <$> l_pages l) -> m !! x = mem_of s !! x) ->
  Forall (slot_ok mc m) (l_pages l).
Proof.
  intros Hm Hwf Hout. apply Forall_forall. intros p Hp. pose proof (md_content _ _ _ _ _ _ _ Hm) as Hc.
  eapply Forall_forall in Hc; [|exact Hp]. destruct p as [|r a lo hi]; [done|].
  destruct Hc as (Hr & _ & _ & _ & Hsl & _). split; [done|]. rewrite <- Hsl. f_equal. apply mem_read_ext. intros x Hx.
  apply Hout. intros Hin.
  unfold BIUS_NUM_RESERVED_PAGES, BIUS_MAX_SEGMENTS, PAGE_SIZE in *.
  destruct (pages_kernel_where mc _ x (pw_shape _ _ Hwf) Hin) as [Ha|(r' & Hr' & Hin')].
  - apply (pw_outside _ _ Hwf x Ha). unfold in_reserved_pages, reserved_size, BIUS_NUM_RESERVED_PAGES, BIUS_MAX_SEGMENTS, PAGE_SIZE. lia.
  - apply (pw_range _ _ Hwf) in Hr'. unfold BIUS_NUM_RESERVED_PAGES, BIUS_MAX_SEGMENTS, PAGE_SIZE in *. lia.
Qed.

Lemma length_pages_kernel ps :
  length (concat (page_kernel mc <$> ps)) = length (concat (page_addrs <$> ps)).
Proof.
  induction ps as [|p ps IH]; [done|]. rewrite !fmap_cons. cbn [concat]. rewrite !length_app, IH.
  unfold page_kernel, page_addrs. by rewrite !length_seqZ.
Qed.

(** ** Copying in a request with one entry *)
Lemma copy_in_fuel_two : exists n, copy_in_fuel = S (S n).
Proof. exists (Z.to_nat 66047). unfold copy_in_fuel. change (PAGE_SIZE * _ / 16) with (Z.succ 66047). by rewrite Z2Nat.inj_succ. Qed.

Lemma copy_in_simple c k r b segs s0 s1 s vma :
  let l := lay_all start segs in
  map_ready mc start -> Forall seg_ok segs -> Forall (fun v => apart mc (bv_start v) (bv_len v)) segs ->
  NoDup (concat (bv_addrs <$> segs)) -> described mc start (request_is_write (req_type r)) s0 l b s1 ->
  length (l_entries l) = 1%nat -> Z.of_nat (length (l_pages l)) < BIUS_PTES_PER_COMMAND ->
  req_length r = Z.of_nat (length (concat (bv_addrs <$> segs))) ->
  map_conns s !! c = Some mc -> mc_vma mc = Some vma -> vma.1 = start ->
  pdus (mk s) !! k = Some r -> req_u r = UBlk b ->
  (forall x, x ∉ concat (page_kernel mc <$> l_pages l) -> mem_of s !! x = mem_of s1 !! x) ->
  bius_copy_in_misaligned_pages k c s = Ret (tt, set_mem (fun m => foldl (flush_page mc) m (l_pages l)) s).
Proof.
  intros l Hready Hok Hap Hnd Hd Hone Hfit Hlen Hc Hv Hstart Hr Hu Hmem.
  destruct (described_mapped mc start _ _ _ _ _ Hd) as [n Hm].
  pose proof (lay_all_pages_wf _ _ _ _ _ Hok Hap Hnd Hm) as Hwf. fold l in Hwf.
  destruct (lay_all_ok start segs Hok) as [Ha Hrg Hpos _]. fold l in Ha, Hrg, Hpos.
  destruct Hd as [m Hty He Hoff _ _ | ? ? Hn2]; [|lia].
  rewrite He in Hrg, Hpos. apply Forall_cons in Hpos as [[_ Hmpos] _]. cbn [fst snd] in *.
  rewrite extents_one in Hrg. assert (m = req_length r) as ->.
  { apply (f_equal length) in Hrg. rewrite length_extents, Ha, length_seqZ in Hrg. lia. }
  destruct (mr_start _ _ Hready) as (Hst & Hmod & Hend).
  assert (req_length r <= PAGE_SIZE * Z.of_nat (length (l_pages l))) as Hsmall.
  { rewrite Hlen, <- Ha. pose proof (pw_shape _ _ Hwf) as Hsh. clear -Hsh. induction Hsh as [|p ps Hp _ IH]; [simpl; lia|].
    rewrite fmap_cons. cbn [concat length]. rewrite length_app. destruct (page_range p Hp).
    unfold page_addrs at 1. rewrite length_seqZ. unfold PAGE_SIZE in *. lia. }
  assert (wp (bius_copy_in_misaligned_pages k c) (fun _ s' => s' = set_mem (fun m => foldl (flush_page mc) m (l_pages l)) s) s) as Hwp.
  { unfold bius_copy_in_misaligned_pages. wp_step. eapply wp_get_mc; [done|].
    wp_step. apply wp_in_kernel. kstep. replace (with_mk s (mk s)) with s by (by destruct s).
    wp_step. apply wp_in_kernel. kstep. replace (with_mk s (mk s)) with s by (by destruct s).
    rewrite Hty. wp_step. eapply wp_deref; [done|]. rewrite Hstart.
    assert (BIUS_PTES_PER_COMMAND = 32768) as Hptes by done.
    rewrite wrap_small by (unfold PAGE_SIZE in *; lia).
    destruct copy_in_fuel_two as [f ->]. eapply wp_intro; [|reflexivity].
    apply (copy_in_simple_pages mc start f (l_pages l)); try done.
    - apply Hwf.
    - by eapply stores_keep_slots.
    - by apply page_addrs_apart.
    - apply (md_nos _ _ _ _ _ _ _ Hm).
    - unfold PAGE_SIZE in *. lia. }
  destruct (wp_inv _ _ _ Hwp) as ([] & s' & Hrun & ->). exact Hrun.
Qed.

(** ** The write call *)
Lemma with_mk_id s : with_mk s (mk s) = s.
Proof. by destruct s. Qed.

Lemma in_kernel_ret {A} (m : ST kstate A) s a k : m (mk s) = Ret (a, k) -> in_kernel m s = Ret (a, with_mk s k).
Proof. unfold in_kernel. by intros ->. Qed.
Lemma in_kernel_gets {A B} (m : ST kstate A) (f : A -> ST mstate B) s a :
  m (mk s) = Ret (a, mk s) -> (in_kernel m ≫= f) s = f a s.
Proof. intros Hm. erewrite bind_ret by (by apply in_kernel_ret). by rewrite with_mk_id. Qed.

Lemma wp_eq_at {A} (m m' : ST mstate A) Q s s' : m s = m' s' -> wp m' Q s' -> wp m Q s.
Proof. unfold wp. by intros ->. Qed.

(** The write call takes the request off the connection and handles its reply. *)
Lemma dev_write_mapped_run um e c stack from h s dev w snd k r :
  writes from h -> waiting_for (mk s) c dev w snd h k r ->
  bius_dev_write_mapped zero_page_pfn um e c stack from s =
    (if is_blk_request (req_type r) then reply_blk_mapped zero_page_pfn um c k h sizeof_u2k
     else in_kernel (reply_int um k h sizeof_u2k)) (with_mk s (set_conns <[c := answered_conn dev w snd k]> (mk s))).
Proof.
  intros (Hroom & Hbs & Hwf) [Hc Hin Hr Hid Hun]. unfold bius_dev_write_mapped.
  rewrite (in_kernel_gets _ _ _ (Connection (Some dev) w snd)) by (unfold get_conn, mbind, ST_bind, gets; by rewrite Hc).
  destruct (Z.ltb_spec (iov_iter_count from) sizeof_u2k); [lia|]. rewrite Hbs, length_u2k_bytes.
  change (sizeof_u2k <=? 0) with false. cbv iota. cbn [conn_block_dev conn_waiting conn_sending].
  rewrite u2k_of_bytes_app by done.
  rewrite (in_kernel_gets _ _ _ (Some k)) by (by apply (get_request_by_id_unique w (u2k_id h) (mk s) k r)).
  erewrite bind_ret by (apply in_kernel_ret; reflexivity).
  rewrite (in_kernel_gets _ _ _ r) by (unfold get_pdu, mbind, ST_bind, gets; simpl; by rewrite Hr). done.
Qed.

(** Request [k] has ended between [s] and [s'], with status [st]. *)
Record request_ended (k st : Z) (s s' : mstate) : Prop := {
  re_rqs : blk_rqs (mk s') = delete k (blk_rqs (mk s));
  re_pdus : forall x, x <> k -> pdus (mk s') !! x = pdus (mk s) !! x;
  re_conns : connections (mk s') = connections (mk s);
  re_devices : devices (mk s') = devices (mk s);
  re_lists : all_disk_list (mk s') = all_disk_list (mk s) /\ next_request_id (mk s') = next_request_id (mk s);
  re_map : map_conns s' = map_conns s;
  re_trace : trace (mk s') = trace (mk s) ++ [EvEnd k (wrap blk_status_bits st)] }.

Lemma ended_request k st s s1 r r1 b1 F :
  mk s1 = set_pdus <[k := r1]> (mk (set_mem F s)) -> map_conns s1 = map_conns s ->
  req_type r <> BIUS_ZONE_APPEND ->
  request_ended k st s (with_mk s1 (ended (mk s1) k r b1 st)) /\ mem_of (with_mk s1 (ended (mk s1) k r b1 st)) = F (mem_of s).
Proof.
  intros Hmk Hmc Hna. unfold mem_of. split; [|cbn [mk with_mk ended kmem]; by rewrite Hmk].
  split; cbn [mk with_mk ended blk_rqs pdus connections devices all_disk_list next_request_id trace map_conns]; rewrite ?Hmk; try done.
  - intros x Hx. cbn [pdus set_pdus]. by rewrite !lookup_insert_ne.
  - unfold end_events. by rewrite bool_decide_eq_false_2.
Qed.

(** A successful reply to a mapped read, once [F] says what the copy does. *)
Lemma reply_mapped_read um c k h n s r b rq F (T : gmap Z pte) :
  blk_request (mk s) k r b rq -> req_type r = BIUS_READ -> BIUS_MAP_DATA_THRESHOLD < req_length r ->
  u2k_reply h = BLK_STS_OK ->
  bius_copy_in_misaligned_pages k c s = Ret (tt, set_mem F s) ->
  wp (bius_unmap_data zero_page_pfn k c) (fun _ s' => page_table s' = T /\ map_conns s' = map_conns s /\
    mk s' = set_pdus <[k := with_blk r (with_mapping b BIUS_DATAMAP_UNMAPPED (b_map_data b) (b_mapped_size b))]>
              (mk (set_mem F s))) (set_mem F s) ->
  wp (reply_blk_mapped zero_page_pfn um c k h n) (fun ret s' => ret = n /\ page_table s' = T /\
    mem_of s' = F (mem_of s) /\ request_ended k BLK_STS_OK s s') s.
Proof.
  intros [Hr Hu He Hrq Hb] Hty Hlen Hok Hcopy Hunmap. unfold reply_blk_mapped.
  wp_step. apply wp_in_kernel. kstep. rewrite with_mk_id, Hok, Hty, Z.eqb_refl, bool_decide_eq_true_2 by done.
  destruct (Z.leb_spec (req_length r) BIUS_MAP_DATA_THRESHOLD); [lia|]. cbn [andb].
  wp_step. eapply (wp_intro _ _ _ 0 (set_mem F s)); [unfold mbind, ST_bind; by rewrite Hcopy|].
  change (0 <? 0) with false. cbv iota. wp_step. eapply wp_mono; [exact Hunmap|].
  intros [] s1 (Htab & Hmc & Hmk). set (b1 := with_mapping _ _ _ _) in *. set (r1 := with_blk r b1) in *.
  assert (blk_request (mk s1) k r1 b1 rq) as Hbr.
  { rewrite Hmk. split; try done. apply lookup_insert_eq. }
  wp_step. apply wp_in_kernel. eapply wp_get_pdu; [apply Hbr|]. rewrite with_mk_id.
  rewrite bool_decide_eq_false_2 by (cbn; congruence). wp_steps. apply wp_in_kernel.
  eapply wp_intro; [by apply (end_blk_request_spec (mk s1) k r1 b1 rq)|]. wp_step.
  destruct (ended_request k BLK_STS_OK s s1 r1 r1 b1 F Hmk Hmc) as [He' Hm']; [cbn; congruence|]. by split_and!.
Qed.

(** ** A mapped read, from the client to the driver and back *)

(** A large request of type [t] is pending first on an idle connection whose
    area is set up and clean; no other request waits with its id. *)
Record large_request (t : bius_req) (c dev k : Z) (rest : list Z) (conn : bius_connection) (d : bius_block_device)
    (r : bius_request) (b : blk_part) (rq : request) (s : mstate) : Prop := {
  lr_takes : takes c dev k rest conn d s;
  lr_map : map_request c k start mc r b rq s;
  lr_fit : segments_fit start mc (rq_for_each_segment rq);
  lr_type : req_type r = t;
  lr_length : BIUS_MAP_DATA_THRESHOLD < req_length r /\ req_length r = Z.of_nat (length (rq_extent rq));
  lr_end : req_on_end r = fn_bius_blk_request_end;
  lr_clean : area_clean s;
  lr_ids : forall x, x ∈ conn_waiting conn -> exists r', pdus (mk s) !! x = Some r' /\ req_id r' <> req_id r }.
(** A read, into bytes that are all different. *)
Record large_read (c dev k : Z) (rest : list Z) (conn : bius_connection) (d : bius_block_device)
    (r : bius_request) (b : blk_part) (rq : request) (s : mstate) : Prop := {
  lr_request : large_request BIUS_READ c dev k rest conn d r b rq s;
  lr_nodup : NoDup (rq_extent rq) }.

(** A stretch takes at most two reserved pages. *)
Lemma one_entry_reserved segs e :
  Forall seg_ok segs -> l_entries (lay_all start segs) = [e] ->
  reserved_count (l_pages (lay_all start segs)) <= BIUS_MAX_SEGMENTS.
Proof.
  intros Hok He. destruct (lay_all_ok start segs Hok) as [_ Hr Hs _]. rewrite He in Hr, Hs.
  apply Forall_cons in Hs as [[_ Hpos] _]. destruct e as [a n]. rewrite extents_one in Hr.
  pose proof (lay_all_shape start segs Hok) as Hsh. unfold BIUS_MAX_SEGMENTS. symmetry in Hr.
  apply first_page in Hr as (p & rest & Hps & _ & _ & Hcase); [|done|done]. rewrite Hps in *.
  apply Forall_cons in Hsh as [_ Hsh].
  assert (forall q qs, reserved_count (q :: qs) <= 1 + reserved_count qs) as Hcons.
  { intros [q|q1 q2 q3 q4] qs; [|rewrite reserved_nos_cons; simpl; lia]. change (reserved_nos (Direct q :: qs)) with (reserved_nos qs). lia. }
  specialize (Hcons p rest). destruct Hcase as [[_ ->]|(_ & Hlong & Hrest)]; [simpl in *; lia|].
  destruct (aligned_stretch _ rest _ Hsh Hrest ltac:(lia)) as (fulls & tail & -> & Hno & Ht).
  rewrite reserved_nos_app, Hno in Hcons. destruct Ht as [[_ ->]|(_ & r & d & ->)]; simpl in *; lia.
Qed.

Lemma large_request_waits h t c dev k rest conn d r b b' rq s s1 :
  large_request t c dev k rest conn d r b rq s -> u2k_id h = req_id r ->
  connections (mk s1) !! c = Some (conn_with_waiting conn (conn_waiting conn ++ [k])) ->
  pdus (mk s1) = <[k := with_blk r b']> (pdus (mk s)) ->
  waiting_for (mk s1) c dev (conn_waiting conn ++ [k]) None h k (with_blk r b').
Proof.
  intros [[Hconn Hdev Hsnd _ _] [_ _ _ Hr _ _ _] _ _ _ _ _ Hids] Hid Hc Hp. split.
  - rewrite Hc. unfold conn_with_waiting. by rewrite Hdev, Hsnd.
  - apply elem_of_app. right. by left.
  - rewrite Hp. apply lookup_insert_eq.
  - by rewrite Hid.
  - intros x Hx. rewrite Hp. destruct (decide (x = k)) as [->|Hne].
    + exists (with_blk r b'). split; [apply lookup_insert_eq|done].
    + rewrite lookup_insert_ne by done. apply elem_of_app in Hx as [Hx|Hx].
      * destruct (Hids x Hx) as (r' & Hr' & Hid'). exists r'. split; [done|]. rewrite Hid. intros. congruence.
      * apply elem_of_cons in Hx as [Hx|Hx]; [done|by apply elem_of_nil in Hx].
Qed.

(** The state in which the write call copies in, with the memory [m] that the
    process left. *)
Record answering (c k : Z) (r : bius_request) (b' : blk_part) (m : memory) (s : mstate) : Prop := {
  an_conn : map_conns s !! c = Some mc;
  an_pdu : pdus (mk s) !! k = Some (with_blk r b');
  an_mem : mem_of s = m }.

(** What the read call and the process leave to the write call. *)
Definition taken_kernel (c dev k : Z) (rest : list Z) (conn : bius_connection) (d : bius_block_device)
    (r : bius_request) (b' : blk_part) (s s1 : mstate) : Prop :=
  mk s1 = set_conns <[c := conn_with_waiting conn (conn_waiting conn ++ [k])]>
            (set_kmem (fun _ => mem_of s1) (set_pdus <[k := with_blk r b']>
               (set_devices <[dev := dev_with_pending d rest]> (mk s)))).

Lemma taken_waits h t c dev k rest conn d r b b' rq s s1 m :
  large_request t c dev k rest conn d r b rq s -> u2k_id h = req_id r ->
  taken_kernel c dev k rest conn d r b' s s1 ->
  waiting_for (mk (set_mem (fun _ => m) s1)) c dev (conn_waiting conn ++ [k]) None h k (with_blk r b').
Proof.
  intros Hlr Hid Hmk. apply (large_request_waits h t c dev k rest conn d r b b' rq s); [done|done| |]; simpl; rewrite Hmk.
  - apply lookup_insert_eq.
  - done.
Qed.

(** Between [s] and [s'] the first request pending was taken, answered with
    [st], and unmapped; nothing else of the module changed but memory. *)
Record served_mapped (c dev k : Z) (rest : list Z) (conn : bius_connection) (d : bius_block_device) (st : Z)
    (s s' : mstate) : Prop := {
  sm_conns : connections (mk s') = <[c := conn]> (connections (mk s));
  sm_devices : devices (mk s') = <[dev := dev_with_pending d rest]> (devices (mk s));
  sm_rqs : blk_rqs (mk s') = delete k (blk_rqs (mk s));
  sm_pdus : forall x, x <> k -> pdus (mk s') !! x = pdus (mk s) !! x;
  sm_trace : trace (mk s') = trace (mk s) ++ [EvEnd k (wrap blk_status_bits st)];
  sm_lists : all_disk_list (mk s') = all_disk_list (mk s) /\ next_request_id (mk s') = next_request_id (mk s);
  sm_map : map_conns s' = map_conns s;
  sm_table : page_table s' = page_table s }.

Lemma ended_served t c dev k rest conn d r b b' rq st s s1 s3 s4 :
  large_request t c dev k rest conn d r b rq s -> taken_kernel c dev k rest conn d r b' s s1 ->
  map_conns s1 = map_conns s ->
  mk s3 = set_conns <[c := answered_conn dev (conn_waiting conn ++ [k]) None k]> (mk (set_mem (fun _ => mem_of s3) s1)) ->
  map_conns s3 = map_conns s1 ->
  request_ended k st s3 s4 -> page_table s4 = page_table s -> served_mapped c dev k rest conn d st s s4.
Proof.
  intros [[Hc Hdv Hsnd _ _] [_ _ _ Hr _ _ _] _ _ _ _ _ Hids] Htk Hm1 Hmk Hm3 [Hrqs Hps Hcn Hds [Hl1 Hl2] Hmc Htr] Ht. unfold taken_kernel in Htk.
  assert (k ∉ conn_waiting conn) as Hk.
  { intros Hin. destruct (Hids k Hin) as (r' & Hr' & Hne). congruence. }
  split; [| | | | | | |done].
  - rewrite Hcn, Hmk. cbn [connections set_conns set_mem mk with_mk set_kmem]. rewrite Htk.
    cbn [connections set_conns set_kmem set_pdus set_devices]. rewrite insert_insert_eq. f_equal.
    unfold answered_conn. rewrite bool_decide_eq_false_2 by done.
    unfold list_del. rewrite filter_app, filter_cons_False by (by intros []). rewrite app_nil_r.
    fold (list_del k (conn_waiting conn)). rewrite list_del_notin by done. destruct conn; simpl in *; congruence.
  - rewrite Hds, Hmk. cbn. by rewrite Htk.
  - rewrite Hrqs, Hmk. cbn. by rewrite Htk.
  - intros x Hx. rewrite Hps, Hmk by done. cbn. rewrite Htk. cbn. by rewrite lookup_insert_ne.
  - rewrite Htr, Hmk. cbn. by rewrite Htk.
  - rewrite Hl1, Hl2, Hmk. cbn. by rewrite Htk.
  - by rewrite Hmc, Hm3.
Qed.

(** The write call, when [F] is what it copies. *)
Lemma mapped_read_answered um e c dev k rest conn d r b b' rq s s1 stack from h m F :
  let segs := rq_for_each_segment rq in
  let l := lay_all start segs in
  large_read c dev k rest conn d r b rq s -> writes from h -> u2k_id h = req_id r -> u2k_reply h = BLK_STS_OK ->
  taken_kernel c dev k rest conn d r b' s s1 -> described mc start (request_is_write (req_type r)) s l b' s1 ->
  (forall s3, answering c k r b' m s3 -> bius_copy_in_misaligned_pages k c s3 = Ret (tt, set_mem F s3)) ->
  wp (bius_dev_write_mapped zero_page_pfn um e c stack from) (fun ret s' => ret = sizeof_u2k /\
    mem_of s' = F m /\ served_mapped c dev k rest conn d BLK_STS_OK s s') (set_mem (fun _ => m) s1).
Proof.
  intros segs l [Hlr Hnd] Hwr Hid Hok Hmk Hd HF. pose proof (taken_waits h _ _ _ _ _ _ _ _ _ _ _ _ _ m Hlr Hid Hmk) as Hwt.
  pose proof Hlr as [Htk [Hc Hv Hready Hr Hu Hrq Hmt] [Hne Hsegs Hap Hpages Hent] Hty [Hlen Hext] Hend Hclean Hids].
  fold segs l in Hd, Hpages. destruct (mc_vma mc) as [vma|] eqn:Hvma; [|done].
  destruct (described_size _ _ _ _ _ Hd) as (n & _ & Hm & _). unfold taken_kernel in Hmk.
  set (s2 := set_mem _ s1) in *. eapply wp_eq_at; [by eapply (dev_write_mapped_run um e c stack from h s2 dev _ None k (with_blk r b'))|].
  cbn [with_blk req_type]. rewrite Hty. change (is_blk_request BIUS_READ) with true. cbv iota.
  set (s3 := with_mk s2 _).
  assert (pdus (mk s3) !! k = Some (with_blk r b')) as Hr3 by (unfold s3, s2; simpl; rewrite Hmk; apply lookup_insert_eq).
  assert (map_conns s3 !! c = Some mc) as Hc3 by (change (map_conns s3) with (map_conns s1); by rewrite (md_conns _ _ _ _ _ _ _ Hm)).
  eapply wp_mono; [apply (reply_mapped_read um c k h sizeof_u2k s3 (with_blk r b') b' rq F (page_table s)); try done|].
  - split; [done|done|done| |cbn; congruence]. unfold s3, s2; simpl. by rewrite Hmk.
  - by apply HF.
  - eapply wp_mono; [apply (unmap_data_spec c k (request_is_write (req_type r)) rq (with_blk r b', b') s s1 _ vma); done|].
    intros [] s4 (Ht & Hcs & Hm4). split_and!; [done|exact Hcs|exact Hm4].
  - intros ret s4 (-> & Ht & Hmem & Hend4). split_and!; [done|exact Hmem|].
    by apply (ended_served BIUS_READ c dev k rest conn d r b b' rq BLK_STS_OK s s1 s3 s4 Hlr Hmk (md_conns _ _ _ _ _ _ _ Hm)).
Qed.

(** ** The reply to a request that leaves nothing to copy *)
Lemma reply_mapped_status um c k h n s r b rq (T : gmap Z pte) :
  blk_request (mk s) k r b rq -> req_type r <> BIUS_READ -> req_type r <> BIUS_ZONE_APPEND ->
  wp (bius_unmap_data zero_page_pfn k c) (fun _ s' => page_table s' = T /\ map_conns s' = map_conns s /\
    mk s' = set_pdus <[k := with_blk r (with_mapping b BIUS_DATAMAP_UNMAPPED (b_map_data b) (b_mapped_size b))]> (mk s)) s ->
  wp (reply_blk_mapped zero_page_pfn um c k h n) (fun ret s' => ret = n /\ page_table s' = T /\
    mem_of s' = mem_of s /\ request_ended k (u2k_reply h) s s') s.
Proof.
  intros [Hr Hu He Hrq Hb] Hty Hna Hunmap. unfold reply_blk_mapped.
  wp_step. apply wp_in_kernel. kstep. rewrite with_mk_id, (bool_decide_eq_false_2 (req_type r = BIUS_READ)), andb_false_r by done.
  wp_steps. change (0 <? 0) with false. cbv iota. wp_step. eapply wp_mono; [exact Hunmap|].
  intros [] s1 (Htab & Hmc & Hmk). set (b1 := with_mapping _ _ _ _) in *. set (r1 := with_blk r b1) in *.
  assert (blk_request (mk s1) k r1 b1 rq) as Hbr.
  { rewrite Hmk. split; try done. apply lookup_insert_eq. }
  wp_step. apply wp_in_kernel. eapply wp_get_pdu; [apply Hbr|]. rewrite with_mk_id.
  rewrite bool_decide_eq_false_2 by done. wp_steps. apply wp_in_kernel.
  eapply wp_intro; [by apply (end_blk_request_spec (mk s1) k r1 b1 rq)|]. wp_step.
  destruct (ended_request k (u2k_reply h) s s1 r1 r1 b1 (fun m => m)) as [He' Hm']; [by rewrite Hmk; destruct s as [[] ? ?]|done|done|].
  by split_and!.
Qed.

(** The write call that completes a mapped write. *)
Lemma mapped_write_answered um e c dev k rest conn d r b b' rq s s1 stack from h :
  let l := lay_all start (rq_for_each_segment rq) in
  large_request BIUS_WRITE c dev k rest conn d r b rq s -> writes from h -> u2k_id h = req_id r ->
  taken_kernel c dev k rest conn d r b' s s1 -> described mc start (request_is_write (req_type r)) s l b' s1 ->
  wp (bius_dev_write_mapped zero_page_pfn um e c stack from) (fun ret s' => ret = sizeof_u2k /\
    mem_of s' = mem_of s1 /\ served_mapped c dev k rest conn d (u2k_reply h) s s') s1.
Proof.
  intros l Hlr Hwr Hid Hmk Hd. pose proof (taken_waits h _ _ _ _ _ _ _ _ _ _ _ _ _ (mem_of s1) Hlr Hid Hmk) as Hwt.
  replace (set_mem _ s1) with s1 in Hwt by (by destruct s1 as [[] ? ?]).
  pose proof Hlr as [Htk [Hc Hv Hready Hr Hu Hrq Hmt] [Hne Hsegs Hap Hpages Hent] Hty [Hlen Hext] Hend Hclean Hids].
  fold l in Hd, Hpages. destruct (mc_vma mc) as [vma|] eqn:Hvma; [|done].
  destruct (described_size _ _ _ _ _ Hd) as (n & _ & Hm & _). unfold taken_kernel in Hmk.
  eapply wp_eq_at; [by eapply (dev_write_mapped_run um e c stack from h s1 dev _ None k (with_blk r b'))|].
  cbn [with_blk req_type]. rewrite Hty. change (is_blk_request BIUS_WRITE) with true. cbv iota.
  set (s3 := with_mk s1 _).
  assert (pdus (mk s3) !! k = Some (with_blk r b')) as Hr3 by (unfold s3; simpl; rewrite Hmk; apply lookup_insert_eq).
  assert (map_conns s3 !! c = Some mc) as Hc3 by (change (map_conns s3) with (map_conns s1); by rewrite (md_conns _ _ _ _ _ _ _ Hm)).
  eapply wp_mono; [apply (reply_mapped_status um c k h sizeof_u2k s3 (with_blk r b') b' rq (page_table s))|].
  - split; [done|done|done| |cbn; congruence]. unfold s3; simpl. by rewrite Hmk.
  - cbn. congruence.
  - cbn. congruence.
  - eapply wp_mono; [apply (unmap_data_spec c k (request_is_write (req_type r)) rq (with_blk r b', b') s s1 _ vma); done|].
    intros [] s4 (Ht & Hcs & Hm4). split_and!; [done|exact Hcs|exact Hm4].
  - intros ret s4 (-> & Ht & Hmem & Hend4). split_and!; [done|exact Hmem|].
    apply (ended_served BIUS_WRITE c dev k rest conn d r b b' rq (u2k_reply h) s s1 s3 s4 Hlr Hmk (md_conns _ _ _ _ _ _ _ Hm)); try done.
Qed.

(** The three calls together. *)
Lemma mapped_read_run um e c dev k rest conn d r b rq s pad1 pad2 waits to stack from h bs F (Q : Z -> mstate -> Prop) :
  let segs := rq_for_each_segment rq in
  let l := lay_all start segs in
  large_read c dev k rest conn d r b rq s -> reserved_count (l_pages l) <= BIUS_MAX_SEGMENTS ->
  length pad1 = 4%nat -> length pad2 = 4%nat -> sizeof_k2u <= iov_avail to ->
  writes from h -> u2k_id h = req_id r -> u2k_reply h = BLK_STS_OK -> length bs = length (rq_extent rq) ->
  (forall s1 s3 b', described mc start (request_is_write (req_type r)) s l b' s1 -> pages_wf mc (l_pages l) ->
     answering c k r b' (scatter (mem_of s1) (concat (page_kernel mc <$> l_pages l)) bs) s3 ->
     bius_copy_in_misaligned_pages k c s3 = Ret (tt, set_mem F s3)) ->
  (forall s1 s' b', described mc start (request_is_write (req_type r)) s l b' s1 -> pages_wf mc (l_pages l) ->
     mem_of s' = F (scatter (mem_of s1) (concat (page_kernel mc <$> l_pages l)) bs) ->
     served_mapped c dev k rest conn d BLK_STS_OK s s' -> Q sizeof_u2k s') ->
  wp (_ ← bius_dev_read_mapped c pad1 pad2 waits to;
      _ ← user_stores (extents (l_entries l)) bs;
      bius_dev_write_mapped zero_page_pfn um e c stack from) Q s.
Proof.
  intros segs l Hlr Hres Hp1 Hp2 Hav Hwr Hid Hok Hbs HF HQ.
  pose proof Hlr as [[Htk Hmap Hfit Hty [Hlen Hext] _ _ _] Hnd].
  pose proof Hmap as [_ _ Hready _ _ _ _]. pose proof Hfit as [_ Hsegs Hap _ _].
  rewrite <- rq_segments_extent in Hnd, Hext. fold segs in Hnd, Hext, Hsegs, Hap.
  wp_step. eapply wp_mono.
  { apply (bius_dev_read_mapped_spec mc start c dev k rest conn d r b rq); try done. by rewrite Hty. }
  intros res s1 (_ & b' & _ & Hmk & Hd). fold segs l in Hd.
  destruct (described_mapped mc start _ _ _ _ _ Hd) as [n Hm].
  pose proof (lay_all_pages_wf _ _ _ _ _ Hsegs Hap Hnd Hm) as Hwf. fold l in Hwf.
  destruct (lay_all_ok start segs Hsegs) as [_ Hrg _ _]. fold l in Hrg.
  set (ks := concat (page_kernel mc <$> l_pages l)).
  wp_step. eapply wp_intro.
  { apply (user_stores_spec _ ks). rewrite Hrg. apply ranges_kernel; [apply (mr_start _ _ Hready)|apply Hwf|by eapply mapped_area]. }
  eapply wp_mono.
  { apply (mapped_read_answered um e c dev k rest conn d r b b' rq s s1 stack from h (scatter (mem_of s1) ks bs) F); try done.
    intros s3. by apply HF. }
  intros ret s' (-> & Hmem & Hsv). by eapply HQ.
Qed.

(** A large read: the client's bytes end up where its segments are.  The
    read call maps the request, the process stores the data in the area at the
    address the header gives, and the write call with the reply copies what is
    in reserved pages.  The request holds the data, completes successfully, no other memory
    has changed, and the area shows the zero page again. *)
Theorem mapped_read_round_trip um e c dev k rest conn d r b rq en s pad1 pad2 waits to stack from h bs :
  large_read c dev k rest conn d r b rq s ->
  l_entries (lay_all start (rq_for_each_segment rq)) = [en] ->
  length pad1 = 4%nat -> length pad2 = 4%nat -> sizeof_k2u <= iov_avail to ->
  writes from h -> u2k_id h = req_id r -> u2k_reply h = BLK_STS_OK -> length bs = length (rq_extent rq) ->
  wp (_ ← bius_dev_read_mapped c pad1 pad2 waits to;
      _ ← user_stores (seqZ en.1 en.2) bs;
      bius_dev_write_mapped zero_page_pfn um e c stack from) (fun ret s' =>
    ret = sizeof_u2k /\ mem_gather (mem_of s') (rq_extent rq) = bs /\
    (forall x, x ∉ rq_extent rq -> ~ in_reserved_pages mc x -> mem_of s' !! x = mem_of s !! x) /\
    served_mapped c dev k rest conn d BLK_STS_OK s s') s.
Proof.
  intros Hlr Hone Hp1 Hp2 Hav Hwr Hid Hok Hbs.
  pose proof Hlr as [[_ [_ Hv Hready _ _ _ _] [_ Hsegs Hap Hpages _] _ [_ Hext] _ _ _] Hnd].
  destruct (mc_vma mc) as [vma|] eqn:Hvma; [|done]. injection Hv as Hstart.
  rewrite <- (extents_one en.1 en.2), <- surjective_pairing, <- Hone.
  set (l := lay_all start (rq_for_each_segment rq)) in *.
  destruct (lay_all_ok start _ Hsegs) as [Ha _ _ _]. fold l in Ha. rewrite <- rq_segments_extent in *.
  eapply (mapped_read_run um e c dev k rest conn d r b rq s _ _ _ _ _ _ _ bs (fun m => foldl (flush_page mc) m (l_pages l)));
    try done; [by apply (one_entry_reserved _ en)|by rewrite <- rq_segments_extent| |].
  - intros s1 s3 b' Hd _ [Hc Hr Hmem].
    eapply (copy_in_simple c k (with_blk r b') b' _ s s1 s3 vma); try done; fold l; [by rewrite Hone|].
    intros x Hx. rewrite Hmem. by apply scatter_outside.
  - intros s1 s' b' Hd Hwf Hmem Hsv. fold l in Hmem, Hwf.
    destruct (described_mapped mc start _ _ _ _ _ Hd) as [n Hm]. rewrite Hmem, <- Ha. split_and!; [done| | |exact Hsv].
    + rewrite flush_all by done. apply gather_scatter; [by apply pages_kernel_nodup|].
      by rewrite Hbs, <- Ha, length_pages_kernel.
    + intros x Hx Hout. rewrite flush_all_outside; [|apply Hwf|done].
      rewrite scatter_outside; [by apply (md_mem _ _ _ _ _ _ _ Hm)|]. intros Hin.
      destruct (pages_kernel_where mc _ x (pw_shape _ _ Hwf) Hin) as [Hb|(r' & Hr' & Hin')]; [done|].
      apply Hout. eapply reserved_page_region; [|exact Hin']. by apply (pw_range _ _ Hwf).
Qed.
End reply.

(** ** The concrete machine *)
Lemma ms_area_clean t segs len : area_clean ms_zero_pfn ms_start (ms_state t segs len).
Proof. intros i Hi. exact (ms_table_lookup i Hi). Qed.

Lemma ms_large_request t segs len :
  segments_fit ms_start ms_conn segs ->
  BIUS_MAP_DATA_THRESHOLD < len /\ len = Z.of_nat (length (rq_extent (ms_rq segs len))) ->
  large_request ms_zero_pfn ms_conn ms_start t 200 100 7 [] ms_waits (ms_device [7]) (ms_pdu t len) ms_blk
    (ms_rq segs len) (ms_state t segs len).
Proof.
  intros Hfit Hlen. split; [apply ms_takes|apply ms_request| |reflexivity|exact Hlen|reflexivity|apply ms_area_clean|].
  - rewrite ms_segments by apply Hfit. exact Hfit.
  - intros x Hx. by apply elem_of_nil in Hx.
Qed.
Lemma ms_large_read segs len :
  segments_fit ms_start ms_conn segs -> NoDup (rq_extent (ms_rq segs len)) ->
  BIUS_MAP_DATA_THRESHOLD < len /\ len = Z.of_nat (length (rq_extent (ms_rq segs len))) ->
  large_read ms_zero_pfn ms_conn ms_start 200 100 7 [] ms_waits (ms_device [7]) (ms_pdu BIUS_READ len) ms_blk
    (ms_rq segs len) (ms_state BIUS_READ segs len).
Proof.
  intros Hfit Hnd Hlen. split; [|exact Hnd]. by apply ms_large_request.
Qed.

(** The process answers every byte of the read with 1. *)
Definition ms_ones (n : Z) : list Z := replicate (Z.to_nat n) 1.
Lemma ms_ones_length segs len :
  len = Z.of_nat (length (rq_extent (ms_rq segs len))) -> length (ms_ones len) = length (rq_extent (ms_rq segs len)).
Proof. intros Hlen. unfold ms_ones. rewrite length_replicate. lia. Qed.

Definition ms_reply : bius_u2k_header := u2k_with_reply 5 0 0.
Lemma ms_reply_writes : writes (reply_buf ms_reply) ms_reply.
Proof. apply reply_buf_writes. by vm_compute. Qed.

Lemma mapped_read_round_trip_witness :
  wp (_ ← bius_dev_read_mapped 200 ms_pad ms_pad [] (sample_buf 56 56 []);
      _ ← user_stores (seqZ (ms_start + 512) ms_len) (ms_ones ms_len);
      bius_dev_write_mapped ms_zero_pfn (user_buffer 0 []) (good_env 101) 200 [] (reply_buf ms_reply))
    (fun ret s' => ret = 24 /\ mem_gather (mem_of s') (rq_extent (ms_rq ms_segs ms_len)) = ms_ones ms_len /\
       trace (mk s') = [EvEnd 7 BLK_STS_OK])
    (ms_state BIUS_READ ms_segs ms_len).
Proof.
  pose proof ms_extent as [Hext Hnd]. symmetry in Hext.
  pose proof (ms_segments ms_segs ms_len (sf_ok _ _ _ ms_segs_fit)) as Hsegs.
  eapply wp_mono.
  - apply (mapped_read_round_trip ms_zero_pfn ms_conn ms_start (user_buffer 0 []) (good_env 101) 200 100 7 [] ms_waits
      (ms_device [7]) (ms_pdu BIUS_READ ms_len) ms_blk (ms_rq ms_segs ms_len) (ms_start + 512, ms_len)
      (ms_state BIUS_READ ms_segs ms_len) ms_pad ms_pad [] (sample_buf 56 56 []) []
      (reply_buf ms_reply) ms_reply (ms_ones ms_len)).
    + apply ms_large_read; [exact ms_segs_fit|exact Hnd|]. split; [by vm_compute|exact Hext].
    + rewrite Hsegs. by vm_compute.
    + reflexivity.
    + reflexivity.
    + by vm_compute.
    + exact ms_reply_writes.
    + reflexivity.
    + reflexivity.
    + apply ms_ones_length. exact Hext.
  - intros ret s' (Hret & Hdata & _ & Hsv). split_and!; [exact Hret|exact Hdata|exact (sm_trace _ _ _ _ _ _ _ _ _ Hsv)].
Defined.
