(* ===== verification/MappedFaults.v ===== *)
(** * Setting up the area, and where data mapping goes wrong

    [bius_dev_mmap] prepares what [MappingProps.v] assumes of a connection.  A
    mapping can run out of reserved pages, the data of a list is copied in to the
    wrong place, and a connection without an area faults. *)
From S2P Require Import Prelude Protocol Linux Kernel Sample Command BlockDev CharDev CharDevProps LibBiusProps DataMapping PageLayout MappingProps MappingSample MappedIO MappedReply.

Section area.
Context `{BL : BioLaws} `{ML : MmLaws}.
Context (zero_page_pfn : Z).

(** ** [bius_vm_open] and [bius_dev_mmap] *)
Lemma vm_map_zero_spec n addr s :
  (forall i, 0 <= i < Z.of_nat n -> partial_map_pfn_error (addr + PAGE_SIZE * i) = 0) ->
  exists t, vm_map_zero zero_page_pfn n addr s = Ret (true, set_table (fun _ => t) s) /\
    (forall i, 0 <= i < Z.of_nat n -> t !! (addr + PAGE_SIZE * i) = Some (zero_pte zero_page_pfn)) /\
    (forall a, (forall i, 0 <= i < Z.of_nat n -> a <> addr + PAGE_SIZE * i) -> t !! a = page_table s !! a).
Proof.
  revert addr s. induction n as [|n IH]; intros addr s Herr.
  { exists (page_table s). split_and!; [by destruct s|lia|done]. }
  cbn [vm_map_zero]. pose proof (Herr 0 ltac:(lia)) as He0. rewrite Z.mul_0_r, Z.add_0_r in He0. rewrite He0.
  change (negb (0 =? 0)) with false. cbv iota. set (s1 := set_table <[addr := zero_pte zero_page_pfn]> s).
  destruct (IH (addr + PAGE_SIZE) s1) as (t & Ht & Hin & Hout).
  { intros i Hi. replace (addr + PAGE_SIZE + PAGE_SIZE * i) with (addr + PAGE_SIZE * (i + 1)) by lia. apply Herr. lia. }
  exists t. split_and!.
  - unfold mbind, ST_bind, modify. fold (zero_pte zero_page_pfn). fold s1. by rewrite Ht.
  - intros i Hi. destruct (decide (i = 0)) as [->|Hne].
    + rewrite Hout by (unfold PAGE_SIZE; lia). rewrite Z.mul_0_r, Z.add_0_r. apply lookup_insert_eq.
    + replace (addr + PAGE_SIZE * i) with (addr + PAGE_SIZE + PAGE_SIZE * (i - 1)) by lia. apply Hin. lia.
  - intros a Ha. rewrite Hout.
    + apply lookup_insert_ne. intros ->. apply (Ha 0); lia.
    + intros i Hi. replace (addr + PAGE_SIZE + PAGE_SIZE * i) with (addr + PAGE_SIZE * (i + 1)) by lia. apply Ha. lia.
Qed.

Lemma vm_follow_ptes_spec n c i addr s mc :
  map_conns s !! c = Some mc ->
  (forall j, 0 <= j < Z.of_nat n -> follow_pte_error (addr + PAGE_SIZE * j) = 0) ->
  exists mc', vm_follow_ptes n c i addr s = Ret (true, set_map_conns <[c := mc']> s) /\
    mc_vma mc' = mc_vma mc /\ mc_reserved_pages mc' = mc_reserved_pages mc /\
    mc_reserved_pages_pfn mc' = mc_reserved_pages_pfn mc /\
    (forall j, 0 <= j < Z.of_nat n -> mc_ptes mc' (i + j) = Some (addr + PAGE_SIZE * j)) /\
    (forall j, j < i -> mc_ptes mc' j = mc_ptes mc j).
Proof.
  revert i addr s mc. induction n as [|n IH]; intros i addr s mc Hc Herr.
  { exists mc. split_and!; try done; [|lia]. destruct s as [k t m]. unfold set_map_conns; simpl in *. by rewrite insert_id. }
  cbn [vm_follow_ptes]. pose proof (Herr 0 ltac:(lia)) as He0. rewrite Z.mul_0_r, Z.add_0_r in He0. rewrite He0.
  change (negb (0 =? 0)) with false. cbv iota. set (mc1 := mc_with_pte mc i addr). set (s1 := set_map_conns <[c := mc1]> s).
  destruct (IH (i + 1) (addr + PAGE_SIZE) s1 mc1) as (mc' & Hrun & Hv & Hr & Hp & Hin & Hout).
  { apply lookup_insert_eq. }
  { intros j Hj. replace (addr + PAGE_SIZE + PAGE_SIZE * j) with (addr + PAGE_SIZE * (j + 1)) by lia. apply Herr. lia. }
  exists mc'. split_and!; try done.
  - unfold mbind, ST_bind, get_mc, gets, mbind, ST_bind. rewrite Hc. simpl. unfold put_mc, modify. fold mc1 s1.
    rewrite Hrun. unfold s1, set_map_conns; simpl. by rewrite insert_insert_eq.
  - intros j Hj. destruct (decide (j = 0)) as [->|Hne].
    + rewrite Z.add_0_r, Hout by lia. unfold mc1; simpl. by rewrite Z.eqb_refl, Z.mul_0_r, Z.add_0_r.
    + replace (i + j) with (i + 1 + (j - 1)) by lia. rewrite Hin by lia. f_equal. lia.
  - intros j Hj. rewrite Hout by lia. unfold mc1; simpl. by destruct (Z.eqb_spec j i); [lia|].
Qed.

(** A process that maps the device gets an area in which every page shows
    the zero page, read only, and a connection that can map requests into it. *)
Theorem bius_dev_mmap_prepares c start vm_end mc s :
  map_conns s !! c = Some mc -> mc_vma mc = None ->
  mc_reserved_pages mc mod PAGE_SIZE = 0 -> mc_reserved_pages_pfn mc = phys_pfn (mc_reserved_pages mc) ->
  0 < start -> start mod PAGE_SIZE = 0 -> start + PAGE_SIZE * (BIUS_PTES_PER_COMMAND + 1) <= 2 ^ 64 ->
  BIUS_MAX_SIZE_PER_COMMAND <= vm_end - start < 2 ^ 64 ->
  (forall a, start <= a < vm_end -> partial_map_pfn_error a = 0 /\ follow_pte_error a = 0) ->
  wp (bius_dev_mmap zero_page_pfn c start vm_end) (fun ret s' => ret = 0 /\ mk s' = mk s /\
    exists mc', map_conns s' = <[c := mc']> (map_conns s) /\ mc_vma mc' = Some (start, vm_end) /\
      map_ready mc' start /\ area_clean zero_page_pfn start s' /\
      forall a, (forall i, a <> start + PAGE_SIZE * i) -> page_table s' !! a = page_table s !! a) s.
Proof.
  intros Hc Hv Hres Hpfn Hst Hmod Hend Hsize Herr.
  assert (BIUS_MAX_SIZE_PER_COMMAND = PAGE_SIZE * BIUS_PTES_PER_COMMAND) as Hmax by done.
  assert (BIUS_PTES_PER_COMMAND = 32768) as Hptes by done.
  assert (0 < BIUS_MAX_SIZE_PER_COMMAND) as Hpos by done. unfold bius_dev_mmap. wp_step. eapply wp_get_mc; [done|]. rewrite Hv, bool_decide_eq_false_2 by (by intros []).
  rewrite wrap_small by lia. destruct (Z.ltb_spec (vm_end - start) BIUS_MAX_SIZE_PER_COMMAND); [lia|].
  set (mc1 := mc_with_vma mc (Some (start, vm_end))). wp_step. unfold put_mc. wp_steps. set (s1 := set_map_conns _ s).
  unfold bius_vm_open. set (q := (vm_end - start + (PAGE_SIZE - 1)) / PAGE_SIZE).
  assert (0 <= q) as Hdiv by (apply Z.div_pos; unfold PAGE_SIZE in *; lia).
  pose proof (Z.mul_div_le (vm_end - start + (PAGE_SIZE - 1)) PAGE_SIZE ltac:(done)) as Hle.
  pose proof (Z.mul_succ_div_gt (vm_end - start + (PAGE_SIZE - 1)) PAGE_SIZE ltac:(done)) as Hgt.
  fold q in Hle, Hgt. assert (PAGE_SIZE = 4096) as HP by done. clearbody q.
  destruct (vm_map_zero_spec (Z.to_nat q) start s1) as (t & Ht & Hin & Hout).
  { intros i Hi. apply Herr. lia. }
  wp_step. eapply wp_intro; [exact Ht|]. cbv beta iota. set (s2 := set_table _ s1).
  destruct (vm_follow_ptes_spec (Z.to_nat BIUS_PTES_PER_COMMAND) c 0 start s2 mc1) as (mc2 & Hrun & Hv2 & Hr2 & Hp2 & Hin2 & _).
  { apply lookup_insert_eq. }
  { intros j Hj. apply Herr. unfold PAGE_SIZE in *. lia. }
  wp_step. eapply wp_intro; [exact Hrun|]. cbv beta iota. wp_steps. split; [done|]. split; [done|]. exists mc2.
  split_and!.
  - unfold s2, s1; simpl. by rewrite insert_insert_eq.
  - done.
  - split; [done| | |].
    + intros i Hi. rewrite <- Hin2 by lia. done.
    + by rewrite Hr2.
    + by rewrite Hp2, Hr2.
  - intros i Hi. unfold s2; simpl. apply Hin. lia.
  - intros a Ha. unfold s2; simpl. apply Hout. intros i _. apply Ha.
Qed.

(** When the first page cannot be mapped the error is dropped: the connection
    has an area of which no page is mapped and no entry is known, so that every
    page a request needs faults. *)
Theorem bius_dev_mmap_error_dropped c start vm_end mc s i p :
  map_conns s !! c = Some mc -> mc_vma mc = None -> (forall j, mc_ptes mc j = None) ->
  BIUS_MAX_SIZE_PER_COMMAND <= vm_end - start < 2 ^ 64 -> partial_map_pfn_error start <> 0 ->
  0 <= i < BIUS_PTES_PER_COMMAND ->
  wp (bius_dev_mmap zero_page_pfn c start vm_end) (fun ret s' => ret = 0 /\
    exists mc', map_conns s' !! c = Some mc' /\ mc_vma mc' = Some (start, vm_end) /\
      (forall a, start <= a < vm_end -> page_table s' !! a = None) /\
      set_pte_at mc' i p s' = Fault UninitRead) s.
Proof.
  intros Hc Hv Hpt Hsize Herr Hi.
  assert (0 < BIUS_MAX_SIZE_PER_COMMAND) as Hpos by done. unfold bius_dev_mmap.
  wp_step. eapply wp_get_mc; [done|]. rewrite Hv, bool_decide_eq_false_2 by (by intros []).
  rewrite wrap_small by lia. destruct (Z.ltb_spec (vm_end - start) BIUS_MAX_SIZE_PER_COMMAND); [lia|].
  set (mc1 := mc_with_vma mc (Some (start, vm_end))). wp_step. unfold put_mc. wp_steps.
  unfold bius_vm_open. set (q := (vm_end - start + (PAGE_SIZE - 1)) / PAGE_SIZE).
  assert (1 <= q) as Hq by (apply Z.div_le_lower_bound; unfold PAGE_SIZE in *; lia).
  replace (Z.to_nat q) with (S (Z.to_nat (q - 1))) by lia. cbn [vm_map_zero].
  destruct (Z.eqb_spec (partial_map_pfn_error start) 0); [done|]. cbn [negb]. wp_steps.
  unfold zap_vma_ptes. wp_steps. split; [done|]. exists mc1. split_and!.
  - apply lookup_insert_eq.
  - done.
  - intros a Ha. cbn [page_table set_table set_map_conns]. apply map_lookup_filter_None. right. intros x _ Hx. lia.
  - unfold set_pte_at. destruct (Z.leb_spec 0 i); [|lia]. destruct (Z.ltb_spec i BIUS_PTES_PER_COMMAND); [|lia].
    unfold mc1; simpl. unfold mbind, ST_bind. by rewrite Hpt.
Qed.

(** ** Running out of reserved pages *)

(** C39: Every segment that begins or ends inside a page takes a reserved page,
    and up to two of them a segment.  A request that needs more than the 256 a
    connection has makes [bius_map_data] write past their end. *)
Theorem bius_map_data_overflows c k start mc r b rq s :
  map_request c k start mc r b rq s -> segments_fit start mc (rq_for_each_segment rq) ->
  BIUS_MAX_SEGMENTS < reserved_count (l_pages (lay_all start (rq_for_each_segment rq))) ->
  bius_map_data k c s = Fault OutOfBounds.
Proof.
  intros Hq Hfit Hres. pose proof (map_data_spec c k start mc r b rq s Hq Hfit) as Hrun.
  unfold wpb in Hrun. destruct (bius_map_data k c s) as [[ret s']|[]|]; try done. exfalso.
  destruct Hrun as (_ & b' & _ & Hd). destruct (described_mapped mc start _ _ _ _ _ Hd) as [n Hm].
  set (l := lay_all start (rq_for_each_segment rq)) in *.
  assert (2 + BIUS_MAX_SEGMENTS ∈ reserved_nos (l_pages l)) as Hin.
  { rewrite (md_nos _ _ _ _ _ _ _ Hm). apply elem_of_seqZ. unfold BIUS_MAX_SEGMENTS in *. lia. }
  apply list_elem_of_omap in Hin as (p & Hp & Hr). pose proof (md_content _ _ _ _ _ _ _ Hm) as Hc.
  eapply Forall_forall in Hc; [|exact Hp]. destruct p as [|r' a lo hi]; [done|]. injection Hr as ->.
  destruct Hc as [Hc _]. unfold BIUS_NUM_RESERVED_PAGES in Hc. lia.
Qed.

(** ** A connection without an area *)
Section no_area.
Context `{IL : IovLaws} `{LC : LinuxConst}.

(** With data mapping on, the reply to a block request dereferences the
    connection's area before it looks whether the request is mapped: a process
    that never maps the device crashes the kernel with its first reply. *)
Theorem reply_without_area_faults um e c stack from h s dev w snd k r mc :
  writes from h -> waiting_for (mk s) c dev w snd h k r -> is_blk_request (req_type r) = true ->
  u2k_reply h <> BLK_STS_OK \/ req_type r <> BIUS_READ ->
  map_conns s !! c = Some mc -> mc_vma mc = None ->
  bius_dev_write_mapped zero_page_pfn um e c stack from s = Fault NullDeref.
Proof.
  intros Hwr Hwt Hblk Hne Hmc Hv.
  rewrite (dev_write_mapped_run zero_page_pfn mc um e c stack from h s dev w snd k r) by done. rewrite Hblk.
  destruct Hwt as [_ _ Hr _ _]. set (s1 := with_mk s _).
  assert (get_pdu k (mk s1) = Ret (r, mk s1)) as Hget by (unfold get_pdu, mbind, ST_bind, gets; simpl; by rewrite Hr).
  unfold reply_blk_mapped. rewrite (in_kernel_gets _ _ _ r) by done.
  assert ((u2k_reply h =? BLK_STS_OK) && bool_decide (req_type r = BIUS_READ) = false) as ->.
  { destruct Hne as [Hne|Hne]; [by rewrite (proj2 (Z.eqb_neq _ _) Hne)|].
    rewrite bool_decide_eq_false_2 by done. apply andb_false_r. }
  rewrite (bind_ret _ _ _ 0 s1) by done. change (0 <? 0) with false. cbv iota.
  unfold bius_unmap_data, mbind, ST_bind, get_mc, gets, mbind, ST_bind. simpl. rewrite Hmc. simpl. by rewrite Hv.
Qed.
End no_area.
End area.

(** ** A list of segments is copied in to the wrong place *)
Section list_copy.
Context `{BL : BioLaws} `{IL : IovLaws} `{LC : LinuxConst} `{ML : MmLaws}.
Context (zero_page_pfn : Z) (mc : map_conn) (start : Z).
Let R := mc_reserved_pages mc.

(** Whole pages, and after them a part of one, from [o] on. *)
Definition whole_pages (v : bio_vec) : Prop := bv_offset v = 0 /\ bv_len v mod PAGE_SIZE = 0.

Lemma lay_whole vs :
  vs <> [] -> Forall seg_ok vs -> Forall whole_pages vs ->
  let l := lay_all start vs in
  l_aligned l = true /\ reserved_nos (l_pages l) = [] /\
  l_entries l = [(start, PAGE_SIZE * Z.of_nat (length (l_pages l)))].
Proof.
  induction vs as [|v vs IH] using rev_ind; [done|]. intros _ [Hok [Hv _]%Forall_cons]%Forall_app [Hw [[Hz Hm] _]%Forall_cons]%Forall_app.
  unfold lay_all. rewrite foldl_app. fold (lay_all start vs). cbn [foldl lay l_pages l_entries l_aligned].
  set (l := lay_all start vs) in *. pose proof (so_len _ Hv) as Hlen.
  assert (seg_pages v (2 + reserved_count (l_pages l)) = full_pages (Z.to_nat (bv_len v / PAGE_SIZE)) (bv_page v)) as Hpg.
  { unfold seg_pages, rest_pages. by rewrite Hz, Z.eqb_refl, Hm, app_nil_r. }
  assert (PAGE_SIZE * Z.of_nat (Z.to_nat (bv_len v / PAGE_SIZE)) = bv_len v) as Hspan.
  { destruct (page_split (bv_len v)) as (Hs & _ & Hq); [lia|]. rewrite Z2Nat.id by done. lia. }
  rewrite Hpg, reserved_nos_app, reserved_full_pages, length_app, length_full_pages. split_and!.
  - unfold seg_ends_aligned. by rewrite Hz, Z.add_0_l, Hm.
  - destruct vs as [|v' vs']; [done|]. by destruct IH as (_ & -> & _).
  - unfold lay_entry, seg_fresh. rewrite Hz. destruct vs as [|v' vs'].
    + simpl. unfold area_end. simpl. f_equal. f_equal; lia.
    + destruct IH as (Hal & _ & He); [done..|]. rewrite Hal, He. cbn [negb Z.eqb orb].
      unfold grow_last. simpl. f_equal. f_equal. lia.
Qed.

(** The segments of the theorem below and their layout. *)
Section part_page.
Context (vs : list bio_vec) (v2 : bio_vec).
Hypothesis Hne : vs <> [].
Hypothesis Hok : Forall seg_ok (vs ++ [v2]).
Hypothesis Hwhole : Forall whole_pages vs.
Hypothesis Hpart : 0 < bv_offset v2 /\ bv_len v2 <= bv_offset v2 /\ bv_offset v2 + bv_len v2 < PAGE_SIZE.
Let total := PAGE_SIZE * Z.of_nat (length (l_pages (lay_all start vs))).

Lemma lay_part :
  let l := lay_all start (vs ++ [v2]) in
  l_pages l = l_pages (lay_all start vs) ++ [Reserved 2 (bv_page v2) (bv_offset v2) (bv_offset v2 + bv_len v2)] /\
  l_entries l = [(start, total); (start + total + bv_offset v2, bv_len v2)].
Proof.
  pose proof Hok as [Hvs [Hv _]%Forall_cons]%Forall_app. destruct Hpart as (Ho & Hlo & Hhi).
  destruct (lay_whole vs Hne Hvs Hwhole) as (Hal & Hno & He).
  unfold lay_all. rewrite foldl_app. fold (lay_all start vs). cbn [foldl lay l_pages l_entries].
  unfold seg_pages, lay_entry, seg_fresh. rewrite Hno, Hal, He.
  destruct (Z.eqb_spec (bv_offset v2) 0); [lia|]. rewrite Z.min_r by lia.
  destruct (Z.ltb_spec (bv_len v2) (PAGE_SIZE - bv_offset v2)); [|lia]. done.
Qed.

Lemma load_entry_eq i v s :
  0 <= i < 512 -> le_value (mem_read (mem_of s) (R + 8 * i) 8) = v -> load_entry mc i s = Ret (v, s).
Proof.
  intros Hi Hv. unfold load_entry, reserved_read, in_reserved.
  destruct (Z.leb_spec 0 (8 * i)); [|lia]. assert (PAGE_SIZE * BIUS_NUM_RESERVED_PAGES = 1056768) as -> by done.
  destruct (Z.leb_spec (8 * i + 8) 1056768); [|lia]. cbn [andb]. unfold mbind, ST_bind, gets, mret, ST_ret.
  fold R. by rewrite Hv.
Qed.

(** The list in memory, with its terminator. *)
Lemma load_list s e0 e1 i v :
  mem_read (mem_of s) R 48 = entries_bytes [e0; e1] ++ (le_bytes 8 0 ++ le_bytes 8 0) ->
  [e0.1; e0.2; e1.1; e1.2; 0] !! Z.to_nat i = Some v -> 0 <= v < 2 ^ 64 -> 0 <= i ->
  load_entry mc i s = Ret (v, s).
Proof.
  intros Hm Hv Hrange Hi. assert (i < 5) as Hi5 by (apply lookup_lt_Some in Hv; simpl in Hv; lia).
  apply load_entry_eq; [lia|]. assert (le_value (le_bytes 8 v) = v) as Hlv.
  { rewrite le_value_bytes. apply Z.mod_small. exact Hrange. }
  transitivity (le_value (le_bytes 8 v)); [|exact Hlv]. f_equal. change (entries_bytes [e0; e1]) with (entries_bytes ([e0] ++ [e1])) in Hm.
  rewrite entries_bytes_app in Hm. destruct e0 as [a0 n0], e1 as [a1 n1]. rewrite !entries_bytes_one, <- !app_assoc in Hm.
  assert (exists pre post, mem_read (mem_of s) R 48 = pre ++ le_bytes 8 v ++ post /\ Z.of_nat (length pre) = 8 * i) as (pre & post & Hsp & Hl).
  { assert (i = 0 \/ i = 1 \/ i = 2 \/ i = 3 \/ i = 4) as Hcases by lia.
    destruct Hcases as [-> | [-> | [-> | [-> | ->]]]]; injection Hv as <-.
    - exists [], (le_bytes 8 n0 ++ le_bytes 8 a1 ++ le_bytes 8 n1 ++ le_bytes 8 0 ++ le_bytes 8 0). by rewrite Hm.
    - exists (le_bytes 8 a0), (le_bytes 8 a1 ++ le_bytes 8 n1 ++ le_bytes 8 0 ++ le_bytes 8 0). by rewrite Hm.
    - exists (le_bytes 8 a0 ++ le_bytes 8 n0), (le_bytes 8 n1 ++ le_bytes 8 0 ++ le_bytes 8 0). by rewrite Hm, <- !app_assoc.
    - exists (le_bytes 8 a0 ++ le_bytes 8 n0 ++ le_bytes 8 a1), (le_bytes 8 0 ++ le_bytes 8 0). by rewrite Hm, <- !app_assoc.
    - exists (le_bytes 8 a0 ++ le_bytes 8 n0 ++ le_bytes 8 a1 ++ le_bytes 8 n1), (le_bytes 8 0). by rewrite Hm, <- !app_assoc. }
  eapply mem_read_inside; [|exact Hsp| |]; [done|lia|done].
Qed.

(** One entry of aligned pages is skipped, the next is copied from offset
    [total mod PAGE_SIZE = 0]. *)
Lemma copy_in_list_run fuel s o n :
  0 < start -> start mod PAGE_SIZE = 0 -> start + total + PAGE_SIZE <= 2 ^ 64 -> 0 < o -> 0 < n -> o + n < PAGE_SIZE ->
  mem_read (mem_of s) R 48 = entries_bytes [(start, total); (start + total + o, n)] ++ (le_bytes 8 0 ++ le_bytes 8 0) ->
  slot_ok mc (mem_of s) (Reserved 2 (bv_page v2) 0 n) ->
  apart mc (bv_page v2) PAGE_SIZE ->
  copy_in_entries (S (S (S fuel))) mc (load_entry mc) 0 2 s
    = Ret (tt, set_mem (fun m => flush_page mc m (Reserved 2 (bv_page v2) 0 n)) s).
Proof.
  intros Hst Hmod Hend Ho Hn Hin Hlist Hslot Hap.
  assert (PAGE_SIZE = 4096) as HP by done. assert (0 <= total) as Htot by (unfold total; lia).
  assert (total mod PAGE_SIZE = 0) as Htm by (unfold total; rewrite Z.mul_comm; by apply Z.mod_mul).
  assert ((start + total) mod PAGE_SIZE = 0) as Hst0 by (by rewrite Zplus_mod, Hmod, Htm).
  assert ((start + total + o) mod PAGE_SIZE = o) as Hoo.
  { rewrite Zplus_mod, Hst0, Z.add_0_l, Zmod_mod. apply Z.mod_small. lia. }
  set (s' := set_mem _ s). assert (mem_read (mem_of s') R 48 = mem_read (mem_of s) R 48) as Hkeep.
  { unfold s'. rewrite mem_of_set_mem. apply mem_read_ext. intros x Hx. apply mem_write_outside.
    rewrite length_mem_read. unfold apart in Hap. fold R in Hap.
    assert (reserved_size = 1056768) as Hrs by done. lia. }
  assert (forall t i v, mem_read (mem_of t) R 48 = mem_read (mem_of s) R 48 ->
    [start; total; start + total + o; n; 0] !! Z.to_nat i = Some v -> 0 <= v < 2 ^ 64 -> 0 <= i ->
    load_entry mc i t = Ret (v, t)) as Hload.
  { intros t i v Ht Hv ? ?. apply (load_list t (start, total) (start + total + o, n)); [by rewrite Ht|done..]. }
  remember (S (S fuel)) as f1 eqn:Hf1. cbn [copy_in_entries].
  erewrite bind_ret by (apply (Hload s (0 * 2) start); done || lia). destruct (Z.eqb_spec start 0); [lia|].
  erewrite bind_ret by (apply (Hload s (0 * 2 + 1) total); done || lia).
  erewrite bind_ret by (apply (Hload s 0 start); done || lia).
  rewrite Hmod, wrap_small, Hst0 by lia. change (0 =? 0) with true. cbv iota.
  rewrite !(bind_ret _ _ s tt s) by done. subst f1. remember (S fuel) as f2 eqn:Hf2. cbn [copy_in_entries].
  erewrite bind_ret by (apply (Hload s ((0 + 1) * 2) (start + total + o)); done || lia).
  destruct (Z.eqb_spec (start + total + o) 0); [lia|].
  erewrite bind_ret by (apply (Hload s ((0 + 1) * 2 + 1) n); done || lia).
  erewrite bind_ret by (apply (Hload s (0 + 1) total); done || lia).
  rewrite Hoo, Htm, (Z.add_0_l n), (wrap_small 64 n) by lia. destruct (Z.eqb_spec o 0); [lia|].
  destruct (Z.ltb_spec n PAGE_SIZE); [|lia]. rewrite orb_true_r.
  rewrite (bind_ret _ _ s tt s'); cycle 1.
  { rewrite <- (Z.sub_0_r n). apply copy_reserved_spec; [exact Hslot|lia|lia]. }
  rewrite (bind_ret _ _ s' tt s') by done. subst f2. cbn [copy_in_entries].
  erewrite bind_ret by (apply (Hload s' ((0 + 1 + 1) * 2) 0); done || lia). done.
Qed.

Lemma copy_in_fuel_three : exists n, copy_in_fuel = S (S (S n)).
Proof.
  exists (Z.to_nat 66046). unfold copy_in_fuel. change (PAGE_SIZE * _ / 16) with (Z.succ (Z.succ 66046)).
  by rewrite !Z2Nat.inj_succ.
Qed.

(** What [bius_copy_in_misaligned_pages] does to such a request: the bytes of
    the last page are copied from and to offset 0. *)
Lemma copy_in_part c k r b' s0 s1 s3 bs :
  let l := lay_all start (vs ++ [v2]) in
  map_ready mc start -> pages_wf mc (l_pages l) ->
  apart mc (bv_page v2) PAGE_SIZE ->
  Z.of_nat (length (l_pages l)) < BIUS_PTES_PER_COMMAND ->
  described mc start false s0 l b' s1 -> answering mc c k r b' (scatter (mem_of s1) (concat (page_kernel mc <$> l_pages l)) bs) s3 ->
  bius_copy_in_misaligned_pages k c s3 =
    Ret (tt, set_mem (fun m => flush_page mc m (Reserved 2 (bv_page v2) 0 (bv_len v2))) s3).
Proof.
  intros l Hready Hwf Hap Hfit Hd [Hc Hr Hmem].
  destruct lay_part as [Hps Hes]. fold l in Hps, Hes. destruct Hpart as (Ho & Hlo & Hhi).
  pose proof Hok as [Hvs [[_ _ _ Hlen] _]%Forall_cons]%Forall_app.
  destruct (mr_start _ _ Hready) as (Hst & Hmod & Hend).
  pose proof (described_mapped mc start _ _ _ _ _ Hd) as [n Hm].
  destruct Hd as [? Hty He | pfn Hty _ _ _ _ _ Hz Hm']; [by rewrite Hes in He|]. rewrite Hes in Hz. simpl length in Hz.
  assert (forall a j, R <= a -> a + j <= R + 2 * PAGE_SIZE -> mem_read (mem_of s3) a j = mem_read (mem_of s1) a j) as Hlow.
  { intros a j Ha Hj. rewrite Hmem. apply mem_read_ext. intros x Hx. apply scatter_outside. intros Hin.
    destruct (pages_kernel_where mc _ x (pw_shape _ _ Hwf) Hin) as [Hb|(r' & Hr' & Hin')].
    - apply (pw_outside _ _ Hwf x Hb). unfold in_reserved_pages. fold R.
      assert (2 * PAGE_SIZE <= reserved_size) by done. lia.
    - apply (pw_range _ _ Hwf) in Hr'. fold R in Hin'. unfold PAGE_SIZE in *. lia. }
  assert (wp (bius_copy_in_misaligned_pages k c) (fun _ s' => s' =
    set_mem (fun m => flush_page mc m (Reserved 2 (bv_page v2) 0 (bv_len v2))) s3) s3) as Hwp.
  { unfold bius_copy_in_misaligned_pages. wp_step. eapply wp_get_mc; [done|].
    wp_step. apply wp_in_kernel. kstep. rewrite with_mk_id. wp_step. apply wp_in_kernel.
    eapply wp_blk_arm; [done|]. rewrite with_mk_id, Hty. destruct copy_in_fuel_three as [f ->].
    assert (PAGE_SIZE = 4096) as HP by done. assert (BIUS_PTES_PER_COMMAND = 32768) as HB by done.
    eapply wp_intro; [|reflexivity]. apply copy_in_list_run with (o := bv_offset v2); try done; try lia.
    - unfold total. rewrite Hps, length_app in Hfit. simpl length in Hfit. lia.
    - rewrite Hlow by lia. change 48 with (32 + 16). rewrite mem_read_app by lia.
      change (16 * Z.of_nat 2) with 32 in Hz. fold R in Hz. rewrite Hz. f_equal.
      pose proof (md_entries _ _ _ _ _ _ _ Hm) as Hme. by rewrite Hes in Hme.
    - pose proof (md_content _ _ _ _ _ _ _ Hm) as Hc'. rewrite Hps in Hc'.
      apply Forall_app in Hc' as [_ [(_ & _ & _ & _ & Hsl & _) _]%Forall_cons].
      split; [done|]. rewrite <- Hsl. fold R. rewrite Hlow; [done|lia|lia]. }
  destruct (wp_inv _ _ _ Hwp) as ([] & s' & Hrun & ->). exact Hrun.
Qed.

(** The process's stores do not reach the last segment, nor the start of the
    reserved page that stands for it. *)
Lemma part_not_stored ks w s0 n s1 x :
  let l := lay_all start (vs ++ [v2]) in
  pages_wf mc (l_pages l) -> mapped mc start w s0 l n s1 -> ks = concat (page_kernel mc <$> l_pages l) ->
  x ∈ bv_addrs v2 \/ R + PAGE_SIZE * 2 <= x < R + PAGE_SIZE * 2 + bv_offset v2 -> x ∉ ks.
Proof.
  intros l Hwf Hm -> Hx Hin. destruct lay_part as [Hps _]. fold l in Hps. destruct Hpart as (Ho & Hlo & Hhi).
  destruct (lay_whole vs Hne (proj1 (proj1 (Forall_app _ _ _) Hok)) Hwhole) as (_ & Hno & _).
  pose proof Hok as [_ [[_ _ _ Hlen] _]%Forall_cons]%Forall_app.
  pose proof (pw_nodup _ _ Hwf) as Hnd. pose proof (pw_outside _ _ Hwf) as Hout. pose proof (pw_shape _ _ Hwf) as Hsh.
  rewrite Hps in *. set (p := Reserved 2 _ _ _) in *. set (ds := l_pages (lay_all start vs)) in *.
  assert (page_addrs p = bv_addrs v2) as Hpa.
  { unfold page_addrs, p, bv_addrs, bv_start; cbn [page_data page_lo page_hi]. f_equal; lia. }
  rewrite !fmap_app, !concat_app in *. cbn [fmap list_fmap concat] in *. rewrite !app_nil_r, Hpa in *.
  assert (1056768 = reserved_size) as Hrs by done. assert (PAGE_SIZE = 4096) as HP by done.
  apply elem_of_app in Hin as [Hin|Hin].
  - apply Forall_app in Hsh as [Hsh _].
    destruct (pages_kernel_where mc ds x Hsh Hin) as [Hd|(r & Hr & _)]; [|rewrite Hno in Hr; by apply elem_of_nil in Hr].
    destruct Hx as [Hx|Hx].
    + apply NoDup_app in Hnd as (_ & Hdisj & _). by eapply Hdisj.
    + apply (Hout x); [apply elem_of_app; by left|]. unfold in_reserved_pages. fold R. lia.
  - unfold page_kernel, p in Hin; cbn [page_shown page_lo page_hi] in Hin. fold R in Hin. apply elem_of_seqZ in Hin.
    destruct Hx as [Hx|Hx]; [|lia].
    apply (Hout x); [apply elem_of_app; by right|]. unfold in_reserved_pages. fold R. lia.
Qed.
End part_page.

(** C38: A large read whose last segment lies inside a page, after whole pages, and is no
    longer than its offset in that page, completes successfully without its data: the
    process's bytes for that segment never reach it, and the start of the client's page,
    which is not part of the request, is filled with zeros. *)
Theorem mapped_list_read_misplaced um e c dev k rest conn d r b rq vs v2 s pad1 pad2 waits to stack from h bs :
  large_read zero_page_pfn mc start c dev k rest conn d r b rq s ->
  rq_for_each_segment rq = vs ++ [v2] -> vs <> [] -> Forall whole_pages vs ->
  0 < bv_offset v2 -> bv_len v2 <= bv_offset v2 -> bv_offset v2 + bv_len v2 < PAGE_SIZE ->
  apart mc (bv_page v2) PAGE_SIZE ->
  length pad1 = 4%nat -> length pad2 = 4%nat -> sizeof_k2u <= iov_avail to ->
  writes from h -> u2k_id h = req_id r -> u2k_reply h = BLK_STS_OK -> length bs = length (rq_extent rq) ->
  wp (_ ← bius_dev_read_mapped c pad1 pad2 waits to;
      _ ← user_stores (extents (l_entries (lay_all start (rq_for_each_segment rq)))) bs;
      bius_dev_write_mapped zero_page_pfn um e c stack from) (fun ret s' =>
    ret = sizeof_u2k /\ trace (mk s') = trace (mk s) ++ [EvEnd k (wrap blk_status_bits BLK_STS_OK)] /\
    mem_read (mem_of s') (bv_start v2) (bv_len v2) = mem_read (mem_of s) (bv_start v2) (bv_len v2) /\
    mem_read (mem_of s') (bv_page v2) (bv_len v2) = replicate (Z.to_nat (bv_len v2)) 0) s.
Proof.
  intros Hlr Hsegs Hne Hwhole Ho Hlo Hhi Hap Hp1 Hp2 Hav Hwr Hid Hrok Hbs.
  pose proof Hlr as [[_ [_ _ Hready _ _ _ _] [_ Hok Haps Hpages _] Hty _ _ _ _] Hnd].
  rewrite Hsegs in *. destruct (lay_part vs v2 Hne Hok Hwhole (conj Ho (conj Hlo Hhi))) as [Hps Hes].
  destruct (lay_whole vs Hne (proj1 (proj1 (Forall_app _ _ _) Hok)) Hwhole) as (_ & Hno & _).
  rewrite <- Hsegs. eapply mapped_read_run with (F := fun m => flush_page mc m (Reserved 2 (bv_page v2) 0 (bv_len v2)));
    try done; rewrite ?Hsegs.
  - rewrite Hps, reserved_nos_app, Hno. done.
  - intros s1 s3 b' Hd Hwf Han. rewrite Hty in Hd. by eapply copy_in_part.
  - intros s1 s' b' Hd Hwf Hmem Hsv. rewrite Hty in Hd. split_and!; [done|apply Hsv| |].
    + rewrite Hmem. cbn [flush_page]. rewrite Z.add_0_r, Z.sub_0_r, read_over by (rewrite length_mem_read; unfold bv_start; lia).
      apply mem_read_ext. intros x Hx. destruct (described_mapped mc start _ _ _ _ _ Hd) as [n Hm].
      assert (x ∈ bv_addrs v2) as Hxv by (apply elem_of_seqZ; lia).
      rewrite scatter_outside by (eapply part_not_stored; eauto). apply (md_mem _ _ _ _ _ _ _ Hm).
      eapply segs_outside; [exact Haps|]. rewrite fmap_app, concat_app. apply elem_of_app. right. simpl. by rewrite app_nil_r.
    + rewrite Hmem. cbn [flush_page]. rewrite !Z.add_0_r, Z.sub_0_r.
      apply Forall_app in Hok as Hok'. destruct Hok' as [_ [[_ _ _ Hlen] _]%Forall_cons].
      rewrite mem_read_write_same by (rewrite length_mem_read; lia).
      destruct (described_mapped mc start _ _ _ _ _ Hd) as [n Hm].
      rewrite (mem_read_ext _ (mem_of s1)).
      * pose proof (md_content _ _ _ _ _ _ _ Hm) as Hc. rewrite Hps in Hc.
        apply Forall_app in Hc as [_ [(_ & _ & _ & _ & _ & Hc) _]%Forall_cons].
        unfold reserved_content in Hc. rewrite <- (Z.add_0_r (mc_reserved_pages mc + PAGE_SIZE * 2)).
        assert (replicate (Z.to_nat (bv_offset v2)) 0 = replicate (Z.to_nat (bv_len v2)) 0 ++ replicate (Z.to_nat (bv_offset v2 - bv_len v2)) 0) as Hsplit.
        { rewrite <- replicate_add. f_equal. lia. }
        rewrite Hsplit, <- app_assoc in Hc. eapply (mem_read_inside _ _ _ _ _ [] _ _); [|exact Hc|done|]; [done|rewrite length_replicate; lia].
      * intros x Hx. apply scatter_outside. eapply part_not_stored; eauto. right. fold R in Hx. lia.
Qed.
End list_copy.

(** ** The concrete machine *)
Lemma bius_dev_mmap_prepares_witness :
  wp (bius_dev_mmap ms_zero_pfn 200 ms_start (ms_start + BIUS_MAX_SIZE_PER_COMMAND)) (fun ret s' => ret = 0 /\
    area_clean ms_zero_pfn ms_start s')
    (MState (mk (ms_state BIUS_READ [] 0)) ∅ {[ 200 := mc_with_vma ms_conn None ]}).
Proof.
  eapply wp_mono.
  - apply (bius_dev_mmap_prepares ms_zero_pfn 200 ms_start (ms_start + BIUS_MAX_SIZE_PER_COMMAND) (mc_with_vma ms_conn None)).
    + apply lookup_singleton_eq.
    + reflexivity.
    + by vm_compute.
    + reflexivity.
    + by vm_compute.
    + by vm_compute.
    + by vm_compute.
    + split; by vm_compute.
    + intros a _. by split.
  - intros ret s' (-> & _ & mc' & _ & _ & _ & Hclean & _). by split.
Defined.

(** 129 segments, each of which begins and ends inside a page. *)
Definition ms_many : list bio_vec := (fun i => BioVec (ms_page + PAGE_SIZE * (2 * i)) 512 PAGE_SIZE) <$> seqZ 0 129.
Lemma ms_many_fit : segments_fit ms_start ms_conn ms_many.
Proof.
  assert (forall i, i ∈ seqZ 0 129 -> 0 <= 2 * i < 2 ^ 20) as Hi by (intros i ?%elem_of_seqZ; lia).
  split; [done| | |by vm_compute|by vm_compute]; apply Forall_fmap, Forall_forall; intros i ?%Hi.
  - by apply ms_seg_ok.
  - apply (ms_apart (2 * i) 512); [lia|done].
Qed.

Lemma bius_map_data_overflows_witness :
  bius_map_data 7 200 (ms_state BIUS_READ ms_many (PAGE_SIZE * 129)) = Fault OutOfBounds.
Proof.
  pose proof (ms_segments ms_many (PAGE_SIZE * 129) (sf_ok _ _ _ ms_many_fit)) as Hsegs.
  apply (bius_map_data_overflows 200 7 ms_start ms_conn (ms_pdu BIUS_READ (PAGE_SIZE * 129)) ms_blk
    (ms_rq ms_many (PAGE_SIZE * 129))).
  - apply ms_request.
  - rewrite Hsegs. exact ms_many_fit.
  - rewrite Hsegs. by vm_compute.
Defined.

(** Request 7 waits for a reply on connection 200, which has no area. *)
Definition ms_no_area : @mstate seg_bio :=
  MState (KState 6 {[ 7 := ms_rq [] 0 ]} {[ 7 := ms_pdu BIUS_READ 0 ]} {[ 100 := ms_device [] ]} [100]
            {[ 200 := Connection (Some 100) [7] None ]} ∅ ∅ []) ∅ {[ 200 := mc_with_vma ms_conn None ]}.

Lemma reply_without_area_faults_witness :
  bius_dev_write_mapped ms_zero_pfn (user_buffer 0 []) (good_env 101) 200 [] (reply_buf (u2k_with_reply 5 BLK_STS_IOERR 0))
    ms_no_area = Fault NullDeref.
Proof.
  apply (reply_without_area_faults ms_zero_pfn (user_buffer 0 []) (good_env 101) 200 []
    (reply_buf (u2k_with_reply 5 BLK_STS_IOERR 0)) (u2k_with_reply 5 BLK_STS_IOERR 0) ms_no_area 100 [7] None 7
    (ms_pdu BIUS_READ 0) (mc_with_vma ms_conn None)).
  - apply reply_buf_writes. by vm_compute.
  - split; try done; [by left|]. intros x [->|Hx]%elem_of_cons; [|by apply elem_of_nil in Hx].
    eexists. split; [done|]. done.
  - reflexivity.
  - left. by vm_compute.
  - apply lookup_singleton_eq.
  - reflexivity.
Defined.

(** 33 whole pages, and half a kilobyte of another page. *)
Definition ms_whole : bio_vec := BioVec (ms_page + PAGE_SIZE * 0) 0 ms_len.
Definition ms_part : bio_vec := BioVec (ms_page + PAGE_SIZE * 64) 1024 512.
Definition ms_list_len : Z := ms_len + 512.
Lemma ms_list_fit : segments_fit ms_start ms_conn [ms_whole; ms_part].
Proof.
  split; [done| | |by vm_compute|by vm_compute]; (constructor; [|constructor; [|constructor]]).
  - by apply ms_seg_ok.
  - by apply ms_seg_ok.
  - by apply (ms_apart 0 0).
  - by apply (ms_apart 64 1024).
Qed.
Lemma ms_list_extent :
  ms_list_len = Z.of_nat (length (rq_extent (ms_rq [ms_whole; ms_part] ms_list_len))) /\
  NoDup (rq_extent (ms_rq [ms_whole; ms_part] ms_list_len)).
Proof.
  rewrite <- rq_segments_extent, ms_segments by apply ms_list_fit.
  rewrite !fmap_cons. cbn [concat]. change (concat (bv_addrs <$> [])) with (@nil Z). rewrite app_nil_r.
  unfold bv_addrs. split.
  - rewrite length_app, Nat2Z.inj_add, !length_seqZ, !Z2Nat.id by (by vm_compute). reflexivity.
  - apply NoDup_app. split_and!; [apply NoDup_seqZ| |apply NoDup_seqZ]. intros x Hx%elem_of_seqZ Hy%elem_of_seqZ.
    unfold bv_start, ms_whole, ms_part, ms_len, PAGE_SIZE in Hx, Hy. cbn [bv_page bv_offset bv_len] in Hx, Hy. lia.
Qed.

Lemma mapped_list_read_misplaced_witness :
  wp (_ ← bius_dev_read_mapped 200 ms_pad ms_pad [] (sample_buf 56 56 []);
      _ ← user_stores (extents (l_entries (lay_all ms_start
            (rq_for_each_segment (ms_rq [ms_whole; ms_part] ms_list_len))))) (ms_ones ms_list_len);
      bius_dev_write_mapped ms_zero_pfn (user_buffer 0 []) (good_env 101) 200 [] (reply_buf ms_reply))
    (fun ret s' => ret = 24 /\ trace (mk s') = [EvEnd 7 BLK_STS_OK] /\
       mem_read (mem_of s') (bv_start ms_part) 512
         = mem_read (mem_of (ms_state BIUS_READ [ms_whole; ms_part] ms_list_len)) (bv_start ms_part) 512)
    (ms_state BIUS_READ [ms_whole; ms_part] ms_list_len).
Proof.
  pose proof ms_list_extent as [Hext Hnd].
  pose proof (ms_segments [ms_whole; ms_part] ms_list_len (sf_ok _ _ _ ms_list_fit)) as Hsegs.
  eapply wp_mono.
  - apply (mapped_list_read_misplaced ms_zero_pfn ms_conn ms_start (user_buffer 0 []) (good_env 101) 200 100 7 [] ms_waits
      (ms_device [7]) (ms_pdu BIUS_READ ms_list_len) ms_blk (ms_rq [ms_whole; ms_part] ms_list_len) [ms_whole] ms_part
      (ms_state BIUS_READ [ms_whole; ms_part] ms_list_len) ms_pad ms_pad [] (sample_buf 56 56 []) []
      (reply_buf ms_reply) ms_reply (ms_ones ms_list_len)).
    + apply ms_large_read; [exact ms_list_fit|exact Hnd|]. split; [by vm_compute|exact Hext].
    + exact Hsegs.
    + discriminate.
    + constructor; [|constructor]. split; [reflexivity|by vm_compute].
    + by vm_compute.
    + by vm_compute.
    + by vm_compute.
    + by apply (ms_apart 64 0).
    + reflexivity.
    + reflexivity.
    + by vm_compute.
    + exact ms_reply_writes.
    + reflexivity.
    + reflexivity.
    + apply ms_ones_length. exact Hext.
  - intros ret s' (Hret & Htr & Hkeep & _). split_and!; [exact Hret|exact Htr|exact Hkeep].
Defined.
