(* ===== verification/Machine.v ===== *)
(** * The machine: one driver process on the module

    The system calls of the library are the file operations of the module, and
    the driver's operations work on the process's memory and the driver's disk.
    What one round of the library does around the call of the driver: it takes the
    oldest pending request, copies a payload in, and answers. *)
From S2P Require Import Prelude Protocol Linux Kernel Sample Command BlockDev CharDev CharDevProps.
From S2P Require Import LibBius LibBiusProps Backing.

(** ** The machine

    One process on the module; [m_user] is its memory and the driver's disk.
    Its file descriptors are the addresses of the connections, and memory is
    handed out from [m_brk] on. *)
Record machine `{BioOps} (V : Type) := Machine {
  m_kernel : kstate;
  m_user : V;
  m_brk : Z }.
Arguments Machine {_ V}. Arguments m_kernel {_ V}. Arguments m_user {_ V}. Arguments m_brk {_ V}.

(** The padding of the headers the module sends, and what happens when it
    creates a device. *)
Class Environment := {
  env_pad1 : list Z; env_pad2 : list Z; env_create : create_env;
  env_pad1_length : length env_pad1 = 4%nat; env_pad2_length : length env_pad2 = 4%nat }.

(** A buffer of [n] bytes, all of them mapped. *)
Definition mapped_buf (n : nat) (input : list Z) : @iov_iter ubuf_iov := Ubuf n n input [].

Section machine.
Context `{BO : BioOps} `{LC : LinuxConst} `{EN : Environment} {V : Type} `{SO : Store V}.
Existing Instance ubuf_iov.

Definition on_kernel {A} (m : ST kstate A) : ST (machine V) A := fun s =>
  match m (m_kernel s) with
  | Ret (a, k) => Ret (a, Machine k (m_user s) (m_brk s))
  | Fault e => Fault e
  | NoFuel => NoFuel
  end.
Definition on_user {A} (m : ST V A) : ST (machine V) A := fun s =>
  match m (m_user s) with
  | Ret (a, v) => Ret (a, Machine (m_kernel s) v (m_brk s))
  | Fault e => Fault e
  | NoFuel => NoFuel
  end.
Definition alloc (n : Z) : ST (machine V) Z := fun s =>
  Ret (m_brk s, Machine (m_kernel s) (m_user s) (m_brk s + Z.max 1 n)).

(** The C library turns a negative result into -1. *)
Definition syscall_result (r : Z) : Z := if r <? 0 then -1 else r.
(** The whole memory of the process is mapped. *)
Definition process_memory (v : V) : user_mem := fun a n => mem_read (v_mem v) a n.

#[export] Instance machine_process : Process (machine V) := {|
  proc_mem s := v_mem (m_user s);
  set_proc_mem f s := Machine (m_kernel s) (v_set_mem f (m_user s)) (m_brk s);
  sys_read fd n :=
    res ← on_kernel (bius_dev_read fd env_pad1 env_pad2 [] (mapped_buf (Z.to_nat n) []));
    mret (syscall_result res.1, ub_out res.2 : list Z);
  sys_write fd bs :=
    v ← gets m_user;
    r ← on_kernel (bius_dev_write (process_memory v) env_create fd []
                     (mapped_buf (length bs) bs));
    mret (syscall_result r);
  sys_open := fd ← alloc 1; r ← on_kernel (bius_dev_open (Some fd)); mret (if r <? 0 then -1 else fd);
  mmap _ _ := mret MAP_FAILED;  (** the device has no [mmap] operation *)
  aligned_alloc _ n := alloc n;
  malloc := alloc;
  free _ := mret tt;
  pthread_create _ := mret 11;  (** EAGAIN: the machine has one thread *)
  pthread_join _ := mret 0 |}.

(** The operations of a driver whose state is [V], run by the process. *)
Definition machine_ops (ops : bius_operations V) : bius_operations (machine V) :=
  Operations ((fun f data offset length => on_user (f data offset length)) <$> op_read ops)
    ((fun f data offset length => on_user (f data offset length)) <$> op_write ops)
    ((fun f offset length => on_user (f offset length)) <$> op_discard ops)
    (on_user <$> op_flush ops)
    ((fun f offset nr_zones zones => on_user (f offset nr_zones zones)) <$> op_report_zones ops)
    ((fun f offset => on_user (f offset)) <$> op_open_zone ops)
    ((fun f offset => on_user (f offset)) <$> op_close_zone ops)
    ((fun f offset => on_user (f offset)) <$> op_finish_zone ops)
    ((fun f data offset length first => on_user (f data offset length first)) <$> op_append_zone ops)
    ((fun f offset => on_user (f offset)) <$> op_reset_zone ops)
    (on_user <$> op_reset_all_zone ops).

Lemma wp_on_kernel {A} (m : ST kstate A) (Q : A -> machine V -> Prop) s :
  wp m (fun a k => Q a (Machine k (m_user s) (m_brk s))) (m_kernel s) -> wp (on_kernel m) Q s.
Proof. unfold wp, on_kernel. by destruct (m (m_kernel s)) as [[a k]| |]. Qed.
Lemma wp_on_user {A} (m : ST V A) (Q : A -> machine V -> Prop) s :
  wp m (fun a v => Q a (Machine (m_kernel s) v (m_brk s))) (m_user s) -> wp (on_user m) Q s.
Proof. unfold wp, on_user. by destruct (m (m_user s)) as [[a v]| |]. Qed.
Lemma process_memory_holds v a n : user_holds (process_memory v) a (mem_read (v_mem v) a n).
Proof.
  intros i k Hi Hk Hik. rewrite length_mem_read in Hik. unfold process_memory.
  destruct (Z.ltb_spec n 0).
  { assert (k = 0) as -> by lia. done. }
  replace n with (i + (k + (n - i - k))) at 1 by lia.
  rewrite mem_read_app by lia. rewrite drop_app_ge, length_mem_read, Nat.sub_diag, drop_0
    by solve_len.
  rewrite mem_read_app by lia. by rewrite take_app_le, take_ge by solve_len.
Qed.
End machine.

(** ** Receiving a request and answering it *)
Section requests.
Context `{BL : BioLaws} `{LC : LinuxConst} `{EN : Environment} {V : Type} `{SL : StoreLaws V}.
Existing Instance ubuf_iov.
Implicit Types s : machine V.

#[export] Instance machine_laws : ProcessLaws (machine V).
Proof. intros f s. apply v_mem_set. Qed.

(** The oldest pending request of device [dev] is [k], and connection [c] is idle. *)
Record pending_request s (c dev : Z) (w : list Z) (d : bius_block_device) (k : Z) (rest : list Z)
    (r : bius_request) (b : blk_part) (rq : request) : Prop := {
  pr_ready : ready_to_read (m_kernel s) c dev w d k rest r;
  pr_blk : blk_request (m_kernel s) k r b rq;
  pr_unmapped : b_map_type b = BIUS_DATAMAP_UNMAPPED;
  pr_type : req_canonical (req_type r);
  pr_is_blk : is_blk_request (req_type r) = true;
  pr_id : 0 <= req_id r < 2 ^ 64;
  pr_unique x : x ∈ w -> exists r', pdus (m_kernel s) !! x = Some r' /\ req_id r' <> req_id r }.

(** It has data: [req_length] bytes, none of them transferred. *)
Record next_request s (c dev : Z) (w : list Z) (d : bius_block_device) (k : Z) (rest : list Z)
    (r : bius_request) (b : blk_part) (rq : request) : Prop := {
  nr_pending : pending_request s c dev w d k rest r b rq;
  nr_data : request_may_have_data (req_type r) = true;
  nr_length : 0 < req_length r <= BIUS_MAX_SIZE_PER_COMMAND;
  nr_range : 0 <= req_pos r /\ req_pos r + req_length r < 2 ^ 63;
  nr_first : b_bio b = O;
  nr_bios : Forall (fun x => 0 < bi_size x) (rq_bios rq);
  nr_extent : Z.of_nat (length (rq_extent rq)) = req_length r }.

Lemma command_header_wf r : req_canonical (req_type r) -> 0 <= req_id r < 2 ^ 64 -> k2u_wf (command_header r).
Proof.
  intros Ht Hid. unfold k2u_wf, command_header; cbn [k2u_id k2u_opcode k2u_offset k2u_length k2u_data_address
    k2u_mapping_data k2u_data_map_type]. split_and!; try lia; try (by apply wrap_range); try done; apply Ht.
Qed.

Lemma max_size_small n : n <= BIUS_MAX_SIZE_PER_COMMAND -> n < 2 ^ 31.
Proof. intros Hn. eapply Z.le_lt_trans; [exact Hn|done]. Qed.

(** The library receives the header of the request. *)
Lemma read_command_spec s c dev w d k rest r header :
  ready_to_read (m_kernel s) c dev w d k rest r -> req_canonical (req_type r) -> 0 <= req_id r < 2 ^ 64 ->
  wp (read_command c header) (fun res s' =>
    res = (sizeof_k2u, command_header r) /\
    s' = Machine (dispatched (m_kernel s) c dev w d k rest r) (m_user s) (m_brk s)) s.
Proof.
  intros Hrd Hty Hid. unfold read_command. apply wp_bind.
  unfold sys_read, machine_process. apply wp_bind, wp_on_kernel.
  eapply (dev_read_run env_pad1 env_pad2 [] (mapped_buf 56 []) (m_kernel s) c dev w d k rest r); [exact Hrd|done|].
  eapply wp_mono; [apply (read_dispatch_spec env_pad1 env_pad2 (mapped_buf 56 []) (m_kernel s) c dev w d k rest r);
    [exact Hrd|apply env_pad1_length|apply env_pad2_length|done]|].
  intros [n to] ks (Hn & Hrcv & ->). cbn [fst snd] in *. change (Z.min sizeof_k2u _) with 56 in *.
  apply wp_ret. rewrite Hn. cbn [Datatypes.fst Datatypes.snd]. apply wp_ret. split; [|done].
  change (ub_out to) with (iov_received to). rewrite Hrcv, dispatched_header.
  pose proof (length_k2u_bytes env_pad1 env_pad2 (command_header r) env_pad1_length env_pad2_length) as Hl.
  rewrite take_ge by (unfold sizeof_k2u in Hl; lia). change (iov_received (mapped_buf 56 [])) with (@nil Z). rewrite app_nil_l.
  rewrite k2u_of_bytes_bytes; [done|apply env_pad1_length|apply env_pad2_length|by apply command_header_wf].
Qed.

Lemma reply_writes h : u2k_wf h -> writes (mapped_buf 24 (u2k_bytes h)) h.
Proof. apply reply_buf_writes. Qed.

Lemma sys_write_run c h s (Q : Z -> machine V -> Prop) :
  wp (bius_dev_write (process_memory (m_user s)) env_create c [] (mapped_buf 24 (u2k_bytes h)))
    (fun r k => Q (syscall_result r) (Machine k (m_user s) (m_brk s))) (m_kernel s) ->
  wp (sys_write c (u2k_bytes h)) Q s.
Proof.
  intros Hw. unfold sys_write, machine_process. apply wp_bind, wp_gets, wp_bind, wp_on_kernel.
  assert (length (u2k_bytes h) = 24%nat) as ->.
  { pose proof (length_u2k_bytes h) as Hl. unfold sizeof_u2k in Hl. lia. }
  eapply wp_mono; [exact Hw|]. intros r ks HQ. by apply wp_ret.
Qed.

(** *** The payload of a write

    [UI] is what is known of the driver's state, and not of its memory. *)
Section payload.
Context (K0 : kstate) (c dev : Z) (w1 : list Z) (k : Z) (r : bius_request) (bios : nat) (UI : V -> Prop).
Hypothesis HUI : forall f v, UI v -> UI (v_set_mem f v).

(** Request [k] with what is left of its data, [c] sending it while there is some. *)
Definition sending_state (bs : list Z) (b : blk_part) (rq : request) : kstate :=
  set_conns <[c := Connection (Some dev) w1 (if bool_decide (bs = []) then None else Some k)]>
    (set_blk_rqs <[k := rq]> (set_pdus <[k := with_blk r b]> K0)).
Definition to_come (bs : list Z) s : Prop :=
  exists b rq, m_kernel s = sending_state bs b rq /\ xfer_wf rq b /\ b_map_type b = BIUS_DATAMAP_UNMAPPED /\
    mem_gather (kmem K0) (payload rq b) = bs /\ length (rq_bios rq) = bios /\ UI (m_user s).

Lemma to_come_sending bs b rq :
  bs <> [] -> xfer_wf rq b -> b_map_type b = BIUS_DATAMAP_UNMAPPED ->
  sending (sending_state bs b rq) c dev w1 k (with_blk r b) b rq.
Proof.
  intros Hne Hwf Hmt. unfold sending_state. rewrite bool_decide_eq_false_2 by done.
  split; kfields; rewrite ?lookup_insert_eq; done.
Qed.

Lemma payload_stream : Stream c to_come.
Proof.
  split.
  - intros bs n s (b & rq & Hk & Hwf & Hmt & Hbs & Hnb & Hd) Hne Hn. unfold sys_read, machine_process.
    assert (Z.of_nat (length bs) = b_map_data b) as Hlen.
    { rewrite <- Hbs, length_mem_gather. by destruct Hwf as (_ & -> & _). }
    assert (0 < b_map_data b) as Hpos by (destruct bs; simpl in *; [done|lia]).
    apply wp_bind, wp_on_kernel. rewrite Hk. set (to := mapped_buf (Z.to_nat n) []).
    assert (iov_avail to = n) as Hav by (unfold to; simpl; lia).
    eapply wp_mono; [eapply (read_payload_spec env_pad1 env_pad2 [] to); by apply to_come_sending|].
    rewrite Hav. set (n' := Z.min (b_map_data b) n).
    intros [got to'] ks (Hgot & Hrcv & Hm & (s1 & b' & rq' & Hsent & Hks) & _).
    cbn [Datatypes.fst Datatypes.snd] in *. apply wp_ret. cbn [Datatypes.fst Datatypes.snd].
    assert (syscall_result got = n') as -> by (unfold syscall_result; destruct (Z.ltb_spec got 0); lia).
    change (kmem (sending_state bs b rq)) with (kmem K0) in Hrcv.
    change (iov_received to) with (@nil Z) in Hrcv. rewrite app_nil_l, Hbs in Hrcv.
    split_and!; [lia|lia|lia|exact Hrcv| |done].
    destruct Hsent as [Hs1 Hpay Hmd' Hwf' Hmt' _ Hnb'].
    exists b', rq'. cbn [m_kernel m_user]. split_and!; [|done|congruence| |congruence|done].
    + rewrite Hks, Hs1. unfold sending_state. rewrite (bool_decide_eq_false_2 (bs = [])) by done.
      destruct (Z.leb_spec (b_map_data b) n).
      * rewrite bool_decide_eq_true_2 by (apply drop_ge; lia).
        apply kstate_ext; kfields; rewrite ?insert_insert_eq; done.
      * rewrite bool_decide_eq_false_2; cycle 1.
        { intros E%(f_equal length). rewrite length_drop in E. simpl in E. lia. }
        apply kstate_ext; kfields; rewrite ?insert_insert_eq; done.
    + by rewrite Hpay, mem_gather_drop, Hbs.
  - intros bs a l s (b & rq & Hk & Hwf & Hmt & Hbs & Hnb & Hd). exists b, rq. cbn [m_kernel m_user set_proc_mem machine_process].
    split_and!; try done. by apply HUI.
Qed.
End payload.

(** *** The answer *)

(** Between [s] and [s'] request [k] went from the device's pending list to
    its completion, the events [evs]; [c] is idle again and nothing else completed. *)
Record served s s' (c dev : Z) (w : list Z) (d : bius_block_device) (k : Z) (rest : list Z)
    (evs : list kevent) : Prop := {
  sv_conns : connections (m_kernel s') = <[c := Connection (Some dev) w None]> (connections (m_kernel s));
  sv_devices : devices (m_kernel s') = <[dev := dev_with_pending d rest]> (devices (m_kernel s));
  sv_rqs : blk_rqs (m_kernel s') = delete k (blk_rqs (m_kernel s));
  sv_pdus x : x <> k -> pdus (m_kernel s') !! x = pdus (m_kernel s) !! x;
  sv_trace : trace (m_kernel s') = trace (m_kernel s) ++ evs;
  sv_lists : all_disk_list (m_kernel s') = all_disk_list (m_kernel s) /\
    next_request_id (m_kernel s') = next_request_id (m_kernel s) }.

(** In [s3] the request has been received, with its data, but not answered. *)
Record unanswered s s3 (c dev : Z) (w : list Z) (d : bius_block_device) (k : Z) (rest : list Z)
    (r : bius_request) (b : blk_part) (rq : request) : Prop := {
  un_conns : connections (m_kernel s3) = <[c := Connection (Some dev) (w ++ [k]) None]> (connections (m_kernel s));
  un_devices : devices (m_kernel s3) = <[dev := dev_with_pending d rest]> (devices (m_kernel s));
  un_blk : blk_request (m_kernel s3) k (with_blk r b) b rq;
  un_rqs : delete k (blk_rqs (m_kernel s3)) = delete k (blk_rqs (m_kernel s));
  un_pdus x : x <> k -> pdus (m_kernel s3) !! x = pdus (m_kernel s) !! x;
  un_kmem : kmem (m_kernel s3) = kmem (m_kernel s);
  un_trace : trace (m_kernel s3) = trace (m_kernel s);
  un_lists : all_disk_list (m_kernel s3) = all_disk_list (m_kernel s) /\
    next_request_id (m_kernel s3) = next_request_id (m_kernel s) }.

Lemma pending_fresh s c dev w d k rest r b rq : pending_request s c dev w d k rest r b rq -> k ∉ w.
Proof.
  intros [[_ _ _ Hr _] _ _ _ _ _ Hun] Hk. destruct (Hun k Hk) as (r' & Hr' & Hne). congruence.
Qed.
Lemma list_del_last k w : k ∉ w -> list_del k (w ++ [k]) = w.
Proof.
  intros Hk. unfold list_del. rewrite filter_app, filter_cons_False by (by intros []). rewrite app_nil_r.
  by apply list_del_notin.
Qed.

Section answer.
Context s s3 (c dev : Z) (w : list Z) (d : bius_block_device) (k : Z) (rest : list Z)
  (r : bius_request) (b b3 : blk_part) (rq rq3 : request).
Hypothesis Hpr : pending_request s c dev w d k rest r b rq.
Hypothesis Hun : unanswered s s3 c dev w d k rest r b3 rq3.

(** The connection waits for the answer to [k] alone, by its id. *)
Lemma unanswered_waiting st ud :
  waiting_for (m_kernel s3) c dev (w ++ [k]) None (u2k_with_reply (req_id r) st ud) k (with_blk r b3).
Proof.
  pose proof Hun as [Hc _ [Hr _ _ _ _] _ Hp _ _ _].
  split; [by rewrite Hc, lookup_insert_eq|apply elem_of_app; right; by left|done|done|].
  intros x [Hx|Hx%list_elem_of_singleton]%elem_of_app; [|subst x; by eexists].
  destruct (pr_unique _ _ _ _ _ _ _ _ _ _ Hpr x Hx) as (r' & Hr' & Hne). exists r'.
  rewrite Hp; [by split; [|intros ?; destruct Hne]|]. intros ->. by apply (pending_fresh _ _ _ _ _ _ _ _ _ _ Hpr).
Qed.

Lemma reply_header_wf st ud : 0 <= ud < 2 ^ 64 -> u2k_wf (u2k_with_reply (req_id r) st ud).
Proof.
  intros. pose proof Hpr as [_ _ _ _ _ Hid _]. pose proof (wrap_range 64 st ltac:(lia)).
  unfold u2k_wf, u2k_with_reply; cbn [u2k_id u2k_cell u2k_user_data]. by split_and!; try lia.
Qed.

(** The kernel after the reply. *)
Lemma answered_served ks evs v brk :
  blk_rqs ks = delete k (blk_rqs (m_kernel s3)) ->
  connections ks = <[c := answered_conn dev (w ++ [k]) None k]> (connections (m_kernel s3)) ->
  devices ks = devices (m_kernel s3) -> trace ks = trace (m_kernel s3) ++ evs ->
  next_request_id ks = next_request_id (m_kernel s3) -> all_disk_list ks = all_disk_list (m_kernel s3) ->
  (exists r', pdus ks = <[k := r']> (pdus (m_kernel s3))) ->
  served s (Machine ks v brk) c dev w d k rest evs.
Proof.
  intros Hrqs Hconn Hdev Htr Hnext Hlist [r' Hpdu]. pose proof Hun as [Hc Hd _ Hq Hp _ Ht [Hl Hn]].
  pose proof (pending_fresh _ _ _ _ _ _ _ _ _ _ Hpr) as Hfresh. split; cbn [m_kernel].
  - rewrite Hconn, Hc. unfold answered_conn. rewrite insert_insert_eq.
    by rewrite (list_del_last k w Hfresh), bool_decide_eq_false_2.
  - by rewrite Hdev.
  - by rewrite Hrqs.
  - intros x Hx. rewrite Hpdu, lookup_insert_ne by done. by apply Hp.
  - by rewrite Htr, Ht.
  - by rewrite Hlist, Hnext.
Qed.

(** A reply other than the success of a read. *)
Lemma reply_status st ud :
  0 <= ud < 2 ^ 64 -> - 2 ^ 63 <= st < 2 ^ 63 -> st <> BLK_STS_OK \/ req_type r <> BIUS_READ ->
  wp (sys_write c (u2k_bytes (u2k_with_reply (req_id r) st ud))) (fun res s4 =>
    res = sizeof_u2k /\ m_user s4 = m_user s3 /\ kmem (m_kernel s4) = kmem (m_kernel s) /\
    served s s4 c dev w d k rest (reply_events k r (u2k_with_reply (req_id r) st ud))) s3.
Proof.
  intros Hud Hst Hne. apply sys_write_run. eapply dev_write_run.
  - by apply reply_writes, reply_header_wf.
  - apply unanswered_waiting.
  - cbn [with_blk req_type]. rewrite (pr_is_blk _ _ _ _ _ _ _ _ _ _ Hpr).
    eapply wp_mono.
    { eapply (reply_blk_finish _ k _ sizeof_u2k _ (with_blk r b3) b3 rq3);
        [by apply blk_request_conns, Hun|]. cbn [with_blk req_type].
      destruct Hne as [Hne|Hne]; [left|by right]. unfold u2k_with_reply, u2k_reply; cbn [u2k_cell].
      by rewrite swrap_wrap, swrap_small by lia. }
    intros res ks (-> & Hrqs & Hconn & Hdev & Hmem & Htr & Hnext & Hlist & _ & r' & b' & Hpdu & _).
    cbn [m_kernel m_user]. split_and!; [done|done|by rewrite Hmem, <- (un_kmem _ _ _ _ _ _ _ _ _ _ _ Hun)|].
    apply answered_served; try done. by exists r'.
Qed.

(** The success of a read, whose data is at [buffer]. *)
Lemma reply_read buffer bs :
  req_type r = BIUS_READ -> b_map_type b3 = BIUS_DATAMAP_UNMAPPED -> (b_bio b3 < length (rq_bios rq3))%nat ->
  NoDup (rq_extent rq3) -> 0 <= buffer < 2 ^ 64 -> length bs = length (rq_extent rq3) ->
  mem_read (v_mem (m_user s3)) buffer (Z.of_nat (length bs)) = bs ->
  wp (sys_write c (u2k_bytes (u2k_with_reply (req_id r) BLK_STS_OK buffer))) (fun res s4 =>
    res = sizeof_u2k /\ m_user s4 = m_user s3 /\ mem_gather (kmem (m_kernel s4)) (rq_extent rq3) = bs /\
    (forall x, x ∉ rq_extent rq3 -> kmem (m_kernel s4) !! x = kmem (m_kernel s) !! x) /\
    served s s4 c dev w d k rest [EvEnd k BLK_STS_OK]) s3.
Proof.
  intros Hty Hmt Hbio Hnd Hb Hlen Hbs. set (h := u2k_with_reply (req_id r) BLK_STS_OK buffer).
  apply sys_write_run. eapply (dev_write_run _ _ _ _ _ h).
  - by apply reply_writes, reply_header_wf.
  - apply unanswered_waiting.
  - cbn [with_blk req_type]. rewrite Hty. change (is_blk_request BIUS_READ) with true. cbv iota.
    destruct (reply_blk_read (process_memory (m_user s3)) k h sizeof_u2k
      (set_conns <[c := answered_conn dev (w ++ [k]) None k]> (m_kernel s3)) (with_blk r b3) b3 rq3)
      as (m & Hrun & Hout & Hm); try done; [by apply blk_request_conns, Hun|].
    destruct (Hm bs) as [Hnf ->]; [rewrite <- Hbs; apply process_memory_holds|done|].
    rewrite Hnf in Hrun. eapply wp_intro; [exact Hrun|]. cbn [m_kernel m_user]. unfold ended. kfields.
    split_and!; [done|done|by apply gather_scatter| |].
    + intros x Hx. rewrite Hout by done. kfields. by rewrite (un_kmem _ _ _ _ _ _ _ _ _ _ _ Hun).
    + apply answered_served; kfields; try done; [|by eexists].
      unfold end_events. cbn [with_blk req_type]. by rewrite Hty.
Qed.
End answer.

(** ** One round of the library, for a driver with the operations [ops] *)
Section round.
Context s (c dev : Z) (w : list Z) (d : bius_block_device) (k : Z) (rest : list Z)
  (r : bius_request) (b : blk_part) (rq : request) (ops : bius_operations (machine V)) (buffer : Z) (l : locals).
Hypothesis Hbuffer : 0 <= buffer < 2 ^ 64.

(** The header of a request with data as the library passes it on. *)
Definition local_header : bius_k2u_header :=
  K2U (req_id r) (req_type r) (u64 (req_pos r)) (u64 (req_length r)) buffer 0
    (data_map_type_value BIUS_DATAMAP_SIMPLE).
Definition sent_kernel : kstate := dispatched (m_kernel s) c dev w d k rest r.

Lemma round_numbers :
  next_request s c dev w d k rest r b rq ->
  u64 (req_length r) = req_length r /\ s64 (u64 (req_pos r)) = req_pos r /\ u64 (buffer + 0) = buffer.
Proof.
  intros [_ _ [Hl Hlm] [Hp Hpe] _ _ _]. apply max_size_small in Hlm. split_and!.
  - apply wrap_small. lia.
  - rewrite swrap_wrap. apply swrap_small; lia.
  - rewrite Z.add_0_r. by apply wrap_small.
Qed.

(** The state in which a request without payload is called. *)
Lemma sent_unanswered v brk :
  pending_request s c dev w d k rest r b rq -> sends_data r = false ->
  unanswered s (Machine sent_kernel v brk) c dev w d k rest r b rq.
Proof.
  intros [[Hc Hd Hp Hr _] [_ Hu He Hrq Hb] _ _ _ _ _] Hsd.
  split; cbn [m_kernel]; unfold sent_kernel, dispatched; rewrite ?Hsd; kfields; try done.
  split; kfields; try done. by rewrite (with_blk_id r b).
Qed.

(** Receiving the header, and the end of the round. *)
Lemma round_start (Q : exec locals -> machine V -> Prop) :
  pending_request s c dev w d k rest r b rq ->
  wp (pbind (handle_copy_in c (command_header r) buffer BIUS_MAX_SIZE_PER_COMMAND) (fun k2u =>
        pbind (lift (prepare_reply ops k2u (l_u2k l))) (fun reply =>
          pbind (lift (write_command c reply.1)) (fun result =>
            if result <? 0 then exit 1
            else pbind (if negb (reply.2 =? 0) then lift (free reply.2) else pret tt)
                   (fun _ => pret (Locals k2u reply.1)))))) Q
    (Machine sent_kernel (m_user s) (m_brk s)) ->
  wp (handle_request c ops buffer BIUS_MAX_SIZE_PER_COMMAND l) Q s.
Proof.
  intros Hpr Hgo. unfold handle_request. apply wp_pbind_lift.
  eapply wp_mono; [eapply read_command_spec; apply Hpr|]. intros res s1 [-> ->]. exact Hgo.
Qed.
Lemma round_end h zones k2u s3 (Q : exec locals -> machine V -> Prop) :
  wp (sys_write c (u2k_bytes h)) (fun res s4 => res = sizeof_u2k /\ Q (Go (Locals k2u h)) s4) s3 ->
  wp (pbind (lift (write_command c h)) (fun result =>
    if result <? 0 then exit 1
    else pbind (if negb (zones =? 0) then lift (free zones) else pret tt) (fun _ => pret (Locals k2u h)))) Q s3.
Proof. by apply finish_round. Qed.
(** The reply is the driver's, whatever it does with the data. *)
Section call.
Context (vops : bius_operations V) (u2k : bius_u2k_header) (s2 : machine V).
Context (Q : bius_u2k_header * Z -> machine V -> Prop).
Let after (v : V) : machine V := Machine (m_kernel s2) v (m_brk s2).
Hypothesis Hnr : next_request s c dev w d k rest r b rq.

Lemma prepare_data_reply :
  wp (handle_blk_command local_header (machine_ops vops) 0) (fun res s3 =>
    Q (u2k_with_reply (req_id r) res.1 res.2, 0) s3) s2 ->
  wp (prepare_reply (machine_ops vops) local_header u2k) Q s2.
Proof.
  intros Hc. unfold prepare_reply, local_header; cbn [k2u_opcode k2u_id]. fold local_header.
  rewrite (pr_is_blk _ _ _ _ _ _ _ _ _ _ (nr_pending _ _ _ _ _ _ _ _ _ _ Hnr)). apply wp_bind.
  eapply wp_mono; [exact Hc|]. intros res s3 HQ. by apply wp_ret.
Qed.

Lemma prepare_write f :
  req_type r = BIUS_WRITE -> op_write vops = Some f ->
  wp (f buffer (req_pos r) (req_length r)) (fun st v =>
    Q (u2k_with_reply (req_id r) (u32 st) 0, 0) (after v)) (m_user s2) ->
  wp (prepare_reply (machine_ops vops) local_header u2k) Q s2.
Proof.
  intros Hty Hf Hc. apply prepare_data_reply. destruct (round_numbers Hnr) as (Hlen & Hpos & Hdata).
  unfold handle_blk_command, local_header.
  cbn [k2u_data_map_type k2u_opcode k2u_data_address k2u_mapping_data k2u_offset k2u_length machine_ops op_write].
  change (data_map_type_value _ =? _) with false. cbv iota. rewrite Hty, Hdata, Hpos, Hlen, Hf.
  apply wp_bind. unfold call. cbn [fmap option_fmap option_map]. apply wp_bind, wp_on_user.
  eapply wp_mono; [exact Hc|]. intros st v HQ. by repeat apply wp_ret.
Qed.
Lemma prepare_read f :
  req_type r = BIUS_READ -> op_read vops = Some f ->
  wp (f buffer (req_pos r) (req_length r)) (fun st v =>
    Q (u2k_with_reply (req_id r) (u32 st) buffer, 0) (after v)) (m_user s2) ->
  wp (prepare_reply (machine_ops vops) local_header u2k) Q s2.
Proof.
  intros Hty Hf Hc. apply prepare_data_reply. destruct (round_numbers Hnr) as (Hlen & Hpos & Hdata).
  unfold handle_blk_command, local_header.
  cbn [k2u_data_map_type k2u_opcode k2u_data_address k2u_mapping_data k2u_offset k2u_length machine_ops op_read].
  change (data_map_type_value _ =? _) with false. cbv iota. rewrite Hty, Hdata, Hpos, Hlen, Hf.
  apply wp_bind. unfold call. cbn [fmap option_fmap option_map]. apply wp_bind, wp_on_user.
  eapply wp_mono; [exact Hc|]. intros st v HQ. by repeat apply wp_ret.
Qed.
Lemma prepare_append f :
  req_type r = BIUS_ZONE_APPEND -> op_append_zone vops = Some f ->
  wp (f buffer (req_pos r) (req_length r) true) (fun res v =>
    Q (u2k_with_reply (req_id r) (u32 res.1) (from_option u64 0 res.2), 0) (after v)) (m_user s2) ->
  wp (prepare_reply (machine_ops vops) local_header u2k) Q s2.
Proof.
  intros Hty Hf Hc. apply prepare_data_reply. destruct (round_numbers Hnr) as (Hlen & Hpos & Hdata).
  unfold handle_blk_command, local_header.
  cbn [k2u_data_map_type k2u_opcode k2u_data_address k2u_mapping_data k2u_offset k2u_length machine_ops op_append_zone].
  change (data_map_type_value _ =? _) with false. cbv iota. rewrite Hty, Hdata, Hpos, Hlen, Hf.
  unfold call_append. cbn [fmap option_fmap option_map]. apply wp_bind, wp_on_user.
  eapply wp_mono; [exact Hc|]. intros res v HQ. by repeat apply wp_ret.
Qed.
End call.

Section write.
Context (UI : V -> Prop).
Hypothesis HUI : forall f v, UI v -> UI (v_set_mem f v).
Hypothesis Hnr : next_request s c dev w d k rest r b rq.
Hypothesis Hw : request_is_write (req_type r) = true.

Lemma write_sends : sends_data r = true.
Proof.
  pose proof Hnr as [_ Hd [Hl _] _ _ _ _]. unfold sends_data. rewrite Hd, Hw.
  destruct (Z.ltb_spec 0 (req_length r)); [done|lia].
Qed.

Lemma round_write_payload :
  UI (m_user s) ->
  to_come sent_kernel c dev (w ++ [k]) k r (length (rq_bios rq)) UI (mem_gather (kmem (m_kernel s)) (rq_extent rq))
    (Machine sent_kernel (m_user s) (m_brk s)).
Proof.
  intros HU. pose proof Hnr as [[[Hc Hd Hp Hr _] [_ Hu _ Hrq _] Hmt _ _ _ _] _ [Hl Hlm] _ Hfirst Hbios Hext].
  pose proof write_sends as Hsd.
  assert (dispatched_pdu r = with_blk r (with_map_data b (req_length r))) as Hdp
    by (unfold dispatched_pdu; by rewrite Hu, Hsd).
  exists (with_map_data b (req_length r)), rq. cbn [m_kernel m_user]. split_and!; try done.
  - unfold sending_state, sent_kernel, dispatched. rewrite Hsd, Hdp. rewrite bool_decide_eq_false_2; cycle 1.
    { intros E%(f_equal length). rewrite length_mem_gather in E. simpl in E. lia. }
    apply kstate_ext; kfields; rewrite ?insert_insert_eq, ?insert_id by done; done.
  - unfold xfer_wf, payload. cbn [with_map_data b_bio b_map_data]. rewrite Hfirst, drop_0.
    apply max_size_small in Hlm. split_and!; [done|by rewrite <- Hext|lia].
  - unfold payload. cbn [with_map_data b_bio]. by rewrite Hfirst, drop_0.
Qed.

Lemma sending_unanswered b' rq' s3 :
  m_kernel s3 = sending_state sent_kernel c dev (w ++ [k]) k r [] b' rq' ->
  length (rq_bios rq') = length (rq_bios rq) ->
  unanswered s s3 c dev w d k rest r b' rq'.
Proof.
  intros Hk3 Hnb. pose proof Hnr as [[[Hc Hd Hp Hr _] [_ Hu He Hrq Hb] _ _ _ _ _] _ _ _ _ _ _].
  pose proof write_sends as Hsd. split; rewrite Hk3; unfold sending_state, sent_kernel, dispatched; kfields; try done.
  - by rewrite insert_insert_eq, bool_decide_eq_true_2.
  - split; kfields; rewrite ?lookup_insert_eq; try done. intros Ht Hnil. apply (Hb Ht), length_zero_iff_nil.
    rewrite <- Hnb. by rewrite Hnil.
  - by rewrite delete_insert_eq.
  - intros x Hx. rewrite lookup_insert_ne by done. rewrite Hsd. by rewrite lookup_insert_ne.
Qed.
(** A request with a payload: the driver gets it at [buffer], and what [UI] says. *)
Lemma write_round st ud (Post : V -> Prop) :
  UI (m_user s) -> 0 <= ud < 2 ^ 64 -> - 2 ^ 63 <= st < 2 ^ 63 ->
  (forall s2, UI (m_user s2) ->
     mem_read (v_mem (m_user s2)) buffer (req_length r) = mem_gather (kmem (m_kernel s)) (rq_extent rq) ->
     wp (prepare_reply ops local_header (l_u2k l)) (fun res s3 =>
       res = (u2k_with_reply (req_id r) st ud, 0) /\ m_kernel s3 = m_kernel s2 /\ Post (m_user s3)) s2) ->
  wp (handle_request c ops buffer BIUS_MAX_SIZE_PER_COMMAND l) (fun res s' =>
    (exists l', res = Go l') /\ Post (m_user s') /\ kmem (m_kernel s') = kmem (m_kernel s) /\
    served s s' c dev w d k rest (reply_events k r (u2k_with_reply (req_id r) st ud))) s.
Proof.
  intros HU Hud Hst Hdrv. pose proof Hnr as [Hpr _ [Hl Hlm] _ _ _ Hext].
  destruct (round_numbers Hnr) as (Hlen & _ & _). apply round_start; [done|]. apply wp_pbind.
  pose proof (payload_stream sent_kernel c dev (w ++ [k]) k r (length (rq_bios rq)) UI HUI) as Hstream.
  eapply wp_mono.
  { apply (copy_in_reads_payload_aux c buffer BIUS_MAX_SIZE_PER_COMMAND _ (command_header r)
      (mem_gather (kmem (m_kernel s)) (rq_extent rq))).
    - by apply round_write_payload.
    - exact Hw.
    - done.
    - cbn [command_header k2u_length]. by rewrite length_mem_gather, Hlen.
    - cbn [command_header k2u_length]. by rewrite Hlen.
    - cbn [command_header k2u_length]. rewrite Hlen. apply max_size_small in Hlm. lia. }
  intros res s2 (-> & (b' & rq' & Hk2 & _ & _ & _ & Hnb & HU2) & Hread & _).
  cbn [command_header k2u_length] in Hread. rewrite Hlen in Hread.
  apply wp_pbind_lift. eapply wp_mono; [exact (Hdrv s2 HU2 Hread)|].
  intros res s3 (-> & Hk3 & HP). apply round_end. eapply wp_mono.
  { eapply (reply_status s s3 c dev w d k rest r b b' rq rq'); [exact Hpr| |done|done|].
    - apply sending_unanswered; [by rewrite Hk3|done].
    - right. intros E. by rewrite E in Hw. }
  intros res s4 (-> & Hu & Hm & Hsv). split_and!; try done; [by eexists|by rewrite Hu].
Qed.
End write.

(** A read the driver answers with the bytes [bs] at [buffer]. *)
Lemma read_round bs (Post : V -> Prop) :
  next_request s c dev w d k rest r b rq -> req_type r = BIUS_READ -> NoDup (rq_extent rq) ->
  length bs = length (rq_extent rq) ->
  (forall s2, m_user s2 = m_user s ->
     wp (prepare_reply ops local_header (l_u2k l)) (fun res s3 =>
       res = (u2k_with_reply (req_id r) BLK_STS_OK buffer, 0) /\ m_kernel s3 = m_kernel s2 /\ Post (m_user s3) /\
       mem_read (v_mem (m_user s3)) buffer (req_length r) = bs) s2) ->
  wp (handle_request c ops buffer BIUS_MAX_SIZE_PER_COMMAND l) (fun res s' =>
    (exists l', res = Go l') /\ Post (m_user s') /\ mem_gather (kmem (m_kernel s')) (rq_extent rq) = bs /\
    (forall x, x ∉ rq_extent rq -> kmem (m_kernel s') !! x = kmem (m_kernel s) !! x) /\
    served s s' c dev w d k rest [EvEnd k BLK_STS_OK]) s.
Proof.
  intros Hnr Hty Hnd Hlen Hdrv. pose proof Hnr as [Hpr _ [Hl _] _ Hfirst _ Hext].
  apply round_start; [done|]. unfold handle_copy_in. cbn [command_header k2u_opcode k2u_data_map_type].
  rewrite Hty. change (_ && _) with true. cbv iota. change (request_is_write BIUS_READ) with false. cbv iota.
  apply wp_pbind, wp_pret. rewrite <- Hty. fold local_header. apply wp_pbind_lift.
  eapply wp_mono; [by apply Hdrv|]. intros res s3 (-> & Hk3 & HP & Hread). apply round_end. eapply wp_mono.
  { eapply (reply_read s s3 c dev w d k rest r b b rq rq Hpr); try done; try apply Hpr.
    - destruct s3 as [k3 v3 b3]. cbn [m_kernel] in Hk3. subst k3. apply sent_unanswered; [done|].
      unfold sends_data. rewrite Hty. by rewrite andb_comm.
    - rewrite Hfirst. destruct (rq_bios rq) eqn:E; simpl; [|lia]. unfold rq_extent in Hext. rewrite E in Hext. simpl in Hext. lia.
    - by rewrite Hlen, Hext. }
  intros res s4 (-> & Hu & Hg & Hout & Hsv). split_and!; try done; [by eexists|by rewrite Hu].
Qed.

(** A request without data, like those for zones. *)
Lemma plain_round st ud (Post : V -> Prop) :
  pending_request s c dev w d k rest r b rq -> request_may_have_data (req_type r) = false ->
  0 <= ud < 2 ^ 64 -> - 2 ^ 63 <= st < 2 ^ 63 ->
  (forall s2, m_user s2 = m_user s ->
     wp (prepare_reply ops (command_header r) (l_u2k l)) (fun res s3 =>
       res = (u2k_with_reply (req_id r) st ud, 0) /\ m_kernel s3 = m_kernel s2 /\ Post (m_user s3)) s2) ->
  wp (handle_request c ops buffer BIUS_MAX_SIZE_PER_COMMAND l) (fun res s' =>
    (exists l', res = Go l') /\ Post (m_user s') /\ kmem (m_kernel s') = kmem (m_kernel s) /\
    served s s' c dev w d k rest (reply_events k r (u2k_with_reply (req_id r) st ud))) s.
Proof.
  intros Hpr Hty Hud Hst Hdrv. apply round_start; [done|]. unfold handle_copy_in.
  cbn [command_header k2u_opcode]. rewrite Hty. cbn [andb]. apply wp_pbind, wp_pret, wp_pbind_lift.
  eapply wp_mono; [by apply Hdrv|]. intros res s3 (-> & Hk3 & HP). apply round_end. eapply wp_mono.
  { eapply (reply_status s s3 c dev w d k rest r b b rq rq Hpr); [|done|done|].
    - destruct s3 as [k3 v3 b3]. cbn [m_kernel] in Hk3. subst k3. apply sent_unanswered; [done|].
      unfold sends_data. by rewrite Hty.
    - right. intros E. by rewrite E in Hty. }
  intros res s4 (-> & Hu & Hm & Hsv). split_and!; try done; [by eexists|by rewrite Hu].
Qed.

(** A zone report the driver answers with the [n] zones [bs]. *)
Lemma report_round vops f i size n bs (Post : V -> Prop) :
  ops = machine_ops vops -> op_report_zones vops = Some f ->
  ready_to_read (m_kernel s) c dev w d k rest r -> report_request (m_kernel s) k r i size ->
  0 <= req_id r < 2 ^ 64 -> 0 <= req_pos r < 2 ^ 63 -> 0 <= req_length r < 2 ^ 31 ->
  (forall x, x ∈ w -> exists r', pdus (m_kernel s) !! x = Some r' /\ req_id r' <> req_id r) ->
  0 < m_brk s < 2 ^ 64 -> 0 < sizeof_blk_zone * n <= size -> sizeof_blk_zone * n < 2 ^ 31 ->
  wp (f (req_pos r) (req_length r) (m_brk s)) (fun m v => m = n /\ Post v /\
    mem_read (v_mem v) (m_brk s) (sizeof_blk_zone * n) = bs) (m_user s) ->
  wp (handle_request c ops buffer BIUS_MAX_SIZE_PER_COMMAND l) (fun res s' =>
    (exists l', res = Go l') /\ Post (m_user s') /\
    mem_read (kmem (m_kernel s')) (i_data i) (sizeof_blk_zone * n) = bs /\
    pdus (m_kernel s') !! k = Some (with_int r (IntPart (i_data i) (i_sem i + 1) (Some (sizeof_blk_zone * n)))) /\
    connections (m_kernel s') = <[c := Connection (Some dev) w None]> (connections (m_kernel s))) s.
Proof.
  intros -> Hf Hrd Hrep Hid Hpos Hlen Huniq Hbrk Hn Hn31 Hdrv. pose proof Hrep as [Hty Hu He Hkb].
  assert (sends_data r = false) as Hsd by (unfold sends_data; by rewrite Hty).
  assert (0 < n < 2 ^ 31) as Hn0 by (unfold sizeof_blk_zone in *; lia).
  unfold handle_request. apply wp_pbind_lift. eapply wp_mono.
  { eapply read_command_spec; [exact Hrd|by rewrite Hty; split|done]. }
  intros res s1 [-> ->]. fold sent_kernel. cbn [fst snd Datatypes.fst Datatypes.snd]. change (sizeof_k2u <? 0) with false. cbv iota.
  unfold handle_copy_in. cbn [command_header k2u_opcode]. rewrite Hty. change (request_may_have_data _ && _) with false.
  cbv iota. apply wp_pbind, wp_pret, wp_pbind_lift. unfold prepare_reply. cbn [k2u_opcode k2u_id k2u_offset k2u_length command_header].
  rewrite Hty. change (is_blk_request BIUS_REPORT_ZONES) with false. cbv iota.
  cbn [machine_ops op_report_zones]. rewrite Hf. cbn [fmap option_fmap option_map].
  apply wp_bind. eapply wp_intro; [reflexivity|]. cbn [m_brk m_user m_kernel].
  rewrite swrap_wrap, (swrap_small 64 (req_pos r)) by lia.
  rewrite (wrap_small 64 (req_length r)), (swrap_small 32 (req_length r)) by lia.
  apply wp_bind, wp_on_user. cbn [m_user m_kernel m_brk]. eapply wp_mono; [exact Hdrv|].
  intros m v (-> & HP & Hbs). apply wp_ret. rewrite (swrap_small 32 n), (swrap_small 64) by (unfold sizeof_blk_zone in *; lia).
  rewrite (Z.mul_comm n). cbn [fst snd Datatypes.fst Datatypes.snd]. set (h := u2k_with_reply _ _ _).
  set (s3 := Machine sent_kernel v _).
  assert (u2k_reply h = sizeof_blk_zone * n) as Hrp.
  { unfold h, u2k_reply, u2k_with_reply; cbn [u2k_cell]. rewrite swrap_wrap. apply swrap_small; unfold sizeof_blk_zone in *; lia. }
  assert (connections (m_kernel s3) = <[c := Connection (Some dev) (w ++ [k]) None]> (connections (m_kernel s)) /\
    pdus (m_kernel s3) = pdus (m_kernel s) /\ kbufs (m_kernel s3) = kbufs (m_kernel s)) as (Hc3 & Hp3 & Hk3).
  { unfold s3, sent_kernel, dispatched. cbn [m_kernel]. rewrite Hsd. by kfields. }
  assert (k ∉ w) as Hfresh.
  { intros Hk. destruct (Huniq k Hk) as (r' & Hr' & Hne). pose proof (rd_pdu _ _ _ _ _ _ _ _ Hrd). congruence. }
  apply round_end, sys_write_run. eapply wp_mono.
  { apply (bius_dev_write_report _ _ _ _ _ h (m_kernel s3) dev (w ++ [k]) None k r i size bs).
    - apply reply_writes. unfold u2k_wf, h, u2k_with_reply; cbn [u2k_id u2k_cell u2k_user_data].
      pose proof (wrap_range 64 (sizeof_blk_zone * n) ltac:(lia)). by split_and!; try lia.
    - split; [by rewrite Hc3, lookup_insert_eq|apply elem_of_app; right; by left|rewrite Hp3; apply Hrd|done|].
      rewrite Hp3. intros x [Hx|Hx%list_elem_of_singleton]%elem_of_app; [|subst x; eexists; split; [apply Hrd|done]].
      destruct (Huniq x Hx) as (r' & Hr' & Hne). exists r'. split; [done|]. by intros ?.
    - split; [done..|]. by rewrite Hk3.
    - by rewrite Hrp.
    - by rewrite Hrp.
    - rewrite <- Hbs. apply process_memory_holds.
    - rewrite Hrp, <- Hbs, length_mem_read. lia. }
  intros res ks (-> & Hm & Hp & Hcn & _). rewrite Hrp in Hm, Hp. cbn [m_kernel m_user]. split; [done|].
  split_and!; [by eexists|exact HP|exact Hm|by rewrite Hp, lookup_insert_eq|].
  rewrite Hcn, Hc3. unfold answered_conn. rewrite insert_insert_eq.
  by rewrite (list_del_last k w Hfresh), bool_decide_eq_false_2.
Qed.
End round.
(** The state once the first pending request of [dev] is out of the way. *)
Definition past_first s (dev : Z) (d : bius_block_device) (rest : list Z) : machine V :=
  Machine (set_devices <[dev := dev_with_pending d rest]> (m_kernel s)) (m_user s) (m_brk s).

Lemma next_request_served s s' c dev w d k1 k2 rest evs r1 b1 rq1 r b rq :
  pending_request s c dev w d k1 (k2 :: rest) r1 b1 rq1 -> served s s' c dev w d k1 (k2 :: rest) evs -> k1 <> k2 ->
  next_request (past_first s dev d (k2 :: rest)) c dev w (dev_with_pending d (k2 :: rest)) k2 rest r b rq ->
  next_request s' c dev w (dev_with_pending d (k2 :: rest)) k2 rest r b rq.
Proof.
  intros Hpr [Hcn Hdv Hrqs Hps _ _] Hne [[[Hc Hd Hp Hr Ha] [_ Hu He Hrq Hb] Hmt Hty Hblk Hid Hun] Hdt Hl Hrg Hf Hbs Hext].
  pose proof (pending_fresh _ _ _ _ _ _ _ _ _ _ Hpr) as Hfresh. cbn [past_first m_kernel] in *. kfields.
  split; try done. split; try done.
  - split; try done; [by rewrite Hcn, lookup_insert_eq|by rewrite Hdv, lookup_insert_eq|by rewrite Hps].
  - split; try done; [by rewrite Hps|by rewrite Hrqs, lookup_delete_ne].
  - intros x Hx. rewrite Hps by (by intros ->). by apply Hun.
Qed.
End requests.
