(* ===== verification/RamDisk.v ===== *)
(** * The RAM disks

    [examples/ramdisk.c], and the same three functions in
    [examples/zoned-ramdisk.c]: the disk is one static array. *)
From S2P Require Import Prelude Protocol Zoned ZonedInv ZonedProps Backing LibBius.

Definition RAMDISK_SIZE : Z := 32 * 1024 * 1024 * 1024.

(** [ram_mem] is the process memory the data pointers point into, [ram_disk]
    the array [in_memory_data], by index. *)
Record ram := Ram { ram_mem : memory; ram_disk : memory }.

(** [in_memory_data + offset .. + length] lies in the array. *)
Definition in_array (offset length : Z) : bool :=
  (0 <=? offset) && (0 <=? length) && (offset + length <=? RAMDISK_SIZE).

Definition ramdisk_read (data offset length : Z) : ST ram Z := fun s =>
  if in_array offset length then
    Ret (BLK_STS_OK, Ram (mem_write (ram_mem s) data (mem_read (ram_disk s) offset length)) (ram_disk s))
  else Fault OutOfBounds.
Definition ramdisk_write (data offset length : Z) : ST ram Z := fun s =>
  if in_array offset length then
    Ret (BLK_STS_OK, Ram (ram_mem s) (mem_write (ram_disk s) offset (mem_read (ram_mem s) data length)))
  else Fault OutOfBounds.
Definition ramdisk_discard (offset length : Z) : ST ram Z := fun s =>
  if in_array offset length then
    Ret (BLK_STS_OK, Ram (ram_mem s) (mem_write (ram_disk s) offset (replicate (Z.to_nat length) 0)))
  else Fault OutOfBounds.
Definition ramdisk_flush : ST ram Z := mret BLK_STS_OK.

(** What [main] passes to [bius_main]; [strncpy] fills the name with zeros. *)
Definition ramdisk_operations : bius_operations ram :=
  Operations (Some ramdisk_read) (Some ramdisk_write) (Some ramdisk_discard) (Some ramdisk_flush)
    None None None None None None None.
Definition ramdisk_options : bius_block_device_options :=
  Options BLK_ZONED_NONE 4 RAMDISK_SIZE 0 0 ([114; 97; 109; 100; 105; 115; 107] ++ replicate 25 0).

(** The configuration of [zoned-ramdisk.c]. *)
Definition zoned_ramdisk : zone_config :=
  ZoneConfig (32 * 1024 * 1024) RAMDISK_SIZE 0 32 64.

#[export] Instance ram_raw : RawOps ram := {|
  raw_read := ramdisk_read; raw_write := ramdisk_write; raw_discard := ramdisk_discard |}.

Lemma in_array_on_disk cfg o l :
  zoned_disk_size cfg <= RAMDISK_SIZE -> on_disk cfg o l -> in_array o l = true.
Proof. intros ? (? & ? & ?). unfold in_array. rewrite !andb_true_iff, !Z.leb_le. lia. Qed.

Lemma ram_total cfg : zoned_disk_size cfg <= RAMDISK_SIZE -> RawTotal ram cfg.
Proof.
  intros Hsz. split; intros; simpl; unfold ramdisk_read, ramdisk_write, ramdisk_discard;
    erewrite in_array_on_disk by eassumption; eauto.
Qed.
#[export] Instance zoned_ramdisk_total : RawTotal ram zoned_ramdisk.
Proof. apply ram_total. done. Qed.

(** A byte of the disk after a write, wherever it lies. *)
Lemma ramdisk_write_byte data offset length s r s' x :
  ramdisk_write data offset length s = Ret (r, s') ->
  r = BLK_STS_OK /\ ram_mem s' = ram_mem s /\
  default 0 (ram_disk s' !! x) =
    if decide (offset <= x < offset + length)
    then default 0 (ram_mem s !! (data + (x - offset))) else default 0 (ram_disk s !! x).
Proof.
  unfold ramdisk_write. destruct (in_array offset length) eqn:Hin; [|done]. intros [= <- <-].
  unfold in_array in Hin. rewrite !andb_true_iff, !Z.leb_le in Hin.
  split_and!; [done|done|]. simpl. rewrite mem_write_lookup, length_mem_read.
  replace (Z.of_nat (Z.to_nat length)) with length by lia.
  case_decide; [|done]. rewrite mem_read_lookup by lia. simpl. do 2 f_equal. lia.
Qed.

(** The RAM disk keeps the promise of a driver. *)
#[export] Instance ram_store : Store ram := {|
  v_mem := ram_mem;
  v_set_mem f s := Ram (f (ram_mem s)) (ram_disk s);
  v_disk := ram_disk |}.
#[export] Instance ram_store_laws : StoreLaws ram.
Proof. by split. Qed.
#[export] Instance ram_backing : Backing ram := {|
  drv_read := ramdisk_read;
  drv_write := ramdisk_write |}.
#[export] Instance ram_backing_laws : BackingLaws ram.
Proof.
  assert (forall o l, 0 <= o -> 0 < l -> o + l <= RAMDISK_SIZE -> in_array o l = true) as Hin.
  { intros o l ???. unfold in_array. rewrite !andb_true_iff, !Z.leb_le. lia. }
  refine {| backing_size := RAMDISK_SIZE |}; try done;
    intros data o l v Ho Hl Hend; unfold wp, drv_read, drv_write, ram_backing, ramdisk_read, ramdisk_write;
    by rewrite Hin.
Defined.

(** ** Properties *)

(** What a RAM disk write stored is what a later read of any subrange
    returns into the caller's buffer, whatever buffer that is. *)
Theorem ramdisk_write_then_read s data offset length s1 data' offset' length' :
  ramdisk_write data offset length s = Ret (BLK_STS_OK, s1) ->
  offset <= offset' -> 0 <= length' -> offset' + length' <= offset + length ->
  wp (ramdisk_read data' offset' length') (fun r s2 =>
    r = BLK_STS_OK /\ ram_disk s2 = ram_disk s1 /\
    mem_read (ram_mem s2) data' length' = mem_read (ram_mem s) (data + (offset' - offset)) length') s1.
Proof.
  intros Hw Ho Hl Hend.
  assert (in_array offset' length' = true) as Hin'.
  { unfold ramdisk_write in Hw. destruct (in_array offset length) eqn:Hin; [|done].
    unfold in_array in *. rewrite !andb_true_iff, !Z.leb_le in *. lia. }
  unfold wp, ramdisk_read. rewrite Hin'. simpl. split_and!; [done|done|].
  rewrite mem_read_write_same by solve_len.
  apply list_fmap_ext. intros j i [-> Hi]%lookup_seqZ.
  destruct (ramdisk_write_byte _ _ _ _ _ _ (offset' + (0 + Z.of_nat j)) Hw) as (_ & _ & ->).
  case_decide; [|lia]. do 2 f_equal. lia.
Qed.

Definition ram_ex : ram := Ram (list_to_map [(100, 7); (101, 8); (102, 9)]) ∅.
Lemma ramdisk_write_then_read_witness :
  exists s1, ramdisk_write 100 4096 3 ram_ex = Ret (BLK_STS_OK, s1) /\
    wp (ramdisk_read 200 4097 2) (fun r s2 =>
      r = BLK_STS_OK /\ ram_disk s2 = ram_disk s1 /\
      mem_read (ram_mem s2) 200 2 = mem_read (ram_mem ram_ex) (100 + (4097 - 4096)) 2) s1.
Proof.
  eexists. split; [vm_compute; reflexivity|].
  apply (ramdisk_write_then_read ram_ex 100 4096 3); [vm_compute; reflexivity|lia..].
Defined.
