(* ===== verification/Passthrough.v ===== *)
(** * The pass-through drivers

    [examples/passthrough.c], and the same functions in
    [examples/zoned-passthrough.c]: requests become [pread], [pwrite], [fsync]
    and [ioctl] on a file or a block device. *)
From S2P Require Import Prelude Protocol Zoned ZonedInv ZonedProps Backing LibBius.

(** The system calls on [target_fd].  [pread n off] returns what the call
    returns and the bytes it stored. *)
Class FileOps (F : Type) := {
  pread : Z -> Z -> ST F (Z * list Z);
  pwrite : list Z -> Z -> ST F Z;
  ioctl_BLKDISCARD : Z -> Z -> ST F Z;
  fsync : ST F Z }.

(** The file holds [file_size] bytes.  Inside it, a read or write transfers at
    least one byte, and possibly less than asked for. *)
Class FileLaws (F : Type) `{FileOps F} := {
  file_size : Z;
  file_size_range : 0 <= file_size < 2 ^ 63;
  contents : F -> memory;
  pread_some n off f : 0 <= off -> 0 < n -> off + n <= file_size ->
    wp (pread n off) (fun res f' => 0 < res.1 <= n /\ contents f' = contents f /\
      res.2 = mem_read (contents f) off res.1) f;
  pwrite_some bs off f : 0 <= off -> bs <> [] -> off + Z.of_nat (length bs) <= file_size ->
    wp (pwrite bs off) (fun n f' => 0 < n <= Z.of_nat (length bs) /\
      contents f' = mem_write (contents f) off (take (Z.to_nat n) bs)) f }.

(** The memory of the process and the file. *)
Record pass (F : Type) := Pass { pass_mem : memory; pass_file : F }.
Arguments Pass {F}. Arguments pass_mem {F}. Arguments pass_file {F}.

Section passthrough.
Context {F : Type} `{FO : FileOps F}.
Abbreviation M := (ST (pass F)).

Definition on_file {A} (m : ST F A) : M A := fun s =>
  match m (pass_file s) with
  | Ret (a, f) => Ret (a, Pass (pass_mem s) f)
  | Fault e => Fault e
  | NoFuel => NoFuel
  end.

(** The [do ... while]: every round but a failing one moves at least a byte,
    [length] rounds are enough. *)
Fixpoint read_loop (fuel : nat) (data offset length read_size : Z) : M Z :=
  match fuel with
  | O => exhausted
  | S fuel' =>
      res ← on_file (pread (u64 (length - read_size)) (s64 (offset + read_size)));
      _ ← modify (fun s => Pass (mem_write (pass_mem s) (data + read_size) res.2) (pass_file s));
      if res.1 <=? 0 then mret BLK_STS_IOERR
      else
        let read_size := s64 (read_size + res.1) in
        if u64 read_size <? length then read_loop fuel' data offset length read_size
        else mret BLK_STS_OK
  end.
Definition passthrough_read (data offset length : Z) : M Z :=
  read_loop (S (Z.to_nat length)) data offset length 0.

Fixpoint write_loop (fuel : nat) (data offset length written_size : Z) : M Z :=
  match fuel with
  | O => exhausted
  | S fuel' =>
      m ← gets pass_mem;
      result ← on_file (pwrite (mem_read m (data + written_size) (u64 (length - written_size)))
                          (s64 (offset + written_size)));
      if result <=? 0 then mret BLK_STS_IOERR
      else
        let written_size := s64 (written_size + result) in
        if u64 written_size <? length then write_loop fuel' data offset length written_size
        else mret BLK_STS_OK
  end.
Definition passthrough_write (data offset length : Z) : M Z :=
  write_loop (S (Z.to_nat length)) data offset length 0.

Definition passthrough_discard (offset length : Z) : M Z :=
  result ← on_file (ioctl_BLKDISCARD (u64 offset) length);
  if result <? 0 then mret BLK_STS_IOERR else mret BLK_STS_OK.
Definition passthrough_flush : M Z :=
  result ← on_file fsync;
  if result <? 0 then mret BLK_STS_IOERR else mret BLK_STS_OK.

(** What [main] passes to [bius_main]. *)
Definition passthrough_operations : bius_operations (pass F) :=
  Operations (Some passthrough_read) (Some passthrough_write) (Some passthrough_discard) (Some passthrough_flush)
    None None None None None None None.
Definition passthrough_options (disk_size : Z) : bius_block_device_options :=
  Options BLK_ZONED_NONE 4 disk_size 0 0
    ([112; 97; 115; 115; 116; 104; 114; 111; 117; 103; 104] ++ replicate 21 0).

#[export] Instance pass_store `{!FileLaws F} : Store (pass F) := {|
  v_mem := pass_mem;
  v_set_mem f s := Pass (f (pass_mem s)) (pass_file s);
  v_disk s := contents (pass_file s) |}.
#[export] Instance pass_store_laws `{!FileLaws F} : StoreLaws (pass F).
Proof. by split. Qed.
#[export] Instance pass_backing `{!FileLaws F} : Backing (pass F) := {|
  drv_read := passthrough_read;
  drv_write := passthrough_write |}.
#[export] Instance pass_raw : RawOps (pass F) := {|
  raw_read := passthrough_read; raw_write := passthrough_write; raw_discard := passthrough_discard |}.
End passthrough.

(** [zoned-passthrough.c] on a target of [bytes] bytes: the zones that fit whole. *)
Definition zoned_passthrough (bytes : Z) : zone_config :=
  ZoneConfig (512 * 1024 * 1024) (bytes - bytes mod (512 * 1024 * 1024)) 0 32 64.

(** ** The loops transfer everything *)
Section transfer.
Context {F : Type} `{FL : FileLaws F}.
Implicit Types s : pass F.

Lemma wp_on_file {A} (m : ST F A) (Q : A -> pass F -> Prop) s :
  wp m (fun a f => Q a (Pass (pass_mem s) f)) (pass_file s) -> wp (on_file m) Q s.
Proof. unfold wp, on_file. by destruct (m (pass_file s)) as [[a f]| |]. Qed.

Lemma mem_read_split m a n k : 0 <= k -> k <= n -> mem_read m a n = mem_read m a k ++ mem_read m (a + k) (n - k).
Proof. intros. rewrite <- mem_read_app by lia. f_equal. lia. Qed.

Lemma read_loop_spec fuel data offset length done s :
  0 <= offset -> 0 <= done < length -> offset + length <= file_size -> (Z.to_nat (length - done) <= fuel)%nat ->
  wp (read_loop fuel data offset length done) (fun r s' =>
    r = BLK_STS_OK /\ contents (pass_file s') = contents (pass_file s) /\
    pass_mem s' = mem_write (pass_mem s) (data + done)
                    (mem_read (contents (pass_file s)) (offset + done) (length - done))) s.
Proof.
  revert done s. induction fuel as [|fuel IH]; intros done s Ho Hd Hend Hfuel; [lia|].
  pose proof file_size_range. cbn [read_loop]. apply wp_bind, wp_on_file.
  rewrite (wrap_small 64), (swrap_small 64) by lia.
  eapply wp_mono; [apply pread_some; lia|]. intros [n bs] f (Hn & Hc & Hbs). cbn [fst snd] in *.
  apply wp_bind, wp_modify. destruct (Z.leb_spec n 0); [lia|]. rewrite (swrap_small 64), (wrap_small 64) by lia.
  cbv zeta. assert (Z.of_nat (List.length bs) = n) as Hlen by (rewrite Hbs, length_mem_read; lia).
  rewrite (mem_read_split _ (offset + done) (length - done) n) by lia.
  destruct (Z.ltb_spec (done + n) length) as [Hlt|Hge].
  - eapply wp_mono; [apply IH; lia|]. intros r s' (-> & Hc' & Hm'). simpl in *.
    split_and!; [done|congruence|]. rewrite Hm', Hc, <- Hbs, mem_write_app, Hlen.
    f_equal; [lia|]. f_equal; lia.
  - apply wp_ret. split_and!; [done|done|]. simpl.
    replace (length - done - n) with 0 by lia. change (mem_read _ _ 0) with (@nil Z). by rewrite app_nil_r, Hbs.
Qed.

Lemma write_loop_spec fuel data offset length done s :
  0 <= offset -> 0 <= done < length -> offset + length <= file_size -> (Z.to_nat (length - done) <= fuel)%nat ->
  wp (write_loop fuel data offset length done) (fun r s' =>
    r = BLK_STS_OK /\ pass_mem s' = pass_mem s /\
    contents (pass_file s') = mem_write (contents (pass_file s)) (offset + done)
                                (mem_read (pass_mem s) (data + done) (length - done))) s.
Proof.
  revert done s. induction fuel as [|fuel IH]; intros done s Ho Hd Hend Hfuel; [lia|].
  pose proof file_size_range. cbn [write_loop]. apply wp_bind, wp_gets, wp_bind, wp_on_file.
  rewrite (wrap_small 64), (swrap_small 64) by lia. set (bs := mem_read _ _ _).
  assert (Z.of_nat (List.length bs) = length - done) as Hlen by (unfold bs; rewrite length_mem_read; lia).
  eapply wp_mono; [apply pwrite_some; [lia|intros E; rewrite E in Hlen; simpl in Hlen; lia|lia]|].
  intros n f (Hn & Hc). cbn beta. destruct (Z.leb_spec n 0); [lia|]. rewrite (swrap_small 64), (wrap_small 64) by lia.
  cbv zeta. assert (take (Z.to_nat n) bs = mem_read (pass_mem s) (data + done) n) as Htake.
  { unfold bs. rewrite (mem_read_split _ _ (length - done) n) by lia.
    rewrite take_app_le, take_ge by solve_len. done. }
  rewrite Htake in Hc. destruct (Z.ltb_spec (done + n) length) as [Hlt|Hge].
  - eapply wp_mono; [apply IH; lia|]. intros r s' (-> & Hm' & Hc'). simpl in *.
    split_and!; [done|done|]. unfold bs. rewrite (mem_read_split _ _ (length - done) n) by lia.
    rewrite Hc', Hc, mem_write_app, length_mem_read. f_equal; [lia|]. f_equal; lia.
  - apply wp_ret. split_and!; [done|done|]. simpl. rewrite Hc. do 2 f_equal. lia.
Qed.

(** The pass-through driver keeps the promise of a driver, however short the
    single transfers of the kernel are. *)
#[export] Instance pass_backing_laws : BackingLaws (pass F).
Proof.
  refine {| backing_size := file_size; backing_size_range := file_size_range |}; simpl; try done.
  - intros data offset len v ???. unfold passthrough_read.
    eapply wp_mono; [apply read_loop_spec; lia|]. intros r s' (-> & -> & ->). by rewrite !Z.add_0_r, Z.sub_0_r.
  - intros data offset len v ???. unfold passthrough_write.
    eapply wp_mono; [apply write_loop_spec; lia|]. intros r s' (-> & -> & ->). by rewrite !Z.add_0_r, Z.sub_0_r.
Defined.

(** A read asks for the whole range and fills the caller's buffer with the
    bytes of the file there, whatever the single [pread]s return. *)
Theorem passthrough_read_whole data offset length s :
  0 <= offset -> 0 < length -> offset + length <= file_size ->
  wp (passthrough_read data offset length) (fun r s' =>
    r = BLK_STS_OK /\ mem_read (pass_mem s') data length = mem_read (contents (pass_file s)) offset length /\
    contents (pass_file s') = contents (pass_file s)) s.
Proof.
  intros Ho Hl Hend. eapply wp_mono; [exact (drv_read_ok data offset length s Ho Hl Hend)|].
  intros r s' (-> & Hd & Hm). cbn [v_disk v_mem pass_store] in *. rewrite Hm. split_and!; [done| |done].
  apply mem_read_write_same. rewrite length_mem_read. lia.
Qed.

(** A write changes exactly the bytes of its range, to those of the buffer. *)
Theorem passthrough_write_whole data offset length s x :
  0 <= offset -> 0 < length -> offset + length <= file_size ->
  wp (passthrough_write data offset length) (fun r s' =>
    r = BLK_STS_OK /\ pass_mem s' = pass_mem s /\
    default 0 (contents (pass_file s') !! x) =
      if decide (offset <= x < offset + length)
      then default 0 (pass_mem s !! (data + (x - offset))) else default 0 (contents (pass_file s) !! x)) s.
Proof.
  intros Ho Hl Hend. eapply wp_mono; [exact (drv_write_ok data offset length s Ho Hl Hend)|].
  intros r s' (-> & Hm & Hd). cbn [v_disk v_mem pass_store] in *. split_and!; [done|done|].
  rewrite Hd, mem_write_lookup, length_mem_read. replace (Z.of_nat (Z.to_nat length)) with length by lia.
  case_decide; [|done]. rewrite mem_read_lookup by lia. simpl. do 2 f_equal. lia.
Qed.

(** A request of no bytes reads nothing, and fails: [pread] of 0 bytes returns
    0, which is taken for an error. *)
Theorem passthrough_read_empty_fails data offset s f :
  - 2 ^ 63 <= offset < 2 ^ 63 -> pread 0 offset (pass_file s) = Ret ((0, []), f) ->
  passthrough_read data offset 0 s = Ret (BLK_STS_IOERR, Pass (pass_mem s) f).
Proof.
  intros Ho Hp. unfold passthrough_read. cbn [read_loop Z.to_nat]. rewrite !Z.add_0_r, Z.sub_0_r, (swrap_small 64) by lia.
  change (u64 0) with 0. unfold mbind, ST_bind, on_file. by rewrite Hp.
Qed.
End transfer.

(** ** A concrete file, with transfers of at most three bytes *)
Definition small_file_size : Z := 4096.
Definition in_small_file (off n : Z) : bool := (0 <=? off) && (0 <=? n) && (off + n <=? small_file_size).
#[export] Instance small_file : FileOps memory := {|
  pread n off f := if in_small_file off n then Ret ((Z.min n 3, mem_read f off (Z.min n 3)), f) else Ret ((-1, []), f);
  pwrite bs off f := if in_small_file off (Z.of_nat (length bs))
    then Ret (Z.min (Z.of_nat (length bs)) 3, mem_write f off (take 3 bs)) else Ret (-1, f);
  ioctl_BLKDISCARD off n f := Ret (0, mem_write f off (replicate (Z.to_nat n) 0));
  fsync f := Ret (0, f) |}.
#[export] Instance small_file_laws : FileLaws memory.
Proof.
  refine {| file_size := small_file_size; contents := fun f : memory => f |}; unfold small_file_size; [lia| |].
  - intros n off f Ho Hn Hend. unfold wp, pread, small_file.
    assert (in_small_file off n = true) as ->; [|simpl; split_and!; lia || done].
    unfold in_small_file, small_file_size. rewrite !andb_true_iff, !Z.leb_le. lia.
  - intros bs off f Ho Hne Hend. unfold wp, pwrite, small_file.
    assert (in_small_file off (Z.of_nat (length bs)) = true) as ->.
    { unfold in_small_file, small_file_size. rewrite !andb_true_iff, !Z.leb_le. lia. }
    assert (length bs <> 0)%nat by (by destruct bs). split; [lia|]. f_equal.
    destruct (decide (length bs <= 3)%nat); [rewrite !take_ge by lia; done|]. f_equal. lia.
Defined.
Definition small_pass : pass memory :=
  Pass (list_to_map [(100, 7); (101, 8); (102, 9); (103, 10); (104, 11)]) (list_to_map [(20, 1); (21, 2); (24, 5)]).

Lemma passthrough_read_whole_witness :
  wp (passthrough_read 200 20 5) (fun r s' =>
    r = BLK_STS_OK /\ mem_read (pass_mem s') 200 5 = [1; 2; 0; 0; 5]) small_pass.
Proof.
  eapply wp_mono; [apply (passthrough_read_whole 200 20 5 small_pass); unfold file_size; simpl; done|].
  intros r s' (-> & -> & _). split; [done|by vm_compute].
Defined.
Lemma passthrough_write_whole_witness :
  wp (passthrough_write 100 20 5) (fun r s' =>
    r = BLK_STS_OK /\ pass_mem s' = pass_mem small_pass /\ default 0 (contents (pass_file s') !! 23) = 10) small_pass.
Proof.
  eapply wp_mono; [apply (passthrough_write_whole 100 20 5 small_pass 23); unfold file_size; simpl; done|].
  intros r s' (-> & -> & ->). split_and!; [done|done|by vm_compute].
Defined.
Lemma passthrough_read_empty_fails_witness : passthrough_read 200 20 0 small_pass = Ret (BLK_STS_IOERR, small_pass).
Proof. apply (passthrough_read_empty_fails 200 20 small_pass (pass_file small_pass)); [done|by vm_compute]. Defined.
