(* ===== verification/BlkTest.v ===== *)
(** * The test client

    [examples/blktest.c]: writes patterns to a block device, reads them back and
    compares.  The device is any file (class [SeqFile]); messages on [stderr]
    are left out. *)
From S2P Require Import Prelude.

(** What the client asks of the kernel and the C library.  It opens one file:
    descriptors are left out.  [read] returns its result and the bytes it
    stored, [aligned_alloc] the contents of the memory, [None] for NULL. *)
Class SeqFile (F : Type) := {
  write : list Z -> ST F Z;
  read : Z -> ST F (Z * list Z);
  lseek : Z -> Z -> ST F Z;
  open : string -> ST F Z;
  aligned_alloc : Z -> Z -> ST F (option (list Z)) }.
Definition SEEK_SET : Z := 0.

Inductive test_mode := TEST_MODE_SIMPLE | TEST_MODE_HARD.

Definition buffer_size : Z := 128 * 1024.
Definition simple_test_seed : Z := 541615336.
Definition hard_test_size : Z := 1 * 1024 * 1024 * 1024.
Definition hard_test_iteration : Z := hard_test_size / buffer_size.

(** The array [buffer], as bytes, and the file. *)
Record client (F : Type) := Client { buffer : list Z; file : F }.
Arguments Client {F} _ _.
Arguments buffer {F} _.
Arguments file {F} _.

Section blktest.
Context {F : Type} `{SF : SeqFile F}.
(** Signed arithmetic wraps around ([-fwrapv]); otherwise overflow is
    undefined, as with the [CFLAGS] of the makefile. *)
Context (fwrapv : bool).
Local Abbreviation M := (ST (client F)).

Definition on_file {A} (m : ST F A) : M A := fun s =>
  match m (file s) with
  | Ret (a, f) => Ret (a, Client (buffer s) f)
  | Fault e => Fault e
  | NoFuel => NoFuel
  end.

(** ** The buffer *)

Definition int_result (z : Z) : M Z :=
  if fwrapv || (s32 z =? z) then mret (s32 z) else fail SignedOverflow.
Definition pattern (seed index : Z) : M Z :=
  product ← int_result (seed * index);
  sum ← int_result (index + product);
  mret (swrap 8 sum).

Definition buffer_set (i c : Z) : M unit :=
  b ← gets buffer;
  if (0 <=? i) && (i <? Z.of_nat (length b))
  then modify (fun s => Client (<[Z.to_nat i := u8 c]> b) (file s))
  else fail OutOfBounds.
Definition buffer_get (i : Z) : M Z :=
  b ← gets buffer;
  byte ← deref OutOfBounds (if 0 <=? i then b !! Z.to_nat i else None);
  mret (swrap 8 byte).

(** [for (int i = 0; i < buffer_size; i++) buffer[i] = pattern(seed, i);] from
    [i] on, with [n] rounds left. *)
Fixpoint fill (n : nat) (seed i : Z) : M unit :=
  match n with
  | O => mret tt
  | S n' => c ← pattern seed i; _ ← buffer_set i c; fill n' seed (i + 1)
  end.
Fixpoint verify (n : nat) (seed i : Z) : M bool :=
  match n with
  | O => mret true
  | S n' =>
      c ← buffer_get i;
      p ← pattern seed i;
      if negb (c =? p) then mret false else verify n' seed (i + 1)
  end.
Definition fill_buffer (seed : Z) : M unit := fill (Z.to_nat buffer_size) seed 0.
Definition verify_buffer (seed : Z) : M bool := verify (Z.to_nat buffer_size) seed 0.

(** [write(fd, buffer, buffer_size)] and [read(fd, buffer, buffer_size)]. *)
Definition write_buffer : M Z :=
  b ← gets buffer;
  if Z.of_nat (length b) <? buffer_size then fail OutOfBounds
  else on_file (write (take (Z.to_nat buffer_size) b)).
Definition read_buffer : M Z :=
  res ← on_file (read buffer_size);
  b ← gets buffer;
  if (Z.of_nat (length b) <? Z.of_nat (length res.2)) then fail OutOfBounds
  else
    _ ← modify (fun s => Client (res.2 ++ drop (length res.2) b) (file s));
    mret res.1.

(** ** The tests *)

Definition do_test_simple : M Z :=
  _ ← fill_buffer simple_test_seed;
  result ← write_buffer;
  if result <=? 0 then mret 1
  else
    result ← on_file (lseek 0 SEEK_SET);
    if result <? 0 then mret 1
    else
      result ← read_buffer;
      if result <=? 0 then mret 1
      else
        ok ← verify_buffer simple_test_seed;
        mret (if ok : bool then 0 else 1).

(** The rounds from [i] on; false when the test returns 1. *)
Fixpoint write_rounds (n : nat) (i : Z) : M bool :=
  match n with
  | O => mret true
  | S n' =>
      _ ← fill_buffer (s32 i);
      result ← write_buffer;
      if result <=? 0 then mret false
      else if u64 result <? buffer_size then mret false
      else write_rounds n' (i + 1)
  end.
Fixpoint read_rounds (n : nat) (i : Z) : M bool :=
  match n with
  | O => mret true
  | S n' =>
      result ← read_buffer;
      if result <=? 0 then mret false
      else if u64 result <? buffer_size then mret false
      else
        ok ← verify_buffer (s32 i);
        if ok : bool then read_rounds n' (i + 1) else mret false
  end.

Definition do_test_hard : M Z :=
  written ← write_rounds (Z.to_nat hard_test_iteration) 0;
  if negb written then mret 1
  else
    result ← on_file (lseek 0 SEEK_SET);
    if result <? 0 then mret 1
    else
      ok ← read_rounds (Z.to_nat hard_test_iteration) 0;
      mret (if ok : bool then 0 else 1).

(** [argv], of length [argc]. *)
Definition main (argv : list string) : M Z :=
  match argv with
  | _ :: path :: rest =>
      fd ← on_file (open path);
      if fd <? 0 then mret 1
      else
        let mode := match rest with
                    | arg :: _ => if String.eqb arg "--hard" then TEST_MODE_HARD else TEST_MODE_SIMPLE
                    | [] => TEST_MODE_SIMPLE
                    end in
        b ← on_file (aligned_alloc 4096 buffer_size);
        match b with
        | None => mret 1
        | Some bytes =>
            _ ← modify (fun s => Client bytes (file s));
            match mode with
            | TEST_MODE_SIMPLE => do_test_simple
            | TEST_MODE_HARD => do_test_hard
            end
        end
  | _ => mret 1
  end.
End blktest.
