(* ===== verification/BlkTestProps.v ===== *)
(** * What the test client tests

    The loops over the buffer, the two tests over any file that keeps the
    promises of [read], [write] and [lseek], and the file a driver implements. *)
From S2P Require Import Prelude Protocol Backing RamDisk BlkTest.

(** ** The patterns

    Byte [index] of the buffer with a seed, and [n] of them from [i] on. *)
Definition pattern_byte (seed index : Z) : Z := u8 (index + seed * index).
Definition block (seed i n : Z) : list Z := pattern_byte seed <$> seqZ i n.

Definition int_range (z : Z) : Prop := - 2 ^ 31 <= z < 2 ^ 31.
Definition fits_int (seed i : Z) : Prop := int_range (seed * i) /\ int_range (i + seed * i).

Lemma swrap_mod v w z : 0 <= v <= w -> wrap v (swrap w z) = wrap v z.
Proof.
  intros Hv. unfold wrap, swrap. set (y := z + 2 ^ (w - 1)).
  replace (y mod 2 ^ w - 2 ^ (w - 1)) with (z + (- (y / 2 ^ w) * 2 ^ (w - v)) * 2 ^ v).
  - apply Z_mod_plus_full.
  - rewrite <- Z.mul_assoc, <- Z.pow_add_r by lia. replace (w - v + v) with w by lia.
    pose proof (Z_div_mod_eq_full y (2 ^ w)). unfold y in *. lia.
Qed.
Lemma swrap_wrap_iff w a b : swrap w a = swrap w b <-> wrap w a = wrap w b.
Proof.
  split; intros E.
  - by rewrite <- (wrap_swrap w a), <- (wrap_swrap w b), E.
  - by rewrite <- (swrap_wrap w a), <- (swrap_wrap w b), E.
Qed.
Lemma swrap_idemp w z : swrap w (swrap w z) = swrap w z.
Proof. apply swrap_wrap_iff, wrap_swrap. Qed.
Lemma pattern_byte_range seed i : is_byte (pattern_byte seed i).
Proof. apply (wrap_range 8). lia. Qed.
Lemma block_bytes seed i n : Forall is_byte (block seed i n).
Proof. apply Forall_fmap, Forall_true. intros. apply pattern_byte_range. Qed.
Lemma bytes_u8 bs : Forall is_byte bs -> u8 <$> bs = bs.
Proof. induction 1 as [|b bs Hb _ IH]; [done|]. rewrite fmap_cons, IH. f_equal. by apply (wrap_small 8). Qed.
Lemma length_block seed i n : length (block seed i n) = Z.to_nat n.
Proof. unfold block. by rewrite length_fmap, length_seqZ. Qed.
#[local] Hint Rewrite length_block : lens.
Lemma block_cons seed i n : 0 < n -> block seed i n = pattern_byte seed i :: block seed (i + 1) (n - 1).
Proof. intros. unfold block. rewrite seqZ_cons by lia. simpl. by rewrite <- Z.add_1_r, Z.sub_1_r. Qed.

(** ** The buffer loops *)
Section buffer_loops.
Context {F : Type} (fwrapv : bool).
Implicit Types s : client F.

Definition defined_for (seed i : Z) : Prop := fwrapv = true \/ fits_int seed i.

Lemma int_result_ok z s : fwrapv = true \/ int_range z -> int_result fwrapv z s = Ret (s32 z, s).
Proof.
  intros H. unfold int_result. destruct fwrapv; [done|]. destruct H as [?|H]; [done|].
  unfold int_range in H. rewrite swrap_small by lia. by rewrite Z.eqb_refl.
Qed.

Lemma pattern_run seed i s :
  defined_for seed i ->
  exists c, pattern fwrapv seed i s = Ret (c, s) /\ c = swrap 8 c /\ u8 c = pattern_byte seed i.
Proof.
  intros Hd. unfold pattern.
  rewrite (bind_ret _ _ _ _ _ (int_result_ok (seed * i) s ltac:(unfold defined_for, fits_int in Hd; tauto))).
  rewrite (bind_ret _ _ _ (s32 (i + s32 (seed * i))) s).
  - eexists. split; [reflexivity|]. rewrite wrap_swrap. split; [symmetry; apply swrap_idemp|].
    unfold pattern_byte. rewrite swrap_mod by lia.
    unfold wrap at 1. rewrite <- Zplus_mod_idemp_r. fold (wrap 8 (s32 (seed * i))). rewrite swrap_mod by lia.
    apply Zplus_mod_idemp_r.
  - apply int_result_ok. destruct Hd as [?|[H1 H2]]; [by left|right].
    unfold int_range in H1. by rewrite swrap_small by lia.
Qed.

Lemma pattern_overflow seed i s :
  fwrapv = false -> ~ int_range (seed * i) -> pattern fwrapv seed i s = Fault SignedOverflow.
Proof.
  intros -> H. unfold pattern, int_result, mbind, ST_bind. simpl. destruct (Z.eqb_spec (s32 (seed * i)) (seed * i)); [|done].
  destruct H. pose proof (swrap_range 32 (seed * i)). unfold int_range. lia.
Qed.

Lemma buffer_set_ok i c s :
  0 <= i < Z.of_nat (length (buffer s)) ->
  buffer_set i c s = Ret (tt, Client (<[Z.to_nat i := u8 c]> (buffer s)) (file s)).
Proof.
  intros Hi. unfold buffer_set, mbind, ST_bind, gets.
  assert ((0 <=? i) && (i <? Z.of_nat (length (buffer s))) = true) as ->; [|done].
  rewrite andb_true_iff, Z.leb_le, Z.ltb_lt. lia.
Qed.

Lemma fill_ok n seed i s :
  0 <= i -> i + Z.of_nat n <= Z.of_nat (length (buffer s)) ->
  (forall j, i <= j < i + Z.of_nat n -> defined_for seed j) ->
  fill fwrapv n seed i s =
    Ret (tt, Client (take (Z.to_nat i) (buffer s) ++ block seed i (Z.of_nat n) ++
                     drop (Z.to_nat i + n) (buffer s)) (file s)).
Proof.
  revert i s. induction n as [|n IH]; intros i s Hi Hn Hd; cbn [fill].
  { unfold mret, ST_ret. rewrite Nat.add_0_r. unfold block. simpl. rewrite take_drop. by destruct s. }
  destruct (pattern_run seed i s) as (c & Hc & _ & Hb); [apply Hd; lia|].
  rewrite (bind_ret _ _ _ _ _ Hc), (bind_ret _ _ _ _ _ (buffer_set_ok i c s ltac:(lia))).
  rewrite IH; [|lia|cbn [buffer]; rewrite length_insert; lia|intros; apply Hd; lia].
  cbn [buffer file]. do 3 f_equal. rewrite (block_cons seed i) by lia.
  replace (Z.of_nat (S n) - 1) with (Z.of_nat n) by lia.
  replace (Z.to_nat (i + 1)) with (S (Z.to_nat i)) by lia.
  rewrite Hb, (take_S_r _ _ (pattern_byte seed i)) by (rewrite list_lookup_insert_eq; [done|lia]).
  rewrite take_insert_ge, drop_insert_lt by lia. rewrite <- app_assoc. simpl.
  by replace (Z.to_nat i + S n)%nat with (S (Z.to_nat i + n)) by lia.
Qed.

Lemma fill_overflow n seed i k s :
  fwrapv = false -> (k < n)%nat -> 0 <= i -> i + Z.of_nat n <= Z.of_nat (length (buffer s)) ->
  (forall j, i <= j < i + Z.of_nat k -> fits_int seed j) -> ~ int_range (seed * (i + Z.of_nat k)) ->
  fill fwrapv n seed i s = Fault SignedOverflow.
Proof.
  intros Hw. revert i k s. induction n as [|n IH]; intros i k s Hk Hi Hn Hd Ho; [lia|]. cbn [fill].
  destruct k as [|k].
  { unfold mbind at 1, ST_bind. rewrite pattern_overflow; [done|done|]. by rewrite Z.add_0_r in Ho. }
  destruct (pattern_run seed i s) as (c & Hc & _); [right; apply Hd; lia|].
  rewrite (bind_ret _ _ _ _ _ Hc), (bind_ret _ _ _ _ _ (buffer_set_ok i c s ltac:(lia))).
  apply (IH _ k); [lia|lia|cbn [buffer]; rewrite length_insert; lia|intros; apply Hd; lia|].
  by replace (i + 1 + Z.of_nat k) with (i + Z.of_nat (S k)) by lia.
Qed.

(** The comparison looks at every byte of the buffer. *)
Lemma verify_ok n seed i s :
  0 <= i -> i + Z.of_nat n <= Z.of_nat (length (buffer s)) ->
  (forall j, i <= j < i + Z.of_nat n -> defined_for seed j) ->
  verify fwrapv n seed i s =
    Ret (bool_decide (u8 <$> take n (drop (Z.to_nat i) (buffer s)) = block seed i (Z.of_nat n)), s).
Proof.
  revert i. induction n as [|n IH]; intros i Hi Hn Hd; cbn [verify].
  { by rewrite take_0. }
  destruct (lookup_lt_is_Some_2 (buffer s) (Z.to_nat i)) as [b Hb]; [lia|].
  assert (buffer_get i s = Ret (swrap 8 b, s)) as Hget.
  { unfold buffer_get, mbind, ST_bind, gets. destruct (Z.leb_spec 0 i); [|lia]. by rewrite Hb. }
  destruct (pattern_run seed i s) as (c & Hc & Hs & Hcb); [apply Hd; lia|].
  rewrite (bind_ret _ _ _ _ _ Hget), (bind_ret _ _ _ _ _ Hc).
  rewrite (drop_S _ _ _ Hb), firstn_cons, fmap_cons, block_cons by lia.
  replace (Z.of_nat (S n) - 1) with (Z.of_nat n) by lia.
  destruct (Z.eqb_spec (swrap 8 b) c) as [E|E]; cbn [negb].
  - rewrite IH by (try lia; intros; apply Hd; lia). do 2 f_equal.
    replace (Z.to_nat (i + 1)) with (S (Z.to_nat i)) by lia. apply bool_decide_ext.
    assert (u8 b = pattern_byte seed i) as ->; [by rewrite <- Hcb, <- E, wrap_swrap|].
    split; [by intros ->|by intros [= ->]].
  - unfold mret, ST_ret. rewrite bool_decide_eq_false_2; [done|]. intros [= H _]. destruct E.
    rewrite Hs. apply swrap_wrap_iff. congruence.
Qed.
End buffer_loops.

(** ** Files

    What [read], [write] and [lseek] promise of a file of fixed size: a positive
    result is the number of bytes moved at the position, which advances. *)
Class SeqFileLaws (F : Type) `{SeqFile F} := {
  contents : F -> memory;
  position : F -> Z;
  read_law n f :
    0 <= n ->
    wp (read n) (fun r f' =>
      Z.of_nat (length r.2) <= n /\ contents f' = contents f /\
      (0 < r.1 -> r.1 <= n /\ r.2 = mem_read (contents f) (position f) r.1 /\ Forall is_byte r.2 /\
                  position f' = position f + r.1)) f;
  write_law bs f :
    Forall is_byte bs ->
    wp (write bs) (fun r f' =>
      0 < r -> r <= Z.of_nat (length bs) /\ position f' = position f + r /\
               contents f' = mem_write (contents f) (position f) (take (Z.to_nat r) bs)) f;
  lseek_law off f :
    wp (lseek off SEEK_SET) (fun r f' => contents f' = contents f /\ (0 <= r -> position f' = off)) f;
  open_law path f : wp (open path) (fun fd f' => 0 <= fd -> position f' = 0) f;
  aligned_alloc_law alignment n f :
    0 <= n ->
    wp (aligned_alloc alignment n) (fun b f' =>
      position f' = position f /\ forall bytes, b = Some bytes -> Z.of_nat (length bytes) = n) f }.

(** A file of at least [size] bytes that moves what it is asked for. *)
Class WholeTransfers (F : Type) `{SeqFileLaws F} (size : Z) := {
  read_whole n f :
    0 < n -> 0 <= position f -> position f + n <= size -> wp (read n) (fun r _ => r.1 = n) f;
  write_whole bs f :
    Forall is_byte bs -> (0 < length bs)%nat -> 0 <= position f -> position f + Z.of_nat (length bs) <= size ->
    wp (write bs) (fun r _ => r = Z.of_nat (length bs)) f;
  lseek_whole f : wp (lseek 0 SEEK_SET) (fun r _ => r = 0) f;
  open_whole path f : wp (open path) (fun fd _ => 0 <= fd) f;
  aligned_alloc_whole alignment n f : 0 <= n -> wp (aligned_alloc alignment n) (fun b _ => is_Some b) f }.

Lemma wp_and {S A} (m : ST S A) (Q1 Q2 : A -> S -> Prop) s :
  wp m Q1 s -> wp m Q2 s -> wp m (fun a s' => Q1 a s' /\ Q2 a s') s.
Proof. unfold wp. destruct (m s) as [[a s']| |]; tauto. Qed.

Section tests.
Context {F : Type} `{SF : SeqFile F} (fwrapv : bool).
Implicit Types s : client F.

Definition whole_buffer s : Prop := Z.of_nat (length (buffer s)) = buffer_size.

Lemma wp_client_file {A} (m : ST F A) (Q : A -> client F -> Prop) s :
  wp m (fun a f => Q a (Client (buffer s) f)) (file s) -> wp (on_file m) Q s.
Proof. unfold wp, on_file. by destruct (m (file s)) as [[a f]| |]. Qed.

Lemma buffer_rounds : Z.of_nat (Z.to_nat buffer_size) = buffer_size.
Proof. apply Z2Nat.id. discriminate. Qed.

Lemma fill_buffer_ok seed s :
  whole_buffer s -> (forall j, 0 <= j < buffer_size -> defined_for fwrapv seed j) ->
  fill_buffer fwrapv seed s = Ret (tt, Client (block seed 0 buffer_size) (file s)).
Proof.
  intros Hb Hd. unfold whole_buffer in Hb. unfold fill_buffer.
  pose proof buffer_rounds as Hr. revert Hr. generalize (Z.to_nat buffer_size). intros n Hr.
  rewrite fill_ok, Hr; [|lia|lia|by rewrite Hr]. rewrite drop_ge by lia. by rewrite app_nil_r.
Qed.
Lemma verify_buffer_ok seed s :
  whole_buffer s -> (forall j, 0 <= j < buffer_size -> defined_for fwrapv seed j) ->
  verify_buffer fwrapv seed s = Ret (bool_decide (u8 <$> buffer s = block seed 0 buffer_size), s).
Proof.
  intros Hb Hd. unfold whole_buffer in Hb. unfold verify_buffer.
  pose proof buffer_rounds as Hr. revert Hr. generalize (Z.to_nat buffer_size). intros n Hr.
  rewrite verify_ok, Hr; [|lia|lia|by rewrite Hr]. by rewrite drop_0, take_ge by lia.
Qed.

(** In the hard test no product leaves the type [int]. *)
Lemma hard_index i : 0 <= i < hard_test_iteration -> s32 i = i.
Proof. change hard_test_iteration with 8192. intros. apply swrap_small; lia. Qed.
Lemma hard_defined i j :
  0 <= i < hard_test_iteration -> 0 <= j < buffer_size -> defined_for fwrapv i j.
Proof.
  change hard_test_iteration with 8192. change buffer_size with 131072. intros Hi Hj. right.
  unfold fits_int, int_range. nia.
Qed.
Lemma hard_fill i s :
  0 <= i < hard_test_iteration -> whole_buffer s ->
  fill_buffer fwrapv (s32 i) s = Ret (tt, Client (block i 0 buffer_size) (file s)).
Proof. intros Hi Hb. rewrite hard_index, fill_buffer_ok; auto using hard_defined. Qed.
Lemma hard_verify i s :
  0 <= i < hard_test_iteration -> whole_buffer s ->
  verify_buffer fwrapv (s32 i) s = Ret (bool_decide (u8 <$> buffer s = block i 0 buffer_size), s).
Proof. intros Hi Hb. rewrite hard_index, verify_buffer_ok; auto using hard_defined. Qed.

Lemma write_buffer_eq s : whole_buffer s -> write_buffer s = on_file (write (buffer s)) s.
Proof.
  unfold whole_buffer. intros Hb. unfold write_buffer, gets, mbind at 1, ST_bind.
  destruct (Z.ltb_spec (Z.of_nat (length (buffer s))) buffer_size); [lia|]. by rewrite take_ge by lia.
Qed.
Lemma write_buffer_ok s Q :
  whole_buffer s -> wp (write (buffer s)) (fun r f => Q r (Client (buffer s) f)) (file s) -> wp write_buffer Q s.
Proof. intros Hb Hw. eapply wp_eq; [by apply write_buffer_eq|]. by apply wp_client_file. Qed.
Lemma whole_block seed f : whole_buffer (Client (block seed 0 buffer_size) f : client F).
Proof. unfold whole_buffer. cbn [buffer]. rewrite length_block. apply Z2Nat.id. discriminate. Qed.

(** A read replaces the first bytes of the buffer. *)
Lemma read_buffer_ok `{FL : !SeqFileLaws F} s (Q : Z -> client F -> Prop) :
  whole_buffer s ->
  wp (read buffer_size) (fun r f => forall s' : client F,
    buffer s' = r.2 ++ drop (length r.2) (buffer s) -> file s' = f -> whole_buffer s' -> Q r.1 s') (file s) ->
  wp read_buffer Q s.
Proof.
  intros Hb Hr. unfold read_buffer. apply wp_bind, wp_client_file.
  eapply wp_mono; [exact (wp_and _ _ _ _ Hr (read_law buffer_size (file s) ltac:(discriminate)))|].
  intros r f [HQ (Hl & _)]. unfold whole_buffer in *. wp_steps. cbn [buffer file].
  destruct (Z.ltb_spec (Z.of_nat (length (buffer s))) (Z.of_nat (length r.2))); [lia|]. wp_steps.
  apply HQ; [done|done|]. cbn [buffer]. autorewrite with lens. lia.
Qed.

(** ** The rounds of the hard test

    The first [n] blocks of a disk hold the patterns 0, 1, ... *)
Definition holds_patterns (c : memory) (n : Z) : Prop :=
  forall k, 0 <= k < n -> mem_read c (k * buffer_size) buffer_size = block k 0 buffer_size.

Lemma u64_buffer r : 0 < r <= buffer_size -> u64 r = r.
Proof. change buffer_size with 131072. intros. apply wrap_small. lia. Qed.
Lemma buffer_size_pos : 0 < buffer_size.
Proof. done. Qed.

Lemma hard_rounds : Z.of_nat (Z.to_nat hard_test_iteration) = hard_test_iteration.
Proof. apply Z2Nat.id. discriminate. Qed.

Section laws.
Context `{FL : !SeqFileLaws F}.

Lemma write_rounds_safe n i s :
  0 <= i -> i + Z.of_nat n <= hard_test_iteration -> whole_buffer s ->
  wp (write_rounds fwrapv n i) (fun _ s' => whole_buffer s') s.
Proof.
  revert i s. induction n as [|n IH]; intros i s Hi Hn Hb; cbn [write_rounds]; [by apply wp_ret|].
  apply wp_bind. eapply wp_intro; [apply hard_fill; [lia|done]|].
  apply wp_bind, write_buffer_ok; [apply whole_block|]. cbn [buffer file].
  eapply wp_mono; [apply write_law, block_bytes|]. intros r f _.
  repeat case_match; try (apply wp_ret, whole_block). apply IH; [lia|lia|apply whole_block].
Qed.

Lemma write_rounds_whole {size} `{FW : !WholeTransfers F size} n i s :
  0 <= i -> i + Z.of_nat n <= hard_test_iteration -> whole_buffer s ->
  position (file s) = i * buffer_size -> (i + Z.of_nat n) * buffer_size <= size -> holds_patterns (contents (file s)) i ->
  wp (write_rounds fwrapv n i) (fun ok s' =>
    ok = true /\ whole_buffer s' /\ holds_patterns (contents (file s')) (i + Z.of_nat n)) s.
Proof.
  pose proof buffer_size_pos as Hpos.
  revert i s. induction n as [|n IH]; intros i s Hi Hn Hb Hp Hend Hc; cbn [write_rounds].
  { apply wp_ret. by rewrite Z.add_0_r. }
  apply wp_bind. eapply wp_intro; [apply hard_fill; [lia|done]|].
  apply wp_bind, write_buffer_ok; [apply whole_block|]. cbn [buffer file].
  pose proof (length_block i 0 buffer_size) as Hl.
  eapply wp_mono.
  { apply wp_and; [apply write_law, block_bytes|]. apply write_whole; [apply block_bytes|lia|nia|nia]. }
  intros r f [Hw Hr]. replace (Z.of_nat _) with buffer_size in Hr by lia. subst r.
  destruct (Hw Hpos) as (_ & Hp' & Hc'). rewrite take_ge in Hc' by lia.
  destruct (Z.leb_spec buffer_size 0); [lia|]. rewrite u64_buffer, Z.ltb_irrefl by lia.
  eapply wp_mono.
  - apply IH; [lia|lia|apply whole_block|cbn [file]; lia|lia|].
    cbn [file]. intros k Hk. rewrite Hc', Hp. destruct (decide (k = i)) as [->|].
    + apply mem_read_write_same. lia.
    + rewrite mem_read_write_disjoint by nia. apply Hc. lia.
  - intros ok s' Hok. by replace (i + Z.of_nat (S n)) with (i + 1 + Z.of_nat n) by lia.
Qed.

(** A round of reading that passes has compared a whole block. *)
Lemma read_rounds_ok n i s :
  0 <= i -> i + Z.of_nat n <= hard_test_iteration -> whole_buffer s -> position (file s) = i * buffer_size ->
  wp (read_rounds fwrapv n i) (fun ok s' =>
    contents (file s') = contents (file s) /\
    (ok = true -> forall k, i <= k < i + Z.of_nat n ->
       mem_read (contents (file s)) (k * buffer_size) buffer_size = block k 0 buffer_size)) s.
Proof.
  pose proof buffer_size_pos as Hpos.
  revert i s. induction n as [|n IH]; intros i s Hi Hn Hb Hp; cbn [read_rounds].
  { apply wp_ret. split; [done|lia]. }
  apply wp_bind, read_buffer_ok; [done|]. eapply wp_mono; [apply read_law; lia|].
  intros [r bs] f (Hl & Hc & Hr) s' Hbuf Hf Hb'. cbn [fst snd] in *.
  destruct (Z.leb_spec r 0); [apply wp_ret; rewrite Hf; split; [exact Hc|discriminate]|]. destruct Hr as (Hle & Hbs & Hby & Hp'); [done|].
  rewrite u64_buffer by lia. destruct (Z.ltb_spec r buffer_size); [apply wp_ret; rewrite Hf; split; [exact Hc|discriminate]|].
  assert (r = buffer_size) as -> by lia. apply wp_bind. eapply wp_intro; [apply hard_verify; [lia|done]|].
  case_bool_decide as Heq; [|apply wp_ret; rewrite Hf; split; [exact Hc|discriminate]].
  eapply wp_mono; [apply IH; [lia|lia|done|rewrite Hf; lia]|]. rewrite Hf, Hc.
  intros ok s'' [-> Hok]. split; [done|]. intros Ht k Hk. destruct (decide (k = i)) as [->|]; [|apply (Hok Ht); lia].
  rewrite <- Heq, Hbuf, <- Hp, <- Hbs, drop_ge, app_nil_r by (rewrite Hbs, length_mem_read; unfold whole_buffer in Hb; lia).
  symmetry. by apply bytes_u8.
Qed.

Lemma read_rounds_whole {size} `{FW : !WholeTransfers F size} n i s :
  0 <= i -> i + Z.of_nat n <= hard_test_iteration -> whole_buffer s -> position (file s) = i * buffer_size ->
  (i + Z.of_nat n) * buffer_size <= size -> holds_patterns (contents (file s)) (i + Z.of_nat n) ->
  wp (read_rounds fwrapv n i) (fun ok _ => ok = true) s.
Proof.
  pose proof buffer_size_pos as Hpos.
  revert i s. induction n as [|n IH]; intros i s Hi Hn Hb Hp Hend Hc; cbn [read_rounds]; [by apply wp_ret|].
  apply wp_bind, read_buffer_ok; [done|].
  eapply wp_mono; [apply wp_and; [apply read_law; lia|apply read_whole; nia]|].
  intros [r bs] f [(Hl & Hc' & Hr) Hw] s' Hbuf Hf Hb'. cbn [fst snd] in *. subst r.
  destruct Hr as (_ & Hbs & Hby & Hp'); [done|].
  destruct (Z.leb_spec buffer_size 0); [lia|]. rewrite u64_buffer, Z.ltb_irrefl by lia.
  apply wp_bind. eapply wp_intro; [apply hard_verify; [lia|done]|]. rewrite bool_decide_eq_true_2.
  - apply IH; [lia|lia|done|rewrite Hf; lia|lia|]. rewrite Hf, Hc'. intros k Hk. apply Hc. lia.
  - rewrite Hbuf, drop_ge, app_nil_r by (rewrite Hbs, length_mem_read; unfold whole_buffer in Hb; lia).
    rewrite bytes_u8 by done. rewrite Hbs, Hp. apply Hc. lia.
Qed.

Lemma hard_test_sound s :
  whole_buffer s ->
  wp (do_test_hard fwrapv) (fun r s' =>
    (r = 0 \/ r = 1) /\ (r = 0 -> holds_patterns (contents (file s')) hard_test_iteration)) s.
Proof.
  intros Hb. unfold do_test_hard. pose proof hard_rounds as Hr. revert Hr.
  generalize (Z.to_nat hard_test_iteration). intros n Hr. apply wp_bind.
  eapply wp_mono; [apply write_rounds_safe; [done|lia|done]|]. intros written s1 Hb1.
  destruct written; cbn [negb]; [|apply wp_ret; split; [by right|discriminate]]. apply wp_bind, wp_client_file.
  eapply wp_mono; [apply lseek_law|]. intros r f (Hc & Hp). cbn beta.
  destruct (Z.ltb_spec r 0); [apply wp_ret; split; [by right|discriminate]|]. apply wp_bind.
  eapply wp_mono; [apply read_rounds_ok; [done|lia|done|cbn [file]; by apply Hp]|].
  cbn [file]. intros ok s2 (Hc2 & Hok). apply wp_ret. destruct ok; [|split; [by right|discriminate]].
  split; [by left|]. intros _ k Hk. rewrite Hc2. apply Hok; [done|lia].
Qed.

Lemma hard_test_passes {size} `{FW : !WholeTransfers F size} s :
  hard_test_size <= size -> whole_buffer s -> position (file s) = 0 ->
  wp (do_test_hard fwrapv) (fun r _ => r = 0) s.
Proof.
  intros Hs Hb Hp. unfold do_test_hard. pose proof hard_rounds as Hr. revert Hr.
  generalize (Z.to_nat hard_test_iteration). intros n Hr.
  assert ((0 + Z.of_nat n) * buffer_size <= size) by (rewrite Hr; exact Hs). apply wp_bind.
  eapply wp_mono; [apply write_rounds_whole; [done|lia|done|by rewrite Hp|done|intros k Hk; lia]|].
  intros written s1 (-> & Hb1 & Hc1). cbn [negb]. apply wp_bind, wp_client_file.
  eapply wp_mono; [apply wp_and; [apply lseek_law|apply lseek_whole]|].
  intros r f ((Hc & Hp1) & ->). cbn beta iota. change (0 <? 0) with false. cbv iota. apply wp_bind.
  eapply wp_mono; [apply read_rounds_whole; [done|lia|done|by apply Hp1|done|cbn [file]; by rewrite Hc]|].
  intros ok s2 Hok. rewrite Hok. by apply wp_ret.
Qed.

Definition hard_args (argv : list string) : Prop := exists prog path rest, argv = prog :: path :: "--hard"%string :: rest.

(** C33: Called with --hard the client runs to its end, and returns 0 only when the
    disk holds every byte of the patterns it wrote. *)
Theorem client_sound argv s :
  hard_args argv ->
  wp (main fwrapv argv) (fun r s' =>
    (r = 0 \/ r = 1) /\ (r = 0 -> holds_patterns (contents (file s')) hard_test_iteration)) s.
Proof.
  intros (prog & path & rest & ->). unfold main. apply wp_bind, wp_client_file.
  eapply wp_mono; [apply open_law|]. intros fd f Hp. cbn beta.
  destruct (Z.ltb_spec fd 0); [apply wp_ret; split; [by right|discriminate]|]. change (String.eqb _ _) with true. cbv iota zeta.
  apply wp_bind, wp_client_file. eapply wp_mono; [apply aligned_alloc_law; discriminate|].
  intros b f' (_ & Hl). destruct b as [bytes|]; [|apply wp_ret; split; [by right|discriminate]].
  wp_steps. by apply hard_test_sound, Hl.
Qed.

(** C34: On a device of at least the test's size that moves what it is asked for, it
    returns 0. *)
Theorem client_passes {size} `{FW : !WholeTransfers F size} argv s :
  hard_args argv -> hard_test_size <= size -> wp (main fwrapv argv) (fun r _ => r = 0) s.
Proof.
  intros (prog & path & rest & ->) Hs. unfold main. apply wp_bind, wp_client_file.
  eapply wp_mono; [apply wp_and; [apply open_law|apply open_whole]|]. intros fd f [Hp Hfd]. cbn beta.
  destruct (Z.ltb_spec fd 0); [lia|]. change (String.eqb _ _) with true. cbv iota zeta.
  apply wp_bind, wp_client_file.
  eapply wp_mono; [apply wp_and; [apply aligned_alloc_law; discriminate|apply aligned_alloc_whole; discriminate]|].
  intros b f' [(Hp' & Hl) [bytes ->]]. wp_steps.
  apply hard_test_passes; [done|by apply Hl|]. cbn [file]. rewrite Hp'. by apply Hp.
Qed.
End laws.
End tests.

(** ** The simple test *)
Section simple.
Context {F : Type} `{SF : SeqFile F}.
Implicit Types s : client F.

(** With the seed of the simple test the product leaves [int] at the fifth byte,
    before the device is asked for anything. *)
Theorem simple_test_overflows s : whole_buffer s -> do_test_simple false s = Fault SignedOverflow.
Proof.
  intros Hb. unfold do_test_simple, mbind, ST_bind, fill_buffer.
  rewrite (fill_overflow false _ _ _ 4); [done|done| | | | |].
  - pose proof buffer_rounds as Hr. change buffer_size with 131072 in Hr at 2. lia.
  - done.
  - unfold whole_buffer in Hb. rewrite Hb, buffer_rounds. done.
  - intros j Hj. unfold fits_int, int_range, simple_test_seed. lia.
  - unfold int_range, simple_test_seed. lia.
Qed.

(** Where overflow wraps around, the test compares what [read] returned with as
    many bytes of the pattern, and nothing else: the rest of the buffer still
    holds what was written. *)
Theorem simple_test_checks_prefix s written f1 position f2 n bytes f3 :
  whole_buffer s ->
  write (block simple_test_seed 0 buffer_size) (file s) = Ret (written, f1) -> 0 < written ->
  lseek 0 SEEK_SET f1 = Ret (position, f2) -> 0 <= position ->
  read buffer_size f2 = Ret ((n, bytes), f3) -> 0 < n -> Z.of_nat (length bytes) <= buffer_size ->
  do_test_simple true s =
    Ret (if decide (u8 <$> bytes = take (length bytes) (block simple_test_seed 0 buffer_size)) then 0 else 1,
         Client (bytes ++ drop (length bytes) (block simple_test_seed 0 buffer_size)) f3).
Proof.
  intros Hb Hw Hpos Hl Hpos2 Hr Hn Hlen. unfold do_test_simple.
  assert (forall j, 0 <= j < buffer_size -> defined_for true simple_test_seed j) as Hd by (by left).
  pose proof (length_block simple_test_seed 0 buffer_size) as Hbl. pose proof buffer_rounds as Hrounds.
  rewrite (bind_ret _ _ _ _ _ (fill_buffer_ok true _ s Hb Hd)).
  set (b := block simple_test_seed 0 buffer_size) in *.
  rewrite (bind_ret _ _ _ written (Client b f1)).
  2:{ rewrite write_buffer_eq by (unfold whole_buffer; cbn [buffer]; lia). unfold on_file. cbn [buffer file]. by rewrite Hw. }
  destruct (Z.leb_spec written 0); [lia|].
  rewrite (bind_ret _ _ _ position (Client b f2)) by (unfold on_file; cbn [buffer file]; by rewrite Hl).
  destruct (Z.ltb_spec position 0); [lia|].
  rewrite (bind_ret _ _ _ n (Client (bytes ++ drop (length bytes) b) f3)).
  2:{ unfold read_buffer, on_file, mbind, ST_bind, gets. cbn [buffer file]. rewrite Hr. cbn [buffer file fst snd].
      destruct (Z.ltb_spec (Z.of_nat (length b)) (Z.of_nat (length bytes))); [lia|done]. }
  destruct (Z.leb_spec n 0); [lia|].
  assert (whole_buffer (Client (bytes ++ drop (length bytes) b) f3)) as Hb'
    by (unfold whole_buffer; cbn [buffer]; autorewrite with lens; lia).
  rewrite (bind_ret _ _ _ _ _ (verify_buffer_ok true _ _ Hb' Hd)).
  cbn [buffer]. fold b. rewrite fmap_app, (bytes_u8 (drop _ _)) by apply Forall_drop, block_bytes.
  assert ((u8 <$> bytes) ++ drop (length bytes) b = b <-> u8 <$> bytes = take (length bytes) b) as Hiff.
  { rewrite <- (take_drop (length bytes) b) at 2. split; [|by intros ->].
    intros [? _]%app_inj_1; [done|]. autorewrite with lens. lia. }
  unfold mret, ST_ret. do 2 f_equal. case_bool_decide; case_decide; tauto.
Qed.
End simple.

(** ** A device file over a driver

    Reads and writes inside the disk are handed to the driver whole. *)
Record disk_file (V : Type) := DiskFile { driver : V; df_position : Z }.
Arguments DiskFile {V} _ _.
Arguments driver {V} _.
Arguments df_position {V} _.

Section driver_file.
Context {V : Type} `{BK : BackingLaws V}.
Implicit Types f : disk_file V.

Definition in_disk (f : disk_file V) (n : Z) : bool :=
  (0 <=? df_position f) && (0 <? n) && (df_position f + n <=? backing_size).
Definition transfer {A} (m : ST V Z) (n : Z) (failed : A) (k : V -> A) : ST (disk_file V) A := fun f =>
  if in_disk f n then
    match m (driver f) with
    | Ret (r, v) => if r =? BLK_STS_OK then Ret (k v, DiskFile v (df_position f + n)) else Ret (failed, f)
    | Fault e => Fault e
    | NoFuel => NoFuel
    end
  else Ret (failed, f).

#[export] Instance driver_file : SeqFile (disk_file V) := {|
  write bs := fun f =>
    let n := Z.of_nat (length bs) in
    transfer (_ ← modify (v_set_mem (fun m => mem_write m 0 bs)); drv_write 0 (df_position f) n) n (-1) (fun _ => n) f;
  read n := fun f =>
    transfer (drv_read 0 (df_position f) n) n (-1, []) (fun v => (n, u8 <$> mem_read (v_mem v) 0 n)) f;
  lseek off _ := fun f => Ret (off, DiskFile (driver f) off);
  open _ := fun f => Ret (3, DiskFile (driver f) 0);
  aligned_alloc _ n := mret (Some (replicate (Z.to_nat n) 0)) |}.

Lemma in_disk_spec f n : reflect (0 <= df_position f /\ 0 < n /\ df_position f + n <= backing_size) (in_disk f n).
Proof.
  unfold in_disk. apply iff_reflect. rewrite !andb_true_iff, !Z.leb_le, Z.ltb_lt. tauto.
Qed.

Lemma wp_transfer {A} (m : ST V Z) n (failed : A) k (Q : A -> disk_file V -> Prop) f :
  (0 <= df_position f -> 0 < n -> df_position f + n <= backing_size ->
   wp m (fun r v => r = BLK_STS_OK /\ Q (k v) (DiskFile v (df_position f + n))) (driver f)) ->
  (in_disk f n = false -> Q failed f) -> wp (transfer m n failed k) Q f.
Proof.
  intros Hm Hf. unfold wp, transfer. destruct (in_disk_spec f n) as [(H1 & H2 & H3)|]; [|by apply Hf].
  specialize (Hm H1 H2 H3). unfold wp in Hm. destruct (m (driver f)) as [[r v]| |]; [|done..].
  by destruct Hm as [-> ?].
Qed.

Lemma mem_read_bytes m a n : mem_read (u8 <$> m : memory) a n = u8 <$> mem_read m a n.
Proof.
  unfold mem_read. rewrite <- list_fmap_compose. apply list_fmap_ext. intros _ x _. simpl.
  rewrite lookup_fmap. by destruct (m !! (a + x)).
Qed.
Lemma mem_write_bytes m a bs : u8 <$> mem_write m a bs = mem_write (u8 <$> m : memory) a (u8 <$> bs).
Proof. revert m a. induction bs as [|b bs IH]; intros m a; [done|]. cbn [mem_write]. by rewrite IH, fmap_insert. Qed.

Lemma driver_write_wp bs f :
  Forall is_byte bs ->
  wp (write bs) (fun r f' => (in_disk f (Z.of_nat (length bs)) = true -> r = Z.of_nat (length bs)) /\
    (0 < r -> r <= Z.of_nat (length bs) /\ df_position f' = df_position f + r /\
      u8 <$> v_disk (driver f') = mem_write (u8 <$> v_disk (driver f)) (df_position f) (take (Z.to_nat r) bs))) f.
Proof.
  intros Hb. apply wp_transfer.
  - intros H1 H2 H3. wp_steps. eapply wp_mono; [apply drv_write_ok; [done|done|exact H3]|].
    intros r v (-> & _ & Hd). rewrite v_mem_set, v_disk_set in Hd. cbn [df_position driver].
    rewrite mem_read_write_same in Hd by done. split_and!; [done|done|]. intros _. split_and!; [lia|done|].
    rewrite Hd, mem_write_bytes, (bytes_u8 bs) by done. by rewrite take_ge by lia.
  - intros ->. split; [done|lia].
Qed.
Lemma driver_read_wp n f :
  0 <= n ->
  wp (read n) (fun r f' => (in_disk f n = true -> r.1 = n) /\
    Z.of_nat (length r.2) <= n /\ (u8 <$> v_disk (driver f') : memory) = u8 <$> v_disk (driver f) /\
    (0 < r.1 -> r.1 <= n /\ r.2 = mem_read (u8 <$> v_disk (driver f)) (df_position f) r.1 /\ Forall is_byte r.2 /\
                df_position f' = df_position f + r.1)) f.
Proof.
  intros Hn. apply wp_transfer.
  - intros H1 H2 H3. eapply wp_mono; [apply drv_read_ok; [done|done|exact H3]|].
    intros r v (-> & Hd & Hm). cbn [df_position driver fst snd]. rewrite Hm, mem_read_write_same, Hd by solve_len.
    split_and!; [done|done|solve_len|done|]. intros _. split_and!; [lia|by rewrite mem_read_bytes| |done].
    apply Forall_fmap, Forall_true. intros. apply (wrap_range 8). lia.
  - intros ->. cbn [fst snd]. split_and!; [done|simpl; lia|done|lia].
Qed.

#[export] Instance driver_file_laws : SeqFileLaws (disk_file V).
Proof.
  refine {| contents f := u8 <$> v_disk (driver f); position := df_position |}.
  - intros n f Hn. eapply wp_mono; [by apply driver_read_wp|]. intros r f' [_ Hr]. exact Hr.
  - intros bs f Hb. eapply wp_mono; [by apply driver_write_wp|]. intros r f' [_ Hr]. exact Hr.
  - intros off f. by split.
  - intros path f. done.
  - intros alignment n f Hn. split; [done|]. intros bytes [= <-]. rewrite length_replicate. lia.
Defined.
#[export] Instance driver_file_whole : WholeTransfers (disk_file V) backing_size.
Proof.
  split.
  - intros n f ???. eapply wp_mono; [apply driver_read_wp; lia|]. intros r f' [Hr _]. apply Hr.
    by destruct (in_disk_spec f n) as [|[]].
  - intros bs f ????. eapply wp_mono; [by apply driver_write_wp|]. intros r f' [Hr _]. apply Hr.
    destruct (in_disk_spec f (Z.of_nat (length bs))) as [|[]]; [done|]. split_and!; [done|lia|done].
  - done.
  - done.
  - intros alignment n f Hn. by eexists.
Qed.
End driver_file.

(** ** The RAM disk *)
Definition ram_file : disk_file ram := DiskFile (Ram ∅ ∅) 0.
Definition hard_argv : list string := ["blktest"%string; "/dev/bdz"%string; "--hard"%string].

Lemma client_sound_witness :
  wp (main false hard_argv) (fun r s' =>
    (r = 0 \/ r = 1) /\ (r = 0 -> holds_patterns (contents (file s')) hard_test_iteration)) (Client [] ram_file).
Proof. apply (client_sound false hard_argv (Client [] ram_file)). by do 3 eexists. Defined.
Lemma client_passes_witness : wp (main false hard_argv) (fun r _ => r = 0) (Client [] ram_file).
Proof. apply (client_passes false (size := RAMDISK_SIZE) hard_argv (Client [] ram_file)); [by do 3 eexists|discriminate]. Defined.
Lemma simple_test_overflows_witness :
  do_test_simple false (Client (replicate (Z.to_nat buffer_size) 0) ram_file) = Fault SignedOverflow.
Proof. apply simple_test_overflows. unfold whole_buffer. cbn [buffer]. rewrite length_replicate. apply buffer_rounds. Defined.

(** A device that ignores what is written, and of which one byte, zero, can be
    read: it passes the simple test. *)
#[local] Instance one_byte : SeqFile unit := {|
  write bs := mret (Z.of_nat (length bs)); read _ := mret (1, [0]); lseek off _ := mret off;
  open _ := mret 3; aligned_alloc _ n := mret (Some (replicate (Z.to_nat n) 0)) |}.
Lemma simple_test_checks_prefix_witness :
  do_test_simple true (Client (replicate (Z.to_nat buffer_size) 7) tt) =
    Ret (0, Client (0 :: drop 1 (block simple_test_seed 0 buffer_size)) tt).
Proof.
  pose proof (length_block simple_test_seed 0 buffer_size) as Hl. pose proof buffer_rounds as Hr.
  rewrite (simple_test_checks_prefix _ (Z.of_nat (length (block simple_test_seed 0 buffer_size))) tt 0 tt 1 [0] tt);
    [|unfold whole_buffer; cbn [buffer]; by rewrite length_replicate|done|rewrite Hl, Hr; done|done|done|done|done|done].
  case_decide as E; [done|]. destruct E. by rewrite block_cons by done.
Defined.
