(* ===== verification/EndToEnd.v ===== *)
(** * From the block layer to the disk of the driver

    The module, the library and a driver of a plain disk together: what one
    round of the library, and two, do to the client's memory and the driver's disk,
    and how the threads of a driver come to serve one device. *)
From S2P Require Import Prelude Protocol Linux Kernel Sample Command BlockDev CharDev CharDevProps.
From S2P Require Import LibBius LibBiusProps Backing Machine RamDisk.

(** ** One request *)
Section one_request.
Context `{BL : BioLaws} `{LC : LinuxConst} `{EN : Environment} {V : Type} `{BK : BackingLaws V}.
Context (ops : bius_operations V).
Existing Instance ubuf_iov.
Implicit Types s : machine V.

(** The driver serves reads and writes. *)
Hypothesis Hread : op_read ops = Some drv_read.
Hypothesis Hwrite : op_write ops = Some drv_write.

(** Calling the driver. *)
Section call.
Context s (c dev : Z) (w : list Z) (d : bius_block_device) (k : Z) (rest : list Z)
  (r : bius_request) (b : blk_part) (rq : request) (buffer : Z).
Hypothesis Hnr : next_request s c dev w d k rest r b rq.
Hypothesis Hbuffer : 0 <= buffer < 2 ^ 64.
Hypothesis Hdisk : req_pos r + req_length r <= backing_size.

Lemma call_write u2k s2 :
  req_type r = BIUS_WRITE ->
  wp (prepare_reply (machine_ops ops) (local_header r buffer) u2k) (fun res s3 =>
    res = (u2k_with_reply (req_id r) BLK_STS_OK 0, 0) /\ m_kernel s3 = m_kernel s2 /\
    v_disk (m_user s3) = mem_write (v_disk (m_user s2)) (req_pos r)
                           (mem_read (v_mem (m_user s2)) buffer (req_length r))) s2.
Proof.
  intros Hw. pose proof Hnr as [_ _ [Hl Hlm] [Hp Hpe] _ _ _].
  eapply (prepare_write s c dev w d k rest r b rq); try done.
  eapply wp_mono; [apply drv_write_ok; lia|]. by intros st v (-> & _ & Hd).
Qed.
Lemma call_read u2k s2 :
  req_type r = BIUS_READ ->
  wp (prepare_reply (machine_ops ops) (local_header r buffer) u2k) (fun res s3 =>
    res = (u2k_with_reply (req_id r) BLK_STS_OK buffer, 0) /\ m_kernel s3 = m_kernel s2 /\
    v_disk (m_user s3) = v_disk (m_user s2) /\
    mem_read (v_mem (m_user s3)) buffer (req_length r)
      = mem_read (v_disk (m_user s2)) (req_pos r) (req_length r)) s2.
Proof.
  intros Hw. pose proof Hnr as [_ _ [Hl Hlm] [Hp Hpe] _ _ _].
  eapply (prepare_read s c dev w d k rest r b rq); try done.
  eapply wp_mono; [apply drv_read_ok; lia|]. intros st v (-> & Hd & Hm). cbn [m_kernel m_user].
  split_and!; try done. rewrite Hm. apply mem_read_write_same. rewrite length_mem_read. lia.
Qed.
End call.

Lemma disk_write_round s c dev w d k rest r b rq buffer l :
  next_request s c dev w d k rest r b rq -> 0 <= buffer < 2 ^ 64 -> req_pos r + req_length r <= backing_size ->
  req_type r = BIUS_WRITE ->
  wp (handle_request c (machine_ops ops) buffer BIUS_MAX_SIZE_PER_COMMAND l) (fun res s' =>
    (exists l', res = Go l') /\
    v_disk (m_user s') = mem_write (v_disk (m_user s)) (req_pos r)
                           (mem_gather (kmem (m_kernel s)) (rq_extent rq)) /\
    kmem (m_kernel s') = kmem (m_kernel s) /\ served s s' c dev w d k rest [EvEnd k BLK_STS_OK]) s.
Proof.
  intros Hnr Hb Hd Hw. eapply wp_mono.
  - apply (write_round s c dev w d k rest r b rq (machine_ops ops) buffer l Hb (fun v => v_disk v = v_disk (m_user s)))
      with (st := BLK_STS_OK) (ud := 0) (Post := fun v => v_disk v = mem_write (v_disk (m_user s)) (req_pos r)
        (mem_gather (kmem (m_kernel s)) (rq_extent rq))); try done; [|by rewrite Hw|].
    + intros f v. by rewrite v_disk_set.
    + intros s2 Hu Hm. eapply wp_mono; [by eapply call_write|]. cbv beta. by rewrite Hm, Hu.
  - intros res s' (Hl & Hd' & Hm & Hsv). split_and!; try done. unfold reply_events in Hsv. rewrite Hw in Hsv.
    exact Hsv.
Qed.
(** C8: One round of the library takes a pending write through the system: the
    driver's disk holds the client's bytes, in the order of its segments, at the
    request's offset, nothing else of it changes, and the request completes
    successfully, once. *)
Theorem write_reaches_disk s c dev w d k rest r b rq buffer l :
  next_request s c dev w d k rest r b rq -> 0 <= buffer < 2 ^ 64 -> req_pos r + req_length r <= backing_size ->
  req_type r = BIUS_WRITE ->
  wp (handle_request c (machine_ops ops) buffer BIUS_MAX_SIZE_PER_COMMAND l) (fun res s' =>
    (exists l', res = Go l') /\
    v_disk (m_user s') = mem_write (v_disk (m_user s)) (req_pos r)
                           (mem_gather (kmem (m_kernel s)) (rq_extent rq)) /\
    kmem (m_kernel s') = kmem (m_kernel s) /\ served s s' c dev w d k rest [EvEnd k BLK_STS_OK]) s.
Proof. apply disk_write_round. Qed.

Lemma disk_read_round s c dev w d k rest r b rq buffer l :
  next_request s c dev w d k rest r b rq -> 0 <= buffer < 2 ^ 64 -> req_pos r + req_length r <= backing_size ->
  req_type r = BIUS_READ -> NoDup (rq_extent rq) ->
  wp (handle_request c (machine_ops ops) buffer BIUS_MAX_SIZE_PER_COMMAND l) (fun res s' =>
    (exists l', res = Go l') /\
    mem_gather (kmem (m_kernel s')) (rq_extent rq) = mem_read (v_disk (m_user s)) (req_pos r) (req_length r) /\
    (forall x, x ∉ rq_extent rq -> kmem (m_kernel s') !! x = kmem (m_kernel s) !! x) /\
    v_disk (m_user s') = v_disk (m_user s) /\ served s s' c dev w d k rest [EvEnd k BLK_STS_OK]) s.
Proof.
  intros Hnr Hb Hd Hw Hnd. eapply wp_mono.
  - apply (read_round s c dev w d k rest r b rq (machine_ops ops) buffer l Hb)
      with (bs := mem_read (v_disk (m_user s)) (req_pos r) (req_length r))
        (Post := fun v => v_disk v = v_disk (m_user s)); try done.
    + rewrite length_mem_read, <- (nr_extent _ _ _ _ _ _ _ _ _ _ Hnr). lia.
    + intros s2 Hu. eapply wp_mono; [by eapply call_read|]. cbv beta. by rewrite Hu.
  - by intros res s' (Hl & Hd' & Hg & Hout & Hsv).
Qed.
(** C9: One round of the library takes a pending read through the system: the
    client's segments hold the bytes of the driver's disk at the request's
    offset, no other memory changes, nor does the disk, and the request completes
    successfully, once. *)
Theorem read_reaches_client s c dev w d k rest r b rq buffer l :
  next_request s c dev w d k rest r b rq -> 0 <= buffer < 2 ^ 64 -> req_pos r + req_length r <= backing_size ->
  req_type r = BIUS_READ -> NoDup (rq_extent rq) ->
  wp (handle_request c (machine_ops ops) buffer BIUS_MAX_SIZE_PER_COMMAND l) (fun res s' =>
    (exists l', res = Go l') /\
    mem_gather (kmem (m_kernel s')) (rq_extent rq) = mem_read (v_disk (m_user s)) (req_pos r) (req_length r) /\
    (forall x, x ∉ rq_extent rq -> kmem (m_kernel s') !! x = kmem (m_kernel s) !! x) /\
    v_disk (m_user s') = v_disk (m_user s) /\ served s s' c dev w d k rest [EvEnd k BLK_STS_OK]) s.
Proof. apply disk_read_round. Qed.

(** C1: What one client writes, another reads: with a write and then a read of
    the same range pending, two rounds of the library complete both, and the
    reader's segments hold the writer's bytes. *)
Theorem client_write_then_read s c dev w d k1 k2 rest r1 b1 rq1 r2 b2 rq2 buffer l :
  next_request s c dev w d k1 (k2 :: rest) r1 b1 rq1 -> req_type r1 = BIUS_WRITE ->
  next_request (past_first s dev d (k2 :: rest)) c dev w (dev_with_pending d (k2 :: rest)) k2 rest r2 b2 rq2 ->
  req_type r2 = BIUS_READ -> k1 <> k2 -> req_pos r2 = req_pos r1 -> req_length r2 = req_length r1 ->
  NoDup (rq_extent rq2) -> 0 <= buffer < 2 ^ 64 -> req_pos r1 + req_length r1 <= backing_size ->
  wp (pbind (handle_request c (machine_ops ops) buffer BIUS_MAX_SIZE_PER_COMMAND l)
        (handle_request c (machine_ops ops) buffer BIUS_MAX_SIZE_PER_COMMAND)) (fun res s' =>
    (exists l', res = Go l') /\
    mem_gather (kmem (m_kernel s')) (rq_extent rq2) = mem_gather (kmem (m_kernel s)) (rq_extent rq1) /\
    blk_rqs (m_kernel s') = delete k2 (delete k1 (blk_rqs (m_kernel s))) /\
    trace (m_kernel s') = trace (m_kernel s) ++ [EvEnd k1 BLK_STS_OK; EvEnd k2 BLK_STS_OK]) s.
Proof.
  intros Hn1 Hw Hn2 Hr Hne Hpos Hlen Hnd Hb Hd. apply wp_pbind.
  eapply wp_mono; [by eapply disk_write_round|]. intros res s1 ([l1 ->] & Hd1 & Hm1 & Hs1).
  eapply wp_mono; [eapply (disk_read_round s1 c dev w _ k2 rest r2 b2 rq2); [eapply next_request_served; [apply Hn1|exact Hs1|done|exact Hn2]|done|lia|done|done]|].
  intros res s2 (Hl & Hg & _ & _ & Hs2). split_and!; [done| | |].
  - rewrite Hg, Hd1, Hpos, Hlen. apply mem_read_write_same. rewrite length_mem_gather.
    by rewrite (nr_extent _ _ _ _ _ _ _ _ _ _ Hn1).
  - by rewrite (sv_rqs _ _ _ _ _ _ _ _ _ Hs2), (sv_rqs _ _ _ _ _ _ _ _ _ Hs1).
  - rewrite (sv_trace _ _ _ _ _ _ _ _ _ Hs2), (sv_trace _ _ _ _ _ _ _ _ _ Hs1). by rewrite <- app_assoc.
Qed.
End one_request.

(** ** Starting *)
Section starting.
Context `{BL : BioLaws} `{LC : LinuxConst} `{EN : Environment} {V : Type} `{SL : StoreLaws V}.
Existing Instance ubuf_iov.
Implicit Types s : machine V.

(** The options are at [a] in the memory of the process, their name ended by a 0. *)
Record has_options s (a : Z) (o : bius_block_device_options) : Prop := {
  ho_address : 0 <= a < 2 ^ 63;
  ho_wf : options_wf o;
  ho_bytes : mem_read (v_mem (m_user s)) a sizeof_options = options_bytes o;
  ho_name : 0 ∈ opt_disk_name o }.

Lemma options_name_at s a o :
  has_options s a o -> mem_read (v_mem (m_user s)) (a + offset_disk_name) 32 = opt_disk_name o.
Proof.
  intros [_ Hwf Hm _]. rewrite <- (options_of_bytes_bytes o Hwf), <- Hm. unfold options_of_bytes. cbn [opt_disk_name].
  change sizeof_options with (24 + 32). rewrite mem_read_app by lia.
  rewrite drop_app_ge, length_mem_read by (rewrite length_mem_read; done). change (24 - Z.to_nat 24)%nat with 0%nat.
  rewrite drop_0, take_ge; [done|]. by rewrite length_mem_read.
Qed.
Lemma options_name_length s a o fuel :
  has_options s a o -> (32 <= fuel)%nat ->
  exists n, disk_name_length fuel a s = Ret (Z.of_nat n, s) /\ (n < 32)%nat /\ opt_disk_name o !! n = Some 0.
Proof.
  intros Ho Hfuel. pose proof (options_name_at s a o Ho) as Hname.
  destruct Ho as [_ (_ & _ & _ & _ & _ & _ & Hl) _ Hz]. change (Z.to_nat MAX_DISK_NAME_LEN) with 32%nat in Hl.
  destruct (strlen_spec (opt_disk_name o) fuel (v_mem (m_user s)) (a + offset_disk_name)) as (n & Hn & Hlt & H0n & _);
    [by rewrite Hl|done|lia|].
  exists n. split_and!; [|lia|done]. unfold disk_name_length, mbind, ST_bind, gets. cbn [proc_mem machine_process].
  by rewrite Hn.
Qed.

Lemma asks_of s fd w snd t n a :
  connections (m_kernel s) !! fd = Some (Connection None w snd) -> t = BIUS_CREATE \/ t = BIUS_CONNECT ->
  0 <= a < 2 ^ 64 ->
  asks (m_kernel s) fd (mapped_buf 24 (u2k_bytes (u2k_with_type 0 (bius_req_value t) n a)))
    (u2k_with_type 0 (bius_req_value t) n a) t.
Proof.
  intros Hc Ht Ha. pose proof (wrap_range 32 n ltac:(lia)). split.
  - apply reply_writes. unfold u2k_wf, u2k_with_type; cbn [u2k_id u2k_cell u2k_user_data].
    pose proof (wrap_range 32 (bius_req_value t) ltac:(lia)). rewrite Z.shiftl_mul_pow2 by lia. lia.
  - by eexists _, _.
  - apply u2k_type_with_type. by destruct Ht as [-> | ->].
Qed.

(** [create_block_device] of the library creates the device its options
    describe and makes the connection its first user. *)
Lemma create_spec fuel fd a s o w snd dev (Q : exec unit -> machine V -> Prop) :
  has_options s a o -> (32 <= fuel)%nat -> connections (m_kernel s) !! fd = Some (Connection None w snd) ->
  create_succeeds env_create = true -> ce_kmalloc env_create = Some dev ->
  (forall s', m_user s' = m_user s -> all_disk_list (m_kernel s') = all_disk_list (m_kernel s) ++ [dev] ->
     connections (m_kernel s') = <[fd := Connection (Some dev) w snd]> (connections (m_kernel s)) ->
     devices (m_kernel s') = <[dev := BlockDevice (ce_register_blkdev env_create)
       (create_gendisk o (ce_register_blkdev env_create)) (opt_model o) 1 []]> (devices (m_kernel s)) ->
     Q (Go tt) s') ->
  wp (LibBius.create_block_device fuel fd a) Q s.
Proof.
  intros Ho Hfuel Hc Hs Hdev HQ. destruct (options_name_length s a o fuel Ho Hfuel) as (n & Hn & _ & _).
  pose proof Ho as [Ha Hwf Hm _]. unfold LibBius.create_block_device. apply wp_pbind_lift.
  eapply wp_intro; [exact Hn|]. apply wp_pbind_lift, sys_write_run.
  eapply wp_mono.
  { eapply (write_creates_spec _ _ _ _ _ (u2k_with_type 0 (bius_req_value BIUS_CREATE) (Z.of_nat n) a));
      [by apply (asks_of s fd w snd); [done|by left|lia]|exact Hwf| |exact Hs].
    cbn [u2k_with_type u2k_user_data]. rewrite <- Hm. apply process_memory_holds. }
  intros res ks (-> & dev' & w' & snd' & Hdev' & Hc' & Hcn & Hdv & Hl & _). change (syscall_result sizeof_u2k <? 0) with false.
  cbv iota. apply wp_pret. rewrite Hdev in Hdev'. injection Hdev' as <-.
  rewrite Hc in Hc'. injection Hc' as <- <-. by apply HQ.
Qed.

(** [connect_block_device] of the library, once the newest device has the name
    of the options, makes the connection one of its users. *)
Lemma connect_spec fuel fd a s o w snd L dev d (Q : exec unit -> machine V -> Prop) :
  has_options s a o -> (32 <= fuel)%nat -> connections (m_kernel s) !! fd = Some (Connection None w snd) ->
  all_live (m_kernel s) -> all_disk_list (m_kernel s) = L ++ [dev] -> devices (m_kernel s) !! dev = Some d ->
  gd_disk_name (dev_disk d) = strncpy (Z.to_nat DISK_NAME_LEN) (opt_disk_name o) ->
  Q (Go tt) (Machine (set_conns <[fd := Connection (Some dev) w snd]>
    (set_devices <[dev := dev_with_conns d (u32 (dev_num_connection d + 1))]> (m_kernel s))) (m_user s) (m_brk s)) ->
  wp (connect_block_device fuel fd a) Q s.
Proof.
  intros Ho Hfuel Hc Hlive HL Hd Hnm HQ. destruct (options_name_length s a o fuel Ho Hfuel) as (n & Hn & Hlt & Hz).
  pose proof Ho as [Ha (_ & _ & _ & _ & _ & _ & Hl) Hm _]. change (Z.to_nat MAX_DISK_NAME_LEN) with 32%nat in Hl.
  unfold connect_block_device. apply wp_pbind_lift. eapply wp_intro; [exact Hn|]. apply wp_pbind_lift, sys_write_run.
  set (name := take n (opt_disk_name o)). assert (length name = n) as Hnl by (unfold name; rewrite length_take; lia).
  eapply wp_mono.
  { apply (write_connects_spec _ _ _ _ _
      (u2k_with_type 0 (bius_req_value BIUS_CONNECT) (Z.of_nat n) (a + offset_disk_name)) _ name);
      [by apply (asks_of s fd w snd); [done|by right|unfold offset_disk_name; lia]| | | |exact Hlive].
    - cbn [u2k_with_type u2k_user_data].
      assert (name = mem_read (v_mem (m_user s)) (a + offset_disk_name) (Z.of_nat n)) as ->;
        [|apply process_memory_holds].
      unfold name. rewrite <- (options_name_at s a o Ho). replace 32 with (Z.of_nat n + (32 - Z.of_nat n)) by lia.
      rewrite mem_read_app by lia. by rewrite take_app_le, take_ge by solve_len.
    - rewrite u2k_length_with_type by lia. by rewrite Hnl.
    - rewrite Hnl. change (Z.to_nat DISK_NAME_LEN) with 32%nat. lia. }
  intros res ks Hres. rewrite HL, reverse_app in Hres. change (reverse [dev]) with [dev] in Hres.
  cbn [app] in Hres. rewrite filter_cons_True in Hres; cycle 1.
  { unfold named. rewrite Hd, Hnm, strncmp_eq_sym, strncmp_eq_strncpy. unfold name. by apply strncmp_eq_cut. }
  cbn [head] in Hres. destruct Hres as (-> & d' & w' & snd' & Hd' & Hc' & ->).
  rewrite Hd in Hd'. injection Hd' as <-. rewrite Hc in Hc'. injection Hc' as <- <-.
  change (syscall_result sizeof_u2k <? 0) with false. cbv iota. by apply wp_pret.
Qed.

(** C29: Starting: the main thread creates the device the options describe, a
    worker thread connects by its name, and both connections serve the same
    device, which counts the two. *)
Theorem threads_share_device fuel fd1 fd2 a s o w1 snd1 w2 snd2 :
  has_options s a o -> (32 <= fuel)%nat -> fd1 <> fd2 ->
  connections (m_kernel s) !! fd1 = Some (Connection None w1 snd1) ->
  connections (m_kernel s) !! fd2 = Some (Connection None w2 snd2) ->
  create_succeeds env_create = true -> all_live (m_kernel s) ->
  wp (pbind (LibBius.create_block_device fuel fd1 a) (fun _ => connect_block_device fuel fd2 a)) (fun res s' =>
    res = Go tt /\ exists dev, ce_kmalloc env_create = Some dev /\
      all_disk_list (m_kernel s') = all_disk_list (m_kernel s) ++ [dev] /\
      devices (m_kernel s') !! dev = Some (BlockDevice (ce_register_blkdev env_create)
        (create_gendisk o (ce_register_blkdev env_create)) (opt_model o) 2 []) /\
      connections (m_kernel s') !! fd1 = Some (Connection (Some dev) w1 snd1) /\
      connections (m_kernel s') !! fd2 = Some (Connection (Some dev) w2 snd2)) s.
Proof.
  intros Ho Hfuel Hne Hc1 Hc2 Hs Hlive.
  assert (exists dev, ce_kmalloc env_create = Some dev) as [dev Hdev].
  { unfold create_succeeds, create_acquired in Hs. destruct (ce_kmalloc env_create); [by eexists|done]. }
  apply wp_pbind. eapply (create_spec fuel fd1 a s o); [exact Ho|done|exact Hc1|done|exact Hdev|].
  intros s' Hu HL HC HD. cbv beta iota.
  assert (has_options s' a o) as Ho' by (destruct Ho; split; by rewrite ?Hu).
  eapply (connect_spec fuel fd2 a s' o w2 snd2 (all_disk_list (m_kernel s)) dev); [exact Ho'|done| | |exact HL| | |].
  - by rewrite HC, lookup_insert_ne.
  - unfold all_live in *. rewrite HL, HD. apply Forall_app. split.
    + eapply Forall_impl; [exact Hlive|]. intros x Hx. cbv beta in *. destruct (decide (x = dev)) as [->|Hnx].
      * by rewrite lookup_insert_eq.
      * by rewrite lookup_insert_ne.
    + repeat constructor. by rewrite lookup_insert_eq.
  - rewrite HD. apply lookup_insert_eq.
  - done.
  - split; [done|]. exists dev. cbn [m_kernel]. kfields. rewrite HL, HC, HD.
    rewrite (lookup_insert_ne _ fd2 fd1) by done. rewrite !lookup_insert_eq. split_and!; try done.
Qed.
End starting.

(** ** A concrete machine

    The RAM disk behind device 100: request 7 writes nine bytes at 4096, request
    8 reads them back into other memory. *)
#[export] Instance sample_env : Environment :=
  {| env_pad1 := sample_pad; env_pad2 := sample_pad; env_create := good_env 101;
     env_pad1_length := eq_refl; env_pad2_length := eq_refl |}.
Definition reader_bios : list (@bio seg_bio) := [[BioVec 20480 7 9]].
Definition reader_rq : @request seg_bio := Request 0 8 9 reader_bios 8.
Definition client_kernel (pending : list Z) : @kstate seg_bio :=
  set_blk_rqs <[8 := reader_rq]> (sample_state pending [] None).
Definition client_machine (pending : list Z) : machine ram :=
  Machine (client_kernel pending) (Ram ∅ ∅) 65536.
Definition client_locals : locals := Locals (command_header (sample_pdu 0 BIUS_FLUSH 0)) (u2k_with_reply 0 0 0).

Lemma client_request {V} `{Store V} (v : V) pending k rest id t md rq :
  pending = k :: rest -> t ∈ [BIUS_READ; BIUS_WRITE; BIUS_ZONE_APPEND] -> 0 <= id < 2 ^ 64 ->
  sample_pdus !! k = Some (sample_pdu id t md) -> blk_rqs (client_kernel pending) !! k = Some rq ->
  Forall (fun x => 0 < bi_size x) (rq_bios rq) -> length (rq_extent rq) = 9%nat ->
  next_request (Machine (client_kernel pending) v 65536) 200 100 [] (sample_device 1 pending) k rest
    (sample_pdu id t md) (sample_blk md) rq.
Proof.
  intros -> Ht Hid Hp Hrq Hbios Hext.
  assert (request_may_have_data t = true /\ is_blk_request t = true /\ req_canonical t) as (Hd & Hb & Hc).
  { repeat (apply elem_of_cons in Ht as [-> | Ht]; [by split_and!|]). by apply elem_of_nil in Ht. }
  split; try done; cbn [sample_pdu req_length req_pos req_type].
  - split; try done; [by split; try done; eexists| |by intros x Hx%elem_of_nil].
    split; try done. intros _ Hnil. unfold rq_extent in Hext. by rewrite Hnil in Hext.
  - by rewrite Hext.
Qed.

Lemma ramdisk_reads : op_read ramdisk_operations = Some drv_read.
Proof. done. Qed.
Lemma ramdisk_writes : op_write ramdisk_operations = Some drv_write.
Proof. done. Qed.

Lemma write_reaches_disk_witness :
  wp (handle_request 200 (machine_ops ramdisk_operations) 65536 BIUS_MAX_SIZE_PER_COMMAND client_locals) (fun res s' =>
    mem_read (ram_disk (m_user s')) 4096 9 = sample_bytes /\
    trace (m_kernel s') = [EvEnd 7 BLK_STS_OK]) (client_machine [7; 8]).
Proof.
  eapply wp_mono.
  - apply (write_reaches_disk ramdisk_operations ramdisk_writes (client_machine [7; 8]) 200 100 [] (sample_device 1 [7; 8]) 7 [8]
      (sample_pdu 1 BIUS_WRITE 9) (sample_blk 9) (sample_rq 1)); [|done|by vm_compute|done].
    apply client_request; [done|by right; left|done|done|done|by repeat constructor|done].
  - intros res s' (_ & Hd & _ & Hs). split; [|exact (sv_trace _ _ _ _ _ _ _ _ _ Hs)].
    change (ram_disk (m_user s')) with (v_disk (m_user s')). rewrite Hd. by vm_compute.
Defined.

Lemma read_reaches_client_witness :
  wp (handle_request 200 (machine_ops ramdisk_operations) 65536 BIUS_MAX_SIZE_PER_COMMAND client_locals) (fun res s' =>
    mem_read (kmem (m_kernel s')) 20487 9 = [0; 0; 0; 0; 0; 0; 0; 0; 0] /\
    trace (m_kernel s') = [EvEnd 8 BLK_STS_OK]) (client_machine [8]).
Proof.
  eapply wp_mono.
  - apply (read_reaches_client ramdisk_operations ramdisk_reads (client_machine [8]) 200 100 [] (sample_device 1 [8]) 8 []
      (sample_pdu 2 BIUS_READ 0) (sample_blk 0) reader_rq); [|done|by vm_compute|done|].
    + apply client_request; [done|by left|done|done|done|by repeat constructor|done].
    + apply (bool_decide_unpack _). by vm_compute.
  - intros res s' (_ & Hg & _ & _ & Hs). split; [|exact (sv_trace _ _ _ _ _ _ _ _ _ Hs)].
    rewrite <- mem_gather_seqZ. change (seqZ 20487 9) with (rq_extent reader_rq). rewrite Hg. by vm_compute.
Defined.

Lemma client_write_then_read_witness :
  wp (pbind (handle_request 200 (machine_ops ramdisk_operations) 65536 BIUS_MAX_SIZE_PER_COMMAND client_locals)
        (handle_request 200 (machine_ops ramdisk_operations) 65536 BIUS_MAX_SIZE_PER_COMMAND)) (fun res s' =>
    mem_read (kmem (m_kernel s')) 20487 9 = sample_bytes /\
    trace (m_kernel s') = [EvEnd 7 BLK_STS_OK; EvEnd 8 BLK_STS_OK]) (client_machine [7; 8]).
Proof.
  eapply wp_mono.
  - apply (client_write_then_read ramdisk_operations ramdisk_reads ramdisk_writes (client_machine [7; 8]) 200 100 []
      (sample_device 1 [7; 8]) 7 8 []
      (sample_pdu 1 BIUS_WRITE 9) (sample_blk 9) (sample_rq 1) (sample_pdu 2 BIUS_READ 0) (sample_blk 0) reader_rq);
      try done.
    + apply client_request; [done|by right; left|done|done|done|by repeat constructor|done].
    + change (past_first _ _ _ _) with (client_machine [8]).
      apply client_request; [done|by left|done|done|done|by repeat constructor|done].
    + apply (bool_decide_unpack _). by vm_compute.
  - intros res s' (_ & Hg & _ & Htr). split; [|exact Htr].
    rewrite <- mem_gather_seqZ. change (seqZ 20487 9) with (rq_extent reader_rq). rewrite Hg. by vm_compute.
Defined.

(** The RAM disk starting on a machine with another device. *)
Definition starting_machine : machine ram :=
  Machine (set_conns <[202 := init_bius_connection]> newcomer)
    (Ram (mem_write ∅ 1000 (options_bytes ramdisk_options)) ∅) 65536.
Lemma threads_share_device_witness :
  wp (pbind (LibBius.create_block_device 32 201 1000) (fun _ => connect_block_device 32 202 1000))
    (fun res s' => res = Go tt /\ all_disk_list (m_kernel s') = [100; 101] /\
       dev_num_connection <$> (devices (m_kernel s') !! 101) = Some 2) starting_machine.
Proof.
  eapply wp_mono.
  - apply (threads_share_device 32 201 202 1000 starting_machine ramdisk_options [] None [] None); try done.
    + split; [done|by split_and!; vm_compute|by vm_compute|].
      apply (bool_decide_unpack _). by vm_compute.
    + repeat constructor. by eexists.
  - intros res s' (-> & dev & [= <-] & -> & -> & _). done.
Defined.
