(* ===== verification/MappedMachine.v ===== *)
(** * The machine with data mapping

    One driver process on the module built with [CONFIG_BIUS_DATAMAP]: the
    process sees the pages of its area through the page table, and what the
    driver stores there reaches the kernel's pages. *)
From S2P Require Import Prelude Protocol Linux Kernel Command BlockDev CharDev CharDevProps.
From S2P Require Import LibBius LibBiusProps DataMapping PageLayout MappingProps MappedIO MappedReply Backing Machine.

(** The frame of the zero page, and where a connection's reserved pages are. *)
Class MapEnvironment := { env_zero_pfn : Z; env_reserved : Z -> option Z }.

(** ** The area in the memory of the process *)
Section area.
Context `{BO : BioOps} `{MO : MmOps}.

(** The bytes of the pages in the page table, by user address. *)
Definition page_bytes_of (s : mstate) (pe : Z * pte) : list (Z * Z) :=
  (fun o => (pe.1 + o, default 0 (mem_of s !! (pfn_address (pte_pfn pe.2) + o)))) <$> seqZ 0 PAGE_SIZE.
Definition area_bytes (s : mstate) : list (Z * Z) := concat (page_bytes_of s <$> map_to_list (page_table s)).
Definition area_memory (s : mstate) : memory := list_to_map (area_bytes s).

Definition aligned_table (t : gmap Z pte) : Prop := forall p, is_Some (t !! p) -> p mod PAGE_SIZE = 0.

Lemma page_split_addr a : a = PAGE_SIZE * (a / PAGE_SIZE) + a mod PAGE_SIZE.
Proof. apply Z_div_mod_eq_full. Qed.

Lemma elem_of_area_bytes s a b :
  aligned_table (page_table s) -> (a, b) ∈ area_bytes s <-> user_byte s a = Some b.
Proof.
  intros Hal. unfold area_bytes. rewrite elem_of_concat_fmap. split.
  - intros ([p e] & Hpe%elem_of_map_to_list & (o & [= -> ->] & Ho%elem_of_seqZ)%list_elem_of_fmap).
    cbn [fst snd]. unfold user_byte, kernel_addr.
    destruct (page_of p 0 o) as [Hp Hm]; [apply Hal; by eexists|lia|]. rewrite Z.mul_0_r, Z.add_0_r in *.
    by rewrite Hp, Hm, Hpe.
  - unfold user_byte, kernel_addr. set (p := PAGE_SIZE * (a / PAGE_SIZE)).
    destruct (page_table s !! p) as [e|] eqn:Hpe; [|done]. intros [= <-].
    exists (p, e). split; [by apply elem_of_map_to_list|]. apply list_elem_of_fmap.
    exists (a mod PAGE_SIZE). cbn [fst snd]. split; [by rewrite (page_split_addr a) at 1|].
    apply elem_of_seqZ. pose proof (Z.mod_pos_bound a PAGE_SIZE ltac:(done)). lia.
Qed.
Lemma area_memory_lookup s a : aligned_table (page_table s) -> area_memory s !! a = user_byte s a.
Proof.
  intros Hal. unfold area_memory. destruct (user_byte s a) as [b|] eqn:Hb.
  - apply elem_of_list_to_map_1'; [|by apply elem_of_area_bytes].
    intros b' Hb'%elem_of_area_bytes; [congruence|done].
  - apply not_elem_of_list_to_map_1. intros ([a' b] & -> & Hin)%list_elem_of_fmap.
    apply elem_of_area_bytes in Hin; [|done]. simpl in Hb. congruence.
Qed.
End area.

(** ** The machine *)
Record mapped_machine `{BioOps} (V : Type) := MappedMachine {
  mm_kernel : mstate;
  mm_user : V;
  mm_brk : Z }.
Arguments MappedMachine {_ V}. Arguments mm_kernel {_ V}. Arguments mm_user {_ V}. Arguments mm_brk {_ V}.

Section machine.
Context `{BO : BioOps} `{LC : LinuxConst} `{MO : MmOps} `{EN : Environment} `{ME : MapEnvironment}.
Context {V : Type} `{SO : Store V}.
Existing Instance ubuf_iov.
Abbreviation W := (mapped_machine V).

(** The memory of the process: the area lies over its own. *)
Definition process_view (s : W) : memory := area_memory (mm_kernel s) ∪ v_mem (mm_user s).

Definition on_module {A} (m : ST mstate A) : ST W A := fun s =>
  match m (mm_kernel s) with
  | Ret (a, k) => Ret (a, MappedMachine k (mm_user s) (mm_brk s))
  | Fault e => Fault e
  | NoFuel => NoFuel
  end.

(** An operation of the driver runs on the memory the process sees.  Where it
    changed the area, its stores go to the kernel's pages when it ends; a store
    to a read-only page is a fault. *)
Definition changed (before after : memory) (s : mstate) : list Z :=
  filter (fun a => after !! a <> before !! a) (fst <$> area_bytes s).
Definition on_driver {A} (m : ST V A) : ST W A := fun s =>
  match m (v_set_mem (fun _ => process_view s) (mm_user s)) with
  | Ret (a, v) =>
      let addrs := changed (process_view s) (v_mem v) (mm_kernel s) in
      match user_stores addrs ((fun a => default 0 (v_mem v !! a)) <$> addrs) (mm_kernel s) with
      | Ret (_, k) => Ret (a, MappedMachine k v (mm_brk s))
      | Fault e => Fault e
      | NoFuel => NoFuel
      end
  | Fault e => Fault e
  | NoFuel => NoFuel
  end.

Definition alloc_mapped (n : Z) : ST W Z := fun s =>
  Ret (mm_brk s, MappedMachine (mm_kernel s) (mm_user s) (mm_brk s + Z.max 1 n)).
(** A fresh range of whole pages. *)
Definition alloc_pages (n : Z) : ST W Z := fun s =>
  let start := PAGE_SIZE * (mm_brk s / PAGE_SIZE + 1) in
  Ret (start, MappedMachine (mm_kernel s) (mm_user s) (start + n)).
Definition view_memory (s : W) : user_mem := fun a n => mem_read (process_view s) a n.

(** The buffer of the library is outside the area. *)
#[export] Instance mapped_process : Process W := {|
  proc_mem := process_view;
  set_proc_mem f s := MappedMachine (mm_kernel s) (v_set_mem (fun _ => f (process_view s)) (mm_user s)) (mm_brk s);
  sys_read fd n :=
    res ← on_module (bius_dev_read_mapped fd env_pad1 env_pad2 [] (mapped_buf (Z.to_nat n) []));
    mret (syscall_result res.1, ub_out res.2 : list Z);
  sys_write fd bs :=
    um ← gets view_memory;
    r ← on_module (bius_dev_write_mapped env_zero_pfn um env_create fd [] (mapped_buf (length bs) bs));
    mret (syscall_result r);
  sys_open :=
    fd ← alloc_mapped 1;
    r ← on_module (bius_dev_open_mapped (Some fd) (env_reserved fd));
    mret (if r <? 0 then -1 else fd);
  mmap fd len :=
    start ← alloc_pages len;
    r ← on_module (bius_dev_mmap env_zero_pfn fd start (start + len));
    mret (if r <? 0 then MAP_FAILED else start);
  aligned_alloc _ n := alloc_pages n;
  malloc := alloc_mapped;
  free _ := mret tt;
  pthread_create _ := mret 11;
  pthread_join _ := mret 0 |}.

(** The operations of a driver whose state is [V], run by the process. *)
Definition mapped_ops (ops : bius_operations V) : bius_operations W :=
  Operations ((fun f data offset length => on_driver (f data offset length)) <$> op_read ops)
    ((fun f data offset length => on_driver (f data offset length)) <$> op_write ops)
    ((fun f offset length => on_driver (f offset length)) <$> op_discard ops)
    (on_driver <$> op_flush ops)
    ((fun f offset nr_zones zones => on_driver (f offset nr_zones zones)) <$> op_report_zones ops)
    ((fun f offset => on_driver (f offset)) <$> op_open_zone ops)
    ((fun f offset => on_driver (f offset)) <$> op_close_zone ops)
    ((fun f offset => on_driver (f offset)) <$> op_finish_zone ops)
    ((fun f data offset length first => on_driver (f data offset length first)) <$> op_append_zone ops)
    ((fun f offset => on_driver (f offset)) <$> op_reset_zone ops)
    (on_driver <$> op_reset_all_zone ops).

Lemma wp_on_module {A} (m : ST mstate A) (Q : A -> W -> Prop) s :
  wp m (fun a k => Q a (MappedMachine k (mm_user s) (mm_brk s))) (mm_kernel s) -> wp (on_module m) Q s.
Proof. unfold wp, on_module. by destruct (m (mm_kernel s)) as [[a k]| |]. Qed.

Lemma changed_none before s : changed before before s = [].
Proof. unfold changed. induction (fst <$> area_bytes s) as [|a l IH]; [done|]. by rewrite filter_cons_False by (by intros []). Qed.

Lemma wp_on_driver {A} (m : ST V A) (Q : A -> W -> Prop) s :
  wp m (fun a v => exists k,
    (let addrs := changed (process_view s) (v_mem v) (mm_kernel s) in
     user_stores addrs ((fun x => default 0 (v_mem v !! x)) <$> addrs) (mm_kernel s)) = Ret (tt, k) /\
    Q a (MappedMachine k v (mm_brk s))) (v_set_mem (fun _ => process_view s) (mm_user s)) ->
  wp (on_driver m) Q s.
Proof.
  unfold wp, on_driver. destruct (m _) as [[a v]| |]; [|done..]. cbv zeta. intros (k & -> & HQ). exact HQ.
Qed.
(** An operation that leaves the memory alone. *)
Lemma wp_on_driver_pure {A} (m : ST V A) (Q : A -> W -> Prop) s :
  wp m (fun a v => v_mem v = process_view s /\ Q a (MappedMachine (mm_kernel s) v (mm_brk s)))
    (v_set_mem (fun _ => process_view s) (mm_user s)) -> wp (on_driver m) Q s.
Proof.
  intros Hm. apply wp_on_driver. eapply wp_mono; [exact Hm|]. intros a v [Hv HQ]. exists (mm_kernel s).
  split; [|done]. by rewrite Hv, changed_none.
Qed.
End machine.

(** ** What the process sees and does *)
Section driver.
Context `{BL : BioLaws} `{LC : LinuxConst} `{ML : MmLaws} `{EN : Environment} `{ME : MapEnvironment}.
Context {V : Type} `{BK : BackingLaws V}.
Existing Instance ubuf_iov.
Implicit Types s : mapped_machine V.

Lemma view_area s a b :
  aligned_table (page_table (mm_kernel s)) -> user_byte (mm_kernel s) a = Some b -> process_view s !! a = Some b.
Proof. intros Hal Hb. unfold process_view. apply lookup_union_Some_l. by rewrite area_memory_lookup. Qed.
Lemma view_gather s l bs :
  aligned_table (page_table (mm_kernel s)) -> user_byte (mm_kernel s) <$> l = Some <$> bs ->
  mem_gather (process_view s) l = bs.
Proof.
  intros Hal. revert bs. induction l as [|a l IH]; intros [|b bs]; try done.
  rewrite !fmap_cons. intros [= Hb Hl]. change (mem_gather _ (a :: l)) with (default 0 (process_view s !! a) :: mem_gather (process_view s) l).
  rewrite (view_area s a b) by done. f_equal. by apply IH.
Qed.
Lemma view_overlaid (k : mstate) v brk s :
  area_memory k = area_memory (mm_kernel s) -> v_mem v = process_view s ->
  process_view (MappedMachine k v brk) = process_view s.
Proof.
  intros Hk Hv. unfold process_view; cbn [mm_kernel mm_user]. rewrite Hk, Hv. unfold process_view.
  by rewrite (assoc_L (∪)), (idemp_L (∪)).
Qed.

(** *** Writing out of the area *)
Context (ops : bius_operations V).
Hypothesis Hwrite : op_write ops = Some drv_write.

(** The state after [n] bytes at the addresses [l] were written at [offset]. *)
Definition written s (offset : Z) (l : list Z) (res : Z * Z) s' (ud : Z) : Prop :=
  res = (BLK_STS_OK, ud) /\ mm_kernel s' = mm_kernel s /\ mm_brk s' = mm_brk s /\ process_view s' = process_view s /\
  v_disk (mm_user s') = mem_write (v_disk (mm_user s)) offset (mem_gather (process_view s) l).

Lemma write_one a n offset ud s :
  0 <= offset -> 0 < n -> offset + n <= backing_size ->
  wp (r ← call ((fun f => f a offset n) <$> op_write (mapped_ops ops)); mret (r, ud))
    (fun res s' => written s offset (seqZ a n) res s' ud) s.
Proof.
  intros Ho Hn Hend. cbn [mapped_ops op_write]. rewrite Hwrite. cbn [fmap option_fmap option_map call].
  apply wp_bind, wp_bind, wp_on_driver_pure. eapply wp_mono; [by apply drv_write_ok|].
  intros r v (-> & Hm & Hd). rewrite v_mem_set in Hm, Hd. rewrite v_disk_set in Hd. split; [done|].
  repeat apply wp_ret. unfold written; cbn [mm_kernel mm_brk mm_user]. split_and!; [done|done|done| |].
  - by apply view_overlaid.
  - by rewrite Hd, mem_gather_seqZ.
Qed.

Lemma written_app s s1 s2 offset n l1 l2 res1 res2 ud :
  written s offset l1 res1 s1 ud -> n = Z.of_nat (length l1) -> written s1 (offset + n) l2 res2 s2 ud ->
  written s offset (l1 ++ l2) res2 s2 ud.
Proof.
  intros (_ & Hk & Hb & Hv & Hd) -> (-> & Hk' & Hb' & Hv' & Hd'). split_and!; [done|congruence..|].
  rewrite Hd', Hv, Hd, mem_gather_app, mem_write_app. by rewrite length_mem_gather.
Qed.

Lemma total_cons e es : 0 < e.2 ->
  Z.of_nat (length (extents (e :: es))) = e.2 + Z.of_nat (length (extents es)).
Proof. intros. rewrite fmap_cons. cbn [concat]. rewrite length_app, length_seqZ. lia. Qed.

(** The library goes through a list that is in the area as well. *)
Lemma write_list h segs fuel done rest offset first ud s :
  segs = done ++ rest -> (length rest < fuel)%nat -> k2u_opcode h = BIUS_WRITE ->
  Forall segment_wf segs -> Forall (fun e => 0 < e.2) segs ->
  holds_segments (process_view s) (k2u_mapping_data h) segs ->
  0 <= offset -> offset + Z.of_nat (length (extents rest)) <= backing_size ->
  wp (datamap_list_loop fuel h (mapped_ops ops) (Z.of_nat (length done)) offset first ud)
    (fun res s' => written s offset (extents rest) res s' ud) s.
Proof.
  intros Hsegs Hfuel Hop Hwf Hpos. pose proof backing_size_range as Hbs.
  revert fuel done offset first s Hsegs Hfuel.
  induction rest as [|sg rest IH]; intros [|fuel] done offset first s Hsegs Hfuel Hm Ho Hend; cbn [length] in Hfuel; try lia;
    cbn [datamap_list_loop].
  - apply wp_bind. eapply wp_intro; [apply load_end; rewrite app_nil_r in Hsegs; by rewrite <- Hsegs|].
    apply wp_ret. by split_and!.
  - assert (sg ∈ segs) as Hin by (rewrite Hsegs; apply elem_of_app; right; by left).
    eapply Forall_forall in Hpos as Hn; [|exact Hin]. eapply Forall_forall in Hwf as Hsg; [|exact Hin]. cbv beta in Hn.
    rewrite total_cons in Hend by done.
    destruct (load_segment s (k2u_mapping_data h) done sg rest) as [Hld1 Hld2]; [by rewrite <- Hsegs|done|].
    apply wp_bind. eapply wp_intro; [exact Hld1|]. destruct (Z.eqb_spec sg.1 0) as [Hz|_]; [destruct Hsg; lia|].
    apply wp_bind. eapply wp_intro; [exact Hld2|]. rewrite Hop.
    apply wp_bind. eapply wp_mono; [apply write_one; [done|done|lia]|].
    intros res s1 Hw1. pose proof Hw1 as (-> & Hk & _ & Hv & _). cbn [fst snd]. change (negb (BLK_STS_OK =? BLK_STS_OK)) with false.
    cbv iota. rewrite (swrap_small 64) by lia.
    replace (Z.of_nat (length done) + 1) with (Z.of_nat (length (done ++ [sg]))) by (rewrite length_app; simpl; lia).
    eapply wp_mono; [apply IH; [by rewrite <- app_assoc|lia|by rewrite Hv|lia|lia]|].
    intros res s2 Hw2. rewrite fmap_cons. cbn [concat].
    eapply written_app; [exact Hw1| |exact Hw2]. rewrite length_seqZ. lia.
Qed.

(** A write whose header names [es]. *)
Lemma handle_write h es s :
  aligned_table (page_table (mm_kernel s)) -> header_names (mm_kernel s) h es -> k2u_opcode h = BIUS_WRITE ->
  Forall segment_wf es -> Forall (fun e => 0 < e.2) es -> Z.of_nat (length es) <= BIUS_PTES_PER_COMMAND ->
  0 <= s64 (k2u_offset h) -> s64 (k2u_offset h) + Z.of_nat (length (extents es)) <= backing_size ->
  wp (handle_blk_command h (mapped_ops ops) 0) (fun res s' => written s (s64 (k2u_offset h)) (extents es) res s' 0) s.
Proof.
  intros Hal [[Hmt ->]|[Hmt Hlist]] Hop Hwf Hpos Hlen Ho Hend; unfold handle_blk_command; rewrite Hmt.
  - change (_ =? _) with false. cbv iota. rewrite Hop. apply Forall_cons in Hpos as [Hn _]. cbn [fst snd] in Hn.
    rewrite extents_one in *. apply write_one; [done|done|]. rewrite length_seqZ in Hend. lia.
  - change (_ =? _) with true. cbv iota. unfold handle_blk_command_with_datamap_list, datamap_fuel.
    apply (write_list h es _ [] es); [done|lia|done|done|done| |done|done].
    unfold holds_segments. rewrite <- mem_gather_seqZ. by apply view_gather.
Qed.
End driver.

(** ** What the layout of a request gives the library *)
Lemma user_ranges_in ps base x :
  Forall page_shape ps -> x ∈ user_ranges base ps -> base <= x < area_end base ps.
Proof.
  intros Hsh. revert base. unfold area_end. induction Hsh as [|p ps Hp _ IH]; intros base Hx; [by apply elem_of_nil in Hx|].
  cbn [user_ranges length] in *. destruct (page_range p Hp). unfold PAGE_SIZE in *.
  apply elem_of_app in Hx as [Hx%elem_of_seqZ|Hx]; [lia|]. apply IH in Hx. lia.
Qed.

Section layout.
Context `{BO : BioOps} `{MO : MmOps} (mc : map_conn) (start : Z) (segs : list bio_vec).
Hypothesis Hready : map_ready mc start.
Hypothesis Hfit : segments_fit start mc segs.
Let l := lay_all start segs.

Lemma layout_below : area_end start (l_pages l) < 2 ^ 64.
Proof.
  destruct (mr_start _ _ Hready) as (_ & _ & Hend). pose proof (sf_pages _ _ _ Hfit) as Hp. fold l in Hp.
  unfold area_end, PAGE_SIZE in *. lia.
Qed.
Lemma entries_segments : Forall segment_wf (l_entries l) /\ Forall (fun e => 0 < e.2) (l_entries l).
Proof.
  pose proof (sf_ok _ _ _ Hfit) as Hok. destruct (lay_all_ok start segs Hok) as [_ Hr Hs _]. fold l in Hr, Hs.
  pose proof (lay_all_shape start segs Hok) as Hsh. fold l in Hsh. destruct (mr_start _ _ Hready) as (Hst & _ & _).
  pose proof layout_below as Hbelow. rewrite !Forall_forall in *. split; intros e He; destruct (Hs e He) as [Hge Hpos]; [|done].
  assert (e.1 + e.2 - 1 ∈ extents (l_entries l)) as Hin.
  { apply elem_of_concat_fmap. exists e. split; [done|]. apply elem_of_seqZ. lia. }
  rewrite Hr in Hin. apply user_ranges_in in Hin; [|by apply Forall_forall]. unfold segment_wf. lia.
Qed.

(** Mapping a request keeps the pages of the table aligned. *)
Lemma mapped_aligned w s0 n s :
  mapped mc start w s0 l n s ->
  aligned_table (page_table s0) -> aligned_table (page_table s).
Proof.
  intros Hm Hal p Hp. destruct (mr_start _ _ Hready) as (_ & Hmod & _).
  destruct (decide (Exists (fun i => p = start + PAGE_SIZE * i) (seqZ 0 n))) as [Hex|Hne].
  - apply Exists_exists in Hex as (i & _ & ->). rewrite (Z.mul_comm PAGE_SIZE), Z.mod_add by done. exact Hmod.
  - apply Hal. rewrite <- (md_table _ _ _ _ _ _ _ Hm); [done|]. intros i Hi ->. apply Hne, Exists_exists.
    exists i. split; [apply elem_of_seqZ; lia|done].
Qed.
Lemma described_aligned w s0 b s :
  described mc start w s0 l b s -> aligned_table (page_table s0) -> aligned_table (page_table s).
Proof.
  intros Hd. destruct (described_mapped mc start _ _ _ _ _ Hd) as [n Hm]. by eapply mapped_aligned.
Qed.
End layout.

(** ** A round of the library *)
Section round.
Context `{BL : BioLaws} `{LC : LinuxConst} `{ML : MmLaws} `{EN : Environment} `{ME : MapEnvironment}.
Context {V : Type} `{BK : BackingLaws V}.
Existing Instance ubuf_iov.
Implicit Types s : mapped_machine V.
Context (mc : map_conn) (start : Z).

(** A large request of type [t] is the next that connection [c] takes. *)
Record next_large (t : bius_req) s (c dev : Z) (k : Z) (rest : list Z) (conn : bius_connection)
    (d : bius_block_device) (r : bius_request) (b : blk_part) (rq : request) : Prop := {
  nl_request : large_request env_zero_pfn mc start t c dev k rest conn d r b rq (mm_kernel s);
  nl_reserved : reserved_count (l_pages (lay_all start (rq_for_each_segment rq))) <= BIUS_MAX_SEGMENTS;
  nl_table : aligned_table (page_table (mm_kernel s));
  nl_canonical : req_canonical t;
  nl_id : 0 <= req_id r < 2 ^ 64;
  nl_range : 0 <= req_pos r /\ req_pos r + req_length r < 2 ^ 63 }.

Context s (c dev k : Z) (rest : list Z) (conn : bius_connection) (d : bius_block_device) (r : bius_request)
  (b : blk_part) (rq : request) (t : bius_req).
Hypothesis Hnl : next_large t s c dev k rest conn d r b rq.
Hypothesis Hdata : request_may_have_data t = true.
Let segs := rq_for_each_segment rq.
Let l := lay_all start segs.

Lemma map_header_wf b' (k1 : mstate) :
  described mc start (request_is_write t) (mm_kernel s) l b' k1 -> k2u_wf (map_header start r b').
Proof.
  intros Hd. pose proof Hnl as [[_ Hq Hfit Hty _ _ _ _] _ _ Hcan Hid _]. pose proof Hq as [_ _ Hready _ _ _ _].
  pose proof (layout_below mc start segs Hready Hfit) as Hb. fold l in Hb. pose proof (area_end_ge start (l_pages l)).
  destruct (mr_start _ _ Hready) as (Hst & _).
  assert (0 <= b_map_data b' < 2 ^ 64) as Hmd by (destruct Hd; unfold PAGE_SIZE in *; lia).
  assert (- 2 ^ 31 <= data_map_type_value (b_map_type b') < 2 ^ 31) as Hmt by (by destruct (b_map_type b')).
  unfold k2u_wf, map_header; cbn [k2u_id k2u_opcode k2u_offset k2u_length k2u_data_address k2u_mapping_data k2u_data_map_type].
  rewrite Hty. pose proof (wrap_range 64 (req_pos r)). pose proof (wrap_range 64 (req_length r)). split_and!; try lia; apply Hcan.
Qed.

(** The library receives the header of the mapped request. *)
Lemma read_command_mapped header :
  wp (read_command c header) (fun res s1 => exists b', res = (sizeof_k2u, map_header start r b') /\
    mm_user s1 = mm_user s /\ taken_kernel c dev k rest conn d r b' (mm_kernel s) (mm_kernel s1) /\
    described mc start (request_is_write t) (mm_kernel s) l b' (mm_kernel s1)) s.
Proof.
  pose proof Hnl as [[Htk Hq Hfit Hty [Hlen _] _ _ _] Hres _ _ _ _].
  unfold read_command. apply wp_bind. unfold sys_read, mapped_process. apply wp_bind, wp_on_module.
  eapply wp_mono.
  { apply (bius_dev_read_mapped_spec mc start c dev k rest conn d r b rq (mm_kernel s) env_pad1 env_pad2 [] (mapped_buf 56 []));
      try done; [by rewrite Hty|apply env_pad1_length|apply env_pad2_length]. }
  intros [n to] ks (Hn & b' & Hrcv & Hmk & Hd). cbn [fst snd] in *. rewrite Hty in Hd.
  apply wp_ret. rewrite Hn. cbn [Datatypes.fst Datatypes.snd]. apply wp_ret. exists b'. split; [|done]. cbn [fst snd].
  change (ub_out to) with (iov_received to). rewrite Hrcv.
  change (iov_received (mapped_buf 56 [])) with (@nil Z). rewrite app_nil_l.
  rewrite k2u_of_bytes_bytes; [done|apply env_pad1_length|apply env_pad2_length|by eapply map_header_wf].
Qed.

(** It leaves a mapped request's header as it is. *)
Lemma handle_copy_in_mapped h buffer room (Q : exec bius_k2u_header -> mapped_machine V -> Prop) s1 :
  k2u_data_map_type h <> data_map_type_value BIUS_DATAMAP_UNMAPPED ->
  Q (Go h) s1 -> wp (handle_copy_in c h buffer room) Q s1.
Proof.
  intros Hne HQ. unfold handle_copy_in. destruct (Z.eqb_spec (k2u_data_map_type h) (data_map_type_value BIUS_DATAMAP_UNMAPPED)); [done|].
  by rewrite andb_false_r.
Qed.

(** A round, from what the driver is called for and the answer to it. *)
Lemma mapped_round ops buffer room ls (Q : exec locals -> mapped_machine V -> Prop) :
  is_blk_request t = true ->
  (forall s1 b', mm_user s1 = mm_user s -> taken_kernel c dev k rest conn d r b' (mm_kernel s) (mm_kernel s1) ->
     described mc start (request_is_write t) (mm_kernel s) l b' (mm_kernel s1) ->
     aligned_table (page_table (mm_kernel s1)) -> header_names (mm_kernel s1) (map_header start r b') (l_entries l) ->
     wp (handle_blk_command (map_header start r b') ops 0) (fun res s2 =>
       wp (sys_write c (u2k_bytes (u2k_with_reply (req_id r) res.1 res.2))) (fun n s3 =>
         n = sizeof_u2k /\ forall ls', Q (Go ls') s3) s2) s1) ->
  wp (handle_request c ops buffer room ls) Q s.
Proof.
  intros Hblk Hdrv. pose proof Hnl as [[_ Hq Hfit Hty [Hlen Hext] _ Hclean _] _ Hal _ _ [Hpos Hend]].
  pose proof Hq as [_ _ Hready _ _ _ _]. unfold handle_request.
  apply wp_pbind_lift. eapply wp_mono; [apply read_command_mapped|]. intros res s1 (b' & -> & Hu & Hmk & Hd).
  cbn [fst snd Datatypes.fst Datatypes.snd]. change (sizeof_k2u <? 0) with false. cbv iota.
  apply wp_pbind, handle_copy_in_mapped; [destruct Hd as [? E|? E]; cbn [map_header k2u_data_map_type]; by rewrite E|].
  apply wp_pbind_lift. unfold prepare_reply. cbn [map_header k2u_opcode]. rewrite Hty, Hblk.
  apply wp_bind. eapply wp_mono.
  { apply (Hdrv s1 b'); try done.
    - by eapply (described_aligned mc start segs Hready).
    - eapply (described_header mc start _ _ segs); try done; try apply Hfit.
      + rewrite Hext. unfold segs. by rewrite rq_segments_extent.
      + change (2 ^ 64) with (2 * 2 ^ 63). lia. }
  intros [st ud] s2 Hw. apply wp_ret. cbn [fst snd Datatypes.fst Datatypes.snd] in *. apply finish_round; [done|].
  eapply wp_mono; [exact Hw|]. intros n s3 [-> HQ]. by split.
Qed.
End round.
