(* ===== verification/MappedEndToEnd.v ===== *)
(** * From the block layer to the disk of the driver, with data mapping

    One round of the library takes a large request between the client's memory
    and the driver's disk: the module maps the client's pages, the driver works
    on them where they are, and the reply unmaps them. *)
From S2P Require Import Prelude Protocol Linux Kernel Sample Command BlockDev CharDev CharDevProps.
From S2P Require Import LibBius LibBiusProps DataMapping PageLayout MappingProps MappingSample MappedIO MappedReply MappedFaults.
From S2P Require Import Backing Machine MappedMachine RamDisk EndToEnd.

Lemma reply_wf id st ud : 0 <= id < 2 ^ 64 -> 0 <= ud < 2 ^ 64 -> u2k_wf (u2k_with_reply id st ud).
Proof.
  intros. unfold u2k_wf, u2k_with_reply; cbn [u2k_id u2k_cell u2k_user_data].
  pose proof (wrap_range 64 st ltac:(lia)). by split_and!; try lia.
Qed.

(** ** Storing by way of the page table *)
Lemma scatter_fmap m (f g : Z -> Z) (l : list Z) a :
  (forall u v, u ∈ l -> v ∈ l -> f u = f v -> g u = g v) -> a ∈ l -> scatter m (f <$> l) (g <$> l) !! f a = Some (g a).
Proof.
  revert m a. induction l as [|u l IH]; intros m a Hinj Ha; [by apply elem_of_nil in Ha|].
  rewrite !fmap_cons. cbn [scatter]. assert (forall v, v ∈ l -> scatter (<[f u:=g u]> m) (f <$> l) (g <$> l) !! f v = Some (g v)) as Htl.
  { intros v Hv. apply IH; [|done]. intros x y Hx Hy. apply Hinj; by right. }
  apply elem_of_cons in Ha as [->|Ha]; [|by apply Htl].
  destruct (decide (f u ∈ f <$> l)) as [(v & Hfv & Hv)%list_elem_of_fmap|Hn].
  - pose proof (Htl v Hv) as E. rewrite <- Hfv in E. rewrite E. f_equal. apply Hinj; [by right|by left|done].
  - rewrite scatter_outside by done. apply lookup_insert_eq.
Qed.

Section store_back.
Context `{BO : BioOps} `{MO : MmOps}.

(** The bytes [bs] a driver stored from [a] on arrive at the kernel addresses
    [ks] behind the area, where its stores change something. *)
Lemma store_back (k : mstate) (before : memory) a bs ks :
  aligned_table (page_table k) -> store_addr k <$> seqZ a (Z.of_nat (length bs)) = Some <$> ks -> NoDup ks ->
  (forall x v, user_byte k x = Some v -> before !! x = Some v) ->
  let after := mem_write before a bs in
  let addrs := changed before after k in
  exists m, user_stores addrs ((fun x => default 0 (after !! x)) <$> addrs) k = Ret (tt, set_mem (fun _ => m) k) /\
    mem_gather m ks = bs /\ forall x, x ∉ ks -> m !! x = mem_of k !! x.
Proof.
  intros Hal Hks Hnd Hbefore after addrs. set (f := fun x => default 0 (store_addr k x)).
  set (g := fun x => default 0 (after !! x)).
  assert (forall i : nat, (i < length bs)%nat -> exists x, ks !! i = Some x /\ store_addr k (a + Z.of_nat i) = Some x /\
    after !! (a + Z.of_nat i) = bs !! i /\ before !! (a + Z.of_nat i) = Some (default 0 (mem_of k !! x))) as Hat.
  { intros i Hi. pose proof (f_equal (.!! i) Hks) as Hx. rewrite !list_lookup_fmap, lookup_seqZ_lt in Hx by lia. simpl in Hx.
    destruct (ks !! i) as [x|] eqn:Hxi; [|done]. injection Hx as Hx. exists x. split_and!; [done|done| |].
    - unfold after. rewrite mem_write_lookup. case_decide; [|lia]. f_equal. lia.
    - apply Hbefore. unfold user_byte. by rewrite (store_addr_kernel _ _ _ Hx). }
  assert (forall x, x ∈ addrs -> exists i : nat, (i < length bs)%nat /\ x = a + Z.of_nat i) as Hin.
  { intros x [Hx _]%list_elem_of_filter. unfold after in Hx. rewrite mem_write_lookup in Hx. case_decide; [|done].
    exists (Z.to_nat (x - a)). lia. }
  assert (forall i j : nat, (i < length bs)%nat -> (j < length bs)%nat -> f (a + Z.of_nat i) = f (a + Z.of_nat j) -> i = j) as Hinj.
  { intros i j Hi Hj. destruct (Hat i Hi) as (x & Hxi & Hsx & _). destruct (Hat j Hj) as (y & Hyj & Hsy & _).
    unfold f. rewrite Hsx, Hsy. simpl. intros ->. eapply NoDup_lookup; [exact Hnd|done|done]. }
  exists (scatter (mem_of k) (f <$> addrs) (g <$> addrs)). split; [|split].
  - rewrite (user_stores_spec _ (f <$> addrs)); [by destruct k as [[] ? ?]|].
    rewrite <- list_fmap_compose. apply list_fmap_ext. intros i x Hx. apply list_elem_of_lookup_2, Hin in Hx as (j & Hj & ->).
    destruct (Hat j Hj) as (y & _ & Hy & _). unfold f. simpl. by rewrite Hy.
  - apply list_eq. intros i. unfold mem_gather. rewrite list_lookup_fmap.
    destruct (decide (i < length bs)%nat) as [Hi|Hi].
    2:{ rewrite !lookup_ge_None_2; [done|lia|].
        apply (f_equal length) in Hks. rewrite !length_fmap, length_seqZ in Hks. lia. }
    destruct (Hat i Hi) as (x & Hx & Hsx & Haf & Hbe). rewrite Hx. destruct (lookup_lt_is_Some_2 bs i Hi) as [b Hb].
    assert (x = f (a + Z.of_nat i)) as Hfx by (unfold f; by rewrite Hsx). rewrite Hb in *. simpl. f_equal.
    destruct (decide (a + Z.of_nat i ∈ addrs)) as [Ha|Ha].
    + rewrite Hfx, scatter_fmap; [unfold g; by rewrite Haf| |done].
      intros u v (i1 & Hi1 & ->)%Hin (i2 & Hi2 & ->)%Hin Hf. by rewrite (Hinj i1 i2).
    + rewrite scatter_outside.
      * assert (after !! (a + Z.of_nat i) = before !! (a + Z.of_nat i)) as E; [|rewrite Haf, Hbe in E; by injection E].
        destruct (decide (after !! (a + Z.of_nat i) = before !! (a + Z.of_nat i))) as [|Hne]; [done|]. destruct Ha.
        apply list_elem_of_filter. split; [done|]. apply list_elem_of_fmap. exists (a + Z.of_nat i, default 0 (mem_of k !! x)).
        split; [done|]. apply elem_of_area_bytes; [done|]. unfold user_byte. by rewrite (store_addr_kernel _ _ _ Hsx).
      * intros (y & Hy & Hyin)%list_elem_of_fmap. destruct (Hin y Hyin) as (j & Hj & ->).
        rewrite Hfx in Hy. by rewrite (Hinj i j Hi Hj Hy) in Ha.
  - intros x Hx. apply scatter_outside. intros (y & -> & (i & Hi & ->)%Hin)%list_elem_of_fmap.
    destruct (Hat i Hi) as (z & Hz & Hs & _). apply Hx. unfold f. rewrite Hs. by eapply list_elem_of_lookup_2.
Qed.
End store_back.

(** ** One request *)
Section one_request.
Context `{BL : BioLaws} `{LC : LinuxConst} `{ML : MmLaws} `{EN : Environment} `{ME : MapEnvironment}.
Context {V : Type} `{BK : BackingLaws V}.
Context (ops : bius_operations V).
Existing Instance ubuf_iov.
Implicit Types s : mapped_machine V.
Context (mc : map_conn) (start : Z).

(** The driver serves reads and writes. *)
Hypothesis Hread : op_read ops = Some drv_read.
Hypothesis Hwrite : op_write ops = Some drv_write.

Lemma sys_write_mapped c h s (Q : Z -> mapped_machine V -> Prop) :
  wp (bius_dev_write_mapped env_zero_pfn (view_memory s) env_create c [] (mapped_buf 24 (u2k_bytes h)))
    (fun r k => Q (syscall_result r) (MappedMachine k (mm_user s) (mm_brk s))) (mm_kernel s) ->
  wp (sys_write c (u2k_bytes h)) Q s.
Proof.
  intros Hw. unfold sys_write, mapped_process. apply wp_bind, wp_gets, wp_bind, wp_on_module.
  assert (length (u2k_bytes h) = 24%nat) as ->.
  { pose proof (length_u2k_bytes h) as Hl. unfold sizeof_u2k in Hl. lia. }
  eapply wp_mono; [exact Hw|]. intros r k HQ. by apply wp_ret.
Qed.

Lemma mapped_write_round s c dev k rest conn d r b rq buffer room ls :
  next_large mc start BIUS_WRITE s c dev k rest conn d r b rq -> req_pos r + req_length r <= backing_size ->
  wp (handle_request c (mapped_ops ops) buffer room ls) (fun res s' =>
    (exists ls', res = Go ls') /\
    v_disk (mm_user s') = mem_write (v_disk (mm_user s)) (req_pos r) (mem_gather (mem_of (mm_kernel s)) (rq_extent rq)) /\
    (forall x, ~ in_reserved_pages mc x -> mem_of (mm_kernel s') !! x = mem_of (mm_kernel s) !! x) /\
    served_mapped c dev k rest conn d BLK_STS_OK (mm_kernel s) (mm_kernel s')) s.
Proof.
  intros Hnl Hdisk. pose proof Hnl as [Hlr _ _ _ Hid [Hpos Hend]].
  pose proof Hlr as [_ Hq Hfit Hty [Hlen Hext] _ _ _]. pose proof Hq as [_ _ Hready _ _ _ _].
  destruct (entries_segments mc start _ Hready Hfit) as [Hwf Hsz].
  destruct (lay_all_ok start _ (sf_ok _ _ _ Hfit)) as [_ Hr _ _]. rewrite <- rq_segments_extent in Hext |- *.
  set (l := lay_all start (rq_for_each_segment rq)) in *.
  assert (Z.of_nat (length (extents (l_entries l))) = req_length r) as Htot.
  { rewrite Hr, length_extents. destruct (lay_all_ok start _ (sf_ok _ _ _ Hfit)) as [Ha _ _ _]. fold l in Ha. by rewrite Ha, Hext. }
  eapply (mapped_round mc start s c dev k rest conn d r b rq BIUS_WRITE Hnl); [done|done|].
  intros s1 b' Hu Hmk Hd Hal Hnames. fold l in Hd, Hnames. cbn [request_is_write] in Hd.
  assert (s64 (k2u_offset (map_header start r b')) = req_pos r) as Hoff.
  { cbn [map_header k2u_offset]. rewrite swrap_wrap. apply swrap_small; lia. }
  assert (0 <= BIUS_MAP_DATA_THRESHOLD) by done.
  eapply wp_mono.
  { eapply handle_write; [exact Hwrite|exact Hal|exact Hnames|exact Hty|exact Hwf|exact Hsz| |rewrite Hoff; lia|rewrite Hoff, Htot; exact Hdisk].
    pose proof (sf_entries _ _ _ Hfit) as He. fold l in He. unfold BIUS_MAX_SEGMENTS in He.
    assert (256 <= BIUS_PTES_PER_COMMAND) by done. lia. }
  intros res s2 (-> & Hk & _ & Hv & Hdk). cbn [fst snd Datatypes.fst Datatypes.snd] in *. rewrite Hoff, Hu in Hdk.
  apply sys_write_mapped. rewrite Hk. eapply wp_mono.
  { apply (mapped_write_answered env_zero_pfn mc start _ _ c dev k rest conn d r b b' rq (mm_kernel s) (mm_kernel s1) [] _
      (u2k_with_reply (req_id r) BLK_STS_OK 0)); [exact Hlr| |done|exact Hmk|by rewrite Hty].
    apply reply_writes, reply_wf; [exact Hid|]. by vm_compute. }
  intros n ks (-> & Hmem & Hsv). split; [done|]. intros ls'. cbn [mm_kernel mm_user].
  destruct (described_mapped mc start _ _ _ _ _ Hd) as [m Hm].
  split_and!; [by eexists| | |exact Hsv].
  - rewrite Hdk. f_equal. eapply view_gather; [done|]. by eapply described_payload; try done; apply Hfit.
  - intros x Hx. rewrite Hmem. by apply (md_mem _ _ _ _ _ _ _ Hm).
Qed.

Lemma mapped_read_round s c dev k rest conn d r b rq e buffer room ls :
  next_large mc start BIUS_READ s c dev k rest conn d r b rq -> req_pos r + req_length r <= backing_size ->
  NoDup (rq_extent rq) -> l_entries (lay_all start (rq_for_each_segment rq)) = [e] ->
  wp (handle_request c (mapped_ops ops) buffer room ls) (fun res s' =>
    (exists ls', res = Go ls') /\
    mem_gather (mem_of (mm_kernel s')) (rq_extent rq) = mem_read (v_disk (mm_user s)) (req_pos r) (req_length r) /\
    (forall x, x ∉ rq_extent rq -> ~ in_reserved_pages mc x -> mem_of (mm_kernel s') !! x = mem_of (mm_kernel s) !! x) /\
    v_disk (mm_user s') = v_disk (mm_user s) /\
    served_mapped c dev k rest conn d BLK_STS_OK (mm_kernel s) (mm_kernel s')) s.
Proof.
  intros Hnl Hdisk Hnd Hone. pose proof Hnl as [Hlr _ _ _ Hid [Hpos Hend]].
  pose proof Hlr as [_ Hq Hfit Hty [Hlen Hext] _ _ _]. pose proof Hq as [_ Hvma Hready _ _ _ _].
  pose proof (Build_large_read _ _ _ _ _ _ _ _ _ _ _ _ _ Hlr Hnd) as Hlr'.
  pose proof (sf_ok _ _ _ Hfit) as Hok. destruct (lay_all_ok start _ Hok) as [Ha Hr _ _].
  rewrite <- rq_segments_extent in Hnd, Hext |- *. set (l := lay_all start (rq_for_each_segment rq)) in *.
  assert (0 <= BIUS_MAP_DATA_THRESHOLD) by done.
  eapply (mapped_round mc start s c dev k rest conn d r b rq BIUS_READ Hnl); [done|done|].
  intros s1 b' Hu Hmk Hd Hal Hnames. fold l in Hd, Hnames. cbn [request_is_write] in Hd.
  destruct (described_mapped mc start _ _ _ _ _ Hd) as [m Hm].
  pose proof (lay_all_pages_wf mc start _ _ _ _ _ Hok (sf_apart _ _ _ Hfit) Hnd Hm) as Hwf. fold l in Hwf.
  set (ks := concat (page_kernel mc <$> l_pages l)).
  assert (length ks = length (concat (bv_addrs <$> rq_for_each_segment rq))) as Hks.
  { unfold ks. by rewrite length_pages_kernel, Ha. }
  destruct (mr_start _ _ Hready) as (_ & Hmod & _).
  assert (e = (u64 (start + b_map_data b'), u64 (req_length r)) /\ b_map_type b' = BIUS_DATAMAP_SIMPLE) as [He Hsim].
  { destruct Hd as [? Hmt|? Hmt Hlong]; [|rewrite Hone in Hlong; simpl in Hlong; lia]. split; [|done].
    destruct Hnames as [[_ Hes]|[Hl _]]; [|cbn [map_header k2u_data_map_type] in Hl; by rewrite Hmt in Hl].
    rewrite Hone in Hes. by injection Hes. }
  assert (0 < req_length r) as Hpl by lia.
  rewrite (wrap_small 64 (req_length r)) in He by (change (2 ^ 64) with (2 * 2 ^ 63); lia).
  rewrite Hone, He in Hr. rewrite extents_one in Hr. set (a := u64 _) in *.
  set (bs := mem_read (v_disk (mm_user s)) (req_pos r) (req_length r)).
  assert (Z.of_nat (length bs) = req_length r) as Hbs by (unfold bs; rewrite length_mem_read; lia).
  destruct (store_back (mm_kernel s1) (process_view s1) a bs ks Hal) as (m1 & Hst & Hg & Hout).
  { rewrite Hbs, Hr. apply ranges_kernel; [done|apply Hwf|by eapply mapped_area]. }
  { by apply pages_kernel_nodup. }
  { intros x v. by apply view_area. }
  unfold handle_blk_command. cbn [map_header k2u_data_map_type k2u_opcode k2u_data_address k2u_mapping_data k2u_offset k2u_length].
  rewrite Hsim, Hty. change (data_map_type_value _ =? _) with false. cbv iota. fold a.
  rewrite (wrap_small 64 (req_length r)) by (change (2 ^ 64) with (2 * 2 ^ 63); lia).
  rewrite swrap_wrap, (swrap_small 64 (req_pos r)) by lia.
  cbn [mapped_ops op_read]. rewrite Hread. cbn [fmap option_fmap option_map call].
  apply wp_bind, wp_bind, wp_on_driver. eapply wp_mono; [by apply drv_read_ok|].
  intros st v (-> & Hdv & Hmv). rewrite v_mem_set, v_disk_set, Hu in Hmv. rewrite v_disk_set, Hu in Hdv. fold bs in Hmv.
  exists (set_mem (fun _ => m1) (mm_kernel s1)). split; [by rewrite Hmv|]. apply wp_ret, wp_ret.
  cbn [fst snd Datatypes.fst Datatypes.snd]. apply sys_write_mapped. cbn [mm_kernel mm_user mm_brk].
  destruct (mc_vma mc) as [vma|] eqn:Hv; [|done]. injection Hvma as Hvma. eapply wp_mono.
  { apply (mapped_read_answered env_zero_pfn mc start _ _ c dev k rest conn d r b b' rq (mm_kernel s) (mm_kernel s1) [] _
      (u2k_with_reply (req_id r) BLK_STS_OK a) m1 (fun m => foldl (flush_page mc) m (l_pages l)));
      [exact Hlr'| |done|by vm_compute|exact Hmk|by rewrite Hty|].
    - apply reply_writes, reply_wf; [exact Hid|]. by apply wrap_range.
    - intros s3 [Hc3 Hr3 Hm3].
      eapply (copy_in_simple mc start c k (with_blk r b') b' _ (mm_kernel s) (mm_kernel s1) s3 vma); try done; try apply Hfit.
      + cbn [with_blk req_type]. by rewrite Hty.
      + fold l. by rewrite Hone.
      + intros x Hx. rewrite Hm3. by apply Hout. }
  intros n ks' (-> & Hmem & Hsv). split; [done|]. intros ls'. cbn [mm_kernel mm_user].
  split_and!; [by eexists| | |by rewrite Hdv|exact Hsv].
  - rewrite Hmem, <- Ha. by rewrite flush_all.
  - intros x Hx Hx2. rewrite Hmem, flush_all_outside; [|apply Hwf|by rewrite Ha].
    rewrite Hout; [by apply (md_mem _ _ _ _ _ _ _ Hm)|]. intros Hin.
    destruct (pages_kernel_where mc _ x (pw_shape _ _ Hwf) Hin) as [Hb|(r' & Hr' & Hin')]; [by rewrite Ha in Hb|].
    apply Hx2. eapply reserved_page_region; [|exact Hin']. by apply (pw_range _ _ Hwf).
Qed.
(** C11: With data mapping one round of the library takes a large write to the driver's
    disk, in one stretch of the area or several, if it has at most 256 partly covered pages,
    fewer than 256 entries in its list, and pages that fit the area: the disk holds the
    client's bytes in the order of its segments, no memory changes but the reserved pages of
    the connection, the area shows what it showed before, and the request completes
    successfully, once. *)
Theorem mapped_write_reaches_disk s c dev k rest conn d r b rq buffer room ls :
  next_large mc start BIUS_WRITE s c dev k rest conn d r b rq -> req_pos r + req_length r <= backing_size ->
  wp (handle_request c (mapped_ops ops) buffer room ls) (fun res s' =>
    (exists ls', res = Go ls') /\
    v_disk (mm_user s') = mem_write (v_disk (mm_user s)) (req_pos r) (mem_gather (mem_of (mm_kernel s)) (rq_extent rq)) /\
    (forall x, ~ in_reserved_pages mc x -> mem_of (mm_kernel s') !! x = mem_of (mm_kernel s) !! x) /\
    served_mapped c dev k rest conn d BLK_STS_OK (mm_kernel s) (mm_kernel s')) s.
Proof. apply mapped_write_round. Qed.

(** C12: With data mapping one round takes a large read of one stretch to the
    client: its segments hold the bytes of the driver's disk, which the driver
    stored there or in reserved pages, no memory changes but these segments and the
    reserved pages of the connection, and the request completes successfully, once. *)
Theorem mapped_read_reaches_client s c dev k rest conn d r b rq e buffer room ls :
  next_large mc start BIUS_READ s c dev k rest conn d r b rq -> req_pos r + req_length r <= backing_size ->
  NoDup (rq_extent rq) -> l_entries (lay_all start (rq_for_each_segment rq)) = [e] ->
  wp (handle_request c (mapped_ops ops) buffer room ls) (fun res s' =>
    (exists ls', res = Go ls') /\
    mem_gather (mem_of (mm_kernel s')) (rq_extent rq) = mem_read (v_disk (mm_user s)) (req_pos r) (req_length r) /\
    (forall x, x ∉ rq_extent rq -> ~ in_reserved_pages mc x -> mem_of (mm_kernel s') !! x = mem_of (mm_kernel s) !! x) /\
    v_disk (mm_user s') = v_disk (mm_user s) /\
    served_mapped c dev k rest conn d BLK_STS_OK (mm_kernel s) (mm_kernel s')) s.
Proof. apply mapped_read_round. Qed.

(** The state once the first pending request of [dev] is out of the way. *)
Definition past_first_mapped s (dev : Z) (d : bius_block_device) (rest : list Z) : mapped_machine V :=
  MappedMachine (with_mk (mm_kernel s) (set_devices <[dev := dev_with_pending d rest]> (mk (mm_kernel s))))
    (mm_user s) (mm_brk s).

Lemma next_large_served t1 t s s' c dev k1 k2 rest conn d st r1 b1 rq1 r b rq :
  next_large mc start t1 s c dev k1 (k2 :: rest) conn d r1 b1 rq1 ->
  served_mapped c dev k1 (k2 :: rest) conn d st (mm_kernel s) (mm_kernel s') -> k1 <> k2 ->
  next_large mc start t (past_first_mapped s dev d (k2 :: rest)) c dev k2 rest conn (dev_with_pending d (k2 :: rest)) r b rq ->
  next_large mc start t s' c dev k2 rest conn (dev_with_pending d (k2 :: rest)) r b rq.
Proof.
  intros Hn1 [Hcn Hdv Hrqs Hps _ _ Hmc Ht] Hne [Hlr Hres Hal Hcan Hid Hrg].
  pose proof (lr_ids _ _ _ _ _ _ _ _ _ _ _ _ _ _ (nl_request _ _ _ _ _ _ _ _ _ _ _ _ _ Hn1)) as Hids1.
  pose proof (mq_pdu _ _ _ _ _ _ _ _ (lr_map _ _ _ _ _ _ _ _ _ _ _ _ _ _ (nl_request _ _ _ _ _ _ _ _ _ _ _ _ _ Hn1))) as Hp1.
  destruct Hlr as [[Hc Hd Hsnd Hdv' Hpd] [Hmcc Hv Hready Hr Hu Hrq Hmt] Hfit Hty Hlen Hend Hclean Hids].
  cbn [past_first_mapped mm_kernel mk with_mk map_conns page_table] in *. kfields.
  split; try done; [|by rewrite Ht].
  split; try done.
  - split; try done; [by rewrite Hcn, lookup_insert_eq|by rewrite Hdv, lookup_insert_eq].
  - split; try done; [by rewrite Hmc|by rewrite Hps|by rewrite Hrqs, lookup_delete_ne].
  - intros i Hi. rewrite Ht. by apply Hclean.
  - intros x Hx. rewrite Hps; [by apply Hids|]. intros ->. destruct (Hids1 k1 Hx) as (r' & Hr' & Hne'). congruence.
Qed.

(** C10: Two large requests, a write and then a read of the same range, each with at most
    256 partly covered pages, fewer than 256 entries in its list and pages that fit the
    area, the read in one stretch: two rounds complete both, and the reader's segments hold
    the writer's bytes. *)
Theorem mapped_write_then_read s c dev k1 k2 rest conn d r1 b1 rq1 r2 b2 rq2 e buffer room ls :
  next_large mc start BIUS_WRITE s c dev k1 (k2 :: rest) conn d r1 b1 rq1 ->
  next_large mc start BIUS_READ (past_first_mapped s dev d (k2 :: rest)) c dev k2 rest conn
    (dev_with_pending d (k2 :: rest)) r2 b2 rq2 ->
  k1 <> k2 -> req_pos r2 = req_pos r1 -> req_length r2 = req_length r1 -> NoDup (rq_extent rq2) ->
  l_entries (lay_all start (rq_for_each_segment rq2)) = [e] -> req_pos r1 + req_length r1 <= backing_size ->
  wp (pbind (handle_request c (mapped_ops ops) buffer room ls) (handle_request c (mapped_ops ops) buffer room)) (fun res s' =>
    (exists ls', res = Go ls') /\
    mem_gather (mem_of (mm_kernel s')) (rq_extent rq2) = mem_gather (mem_of (mm_kernel s)) (rq_extent rq1) /\
    blk_rqs (mk (mm_kernel s')) = delete k2 (delete k1 (blk_rqs (mk (mm_kernel s)))) /\
    trace (mk (mm_kernel s')) = trace (mk (mm_kernel s)) ++ [EvEnd k1 BLK_STS_OK; EvEnd k2 BLK_STS_OK]) s.
Proof.
  intros Hn1 Hn2 Hne Hpos Hlen Hnd Hone Hdisk. apply wp_pbind.
  eapply wp_mono; [by eapply mapped_write_round|]. intros res s1 ([ls1 ->] & Hd1 & _ & Hs1).
  eapply wp_mono; [eapply (mapped_read_round s1 c dev k2 rest conn _ r2 b2 rq2 e);
    [by eapply next_large_served|by rewrite Hpos, Hlen|done|done]|].
  intros res s2 (Hl & Hg & _ & _ & Hs2). split_and!; [done| | |].
  - rewrite Hg, Hd1, Hpos, Hlen. apply mem_read_write_same. rewrite length_mem_gather.
    pose proof (lr_length _ _ _ _ _ _ _ _ _ _ _ _ _ _ (nl_request _ _ _ _ _ _ _ _ _ _ _ _ _ Hn1)) as [_ ->]. done.
  - by rewrite (sm_rqs _ _ _ _ _ _ _ _ _ Hs2), (sm_rqs _ _ _ _ _ _ _ _ _ Hs1).
  - rewrite (sm_trace _ _ _ _ _ _ _ _ _ Hs2), (sm_trace _ _ _ _ _ _ _ _ _ Hs1). by rewrite <- app_assoc.
Qed.
End one_request.

(** ** A thread of the library comes up *)
Section start.
Context `{BL : BioLaws} `{LC : LinuxConst} `{ML : MmLaws} `{EN : Environment} `{ME : MapEnvironment}.
Context {V : Type} `{SL : StoreLaws V}.
Existing Instance ubuf_iov.
Implicit Types s : mapped_machine V.

(** The open and mmap calls a thread of the library begins with give it a
    connection of its own, with an area that is ready for large requests. *)
Theorem library_maps_area s pages :
  0 <= mm_brk s -> mm_brk s + 2 ^ 28 <= 2 ^ 63 -> env_reserved (mm_brk s) = Some pages -> pages mod PAGE_SIZE = 0 ->
  (forall a, partial_map_pfn_error a = 0 /\ follow_pte_error a = 0) -> aligned_table (page_table (mm_kernel s)) ->
  wp (fd ← sys_open; area ← mmap fd DATA_MAP_AREA_SIZE; mret (fd, area)) (fun res s' => exists mc,
    res.2 <> MAP_FAILED /\ connections (mk (mm_kernel s')) !! res.1 = Some init_bius_connection /\
    map_conns (mm_kernel s') !! res.1 = Some mc /\ mc_vma mc = Some (res.2, res.2 + DATA_MAP_AREA_SIZE) /\
    map_ready mc res.2 /\ area_clean env_zero_pfn res.2 (mm_kernel s') /\ aligned_table (page_table (mm_kernel s'))) s.
Proof.
  intros Hb Hmax Hres Hmod Herr Hal. set (c := mm_brk s) in *.
  set (k1 := set_map_conns <[c := MapConn None (fun _ => None) pages (phys_pfn pages)]>
    (with_mk (mm_kernel s) (set_conns <[c := init_bius_connection]> (mk (mm_kernel s))))).
  set (s1 := MappedMachine k1 (mm_user s) (c + Z.max 1 1)).
  apply wp_bind. eapply (wp_intro _ _ _ c s1); [unfold sys_open, mapped_process, alloc_mapped, mbind, ST_bind, on_module; cbn [mm_kernel mm_brk mm_user]; fold c; rewrite Hres; reflexivity|].
  unfold mmap, mapped_process. apply wp_bind, wp_bind. eapply wp_intro; [reflexivity|]. cbn [mm_kernel mm_user mm_brk s1].
  set (start := PAGE_SIZE * ((c + Z.max 1 1) / PAGE_SIZE + 1)).
  assert (0 < start <= c + 1 + PAGE_SIZE /\ start mod PAGE_SIZE = 0) as [Hst Hsm].
  { unfold start. split; [|by rewrite Z.mul_comm, Z.mod_mul by done].
    pose proof (page_split_addr (c + Z.max 1 1)). pose proof (Z.mod_pos_bound (c + Z.max 1 1) PAGE_SIZE ltac:(done)).
    pose proof (Z.div_pos (c + Z.max 1 1) PAGE_SIZE ltac:(lia) ltac:(done)). unfold PAGE_SIZE in *. lia. }
  assert (BIUS_PTES_PER_COMMAND = 32768) as Hptes by done. assert (PAGE_SIZE = 4096) as HP by done.
  assert (DATA_MAP_AREA_SIZE = BIUS_MAX_SIZE_PER_COMMAND + 4096 /\ BIUS_MAX_SIZE_PER_COMMAND = 134217728) as [Hda Hmx] by done.
  apply wp_bind, wp_on_module. cbn [mm_kernel mm_user mm_brk]. eapply wp_mono.
  { apply (bius_dev_mmap_prepares env_zero_pfn c start (start + DATA_MAP_AREA_SIZE) (MapConn None (fun _ => None) pages (phys_pfn pages)));
      try done; [apply lookup_insert_eq|lia|rewrite Hptes, HP; lia|lia]. }
  intros ret k2 (-> & Hmk & mc & Hmc & Hv & Hready & Hclean & Hout). change (0 <? 0) with false. cbv iota.
  apply wp_ret, wp_ret. cbn [fst snd mm_kernel]. exists mc. split_and!; try done.
  - intros E. change MAP_FAILED with (-1) in E. lia.
  - rewrite Hmk. cbn. apply lookup_insert_eq.
  - rewrite Hmc. apply lookup_insert_eq.
  - intros p Hp. destruct (decide (p mod PAGE_SIZE = 0)) as [|Hne]; [done|]. apply Hal. rewrite Hout in Hp; [done|].
    intros i ->. apply Hne. rewrite (Z.mul_comm PAGE_SIZE), Z.mod_add by done. exact Hsm.
Qed.
End start.

(** ** A concrete machine

    The RAM disk behind device 100, with the requests of [MappingSample.v] and
    [MappedFaults.v]. *)
#[export] Instance sample_map_env : MapEnvironment := {| env_zero_pfn := ms_zero_pfn; env_reserved _ := Some ms_reserved |}.
Lemma aligned_keys (l : list (Z * pte)) :
  (forall pe, pe ∈ l -> pe.1 mod PAGE_SIZE = 0) -> aligned_table (list_to_map l).
Proof. intros Hl p [e He]. apply elem_of_list_to_map_2 in He. exact (Hl (p, e) He). Qed.
Lemma ms_aligned : aligned_table ms_table.
Proof.
  apply aligned_keys. intros pe (i & -> & _)%list_elem_of_fmap. cbn [fst].
  rewrite (Z.mul_comm PAGE_SIZE), Z.mod_add by done. reflexivity.
Qed.
Definition ms_machine (k : @mstate seg_bio) : mapped_machine ram := MappedMachine k (Ram ∅ ∅) 65536.

Lemma ms_next_large t segs len :
  segments_fit ms_start ms_conn segs ->
  BIUS_MAP_DATA_THRESHOLD < len < 2 ^ 63 /\ len = Z.of_nat (length (rq_extent (ms_rq segs len))) ->
  reserved_count (l_pages (lay_all ms_start segs)) <= BIUS_MAX_SEGMENTS -> req_canonical t ->
  next_large ms_conn ms_start t (ms_machine (ms_state t segs len)) 200 100 7 [] ms_waits (ms_device [7]) (ms_pdu t len)
    ms_blk (ms_rq segs len).
Proof.
  intros Hfit [[Hlo Hhi] Hlen] Hres Hcan. split; [| |exact ms_aligned|done|done|].
  - by apply ms_large_request.
  - rewrite ms_segments by apply Hfit. exact Hres.
  - split; [done|]. cbn [ms_pdu req_pos req_length]. lia.
Qed.

Lemma ms_list_size :
  BIUS_MAP_DATA_THRESHOLD < ms_list_len < 2 ^ 63 /\
  reserved_count (l_pages (lay_all ms_start [ms_whole; ms_part])) <= BIUS_MAX_SEGMENTS.
Proof. split; [split|]; by vm_compute. Qed.
Lemma ms_segs_size :
  BIUS_MAP_DATA_THRESHOLD < ms_len < 2 ^ 63 /\ reserved_count (l_pages (lay_all ms_start ms_segs)) <= BIUS_MAX_SEGMENTS.
Proof. split; [split|]; by vm_compute. Qed.

(** The write of two stretches. *)
Lemma mapped_write_reaches_disk_witness :
  wp (handle_request 200 (mapped_ops ramdisk_operations) 65536 BIUS_MAP_DATA_THRESHOLD client_locals) (fun res s' =>
    v_disk (mm_user s') = mem_write ∅ 0 (mem_gather ∅ (rq_extent (ms_rq [ms_whole; ms_part] ms_list_len))) /\
    trace (mk (mm_kernel s')) = [EvEnd 7 BLK_STS_OK])
    (ms_machine (ms_state BIUS_WRITE [ms_whole; ms_part] ms_list_len)).
Proof.
  eapply wp_mono.
  - apply (mapped_write_reaches_disk ramdisk_operations ms_conn ms_start ramdisk_writes) with
      (c := 200) (dev := 100) (k := 7) (rest := []) (conn := ms_waits) (d := ms_device [7]) (r := ms_pdu BIUS_WRITE ms_list_len)
      (b := ms_blk) (rq := ms_rq [ms_whole; ms_part] ms_list_len).
    + apply ms_next_large; [exact ms_list_fit|exact (conj (proj1 ms_list_size) (proj1 ms_list_extent))|exact (proj2 ms_list_size)|by split].
    + vm_compute. discriminate.
  - intros res s' (_ & Hd & _ & Hsv). split; [exact Hd|]. exact (sm_trace _ _ _ _ _ _ _ _ _ Hsv).
Defined.

Lemma mapped_read_reaches_client_witness :
  wp (handle_request 200 (mapped_ops ramdisk_operations) 65536 BIUS_MAP_DATA_THRESHOLD client_locals) (fun res s' =>
    mem_gather (mem_of (mm_kernel s')) (rq_extent (ms_rq ms_segs ms_len)) = mem_read ∅ 0 ms_len /\
    trace (mk (mm_kernel s')) = [EvEnd 7 BLK_STS_OK])
    (ms_machine (ms_state BIUS_READ ms_segs ms_len)).
Proof.
  eapply wp_mono.
  - apply (mapped_read_reaches_client ramdisk_operations ms_conn ms_start ramdisk_reads) with
      (c := 200) (dev := 100) (k := 7) (rest := []) (conn := ms_waits) (d := ms_device [7]) (r := ms_pdu BIUS_READ ms_len)
      (b := ms_blk) (rq := ms_rq ms_segs ms_len) (e := (ms_start + 512, ms_len)).
    + apply ms_next_large; [exact ms_segs_fit|exact (conj (proj1 ms_segs_size) (eq_sym (proj1 ms_extent)))|exact (proj2 ms_segs_size)|by split].
    + vm_compute. discriminate.
    + exact (proj2 ms_extent).
    + rewrite ms_segments by apply ms_segs_fit. vm_compute. reflexivity.
  - intros res s' (_ & Hg & _ & _ & Hsv). split; [exact Hg|]. exact (sm_trace _ _ _ _ _ _ _ _ _ Hsv).
Defined.

(** Request 7 writes, request 8 reads, both from the pages of [ms_segs]. *)
Definition ms_pdu2 (len : Z) : bius_request := BiusRequest 6 BIUS_READ 0 len (UBlk ms_blk) fn_bius_blk_request_end.
Definition ms_two (pending : list Z) : @mstate seg_bio :=
  MState (KState 7 {[ 7 := ms_rq ms_segs ms_len; 8 := ms_rq ms_segs ms_len ]}
            {[ 7 := ms_pdu BIUS_WRITE ms_len; 8 := ms_pdu2 ms_len ]}
            {[ 100 := ms_device pending ]} [100] {[ 200 := ms_waits ]} ∅ ∅ [])
    ms_table {[ 200 := ms_conn ]}.

Lemma ms_two_next t k rest r id :
  (k, r, id) ∈ [(7, ms_pdu BIUS_WRITE ms_len, 5); (8, ms_pdu2 ms_len, 6)] -> req_type r = t -> req_canonical t ->
  next_large ms_conn ms_start t (ms_machine (ms_two (k :: rest))) 200 100 k rest ms_waits (ms_device (k :: rest)) r ms_blk
    (ms_rq ms_segs ms_len).
Proof.
  intros Hk Hty Hcan.
  assert (pdus (mk (ms_two (k :: rest))) !! k = Some r /\ blk_rqs (mk (ms_two (k :: rest))) !! k = Some (ms_rq ms_segs ms_len) /\
    req_u r = UBlk ms_blk /\ req_on_end r = fn_bius_blk_request_end /\ req_id r = id /\ 0 <= id < 2 ^ 64 /\
    req_pos r = 0 /\ req_length r = ms_len) as (Hr & Hrq & Hu & Hend & Hid & Hidr & Hpos & Hlen).
  { apply elem_of_cons in Hk as [[= -> -> ->]|[= -> -> ->]%list_elem_of_singleton]; by split_and!. }
  split; [| |exact ms_aligned|done|by rewrite Hid|rewrite Hpos, Hlen; exact (conj (Z.le_refl 0) (proj2 (proj1 ms_segs_size)))].
  - split; [by split|split; [done|done|apply ms_ready|done..]| |exact Hty| |exact Hend| |].
    + rewrite ms_segments by apply ms_segs_fit. exact ms_segs_fit.
    + rewrite Hlen. exact (conj (proj1 (proj1 ms_segs_size)) (eq_sym (proj1 ms_extent))).
    + intros i Hi. exact (ms_table_lookup i Hi).
    + intros x Hx. by apply elem_of_nil in Hx.
  - rewrite ms_segments by apply ms_segs_fit. exact (proj2 ms_segs_size).
Qed.

Lemma ms_two_past :
  past_first_mapped (ms_machine (ms_two [7; 8])) 100 (ms_device [7; 8]) [8] = ms_machine (ms_two [8]).
Proof.
  unfold past_first_mapped, ms_machine, with_mk, ms_two, set_devices.
  cbn [mm_kernel mm_user mm_brk mk page_table map_conns next_request_id blk_rqs pdus devices all_disk_list connections kmem
       kbufs trace].
  by rewrite insert_singleton_eq.
Qed.

Lemma mapped_write_then_read_witness :
  wp (pbind (handle_request 200 (mapped_ops ramdisk_operations) 65536 BIUS_MAP_DATA_THRESHOLD client_locals)
        (handle_request 200 (mapped_ops ramdisk_operations) 65536 BIUS_MAP_DATA_THRESHOLD)) (fun res s' =>
    mem_gather (mem_of (mm_kernel s')) (rq_extent (ms_rq ms_segs ms_len)) = mem_gather ∅ (rq_extent (ms_rq ms_segs ms_len)) /\
    trace (mk (mm_kernel s')) = [EvEnd 7 BLK_STS_OK; EvEnd 8 BLK_STS_OK])
    (ms_machine (ms_two [7; 8])).
Proof.
  eapply wp_mono.
  - apply (mapped_write_then_read ramdisk_operations ms_conn ms_start ramdisk_reads ramdisk_writes) with
      (c := 200) (dev := 100) (k1 := 7) (k2 := 8) (rest := []) (conn := ms_waits) (d := ms_device [7; 8])
      (r1 := ms_pdu BIUS_WRITE ms_len) (r2 := ms_pdu2 ms_len) (b1 := ms_blk) (b2 := ms_blk)
      (rq1 := ms_rq ms_segs ms_len) (rq2 := ms_rq ms_segs ms_len) (e := (ms_start + 512, ms_len)).
    + apply (ms_two_next _ _ _ _ 5); [by left|done|by split].
    + rewrite ms_two_past. apply (ms_two_next _ _ _ _ 6); [by right; left|done|by split].
    + done.
    + reflexivity.
    + reflexivity.
    + exact (proj2 ms_extent).
    + rewrite ms_segments by apply ms_segs_fit. vm_compute. reflexivity.
    + vm_compute. discriminate.
  - intros res s' (_ & Hg & _ & Htr). split; [exact Hg|exact Htr].
Defined.

Lemma library_maps_area_witness :
  wp (fd ← sys_open; area ← mmap fd DATA_MAP_AREA_SIZE; mret (fd, area)) (fun res s' => exists mc,
    res.2 <> MAP_FAILED /\ map_conns (mm_kernel s') !! res.1 = Some mc /\ map_ready mc res.2)
    (ms_machine (MState (mk (ms_state BIUS_READ [] 0)) ∅ ∅)).
Proof.
  eapply wp_mono.
  - apply (library_maps_area (ms_machine (MState (mk (ms_state BIUS_READ [] 0)) ∅ ∅)) ms_reserved).
    + done.
    + done.
    + reflexivity.
    + by vm_compute.
    + intros a. by split.
    + intros p [e He]. change ((∅ : gmap Z pte) !! p = Some e) in He. by rewrite lookup_empty in He.
  - intros res s' (mc & Ha & _ & Hc & _ & Hr & _). exists mc. by split_and!.
Defined.
