(* ===== verification/Threads.v ===== *)
(** * Threads and spin locks

    Programs of several threads over one state: a thread runs its accesses to the
    state one at a time, and takes and returns spin locks in between.  Any
    interleaving is a run.  A proof method for such programs: each lock protects
    a part of the state, with an invariant that holds while nobody owns it. *)
From S2P Require Import Prelude.

(** ** Programs and their runs *)

(** A thread that uses locks [L] on a state [S]: the next access is one atomic
    step, what follows depends on the value it returns. *)
Inductive prog {L S A : Type} : Type :=
  | Done (a : A)
  | Do {X : Type} (m : ST S X) (k : X -> prog)
  | Lock (l : L) (k : prog)
  | Unlock (l : L) (k : prog).
Arguments prog : clear implicits.

Fixpoint prog_bind {L S A B} (f : A -> prog L S B) (p : prog L S A) : prog L S B :=
  match p with
  | Done a => f a
  | Do m k => Do m (fun x => prog_bind f (k x))
  | Lock l k => Lock l (prog_bind f k)
  | Unlock l k => Unlock l (prog_bind f k)
  end.
#[export] Instance prog_ret {L S} : MRet (prog L S) := fun A a => Done a.
#[export] Instance prog_mbind {L S} : MBind (prog L S) := fun A B => prog_bind.

Definition access {L S X} (m : ST S X) : prog L S X := Do m Done.
Definition pthread_spin_lock {L S} (l : L) : prog L S unit := Lock l (Done tt).
Definition pthread_spin_unlock {L S} (l : L) : prog L S unit := Unlock l (Done tt).

(** What a thread computes when nobody gets in its way. *)
Fixpoint erase {L S A} (p : prog L S A) : ST S A :=
  match p with
  | Done a => mret a
  | Do m k => x ← m; erase (k x)
  | Lock _ k | Unlock _ k => erase k
  end.

Lemma erase_bind {L S A B} (f : A -> prog L S B) (p : prog L S A) s :
  erase (p ≫= f) s = (a ← erase p; erase (f a)) s.
Proof.
  revert s. induction p as [a|X m k IH|l k IH|l k IH]; intros s; cbn; [done| |apply IH..].
  unfold mbind, ST_bind. destruct (m s) as [[x s']| |]; [|done..]. apply IH.
Qed.

Section runs.
Context {L S A : Type} `{CL : Countable L}.

Record config := Config {
  c_state : S;
  c_owner : gmap L nat;
  c_threads : list (prog L S A) }.
Implicit Types c : config.

(** What becomes of thread [t] when it is scheduled: it waits while somebody
    owns the lock it wants, and fails when its access does, or when it returns a
    lock that is not its own. *)
Inductive attempt := Moved (c : config) | Waits | Finished | Failed.
Definition step (t : nat) (c : config) : attempt :=
  match c_threads c !! t with
  | None | Some (Done _) => Finished
  | Some (Do m k) =>
      match m (c_state c) with
      | Ret (x, s') => Moved (Config s' (c_owner c) (<[t := k x]> (c_threads c)))
      | _ => Failed
      end
  | Some (Lock l k) =>
      match c_owner c !! l with
      | None => Moved (Config (c_state c) (<[l := t]> (c_owner c)) (<[t := k]> (c_threads c)))
      | Some _ => Waits
      end
  | Some (Unlock l k) =>
      if decide (c_owner c !! l = Some t)
      then Moved (Config (c_state c) (delete l (c_owner c)) (<[t := k]> (c_threads c)))
      else Failed
  end.

Inductive creachable (c : config) : config -> Prop :=
  | cr_refl : creachable c c
  | cr_step t c' c'' : creachable c c' -> step t c' = Moved c'' -> creachable c c''.

(** The run of a schedule. *)
Fixpoint run (ts : list nat) (c : config) : option config :=
  match ts with
  | [] => Some c
  | t :: ts' => match step t c with Moved c' => run ts' c' | _ => None end
  end.

Lemma creachable_trans c1 c2 c3 : creachable c1 c2 -> creachable c2 c3 -> creachable c1 c3.
Proof. intros H1 H2. induction H2; [done|]. by eapply cr_step. Qed.
Lemma run_reachable ts c c' : run ts c = Some c' -> creachable c c'.
Proof.
  revert c. induction ts as [|t ts IH]; intros c; cbn [run]; [intros [= <-]; constructor|].
  destruct (step t c) as [c1| | |] eqn:E; [|done..]. intros Hr.
  eapply creachable_trans; [|by apply IH]. eapply cr_step; [constructor|done].
Qed.

Definition finished (p : prog L S A) : Prop := match p with Done _ => True | _ => False end.
#[export] Instance finished_dec p : Decision (finished p).
Proof. destruct p; solve_decision. Defined.
Definition all_finished c : Prop := Forall finished (c_threads c).
#[export] Instance all_finished_dec c : Decision (all_finished c).
Proof. unfold all_finished. apply _. Defined.
(** No thread can ever run again, and some have not finished. *)
Definition deadlocked c : Prop :=
  (exists t, step t c = Waits) /\ forall t c', step t c <> Moved c'.

(** Decides that a schedule ends in a deadlock. *)
Definition waits (t : nat) (c : config) : bool := match step t c with Waits => true | _ => false end.
Definition moves (t : nat) (c : config) : bool := match step t c with Moved _ => true | _ => false end.
Definition deadlocks (ts : list nat) (c : config) : bool :=
  match run ts c with
  | Some c' =>
      let l := seq 0 (length (c_threads c')) in
      existsb (fun t => waits t c') l && forallb (fun t => negb (moves t c')) l
  | None => false
  end.
Lemma deadlocks_correct ts c : deadlocks ts c = true -> exists c', run ts c = Some c' /\ deadlocked c'.
Proof.
  unfold deadlocks. destruct (run ts c) as [c'|] eqn:Hr; [|done]. intros [Hw Hm]%andb_prop. exists c'.
  split; [done|]. split.
  - apply existsb_exists in Hw as (t & _ & Ht). exists t. unfold waits in Ht. by destruct (step t c').
  - intros t c'' Ht. rewrite forallb_forall in Hm. destruct (decide (t < length (c_threads c'))%nat) as [Hlt|Hge].
    + specialize (Hm t). rewrite in_seq in Hm. specialize (Hm ltac:(lia)). unfold moves in Hm. by rewrite Ht in Hm.
    + unfold step in Ht. by rewrite lookup_ge_None_2 in Ht by lia.
Qed.

(** ** Every run ends: a thread's program gets smaller with each step *)

Definition smaller (q p : prog L S A) : Prop :=
  match p with
  | Done _ => False
  | Do m k => exists x, q = k x
  | Lock _ k | Unlock _ k => q = k
  end.
Lemma smaller_wf : well_founded smaller.
Proof.
  intros p. induction p as [a|X m k IH|l k IH|l k IH]; constructor; intros q Hq; cbn in Hq; [done| |by subst..].
  by destruct Hq as [x ->].
Qed.

(** One member of the list gets smaller. *)
Definition list_smaller (l' l : list (prog L S A)) : Prop :=
  exists t p p', l !! t = Some p /\ smaller p' p /\ l' = <[t := p']> l.
Lemma list_smaller_acc l : Acc list_smaller l.
Proof.
  induction l as [|p l IHl]; [constructor; intros ? (t & p & p' & Ht & _); done|].
  revert l IHl. induction (smaller_wf p) as [p _ IHp]. intros l Hl. pose proof Hl as Hl0.
  induction Hl as [l _ IHl]. constructor. intros l' ([|t] & q & q' & Hq & Hs & ->); simplify_eq/=.
  - by apply IHp.
  - destruct Hl0 as [Hl0]. apply IHl; [by exists t, q, q'|]. apply Hl0. by exists t, q, q'.
Qed.

Lemma step_smaller t c c' : step t c = Moved c' -> list_smaller (c_threads c') (c_threads c).
Proof.
  unfold step. destruct (c_threads c !! t) as [[a|X m k|l k|l k]|] eqn:E; try done.
  - destruct (m (c_state c)) as [[x s']| |]; [|done..]. intros [= <-]. exists t, (Do m k), (k x). split_and!; [done|cbn; eauto|done].
  - destruct (c_owner c !! l); [done|]. intros [= <-]. exists t, (Lock l k), k. split_and!; [done|cbn; eauto|done].
  - case_decide; [|done]. intros [= <-]. exists t, (Unlock l k), k. split_and!; [done|cbn; eauto|done].
Qed.
Lemma steps_acc c : Acc (fun c' c => exists t, step t c = Moved c') c.
Proof.
  remember (c_threads c) as l eqn:El. revert c El. induction (list_smaller_acc l) as [l _ IH]. intros c ->.
  constructor. intros c' [t Ht]. eapply IH; [by eapply step_smaller|done].
Qed.
End runs.
Arguments config L S A {_ _}.
Arguments attempt L S A {_ _}.

(** ** Locks that protect parts of the state

    [guar H]: what a thread that owns the locks [H] may do to the state; [rely H]:
    what the others may do meanwhile; [lock_inv l]: what holds while nobody owns [l]. *)
Class Guarded (L S : Type) `{CL : Countable L} := {
  guar : gset L -> S -> S -> Prop;
  rely : gset L -> S -> S -> Prop;
  lock_inv : L -> S -> Prop;
  rely_refl H s : rely H s s;
  rely_trans H s1 s2 s3 : rely H s1 s2 -> rely H s2 s3 -> rely H s1 s3;
  guar_refl H s : guar H s s;
  guar_rely H1 H2 s s' : H1 ## H2 -> guar H1 s s' -> rely H2 s s';
  guar_lock_inv H l s s' : l ∉ H -> guar H s s' -> lock_inv l s -> lock_inv l s' }.

Section discipline.
Context {L S : Type} `{CL : Countable L} {GD : Guarded L S}.
(** The order in which a thread may take locks. *)
Context (may_lock : gset L -> L -> Prop).

(** [safe Q H p s]: a thread at [p] that owns [H] keeps to the discipline from
    [s] on, whatever the others do, and ends with [Q]. *)
Fixpoint safe {A} (Q : gset L -> A -> S -> Prop) (H : gset L) (p : prog L S A) (s : S) : Prop :=
  match p with
  | Done a => Q H a s
  | Do m k => wp m (fun x s' => guar H s s' /\ forall s'', rely H s' s'' -> safe Q H (k x) s'') s
  | Lock l k =>
      l ∉ H /\ may_lock H l /\
      (lock_inv l s -> forall s', rely ({[l]} ∪ H) s s' -> safe Q ({[l]} ∪ H) k s')
  | Unlock l k =>
      l ∈ H /\ lock_inv l s /\ forall s', rely (H ∖ {[l]}) s s' -> safe Q (H ∖ {[l]}) k s'
  end.

Lemma safe_bind {A B} (f : A -> prog L S B) (Q : gset L -> B -> S -> Prop) H p s :
  safe (fun H' a s' => safe Q H' (f a) s') H p s -> safe Q H (p ≫= f) s.
Proof.
  revert H s. induction p as [a|X m k IH|l k IH|l k IH]; intros H s; cbn; [done| | |].
  - intros Hw. eapply wp_mono; [exact Hw|]. intros x s' [Hg Hs]. split; [done|]. intros s'' Hr. by apply IH, Hs.
  - intros (Hl & Hm & Hs). split_and!; [done..|]. intros Hi s' Hr. by apply IH, Hs.
  - intros (Hl & Hi & Hs). split_and!; [done..|]. intros s' Hr. by apply IH, Hs.
Qed.
Lemma safe_mono {A} (Q Q' : gset L -> A -> S -> Prop) H p s :
  (forall H' a s', Q H' a s' -> Q' H' a s') -> safe Q H p s -> safe Q' H p s.
Proof.
  intros HQ. revert H s. induction p as [a|X m k IH|l k IH|l k IH]; intros H s; cbn; [by apply HQ| | |].
  - intros Hw. eapply wp_mono; [exact Hw|]. intros x s' [Hg Hs]. split; [done|]. intros s'' Hr. by apply IH, Hs.
  - intros (Hl & Hm & Hs). split_and!; [done..|]. intros Hi s' Hr. by apply IH, Hs.
  - intros (Hl & Hi & Hs). split_and!; [done..|]. intros s' Hr. by apply IH, Hs.
Qed.

Section soundness.
Context {A : Type}.
Implicit Types c : config L S A.

(** The locks of thread [t]. *)
Definition held c (t : nat) : gset L := dom (filter (fun lu => lu.2 = t) (c_owner c)).
Lemma elem_of_held c t l : l ∈ held c t <-> c_owner c !! l = Some t.
Proof.
  unfold held. rewrite elem_of_dom. split.
  - intros [u Hu]. apply map_lookup_filter_Some in Hu as [Hu Ht]. simpl in Ht. by subst.
  - intros Hl. exists t. by apply map_lookup_filter_Some.
Qed.
Lemma held_disjoint c t u : t <> u -> held c t ## held c u.
Proof. intros Hne l. rewrite !elem_of_held. congruence. Qed.

(** A thread returns its locks before it ends. *)
Definition ends_unlocked (H : gset L) (a : A) (s : S) : Prop := H = ∅.

Record disciplined c : Prop := {
  dc_threads t p : c_threads c !! t = Some p ->
    forall s', rely (held c t) (c_state c) s' -> safe ends_unlocked (held c t) p s';
  dc_free l : c_owner c !! l = None -> lock_inv l (c_state c);
  dc_owner l t : c_owner c !! l = Some t -> (t < length (c_threads c))%nat }.

(** The others keep to it while thread [t] runs from [c] to a state [s']. *)
Lemma others_disciplined c t u p s' c' :
  disciplined c -> t <> u -> c_threads c !! u = Some p -> guar (held c t) (c_state c) s' ->
  held c' u = held c u ->
  forall s'', rely (held c' u) s' s'' -> safe ends_unlocked (held c' u) p s''.
Proof.
  intros [Hth _ _] Hne Hu Hg -> s'' Hr. apply (Hth _ _ Hu). eapply rely_trans; [|done].
  eapply guar_rely; [|done]. by apply held_disjoint.
Qed.

Lemma step_disciplined c t c' : disciplined c -> step t c = Moved c' -> disciplined c'.
Proof.
  intros Hd. pose proof Hd as [Hth Hfree Hown]. unfold step.
  destruct (c_threads c !! t) as [p|] eqn:Ht; [|done]. specialize (Hth _ _ Ht _ (rely_refl _ _)) as Hsafe.
  assert (t < length (c_threads c))%nat as Hlt by (by eapply lookup_lt_Some).
  destruct p as [a|X m k|l k|l k]; cbn [safe] in Hsafe; [done| | |].
  - apply wp_inv in Hsafe as (x & s' & Hm & Hg & Hs). rewrite Hm. intros [= <-]. split; cbn.
    + intros u q. rewrite list_lookup_insert. case_decide as Hut; [|intros Hu; eapply (others_disciplined c t); [done|naive_solver|done..]].
      intros [= <-]. destruct Hut as [<- _]. exact Hs.
    + intros l Hl. eapply guar_lock_inv; [|exact Hg|by apply Hfree]. rewrite elem_of_held. congruence.
    + intros l u. rewrite length_insert. apply Hown.
  - destruct (c_owner c !! l) eqn:Hl; [done|]. intros [= <-]. destruct Hsafe as (_ & _ & Hs).
    set (c' := Config _ _ _).
    assert (held c' t = {[l]} ∪ held c t) as Ht'.
    { apply set_eq. intros l'. rewrite elem_of_union, elem_of_singleton, !elem_of_held. cbn.
      rewrite lookup_insert. case_decide; naive_solver. }
    split; cbn.
    + intros u q. rewrite list_lookup_insert. case_decide as Hut.
      * intros [= <-]. destruct Hut as [<- _]. rewrite Ht'. apply Hs, Hfree, Hl.
      * intros Hu. assert (t <> u) by naive_solver. eapply (others_disciplined c t); try done; [apply guar_refl|].
        apply set_eq. intros l'. rewrite !elem_of_held. cbn. rewrite lookup_insert. case_decide; naive_solver.
    + intros l'. rewrite lookup_insert. case_decide; [done|apply Hfree].
    + intros l' u. rewrite length_insert, lookup_insert. case_decide; [naive_solver|apply Hown].
  - destruct Hsafe as (Hl & Hi & Hs). apply elem_of_held in Hl as Hl'. rewrite decide_True by done. intros [= <-].
    set (c' := Config _ _ _).
    assert (held c' t = held c t ∖ {[l]}) as Ht'.
    { apply set_eq. intros l'. rewrite elem_of_difference, elem_of_singleton, !elem_of_held. cbn.
      rewrite lookup_delete. case_decide; naive_solver. }
    split; cbn.
    + intros u q. rewrite list_lookup_insert. case_decide as Hut.
      * intros [= <-]. destruct Hut as [<- _]. rewrite Ht'. exact Hs.
      * intros Hu. assert (t <> u) by naive_solver. eapply (others_disciplined c t); try done; [apply guar_refl|].
        apply set_eq. intros l'. rewrite !elem_of_held. cbn. rewrite lookup_delete. case_decide; naive_solver.
    + intros l'. rewrite lookup_delete. case_decide; [naive_solver|apply Hfree].
    + intros l' u. rewrite length_insert, lookup_delete. case_decide; [done|apply Hown].
Qed.

Lemma disciplined_reachable c c' : disciplined c -> creachable c c' -> disciplined c'.
Proof. intros Hd Hr. induction Hr; [done|]. by eapply step_disciplined. Qed.

(** No access fails and no lock is returned by another. *)
Lemma disciplined_no_failure c t : disciplined c -> step t c <> Failed.
Proof.
  intros [Hth _ _]. unfold step. destruct (c_threads c !! t) as [p|] eqn:Ht; [|done].
  specialize (Hth _ _ Ht _ (rely_refl _ _)). destruct p as [a|X m k|l k|l k]; cbn [safe] in Hth; [done| | |].
  - apply wp_inv in Hth as (x & s' & -> & _). done.
  - by destruct (c_owner c !! l).
  - destruct Hth as (Hl & _). apply elem_of_held in Hl. by rewrite decide_True.
Qed.

(** A step does what its thread's locks allow. *)
Lemma step_guar c t c' : disciplined c -> step t c = Moved c' -> guar (held c t) (c_state c) (c_state c').
Proof.
  intros [Hth _ _]. unfold step. destruct (c_threads c !! t) as [p|] eqn:Ht; [|done].
  specialize (Hth _ _ Ht _ (rely_refl _ _)). destruct p as [a|X m k|l k|l k]; cbn [safe] in Hth; [done| | |].
  - apply wp_inv in Hth as (x & s' & -> & Hg & _). by intros [= <-].
  - destruct (c_owner c !! l); [done|]. intros [= <-]. apply guar_refl.
  - case_decide; [|done]. intros [= <-]. apply guar_refl.
Qed.
Lemma reachable_stable (R : S -> Prop) c c' :
  (forall H s s', guar H s s' -> R s -> R s') -> disciplined c -> creachable c c' -> R (c_state c) -> R (c_state c').
Proof.
  intros HR Hd Hr Hc. induction Hr as [|t c1 c2 Hr IH Ht]; [done|].
  eapply HR; [|exact IH]. eapply step_guar; [|done]. by eapply disciplined_reachable.
Qed.

(** A thread that is scheduled alone, and the only one that owns locks, computes
    what its program says without them. *)
Lemma alone_finishes c t p a s' :
  disciplined c -> (forall l u, c_owner c !! l = Some u -> u = t) -> c_threads c !! t = Some p ->
  erase p (c_state c) = Ret (a, s') ->
  creachable c (Config s' ∅ (<[t := Done a]> (c_threads c))).
Proof.
  revert c. induction p as [b|X m k IH|l k IH|l k IH]; intros c Hd Ho Ht He; cbn [erase] in He.
  - injection He as -> <-. rewrite list_insert_id by done.
    assert (c_owner c = ∅) as Hl.
    { apply map_eq. intros l. rewrite lookup_empty. destruct (c_owner c !! l) as [u|] eqn:Hl; [|done].
      rewrite (Ho _ _ Hl) in Hl. pose proof (dc_threads _ Hd _ _ Ht _ (rely_refl _ _)) as Hu. cbn in Hu.
      unfold ends_unlocked in Hu. apply elem_of_held in Hl. set_solver. }
    rewrite <- Hl. destruct c. constructor.
  - unfold mbind, ST_bind in He. destruct (m (c_state c)) as [[x s1]| |] eqn:Hm; [|done..].
    assert (step t c = Moved (Config s1 (c_owner c) (<[t := k x]> (c_threads c)))) as Hst by (unfold step; by rewrite Ht, Hm).
    eapply creachable_trans; [eapply cr_step; [constructor|exact Hst]|].
    rewrite <- (list_insert_insert_eq (c_threads c) t (Done a) (k x)). eapply IH; [by eapply step_disciplined|done| |done].
    cbn. apply list_lookup_insert_eq. by eapply lookup_lt_Some.
  - assert (c_owner c !! l = None) as Hl.
    { destruct (c_owner c !! l) as [u|] eqn:Hl; [|done]. pose proof (dc_threads _ Hd _ _ Ht _ (rely_refl _ _)) as (Hn & _).
      rewrite (Ho _ _ Hl) in Hl. by apply elem_of_held in Hl. }
    assert (step t c = Moved (Config (c_state c) (<[l := t]> (c_owner c)) (<[t := k]> (c_threads c)))) as Hst by (unfold step; by rewrite Ht, Hl).
    eapply creachable_trans; [eapply cr_step; [constructor|exact Hst]|].
    rewrite <- (list_insert_insert_eq (c_threads c) t (Done a) k). eapply IH; [by eapply step_disciplined| | |done].
    + cbn. intros l' u. rewrite lookup_insert. case_decide; [congruence|apply Ho].
    + cbn. apply list_lookup_insert_eq. by eapply lookup_lt_Some.
  - pose proof (dc_threads _ Hd _ _ Ht _ (rely_refl _ _)) as (Hin & _). apply elem_of_held in Hin.
    assert (step t c = Moved (Config (c_state c) (delete l (c_owner c)) (<[t := k]> (c_threads c)))) as Hst
      by (unfold step; by rewrite Ht, decide_True).
    eapply creachable_trans; [eapply cr_step; [constructor|exact Hst]|].
    rewrite <- (list_insert_insert_eq (c_threads c) t (Done a) k). eapply IH; [by eapply step_disciplined| | |done].
    + cbn. intros l' u. rewrite lookup_delete. case_decide; [done|apply Ho].
    + cbn. apply list_lookup_insert_eq. by eapply lookup_lt_Some.
Qed.

(** When nobody runs, no lock is owned. *)
Lemma finished_unlocked c : disciplined c -> all_finished c -> c_owner c = ∅.
Proof.
  intros [Hth _ Hown] Hf. apply map_eq. intros l. rewrite lookup_empty. destruct (c_owner c !! l) as [t|] eqn:Hl; [|done].
  destruct (lookup_lt_is_Some_2 (c_threads c) t) as [p Hp]; [by eapply Hown|].
  pose proof (Forall_lookup_1 _ _ _ _ Hf Hp) as Hpf. destruct p; [|done..].
  pose proof (Hth _ _ Hp _ (rely_refl _ _)) as He. cbn in He. unfold ends_unlocked in He.
  apply elem_of_held in Hl. set_solver.
Qed.

(** A fresh set of threads. *)
Lemma fresh_disciplined s ps :
  (forall l, lock_inv l s) -> (forall p, p ∈ ps -> forall s', rely ∅ s s' -> safe ends_unlocked ∅ p s') ->
  disciplined (Config s ∅ ps).
Proof.
  intros Hl Hps. assert (forall t, held (Config s ∅ ps) t = ∅) as Hh.
  { intros t. apply set_eq. intros l. rewrite elem_of_held. cbn. rewrite lookup_empty. set_solver. }
  split; cbn; [|by auto|done]. intros t p Ht s'. rewrite Hh. apply Hps. by eapply list_elem_of_lookup_2.
Qed.

(** *** Progress

    Locks taken in the order of a rank are never waited for in a circle. *)
Context (rank : L -> nat) (top : nat) (Hrank : forall H l, may_lock H l -> forall h, h ∈ H -> (rank h < rank l)%nat).
Context (Htop : forall l, (rank l <= top)%nat).

Lemma owner_moves n c t l k :
  disciplined c -> (top - rank l < n)%nat -> c_threads c !! t = Some (Lock l k) ->
  exists u c', step u c = Moved c'.
Proof.
  intros Hd. revert t l k. induction n as [|n IH]; intros t l k Hn Ht; [lia|].
  destruct (c_owner c !! l) as [u|] eqn:Hl; [|exists t; unfold step; rewrite Ht, Hl; by eauto].
  destruct (lookup_lt_is_Some_2 (c_threads c) u) as [p Hp]; [by eapply dc_owner|].
  pose proof (dc_threads _ Hd _ _ Hp _ (rely_refl _ _)) as Hs.
  pose proof (disciplined_no_failure c u Hd) as Hnf.
  destruct p as [a|X m k'|l' k'|l' k'] eqn:Ep; cbn [safe] in Hs.
  - unfold ends_unlocked in Hs. apply elem_of_held in Hl. set_solver.
  - exists u. unfold step in *. rewrite Hp in *. destruct (m (c_state c)) as [[x s']| |]; by eauto.
  - destruct Hs as (_ & Hm & _). apply (IH u l' k'); [|done].
    pose proof (Hrank _ _ Hm l ltac:(by apply elem_of_held)). pose proof (Htop l'). lia.
  - exists u. unfold step in *. rewrite Hp in *. case_decide; by eauto.
Qed.
Lemma ranked_progress c : disciplined c -> all_finished c \/ exists t c', step t c = Moved c'.
Proof.
  intros Hd. destruct (decide (all_finished c)) as [Hf|Hf]; [by left|]. right.
  apply not_Forall_Exists in Hf as He; [|apply _]. apply Exists_exists in He as (p & Hp & Hpf). apply list_elem_of_lookup_1 in Hp as [t Ht].
  pose proof (disciplined_no_failure c t Hd) as Hnf.
  destruct p as [a|X m k|l k|l k]; [by destruct Hpf; cbn| | |].
  - exists t. unfold step in *. rewrite Ht in *. destruct (m (c_state c)) as [[x s']| |]; by eauto.
  - eapply (owner_moves (top - rank l + 1)); [done| |done]. lia.
  - exists t. unfold step in *. rewrite Ht in *. case_decide; by eauto.
Qed.
(** Whatever was scheduled so far, every thread can be run to its end. *)
Lemma ranked_finishes c : disciplined c -> exists c', creachable c c' /\ all_finished c'.
Proof.
  induction (steps_acc c) as [c _ IH]. intros Hd. destruct (ranked_progress c Hd) as [Hf|(t & c1 & Ht)].
  - exists c. split; [constructor|done].
  - destruct (IH c1) as (c' & Hr & Hf); [by exists t|by eapply step_disciplined|].
    exists c'. split; [|done]. eapply creachable_trans; [|done]. eapply cr_step; [constructor|done].
Qed.
End soundness.
End discipline.
