(* ===== verification/ZonedLocks.v ===== *)
(** * The zoned device with its locks

    The operations of [examples/zoned-common.h] as the threads of the driver run
    them: every access to the zones, the statistics and the counters is a step of
    its own, and [global_lock] and [zone_locks] are taken where the code takes
    them.  Without another thread they compute what [Zoned.v] says. *)
From S2P Require Import Prelude Protocol Zoned ZonedInv ZonedProps Threads.

Inductive zlock := global_lock | zone_locks (i : nat).
#[export] Instance zlock_eq_dec : EqDecision zlock.
Proof. solve_decision. Defined.
#[export] Instance zlock_countable : Countable zlock.
Proof.
  apply (inj_countable' (fun l => match l with global_lock => None | zone_locks i => Some i end)
           (fun o => match o with None => global_lock | Some i => zone_locks i end)).
  by intros [].
Defined.

Section programs.
Context {W : Type} `{RO : RawOps W} (cfg : zone_config).
Abbreviation P := (prog zlock (zstate W)).

Definition lock_zone (i : Z) : P unit := pthread_spin_lock (zone_locks (Z.to_nat i)).
Definition unlock_zone (i : Z) : P unit := pthread_spin_unlock (zone_locks (Z.to_nat i)).

(** ** Accesses to the shared data: one load or one store *)
Definition read_zone (i : Z) : P blk_zone := access (get_zone i).
Definition set_cond (i : Z) (c : blk_zone_cond) : P unit :=
  access (z ← get_zone i; put_zone i (with_cond z c)).
Definition set_wp (i : Z) (wp : Z) : P unit :=
  access (z ← get_zone i; put_zone i (with_wp z wp)).
Definition read_stat (i : Z) : P zone_stat := access (get_stat i).
Definition write_stat (i : Z) (f : zone_stat -> zone_stat) : P unit :=
  access (st ← get_stat i; put_stat i (f st)).
Definition set_read (v : Z) (st : zone_stat) : zone_stat :=
  ZoneStat (st_written st) v (st_reset_count st) (st_discard_count st).
Definition set_written (v : Z) (st : zone_stat) : zone_stat :=
  ZoneStat v (st_read st) (st_reset_count st) (st_discard_count st).
Definition set_reset_count (v : Z) (st : zone_stat) : zone_stat :=
  ZoneStat (st_written st) (st_read st) v (st_discard_count st).
Definition set_discard_count (v : Z) (st : zone_stat) : zone_stat :=
  ZoneStat (st_written st) (st_read st) (st_reset_count st) v.
Definition put_open (n : Z) (s : zstate W) : zstate W :=
  ZState (zone_info s) (stats s) n (num_imp_open_zones s) (num_active_zones s) (raw_state s).
Definition put_imp (n : Z) (s : zstate W) : zstate W :=
  ZState (zone_info s) (stats s) (num_open_zones s) n (num_active_zones s) (raw_state s).
Definition put_active (n : Z) (s : zstate W) : zstate W :=
  ZState (zone_info s) (stats s) (num_open_zones s) (num_imp_open_zones s) n (raw_state s).
(** [num_open_zones++], [num_open_zones--] and so on. *)
Definition count_open (d : Z) : P unit :=
  n ← access (gets num_open_zones); access (modify (put_open (u32 (n + d)))).
Definition count_imp (d : Z) : P unit :=
  n ← access (gets num_imp_open_zones); access (modify (put_imp (u32 (n + d)))).
Definition count_active (d : Z) : P unit :=
  n ← access (gets num_active_zones); access (modify (put_active (u32 (n + d)))).

(** ** Opening and filling a zone *)

Fixpoint close_imp_loop_prog (zone_to_skip zone : Z) (left : nat) : P unit :=
  match left with
  | O => mret tt
  | S left' =>
      if zone =? zone_to_skip then close_imp_loop_prog zone_to_skip (zone + 1) left'
      else
        _ ← lock_zone zone;
        z ← read_zone zone;
        if bool_decide (z_cond z = BLK_ZONE_COND_IMP_OPEN) then
          _ ← set_cond zone BLK_ZONE_COND_CLOSED;
          _ ← count_open (-1);
          _ ← count_imp (-1);
          unlock_zone zone
        else
          _ ← unlock_zone zone;
          close_imp_loop_prog zone_to_skip (zone + 1) left'
  end.
Definition close_imp_open_zone_prog (zone_to_skip : Z) : P unit :=
  close_imp_loop_prog zone_to_skip (num_conventional_zones cfg)
    (Z.to_nat (num_zones cfg - num_conventional_zones cfg)).

Definition open_closed_prog (zone : Z) (explicit : bool) : P Z :=
  nopen ← access (gets num_open_zones);
  if max_open_zones cfg <=? nopen then
    nimp ← access (gets num_imp_open_zones);
    if 0 <? nimp then _ ← close_imp_open_zone_prog zone; mret BLK_STS_OK
    else mret BLK_STS_ZONE_OPEN_RESOURCE
  else
    _ ← count_open 1;
    if explicit then _ ← set_cond zone BLK_ZONE_COND_EXP_OPEN; mret BLK_STS_OK
    else
      _ ← count_imp 1;
      _ ← set_cond zone BLK_ZONE_COND_IMP_OPEN;
      mret BLK_STS_OK.

(** The [switch] of [open_zone_locked]. *)
Definition open_switch_prog (zone : Z) (explicit : bool) : P Z :=
  z ← read_zone zone;
  match z_cond z with
  | BLK_ZONE_COND_IMP_OPEN =>
      if explicit then
        _ ← count_imp (-1);
        _ ← set_cond zone BLK_ZONE_COND_EXP_OPEN;
        mret BLK_STS_OK
      else mret BLK_STS_OK
  | BLK_ZONE_COND_EXP_OPEN => mret BLK_STS_OK
  | BLK_ZONE_COND_EMPTY =>
      nact ← access (gets num_active_zones);
      if max_active_zones cfg <=? nact then mret BLK_STS_ZONE_ACTIVE_RESOURCE
      else _ ← count_active 1; open_closed_prog zone explicit
  | BLK_ZONE_COND_CLOSED => open_closed_prog zone explicit
  | _ => mret BLK_STS_IOERR
  end.
Definition open_zone_locked_prog (zone : Z) (explicit : bool) : P Z :=
  _ ← pthread_spin_lock global_lock;
  result ← open_switch_prog zone explicit;
  _ ← pthread_spin_unlock global_lock;
  mret result.

Definition uncount_open_prog (c : blk_zone_cond) : P unit :=
  match c with
  | BLK_ZONE_COND_IMP_OPEN => _ ← count_imp (-1); count_open (-1)
  | BLK_ZONE_COND_EXP_OPEN => count_open (-1)
  | _ => mret tt
  end.
Definition uncount_active_prog (c : blk_zone_cond) : P unit :=
  if is_active c then count_active (-1) else mret tt.

Definition mark_switch_prog (zone : Z) : P Z :=
  z ← read_zone zone;
  match z_cond z with
  | BLK_ZONE_COND_IMP_OPEN | BLK_ZONE_COND_EXP_OPEN | BLK_ZONE_COND_CLOSED
  | BLK_ZONE_COND_EMPTY | BLK_ZONE_COND_FULL =>
      _ ← uncount_open_prog (z_cond z);
      _ ← uncount_active_prog (z_cond z);
      _ ← set_cond zone BLK_ZONE_COND_FULL;
      z ← read_zone zone;
      _ ← set_wp zone (u64 (z_start z + z_len z));
      mret BLK_STS_OK
  | _ => mret BLK_STS_IOERR
  end.
Definition mark_zone_full_locked_prog (zone : Z) : P Z :=
  _ ← pthread_spin_lock global_lock;
  result ← mark_switch_prog zone;
  _ ← pthread_spin_unlock global_lock;
  mret result.

(** ** Reads, writes and appends *)

Definition zoned_read_prog (data offset length : Z) : P Z :=
  let zone := zone_number cfg offset in
  _ ← lock_zone zone;
  st ← read_stat zone;
  _ ← write_stat zone (set_read (u64 (st_read st + length)));
  _ ← unlock_zone zone;
  access (raw (raw_read data offset length)).

Definition write_finish_prog (zone data offset length : Z) (out : option Z) : P (Z * option Z) :=
  st ← read_stat zone;
  _ ← write_stat zone (set_written (u64 (st_written st + length)));
  _ ← unlock_zone zone;
  r ← access (raw (raw_write data offset length));
  mret (r, out).
Definition advance_wp_prog (zone length : Z) : P unit :=
  z ← read_zone zone;
  _ ← set_wp zone (u64 (z_wp z + length / SECTOR_SIZE));
  z ← read_zone zone;
  if z_wp z =? u64 (z_start z + z_capacity z) then _ ← mark_zone_full_locked_prog zone; mret tt
  else mret tt.
(** The [goto out_unlock] of [zoned_write_common]. *)
Definition out_unlock (zone result : Z) (out : option Z) : P (Z * option Z) :=
  _ ← unlock_zone zone; mret (result, out).

(** The [switch] of [zoned_write_common] and what follows it. *)
Definition write_switch_prog (zone data offset length : Z) (out : option Z) : P (Z * option Z) :=
  z ← read_zone zone;
  match z_cond z with
  | BLK_ZONE_COND_EMPTY | BLK_ZONE_COND_CLOSED =>
      result ← open_zone_locked_prog zone false;
      if negb (result =? BLK_STS_OK) then out_unlock zone result out
      else
        _ ← advance_wp_prog zone length;
        write_finish_prog zone data offset length out
  | BLK_ZONE_COND_IMP_OPEN | BLK_ZONE_COND_EXP_OPEN =>
      _ ← advance_wp_prog zone length;
      write_finish_prog zone data offset length out
  | _ => out_unlock zone BLK_STS_IOERR out
  end.
Definition zoned_write_common_prog (data offset length : Z) (want_out append : bool)
    : P (Z * option Z) :=
  let zone := zone_number cfg offset in
  _ ← lock_zone zone;
  z ← read_zone zone;
  if bool_decide (z_type z = BLK_ZONE_TYPE_CONVENTIONAL) then
    if append then out_unlock zone BLK_STS_IOERR None
    else write_finish_prog zone data offset length None
  else
    z ← read_zone zone;
    if negb append && negb (u64 (z_wp z * SECTOR_SIZE) =? u64 offset) then
      out_unlock zone BLK_STS_IOERR None
    else
      let offset := if append then s64 (z_wp z * SECTOR_SIZE) else offset in
      let out := if append && want_out then Some offset else None in
      z ← read_zone zone;
      if u64 (u64 (z_start z + z_capacity z) * SECTOR_SIZE) <? u64 (offset + length) then
        out_unlock zone BLK_STS_IOERR out
      else write_switch_prog zone data offset length out.
Definition zoned_write_prog (data offset length : Z) : P Z :=
  r ← zoned_write_common_prog data offset length false false; mret r.1.
Definition zoned_append_zone_prog (data offset length : Z) (want_out : bool) : P (Z * option Z) :=
  zoned_write_common_prog data offset length want_out true.

(** ** Zone management *)

Fixpoint copy_zones_prog (zone : Z) (n : nat) : P (list blk_zone) :=
  match n with
  | O => mret []
  | S n' =>
      _ ← lock_zone zone;
      z ← read_zone zone;
      _ ← unlock_zone zone;
      rest ← copy_zones_prog (zone + 1) n';
      mret (z :: rest)
  end.
Definition zoned_report_zones_prog (offset nr_zones : Z) : P (Z * list blk_zone) :=
  let start_zone := s32 (zone_number cfg offset) in
  let left := u64 (num_zones cfg - start_zone) in
  let nr := s32 (if left <? u64 nr_zones then left else u64 nr_zones) in
  zs ← copy_zones_prog start_zone (Z.to_nat nr);
  mret (nr, zs).

Definition zoned_open_zone_prog (offset : Z) : P Z :=
  let zone := zone_number cfg offset in
  _ ← lock_zone zone;
  z ← read_zone zone;
  result ←
    match z_cond z with
    | BLK_ZONE_COND_EMPTY | BLK_ZONE_COND_IMP_OPEN | BLK_ZONE_COND_CLOSED =>
        open_zone_locked_prog zone true
    | BLK_ZONE_COND_EXP_OPEN => mret BLK_STS_OK
    | _ => mret BLK_STS_IOERR
    end;
  _ ← unlock_zone zone;
  mret result.

(** The [switch] of [zoned_close_zone]. *)
Definition close_switch_prog (zone : Z) : P Z :=
  z ← read_zone zone;
  match z_cond z with
  | BLK_ZONE_COND_IMP_OPEN | BLK_ZONE_COND_EXP_OPEN | BLK_ZONE_COND_CLOSED =>
      _ ← uncount_open_prog (z_cond z);
      z ← read_zone zone;
      if z_wp z =? z_start z then
        _ ← set_cond zone BLK_ZONE_COND_EMPTY;
        _ ← count_active (-1);
        mret BLK_STS_OK
      else
        _ ← set_cond zone BLK_ZONE_COND_CLOSED;
        mret BLK_STS_OK
  | _ => mret BLK_STS_IOERR
  end.
Definition zoned_close_zone_prog (offset : Z) : P Z :=
  let zone := zone_number cfg offset in
  _ ← lock_zone zone;
  _ ← pthread_spin_lock global_lock;
  result ← close_switch_prog zone;
  _ ← pthread_spin_unlock global_lock;
  _ ← unlock_zone zone;
  mret result.

Definition zoned_finish_zone_prog (offset : Z) : P Z :=
  let zone := zone_number cfg offset in
  _ ← lock_zone zone;
  _ ← mark_zone_full_locked_prog zone;
  _ ← unlock_zone zone;
  mret BLK_STS_OK.

(** The [switch] of [zoned_reset_zone]: [None] is [goto out_unlock] with
    [BLK_STS_OK] or [BLK_STS_IOERR], [Some] that the zone was reset. *)
Definition reset_switch_prog (zone : Z) : P (Z + unit) :=
  z ← read_zone zone;
  match z_cond z with
  | BLK_ZONE_COND_EMPTY => mret (inl BLK_STS_OK)
  | BLK_ZONE_COND_IMP_OPEN | BLK_ZONE_COND_EXP_OPEN | BLK_ZONE_COND_CLOSED
  | BLK_ZONE_COND_FULL =>
      _ ← uncount_open_prog (z_cond z);
      _ ← uncount_active_prog (z_cond z);
      _ ← set_cond zone BLK_ZONE_COND_EMPTY;
      z ← read_zone zone;
      _ ← set_wp zone (z_start z);
      mret (inr tt)
  | _ => mret (inl BLK_STS_IOERR)
  end.
(** The discard reads the zone after its lock is returned. *)
Definition zoned_reset_zone_prog (offset : Z) : P Z :=
  let zone := zone_number cfg offset in
  _ ← lock_zone zone;
  st ← read_stat zone;
  _ ← write_stat zone (set_reset_count (u64 (st_reset_count st + 1)));
  z ← read_zone zone;
  st ← read_stat zone;
  _ ← write_stat zone (set_discard_count
        (u64 (st_discard_count st + u64 ((z_wp z - z_start z) * SECTOR_SIZE))));
  _ ← pthread_spin_lock global_lock;
  res ← reset_switch_prog zone;
  _ ← pthread_spin_unlock global_lock;
  _ ← unlock_zone zone;
  match res with
  | inl result => mret result
  | inr _ =>
      z ← read_zone zone;
      access (raw (raw_discard (s64 (z_start z * SECTOR_SIZE)) (u64 (z_len z * SECTOR_SIZE))))
  end.

(** The stores of [initialize_zone_info], zone by zone. *)
Definition clear_zone (i : Z) : P unit :=
  access (_ ← get_zone i; put_zone i (Zone 0 0 0 BLK_ZONE_TYPE_NONE BLK_ZONE_COND_NOT_WP 0)).
Definition store_zone (i : Z) (f : blk_zone -> blk_zone) : P unit := access (z ← get_zone i; put_zone i (f z)).
Fixpoint clear_zones_prog (zone : Z) (left : nat) : P unit :=
  match left with
  | O => mret tt
  | S left' => _ ← clear_zone zone; clear_zones_prog (zone + 1) left'
  end.
Fixpoint init_zones_prog (zone : Z) (left : nat) : P unit :=
  match left with
  | O => mret tt
  | S left' =>
      let v := init_zone cfg zone in
      _ ← (if 2 ^ 31 <=? zone_sectors cfg * zone then access (fail SignedOverflow) else mret tt);
      _ ← store_zone zone (fun z => Zone (z_start v) (z_len z) (z_wp z) (z_type z) (z_cond z) (z_capacity z));
      _ ← store_zone zone (fun z => Zone (z_start z) (z_len v) (z_wp z) (z_type z) (z_cond z) (z_capacity z));
      _ ← set_wp zone (z_wp v);
      _ ← store_zone zone (fun z => Zone (z_start z) (z_len z) (z_wp z) (z_type v) (z_cond z) (z_capacity z));
      _ ← set_cond zone (z_cond v);
      _ ← store_zone zone (fun z => Zone (z_start z) (z_len z) (z_wp z) (z_type z) (z_cond z) (z_capacity v));
      init_zones_prog (zone + 1) left'
  end.
(** Both loops; the first goes up to [num_conventional_zones] whatever [num_zones] is. *)
Definition initialize_zone_info_prog : P unit :=
  _ ← clear_zones_prog 0 (Z.to_nat (num_zones cfg));
  _ ← init_zones_prog 0 (Z.to_nat (Z.max (num_zones cfg) (num_conventional_zones cfg)));
  _ ← access (modify (put_open 0));
  _ ← access (modify (put_imp 0));
  access (modify (put_active 0)).
(** [zoned_reset_all_zone] takes no zone lock: what [initialize_zone_info]
    stores interleaves with what the owners of zone locks do. *)
Definition zoned_reset_all_zone_prog : P Z :=
  _ ← pthread_spin_lock global_lock;
  _ ← initialize_zone_info_prog;
  _ ← pthread_spin_unlock global_lock;
  access (raw (raw_discard 0 (zoned_disk_size cfg))).

(** What a thread of the library runs for a request, and for a sequence of them. *)
Definition zop_prog (op : zop) : P Z :=
  match op with
  | ZRead d o l => zoned_read_prog d o l
  | ZWrite d o l => zoned_write_prog d o l
  | ZAppend d o l want => r ← zoned_append_zone_prog d o l want; mret r.1
  | ZReport o n => r ← zoned_report_zones_prog o n; mret r.1
  | ZOpen o => zoned_open_zone_prog o
  | ZClose o => zoned_close_zone_prog o
  | ZFinish o => zoned_finish_zone_prog o
  | ZReset o => zoned_reset_zone_prog o
  | ZResetAll => zoned_reset_all_zone_prog
  end.
Fixpoint worker (ops : list zop) : P (list Z) :=
  match ops with
  | [] => mret []
  | op :: ops' => r ← zop_prog op; rs ← worker ops'; mret (r :: rs)
  end.
(** Threads about to serve their requests. *)
Definition threads (s : zstate W) (opss : list (list zop)) : config zlock (zstate W) (list Z) :=
  Config s ∅ (worker <$> opss).
End programs.
