(* ===== verification/ZonedErase.v ===== *)
(** * Without other threads

    A thread that nobody interrupts computes what [Zoned.v] says: the locks and
    the granularity of the accesses make no difference. *)
From S2P Require Import Prelude Protocol Zoned ZonedInv ZonedProps Threads ZonedLocks.

Section erasure.
Context {W : Type} `{RO : RawOps W} (cfg : zone_config).
Abbreviation P := (prog zlock (zstate W)).
Implicit Types s : zstate W.

(** ** The next step of the program *)
Lemma erase_assoc {X Y B} (p : P X) (f : X -> P Y) (g : Y -> P B) s r :
  erase (p ≫= fun x => f x ≫= g) s = r -> erase ((p ≫= f) ≫= g) s = r.
Proof.
  intros <-. revert s. induction p as [a|Z m k IH|l k IH|l k IH]; intros s; cbn; [done| |apply IH..].
  unfold mbind, ST_bind. destruct (m s) as [[x s']| |]; [|done..]. apply IH.
Qed.
Lemma erase_ret {X B} x (f : X -> P B) s r : erase (f x) s = r -> erase (mret x ≫= f) s = r.
Proof. done. Qed.
Lemma erase_access {X B} (m : ST (zstate W) X) (f : X -> P B) s x s' r :
  m s = Ret (x, s') -> erase (f x) s' = r -> erase (access m ≫= f) s = r.
Proof. intros Hm <-. cbn. unfold mbind, ST_bind. by rewrite Hm. Qed.
Lemma erase_gets {X B} (g : zstate W -> X) (f : X -> P B) s r :
  erase (f (g s)) s = r -> erase (access (gets g) ≫= f) s = r.
Proof. done. Qed.
Lemma erase_count_open {B} d (f : unit -> P B) s r :
  erase (f tt) (add_open d s) = r -> erase (count_open d ≫= f) s = r.
Proof. done. Qed.
Lemma erase_count_imp {B} d (f : unit -> P B) s r :
  erase (f tt) (add_imp d s) = r -> erase (count_imp d ≫= f) s = r.
Proof. done. Qed.
Lemma erase_count_active {B} d (f : unit -> P B) s r :
  erase (f tt) (add_active d s) = r -> erase (count_active d ≫= f) s = r.
Proof. done. Qed.
Lemma erase_lock {B} l (f : unit -> P B) s r : erase (f tt) s = r -> erase (pthread_spin_lock l ≫= f) s = r.
Proof. done. Qed.
Lemma erase_unlock {B} l (f : unit -> P B) s r : erase (f tt) s = r -> erase (pthread_spin_unlock l ≫= f) s = r.
Proof. done. Qed.
Lemma get_zone_some i s z : zone_info s !! Z.to_nat i = Some z -> get_zone i s = Ret (z, s).
Proof. intros Hz. unfold get_zone, mbind, ST_bind, gets. by rewrite Hz. Qed.
Lemma get_stat_some i s st : stats s !! Z.to_nat i = Some st -> get_stat i s = Ret (st, s).
Proof. intros Hz. unfold get_stat, mbind, ST_bind, gets. by rewrite Hz. Qed.
Lemma erase_read_zone {B} i (f : blk_zone -> P B) s z r :
  zone_info s !! Z.to_nat i = Some z -> erase (f z) s = r -> erase (read_zone i ≫= f) s = r.
Proof. intros Hz. apply erase_access. by apply get_zone_some. Qed.
Lemma erase_read_stat {B} i (f : zone_stat -> P B) s st r :
  stats s !! Z.to_nat i = Some st -> erase (f st) s = r -> erase (read_stat i ≫= f) s = r.
Proof. intros Hz. apply erase_access. by apply get_stat_some. Qed.
Lemma erase_set_cond {B} i c (f : unit -> P B) s z r :
  zone_info s !! Z.to_nat i = Some z ->
  erase (f tt) (set_zones <[Z.to_nat i := with_cond z c]> s) = r -> erase (set_cond i c ≫= f) s = r.
Proof. intros Hz. apply erase_access. unfold mbind at 1, ST_bind. by rewrite (get_zone_some _ _ _ Hz). Qed.
Lemma erase_set_wp {B} i w (f : unit -> P B) s z r :
  zone_info s !! Z.to_nat i = Some z ->
  erase (f tt) (set_zones <[Z.to_nat i := with_wp z w]> s) = r -> erase (set_wp i w ≫= f) s = r.
Proof. intros Hz. apply erase_access. unfold mbind at 1, ST_bind. by rewrite (get_zone_some _ _ _ Hz). Qed.
Lemma erase_write_stat {B} i g (f : unit -> P B) s st r :
  stats s !! Z.to_nat i = Some st ->
  erase (f tt) (set_stats <[Z.to_nat i := g st]> s) = r -> erase (write_stat i g ≫= f) s = r.
Proof. intros Hz. apply erase_access. unfold mbind at 1, ST_bind. by rewrite (get_stat_some _ _ _ Hz). Qed.
(** A call of a part of the program that is known to compute [m]. *)
Lemma erase_call {X B} (p : P X) (m : ST (zstate W) X) (f : X -> P B) (g : X -> ST (zstate W) B) s :
  erase p s = m s -> (forall x s', erase (f x) s' = g x s') -> erase (p ≫= f) s = (m ≫= g) s.
Proof.
  intros Hp Hf. rewrite erase_bind. unfold mbind, ST_bind. rewrite Hp.
  destruct (m s) as [[x s']| |]; [apply Hf|done..].
Qed.
Lemma erase_tail {X} (p : P X) (f : X -> P X) (m : ST (zstate W) X) s :
  erase p s = m s -> (forall x s', erase (f x) s' = Ret (x, s')) -> erase (p ≫= f) s = m s.
Proof.
  intros Hp Hf. rewrite erase_bind. unfold mbind, ST_bind. rewrite Hp.
  destruct (m s) as [[x s']| |]; [apply Hf|done..].
Qed.
Lemma erase_access_tail {X} (m : ST (zstate W) X) s : erase (access (L := zlock) m) s = m s.
Proof. cbn. unfold mbind, ST_bind. by destruct (m s) as [[]| |]. Qed.

(** ** The next step of the operation of [Zoned.v] *)
Lemma bind_assoc {X Y B} (m : ST (zstate W) X) (f : X -> ST _ Y) (g : Y -> ST _ B) s r :
  r = (m ≫= fun x => f x ≫= g) s -> r = ((m ≫= f) ≫= g) s.
Proof. intros ->. unfold mbind, ST_bind. by destruct (m s) as [[]| |]. Qed.
Lemma bind_mret {X B} x (g : X -> ST (zstate W) B) s r : r = g x s -> r = (mret x ≫= g) s.
Proof. done. Qed.
Lemma bind_gets {X B} h (g : X -> ST (zstate W) B) s r : r = g (h s) s -> r = (gets h ≫= g) s.
Proof. done. Qed.
Lemma bind_modify {B} h (g : unit -> ST (zstate W) B) s r : r = g tt (h s) -> r = (modify h ≫= g) s.
Proof. done. Qed.
Lemma bind_put_zone {B} i z (g : unit -> ST (zstate W) B) s r :
  r = g tt (set_zones <[Z.to_nat i := z]> s) -> r = (put_zone i z ≫= g) s.
Proof. done. Qed.
Lemma bind_put_stat {B} i z (g : unit -> ST (zstate W) B) s r :
  r = g tt (set_stats <[Z.to_nat i := z]> s) -> r = (put_stat i z ≫= g) s.
Proof. done. Qed.
Lemma bind_get_zone {B} i z (g : blk_zone -> ST (zstate W) B) s r :
  zone_info s !! Z.to_nat i = Some z -> r = g z s -> r = (get_zone i ≫= g) s.
Proof. intros Hz ->. unfold mbind, ST_bind. by rewrite (get_zone_some _ _ _ Hz). Qed.
Lemma bind_get_stat {B} i z (g : zone_stat -> ST (zstate W) B) s r :
  stats s !! Z.to_nat i = Some z -> r = g z s -> r = (get_stat i ≫= g) s.
Proof. intros Hz ->. unfold mbind, ST_bind. by rewrite (get_stat_some _ _ _ Hz). Qed.

(** An index out of bounds is one for both. *)
Lemma no_zone_prog {B} i (f : blk_zone -> P B) s :
  zone_info s !! Z.to_nat i = None -> erase (read_zone i ≫= f) s = Fault OutOfBounds.
Proof. intros Hz. cbn. unfold get_zone, mbind, ST_bind, gets. by rewrite Hz. Qed.
Lemma no_zone_op {B} i (g : blk_zone -> ST (zstate W) B) s :
  zone_info s !! Z.to_nat i = None -> (get_zone i ≫= g) s = Fault OutOfBounds.
Proof. intros Hz. unfold get_zone, mbind, ST_bind, gets. by rewrite Hz. Qed.
Lemma no_stat_prog {B} i (f : zone_stat -> P B) s :
  stats s !! Z.to_nat i = None -> erase (read_stat i ≫= f) s = Fault OutOfBounds.
Proof. intros Hz. cbn. unfold get_stat, mbind, ST_bind, gets. by rewrite Hz. Qed.
Lemma no_stat_op {B} i (g : zone_stat -> ST (zstate W) B) s :
  stats s !! Z.to_nat i = None -> (get_stat i ≫= g) s = Fault OutOfBounds.
Proof. intros Hz. unfold get_stat, mbind, ST_bind, gets. by rewrite Hz. Qed.

(** What was just stored. *)
Lemma zone_written s i z z0 :
  zone_info s !! i = Some z0 -> zone_info (set_zones <[i := z]> s) !! i = Some z.
Proof. intros Hz. apply list_lookup_insert_eq. by eapply lookup_lt_Some. Qed.
Lemma stat_written s i z z0 :
  stats s !! i = Some z0 -> stats (set_stats <[i := z]> s) !! i = Some z.
Proof. intros Hz. apply list_lookup_insert_eq. by eapply lookup_lt_Some. Qed.
Lemma set_zones_twice i z z' s : set_zones <[i := z']> (set_zones <[i := z]> s) = set_zones <[i := z']> s.
Proof. unfold set_zones. cbn. by rewrite list_insert_insert_eq. Qed.
Lemma set_stats_twice i z z' s : set_stats <[i := z']> (set_stats <[i := z]> s) = set_stats <[i := z']> s.
Proof. unfold set_stats. cbn. by rewrite list_insert_insert_eq. Qed.
End erasure.

Ltac lookup_stored :=
  first [eassumption | eapply zone_written; lookup_stored | eapply stat_written; lookup_stored].
(** The next step on either side of [erase p s = m s']. *)
Ltac estep_prog :=
  lazymatch goal with
  | |- erase ((_ ≫= _) ≫= _) _ = _ => apply erase_assoc
  | |- erase (mret _ ≫= _) _ = _ => apply erase_ret
  | |- erase (pthread_spin_lock _ ≫= _) _ = _ => apply erase_lock
  | |- erase (pthread_spin_unlock _ ≫= _) _ = _ => apply erase_unlock
  | |- erase (lock_zone _ ≫= _) _ = _ => apply erase_lock
  | |- erase (unlock_zone _ ≫= _) _ = _ => apply erase_unlock
  | |- erase (access (gets _) ≫= _) _ = _ => apply erase_gets
  | |- erase (count_open _ ≫= _) _ = _ => apply erase_count_open
  | |- erase (count_imp _ ≫= _) _ = _ => apply erase_count_imp
  | |- erase (count_active _ ≫= _) _ = _ => apply erase_count_active
  | |- erase (read_zone _ ≫= _) _ = _ => eapply erase_read_zone; [lookup_stored|]
  | |- erase (read_stat _ ≫= _) _ = _ => eapply erase_read_stat; [lookup_stored|]
  | |- erase (set_cond _ _ ≫= _) _ = _ => eapply erase_set_cond; [lookup_stored|]
  | |- erase (set_wp _ _ ≫= _) _ = _ => eapply erase_set_wp; [lookup_stored|]
  | |- erase (write_stat _ _ ≫= _) _ = _ => eapply erase_write_stat; [lookup_stored|]
  end.
Ltac estep_op :=
  lazymatch goal with
  | |- _ = ((_ ≫= _) ≫= _) _ => apply bind_assoc
  | |- _ = (mret _ ≫= _) _ => apply bind_mret
  | |- _ = (gets _ ≫= _) _ => apply bind_gets
  | |- _ = (modify _ ≫= _) _ => apply bind_modify
  | |- _ = (put_zone _ _ ≫= _) _ => apply bind_put_zone
  | |- _ = (put_stat _ _ ≫= _) _ => apply bind_put_stat
  | |- _ = (get_zone _ ≫= _) _ => eapply bind_get_zone; [lookup_stored|]
  | |- _ = (get_stat _ ≫= _) _ => eapply bind_get_stat; [lookup_stored|]
  end.
Ltac esteps := repeat ((estep_prog || estep_op); cbv beta); rewrite ?set_zones_twice, ?set_stats_twice; try reflexivity.

(** Counts a zone of a known condition out. *)
Ltac uncount :=
  cbn [uncount_open_prog uncount_open]; unfold uncount_active_prog;
  repeat match goal with
  | |- context [is_active ?c] => let v := eval vm_compute in (is_active c) in change (is_active c) with v
  end; cbv iota.

Section operations.
Context {W : Type} `{RO : RawOps W} (cfg : zone_config).
Abbreviation P := (prog zlock (zstate W)).
Implicit Types s : zstate W.

(** The zone of an operation exists, or both sides fault. *)
Lemma zone_cases {A} i s (r1 r2 : outcome A) :
  (zone_info s !! Z.to_nat i = None -> r1 = Fault OutOfBounds /\ r2 = Fault OutOfBounds) ->
  (forall z, zone_info s !! Z.to_nat i = Some z -> r1 = r2) -> r1 = r2.
Proof. intros HN HS. destruct (zone_info s !! Z.to_nat i) eqn:E; [by eauto|]. by destruct (HN eq_refl) as [-> ->]. Qed.
Lemma stat_cases {A} i s (r1 r2 : outcome A) :
  (stats s !! Z.to_nat i = None -> r1 = Fault OutOfBounds /\ r2 = Fault OutOfBounds) ->
  (forall z, stats s !! Z.to_nat i = Some z -> r1 = r2) -> r1 = r2.
Proof. intros HN HS. destruct (stats s !! Z.to_nat i) eqn:E; [by eauto|]. by destruct (HN eq_refl) as [-> ->]. Qed.

Lemma close_imp_loop_erase skip zone left s :
  erase (close_imp_loop_prog skip zone left) s = close_imp_open_loop skip zone left s.
Proof.
  revert zone s. induction left as [|left IH]; intros zone s; cbn [close_imp_loop_prog close_imp_open_loop]; [done|].
  destruct (_ =? _); [apply IH|]. estep_prog. apply (zone_cases zone s); [by split; [apply no_zone_prog|apply no_zone_op]|]. intros z Hz. esteps.
  case_bool_decide; esteps. apply IH.
Qed.
Lemma close_imp_open_zone_erase zone s :
  erase (close_imp_open_zone_prog cfg zone) s = close_imp_open_zone cfg zone s.
Proof. apply close_imp_loop_erase. Qed.
Lemma open_closed_erase zone explicit z s :
  zone_info s !! Z.to_nat zone = Some z ->
  erase (open_closed_prog cfg zone explicit) s = open_closed cfg zone explicit s.
Proof.
  intros Hz. unfold open_closed_prog, open_closed. esteps. destruct (_ <=? _); esteps.
  - destruct (0 <? _); esteps. apply erase_call; [apply close_imp_open_zone_erase|done].
  - assert (zone_info (add_open 1 s) !! Z.to_nat zone = Some z) as Hz1 by done.
    destruct explicit; esteps.
Qed.
Lemma open_zone_locked_erase zone explicit s :
  erase (open_zone_locked_prog cfg zone explicit) s = open_zone_locked cfg zone explicit s.
Proof.
  unfold open_zone_locked_prog. esteps. apply erase_tail; [|done]. unfold open_switch_prog, open_zone_locked.
  apply (zone_cases zone s); [by split; [apply no_zone_prog|apply no_zone_op]|]. intros z Hz. esteps.
  destruct (z_cond z); esteps.
  - destruct (_ <=? _); esteps. by apply (open_closed_erase _ _ z).
  - destruct explicit; esteps.
  - by apply (open_closed_erase _ _ z).
Qed.
Lemma mark_zone_full_locked_erase zone s :
  erase (mark_zone_full_locked_prog zone) s = mark_zone_full_locked zone s.
Proof.
  unfold mark_zone_full_locked_prog. esteps. apply erase_tail; [|done]. unfold mark_switch_prog, mark_zone_full_locked.
  apply (zone_cases zone s); [by split; [apply no_zone_prog|apply no_zone_op]|]. intros z Hz. esteps.
  destruct (z_cond z); try done; uncount; esteps.
Qed.

Lemma zoned_read_erase data offset length s :
  erase (zoned_read_prog cfg data offset length) s = zoned_read cfg raw_read data offset length s.
Proof.
  unfold zoned_read_prog, zoned_read. estep_prog. apply (stat_cases (zone_number cfg offset) s); [by split; [apply no_stat_prog|apply no_stat_op]|].
  intros st Hst. esteps. apply erase_access_tail.
Qed.
Lemma write_finish_erase zone data offset length out s :
  erase (write_finish_prog zone data offset length out) s = write_finish raw_write zone data offset length out s.
Proof.
  unfold write_finish_prog, write_finish. apply (stat_cases zone s); [by split; [apply no_stat_prog|apply no_stat_op]|]. by intros st Hst; esteps.
Qed.
Lemma advance_wp_erase zone length s : erase (advance_wp_prog zone length) s = advance_wp zone length s.
Proof.
  unfold advance_wp_prog, advance_wp. apply (zone_cases zone s); [by split; [apply no_zone_prog|apply no_zone_op]|]. intros z Hz. esteps.
  cbn [with_wp z_wp z_start z_capacity].
  destruct (_ =? _); esteps. apply erase_call; [apply mark_zone_full_locked_erase|done].
Qed.
Lemma zoned_write_common_erase data offset length want append s :
  erase (zoned_write_common_prog cfg data offset length want append) s
    = zoned_write_common cfg raw_write data offset length want append s.
Proof.
  unfold zoned_write_common_prog, zoned_write_common. estep_prog.
  apply (zone_cases (zone_number cfg offset) s); [by split; [apply no_zone_prog|apply no_zone_op]|]. intros z Hz. esteps.
  case_bool_decide; [destruct append; [done|apply write_finish_erase]|]. esteps.
  destruct (negb append && _); [done|]. esteps. destruct (_ <? _); [done|]. unfold write_switch_prog. esteps.
  destruct (z_cond z); try done; try (apply erase_call; [apply advance_wp_erase|intros; apply write_finish_erase]);
    (apply erase_call; [apply open_zone_locked_erase|]); intros r s'; destruct (negb _); try done;
    (apply erase_call; [apply advance_wp_erase|intros; apply write_finish_erase]).
Qed.

Lemma copy_zones_erase zone n s : erase (copy_zones_prog zone n) s = copy_zones zone n s.
Proof.
  revert zone s. induction n as [|n IH]; intros zone s; cbn [copy_zones_prog copy_zones]; [done|].
  estep_prog. apply (zone_cases zone s); [by split; [apply no_zone_prog|apply no_zone_op]|]. intros z Hz. esteps. by apply erase_call.
Qed.
Lemma zoned_open_zone_erase offset s : erase (zoned_open_zone_prog cfg offset) s = zoned_open_zone cfg offset s.
Proof.
  unfold zoned_open_zone_prog, zoned_open_zone. estep_prog.
  apply (zone_cases (zone_number cfg offset) s); [by split; [apply no_zone_prog|apply no_zone_op]|]. intros z Hz. esteps.
  apply erase_tail; [|done]. by destruct (z_cond z); try apply open_zone_locked_erase.
Qed.
Lemma zoned_close_zone_erase offset s : erase (zoned_close_zone_prog cfg offset) s = zoned_close_zone cfg offset s.
Proof.
  unfold zoned_close_zone_prog, zoned_close_zone. do 2 estep_prog. apply erase_tail; [|done]. unfold close_switch_prog.
  apply (zone_cases (zone_number cfg offset) s); [by split; [apply no_zone_prog|apply no_zone_op]|]. intros z Hz. esteps.
  destruct (z_cond z); try done; uncount; esteps; destruct (_ =? _); esteps.
Qed.
Lemma zoned_finish_zone_erase offset s : erase (zoned_finish_zone_prog cfg offset) s = zoned_finish_zone cfg offset s.
Proof. unfold zoned_finish_zone_prog. esteps. apply erase_call; [apply mark_zone_full_locked_erase|done]. Qed.
Lemma zoned_reset_zone_erase offset s :
  erase (zoned_reset_zone_prog cfg offset) s = zoned_reset_zone cfg raw_discard offset s.
Proof.
  unfold zoned_reset_zone_prog, zoned_reset_zone. estep_prog.
  apply (zone_cases (zone_number cfg offset) s).
  { intros Hz. split; [|by apply no_zone_op]. destruct (stats s !! Z.to_nat (zone_number cfg offset)) as [st|] eqn:Hst; [|by apply no_stat_prog].
    esteps. by apply no_zone_prog. }
  intros z Hz. estep_op. cbv beta.
  apply (stat_cases (zone_number cfg offset) s); [by split; [apply no_stat_prog|apply no_stat_op]|]. intros st Hst. esteps.
  unfold reset_switch_prog. esteps.
  destruct (z_cond z) eqn:Hc; uncount; esteps; apply erase_access_tail.
Qed.

(** *** A reset of all zones: the stores of both loops *)
Lemma erase_store_zone {B} i g (f : unit -> P B) s z r :
  zone_info s !! Z.to_nat i = Some z ->
  erase (f tt) (set_zones <[Z.to_nat i := g z]> s) = r -> erase (store_zone i g ≫= f) s = r.
Proof. intros Hz. apply erase_access. unfold mbind at 1, ST_bind. by rewrite (get_zone_some _ _ _ Hz). Qed.
Lemma clear_zones_erase zone n s :
  0 <= zone -> (Z.to_nat zone + n <= length (zone_info s))%nat ->
  exists zs, length zs = length (zone_info s) /\ erase (clear_zones_prog zone n) s = Ret (tt, set_zones (fun _ => zs) s).
Proof.
  revert zone s. induction n as [|n IH]; intros zone s Hz Hn.
  { exists (zone_info s). by destruct s. }
  destruct (lookup_lt_is_Some_2 (zone_info s) (Z.to_nat zone)) as [z Hi]; [lia|].
  cbn [clear_zones_prog].
  destruct (IH (zone + 1) (set_zones <[Z.to_nat zone := Zone 0 0 0 BLK_ZONE_TYPE_NONE BLK_ZONE_COND_NOT_WP 0]> s))
    as (zs & Hl & He); [lia|cbn; rewrite length_insert; lia|].
  exists zs. cbn in Hl. rewrite length_insert in Hl. split; [done|].
  eapply erase_access; [|exact He]. unfold mbind, ST_bind. by rewrite (get_zone_some _ _ _ Hi).
Qed.
Lemma init_zones_erase zone n s :
  0 <= zone -> (Z.to_nat zone + n = length (zone_info s))%nat ->
  zone_sectors cfg * (zone + Z.of_nat n - 1) < 2 ^ 31 -> 0 <= zone_sectors cfg ->
  erase (init_zones_prog cfg zone n) s
    = Ret (tt, set_zones (fun zs => take (Z.to_nat zone) zs ++ (init_zone cfg <$> seqZ zone (Z.of_nat n))) s).
Proof.
  revert zone s. induction n as [|n IH]; intros zone s Hz Hn Ho Hs.
  { cbn. unfold mret, ST_ret, set_zones. rewrite take_ge, app_nil_r by lia. by destruct s. }
  destruct (lookup_lt_is_Some_2 (zone_info s) (Z.to_nat zone)) as [z Hi]; [lia|].
  cbn [init_zones_prog]. rewrite (proj2 (Z.leb_gt _ _)) by nia. apply erase_ret.
  assert (forall v s0, length (zone_info s0) = length (zone_info s) ->
    zone_info (set_zones <[Z.to_nat zone := v]> s0) !! Z.to_nat zone = Some v) as Hw.
  { intros v s0 Hl. apply list_lookup_insert_eq. rewrite Hl. by eapply lookup_lt_Some. }
  do 2 (eapply erase_store_zone; [apply Hi || by apply Hw|]).
  eapply erase_set_wp; [apply Hw; cbn; by rewrite !length_insert|].
  eapply erase_store_zone; [apply Hw; cbn; by rewrite !length_insert|].
  eapply erase_set_cond; [apply Hw; cbn; by rewrite !length_insert|].
  eapply erase_store_zone; [apply Hw; cbn; by rewrite !length_insert|].
  rewrite IH; [|lia|cbn; rewrite !length_insert; lia|lia|done].
  unfold set_zones; cbn [zone_info stats num_open_zones num_imp_open_zones num_active_zones raw_state].
  rewrite !list_insert_insert_eq. do 3 f_equal.
  replace (Z.to_nat (zone + 1)) with (S (Z.to_nat zone)) by lia.
  rewrite (take_S_r _ _ (init_zone cfg zone)), take_insert_ge, <- app_assoc by
    (lia || (rewrite list_lookup_insert_eq by (by eapply lookup_lt_Some);
      unfold init_zone, with_wp, with_cond; by destruct (_ <? _))).
  replace (Z.of_nat (S n)) with (Z.succ (Z.of_nat n)) by lia. rewrite (seqZ_cons zone) by lia. cbn.
  do 2 f_equal. f_equal; f_equal; lia.
Qed.
(** With the geometry of [initialize] both are what [Zoned.v] computes at once. *)
Lemma initialize_zone_info_erase s :
  cfg_ok cfg -> length (zone_info s) = Z.to_nat (num_zones cfg) ->
  erase (initialize_zone_info_prog cfg) s = initialize_zone_info cfg s.
Proof.
  intros Hcfg Hl. unfold initialize_zone_info_prog, initialize_zone_info. rewrite (no_overflow cfg Hcfg).
  pose proof Hcfg as [? ? ? ? ? _ _].
  assert (0 <= zone_sectors cfg) by (unfold SECTOR_SIZE in *; lia).
  rewrite (proj2 (Z.ltb_ge _ _)) by lia. rewrite Z.max_l by lia. rewrite erase_bind.
  destruct (clear_zones_erase 0 (Z.to_nat (num_zones cfg)) s) as (zs & Hzs & He); [done|cbn; lia|].
  unfold mbind at 1, ST_bind at 1. rewrite He, erase_bind. unfold mbind at 1, ST_bind at 1.
  rewrite init_zones_erase; [|done|cbn; lia|rewrite Z2Nat.id by lia; nia|done].
  rewrite Z2Nat.id by lia. reflexivity.
Qed.
Lemma zoned_reset_all_zone_erase s :
  cfg_ok cfg -> length (zone_info s) = Z.to_nat (num_zones cfg) ->
  erase (zoned_reset_all_zone_prog cfg) s = zoned_reset_all_zone cfg raw_discard s.
Proof.
  intros Hcfg Hl. unfold zoned_reset_all_zone_prog. esteps. apply erase_call; [by apply initialize_zone_info_erase|].
  intros _ s'. esteps. apply erase_access_tail.
Qed.

(** ** Whole requests *)
Fixpoint run_zops (ops : list zop) : ST (zstate W) (list Z) :=
  match ops with
  | [] => mret []
  | op :: ops' => r ← run_zop cfg op; rs ← run_zops ops'; mret (r :: rs)
  end.
Lemma zop_prog_erase op s :
  (op = ZResetAll -> cfg_ok cfg /\ length (zone_info s) = Z.to_nat (num_zones cfg)) ->
  erase (zop_prog cfg op) s = run_zop cfg op s.
Proof.
  intros Hop. destruct op; cbn [zop_prog run_zop].
  - apply zoned_read_erase.
  - apply erase_call; [apply zoned_write_common_erase|done].
  - apply erase_call; [apply zoned_write_common_erase|done].
  - apply erase_call; [|done]. apply erase_call; [apply copy_zones_erase|done].
  - apply zoned_open_zone_erase.
  - apply zoned_close_zone_erase.
  - apply zoned_finish_zone_erase.
  - apply zoned_reset_zone_erase.
  - by apply zoned_reset_all_zone_erase; apply Hop.
Qed.
Lemma worker_erase ops s : Forall (fun op => op <> ZResetAll) ops -> erase (worker cfg ops) s = run_zops ops s.
Proof.
  intros Hops. revert s. induction Hops as [|op ops Hop _ IH]; intros s; cbn [worker run_zops]; [done|].
  apply erase_call; [by apply zop_prog_erase|]. intros r s'. by apply erase_call.
Qed.
End operations.
