(* ===== verification/ZonedRely.v ===== *)
(** * What the locks of the zoned device protect

    [zone_locks[i]] protects zone [i] and [global_lock] the counters; a condition
    changes only under both.  A thread's view: the zones it has locked, and the
    counters if it owns [global_lock].  The rules follow a program through views. *)
From S2P Require Import Prelude Protocol Zoned ZonedInv ZonedProps Threads ZonedLocks.

Section rely.
Context {W : Type} (cfg : zone_config).
Implicit Types s : zstate W.

(** ** Who may do what *)

Definition geometry (z : blk_zone) : Z * Z * Z * blk_zone_type := (z_start z, z_len z, z_capacity z, z_type z).
(** Zones stay where they are, whoever runs. *)
Definition same_shape s s' : Prop :=
  geometry <$> zone_info s' = geometry <$> zone_info s /\ length (stats s') = length (stats s).
Definition same_counts s s' : Prop :=
  num_open_zones s' = num_open_zones s /\ num_imp_open_zones s' = num_imp_open_zones s /\
  num_active_zones s' = num_active_zones s /\ z_cond <$> zone_info s' = z_cond <$> zone_info s.
Definition zoned_guar (H : gset zlock) s s' : Prop :=
  same_shape s s' /\ (forall i, zone_locks i ∉ H -> zone_info s' !! i = zone_info s !! i) /\
  (global_lock ∉ H -> same_counts s s').
Definition zoned_rely (H : gset zlock) s s' : Prop :=
  same_shape s s' /\ (forall i, zone_locks i ∈ H -> zone_info s' !! i = zone_info s !! i) /\
  (global_lock ∈ H -> same_counts s s').

(** The accounting of [zinv]. *)
Record counts_ok s : Prop := {
  co_open : num_open_zones s = count_zones is_open (zone_info s);
  co_imp : num_imp_open_zones s = count_zones is_imp (zone_info s);
  co_open_max : num_open_zones s <= max_open_zones cfg;
  co_active : count_zones is_active (zone_info s) <= num_active_zones s;
  co_active_max : num_active_zones s <= max_active_zones cfg }.
Definition zoned_lock_inv (l : zlock) s : Prop :=
  match l with
  | zone_locks i => forall z, zone_info s !! i = Some z -> zone_wf cfg i z
  | global_lock => counts_ok s
  end.

Lemma count_conds p (l l' : list blk_zone) : z_cond <$> l' = z_cond <$> l -> count_zones p l' = count_zones p l.
Proof.
  revert l'. induction l as [|z l IH]; intros [|z' l']; cbn; try done. intros [= Hc Hl]. by rewrite Hc, (IH _ Hl).
Qed.
Lemma counts_ok_same s s' : same_counts s s' -> counts_ok s -> counts_ok s'.
Proof. intros (Ho & Hi & Ha & Hc) []. split; rewrite ?Ho, ?Hi, ?Ha, ?(count_conds _ _ _ Hc); done. Qed.

#[export] Instance zoned_guarded : Guarded zlock (zstate W).
Proof.
  refine {| guar := zoned_guar; rely := zoned_rely; lock_inv := zoned_lock_inv |}.
  - done.
  - intros H s1 s2 s3 ([Hg Hl] & Hz & Hc) ([Hg' Hl'] & Hz' & Hc'). split_and!; [by split; congruence| |].
    + intros i Hi. rewrite Hz', Hz by done. done.
    + intros Hg0. destruct (Hc Hg0) as (? & ? & ? & ?), (Hc' Hg0) as (? & ? & ? & ?). split_and!; congruence.
  - done.
  - intros H1 H2 s s' Hd (Hs & Hz & Hc). split_and!; [done| |].
    + intros i Hi. apply Hz. set_solver.
    + intros Hg. apply Hc. set_solver.
  - intros H l s s' Hl (Hs & Hz & Hc). destruct l as [|i]; cbn.
    + apply counts_ok_same. by apply Hc.
    + rewrite (Hz i Hl). done.
Defined.

(** All locks free: the invariant of [Zoned.v]. *)
Definition shape_ok s : Prop :=
  Z.of_nat (length (zone_info s)) = num_zones cfg /\ Z.of_nat (length (stats s)) = num_zones cfg /\
  forall i z, zone_info s !! i = Some z -> geometry z = geometry (init_zone cfg (Z.of_nat i)).
Lemma unlocked_zinv s : shape_ok s -> (forall l, lock_inv l s) -> zinv cfg s.
Proof.
  intros (Hz & Hst & Hg) Hl. destruct (Hl global_lock). split; try done. intros i z. apply (Hl (zone_locks i)).
Qed.
Lemma zinv_lock_inv s l : zinv cfg s -> lock_inv l s.
Proof. intros []. destruct l as [|i]; cbn; [by split|by auto]. Qed.

(** ** Views *)

(** The counters and what they count. *)
Record gcounts := GCounts { g_open : Z; g_imp : Z; g_active : Z; n_open : Z; n_imp : Z; n_active : Z }.
Record view := View { v_zones : gmap nat blk_zone; v_counts : option gcounts }.
Definition locks_of (V : view) : gset zlock :=
  set_map zone_locks (dom (v_zones V)) ∪ (if v_counts V then {[global_lock]} else ∅).

Record counts_are (g : gcounts) s : Prop := {
  ca_open : num_open_zones s = g_open g; ca_imp : num_imp_open_zones s = g_imp g;
  ca_active : num_active_zones s = g_active g;
  ca_nopen : count_zones is_open (zone_info s) = n_open g; ca_nimp : count_zones is_imp (zone_info s) = n_imp g;
  ca_nactive : count_zones is_active (zone_info s) = n_active g }.
Record sees (V : view) s : Prop := {
  se_shape : shape_ok s;
  se_zones i z : v_zones V !! i = Some z -> zone_info s !! i = Some z;
  se_counts g : v_counts V = Some g -> counts_are g s }.

Lemma zone_lock_in V i : zone_locks i ∈ locks_of V <-> is_Some (v_zones V !! i).
Proof.
  unfold locks_of. rewrite elem_of_union, elem_of_map, <- elem_of_dom. split.
  - intros [(j & [= <-] & Hj)|Hg]; [done|]. destruct (v_counts V); set_solver.
  - intros Hi. left. by exists i.
Qed.
Lemma global_lock_in V : global_lock ∈ locks_of V <-> is_Some (v_counts V).
Proof.
  unfold locks_of. rewrite elem_of_union, elem_of_map. split.
  - intros [(j & ? & _)|Hg]; [done|]. destruct (v_counts V); [done|set_solver].
  - intros [g ->]. right. set_solver.
Qed.
Lemma locks_eq V H :
  (forall i, zone_locks i ∈ H <-> is_Some (v_zones V !! i)) -> (global_lock ∈ H <-> is_Some (v_counts V)) ->
  locks_of V = H.
Proof. intros Hz Hg. apply set_eq. intros [|i]; [by rewrite global_lock_in|by rewrite zone_lock_in]. Qed.

Lemma same_shape_ok s s' : same_shape s s' -> shape_ok s -> shape_ok s'.
Proof.
  intros [Hg Hl] (Hz & Hst & Hgeo). split_and!.
  - rewrite <- Hz. f_equal. by rewrite <- (length_fmap geometry), Hg, length_fmap.
  - by rewrite Hl.
  - intros i z Hi. assert ((geometry <$> zone_info s') !! i = Some (geometry z)) as Hi' by (by rewrite list_lookup_fmap, Hi).
    rewrite Hg, list_lookup_fmap in Hi'. apply fmap_Some in Hi' as (z0 & Hz0 & ->). by apply Hgeo.
Qed.
Lemma sees_rely V s s' : sees V s -> rely (locks_of V) s s' -> sees V s'.
Proof.
  intros [Hsh Hz Hc] (Hs & Hz' & Hc'). split.
  - by eapply same_shape_ok.
  - intros i z Hi. rewrite Hz'; [by apply Hz|]. apply zone_lock_in. by eexists.
  - intros g Hg. destruct (Hc g Hg). destruct Hc' as (Ho & Hi & Ha & Hcs); [by apply global_lock_in; eexists|].
    split; rewrite ?Ho, ?Hi, ?Ha, ?(count_conds _ _ _ Hcs); done.
Qed.

(** ** Programs through views

    Locks are ordered, unless every zone may be open at once: see [close_imp_open_zone]. *)
Definition lock_rank (l : zlock) : nat := match l with global_lock => 1 | zone_locks _ => 0 end.
Definition roomy : Prop := num_zones cfg <= max_open_zones cfg.
Definition in_order (H : gset zlock) (l : zlock) : Prop :=
  roomy -> forall h, h ∈ H -> (lock_rank h < lock_rank l)%nat.

Definition vsafe {A} (V : view) (p : prog zlock (zstate W) A) (Q : view -> A -> Prop) : Prop :=
  forall s, sees V s -> safe in_order (fun H a s' => exists V', H = locks_of V' /\ sees V' s' /\ Q V' a) (locks_of V) p s.

Lemma vsafe_ret {A} V (a : A) Q : Q V a -> vsafe V (mret a) Q.
Proof. intros HQ s Hs. by exists V. Qed.
Lemma vsafe_bind {A B} V (p : prog zlock (zstate W) A) (f : A -> prog zlock (zstate W) B) Q :
  vsafe V p (fun V' a => vsafe V' (f a) Q) -> vsafe V (p ≫= f) Q.
Proof.
  intros Hp s Hs. apply safe_bind. eapply safe_mono; [|by apply Hp]. intros H a s' (V' & -> & Hs' & Hf). by apply Hf.
Qed.
Lemma vsafe_mono {A} V (p : prog zlock (zstate W) A) (Q Q' : view -> A -> Prop) :
  vsafe V p Q -> (forall V' a, Q V' a -> Q' V' a) -> vsafe V p Q'.
Proof.
  intros Hp HQ s Hs. eapply safe_mono; [|by apply Hp]. intros H a s' (V' & -> & Hs' & Ha). exists V'. by auto.
Qed.
Lemma vsafe_access {A} V (m : ST (zstate W) A) Q :
  (forall s, sees V s -> wp m (fun x s' => guar (locks_of V) s s' /\
     exists V', locks_of V' = locks_of V /\ sees V' s' /\ Q V' x) s) ->
  vsafe V (access m) Q.
Proof.
  intros Hm s Hs. cbn. eapply wp_mono; [by apply Hm|]. intros x s' (Hg & V' & Hl & Hs' & HQ). split; [done|].
  intros s'' Hr. exists V'. rewrite Hl. split_and!; [done| |done]. eapply sees_rely; [done|]. by rewrite Hl.
Qed.
End rely.

Section rules.
Context {W : Type} (cfg : zone_config).
Implicit Types s : zstate W.
Abbreviation vsafe := (vsafe (W := W) cfg).

(** A store into zone [i] that keeps its geometry. *)
Definition put_zone_at (i : nat) (z' : blk_zone) s : zstate W := set_zones <[i := z']> s.
Lemma zone_store_guar H s i z z' :
  zone_info s !! i = Some z -> geometry z' = geometry z -> zone_locks i ∈ H ->
  (global_lock ∈ H \/ z_cond z' = z_cond z) -> zoned_guar H s (set_zones <[i := z']> s).
Proof.
  intros Hz Hg Hi Hc. split_and!; [split; [|done]| |].
  - cbn. rewrite list_fmap_insert, Hg. apply list_insert_id. by rewrite list_lookup_fmap, Hz.
  - intros j Hj. cbn. apply list_lookup_insert_ne. naive_solver.
  - intros HG. split_and!; try done. cbn. destruct Hc as [Hc|Hc]; [done|].
    rewrite list_fmap_insert, Hc. apply list_insert_id. by rewrite list_lookup_fmap, Hz.
Qed.
Lemma nonzone_guar H s s' :
  zone_info s' = zone_info s -> length (stats s') = length (stats s) ->
  (global_lock ∉ H -> num_open_zones s' = num_open_zones s /\ num_imp_open_zones s' = num_imp_open_zones s /\
     num_active_zones s' = num_active_zones s) ->
  zoned_guar H s s'.
Proof.
  intros Hz Hs Hc. split_and!; [by split; [by rewrite Hz|]|by intros; rewrite Hz|].
  intros Hg. destruct (Hc Hg) as (? & ? & ?). split_and!; [done..|by rewrite Hz].
Qed.

(** ** Loads *)
Lemma vsafe_read_zone V i z Q :
  v_zones V !! Z.to_nat i = Some z -> Q V z -> vsafe V (read_zone i) Q.
Proof.
  intros Hz HQ. apply vsafe_access. intros s Hs. eapply wp_get_zone; [by apply Hs|]. split; [apply guar_refl|by exists V].
Qed.
(** A zone that is not locked may be in any condition, but where it always was. *)
Lemma vsafe_read_unlocked V i Q :
  0 <= i < num_zones cfg -> (forall z, geometry z = geometry (init_zone cfg i) -> Q V z) -> vsafe V (read_zone i) Q.
Proof.
  intros Hi HQ. apply vsafe_access. intros s Hs. destruct (se_shape _ _ _ Hs) as (Hl & _ & Hgeo).
  destruct (lookup_lt_is_Some_2 (zone_info s) (Z.to_nat i)) as [z Hz]; [lia|].
  eapply wp_get_zone; [done|]. split; [apply guar_refl|]. exists V. split_and!; [done..|].
  apply HQ. rewrite (Hgeo _ _ Hz). by rewrite Z2Nat.id by lia.
Qed.
Lemma vsafe_read_stat V i Q :
  0 <= i < num_zones cfg -> (forall st, Q V st) -> vsafe V (read_stat i) Q.
Proof.
  intros Hi HQ. apply vsafe_access. intros s Hs. destruct (se_shape _ _ _ Hs) as (_ & Hl & _).
  destruct (lookup_lt_is_Some_2 (stats s) (Z.to_nat i)) as [st Hst]; [lia|].
  eapply wp_get_stat; [done|]. split; [apply guar_refl|by exists V].
Qed.
Lemma vsafe_get_open V g Q :
  v_counts V = Some g -> Q V (g_open g) -> vsafe V (access (gets num_open_zones)) Q.
Proof.
  intros Hg HQ. apply vsafe_access. intros s Hs. apply wp_gets. split; [apply guar_refl|].
  rewrite (ca_open _ _ (se_counts _ _ _ Hs _ Hg)). by exists V.
Qed.
Lemma vsafe_get_imp V g Q :
  v_counts V = Some g -> Q V (g_imp g) -> vsafe V (access (gets num_imp_open_zones)) Q.
Proof.
  intros Hg HQ. apply vsafe_access. intros s Hs. apply wp_gets. split; [apply guar_refl|].
  rewrite (ca_imp _ _ (se_counts _ _ _ Hs _ Hg)). by exists V.
Qed.
Lemma vsafe_get_active V g Q :
  v_counts V = Some g -> Q V (g_active g) -> vsafe V (access (gets num_active_zones)) Q.
Proof.
  intros Hg HQ. apply vsafe_access. intros s Hs. apply wp_gets. split; [apply guar_refl|].
  rewrite (ca_active _ _ (se_counts _ _ _ Hs _ Hg)). by exists V.
Qed.

(** ** Stores *)
Lemma sees_shape_guar V H s s' : sees cfg V s -> zoned_guar H s s' -> shape_ok cfg s'.
Proof. intros Hs (Hsh & _). eapply same_shape_ok; [done|]. by apply Hs. Qed.

Lemma vsafe_write_stat V i f Q :
  0 <= i < num_zones cfg -> Q V tt -> vsafe V (write_stat i f) Q.
Proof.
  intros Hi HQ. apply vsafe_access. intros s Hs. destruct (se_shape _ _ _ Hs) as (_ & Hl & _).
  destruct (lookup_lt_is_Some_2 (stats s) (Z.to_nat i)) as [st Hst]; [lia|].
  apply wp_bind. eapply wp_get_stat; [done|]. apply wp_put_stat.
  assert (zoned_guar (locks_of V) s (set_stats <[Z.to_nat i:=f st]> s)) as Hg.
  { apply nonzone_guar; [done|cbn; by rewrite length_insert|done]. }
  split; [done|]. exists V. split_and!; [done| |done]. split; [by eapply sees_shape_guar|apply Hs|].
  intros g Hc. destruct (se_counts _ _ _ Hs g Hc). by split.
Qed.

Definition with_counts (V : view) (g : gcounts) : view := View (v_zones V) (Some g).
Lemma locks_with_counts V g : is_Some (v_counts V) -> locks_of (with_counts V g) = locks_of V.
Proof. intros [g' Hg]. unfold locks_of, with_counts. cbn. by rewrite Hg. Qed.

(** The counters change one at a time. *)
Definition count_step (f : zstate W -> zstate W) (g g' : gcounts) : Prop :=
  forall s, zone_info (f s) = zone_info s /\ stats (f s) = stats s /\ (counts_are g s -> counts_are g' (f s)).
Lemma vsafe_count_step V g g' f Q :
  v_counts V = Some g -> count_step f g g' -> Q (with_counts V g') tt -> vsafe V (access (modify f)) Q.
Proof.
  intros Hg Hf HQ. apply vsafe_access. intros s Hs. apply wp_modify. destruct (Hf s) as (Hz & Hst & Hc).
  assert (zoned_guar (locks_of V) s (f s)) as Hgu.
  { apply nonzone_guar; [done|by rewrite Hst|]. intros Hn. destruct Hn. apply global_lock_in. by eexists. }
  split; [done|]. exists (with_counts V g'). split_and!; [by apply locks_with_counts; eexists| |done].
  split; [by eapply sees_shape_guar|intros i z Hi; rewrite Hz; by apply Hs|]. intros g0 [= <-]. apply Hc. by apply Hs.
Qed.
Definition add_g_open (d : Z) (g : gcounts) : gcounts := GCounts (g_open g + d) (g_imp g) (g_active g) (n_open g) (n_imp g) (n_active g).
Definition add_g_imp (d : Z) (g : gcounts) : gcounts := GCounts (g_open g) (g_imp g + d) (g_active g) (n_open g) (n_imp g) (n_active g).
Definition add_g_active (d : Z) (g : gcounts) : gcounts := GCounts (g_open g) (g_imp g) (g_active g + d) (n_open g) (n_imp g) (n_active g).
Lemma vsafe_count_open V g d Q :
  v_counts V = Some g -> 0 <= g_open g + d < 2 ^ 32 -> Q (with_counts V (add_g_open d g)) tt -> vsafe V (count_open d) Q.
Proof.
  intros Hg Hd HQ. apply vsafe_bind. eapply vsafe_get_open; [done|]. eapply (vsafe_count_step V g (add_g_open d g)); [done| |done].
  intros s. split_and!; [done..|]. intros []. split; cbn; try done. by apply wrap_small.
Qed.
Lemma vsafe_count_imp V g d Q :
  v_counts V = Some g -> 0 <= g_imp g + d < 2 ^ 32 -> Q (with_counts V (add_g_imp d g)) tt -> vsafe V (count_imp d) Q.
Proof.
  intros Hg Hd HQ. apply vsafe_bind. eapply vsafe_get_imp; [done|]. eapply (vsafe_count_step V g (add_g_imp d g)); [done| |done].
  intros s. split_and!; [done..|]. intros []. split; cbn; try done. by apply wrap_small.
Qed.
Lemma vsafe_count_active V g d Q :
  v_counts V = Some g -> 0 <= g_active g + d < 2 ^ 32 -> Q (with_counts V (add_g_active d g)) tt -> vsafe V (count_active d) Q.
Proof.
  intros Hg Hd HQ. apply vsafe_bind. eapply vsafe_get_active; [done|]. eapply (vsafe_count_step V g (add_g_active d g)); [done| |done].
  intros s. split_and!; [done..|]. intros []. split; cbn; try done. by apply wrap_small.
Qed.

(** A store into a locked zone moves the numbers that are counted. *)
Definition recount (z z' : blk_zone) (g : gcounts) : gcounts :=
  GCounts (g_open g) (g_imp g) (g_active g)
    (n_open g - Z.b2z (is_open (z_cond z)) + Z.b2z (is_open (z_cond z')))
    (n_imp g - Z.b2z (is_imp (z_cond z)) + Z.b2z (is_imp (z_cond z')))
    (n_active g - Z.b2z (is_active (z_cond z)) + Z.b2z (is_active (z_cond z'))).
Definition with_zone (V : view) (i : nat) (z z' : blk_zone) : view :=
  View (<[i := z']> (v_zones V)) (recount z z' <$> v_counts V).
Lemma locks_with_zone V i z z' : is_Some (v_zones V !! i) -> locks_of (with_zone V i z z') = locks_of V.
Proof.
  intros Hi. apply locks_eq; unfold with_zone; cbn.
  - intros j. rewrite zone_lock_in, lookup_insert. case_decide as Hj; [subst; naive_solver|done].
  - rewrite global_lock_in. destruct (v_counts V); cbn; naive_solver.
Qed.
Lemma vsafe_store V i z z' (m : ST (zstate W) unit) Q :
  v_zones V !! i = Some z -> geometry z' = geometry z -> (is_Some (v_counts V) \/ z_cond z' = z_cond z) ->
  (forall s, zone_info s !! i = Some z -> m s = Ret (tt, set_zones <[i := z']> s)) ->
  Q (with_zone V i z z') tt -> vsafe V (access m) Q.
Proof.
  intros Hz Hgeo Hc Hm HQ. apply vsafe_access. intros s Hs. pose proof (se_zones _ _ _ Hs _ _ Hz) as Hzi.
  eapply wp_intro; [by apply Hm|].
  assert (zoned_guar (locks_of V) s (set_zones <[i := z']> s)) as Hgu.
  { eapply zone_store_guar; [done|done|apply zone_lock_in; by eexists|]. by rewrite global_lock_in. }
  split; [done|]. exists (with_zone V i z z'). split_and!; [by apply locks_with_zone; eexists| |done].
  split; [by eapply sees_shape_guar| |].
  - intros j y. cbn. rewrite lookup_insert. case_decide as Hj.
    + intros [= <-]. subst. apply list_lookup_insert_eq. by eapply lookup_lt_Some.
    + intros Hy. rewrite list_lookup_insert_ne by done. by apply Hs.
  - intros g Hg. cbn in Hg. apply fmap_Some in Hg as (g0 & Hg0 & ->). destruct (se_counts _ _ _ Hs _ Hg0).
    split; cbn; try done; rewrite (count_zones_insert _ _ _ _ _ Hzi); lia.
Qed.
Lemma vsafe_set_cond V i z c Q :
  v_zones V !! Z.to_nat i = Some z -> is_Some (v_counts V) ->
  Q (with_zone V (Z.to_nat i) z (with_cond z c)) tt -> vsafe V (set_cond i c) Q.
Proof.
  intros Hz Hg. apply vsafe_store; [done..|by left|]. intros s Hs.
  unfold mbind, ST_bind, get_zone, gets, mbind, ST_bind. by rewrite Hs.
Qed.
Lemma vsafe_set_wp V i z w Q :
  v_zones V !! Z.to_nat i = Some z ->
  Q (with_zone V (Z.to_nat i) z (with_wp z w)) tt -> vsafe V (set_wp i w) Q.
Proof.
  intros Hz. apply vsafe_store; [done..|by right|]. intros s Hs.
  unfold mbind, ST_bind, get_zone, gets, mbind, ST_bind. by rewrite Hs.
Qed.

(** The raw device is nobody's. *)
Lemma vsafe_raw {A} V (m : ST W A) Q :
  (forall w, exists r w', m w = Ret (r, w')) -> (forall r, Q V r) -> vsafe V (access (raw m)) Q.
Proof.
  intros Hm HQ. apply vsafe_access. intros s Hs. apply wp_raw; [apply Hm|]. intros r w.
  split; [by apply nonzone_guar|]. exists V. split_and!; [done| |done]. destruct Hs as [Hsh Hz Hc].
  split; [done..|]. intros g Hg. destruct (Hc g Hg). by split.
Qed.

(** ** Locks *)
Definition drop_zone (V : view) (i : nat) : view := View (delete i (v_zones V)) (v_counts V).
Definition add_zone (V : view) (i : nat) (z : blk_zone) : view := View (<[i := z]> (v_zones V)) (v_counts V).
Lemma vsafe_lock_zone V i Q :
  0 <= i < num_zones cfg -> v_zones V !! Z.to_nat i = None -> (roomy cfg -> locks_of V = ∅) ->
  (forall z, zone_wf cfg (Z.to_nat i) z -> Q (add_zone V (Z.to_nat i) z) tt) ->
  vsafe V (lock_zone i) Q.
Proof.
  intros Hi Hz Ho HQ s Hs. cbn. split_and!.
  - rewrite zone_lock_in, Hz. by intros [].
  - intros Hr h. rewrite (Ho Hr). set_solver.
  - intros Hl s' Hr. destruct (se_shape _ _ _ Hs) as (Hlen & _ & _).
    destruct (lookup_lt_is_Some_2 (zone_info s) (Z.to_nat i)) as [z Hzi]; [lia|].
    assert (locks_of (add_zone V (Z.to_nat i) z) = {[zone_locks (Z.to_nat i)]} ∪ locks_of V) as Hlk.
    { apply locks_eq; unfold add_zone; cbn.
      - intros j. rewrite elem_of_union, elem_of_singleton, zone_lock_in, lookup_insert.
        case_decide as Hj; [subst; naive_solver|]. split; [intros [[= ->]|?]; done|by right].
      - rewrite elem_of_union, elem_of_singleton, global_lock_in. naive_solver. }
    exists (add_zone V (Z.to_nat i) z). split_and!; [done| |apply HQ; by apply Hl].
    eapply sees_rely; [|by rewrite Hlk]. destruct Hs as [Hsh Hzs Hc]. split; [done| |done].
    intros j y. cbn. rewrite lookup_insert. case_decide as Hj; [intros [= <-]; by subst|apply Hzs].
Qed.
Lemma vsafe_unlock_zone V i z Q :
  v_zones V !! Z.to_nat i = Some z -> zone_wf cfg (Z.to_nat i) z -> Q (drop_zone V (Z.to_nat i)) tt ->
  vsafe V (unlock_zone i) Q.
Proof.
  intros Hz Hwf HQ s Hs. cbn. split_and!.
  - apply zone_lock_in. by eexists.
  - intros y Hy. rewrite (se_zones _ _ _ Hs _ _ Hz) in Hy. by injection Hy as <-.
  - intros s' Hr.
    assert (locks_of (drop_zone V (Z.to_nat i)) = locks_of V ∖ {[zone_locks (Z.to_nat i)]}) as Hlk.
    { apply locks_eq; unfold drop_zone; cbn.
      - intros j. rewrite elem_of_difference, elem_of_singleton, zone_lock_in, lookup_delete.
        case_decide as Hj; [subst; split; [tauto|by intros []]|]. split; [tauto|]. intros; split; [done|congruence].
      - rewrite elem_of_difference, elem_of_singleton, global_lock_in. naive_solver. }
    exists (drop_zone V (Z.to_nat i)). split_and!; [done| |done]. eapply sees_rely; [|by rewrite Hlk].
    destruct Hs as [Hsh Hzs Hc]. split; [done| |done]. intros j y. cbn. rewrite lookup_delete.
    case_decide; [done|apply Hzs].
Qed.

(** The counters while nobody changes them. *)
Record settled (g : gcounts) : Prop := {
  sd_open : g_open g = n_open g; sd_imp : g_imp g = n_imp g; sd_open_max : g_open g <= max_open_zones cfg;
  sd_active : n_active g <= g_active g; sd_active_max : g_active g <= max_active_zones cfg }.
Lemma vsafe_lock_global V Q :
  v_counts V = None -> (forall g, settled g -> Q (with_counts V g) tt) ->
  vsafe V (pthread_spin_lock global_lock) Q.
Proof.
  intros Hn HQ s Hs. cbn. split_and!.
  - rewrite global_lock_in, Hn. by intros [].
  - intros _ [|j]; [|cbn; lia]. rewrite global_lock_in, Hn. by intros [].
  - intros [] s' Hr. set (g := GCounts (num_open_zones s) (num_imp_open_zones s) (num_active_zones s)
      (count_zones is_open (zone_info s)) (count_zones is_imp (zone_info s)) (count_zones is_active (zone_info s))).
    assert (locks_of (with_counts V g) = {[global_lock]} ∪ locks_of V) as Hlk.
    { apply locks_eq; unfold with_counts; cbn.
      - intros j. rewrite elem_of_union, elem_of_singleton, zone_lock_in. naive_solver.
      - rewrite elem_of_union, elem_of_singleton. naive_solver. }
    exists (with_counts V g). split_and!; [done| |apply HQ; by split].
    eapply sees_rely; [|by rewrite Hlk]. destruct Hs as [Hsh Hzs Hc]. split; [done..|]. intros g0 [= <-]. by split.
Qed.
Lemma vsafe_unlock_global V g Q :
  v_counts V = Some g -> settled g -> Q (View (v_zones V) None) tt ->
  vsafe V (pthread_spin_unlock global_lock) Q.
Proof.
  intros Hg [] HQ s Hs. cbn. split_and!.
  - apply global_lock_in. by eexists.
  - destruct (se_counts _ _ _ Hs _ Hg). split; lia.
  - intros s' Hr.
    assert (locks_of (View (v_zones V) None) = locks_of V ∖ {[global_lock]}) as Hlk.
    { apply locks_eq; cbn.
      - intros j. rewrite elem_of_difference, elem_of_singleton, zone_lock_in. naive_solver.
      - rewrite elem_of_difference, elem_of_singleton. split; [tauto|by intros []]. }
    exists (View (v_zones V) None). split_and!; [done| |done]. eapply sees_rely; [|by rewrite Hlk].
    destruct Hs as [Hsh Hzs Hc]. by split.
Qed.

(** What a locked zone says about the numbers. *)
Record counted (z : blk_zone) (g : gcounts) : Prop := {
  cd_open : Z.b2z (is_open (z_cond z)) <= n_open g;
  cd_imp : Z.b2z (is_imp (z_cond z)) <= n_imp g;
  cd_active : Z.b2z (is_active (z_cond z)) <= n_active g;
  cd_imp_open : n_imp g <= n_open g;
  cd_room : n_open g <= num_zones cfg - 1 + Z.b2z (is_open (z_cond z)) }.
Lemma count_zones_room p l i z :
  l !! i = Some z -> count_zones p l <= Z.of_nat (length l) - 1 + Z.b2z (p (z_cond z)).
Proof.
  revert i. induction l as [|y l IH]; intros [|i] Hi; simplify_eq/=.
  - pose proof (count_zones_range p l). lia.
  - specialize (IH _ Hi). destruct (p (z_cond y)); simpl; lia.
Qed.
Lemma count_imp_open l : count_zones is_imp l <= count_zones is_open l.
Proof. induction l as [|y l IH]; simpl; [lia|]. destruct (z_cond y); simpl; lia. Qed.
Lemma vsafe_counted {A} V i z g (p : prog zlock (zstate W) A) Q :
  v_zones V !! i = Some z -> v_counts V = Some g -> (counted z g -> vsafe V p Q) -> vsafe V p Q.
Proof.
  intros Hz Hg Hp s Hs. apply Hp; [|done]. pose proof (se_zones _ _ _ Hs _ _ Hz) as Hi.
  destruct (se_counts _ _ _ Hs _ Hg) as [_ _ _ Ho Him Ha]. destruct (se_shape _ _ _ Hs) as (Hl & _).
  split; rewrite <- ?Hl, <- ?Ho, <- ?Him, <- ?Ha.
  1-3: by eapply count_zones_lookup.
  - apply count_imp_open.
  - by eapply count_zones_room.
Qed.
End rules.
