(* ===== verification/ZonedThreads.v ===== *)
(** * Threads on a zoned device

    Every operation of [zoned-common.h] that locks what it uses keeps to the
    discipline of [ZonedRely.v], so threads that run them in any interleaving keep
    the zone invariant; they finish if all zones may be open at once. *)
From S2P Require Import Prelude Protocol Zoned ZonedInv ZonedProps Threads ZonedLocks ZonedErase ZonedRely.

(** A view of one locked zone, and of none. *)
Definition one (i : nat) (z : blk_zone) (o : option gcounts) : view := View {[i := z]} o.
Definition none : view := View ∅ None.

Section one_zone.
Context {W : Type} (cfg : zone_config).
Abbreviation vsafe := (vsafe (W := W) cfg).

Lemma one_lookup i z o : v_zones (one i z o) !! i = Some z.
Proof. apply lookup_singleton_eq. Qed.
Lemma one_with_zone i z z' o : with_zone (one i z o) i z z' = one i z' (recount z z' <$> o).
Proof. unfold with_zone, one. cbn. by rewrite insert_singleton_eq. Qed.
Lemma one_drop i z : drop_zone (one i z None) i = none.
Proof. unfold drop_zone, one, none. cbn. by rewrite delete_singleton_eq. Qed.

Lemma one_read_zone i z o Q : Q (one (Z.to_nat i) z o) z -> vsafe (one (Z.to_nat i) z o) (read_zone i) Q.
Proof. apply vsafe_read_zone, one_lookup. Qed.
Lemma one_set_cond i z g c Q :
  Q (one (Z.to_nat i) (with_cond z c) (Some (recount z (with_cond z c) g))) tt ->
  vsafe (one (Z.to_nat i) z (Some g)) (set_cond i c) Q.
Proof. intros HQ. eapply vsafe_set_cond; [apply one_lookup|by eexists|]. by rewrite one_with_zone. Qed.
Lemma one_set_wp i z o w Q :
  Q (one (Z.to_nat i) (with_wp z w) (recount z (with_wp z w) <$> o)) tt ->
  vsafe (one (Z.to_nat i) z o) (set_wp i w) Q.
Proof. intros HQ. eapply vsafe_set_wp; [apply one_lookup|]. by rewrite one_with_zone. Qed.
Lemma one_count_open i z g d Q :
  0 <= g_open g + d < 2 ^ 32 -> Q (one i z (Some (add_g_open d g))) tt -> vsafe (one i z (Some g)) (count_open d) Q.
Proof. intros Hd HQ. by eapply vsafe_count_open. Qed.
Lemma one_count_imp i z g d Q :
  0 <= g_imp g + d < 2 ^ 32 -> Q (one i z (Some (add_g_imp d g))) tt -> vsafe (one i z (Some g)) (count_imp d) Q.
Proof. intros Hd HQ. by eapply vsafe_count_imp. Qed.
Lemma one_count_active i z g d Q :
  0 <= g_active g + d < 2 ^ 32 -> Q (one i z (Some (add_g_active d g))) tt -> vsafe (one i z (Some g)) (count_active d) Q.
Proof. intros Hd HQ. by eapply vsafe_count_active. Qed.
Lemma one_lock_zone i Q :
  0 <= i < num_zones cfg -> (forall z, zone_wf cfg (Z.to_nat i) z -> Q (one (Z.to_nat i) z None) tt) ->
  vsafe none (lock_zone i) Q.
Proof.
  intros Hi HQ. apply vsafe_lock_zone; [done| | |done].
  - apply lookup_empty.
  - intros _. apply locks_eq; cbn; intros; rewrite ?lookup_empty, elem_of_empty; split; [done|by intros []|done|by intros []].
Qed.
Lemma one_unlock_zone i z Q :
  zone_wf cfg (Z.to_nat i) z -> Q none tt -> vsafe (one (Z.to_nat i) z None) (unlock_zone i) Q.
Proof. intros Hwf HQ. eapply vsafe_unlock_zone; [apply one_lookup|done|]. by rewrite one_drop. Qed.
Lemma one_lock_global {A} i z (f : unit -> prog zlock (zstate W) A) Q :
  (forall g, settled cfg g -> counted cfg z g -> vsafe (one i z (Some g)) (f tt) Q) ->
  vsafe (one i z None) (pthread_spin_lock global_lock ≫= f) Q.
Proof.
  intros HQ. apply vsafe_bind, vsafe_lock_global; [done|]. intros g Hg.
  eapply (vsafe_counted _ _ i z g); [apply one_lookup|done|]. intros Hc. by apply HQ.
Qed.
Lemma one_unlock_global i z g Q :
  settled cfg g -> Q (one i z None) tt -> vsafe (one i z (Some g)) (pthread_spin_unlock global_lock) Q.
Proof. intros Hg HQ. by eapply vsafe_unlock_global. Qed.
End one_zone.

(** The next access of a program with one zone locked. *)
Ltac vstep :=
  lazymatch goal with
  | |- vsafe _ _ (mret _) _ => apply vsafe_ret
  | |- vsafe _ _ (pthread_spin_lock global_lock ≫= _) _ => apply one_lock_global; intros ? ? ?
  | |- vsafe _ _ (_ ≫= _) _ => apply vsafe_bind
  | |- vsafe _ _ (read_zone _) _ => apply one_read_zone
  | |- vsafe _ _ (set_cond _ _) _ => apply one_set_cond
  | |- vsafe _ _ (set_wp _ _) _ => apply one_set_wp
  | |- vsafe _ _ (count_open _) _ => apply one_count_open
  | |- vsafe _ _ (count_imp _) _ => apply one_count_imp
  | |- vsafe _ _ (count_active _) _ => apply one_count_active
  | |- vsafe _ _ (access (gets num_open_zones)) _ => eapply vsafe_get_open; [reflexivity|]
  | |- vsafe _ _ (access (gets num_imp_open_zones)) _ => eapply vsafe_get_imp; [reflexivity|]
  | |- vsafe _ _ (access (gets num_active_zones)) _ => eapply vsafe_get_active; [reflexivity|]
  | |- vsafe _ _ (pthread_spin_unlock global_lock) _ => apply one_unlock_global
  | |- vsafe _ _ (unlock_zone _) _ => apply one_unlock_zone
  | |- vsafe _ _ (read_stat _) _ => apply vsafe_read_stat; [done|intros ?]
  | |- vsafe _ _ (write_stat _ _) _ => apply vsafe_write_stat; [done|]
  end; cbv beta.
(** Numbers of a zone of a known condition. *)
Ltac known_bool b :=
  let v := eval vm_compute in b in
  lazymatch v with true => change b with true in * | false => change b with false in * end.
Ltac known_counts :=
  repeat match goal with
  | |- context [is_open ?c] => known_bool (is_open c)
  | |- context [is_imp ?c] => known_bool (is_imp c)
  | |- context [is_active ?c] => known_bool (is_active c)
  | H : context [is_open ?c] |- _ => known_bool (is_open c)
  | H : context [is_imp ?c] |- _ => known_bool (is_imp c)
  | H : context [is_active ?c] |- _ => known_bool (is_active c)
  end.
Ltac numbers :=
  cbn [one with_counts with_zone v_counts v_zones recount add_g_open add_g_imp add_g_active with_cond with_wp z_cond z_wp
       z_start z_len g_open g_imp g_active n_open n_imp n_active fmap option_fmap option_map] in *;
  repeat match goal with
  | H : counted _ _ _ |- _ => destruct H
  | H : settled _ _ |- _ => destruct H
  | H : z_cond ?z = _ |- _ => progress rewrite H in *
  end;
  known_counts;
  cbn [Z.b2z] in *; lia.

Section operations.
Context {W : Type} `{RO : RawOps W} (cfg : zone_config) (Hcfg : cfg_ok cfg).
Abbreviation vsafe := (vsafe (W := W) cfg).

(** ** Opening a zone *)

Lemma close_imp_loop_safe i z g skip zone left Q :
  settled cfg g -> ~ roomy cfg -> counted cfg z g -> skip = Z.of_nat i -> 
  num_conventional_zones cfg <= zone -> zone + Z.of_nat left <= num_zones cfg ->
  (forall g', settled cfg g' -> g_active g' = g_active g -> n_active g' = n_active g -> Q (one i z (Some g')) tt) ->
  vsafe (one i z (Some g)) (close_imp_loop_prog skip zone left) Q.
Proof.
  intros Hs Hroom Hcz -> Hzone Hleft HQ. pose proof Hcfg as []. revert zone Hzone Hleft.
  induction left as [|left IH]; intros zone Hzone Hleft; cbn [close_imp_loop_prog]; [vstep; by apply HQ|].
  destruct (Z.eqb_spec zone (Z.of_nat i)) as [|Hne]; [apply IH; lia|].
  vstep. apply vsafe_lock_zone; [lia| |done|]; [unfold one; cbn; rewrite lookup_singleton_ne by lia; done|].
  intros y Hy. vstep. eapply vsafe_read_zone; [apply lookup_insert_eq|].
  eapply (vsafe_counted _ _ (Z.to_nat zone) y g); [apply lookup_insert_eq|done|]. intros Hcy.
  case_bool_decide as Hc.
  - assert (max_open_zones cfg < 2 ^ 32) by lia.
    vstep. eapply vsafe_set_cond; [apply lookup_insert_eq|by eexists|].
    vstep. eapply vsafe_count_open; [reflexivity|numbers|].
    vstep. eapply vsafe_count_imp; [reflexivity|numbers|].
    eapply vsafe_unlock_zone; [apply lookup_insert_eq| |].
    { apply zone_wf_cond; [done..|lia|set_solver]. }
    unfold drop_zone. cbn. rewrite !delete_insert_eq, delete_singleton_ne by lia.
    apply HQ; [split; numbers|numbers..].
  - vstep. eapply vsafe_unlock_zone; [apply lookup_insert_eq|done|].
    unfold drop_zone. cbn. rewrite !delete_insert_eq, delete_singleton_ne by lia. apply IH; lia.
Qed.

(** The conditions of a sequential zone that is not full. *)
Abbreviation usable := [BLK_ZONE_COND_EMPTY; BLK_ZONE_COND_IMP_OPEN; BLK_ZONE_COND_EXP_OPEN; BLK_ZONE_COND_CLOSED].
Lemma usable_seq i z : zone_wf cfg i z -> z_cond z ∈ usable -> num_conventional_zones cfg <= Z.of_nat i.
Proof.
  intros [] Hc. destruct (Z.ltb_spec (Z.of_nat i) (num_conventional_zones cfg)); [|lia].
  destruct zw_cond as [Hn _]. rewrite Hn in Hc. set_solver.
Qed.

Lemma open_closed_safe zone explicit z g Q :
  0 <= zone < num_zones cfg -> z_cond z ∈ [BLK_ZONE_COND_EMPTY; BLK_ZONE_COND_CLOSED] ->
  settled cfg g -> counted cfg z g -> n_active g + 1 - Z.b2z (is_active (z_cond z)) <= g_active g ->
  (forall c g' r, c ∈ usable -> settled cfg g' -> Q (one (Z.to_nat zone) (with_cond z c) (Some g')) r) ->
  vsafe (one (Z.to_nat zone) z (Some g)) (open_closed_prog cfg zone explicit) Q.
Proof.
  intros Hzone Hc Hs Hcd Hact HQ. pose proof Hcfg as [].
  assert (forall g' r, settled cfg g' -> Q (one (Z.to_nat zone) z (Some g')) r) as Hsame.
  { intros g' r Hg'. rewrite <- (with_cond_id z). apply HQ; [set_solver|done]. }
  unfold open_closed_prog. vstep. vstep. destruct (Z.leb_spec (max_open_zones cfg) (g_open g)).
  - vstep. vstep. destruct (Z.ltb_spec 0 (g_imp g)); [|vstep; by apply Hsame].
    vstep. apply close_imp_loop_safe; try done; try lia.
    + unfold roomy. apply elem_of_cons in Hc as [Hc|Hc%list_elem_of_singleton]; numbers.
    + intros g' Hg' _ _. vstep. by apply Hsame.
  - apply elem_of_cons in Hc as [Hc|Hc%list_elem_of_singleton]; (vstep; vstep; [numbers|]);
      destruct explicit; repeat vstep; try (apply HQ; [set_solver|split]); numbers.
Qed.

Lemma open_switch_safe zone explicit z g Q :
  0 <= zone < num_zones cfg -> z_cond z ∈ usable -> settled cfg g -> counted cfg z g ->
  (forall c g' r, c ∈ usable -> settled cfg g' -> Q (one (Z.to_nat zone) (with_cond z c) (Some g')) r) ->
  vsafe (one (Z.to_nat zone) z (Some g)) (open_switch_prog cfg zone explicit) Q.
Proof.
  intros Hzone Hc Hs Hcd HQ. pose proof Hcfg as [].
  assert (forall r, Q (one (Z.to_nat zone) z (Some g)) r) as Hsame.
  { intros r. rewrite <- (with_cond_id z). by apply HQ. }
  unfold open_switch_prog. vstep. vstep. destruct (z_cond z) eqn:Ec; try by (vstep; apply Hsame).
  - (* EMPTY *) vstep. vstep. destruct (Z.leb_spec (max_active_zones cfg) (g_active g)); [vstep; by apply Hsame|].
    vstep. vstep; [numbers|]. apply open_closed_safe; try done; rewrite ?Ec; [set_solver|split; numbers|split; numbers|numbers].
  - (* IMP_OPEN *) destruct explicit; [|vstep; by apply Hsame].
    vstep. vstep; [numbers|]. vstep. vstep. vstep. apply HQ; [set_solver|split; numbers].
  - (* CLOSED *) apply open_closed_safe; try done; rewrite ?Ec; [set_solver|numbers].
Qed.
Lemma open_zone_locked_safe zone explicit z Q :
  0 <= zone < num_zones cfg -> z_cond z ∈ usable ->
  (forall c r, c ∈ usable -> Q (one (Z.to_nat zone) (with_cond z c) None) r) ->
  vsafe (one (Z.to_nat zone) z None) (open_zone_locked_prog cfg zone explicit) Q.
Proof.
  intros Hzone Hc HQ. unfold open_zone_locked_prog. vstep. vstep. apply open_switch_safe; try done.
  intros c g' r Hc' Hg'. vstep. vstep; [done|]. vstep. by apply HQ.
Qed.

(** ** Filling, closing and resetting a zone *)

(** [g'] is [g] with a zone of condition [c] counted out of the open zones, and
    of the active ones. *)
Record counted_out (c : blk_zone_cond) (open active : bool) (g g' : gcounts) : Prop := {
  ct_open : g_open g' = g_open g - Z.b2z (open && is_open c);
  ct_imp : g_imp g' = g_imp g - Z.b2z (open && is_imp c);
  ct_active : g_active g' = g_active g - Z.b2z (active && is_active c);
  ct_nopen : n_open g' = n_open g; ct_nimp : n_imp g' = n_imp g; ct_nactive : n_active g' = n_active g }.
Lemma uncount_open_safe i z g Q :
  settled cfg g -> counted cfg z g ->
  (forall g', counted_out (z_cond z) true false g g' -> Q (one i z (Some g')) tt) ->
  vsafe (one i z (Some g)) (uncount_open_prog (z_cond z)) Q.
Proof.
  intros Hs Hc HQ. pose proof Hcfg as [].
  destruct (z_cond z) eqn:Ec; cbn [uncount_open_prog]; repeat (vstep; try numbers); apply HQ; split; cbn [andb]; numbers.
Qed.
Lemma uncount_active_safe i z g0 g Q :
  settled cfg g0 -> counted cfg z g0 -> counted_out (z_cond z) true false g0 g ->
  (forall g', counted_out (z_cond z) true true g0 g' -> Q (one i z (Some g')) tt) ->
  vsafe (one i z (Some g)) (uncount_active_prog (z_cond z)) Q.
Proof.
  intros Hs Hc [] HQ. pose proof Hcfg as []. unfold uncount_active_prog.
  destruct (is_active (z_cond z)) eqn:Ea; cbn [andb] in *.
  - destruct Hs, Hc. rewrite Ea in *. cbn [Z.b2z] in *. vstep; [lia|]. apply HQ.
    split; cbn [andb add_g_active g_open g_imp g_active n_open n_imp n_active]; rewrite ?Ea; cbn [Z.b2z]; lia.
  - vstep. apply HQ. split; cbn [andb Z.b2z] in *; rewrite ?Ea; cbn [Z.b2z]; lia.
Qed.

(** The zone with its new condition is counted again. *)
Lemma counted_out_settled z z' g g' :
  settled cfg g -> counted_out (z_cond z) true true g g' -> is_open (z_cond z') = false -> is_imp (z_cond z') = false ->
  is_active (z_cond z') = false -> settled cfg (recount z z' g').
Proof.
  intros [] [] Ho Hi Ha. cbn [andb] in *.
  split; cbn [recount g_open g_imp g_active n_open n_imp n_active]; rewrite ?Ho, ?Hi, ?Ha; cbn [Z.b2z];
    destruct (is_active (z_cond z)), (is_open (z_cond z)); cbn [Z.b2z] in *; lia.
Qed.

Lemma settled_recount_same z z' g : z_cond z' = z_cond z -> settled cfg g -> settled cfg (recount z z' g).
Proof.
  intros Hc []. split; cbn [recount g_open g_imp g_active n_open n_imp n_active]; rewrite ?Hc; lia.
Qed.
Lemma wf_seq i z : zone_wf cfg i z -> z_cond z <> BLK_ZONE_COND_NOT_WP -> num_conventional_zones cfg <= Z.of_nat i.
Proof.
  intros [] Hc. destruct (Z.ltb_spec (Z.of_nat i) (num_conventional_zones cfg)); [|lia]. by destruct zw_cond.
Qed.
(** Where a zone ends, in the arithmetic of the machine. *)
Lemma wf_numbers i z :
  zone_wf cfg i z -> Z.of_nat i < num_zones cfg ->
  0 <= z_start z /\ 0 <= zone_sectors cfg /\ z_start z + zone_sectors cfg <= 2 ^ 31.
Proof. intros [] Hi. destruct Hcfg. assert (0 <= zone_sectors cfg) by (unfold SECTOR_SIZE in *; lia). nia. Qed.

Lemma mark_switch_safe zone z g Q :
  0 <= zone < num_zones cfg -> zone_wf cfg (Z.to_nat zone) z -> settled cfg g -> counted cfg z g ->
  (forall z' g' r, zone_wf cfg (Z.to_nat zone) z' -> settled cfg g' -> Q (one (Z.to_nat zone) z' (Some g')) r) ->
  vsafe (one (Z.to_nat zone) z (Some g)) (mark_switch_prog zone) Q.
Proof.
  intros Hzone Hwf Hs Hc HQ. destruct (wf_numbers _ _ Hwf) as (Hb1 & Hb2 & Hb3); [lia|].
  assert (u64 (z_start z + z_len z) = z_start z + zone_sectors cfg) as Hend.
  { destruct Hwf as [_ Hlen _ _ _ _ _]. rewrite Hlen. apply wrap_small. lia. }
  assert (z_cond z <> BLK_ZONE_COND_NOT_WP ->
    vsafe (one (Z.to_nat zone) z (Some g))
      (_ ← uncount_open_prog (z_cond z); _ ← uncount_active_prog (z_cond z); _ ← set_cond zone BLK_ZONE_COND_FULL;
       z ← read_zone zone; _ ← set_wp zone (u64 (z_start z + z_len z)); mret BLK_STS_OK) Q) as Hfull.
  { intros Hn. vstep. apply uncount_open_safe; [done..|]. intros g1 H1.
    vstep. eapply uncount_active_safe; [done..|]. intros g2 H2. repeat vstep. cbn [with_cond z_start z_len]. rewrite Hend.
    apply HQ; [apply zone_wf_full; [done..|by eapply wf_seq|done]|].
    apply settled_recount_same; [done|]. by eapply counted_out_settled. }
  unfold mark_switch_prog. vstep. vstep.
  destruct (z_cond z) eqn:Ec; first [apply Hfull; congruence | vstep; by apply HQ].
Qed.
Lemma mark_zone_full_locked_safe zone z Q :
  0 <= zone < num_zones cfg -> zone_wf cfg (Z.to_nat zone) z ->
  (forall z' r, zone_wf cfg (Z.to_nat zone) z' -> Q (one (Z.to_nat zone) z' None) r) ->
  vsafe (one (Z.to_nat zone) z None) (mark_zone_full_locked_prog zone) Q.
Proof.
  intros Hzone Hwf HQ. unfold mark_zone_full_locked_prog. vstep. vstep. apply mark_switch_safe; try done.
  intros z' g' r Hwf' Hg'. vstep. vstep; [done|]. vstep. by apply HQ.
Qed.

Lemma close_switch_safe zone z g Q :
  0 <= zone < num_zones cfg -> zone_wf cfg (Z.to_nat zone) z -> settled cfg g -> counted cfg z g ->
  (forall z' g' r, zone_wf cfg (Z.to_nat zone) z' -> settled cfg g' -> Q (one (Z.to_nat zone) z' (Some g')) r) ->
  vsafe (one (Z.to_nat zone) z (Some g)) (close_switch_prog zone) Q.
Proof.
  intros Hzone Hwf Hs Hc HQ. pose proof Hcfg as [].
  assert (is_active (z_cond z) = true ->
    vsafe (one (Z.to_nat zone) z (Some g))
      (_ ← uncount_open_prog (z_cond z); z ← read_zone zone;
       if z_wp z =? z_start z then _ ← set_cond zone BLK_ZONE_COND_EMPTY; _ ← count_active (-1); mret BLK_STS_OK
       else _ ← set_cond zone BLK_ZONE_COND_CLOSED; mret BLK_STS_OK) Q) as Hclose.
  { intros Ha. assert (num_conventional_zones cfg <= Z.of_nat (Z.to_nat zone)) as Hseq.
    { eapply wf_seq; [done|]. by intros Hn; rewrite Hn in Ha. }
    vstep. apply uncount_open_safe; [done..|]. intros g1 [H1 H2 H3 H4 H5 H6]. cbn [andb Z.b2z] in *.
    vstep. vstep. destruct Hs, Hc. rewrite Ha in *. cbn [Z.b2z] in *.
    assert (0 <= Z.b2z (is_open (z_cond z))) by (destruct (is_open _); done).
    destruct (_ =? _); repeat (vstep; try (cbn [recount g_active]; lia)); apply HQ;
      try (apply zone_wf_cond; [done..|set_solver]);
      split; cbn [recount add_g_active g_open g_imp g_active n_open n_imp n_active with_cond z_cond]; rewrite ?Ha;
      known_counts; cbn [Z.b2z]; lia. }
  unfold close_switch_prog. vstep. vstep.
  destruct (z_cond z) eqn:Ec; first [apply Hclose; done | vstep; by apply HQ].
Qed.

Lemma reset_switch_safe zone z g Q :
  0 <= zone < num_zones cfg -> zone_wf cfg (Z.to_nat zone) z -> settled cfg g -> counted cfg z g ->
  (forall z' g' r, zone_wf cfg (Z.to_nat zone) z' -> settled cfg g' -> Q (one (Z.to_nat zone) z' (Some g')) r) ->
  vsafe (one (Z.to_nat zone) z (Some g)) (reset_switch_prog zone) Q.
Proof.
  intros Hzone Hwf Hs Hc HQ.
  assert (z_cond z <> BLK_ZONE_COND_NOT_WP ->
    vsafe (one (Z.to_nat zone) z (Some g))
      (_ ← uncount_open_prog (z_cond z); _ ← uncount_active_prog (z_cond z); _ ← set_cond zone BLK_ZONE_COND_EMPTY;
       z ← read_zone zone; _ ← set_wp zone (z_start z); mret (inr tt)) Q) as Hreset.
  { intros Hn. vstep. apply uncount_open_safe; [done..|]. intros g1 H1.
    vstep. eapply uncount_active_safe; [done..|]. intros g2 H2. repeat vstep. cbn [with_cond z_start].
    destruct (wf_numbers _ _ Hwf) as (? & ? & ?); [lia|].
    apply HQ; [|apply settled_recount_same; [done|]; by eapply counted_out_settled].
    apply zone_wf_wp; [apply zone_wf_cond; [done..|by eapply wf_seq|set_solver]|by eapply wf_seq|done|cbn; lia]. }
  unfold reset_switch_prog. vstep. vstep.
  destruct (z_cond z) eqn:Ec; first [vstep; by apply HQ | apply Hreset; congruence].
Qed.

(** ** Reads, writes and appends *)
Context `{RT : !RawTotal W cfg}.
(** An operation returns its locks. *)
Definition returned {A} (V : view) (_ : A) : Prop := V = none.

Lemma zoned_read_safe data offset length :
  in_zones cfg offset -> on_disk cfg offset length -> vsafe none (zoned_read_prog cfg data offset length) returned.
Proof.
  intros Hz Hon. destruct (zone_number_range cfg Hcfg offset Hz) as [_ Hr]. unfold zoned_read_prog.
  vstep. apply one_lock_zone; [done|]. intros z Hwf. repeat vstep; [done|].
  apply vsafe_raw; [intros w; by apply raw_read_total|done].
Qed.
Lemma write_finish_safe zone z data offset length out :
  0 <= zone < num_zones cfg -> zone_wf cfg (Z.to_nat zone) z -> on_disk cfg offset length ->
  vsafe (one (Z.to_nat zone) z None) (write_finish_prog zone data offset length out) returned.
Proof.
  intros Hr Hwf Hon. unfold write_finish_prog. do 6 vstep; [done|].
  vstep. apply vsafe_raw; [intros w; by apply raw_write_total|]. intros r. by vstep.
Qed.
Lemma advance_wp_safe zone z length Q :
  0 <= zone < num_zones cfg -> zone_wf cfg (Z.to_nat zone) z -> z_cond z ∈ usable ->
  0 <= length -> z_wp z + length / SECTOR_SIZE <= z_start z + zone_sectors cfg ->
  (forall z', zone_wf cfg (Z.to_nat zone) z' -> Q (one (Z.to_nat zone) z' None) tt) ->
  vsafe (one (Z.to_nat zone) z None) (advance_wp_prog zone length) Q.
Proof.
  intros Hr Hwf Hc Hlen Hfit HQ. destruct (wf_numbers _ _ Hwf) as (Hb1 & Hb2 & Hb3); [lia|].
  assert (0 <= length / SECTOR_SIZE) by (apply Z.div_pos; unfold SECTOR_SIZE; lia).
  pose proof Hwf as []. unfold advance_wp_prog. repeat vstep. rewrite wrap_small by lia.
  assert (zone_wf cfg (Z.to_nat zone) (with_wp z (z_wp z + length / SECTOR_SIZE))) as Hwf1.
  { apply zone_wf_wp; [done|by eapply usable_seq| |lia]. intros Hf. rewrite Hf in Hc. set_solver. }
  destruct (_ =? _); [|vstep; by apply HQ].
  vstep. apply mark_zone_full_locked_safe; [done..|]. intros z' r Hwf'. vstep. by apply HQ.
Qed.
Lemma out_unlock_safe zone z result out :
  zone_wf cfg (Z.to_nat zone) z -> vsafe (one (Z.to_nat zone) z None) (out_unlock zone result out) returned.
Proof. intros Hwf. unfold out_unlock. vstep. vstep; [done|]. by vstep. Qed.
Lemma write_switch_safe zone z data offset length out :
  0 <= zone < num_zones cfg -> zone_wf cfg (Z.to_nat zone) z -> on_disk cfg offset length ->
  z_wp z + length / SECTOR_SIZE <= z_start z + zone_sectors cfg ->
  vsafe (one (Z.to_nat zone) z None) (write_switch_prog cfg zone data offset length out) returned.
Proof.
  intros Hr Hwf Hon Hfit. pose proof Hon as (_ & Hlen & _).
  assert (forall z', zone_wf cfg (Z.to_nat zone) z' -> z_cond z' ∈ usable -> z_wp z' = z_wp z -> z_start z' = z_start z ->
    vsafe (one (Z.to_nat zone) z' None)
      (_ ← advance_wp_prog zone length; write_finish_prog zone data offset length out) returned) as Hrest.
  { intros z' Hwf' Hc' Hw Hs. vstep. apply advance_wp_safe; rewrite ?Hw, ?Hs; try done. intros z1 Hwf1. by apply write_finish_safe. }
  assert (z_cond z ∈ usable -> vsafe (one (Z.to_nat zone) z None)
    (result ← open_zone_locked_prog cfg zone false;
     if negb (result =? BLK_STS_OK) then out_unlock zone result out
     else _ ← advance_wp_prog zone length; write_finish_prog zone data offset length out) returned) as Hopen.
  { intros Hc. vstep. apply open_zone_locked_safe; [done..|]. intros c r Hc'.
    assert (zone_wf cfg (Z.to_nat zone) (with_cond z c)) by (apply zone_wf_cond; [done..|by eapply usable_seq|done]).
    destruct (negb _); [by apply out_unlock_safe|by apply Hrest]. }
  unfold write_switch_prog. vstep. vstep.
  destruct (z_cond z) eqn:Ec; first [apply Hopen; set_solver | apply Hrest; [done|rewrite Ec; set_solver|done..]
    | by apply out_unlock_safe].
Qed.

Lemma wf_on_disk i z :
  zone_wf cfg i z -> Z.of_nat i < num_zones cfg ->
  (z_start z + zone_sectors cfg) * SECTOR_SIZE <= zoned_disk_size cfg.
Proof.
  intros [] Hi. pose proof Hcfg as []. pose proof (Z.mul_div_le (zoned_disk_size cfg) (ZONE_SIZE cfg)) as Hd.
  fold (num_zones cfg) in Hd. rewrite zw_start. nia.
Qed.
Lemma zoned_write_common_safe data offset length want append :
  in_zones cfg offset -> 0 <= length < 2 ^ 63 -> (append = false -> on_disk cfg offset length) ->
  vsafe none (zoned_write_common_prog cfg data offset length want append) returned.
Proof.
  intros Hz Hlen Hon. destruct (zone_number_range cfg Hcfg offset Hz) as [_ Hr].
  unfold zoned_write_common_prog. set (zone := zone_number cfg offset) in *. vstep. apply one_lock_zone; [done|]. intros z Hwf.
  destruct (wf_numbers _ _ Hwf) as (Hb1 & Hb2 & Hb3); [lia|]. pose proof (wf_on_disk _ _ Hwf ltac:(lia)) as Hd.
  pose proof Hwf as []. pose proof (disk_fits cfg Hcfg) as Hfits. destruct Hz as [Hz1 Hz2].
  vstep. vstep. case_bool_decide as Hty.
  { destruct append; [by apply out_unlock_safe|by apply write_finish_safe; auto]. }
  vstep. vstep. assert (u64 (z_wp z * SECTOR_SIZE) = z_wp z * SECTOR_SIZE /\ s64 (z_wp z * SECTOR_SIZE) = z_wp z * SECTOR_SIZE) as [-> ->].
  { split; [apply wrap_small|apply swrap_small]; unfold SECTOR_SIZE; lia. }
  rewrite (wrap_small 64 offset) by lia.
  destruct (negb append && negb (z_wp z * SECTOR_SIZE =? offset)) eqn:Ehead; [by apply out_unlock_safe|].
  vstep. vstep. set (off := if append then z_wp z * SECTOR_SIZE else offset).
  assert (off = z_wp z * SECTOR_SIZE) as Hoff.
  { unfold off. destruct append; [done|]. by apply negb_false_iff, Z.eqb_eq in Ehead. }
  assert (u64 (u64 (z_start z + z_capacity z) * SECTOR_SIZE) = (z_start z + zone_sectors cfg) * SECTOR_SIZE) as ->.
  { rewrite zw_capacity, (wrap_small 64 (_ + _)) by lia. apply wrap_small. unfold SECTOR_SIZE; lia. }
  assert (u64 (off + length) = off + length) as -> by (apply wrap_small; rewrite Hoff; unfold SECTOR_SIZE; lia).
  destruct (Z.ltb_spec ((z_start z + zone_sectors cfg) * SECTOR_SIZE) (off + length)) as [|Hfit]; [by apply out_unlock_safe|].
  apply write_switch_safe; [done..| |].
  - split_and!; [rewrite Hoff; unfold SECTOR_SIZE|..]; lia.
  - rewrite Hoff in Hfit. unfold SECTOR_SIZE in *. pose proof (Z.mul_div_le length 512). lia.
Qed.

(** ** Zone management *)
Lemma copy_zones_safe zone n :
  0 <= zone -> zone + Z.of_nat n <= num_zones cfg -> vsafe none (copy_zones_prog zone n) returned.
Proof.
  revert zone. induction n as [|n IH]; intros zone Hz Hn; cbn [copy_zones_prog]; [by vstep|].
  vstep. apply one_lock_zone; [lia|]. intros z Hwf. repeat vstep; [done|]. eapply vsafe_mono; [apply IH; lia|].
  intros V rest ->. by vstep.
Qed.
Lemma zoned_report_zones_safe offset nr :
  in_zones cfg offset -> 0 <= nr < 2 ^ 31 -> vsafe none (zoned_report_zones_prog cfg offset nr) returned.
Proof.
  intros Hz Hnr. destruct (zone_number_range cfg Hcfg offset Hz) as [_ Hr]. pose proof Hcfg as [].
  assert (num_zones cfg <= 2 ^ 31) by (assert (1 <= zone_sectors cfg) by (unfold SECTOR_SIZE in *; lia); nia).
  unfold zoned_report_zones_prog. rewrite (swrap_small 32 (zone_number cfg offset)) by lia. vstep.
  apply (vsafe_mono _ _ _ returned); [|intros V zs ->; by vstep]. rewrite (wrap_small 64 nr), (wrap_small 64 (_ - _)) by lia.
  apply copy_zones_safe; [lia|]. destruct (Z.ltb_spec (num_zones cfg - zone_number cfg offset) nr);
    rewrite swrap_small by lia; lia.
Qed.

Lemma zoned_open_zone_safe offset : in_zones cfg offset -> vsafe none (zoned_open_zone_prog cfg offset) returned.
Proof.
  intros Hz. destruct (zone_number_range cfg Hcfg offset Hz) as [_ Hr]. unfold zoned_open_zone_prog.
  vstep. apply one_lock_zone; [done|]. intros z Hwf. vstep. vstep. vstep.
  apply (vsafe_mono _ _ _ (fun V _ => exists z', zone_wf cfg (Z.to_nat (zone_number cfg offset)) z' /\
           V = one (Z.to_nat (zone_number cfg offset)) z' None)).
  - assert (z_cond z ∈ usable -> vsafe (one (Z.to_nat (zone_number cfg offset)) z None)
      (open_zone_locked_prog cfg (zone_number cfg offset) true)
      (fun V _ => exists z', zone_wf cfg (Z.to_nat (zone_number cfg offset)) z' /\
           V = one (Z.to_nat (zone_number cfg offset)) z' None)) as Ho.
    { intros Hc. apply open_zone_locked_safe; [done..|]. intros c r Hc'. eexists. split; [|done].
      apply zone_wf_cond; [done..|by eapply usable_seq|done]. }
    destruct (z_cond z) eqn:Ec; first [apply Ho; set_solver | vstep; by exists z].
  - intros V r (z' & Hwf' & ->). vstep. vstep; [done|]. by vstep.
Qed.
Lemma zoned_close_zone_safe offset : in_zones cfg offset -> vsafe none (zoned_close_zone_prog cfg offset) returned.
Proof.
  intros Hz. destruct (zone_number_range cfg Hcfg offset Hz) as [_ Hr]. unfold zoned_close_zone_prog.
  vstep. apply one_lock_zone; [done|]. intros z Hwf. vstep. vstep. apply close_switch_safe; [done..|].
  intros z' g' r Hwf' Hg'. repeat vstep; done.
Qed.
Lemma zoned_finish_zone_safe offset : in_zones cfg offset -> vsafe none (zoned_finish_zone_prog cfg offset) returned.
Proof.
  intros Hz. destruct (zone_number_range cfg Hcfg offset Hz) as [_ Hr]. unfold zoned_finish_zone_prog.
  vstep. apply one_lock_zone; [done|]. intros z Hwf. vstep. apply mark_zone_full_locked_safe; [done..|].
  intros z' r Hwf'. vstep. vstep; [done|]. by vstep.
Qed.
Lemma zoned_reset_zone_safe offset : in_zones cfg offset -> vsafe none (zoned_reset_zone_prog cfg offset) returned.
Proof.
  intros Hz. destruct (zone_number_range cfg Hcfg offset Hz) as [_ Hr]. unfold zoned_reset_zone_prog.
  vstep. apply one_lock_zone; [done|]. intros z Hwf. do 12 vstep. apply reset_switch_safe; [done..|].
  intros z' g' r Hwf' Hg'. vstep. vstep; [done|]. vstep. vstep; [done|]. destruct r as [r|[]]; [by vstep|].
  vstep. apply (vsafe_read_unlocked _ none); [done|]. intros y Hgeo. apply vsafe_raw; [|done]. intros w. apply raw_discard_total.
  pose proof (init_zone_wf cfg Hcfg (Z.to_nat (zone_number cfg offset)) ltac:(lia)) as Hy.
  rewrite Z2Nat.id in Hy by lia. destruct (wf_numbers _ _ Hy) as (? & ? & ?); [lia|]. pose proof (wf_on_disk _ _ Hy ltac:(lia)) as Hd.
  injection Hgeo as -> -> _ _. rewrite (zw_len _ _ _ Hy).
  rewrite swrap_small, wrap_small by (unfold SECTOR_SIZE in *; lia). split_and!; unfold SECTOR_SIZE in *; lia.
Qed.
End operations.
