(* ===== verification/ZonedRuns.v ===== *)
(** * Runs of threads on a zoned device

    The threads of a driver serve requests at the same time: what every
    interleaving keeps, when all of them finish, and the two interleavings that go
    wrong: a circle of spin locks, and a reset of all zones during a write. *)
From S2P Require Import Prelude Protocol Zoned ZonedInv ZonedProps Threads ZonedLocks ZonedErase ZonedRely ZonedThreads RamDisk.

Section runs.
Context {W : Type} `{RO : RawOps W} (cfg : zone_config) (Hcfg : cfg_ok cfg) `{RT : !RawTotal W cfg}.
Implicit Types s : zstate W.

(** Requests on the disk, other than a reset of all zones. *)
Definition locking (op : zop) : Prop := op_ok cfg op /\ op <> ZResetAll.

Lemma zop_safe op : locking op -> vsafe (W := W) cfg none (zop_prog cfg op) returned.
Proof.
  intros [Hok Hne]. assert (zoned_disk_size cfg < 2 ^ 63) by (destruct Hcfg; lia).
  destruct op; cbn [zop_prog op_ok] in *; unfold zoned_write_prog, zoned_append_zone_prog; try done.
  - destruct Hok. by apply zoned_read_safe.
  - destruct Hok as [? Hon]. vstep. eapply vsafe_mono; [apply zoned_write_common_safe; try done|intros V r ->; by vstep].
    destruct Hon as (? & ? & ?). lia.
  - destruct Hok. vstep. eapply vsafe_mono; [by apply zoned_write_common_safe|intros V r ->; by vstep].
  - destruct Hok. vstep. eapply vsafe_mono; [by apply zoned_report_zones_safe|intros V r ->; by vstep].
  - by apply zoned_open_zone_safe.
  - by apply zoned_close_zone_safe.
  - by apply zoned_finish_zone_safe.
  - by apply zoned_reset_zone_safe.
Qed.
Lemma worker_safe ops : Forall locking ops -> vsafe (W := W) cfg none (worker cfg ops) returned.
Proof.
  induction 1 as [|op ops Hop _ IH]; cbn [worker]; [by vstep|].
  vstep. eapply vsafe_mono; [by apply zop_safe|]. intros V r ->. vstep. eapply vsafe_mono; [done|].
  intros V rs ->. by vstep.
Qed.

Lemma zinv_shape s : zinv cfg s -> shape_ok cfg s.
Proof.
  intros []. split_and!; [done..|]. intros i z Hz. pose proof (lookup_lt_Some _ _ _ Hz).
  destruct (zi_wf i z Hz) as [Hs Hl Hc _ Ht _ _]. destruct (init_zone_wf cfg Hcfg i ltac:(lia)) as [Hs' Hl' Hc' _ Ht' _ _].
  unfold geometry. by rewrite Hs, Hl, Hc, Ht, Hs', Hl', Hc', Ht'.
Qed.
Lemma threads_disciplined s opss :
  zinv cfg s -> Forall (Forall locking) opss -> disciplined (GD := zoned_guarded cfg) (in_order cfg) (threads cfg s opss).
Proof.
  intros Hinv Hok. apply fresh_disciplined; [intros l; by apply zinv_lock_inv|].
  intros p Hp s' Hr. apply list_elem_of_fmap in Hp as (ops & -> & Hops).
  assert (locks_of none = ∅) as Hnone.
  { apply locks_eq; cbn; intros; rewrite ?lookup_empty, elem_of_empty; split; done || by intros []. }
  assert (sees cfg none s) as Hs by (split; [by apply zinv_shape|done..]).
  rewrite <- Hnone in *. eapply safe_mono; [|eapply worker_safe; [|by eapply sees_rely]].
  - intros H a s1 (V' & -> & _ & ->). by unfold ends_unlocked.
  - by eapply Forall_forall in Hops.
Qed.

Lemma run_shape s opss c :
  zinv cfg s -> Forall (Forall locking) opss -> creachable (threads cfg s opss) c -> shape_ok cfg (c_state c).
Proof.
  intros Hinv Hok Hr. pose proof (threads_disciplined s opss Hinv Hok) as Hd.
  apply (reachable_stable (in_order cfg) (shape_ok cfg) _ _) with (2 := Hd) (3 := Hr); [|by apply zinv_shape].
  intros H s1 s2 (Hs & _). by apply same_shape_ok.
Qed.
Lemma run_unlocked s opss c :
  zinv cfg s -> Forall (Forall locking) opss -> creachable (threads cfg s opss) c -> c_owner c = ∅ ->
  zinv cfg (c_state c).
Proof.
  intros Hinv Hok Hr Hl. pose proof (threads_disciplined s opss Hinv Hok) as Hd.
  eapply disciplined_reachable in Hd; [|done]. apply unlocked_zinv; [by eapply run_shape|].
  intros l. apply (dc_free _ _ Hd). by rewrite Hl.
Qed.

(** C22: Any number of threads serve requests at the same time, none of them a reset of all
    zones, interleaved in any way: no access faults, no thread returns a lock that is not
    its own, a zone whose lock is free is well formed, the counters are right while
    [global_lock] is free, and the whole invariant holds while no lock is taken. (The
    configuration satisfies [cfg_ok].) *)
Theorem threads_keep_invariant s opss c :
  zinv cfg s -> Forall (Forall locking) opss -> creachable (threads cfg s opss) c ->
  (forall t, step t c <> Failed) /\
  (forall i z, c_owner c !! zone_locks i = None -> zone_info (c_state c) !! i = Some z -> zone_wf cfg i z) /\
  (c_owner c !! global_lock = None -> counts_ok cfg (c_state c)) /\
  (c_owner c = ∅ -> zinv cfg (c_state c)).
Proof.
  intros Hinv Hok Hr. pose proof (threads_disciplined s opss Hinv Hok) as Hd.
  eapply disciplined_reachable in Hd; [|done]. split_and!.
  - intros t. by eapply disciplined_no_failure.
  - intros i z Hl. exact (dc_free _ _ Hd _ Hl z).
  - apply (dc_free _ _ Hd).
  - by eapply run_unlocked.
Qed.

(** C23: If every zone may be open at the same time and no request is a reset of all zones,
    nobody waits for ever: whatever was scheduled so far, all threads can be run to the end
    of their requests, and no schedule goes on for ever. *)
Theorem threads_finish s opss c :
  num_zones cfg <= max_open_zones cfg ->
  zinv cfg s -> Forall (Forall locking) opss -> creachable (threads cfg s opss) c ->
  Acc (fun c2 c1 => exists t, step t c1 = Moved c2) c /\
  (all_finished c \/ exists t c', step t c = Moved c') /\
  exists c', creachable c c' /\ all_finished c' /\ zinv cfg (c_state c').
Proof.
  intros Hroom Hinv Hok Hr. pose proof (threads_disciplined s opss Hinv Hok) as Hd.
  eapply disciplined_reachable in Hd; [|done].
  assert (forall H l, in_order cfg H l -> forall h, h ∈ H -> (lock_rank h < lock_rank l)%nat) as Hrank by (intros ?? Ho; by apply Ho).
  assert (forall l, (lock_rank l <= 1)%nat) as Htop by (intros []; cbn; lia).
  split_and!; [apply steps_acc|by eapply ranked_progress|].
  destruct (ranked_finishes (in_order cfg) lock_rank 1 Hrank Htop c Hd) as (c' & Hr' & Hf). exists c'. split_and!; [done..|].
  eapply run_unlocked; [done..|by eapply creachable_trans|]. eapply finished_unlocked; [|done]. by eapply disciplined_reachable.
Qed.

(** A thread that is not interrupted computes what the operations of [Zoned.v] say, one
    request after the other, while the other threads are between requests. *)
Lemma worker_alone s opss t ops rs s' :
  zinv cfg s -> Forall (Forall locking) opss -> opss !! t = Some ops -> run_zops cfg ops s = Ret (rs, s') ->
  creachable (threads cfg s opss) (Config s' ∅ (<[t := Done rs]> (worker cfg <$> opss))).
Proof.
  intros Hinv Hok Ht Hrun. pose proof (threads_disciplined s opss Hinv Hok) as Hd.
  eapply (alone_finishes _ _ t (worker cfg ops)) in Hd; [exact Hd|done| |].
  - cbn. by rewrite list_lookup_fmap, Ht.
  - rewrite worker_erase; [done|]. eapply Forall_lookup_1 in Ht; [|exact Hok]. eapply Forall_impl; [exact Ht|by intros op []].
Qed.
End runs.

(** ** Threads that wait for each other

    At the open limit [open_zone_locked] takes the locks of other zones while it
    owns [global_lock]; every other operation takes them the other way round. *)
Definition nth_zone (i : Z) : Z := i * ZONE_SIZE zoned_ramdisk.
(** One thread writes to zone 0 and opens the 31 that fill the limit, and one more;
    the other closes zone 0. *)
Definition opener : list zop := ZWrite 0 0 512 :: ((fun i => ZOpen (nth_zone i)) <$> seqZ 1 32).
Definition closer : list zop := [ZClose 0].
Definition zoned_ramdisk_threads : config zlock (zstate ram) (list Z) :=
  threads zoned_ramdisk (initial_state zoned_ramdisk (Ram ∅ ∅)) [opener; closer].

Lemma opener_closer_locking : Forall (Forall (locking zoned_ramdisk)) [opener; closer].
Proof.
  by repeat constructor.
Qed.

Definition deadlock_schedule : list nat := replicate 430 0%nat ++ [1%nat] ++ replicate 6 0%nat.

(** the RAM disk of [zoned-ramdisk.c], with 1024 zones of which 32 may be open: opening
    one zone more waits for the lock of zone 0 with [global_lock] in hand, closing
    zone 0 waits for [global_lock] with that lock in hand, for ever. *)
Theorem open_at_limit_deadlocks :
  exists c, creachable zoned_ramdisk_threads c /\ deadlocked c /\
    c_owner c !! zone_locks 0 = Some 1%nat /\ c_owner c !! global_lock = Some 0%nat.
Proof.
  destruct (deadlocks_correct deadlock_schedule zoned_ramdisk_threads) as (c & Hr & Hd); [by vm_compute|].
  exists c. split_and!; [by eapply run_reachable|done|..].
  - assert (run deadlock_schedule zoned_ramdisk_threads ≫= (fun c => c_owner c !! zone_locks 0) = Some 1%nat) as Ho
      by by vm_compute.
    by rewrite Hr in Ho.
  - assert (run deadlock_schedule zoned_ramdisk_threads ≫= (fun c => c_owner c !! global_lock) = Some 0%nat) as Ho
      by by vm_compute.
    by rewrite Hr in Ho.
Qed.

(** ** A reset of all zones during a write *)
Definition reset_race : config zlock (zstate unit) (list Z) :=
  threads small fresh [[ZWrite 0 2048 512]; [ZResetAll]].

(** [zoned_reset_all_zone] takes no zone lock, so it may come between the checks of a
    write and the move of the write pointer.  Both succeed, and leave an empty zone
    whose write pointer is not at its start, which no order of the two alone does:
    the zone then takes no write at its start, and resetting it does not help. *)
Lemma reset_all_races :
  exists c, creachable reset_race c /\ c_threads c = [Done [BLK_STS_OK]; Done [BLK_STS_OK]] /\
    z_cond (zone_of 1 (c_state c)) = BLK_ZONE_COND_EMPTY /\
    z_wp (zone_of 1 (c_state c)) = z_start (zone_of 1 (c_state c)) + 1 /\
    (exists s, run_zops small [ZReset 2048; ZWrite 0 2048 512] (c_state c) = Ret ([BLK_STS_OK; BLK_STS_IOERR], s)) /\
    (forall ops, ops = [ZWrite 0 2048 512; ZResetAll] \/ ops = [ZResetAll; ZWrite 0 2048 512] ->
       wp (run_zops small ops) (fun rs s => rs = [BLK_STS_OK; BLK_STS_OK] /\
         (z_cond (zone_of 1 s) = BLK_ZONE_COND_EMPTY -> z_wp (zone_of 1 s) = z_start (zone_of 1 s))) fresh).
Proof.
  destruct (run (replicate 17 0%nat ++ replicate 34 1%nat ++ replicate 7 0%nat) reset_race) as [c|] eqn:Hr;
    [|by vm_compute in Hr].
  exists c. split; [by eapply run_reachable|]. vm_compute in Hr. injection Hr as <-.
  split_and!; [reflexivity..|by eexists; vm_compute|].
  intros ops [-> | ->]; vm_compute; by split.
Qed.

(** ** Concrete runs: two threads write to zones of their own *)
Definition two_writers (cfg : zone_config) : config zlock (zstate unit) (list Z) :=
  threads cfg (initial_state cfg tt) [[ZWrite 0 2048 512]; [ZWrite 0 4096 512]].
(** In turn, but for the waits. *)
Definition in_turn : list nat :=
  concat (replicate 5 [0%nat; 1%nat]) ++ replicate 12 0%nat ++ concat (replicate 7 [1%nat; 0%nat]) ++ replicate 16 1%nat.
Definition wide : zone_config := ZoneConfig 2048 8192 1 4 4.
Lemma wide_ok : cfg_ok wide.
Proof. by split. Qed.
Lemma writers_locking cfg :
  cfg = small \/ cfg = wide -> Forall (Forall (locking cfg)) [[ZWrite 0 2048 512]; [ZWrite 0 4096 512]].
Proof. by intros [-> | ->]; repeat constructor. Qed.

Lemma threads_keep_invariant_witness :
  exists c, run in_turn (two_writers small) = Some c /\ all_finished c /\ zinv small (c_state c).
Proof.
  destruct (run in_turn (two_writers small)) as [c|] eqn:Hr; [|by vm_compute in Hr].
  exists c. split; [done|].
  assert (c_owner c = ∅ /\ all_finished c) as [Ho Hf].
  { vm_compute in Hr. injection Hr as <-. split; [reflexivity|]. by repeat constructor. }
  split; [done|]. apply (threads_keep_invariant small small_ok fresh [[ZWrite 0 2048 512]; [ZWrite 0 4096 512]] c); [..|done].
  - apply (initial_inv small small_ok).
  - apply writers_locking. by left.
  - by eapply run_reachable.
Defined.
(** Both are inside their writes. *)
Lemma threads_finish_witness :
  exists c c', run (take 10 in_turn) (two_writers wide) = Some c /\
    creachable c c' /\ all_finished c' /\ zinv wide (c_state c').
Proof.
  assert (match run (take 10 in_turn) (two_writers wide) with Some _ => true | None => false end = true) as Hs
    by by vm_compute.
  destruct (run (take 10 in_turn) (two_writers wide)) as [c|] eqn:Hr; [|done].
  exists c. destruct (threads_finish wide wide_ok (initial_state wide tt) [[ZWrite 0 2048 512]; [ZWrite 0 4096 512]] c)
    as (_ & _ & c' & Hc').
  - by vm_compute.
  - apply (initial_inv wide wide_ok).
  - apply writers_locking. by right.
  - by eapply run_reachable.
  - by exists c'.
Defined.
