(* ===== verification/Statistics.v ===== *)
(** * The statistics of the zoned RAM disk

    [sigint_handler] of [examples/zoned-ramdisk.c]: the numbers it prints, by zone
    and in total; that it may run beside the threads of the driver; and that it may
    not interrupt one of them, which is what a signal does. *)
From S2P Require Import Prelude Protocol Zoned ZonedInv ZonedProps Threads ZonedLocks ZonedErase ZonedRely ZonedThreads ZonedRuns RamDisk.

(** ** The numbers it prints *)
Section statistics.
Context {W : Type} (cfg : zone_config).
Implicit Types s : zstate W.

Record zone_line := ZoneLine {
  zl_zone : Z; zl_read : Z; zl_write : Z; zl_reset : Z; zl_discard : Z; zl_using : Z }.
Fixpoint sigint_loop (n : nat) (i read_total write_total discard_total : Z)
    : ST (zstate W) (list zone_line * (Z * Z * Z)) :=
  match n with
  | O => mret ([], (read_total, write_total, discard_total))
  | S n' =>
      z ← get_zone i;
      st ← get_stat i;
      rest ← sigint_loop n' (i + 1) (u64 (read_total + st_read st)) (u64 (write_total + st_written st))
               (u64 (discard_total + st_discard_count st));
      mret (ZoneLine i (st_read st) (st_written st) (st_reset_count st) (st_discard_count st)
              (u64 (u64 (z_wp z - z_start z) * SECTOR_SIZE)) :: rest.1, rest.2)
  end.
Definition sigint_handler : ST (zstate W) (list zone_line * (Z * Z * Z)) :=
  sigint_loop (Z.to_nat (num_zones cfg)) 0 0 0 0.

(** What is said of zone [i]. *)
Definition line_of (i : nat) (z : blk_zone) (st : zone_stat) : zone_line :=
  ZoneLine (Z.of_nat i) (st_read st) (st_written st) (st_reset_count st) (st_discard_count st)
    ((z_wp z - z_start z) * SECTOR_SIZE).
Definition sum_of (f : zone_stat -> Z) (l : list zone_stat) : Z := foldr (fun st t => f st + t) 0 l.

Lemma sigint_loop_spec s n (i : nat) rt wt dt :
  cfg_ok cfg -> zinv cfg s -> Z.of_nat i + Z.of_nat n = num_zones cfg ->
  0 <= rt < 2 ^ 64 -> 0 <= wt < 2 ^ 64 -> 0 <= dt < 2 ^ 64 ->
  sigint_loop n (Z.of_nat i) rt wt dt s
    = Ret ((zip_with (fun j zs => line_of j zs.1 zs.2) (seq i n) (zip (drop i (zone_info s)) (drop i (stats s))),
            (u64 (rt + sum_of st_read (drop i (stats s))), u64 (wt + sum_of st_written (drop i (stats s))),
             u64 (dt + sum_of st_discard_count (drop i (stats s))))), s).
Proof.
  intros Hcfg Hinv. pose proof (zi_zones cfg s Hinv) as Hlz. pose proof (zi_stats cfg s Hinv) as Hls.
  revert i rt wt dt. induction n as [|n IH]; intros i rt wt dt Hn Hr Hw Hd; cbn [sigint_loop].
  { rewrite (drop_ge (stats s)) by lia. unfold sum_of. cbn [foldr]. by rewrite !Z.add_0_r, !wrap_small. }
  destruct (lookup_lt_is_Some_2 (zone_info s) i ltac:(lia)) as [z Hz].
  destruct (lookup_lt_is_Some_2 (stats s) i ltac:(lia)) as [st Hst].
  unfold get_zone, get_stat, mbind, ST_bind, gets. rewrite Nat2Z.id, Hz. cbn [deref mret ST_ret]. rewrite Hst. cbn [deref mret ST_ret].
  replace (Z.of_nat i + 1) with (Z.of_nat (S i)) by lia.
  rewrite IH by (lia || (apply wrap_range; lia)). cbn [Datatypes.fst Datatypes.snd fst snd].
  rewrite (drop_S _ _ _ Hz), (drop_S _ _ _ Hst). cbn [seq zip zip_with sum_of foldr].
  assert (forall a b e, u64 (u64 (a + b) + e) = u64 (a + (b + e))) as Hadd.
  { intros. unfold wrap. by rewrite Zplus_mod_idemp_l, Z.add_assoc. }
  unfold sum_of. cbn [foldr]. rewrite !Hadd.
  assert (u64 (u64 (z_wp z - z_start z) * SECTOR_SIZE) = (z_wp z - z_start z) * SECTOR_SIZE) as Hu.
  { destruct (zone_bounds cfg Hcfg _ _ _ Hinv Hz) as (Hb1 & Hb2 & Hb3). pose proof Hcfg as [].
    destruct (zi_wf cfg s Hinv _ _ Hz) as [_ _ _ Hwp _ _ _]. unfold SECTOR_SIZE in *.
    rewrite (wrap_small 64 (z_wp z - z_start z)) by lia. apply wrap_small. lia. }
  unfold line_of at 1. by rewrite Hu.
Qed.

(** Every zone is reported, with the bytes below its write pointer, and the
    totals are the sums over the zones (in 64 bits). *)
Theorem sigint_handler_reports s :
  cfg_ok cfg -> zinv cfg s ->
  sigint_handler s
    = Ret ((zip_with (fun j zs => line_of j zs.1 zs.2) (seq 0 (Z.to_nat (num_zones cfg))) (zip (zone_info s) (stats s)),
            (u64 (sum_of st_read (stats s)), u64 (sum_of st_written (stats s)), u64 (sum_of st_discard_count (stats s)))), s).
Proof.
  intros Hcfg Hinv. unfold sigint_handler. pose proof Hcfg as [].
  by apply (sigint_loop_spec s (Z.to_nat (num_zones cfg)) 0 0 0 0 Hcfg Hinv); lia.
Qed.
End statistics.

(** ** With its locks *)
Section handler.
Context {W : Type} `{RO : RawOps W} (cfg : zone_config).
Abbreviation P := (prog zlock (zstate W)).
Implicit Types s : zstate W.

Fixpoint sigint_loop_prog (n : nat) (i read_total write_total discard_total : Z)
    : P (list zone_line * (Z * Z * Z)) :=
  match n with
  | O => mret ([], (read_total, write_total, discard_total))
  | S n' =>
      _ ← lock_zone i;
      z ← read_zone i;
      st ← read_stat i;
      _ ← unlock_zone i;
      rest ← sigint_loop_prog n' (i + 1) (u64 (read_total + st_read st)) (u64 (write_total + st_written st))
               (u64 (discard_total + st_discard_count st));
      mret (ZoneLine i (st_read st) (st_written st) (st_reset_count st) (st_discard_count st)
              (u64 (u64 (z_wp z - z_start z) * SECTOR_SIZE)) :: rest.1, rest.2)
  end.
Definition sigint_handler_prog : P (list zone_line * (Z * Z * Z)) :=
  sigint_loop_prog (Z.to_nat (num_zones cfg)) 0 0 0 0.

Lemma sigint_loop_erase n i rt wt dt s :
  erase (sigint_loop_prog n i rt wt dt) s = sigint_loop n i rt wt dt s.
Proof.
  revert i rt wt dt s. induction n as [|n IH]; intros i rt wt dt s; cbn [sigint_loop_prog sigint_loop]; [done|].
  estep_prog. apply (zone_cases i s); [by split; [apply no_zone_prog|apply no_zone_op]|]. intros z Hz.
  estep_prog. estep_op. cbv beta. apply (stat_cases i s); [by split; [apply no_stat_prog|apply no_stat_op]|].
  intros st Hst. esteps. apply erase_call; [apply IH|done].
Qed.

(** A process that catches the signal in thread [t]: the handler runs before
    what the thread was at. *)
Definition interrupt {A} (t : nat) (c : config zlock (zstate W) A) : config zlock (zstate W) A :=
  Config (c_state c) (c_owner c) (alter (fun p => _ ← sigint_handler_prog; p) t (c_threads c)).
End handler.

(** A thread that serves a read of zone 0. *)
Definition reader : config zlock (zstate ram) (list Z) :=
  threads zoned_ramdisk (initial_state zoned_ramdisk (Ram ∅ ∅)) [[ZRead 0 0 512]].

(** The signal comes while the only thread of the driver counts the bytes of a read:
    its handler waits for the lock of zone 0, which the thread it interrupted owns. *)
Theorem sigint_deadlocks :
  exists c c', creachable reader c /\ creachable (interrupt zoned_ramdisk 0 c) c' /\ deadlocked c'.
Proof.
  assert (match run [0%nat] reader with Some c => deadlocks [] (interrupt zoned_ramdisk 0 c) | None => false end = true)
    as Hd by by vm_compute.
  destruct (run [0%nat] reader) as [c|] eqn:Hr; [|done].
  apply deadlocks_correct in Hd as (c' & Hc' & Hd). exists c, c'. split_and!; [by eapply run_reachable|by eapply run_reachable|done].
Qed.

(** Run by a thread of its own it keeps to the discipline of the operations. *)
Section beside.
Context {W : Type} `{RO : RawOps W} (cfg : zone_config) (Hcfg : cfg_ok cfg).
Lemma sigint_loop_safe n i rt wt dt :
  0 <= i -> i + Z.of_nat n <= num_zones cfg -> vsafe (W := W) cfg none (sigint_loop_prog n i rt wt dt) returned.
Proof.
  revert i rt wt dt. induction n as [|n IH]; intros i rt wt dt Hi Hn; cbn [sigint_loop_prog]; [by vstep|].
  vstep. apply one_lock_zone; [lia|]. intros z Hwf. assert (0 <= i < num_zones cfg) by lia. repeat vstep; [done|].
  eapply vsafe_mono; [apply IH; lia|]. intros V rest ->. by vstep.
Qed.
End beside.
