(* ===== verification/ZonedDriver.v ===== *)
(** * A zoned driver behind the library

    [get_zoned_operations] of [examples/zoned-common.h] on the raw operations of
    a plain disk, as [zoned-ramdisk.c] and [zoned-passthrough.c] set it up, and
    what the clients of such a device see. *)
From S2P Require Import Prelude Protocol Linux Kernel Sample Command BlockDev CharDev CharDevProps.
From S2P Require Import LibBius LibBiusProps Backing Zoned ZonedInv ZonedProps Machine RamDisk Passthrough EndToEnd.

(** ** The operations *)

(** The values of the enumerators. *)
Definition zone_type_value (t : blk_zone_type) : Z :=
  match t with BLK_ZONE_TYPE_NONE => 0 | BLK_ZONE_TYPE_CONVENTIONAL => 1 | BLK_ZONE_TYPE_SEQWRITE_REQ => 2 end.
Definition zone_cond_value (c : blk_zone_cond) : Z :=
  match c with
  | BLK_ZONE_COND_NOT_WP => 0 | BLK_ZONE_COND_EMPTY => 1 | BLK_ZONE_COND_IMP_OPEN => 2
  | BLK_ZONE_COND_EXP_OPEN => 3 | BLK_ZONE_COND_CLOSED => 4 | BLK_ZONE_COND_READONLY => 13
  | BLK_ZONE_COND_FULL => 14 | BLK_ZONE_COND_OFFLINE => 15
  end.

Section operations.
Context {W : Type} `{SO : Store W} `{RO : RawOps W} (cfg : zone_config).

Definition with_raw (s : zstate W) (w : W) : zstate W :=
  ZState (zone_info s) (stats s) (num_open_zones s) (num_imp_open_zones s) (num_active_zones s) w.
#[export] Instance zoned_store : Store (zstate W) := {|
  v_mem s := v_mem (raw_state s);
  v_set_mem f s := with_raw s (v_set_mem f (raw_state s));
  v_disk s := v_disk (raw_state s) |}.
#[export] Instance zoned_store_laws `{!StoreLaws W} : StoreLaws (zstate W).
Proof. split; intros f v; [exact (v_mem_set f (raw_state v))|exact (v_disk_set f (raw_state v))]. Qed.

(** [struct blk_zone]: [initialize_zone_info] zeroes it first, so the members the
    code never sets ([non_seq], [reset], [resv], [reserved]) are 0. *)
Definition zone_bytes (z : blk_zone) : list Z :=
  le_bytes 8 (z_start z) ++ le_bytes 8 (z_len z) ++ le_bytes 8 (z_wp z)
    ++ [zone_type_value (z_type z); zone_cond_value (z_cond z)] ++ replicate 6 0
    ++ le_bytes 8 (z_capacity z) ++ replicate 24 0.
(** [zoned_report_zones] with the array it fills. *)
Definition report_zones_to (offset nr_zones zones : Z) : ST (zstate W) Z :=
  res ← zoned_report_zones cfg offset nr_zones;
  _ ← modify (v_set_mem (fun m => mem_write m zones
         (concat (zone_bytes <$> res.2))));
  mret res.1.

Definition get_zoned_operations : bius_operations (zstate W) :=
  Operations (Some (zoned_read cfg raw_read)) (Some (zoned_write cfg raw_write)) None None
    (Some report_zones_to) (Some (zoned_open_zone cfg)) (Some (zoned_close_zone cfg))
    (Some (zoned_finish_zone cfg)) (Some (zoned_append_zone cfg raw_write))
    (Some (zoned_reset_zone cfg raw_discard)) (Some (zoned_reset_all_zone cfg raw_discard)).
(** [operations.flush = ...] in [main]. *)
Definition with_flush (flush : ST W Z) (ops : bius_operations (zstate W)) : bius_operations (zstate W) :=
  Operations (op_read ops) (op_write ops) (op_discard ops) (Some (raw flush)) (op_report_zones ops)
    (op_open_zone ops) (op_close_zone ops) (op_finish_zone ops) (op_append_zone ops) (op_reset_zone ops)
    (op_reset_all_zone ops).
End operations.

(** What [main] of [zoned-ramdisk.c] passes to [bius_main]. *)
Definition zoned_ramdisk_operations : bius_operations (zstate ram) :=
  with_flush ramdisk_flush (get_zoned_operations zoned_ramdisk).
Definition zoned_ramdisk_options : bius_block_device_options :=
  Options BLK_ZONED_HM 4 RAMDISK_SIZE 0 0
    ([122; 111; 110; 101; 100; 45; 114; 97; 109; 100; 105; 115; 107] ++ replicate 19 0).
(** And of [zoned-passthrough.c], on a target of [bytes] bytes. *)
Definition zoned_passthrough_operations {F : Type} `{FileLaws F} (bytes : Z)
    : bius_operations (zstate (pass F)) :=
  with_flush passthrough_flush (get_zoned_operations (zoned_passthrough bytes)).
Definition zoned_passthrough_options (bytes : Z) : bius_block_device_options :=
  Options BLK_ZONED_HM 4 (zoned_disk_size (zoned_passthrough bytes)) 0 0
    ([122; 111; 110; 101; 100; 45; 112; 97; 115; 115; 116; 104; 114; 111; 117; 103; 104] ++ replicate 15 0).

(** ** What clients see *)
Section clients.
Context `{BL : BioLaws} `{LC : LinuxConst} `{EN : Environment}.
Context {W : Type} `{BK : BackingLaws W} (cfg : zone_config) (flush : ST W Z).
Existing Instance ubuf_iov.
Implicit Types (s : machine (zstate W)) (v : zstate W).

(** The raw operations are those of the plain disk, which has room for the zones. *)
Context (raw_discard : Z -> Z -> ST W Z).
Let RO : RawOps W := {| raw_read := drv_read; raw_write := drv_write; ZonedProps.raw_discard := raw_discard |}.
Existing Instance RO.
Context `{RT : !RawTotal W cfg}.
Hypothesis Hcfg : cfg_ok cfg.
Hypothesis Hsize : zoned_disk_size cfg <= backing_size.

Definition zoned_machine_ops : bius_operations (machine (zstate W)) :=
  machine_ops (with_flush flush (get_zoned_operations cfg)).

(** [v] differs from [v0] in the memory of the process only. *)
Definition same_device v0 v : Prop := exists w, v = with_raw v0 w /\ v_disk w = v_disk (raw_state v0).
Lemma same_device_refl v : same_device v v.
Proof. exists (raw_state v). by destruct v. Qed.
Lemma same_device_mem v0 f v : same_device v0 v -> same_device v0 (v_set_mem f v).
Proof. intros (w & -> & Hd). exists (v_set_mem f w). split; [done|]. cbn. by rewrite v_disk_set. Qed.

Lemma writable_raw v w offset len z : writable cfg v offset len z -> writable cfg (with_raw v w) offset len z.
Proof. intros []. split; try done. by apply inv_raw. Qed.

(** After a write of [bs] at the write pointer of zone [z], the zone [offset] lies in. *)
Record zone_written v v' (offset : Z) (z : blk_zone) (bs : list Z) : Prop := {
  zn_disk : v_disk v' = mem_write (v_disk v) (z_wp z * SECTOR_SIZE) bs;
  zn_zones : zone_info v' = <[Z.to_nat (zone_number cfg offset) := written_zone z (Z.of_nat (length bs))]> (zone_info v);
  zn_inv : zinv cfg v' }.

Lemma write_at_pointer v0 v data offset len want append z bs :
  same_device v0 v -> writable cfg v0 offset len z -> 0 < len < 2 ^ 63 ->
  (append = false -> offset = z_wp z * SECTOR_SIZE) -> mem_read (v_mem v) data len = bs ->
  wp (zoned_write_common cfg raw_write data offset len want append) (fun res v' =>
    res = (BLK_STS_OK, if append && want then Some (z_wp z * SECTOR_SIZE) else None) /\
    zone_written v0 v' offset z bs) v.
Proof.
  intros (w & -> & Hd) Hw Hlen Happ Hbs. pose proof (writable_on_disk cfg Hcfg _ _ _ _ Hw) as (Ho & _ & Hend).
  eapply wp_mono; [by apply (write_common_spec cfg Hcfg (with_raw v0 w) data offset len want append z);
    [apply writable_raw|lia|]|].
  intros [r o] v' (Ho' & Hr & Hz & _ & Hinv). cbn [fst snd] in *.
  assert (z_wp z * SECTOR_SIZE + len <= backing_size) as Hb by lia.
  pose proof (drv_write_ok data (z_wp z * SECTOR_SIZE) len w Ho ltac:(lia) Hb) as Hdw.
  unfold wp in Hdw. change (raw_state (with_raw v0 w)) with w in Hr. change (raw_write data) with (drv_write data) in Hr.
  rewrite Hr in Hdw. destruct Hdw as (-> & _ & Hdisk).
  assert (len = Z.of_nat (length bs)) as Hl by (rewrite <- Hbs, length_mem_read; lia).
  split; [by f_equal|]. split; [|by rewrite Hz, Hl|done].
  change (v_disk v') with (v_disk (raw_state v')). rewrite Hdisk, Hd. change (v_mem w) with (v_mem (with_raw v0 w)).
  by rewrite Hbs.
Qed.

Lemma writable_numbers v offset len z :
  writable cfg v offset len z -> 0 < len ->
  u64 (z_wp z * SECTOR_SIZE) = z_wp z * SECTOR_SIZE /\ 0 <= z_wp z * SECTOR_SIZE < 2 ^ 63 /\
  in_zones cfg (z_wp z * SECTOR_SIZE) /\ on_disk cfg (z_wp z * SECTOR_SIZE) len.
Proof.
  intros Hw Hlen. pose proof Hw as [Hinv _ Hz _ _ _ Hfit]. pose proof (writable_on_disk cfg Hcfg _ _ _ _ Hw) as Hon.
  destruct (writable_facts cfg Hcfg _ _ _ _ Hw) as (Hu & _). pose proof Hcfg as [].
  destruct (zone_end_on_disk cfg Hcfg _ _ _ Hinv Hz) as [He1 He2].
  destruct (zi_wf cfg v Hinv _ _ Hz) as [_ _ Hcap _ _ _ _]. rewrite Hcap in Hfit.
  pose proof Hon as (Ho & _ & Hend). split; [done|]. split; [lia|]. split; [|done]. split; [done|].
  pose proof (lookup_lt_Some _ _ _ Hz) as Hlt. pose proof (zi_zones cfg v Hinv).
  destruct (zi_wf cfg v Hinv _ _ Hz) as [Hst _ _ _ _ _ _]. rewrite Hst in Hfit.
  assert (zone_sectors cfg * Z.of_nat (Z.to_nat (zone_number cfg offset)) + zone_sectors cfg <= zone_sectors cfg * num_zones cfg).
  { assert (0 < zone_sectors cfg) by (unfold SECTOR_SIZE in *; lia). nia. }
  unfold SECTOR_SIZE in *. nia.
Qed.

Section append.
Context s (c dev : Z) (w : list Z) (d : bius_block_device) (k : Z) (rest : list Z)
  (r : bius_request) (b : blk_part) (rq : request) (buffer : Z) (l : locals) (z : blk_zone).
Hypothesis Hnr : next_request s c dev w d k rest r b rq.
Hypothesis Hbuffer : 0 <= buffer < 2 ^ 64.
Hypothesis Hz : writable cfg (m_user s) (req_pos r) (req_length r) z.

Lemma append_round :
  req_type r = BIUS_ZONE_APPEND ->
  wp (handle_request c zoned_machine_ops buffer BIUS_MAX_SIZE_PER_COMMAND l) (fun res s' =>
    (exists l', res = Go l') /\
    zone_written (m_user s) (m_user s') (req_pos r) z (mem_gather (kmem (m_kernel s)) (rq_extent rq)) /\
    kmem (m_kernel s') = kmem (m_kernel s) /\
    served s s' c dev w d k rest [EvSector k (z_wp z); EvEnd k BLK_STS_OK]) s.
Proof.
  intros Hty. pose proof Hnr as [_ _ [Hl Hlm] _ _ _ _]. apply max_size_small in Hlm.
  destruct (writable_numbers _ _ _ _ Hz Hl) as (Hu & Hr & _).
  eapply wp_mono.
  - apply (write_round s c dev w d k rest r b rq zoned_machine_ops buffer l Hbuffer (same_device (m_user s)))
      with (st := BLK_STS_OK) (ud := z_wp z * SECTOR_SIZE)
        (Post := fun v => zone_written (m_user s) v (req_pos r) z (mem_gather (kmem (m_kernel s)) (rq_extent rq)));
      try done; [intros f v; apply same_device_mem|by rewrite Hty|apply same_device_refl|lia|].
    intros s2 Hsame Hm. eapply (prepare_append s c dev w d k rest r b rq); try done.
    eapply wp_mono; [eapply (write_at_pointer (m_user s)); [done|exact Hz|lia|done|exact Hm]|].
    intros res v [-> Hv]. cbn [andb from_option fst snd Datatypes.fst Datatypes.snd]. by rewrite Hu.
  - intros res s' (Hl' & Hd & Hm & Hsv). split_and!; try done.
    unfold reply_events in Hsv. rewrite Hty in Hsv. cbn [u2k_with_reply u2k_user_data] in Hsv.
    rewrite (swrap_small 64), Z.quot_mul, wrap_small in Hsv by (unfold SECTOR_SIZE in *; lia). exact Hsv.
Qed.

Lemma pointer_write_round :
  req_type r = BIUS_WRITE -> req_pos r = z_wp z * SECTOR_SIZE ->
  wp (handle_request c zoned_machine_ops buffer BIUS_MAX_SIZE_PER_COMMAND l) (fun res s' =>
    (exists l', res = Go l') /\
    zone_written (m_user s) (m_user s') (req_pos r) z (mem_gather (kmem (m_kernel s)) (rq_extent rq)) /\
    kmem (m_kernel s') = kmem (m_kernel s) /\ served s s' c dev w d k rest [EvEnd k BLK_STS_OK]) s.
Proof.
  intros Hty Hpos. pose proof Hnr as [_ _ [Hl Hlm] _ _ _ _]. apply max_size_small in Hlm.
  eapply wp_mono.
  - apply (write_round s c dev w d k rest r b rq zoned_machine_ops buffer l Hbuffer (same_device (m_user s)))
      with (st := BLK_STS_OK) (ud := 0)
        (Post := fun v => zone_written (m_user s) v (req_pos r) z (mem_gather (kmem (m_kernel s)) (rq_extent rq)));
      try done; [intros f v; apply same_device_mem|by rewrite Hty|apply same_device_refl|].
    intros s2 Hsame Hm. eapply (prepare_write s c dev w d k rest r b rq); try done. unfold zoned_write. apply wp_bind.
    eapply wp_mono; [eapply (write_at_pointer (m_user s)); [done|exact Hz|lia|by intros _|exact Hm]|].
    intros res v [-> Hv]. by apply wp_ret.
  - intros res s' (Hl' & Hd & Hm & Hsv). split_and!; try done. unfold reply_events in Hsv. by rewrite Hty in Hsv.
Qed.
End append.

Lemma zoned_read_spec v data offset len :
  zinv cfg v -> in_zones cfg offset -> on_disk cfg offset len -> 0 < len ->
  wp (zoned_read cfg raw_read data offset len) (fun res v' =>
    res = BLK_STS_OK /\ zone_info v' = zone_info v /\ v_disk v' = v_disk v /\ zinv cfg v' /\
    v_mem v' = mem_write (v_mem v) data (mem_read (v_disk v) offset len)) v.
Proof.
  intros Hinv Hin Hon Hlen. pose proof raw_read_total as Hr.
  pose proof (zoned_read_inv cfg Hcfg raw_read Hr v data offset len Hinv Hin Hon) as Hi.
  destruct (zone_number_ok cfg Hcfg offset v Hinv Hin) as (z & st & _ & Hst & _). destruct Hon as (Ho & _ & Hend).
  assert (offset + len <= backing_size) as Hb by lia.
  assert (wp (zoned_read cfg raw_read data offset len) (fun res v' =>
    res = BLK_STS_OK /\ zone_info v' = zone_info v /\ v_disk v' = v_disk v /\
    v_mem v' = mem_write (v_mem v) data (mem_read (v_disk v) offset len)) v) as Hv.
  { unfold zoned_read. apply wp_bind. eapply wp_get_stat; [done|]. apply wp_bind. eapply wp_put_stat.
    pose proof (drv_read_ok data offset len (raw_state v) Ho Hlen Hb) as Hd. unfold wp, raw in *. cbn [raw_state set_stats].
    change (raw_read data) with (drv_read data).
    destruct (drv_read data offset len (raw_state v)) as [[res w]| |]; [|done|done].
    destruct Hd as (-> & Hd & Hm). by split_and!. }
  unfold wp in *. destruct (zoned_read cfg raw_read data offset len v) as [[res v']| |]; [|done|done].
  destruct Hv as (? & ? & ? & ?). by split_and!.
Qed.

Lemma zoned_read_round s c dev w d k rest r b rq buffer l :
  next_request s c dev w d k rest r b rq -> 0 <= buffer < 2 ^ 64 -> req_type r = BIUS_READ ->
  zinv cfg (m_user s) -> in_zones cfg (req_pos r) -> on_disk cfg (req_pos r) (req_length r) -> NoDup (rq_extent rq) ->
  wp (handle_request c zoned_machine_ops buffer BIUS_MAX_SIZE_PER_COMMAND l) (fun res s' =>
    (exists l', res = Go l') /\
    mem_gather (kmem (m_kernel s')) (rq_extent rq) = mem_read (v_disk (m_user s)) (req_pos r) (req_length r) /\
    (forall x, x ∉ rq_extent rq -> kmem (m_kernel s') !! x = kmem (m_kernel s) !! x) /\
    zone_info (m_user s') = zone_info (m_user s) /\ v_disk (m_user s') = v_disk (m_user s) /\ zinv cfg (m_user s') /\
    served s s' c dev w d k rest [EvEnd k BLK_STS_OK]) s.
Proof.
  intros Hnr Hb Hty Hinv Hin Hon Hnd. pose proof Hnr as [_ _ [Hl _] _ _ _ Hext]. eapply wp_mono.
  - apply (read_round s c dev w d k rest r b rq zoned_machine_ops buffer l Hb)
      with (bs := mem_read (v_disk (m_user s)) (req_pos r) (req_length r))
        (Post := fun v => zone_info v = zone_info (m_user s) /\ v_disk v = v_disk (m_user s) /\ zinv cfg v); try done.
    + rewrite length_mem_read, <- Hext. lia.
    + intros s2 Hu. eapply (prepare_read s c dev w d k rest r b rq); try done. rewrite Hu.
      eapply wp_mono; [by apply zoned_read_spec|]. intros st v (-> & Hz & Hd & Hi & Hm). cbn [m_kernel m_user].
      split_and!; try done. rewrite Hm. apply mem_read_write_same. rewrite length_mem_read. lia.
  - by intros res s' (Hl' & (Hz & Hd & Hi) & Hg & Hout & Hsv).
Qed.

(** C27: What a client appends to a zone is found where the completion of the
    append says: with an append pending, and after it a read at the sector the append is
    completed with, two rounds of the library complete both and the reader's
    segments hold the appended bytes. *)
Theorem append_then_read s c dev w d k1 k2 rest r1 b1 rq1 r2 b2 rq2 buffer l z :
  next_request s c dev w d k1 (k2 :: rest) r1 b1 rq1 -> req_type r1 = BIUS_ZONE_APPEND ->
  writable cfg (m_user s) (req_pos r1) (req_length r1) z ->
  next_request (past_first s dev d (k2 :: rest)) c dev w (dev_with_pending d (k2 :: rest)) k2 rest r2 b2 rq2 ->
  req_type r2 = BIUS_READ -> req_pos r2 = z_wp z * SECTOR_SIZE -> req_length r2 = req_length r1 -> k1 <> k2 ->
  NoDup (rq_extent rq2) -> 0 <= buffer < 2 ^ 64 ->
  wp (pbind (handle_request c zoned_machine_ops buffer BIUS_MAX_SIZE_PER_COMMAND l)
        (handle_request c zoned_machine_ops buffer BIUS_MAX_SIZE_PER_COMMAND)) (fun res s' =>
    (exists l', res = Go l') /\
    mem_gather (kmem (m_kernel s')) (rq_extent rq2) = mem_gather (kmem (m_kernel s)) (rq_extent rq1) /\
    zone_info (m_user s') = <[Z.to_nat (zone_number cfg (req_pos r1)) := written_zone z (req_length r1)]>
                              (zone_info (m_user s)) /\
    trace (m_kernel s') = trace (m_kernel s) ++
      [EvSector k1 (z_wp z); EvEnd k1 BLK_STS_OK; EvEnd k2 BLK_STS_OK]) s.
Proof.
  intros Hn1 Ht1 Hz Hn2 Ht2 Hpos Hlen Hne Hnd Hb. pose proof Hn1 as [Hp1 _ [Hl1 _] _ _ _ Hext1].
  destruct (writable_numbers _ _ _ _ Hz Hl1) as (_ & _ & Hin & Hon). apply wp_pbind.
  eapply wp_mono; [by eapply append_round|]. intros res s1 ([l1 ->] & [Hd1 Hz1 Hi1] & Hm1 & Hs1).
  eapply wp_mono.
  { eapply (zoned_read_round s1 c dev w _ k2 rest r2 b2 rq2); [by eapply next_request_served|done|done|done| | |done];
      by rewrite Hpos, ?Hlen. }
  intros res s2 (Hl & Hg & _ & Hz2 & _ & _ & Hs2). split_and!; [done| | |].
  - rewrite Hg, Hd1, Hpos, Hlen. apply mem_read_write_same. by rewrite length_mem_gather.
  - by rewrite Hz2, Hz1, length_mem_gather, Hext1.
  - rewrite (sv_trace _ _ _ _ _ _ _ _ _ Hs2), (sv_trace _ _ _ _ _ _ _ _ _ Hs1). by rewrite <- app_assoc.
Qed.

(** C32: A client's write to a sequential zone that is not at its write pointer, or
    does not fit it, or goes to a full zone, completes with an I/O error, and
    neither the disk nor the zones change. *)
Theorem misplaced_write_refused s c dev w d k rest r b rq buffer l z :
  next_request s c dev w d k rest r b rq -> 0 <= buffer < 2 ^ 64 -> req_type r = BIUS_WRITE ->
  zinv cfg (m_user s) -> in_zones cfg (req_pos r) ->
  zone_info (m_user s) !! Z.to_nat (zone_number cfg (req_pos r)) = Some z -> z_type z = BLK_ZONE_TYPE_SEQWRITE_REQ ->
  req_pos r <> z_wp z * SECTOR_SIZE \/ (z_start z + z_capacity z) * SECTOR_SIZE < req_pos r + req_length r \/
    z_cond z = BLK_ZONE_COND_FULL ->
  wp (handle_request c zoned_machine_ops buffer BIUS_MAX_SIZE_PER_COMMAND l) (fun res s' =>
    (exists l', res = Go l') /\ same_device (m_user s) (m_user s') /\ kmem (m_kernel s') = kmem (m_kernel s) /\
    served s s' c dev w d k rest [EvEnd k (wrap blk_status_bits BLK_STS_IOERR)]) s.
Proof.
  intros Hnr Hb Hty Hinv Hin Hz Hseq Hbad. pose proof Hnr as [_ _ [Hl _] [Hp Hpe] _ _ _]. eapply wp_mono.
  - apply (write_round s c dev w d k rest r b rq zoned_machine_ops buffer l Hb (same_device (m_user s)))
      with (st := BLK_STS_IOERR) (ud := 0) (Post := same_device (m_user s));
      try done; [intros f v; apply same_device_mem|by rewrite Hty|apply same_device_refl|].
    intros s2 Hsame Hm. eapply (prepare_write s c dev w d k rest r b rq); try done.
    eapply (wp_intro _ _ _ BLK_STS_IOERR (m_user s2)); [|by split_and!]. destruct Hsame as (u & Hu & _).
    apply (write_rejected cfg Hcfg (m_user s2) buffer (req_pos r) (req_length r) z); rewrite ?Hu; try done; try lia.
    by apply inv_raw.
  - intros res s' (Hl' & Hd & Hm & Hsv). split_and!; try done. unfold reply_events in Hsv. by rewrite Hty in Hsv.
Qed.

(** The operation a zone request stands for. *)
Definition zone_request (t : bius_req) (offset : Z) : option zop :=
  match t with
  | BIUS_ZONE_OPEN => Some (ZOpen offset)
  | BIUS_ZONE_CLOSE => Some (ZClose offset)
  | BIUS_ZONE_FINISH => Some (ZFinish offset)
  | BIUS_ZONE_RESET => Some (ZReset offset)
  | BIUS_ZONE_RESET_ALL => Some ZResetAll
  | _ => None
  end.

Lemma prepare_zone_request r op u2k (s2 : machine (zstate W)) st v :
  zone_request (req_type r) (req_pos r) = Some op -> op_ok cfg op ->
  run_zop cfg op (m_user s2) = Ret (st, v) ->
  prepare_reply zoned_machine_ops (command_header r) u2k s2
    = Ret ((u2k_with_reply (req_id r) (u32 st) 0, 0), Machine (m_kernel s2) v (m_brk s2)).
Proof.
  intros Hop Hok Hrun. pose proof (disk_fits cfg Hcfg).
  assert (forall o, in_zones cfg o -> s64 (u64 o) = o) as Ho.
  { unfold in_zones. intros o ?. rewrite swrap_wrap. apply swrap_small; lia. }
  assert (is_blk_request (req_type r) = true) as Hblk by (by destruct (req_type r)).
  assert (handle_blk_command (command_header r) zoned_machine_ops 0
    = (x ← call (Some (on_user (run_zop cfg op))); mret (x, 0))) as Hcall.
  { unfold handle_blk_command, command_header.
    cbn [k2u_data_map_type k2u_opcode k2u_data_address k2u_mapping_data k2u_offset k2u_length].
    change (data_map_type_value _ =? _) with false. cbv iota.
    destruct (req_type r); try done; injection Hop as <-; cbn [op_ok] in Hok; rewrite ?Ho by done; reflexivity. }
  unfold prepare_reply. cbn [command_header k2u_opcode k2u_id]. rewrite Hblk, Hcall.
  unfold call, mbind, ST_bind, on_user. by rewrite Hrun.
Qed.

(** C31: Opening, closing, finishing and resetting: one round of the library runs
    the operation of the zoned device that the client's request stands for, keeps
    the device's invariant, and completes the request with the operation's status. *)
Theorem zone_request_runs s c dev w d k rest r b rq buffer l op :
  pending_request s c dev w d k rest r b rq ->
  zone_request (req_type r) (req_pos r) = Some op -> op_ok cfg op -> zinv cfg (m_user s) ->
  wp (handle_request c zoned_machine_ops buffer BIUS_MAX_SIZE_PER_COMMAND l) (fun res s' =>
    (exists l', res = Go l') /\ zinv cfg (m_user s') /\
    exists st, run_zop cfg op (m_user s) = Ret (st, m_user s') /\
      served s s' c dev w d k rest [EvEnd k (wrap blk_status_bits (u32 st))]) s.
Proof.
  intros Hpr Hop Hok Hinv. destruct (wp_inv _ _ _ (run_zop_inv cfg Hcfg op (m_user s) Hinv Hok)) as (st & v & Hrun & Hi).
  pose proof (wrap_range 32 st ltac:(lia)) as Hst. eapply wp_mono.
  - apply (plain_round s c dev w d k rest r b rq zoned_machine_ops buffer l)
      with (st := u32 st) (ud := 0) (Post := fun u => u = v); try done; [|lia|].
    + by destruct (req_type r).
    + intros s2 Hu. eapply wp_intro; [apply (prepare_zone_request r op); [done|done|by rewrite Hu]|done].
  - intros res s' (Hl & Hu & _ & Hsv). split; [done|]. rewrite Hu. split; [done|]. exists st. split; [done|].
    unfold reply_events in Hsv. rewrite bool_decide_eq_false_2 in Hsv by (intros E; by rewrite E in Hop).
    unfold u2k_reply, u2k_with_reply in Hsv. cbn [u2k_cell] in Hsv.
    rewrite swrap_wrap, (swrap_small 64) in Hsv by lia. exact Hsv.
Qed.
(** ** Zone reports *)

(** The zones of a report, as the kernel gets them. *)
Abbreviation report_bytes zs := (zone_bytes <$> zs).

Lemma length_zone_bytes z : length (zone_bytes z) = Z.to_nat sizeof_blk_zone.
Proof. unfold zone_bytes. by rewrite !length_app, !length_le_bytes, !length_replicate. Qed.
Lemma report_bytes_lengths zs : Forall (fun bs => length bs = Z.to_nat sizeof_blk_zone) (report_bytes zs).
Proof.
  apply Forall_lookup. intros i bs. rewrite list_lookup_fmap.
  destruct (zs !! i); simpl; [|done]. intros [= <-]. apply length_zone_bytes.
Qed.

Lemma reported_chunks m a (bss : list (list Z)) :
  Forall (fun bs => length bs = Z.to_nat sizeof_blk_zone) bss ->
  mem_read m a (sizeof_blk_zone * Z.of_nat (length bss)) = concat bss ->
  reported_zones m a (Z.of_nat (length bss)) = bss.
Proof.
  intros Hl. revert a. induction Hl as [|bs bss Hb Hl IH]; intros a Hm; [done|]. cbn [length concat] in *.
  replace (sizeof_blk_zone * Z.of_nat (S (length bss))) with (sizeof_blk_zone + sizeof_blk_zone * Z.of_nat (length bss)) in Hm by lia.
  rewrite mem_read_app in Hm by (unfold sizeof_blk_zone; lia).
  apply app_inj_1 in Hm as [Hm1 Hm2]; [|by rewrite length_mem_read].
  unfold reported_zones in *. replace (Z.of_nat (S (length bss))) with (Z.succ (Z.of_nat (length bss))) by lia.
  rewrite seqZ_cons by lia. rewrite fmap_cons, Z.mul_0_l, Z.add_0_r, Hm1. f_equal.
  rewrite <- (IH _ Hm2) at 2. replace (Z.pred (Z.succ (Z.of_nat (length bss)))) with (Z.of_nat (length bss)) by lia.
  apply list_eq. intros i. rewrite !list_lookup_fmap.
  destruct (decide (Z.of_nat i < Z.of_nat (length bss))); [|by rewrite !lookup_seqZ_ge by lia].
  rewrite !lookup_seqZ_lt by lia. simpl. do 2 f_equal. lia.
Qed.

Lemma length_chunks n (bss : list (list Z)) :
  Forall (fun bs => length bs = n) bss -> length (concat bss) = (n * length bss)%nat.
Proof. induction 1 as [|bs bss Hb _ IH]; cbn [concat length]; [lia|]. rewrite length_app, Hb, IH. lia. Qed.

Lemma report_zones_to_spec v offset nr zones :
  zinv cfg v -> in_zones cfg offset -> 0 <= nr < 2 ^ 31 ->
  let first := offset / ZONE_SIZE cfg in
  let n := Z.min nr (num_zones cfg - first) in
  let bss := report_bytes (take (Z.to_nat n) (drop (Z.to_nat first) (zone_info v))) in
  wp (report_zones_to cfg offset nr zones) (fun m v' => m = n /\ Z.of_nat (length bss) = n /\
    same_device v v' /\ mem_read (v_mem v') zones (sizeof_blk_zone * n) = concat bss) v.
Proof.
  intros Hinv Hin Hnr first n bss. unfold report_zones_to. apply wp_bind.
  eapply wp_intro; [by apply (report_zones_result cfg Hcfg)|]. fold first n. apply wp_bind, wp_modify, wp_ret.
  cbn [fst snd Datatypes.fst Datatypes.snd].
  destruct (zone_number_ok cfg Hcfg offset v Hinv Hin) as (_ & _ & _ & _ & Hzn & Hzr). rewrite Hzn in *. fold first.
  fold bss.
  assert (Z.of_nat (length bss) = n) as Hlen.
  { unfold bss. rewrite length_fmap, length_take, length_drop. pose proof (zi_zones cfg v Hinv). unfold n, first in *. lia. }
  split_and!; [done|done|by apply same_device_mem, same_device_refl|].
  change (v_mem (v_set_mem ?f v)) with (v_mem (v_set_mem f (raw_state v))). rewrite v_mem_set.
  apply mem_read_write_same. rewrite (length_chunks (Z.to_nat sizeof_blk_zone) bss) by apply report_bytes_lengths.
  unfold sizeof_blk_zone. lia.
Qed.

(** The driver's process, in the state [v], serves one request while the
    reporter sleeps. *)
Definition served_meanwhile (c buffer : Z) (l : locals) (v : zstate W) (brk : Z) : ST kstate Z := fun ks =>
  match handle_request c zoned_machine_ops buffer BIUS_MAX_SIZE_PER_COMMAND l (Machine ks v brk) with
  | Ret (_, s') => Ret (0, m_kernel s')
  | Fault e => Fault e
  | NoFuel => NoFuel
  end.

(** C28: The zones a zone report hands to its callback are the driver's: asked for
    [nr_zones] zones from [sector] on, the kernel returns how many of them exist, and
    its callback has seen each, as the device has it, in order. *)
Theorem zone_report_reaches_callback ks c dev w d sector nr_zones blkz kreq cb P buffer l v brk :
  devices ks !! dev = Some d -> dev_pending d = [] -> connections ks !! c = Some (Connection (Some dev) w None) ->
  kreq ∉ w ->
  (forall x, x ∈ w -> exists r, pdus ks !! x = Some r /\ req_id r <> u64 (next_request_id ks + 1)) ->
  zinv cfg v -> in_zones cfg (sector * SECTOR_SIZE) -> 0 < nr_zones -> 0 < brk < 2 ^ 64 ->
  (forall m, report_cb_ok m P cb) -> (forall t, P [] t) ->
  let first := sector * SECTOR_SIZE / ZONE_SIZE cfg in
  let n := Z.min (Z.min nr_zones BIUS_MAX_ZONES) (num_zones cfg - first) in
  wp (bius_report_zones dev sector nr_zones (Some blkz) kreq (served_meanwhile c buffer l v brk) cb) (fun res ks' =>
    res = n /\
    exists t, P (report_bytes (take (Z.to_nat n) (drop (Z.to_nat first) (zone_info v)))) t /\
      ks' = set_pdus (delete kreq) (set_kbufs (delete blkz) t)) ks.
Proof.
  intros Hd Hpd Hc Hk Hids Hinv Hin Hnr Hbrk Hcb HP first n.
  set (nr := Z.min nr_zones BIUS_MAX_ZONES). assert (0 < nr <= BIUS_MAX_ZONES) as Hnr' by (unfold nr; assert (0 < BIUS_MAX_ZONES) by done; lia).
  assert (BIUS_MAX_ZONES = 131072) as Hmax by done.
  pose proof (disk_fits cfg Hcfg) as Hfits. pose proof Hin as [Hs0 Hs1].
  destruct (zone_number_ok cfg Hcfg _ v Hinv Hin) as (_ & _ & _ & _ & Hzn & Hzr). rewrite Hzn in Hzr. fold first in Hzr.
  set (q := report_queued ks dev sector nr blkz kreq d).
  set (r := BiusRequest (u64 (next_request_id ks + 1)) BIUS_REPORT_ZONES (sector * SECTOR_SIZE) nr
    (UInt (IntPart blkz 0 None)) fn_bius_report_zones_request_end).
  assert (s64 (u64 (Z.shiftl sector SECTOR_SHIFT)) = sector * SECTOR_SIZE) as Hpos.
  { rewrite Z.shiftl_mul_pow2 by done. change (2 ^ SECTOR_SHIFT) with SECTOR_SIZE. rewrite swrap_wrap.
    apply swrap_small; lia. }
  assert (pdus q !! kreq = Some r) as Hr by (unfold q, report_queued; kfields; rewrite Hpos; apply lookup_insert_eq).
  set (bss := report_bytes (take (Z.to_nat n) (drop (Z.to_nat first) (zone_info v)))).
  pose proof (report_zones_to_spec v (sector * SECTOR_SIZE) nr brk Hinv Hin ltac:(lia)) as Hrun. fold first n bss in Hrun.
  assert (0 < sizeof_blk_zone * n <= sizeof_blk_zone * nr /\ sizeof_blk_zone * n < 2 ^ 31) as [Hn Hn31]
    by (unfold n, sizeof_blk_zone; lia).
  assert (wp (served_meanwhile c buffer l v brk) (fun x t => x = 0 /\ Z.of_nat (length bss) = n /\
    reported_zones (kmem t) blkz n = bss /\
    pdus t !! kreq = Some (with_int r (IntPart blkz 1 (Some (sizeof_blk_zone * n))))) q) as Hserve.
  { assert (wp (handle_request c zoned_machine_ops buffer BIUS_MAX_SIZE_PER_COMMAND l) (fun _ s' =>
      Z.of_nat (length bss) = n /\ reported_zones (kmem (m_kernel s')) blkz n = bss /\
      pdus (m_kernel s') !! kreq = Some (with_int r (IntPart blkz 1 (Some (sizeof_blk_zone * n))))) (Machine q v brk)) as Hround.
    - eapply wp_mono.
      { apply (report_round (Machine q v brk) c dev w (dev_with_pending d [kreq]) kreq [] r zoned_machine_ops buffer l
          (with_flush flush (get_zoned_operations cfg)) (report_zones_to cfg) (IntPart blkz 0 None)
          (sizeof_blk_zone * nr) n (concat bss) (fun _ => Z.of_nat (length bss) = n)); try done; try lia.
        - cbn [m_kernel]. unfold q, report_queued. rewrite Hpos. split; kfields; try done; rewrite lookup_insert_eq; by rewrite ?Hpd.
        - cbn [m_kernel]. unfold q, report_queued. split; kfields; try done. by rewrite lookup_insert_eq.
        - apply wrap_range. lia.
        - change (req_pos r) with (sector * SECTOR_SIZE). lia.
        - change (req_length r) with nr. lia.
        - intros x Hx. unfold q, report_queued. cbn [m_kernel]. kfields. rewrite lookup_insert_ne by (by intros ->). by apply Hids.
        - eapply wp_mono; [exact Hrun|]. by intros m v' (-> & Hl & _ & Hm). }
      intros res s' (_ & Hl & Hm & Hp & _). split_and!; [done| |exact Hp]. rewrite <- Hl in Hm |- *.
      apply reported_chunks; [apply report_bytes_lengths|exact Hm].
    - unfold wp, served_meanwhile in *. destruct (handle_request _ _ _ _ _ _) as [[x s']| |]; [|done|done].
      by destruct Hround as (? & ? & ?). }
  destruct (wp_inv _ _ _ Hserve) as (x & t & Hdown & -> & Hl & Hm & Hp).
  eapply wp_mono.
  { apply (report_zones_reports dev sector nr_zones blkz kreq _ cb d ks t
      (with_int r (IntPart blkz 1 (Some (sizeof_blk_zone * n)))) 1 (sizeof_blk_zone * n) P); try done; lia. }
  intros res ks' (-> & t' & Ht' & ->). rewrite (Z.mul_comm sizeof_blk_zone n), Z.div_mul in Ht' |- * by done. rewrite Hm in Ht'.
  split; [done|]. by exists t'.
Qed.
End clients.

(** ** A concrete zoned device

    Four zones of four sectors on the RAM disk, the zone at 4096 explicitly open:
    request 9 appends nine bytes to it, request 8 reads them back. *)
Definition zram_fresh : zstate ram := initial_state small (Ram ∅ ∅).
Definition zram_opened : zstate ram :=
  match zoned_open_zone small 4096 zram_fresh with Ret (_, v) => v | _ => zram_fresh end.
Definition zram_zone (i : nat) : blk_zone := default (init_zone small 0) (zone_info zram_opened !! i).
#[export] Instance small_ram_total : RawTotal ram small.
Proof. by apply ram_total. Qed.

Lemma zram_inv : zinv small zram_opened.
Proof.
  pose proof (zoned_open_zone_inv small small_ok zram_fresh 4096 (initial_inv small small_ok _) ltac:(by vm_compute)) as Hw.
  unfold wp in Hw. unfold zram_opened. by destruct (zoned_open_zone small 4096 zram_fresh) as [[r v]| |].
Qed.
Lemma zram_writable : writable small zram_opened 4096 9 (zram_zone 2).
Proof. split; try done; [apply zram_inv|by right]. Qed.
Lemma small_fits : zoned_disk_size small <= backing_size (V := ram).
Proof. by vm_compute. Qed.
Definition zoned_client (pending : list Z) : machine (zstate ram) :=
  Machine (client_kernel pending) zram_opened 65536.

Lemma append_then_read_witness :
  wp (pbind (handle_request 200 (zoned_machine_ops small ramdisk_flush ramdisk_discard) 65536 BIUS_MAX_SIZE_PER_COMMAND client_locals)
        (handle_request 200 (zoned_machine_ops small ramdisk_flush ramdisk_discard) 65536 BIUS_MAX_SIZE_PER_COMMAND)) (fun res s' =>
    mem_read (kmem (m_kernel s')) 20487 9 = sample_bytes /\
    trace (m_kernel s') = [EvSector 9 8; EvEnd 9 BLK_STS_OK; EvEnd 8 BLK_STS_OK]) (zoned_client [9; 8]).
Proof.
  eapply wp_mono.
  - apply (append_then_read small ramdisk_flush ramdisk_discard small_ok small_fits (zoned_client [9; 8])
      200 100 [] (sample_device 1 [9; 8]) 9 8 [] (sample_pdu 3 BIUS_ZONE_APPEND 9) (sample_blk 9) (sample_rq 13)
      (sample_pdu 2 BIUS_READ 0) (sample_blk 0) reader_rq 65536 client_locals (zram_zone 2)); try done.
    + by apply client_request; [|right; right; left| | | |repeat constructor|].
    + apply zram_writable.
    + change (past_first _ _ _ _) with (zoned_client [8]).
      by apply client_request; [|left| | | |repeat constructor|].
    + apply (bool_decide_unpack _). by vm_compute.
  - intros res s' (_ & Hg & _ & Htr). split; [|exact Htr].
    rewrite <- mem_gather_seqZ. change (seqZ 20487 9) with (rq_extent reader_rq). rewrite Hg. by vm_compute.
Defined.

(** Request 7 writes nine bytes at 4096; the zone the write pointer of which is at 6144 is another one. *)
Lemma misplaced_write_refused_witness :
  wp (handle_request 200 (zoned_machine_ops small ramdisk_flush ramdisk_discard) 65536 BIUS_MAX_SIZE_PER_COMMAND client_locals)
    (fun res s' => v_disk (m_user s') = ∅ /\ trace (m_kernel s') = [EvEnd 7 BLK_STS_IOERR])
    (Machine (client_kernel [7]) (set_zones (fun _ => <[2%nat := with_wp (zram_zone 2) 9]> (zone_info zram_opened)) zram_opened) 65536).
Proof.
  eapply wp_mono.
  - apply (misplaced_write_refused small ramdisk_flush ramdisk_discard small_ok _ 200 100 [] (sample_device 1 [7]) 7 []
      (sample_pdu 1 BIUS_WRITE 9) (sample_blk 9) (sample_rq 1) 65536 client_locals (with_wp (zram_zone 2) 9)); try done.
    + by apply client_request; [|right; left| | | |repeat constructor|].
    + pose proof zram_inv as [Hl Hs Hwf Ho Hi Hm Ha Ham]. split; try done.
      intros i z Hz. apply list_lookup_insert_Some in Hz as [(<- & <- & _)|[_ Hz]]; [|by apply Hwf].
      destruct (Hwf 2%nat (zram_zone 2) eq_refl). by split.
    + left. by vm_compute.
  - intros res s' (_ & (w & Hw & Hd) & _ & Hs). split; [|exact (sv_trace _ _ _ _ _ _ _ _ _ Hs)].
    rewrite Hw. change (v_disk (with_raw _ w)) with (v_disk w). by rewrite Hd.
Defined.

(** A client closes the open zone, which nothing was written to. *)
Definition close_pdu : bius_request := BiusRequest 5 BIUS_ZONE_CLOSE 4096 0 (UBlk (sample_blk 0)) fn_bius_blk_request_end.
Definition close_rq : @request seg_bio := Request 11 8 0 [] 8.
Definition close_kernel : @kstate seg_bio :=
  set_pdus <[11 := close_pdu]> (set_blk_rqs <[11 := close_rq]> (sample_state [11] [] None)).
Lemma zone_request_runs_witness :
  wp (handle_request 200 (zoned_machine_ops small ramdisk_flush ramdisk_discard) 65536 BIUS_MAX_SIZE_PER_COMMAND client_locals)
    (fun res s' => z_cond <$> zone_info (m_user s') !! 2%nat = Some BLK_ZONE_COND_EMPTY /\
       num_open_zones (m_user s') = 0 /\ trace (m_kernel s') = [EvEnd 11 BLK_STS_OK])
    (Machine close_kernel zram_opened 65536).
Proof.
  eapply wp_mono.
  - apply (zone_request_runs small ramdisk_flush ramdisk_discard small_ok (Machine close_kernel zram_opened 65536)
      200 100 [] (sample_device 1 [11]) 11 [] close_pdu (sample_blk 0) close_rq 65536 client_locals (ZClose 4096)).
    + split; try done; try by split. by intros x Hx%elem_of_nil.
    + reflexivity.
    + by vm_compute.
    + apply zram_inv.
  - intros res s' (_ & _ & st & Hrun & Hs). pose proof (sv_trace _ _ _ _ _ _ _ _ _ Hs) as Htr.
    revert Hrun. generalize (m_user s'). intros v Hrun. vm_compute in Hrun. injection Hrun as <- <-.
    split_and!; [done|done|exact Htr].
Defined.

(** The callback notes the start of each zone. *)
Definition note_zone (z : list Z) (i : Z) : ST (@kstate seg_bio) Z := _ ← emit (EvWakeUp (le_value (take 8 z))); mret 0.
Definition noted (seen : list (list Z)) (t : @kstate seg_bio) : Prop :=
  ((fun z => EvWakeUp (le_value (take 8 z))) <$> seen) `suffix_of` trace t.
Lemma zone_report_reaches_callback_witness :
  wp (bius_report_zones 100 4 10 (Some 50000) 60000
        (served_meanwhile small ramdisk_flush ramdisk_discard 200 65536 client_locals zram_opened 70000) note_zone)
    (fun res t => res = 3 /\ [EvWakeUp 4; EvWakeUp 8; EvWakeUp 12] `suffix_of` trace t) (sample_state [] [] None).
Proof.
  eapply wp_mono.
  - apply (zone_report_reaches_callback small ramdisk_flush ramdisk_discard small_ok (sample_state [] [] None) 200 100 []
      (sample_device 1 []) 4 10 50000 60000 note_zone noted 65536 client_locals zram_opened 70000); try done.
    + by intros Hx%elem_of_nil.
    + by intros x Hx%elem_of_nil.
    + apply zram_inv.
    + intros m seen z t Hm [l Hl]. unfold note_zone, emit. eapply wp_bind, wp_modify, wp_ret. split_and!; [done|exact Hm|].
      exists l. simpl. by rewrite Hl, fmap_app, app_assoc.
    + intros t. apply suffix_nil.
  - intros res t (-> & t' & Hnoted & ->). split; [done|exact Hnoted].
Defined.
