(* ===== verification/ModuleEntry.v ===== *)
(** * Loading and unloading the module

    [kernel/main.c], and [bius_dev_init] and [bius_dev_exit] of
    [kernel/char_dev.c]: with data mapping the module owns a page of zeros. *)
From S2P Require Import Prelude Protocol Linux Kernel.

(** The globals: [zero_page] and its frame, whether the misc device is
    registered, and the pages [kzalloc] gave and nobody has freed. *)
Record module_state := ModuleState {
  zero_page : option Z;
  zero_page_pfn : Z;
  registered : bool;
  allocated : list Z }.
Abbreviation M := (ST module_state).
Definition unloaded : module_state := ModuleState None 0 false [].

(** [misc_register]: 0, or a negative error and nothing is registered. *)
Definition misc_register (error : Z) : M Z :=
  _ ← (if error =? 0 then modify (fun s => ModuleState (zero_page s) (zero_page_pfn s) true (allocated s)) else mret tt);
  mret error.
Definition misc_deregister : M unit :=
  modify (fun s => ModuleState (zero_page s) (zero_page_pfn s) false (allocated s)).

(** [datamap] is [CONFIG_BIUS_DATAMAP]; [page] what [kzalloc] returns, [pfn] the
    frame of a page. *)
Definition bius_dev_init (datamap : bool) (pfn : Z -> Z) (page : option Z) (error : Z) : M Z :=
  if datamap then
    match page with
    | None => mret (- ENOMEM)
    | Some p =>
        _ ← modify (fun s => ModuleState (Some p) (pfn p) (registered s) (p :: allocated s));
        misc_register error
    end
  else misc_register error.
Definition kfree_page (p : Z) : M unit :=
  s ← gets allocated;
  if bool_decide (p ∈ s)
  then modify (fun s => ModuleState (zero_page s) (zero_page_pfn s) (registered s) (filter (fun x => x <> p) (allocated s)))
  else fail DanglingPtr.
Definition bius_dev_exit (datamap : bool) : M unit :=
  _ ← misc_deregister;
  if datamap then
    o ← gets zero_page;
    match o with Some p => kfree_page p | None => mret tt end
  else mret tt.

Definition bius_init := bius_dev_init.
Definition bius_exit := bius_dev_exit.

(** A module that loads has registered its device, and unloading it leaves
    neither the device nor the page behind. *)
Theorem load_unload datamap pfn page error s' :
  bius_init datamap pfn page error unloaded = Ret (0, s') ->
  registered s' = true /\
  wp (bius_exit datamap) (fun _ s'' => registered s'' = false /\ allocated s'' = []) s'.
Proof.
  unfold bius_init, bius_dev_init, misc_register, mbind, ST_bind, modify. intros Hrun.
  destruct datamap; [destruct page as [p|]; [|done]|]; destruct (Z.eqb_spec error 0) as [->|Hne];
    unfold mret, ST_ret in Hrun; cbn in Hrun; try congruence; injection Hrun as <-; (split; [done|]).
  - unfold bius_exit, bius_dev_exit, misc_deregister, kfree_page, wp, mbind, ST_bind, modify, gets. cbn.
    rewrite bool_decide_eq_true_2 by (by left). cbn. split; [done|]. by case_decide.
  - done.
Qed.

(** When the device cannot be registered the page is lost: loading fails, and
    [bius_dev_exit] does not run. *)
Theorem failed_load_leaks pfn p error :
  error < 0 ->
  bius_init true pfn (Some p) error unloaded = Ret (error, ModuleState (Some p) (pfn p) false [p]).
Proof.
  intros He. unfold bius_init, bius_dev_init, misc_register, mbind, ST_bind, modify.
  by destruct (Z.eqb_spec error 0); [lia|].
Qed.
